(* ===== verification/_CoqProject ===== *)
-Q . S2P
Prelude.v
Tally.v
JsValue.v
FormatError.v
JsNumber.v
JsNumberFacts.v
JsDate.v
Types.v
ApiClient.v
View.v
Common.v
React.v
Tokens.v
Alone.v
Spinner.v
Timeouts.v
Intervals.v
EvmTerminal.v
EvmTerminalFacts.v
EvmBallot.v
EvmDemo.v
VvpatSlip.v
EvmLauncher.v
EvmLauncherFacts.v
PublicVerify.v
PublicVerifyFacts.v
AuditExplorer.v
AuditExplorerFacts.v
Command.v
CommandFacts.v
WebSocket.v
WebSocketFacts.v
AuthContext.v
AuthContextFacts.v
ElectionContext.v
ActiveElection.v
Officer.v
Devices.v
DevicesFacts.v
Results.v
ResultsFacts.v
Counting.v
CountingFacts.v
Attacks.v
AttacksFacts.v
Security.v
SecurityFacts.v
Setup.v
Polling.v
PollingFacts.v
Candidates.v
ElectionDevices.v
Stations.v
Complaints.v
ElectionVerification.v
ElectionAudit.v
ElectionResults.v
Reports.v
Observers.v
SimulationPage.v
Preview.v
Portal.v
Eligibility.v
Registration.v
VoterStatus.v
VoterRoll.v
VoterProfile.v
VoterComplaints.v
StationFinder.v
Overseas.v
PublicCandidates.v
MapExplorer.v
TransparencyCenter.v
TransparencyDetail.v
Navigation.v
Parties.v
Conformance.v
Compose.v
Console.v
Application.v
