(* ===== verification/Prelude.v ===== *)
(** * The secureVOTE dashboard: a verified model of its components

    secureVOTE is an election platform: a Python backend, firmware for voting terminals and a
    TypeScript dashboard (src/dashboard), which is what this library models: the digital twin
    of the voting terminal, the verifiers of an exported archive, the officers' pages, and
    the library code (API client, session, live connection) they share.

    ** How the code is modelled

    The embedding is shallow. Pure functions are Gallina functions. A component of React is a
    record of [React.component]: [render] gives the page as a list of [View.node]s, and each
    handler is a program of [React.prog] over the component's state: setters ([Upd]), refs
    ([Peek]), awaited requests ([Call]), timers ([Timer], [Clear], [Sleep]) and the clock.
    [React.step] is the event loop: a user event is possible when the rendered page has an
    enabled control for it ([View.allows]), so that the guards on buttons are part of the
    model; answers come in any order, timers in the order of their deadlines and not before
    them; the surroundings (mounting, a new token, the events of a browser socket) are events
    of their own. [React.reachable] quantifies over all interleavings of these events.
    A handler is given the state of the render it belongs to, its closure, while its updates
    act on the current state, as in React. A definition that models code carries the code's
    name.

    Requests are the values of [ApiClient.req], one constructor per method of the [api]
    object, answered by a value of the method's declared type ([ApiClient.resp]) or an error.
    What the server answers is a parameter of every theorem that depends on it; a concrete
    run chooses the answers. [fetch], the browser's storage and sockets, and the router are
    surroundings as well. Strings are byte strings, integers [Z], fractions IEEE 754 doubles
    ([JsNumber], on the Standard Library's [SpecFloat]), an object used as a map is a [gmap]
    whose keys are identifiers, never names inherited from Object.prototype. A file that is
    parsed is no JSON, an archive of the declared type, or JSON on which a check throws
    ([PublicVerify.package]); it is read as a timer of 0 ms. Of the storage each operation may
    throw on its own, and other tabs change it ([AuthContext.Storage]); the constructor of a
    socket throws for addresses it does not accept (a parameter of [WebSocket.hook]); the
    router hands a segment of an address to a page (a parameter of [EvmLauncher.EvmPage]).

    ** The files

    - Foundations. [Prelude]: strings, lists, tactics. [Tally]: tallies and stable sorting.
      [JsValue], [FormatError]: dynamic values and lib/format-error.ts. [JsNumber],
      [JsNumberFacts], [JsDate]: numbers with the rounding of shares, dates. [Types]:
      lib/types.ts. [ApiClient]: lib/api-client.ts.
    - Runtime and its logics. [View]: pages. [Common]: components/common and components/ui.
      [React]: programs, event loop, a program logic for invariants ([wp], [keeps],
      [reachable_good]). [Spinner]: flags that every suspended function lowers
      ([never_left_busy]). [Timeouts]: relations between pending timers and state, and
      guarantees of single steps ([reachable_timed], [step_guarantee]); [Intervals]
      specialises them to intervals ([reachable_related]). [Alone]: what a handler ends with
      when nothing else happens ([run_alone]), from which functional properties are computed.
      [Tokens]: what answers bring, a logic for programs that hand it on ([run_carries]), and
      the interface of a component that sends tokens ([Bearer]).
    - Components, each with a file of facts:
      [EvmTerminal] (components/evm; [EvmBallot] has the unit it refines, [EvmDemo] its
      concrete runs, [VvpatSlip] the paper slip's countdown), [EvmLauncher] (app/(evm)/evm),
      [PublicVerify] (app/(public)/verify), [AuditExplorer] (app/(officer)/audit),
      [Command] (app/(officer)/command), [Devices] (app/(officer)/devices),
      [Results] (app/(officer)/results), [Counting] (app/(officer)/election/counting),
      [Security] (app/(officer)/security), [Attacks] (app/(officer)/election/attacks),
      the pages under app/(officer)/election: [Setup], [Polling], [Candidates],
      [ElectionDevices] (devices), [Stations] (polling-stations), [Complaints],
      [ElectionVerification] (verification), [ElectionAudit] (audit), [ElectionResults]
      (results), [Reports], [Observers], [SimulationPage] (simulation), [Preview]
      (transparency), [Parties] (with the voter guide, app/(public)/voter/help); [Officer] has what such pages share,
      the pages of the public under app/(public): [Eligibility], [Registration] (register),
      [VoterStatus] (status), [VoterRoll] (roll), [VoterProfile] (profile), [VoterComplaints]
      (complaints), [StationFinder] (polling-station), [Overseas], [PublicCandidates]
      (candidates, run together with its hook), [MapExplorer] (map), [TransparencyCenter]
      and [TransparencyDetail] (transparency); [Navigation] (the side bar, header, portal and
      landing page, and the router's addresses); [Portal] has what such pages share,
      [WebSocket] (lib/use-websocket.ts), [AuthContext] (context/AuthContext.tsx with the
      login page and the navigation bar), [ElectionContext] (context/ElectionContext.tsx with
      the selector), [ActiveElection] (lib/hooks/useActiveElection.ts).
    - Compositions. [Compose]: two components on one page and the simulation of the pair by
      its parts, event by event ([pair_run]). [Console]: the layouts app/layout.tsx and
      app/(officer)/layout.tsx, that is session and shared election run together with the
      client's unauthorized callback, the interface of a component with the session inside
      ([Guarded]), and the application: any page on the console. [Application]: two bearers
      on one page, the instances of [Bearer], one for every component with a token, and the
      registry of devices in the officers' layout.
    - [Conformance]: the dashboard's own tests (test/) as evaluations of the model.

    The pages interact through what the contexts give them: the token and role of
    [AuthContext] and the election of [ElectionContext] are fields of a page's state that
    only the surroundings change, at any time. Shared elements and handlers' requests go
    through [Common] and [ApiClient].

    ** What the theorems show

    - Voting: every ballot and authorisation the terminal sends is justified by its state
      ([evm_requests_justified]); a voting cycle and the rejection of a ballot with their
      delays ([evm_voting_cycle], [evm_rejected_vote_retried]); how initialisation ends for
      every backend ([evm_initialisation_gate]); in careful use the terminal refines an abstract ballot unit that issues
      one ballot per number ([evm_refines_ballot_unit]); and what the diagnostic switch, the synthesised NOTA entry and a
      ballot button pressed twice let through ([EvmDemo]).
    - Verification: the verdicts of the public and the officer's verifier are equivalent to
      a specification of the archive ([verifier_verdict], [audit_verdict]); the recount is
      exact; both verifiers agree; the officer's does not depend on the order of an archive
      ([audit_order_irrelevant]); what neither notices.
    - Administration: transitions of elections, of devices, signatures and anchors are only
      asked for within the backend's tables and the user's role ([command_requests_legal],
      [setup_requests_legal], [devices_requests_legal], [results_requests_justified]); the
      launcher opens the terminal of the device and election it was given, if their
      identifiers have no character with a meaning in a URL ([launcher_routes],
      [launcher_raw_identifier]); the attack demonstration ends ([attacks_always_end]) and tests
      nothing ([attacks_never_tested]); the security centre shows a failure as an
      all-clear ([security_failure_shown_as_all_clear]).
    - Counting: the page with its effects and timers refines an abstract count in five rounds
      ([counting_refines]), auto-play ends ([counting_autoplay_ends]), the floating-point
      tallies are exact below 2^40 ([counting_rounds_exact]), the Form 20 columns add up
      exactly when four divides the tally ([form20_columns]).
    - Session and connection: the token in use is the stored one while no other tab touches
      the storage and it works ([auth_session_safe], [auth_other_tab_not_noticed]), at most one
      polling interval runs ([ws_one_polling_interval]), every socket was opened with a ticket
      answered for its election ([ws_requests_and_sockets]), and where these guarantees end.
    - Composition: on the officers' pages session and shared election do, event by event, what
      they do alone ([console_runs_both]); whatever page is open, a refused call of the session, the shared
      election or the page ends the session ([expiry_ends_session]), also one begun since the
      call ([console_late_refusal_ends_new_session]), and no request carries a token that was
      neither stored, by this tab or another, nor answered to a login
      ([tokens_come_from_logins]).
    - Conformance: the 28 tests of the dashboard hold of the model ([dashboard_tests_pass]).
    - The public: what each form sends and each page ends with; no number is twice on the
      electoral roll ([roll_no_number_twice]); what is invented when a lookup fails
      ([profile_looked_up], [station_finder_never_fails]); a drop-down list that displays an
      option the form does not have ([eligibility_untouched_list],
      [complaint_category_untouched]); late answers ([map_late_answer]); every link of the
      navigation leads to a page ([navigation_links_served]), one of the officers' does not
      ([preview_link_dead]).
    - Answers and their types: where a page reads a key the declared answer does not have,
      the key is a parameter of the page, and a theorem says what the page shows without it
      ([verification_always_failed], [audit_always_broken], [election_results_empty]).
    - Loading flags: no page stays busy when nothing is pending (the [_not_left_loading]
      theorems).

    ** Bounds and fuel

    The only fuel of the components is [Counting.RENDERS], the renders an effect may cause in
    a row: [counting_rounds_bounded] includes that it never runs out (the effect has always
    run for what is shown). [JsNumber.hex_digits] has the number of binary digits as fuel.
    The bound 2^40 on tallies keeps the error of a double below the distance of a fifth to
    the nearest half.

    ** Not modelled

    The backend, the firmware and the simulation are in other languages; of the backend only
    the tables of transitions appear, as the specification the pages are checked against.
    Styling, icons' shapes, fonts and animations are left out, the wrapper Card among them,
    as are the text of the manifest viewer and the opening of a row in the audit log. [Console] covers one stay in the officers' layout:
    leaving it discards the state of the shared election. A value of an answer
    without a declared type is dynamic ([JsValue]); its keys are assumed to hold what the
    page expects of them (strings, numbers, arrays of records). JSON of another shape than an
    archive on which no check throws is not uploaded, nor is a second rejection among calls
    awaited together seen, which the page ignores but the client reports ([Console.expired]).
    The backend's transparency endpoints name one of the states of an election, and answers
    are not null where their type is not. The callbacks a caller gives to the live connection
    are recorded, not run. A list of options may be chosen from at any option, also the one
    displayed. *)
From stdpp Require Export base strings list gmap.
From Stdlib Require Export ZArith Lia.
From Stdlib Require Import Ascii String DecimalString.

Open Scope Z_scope.

(** ** Notations of the development *)

Declare Scope js_scope.
Delimit Scope js_scope with js.
Open Scope js_scope.

(** String concatenation, JavaScript's [+] on strings and template literals. *)
Notation "a ++s b" := (String.append a b) (at level 60, right associativity) : js_scope.

(** ** JavaScript strings

    A JavaScript string is the byte string of its UTF-8 encoding. Every string the
    dashboard measures, slices or case-folds is ASCII, where bytes and code units agree. *)

Definition truthy_str (s : string) : bool := negb (String.eqb s EmptyString).

(** [a || b] on strings. *)
Definition str_or (a b : string) : string := if truthy_str a then a else b.

(** [a || b] where [a] may be null or undefined. *)
Definition opt_or (a : option string) (b : string) : string :=
  match a with Some s => str_or s b | None => b end.

(** Truthiness of a [string | null | undefined]. *)
Definition truthy_opt (a : option string) : bool :=
  match a with Some s => truthy_str s | None => false end.

(** [s.startsWith(p)]. *)
Definition starts_with (p s : string) : bool := String.prefix p s.

(** [s.includes(p)]. *)
Fixpoint includes (p s : string) : bool :=
  starts_with p s ||
  match s with
  | EmptyString => false
  | String _ s' => includes p s'
  end.

Definition ascii_upper (c : ascii) : ascii :=
  let n := nat_of_ascii c in
  if ((97 <=? n) && (n <=? 122))%nat then ascii_of_nat (n - 32) else c.

Definition ascii_lower (c : ascii) : ascii :=
  let n := nat_of_ascii c in
  if ((65 <=? n) && (n <=? 90))%nat then ascii_of_nat (n + 32) else c.

Fixpoint str_map (f : ascii -> ascii) (s : string) : string :=
  match s with
  | EmptyString => EmptyString
  | String c s' => String (f c) (str_map f s')
  end.

(** [s.toUpperCase()] and [s.toLowerCase()], on ASCII. *)
Definition to_upper (s : string) : string := str_map ascii_upper s.
Definition to_lower (s : string) : string := str_map ascii_lower s.

(** White space, on ASCII. *)
Definition is_space (c : ascii) : bool :=
  let n := nat_of_ascii c in ((n =? 32) || ((9 <=? n) && (n <=? 13)))%nat.

Fixpoint trim_start (s : string) : string :=
  match s with
  | String c s' => if is_space c then trim_start s' else s
  | EmptyString => s
  end.

Fixpoint trim_end (s : string) : string :=
  match s with
  | EmptyString => EmptyString
  | String c s' =>
      match trim_end s' with
      | EmptyString => if is_space c then EmptyString else String c EmptyString
      | t => String c t
      end
  end.

(** [s.trim()]. *)
Definition trim (s : string) : string := trim_end (trim_start s).

(** [s.replace(from, to)] with a one-character [from]: the first occurrence. *)
Fixpoint replace_first (from : ascii) (to s : string) : string :=
  match s with
  | EmptyString => EmptyString
  | String c s' => if Ascii.eqb c from then to ++s s' else String c (replace_first from to s')
  end.

(** [s.substring(0, n)] and [s.slice(0, n)]. *)
Definition take_str (n : nat) (s : string) : string := String.substring 0 n s.

(** [Number.prototype.toString] on an integer. *)
Definition Z_to_string (z : Z) : string := NilZero.string_of_int (Z.to_int z).
#[global] Arguments Z_to_string : simpl never.

(** [s.padStart(n, c)] with a one-character pad. *)
Definition pad_start (n : nat) (c : ascii) (s : string) : string :=
  String.append
    (Nat.iter (n - String.length s) (String c) EmptyString) s.

(** [xs.join(sep)]. *)
Fixpoint join (sep : string) (xs : list string) : string :=
  match xs with
  | [] => EmptyString
  | [x] => x
  | x :: xs' => x ++s sep ++s join sep xs'
  end.

(** The double quote, which is never written inside a string literal here. *)
Definition quote : string := String (ascii_of_nat 34) EmptyString.
Definition newline : string := String (ascii_of_nat 10) EmptyString.

(** ** Lists *)

(** [Array.prototype.find]. *)
Fixpoint find_first {A} (p : A -> bool) (l : list A) : option A :=
  match l with
  | [] => None
  | x :: l' => if p x then Some x else find_first p l'
  end.

(** [xs.reduce((a, b) => a + b, 0)]. *)
Definition sumZ (l : list Z) : Z := fold_right Z.add 0 l.

(** [Array.prototype.includes] / [indexOf] on strings. *)
Definition str_in (s : string) (l : list string) : bool := existsb (String.eqb s) l.
#[global] Arguments str_in : simpl never.

Fixpoint index_of (s : string) (l : list string) : Z :=
  match l with
  | [] => -1
  | x :: l' => if String.eqb s x then 0
               else let i := index_of s l' in if i =? -1 then -1 else i + 1
  end.

(** ** Tactics *)

Create HintDb js.

(** Turns the boolean tests of the code into propositions. *)
Ltac reflect_bool :=
  repeat match goal with
  | H : negb _ = true |- _ => apply negb_true_iff in H
  | H : negb _ = false |- _ => apply negb_false_iff in H
  | H : (_ && _)%bool = true |- _ => apply andb_true_iff in H; destruct H
  | H : (_ || _)%bool = false |- _ => apply orb_false_iff in H; destruct H
  | H : (_ || _)%bool = true |- _ => apply orb_true_iff in H
  | H : String.eqb _ _ = true |- _ => apply String.eqb_eq in H
  | H : String.eqb _ _ = false |- _ => apply String.eqb_neq in H
  | H : bool_decide _ = true |- _ => apply bool_decide_eq_true in H
  | H : bool_decide _ = false |- _ => apply bool_decide_eq_false in H
  | H : (_ =? _) = true |- _ => apply Z.eqb_eq in H
  | H : (_ =? _) = false |- _ => apply Z.eqb_neq in H
  | H : (_ <=? _) = true |- _ => apply Z.leb_le in H
  | H : (_ <=? _) = false |- _ => apply Z.leb_gt in H
  end.

(** Splits every [match] and [if] of the goal. *)
Ltac split_match :=
  repeat (case_match || match goal with |- context [if ?b then _ else _] => destruct b eqn:? end);
  simplify_eq/=.

(** ** Lemmas shared by the components *)

Lemma truthy_str_true s : truthy_str s = true <-> s <> EmptyString.
Proof. unfold truthy_str. rewrite negb_true_iff. apply String.eqb_neq. Qed.

Lemma str_or_truthy a b : truthy_str b = true -> truthy_str (str_or a b) = true.
Proof. intros Hb. unfold str_or. by destruct (truthy_str a) eqn:?. Qed.

Lemma opt_or_truthy a b : truthy_str b = true -> truthy_str (opt_or a b) = true.
Proof. intros Hb. destruct a; simpl; [by apply str_or_truthy | done]. Qed.

Lemma truthy_append_l a b : truthy_str a = true -> truthy_str (a ++s b) = true.
Proof. rewrite !truthy_str_true. by destruct a. Qed.

Lemma starts_with_app p s : starts_with p (p ++s s) = true.
Proof.
  unfold starts_with. induction p as [|c p IH]; simpl; [by destruct s |].
  destruct (ascii_dec c c); [done | congruence].
Qed.

Lemma includes_prefix p s : starts_with p s = true -> includes p s = true.
Proof. intros H. destruct s; cbn [includes]; by rewrite H. Qed.

Lemma find_first_Some {A} (p : A -> bool) l x :
  find_first p l = Some x -> In x l /\ p x = true.
Proof.
  induction l as [|y l IH]; simpl; [done |].
  destruct (p y) eqn:E; [intros [= <-]; auto | intros H; destruct (IH H); auto].
Qed.

Lemma find_first_None {A} (p : A -> bool) l :
  find_first p l = None <-> forall x, In x l -> p x = false.
Proof.
  induction l as [|y l IH]; simpl; [split; [intros _ x [] | done] |].
  destruct (p y) eqn:E.
  - split; [done |]. intros H. specialize (H y (or_introl eq_refl)). congruence.
  - rewrite IH. split; [intros H x [<-|Hx]; auto | auto].
Qed.

Lemma sumZ_app l1 l2 : sumZ (l1 ++ l2) = sumZ l1 + sumZ l2.
Proof. unfold sumZ. induction l1; simpl; lia. Qed.

Lemma sumZ_nonneg l : (forall x, In x l -> 0 <= x) -> 0 <= sumZ l.
Proof.
  induction l as [|x l IH]; unfold sumZ in *; simpl; intros H; [lia |].
  assert (0 <= x) by auto. assert (0 <= fold_right Z.add 0 l) by auto. lia.
Qed.

Lemma str_in_cons s x l : str_in s (x :: l) = String.eqb s x || str_in s l.
Proof. done. Qed.

Lemma str_in_In s l : str_in s l = true <-> In s l.
Proof.
  unfold str_in. rewrite existsb_exists. split.
  - intros (x & Hx & ->%String.eqb_eq). done.
  - intros H. exists s. split; [done | apply String.eqb_refl].
Qed.

Lemma Forall_sub_filter {A} (P : A -> Prop) (Q : A -> Prop) `{forall x, Decision (Q x)} l :
  Forall P l -> Forall P (filter Q l).
Proof. rewrite !Forall_forall. intros HP x [_ Hx]%list_elem_of_filter. auto. Qed.

(** stdpp's filter on a boolean test, which computes. *)
Lemma filter_bool {A} (p : A -> bool) (l : list A) :
  filter (fun x => Is_true (p x)) l = List.filter p l.
Proof.
  induction l as [|x l IH]; [done |]. rewrite filter_cons. cbn [List.filter].
  destruct (p x); cbn; by rewrite IH.
Qed.

Lemma filter_all {A} (p : A -> bool) l :
  (forall x, In x l -> p x = true) -> List.filter p l = l.
Proof.
  induction l as [|x l IH]; intros Hp; [done |]. cbn. rewrite Hp by by left. f_equal.
  apply IH. intros y Hy. apply Hp. by right.
Qed.

(** Elements with the same key are equal when the keys are distinct. *)
Lemma nodup_map_inj {A B} (f : A -> B) l x y :
  NoDup (map f l) -> In x l -> In y l -> f x = f y -> x = y.
Proof.
  induction l as [|z l IH]; [done |]. cbn [map]. intros [Hz Hl]%NoDup_cons Hx Hy E.
  destruct Hx as [<-|Hx], Hy as [<-|Hy]; [done | | | by apply IH].
  - destruct Hz. rewrite E. by apply list_elem_of_fmap_2, list_elem_of_In.
  - destruct Hz. rewrite <- E. by apply list_elem_of_fmap_2, list_elem_of_In.
Qed.

Lemma Forall_In {A} (P : A -> Prop) l x : Forall P l -> In x l -> P x.
Proof. rewrite Forall_forall. intros H Hx. apply H. by apply list_elem_of_In. Qed.

#[export] Hint Resolve str_or_truthy opt_or_truthy truthy_append_l starts_with_app includes_prefix : js.
