(* ===== verification/Tally.v ===== *)
(** * Tallies and sorting

    JavaScript objects used as tallies ([gmap string Z]; the keys are identifiers, never names
    inherited from Object.prototype) and stable sorting by a number, with their lemmas. *)
From Stdlib Require Import Sorting.Sorted.
From stdpp Require Import sorting.
From S2P Require Import Prelude.
From Stdlib Require Import String.
Open Scope Z_scope.

Definition len {A} (l : list A) : Z := Z.of_nat (List.length l).

(** [for (const id of ids) m[id] = 0]. *)
Definition zeros (ids : list string) : gmap string Z :=
  fold_left (fun m id => <[id := 0]> m) ids ∅.

(** [if (m[k] !== undefined) m[k]++]. *)
Definition bump (k : string) (m : gmap string Z) : gmap string Z :=
  match m !! k with Some n => <[k := n + 1]> m | None => m end.

(** [m[k] = (m[k] || 0) + 1]. *)
Definition bump_new (k : string) (m : gmap string Z) : gmap string Z :=
  <[k := default 0 (m !! k) + 1]> m.

(** [Object.values(m).reduce((a, b) => a + b, 0)]. *)
Definition sum_values (m : gmap string Z) : Z := sumZ (map snd (map_to_list m)).

(** [Array.prototype.sort] by a numeric key, which is stable: each element goes after those
    with the same key. *)
Fixpoint insert_by {A} (key : A -> Z) (x : A) (l : list A) : list A :=
  match l with
  | [] => [x]
  | y :: l' => if key x <? key y then x :: l else y :: insert_by key x l'
  end.

Definition sort_by {A} (key : A -> Z) (l : list A) : list A :=
  fold_left (fun acc x => insert_by key x acc) l [].

(** ** Reference notions *)

(** How often [k] occurs in [ks]; how many of [ks] are not among [ids]. *)
Definition occurrences (k : string) (ks : list string) : Z :=
  sumZ (map (fun x => if String.eqb x k then 1 else 0) ks).

Definition strays (ids ks : list string) : Z :=
  sumZ (map (fun x => if str_in x ids then 0 else 1) ks).

(** ** Lemmas *)

Lemma sumZ_perm l1 l2 : Permutation l1 l2 -> sumZ l1 = sumZ l2.
Proof. unfold sumZ. induction 1; simpl; lia. Qed.

Lemma tally_insert (m : gmap string Z) k :
  sumZ (map snd (map_to_list (<[k := default 0 (m !! k) + 1]> m)))
  = sumZ (map snd (map_to_list m)) + 1.
Proof.
  destruct (m !! k) as [v|] eqn:Hk; simpl.
  - rewrite <- insert_delete_eq.
    pose proof (map_to_list_delete m k v Hk) as Hm.
    rewrite (sumZ_perm _ _ (Permutation_map snd (map_to_list_insert (delete k m) k (v + 1) (lookup_delete_eq m k)))).
    rewrite <- (sumZ_perm _ _ (Permutation_map snd Hm)). unfold sumZ. simpl. lia.
  - rewrite (sumZ_perm _ _ (Permutation_map snd (map_to_list_insert m k 1 Hk))).
    unfold sumZ. simpl. lia.
Qed.

Lemma tally_zero (m : gmap string Z) :
  map_Forall (fun _ v => v = 0) m -> sumZ (map snd (map_to_list m)) = 0.
Proof.
  induction m as [|k v m Hk IH] using map_ind; intros H; [by rewrite map_to_list_empty |].
  apply map_Forall_insert in H as [-> H]; [| done].
  rewrite (sumZ_perm _ _ (Permutation_map snd (map_to_list_insert m k 0 Hk))).
  unfold sumZ in *. simpl. by apply IH.
Qed.

Lemma occurrences_cons k x ks : occurrences k (x :: ks) = (if String.eqb x k then 1 else 0) + occurrences k ks.
Proof. done. Qed.

Lemma strays_cons ids x ks : strays ids (x :: ks) = (if str_in x ids then 0 else 1) + strays ids ks.
Proof. done. Qed.

Lemma zeros_lookup ids k : zeros ids !! k = if str_in k ids then Some 0 else None.
Proof.
  unfold zeros.
  enough (forall m : gmap string Z, fold_left (fun m id => <[id := 0]> m) ids m !! k
            = if str_in k ids then Some 0 else m !! k) as H by by rewrite H, lookup_empty.
  induction ids as [|id ids IH]; intros m; cbn [fold_left]; [done |]. rewrite IH, str_in_cons.
  destruct (String.eqb_spec k id) as [->|Hne]; simpl.
  - rewrite lookup_insert_eq. by destruct (str_in _ _).
  - by rewrite lookup_insert_ne.
Qed.

Lemma bump_lookup k x (m : gmap string Z) :
  bump x m !! k = if String.eqb x k then option_map (fun n => n + 1) (m !! k) else m !! k.
Proof.
  unfold bump. destruct (String.eqb_spec x k) as [->|Hne].
  - destruct (m !! k) eqn:E; [by rewrite lookup_insert_eq | by rewrite E].
  - destruct (m !! x); [by rewrite lookup_insert_ne | done].
Qed.

(** A tally over a fixed set of identifiers counts their occurrences. *)
Lemma tally_lookup ids ks k :
  fold_left (fun m x => bump x m) ks (zeros ids) !! k
  = if str_in k ids then Some (occurrences k ks) else None.
Proof.
  enough (forall m : gmap string Z, fold_left (fun m x => bump x m) ks m !! k
            = option_map (fun n => n + occurrences k ks) (m !! k)) as H.
  { rewrite H, zeros_lookup. by destruct (str_in k ids). }
  induction ks as [|x ks IH]; intros m; cbn [fold_left].
  - destruct (m !! k); [| done]. unfold occurrences, sumZ. simpl. by rewrite Z.add_0_r.
  - rewrite IH, bump_lookup, occurrences_cons. destruct (String.eqb x k), (m !! k); simpl; try done; f_equal; lia.
Qed.

(** Its sum misses exactly the strays. *)
Lemma tally_sum ids ks :
  sum_values (fold_left (fun m x => bump x m) ks (zeros ids)) = len ks - strays ids ks.
Proof.
  enough (forall m : gmap string Z, (forall k, is_Some (m !! k) <-> str_in k ids = true) ->
     sum_values (fold_left (fun m x => bump x m) ks m) = sum_values m + len ks - strays ids ks) as H.
  { rewrite H; [unfold sum_values; rewrite tally_zero; [lia |] |].
    - intros k v Hk. rewrite zeros_lookup in Hk. by case_match; simplify_eq.
    - intros k. rewrite zeros_lookup. destruct (str_in k ids); split; try done; by intros []. }
  unfold len. induction ks as [|x ks IH]; intros m Hm; cbn [fold_left List.length].
  - unfold strays, sumZ. simpl. lia.
  - rewrite strays_cons, IH.
    + unfold bump, sum_values. destruct (m !! x) as [n|] eqn:Ex.
      * assert (str_in x ids = true) as -> by (apply Hm; by rewrite Ex).
        pose proof (tally_insert m x) as Ht. rewrite Ex in Ht. simpl in Ht. rewrite Ht. lia.
      * destruct (str_in x ids) eqn:E; [| lia]. apply Hm in E. rewrite Ex in E. by destruct E.
    + intros k. rewrite <- Hm, bump_lookup. destruct (String.eqb x k); [| done].
      destruct (m !! k); simpl; split; eauto; by intros [].
Qed.

Lemma strays_nonneg ids ks : 0 <= strays ids ks.
Proof. apply sumZ_nonneg. intros x (b & <- & _)%in_map_iff. by case_match. Qed.

Lemma strays_zero ids ks : strays ids ks = 0 <-> forall k, In k ks -> In k ids.
Proof.
  induction ks as [|x ks IH]; [done |]. rewrite strays_cons. pose proof (strays_nonneg ids ks).
  destruct (str_in x ids) eqn:E.
  - apply str_in_In in E. rewrite Z.add_0_l, IH.
    split; [intros Hin k [<-|Hk]; auto | intros Hin k Hk; apply Hin; by right].
  - split; [lia |]. intros Hin. assert (str_in x ids = true) by (apply str_in_In, Hin; by left).
    congruence.
Qed.

(** Nothing of this depends on the order of the lists. *)
#[export] Instance len_proper {A} : Proper (Permutation ==> eq) (@len A).
Proof. intros l1 l2 H. unfold len. by rewrite H. Qed.

#[export] Instance str_in_proper k : Proper (Permutation ==> eq) (str_in k).
Proof. intros l1 l2 H. apply eq_iff_eq_true. rewrite !str_in_In. by rewrite H. Qed.

#[export] Instance occurrences_proper k : Proper (Permutation ==> eq) (occurrences k).
Proof. intros l1 l2 H. apply sumZ_perm. by apply Permutation_map. Qed.

#[export] Instance strays_proper : Proper (Permutation ==> Permutation ==> eq) strays.
Proof.
  intros ids1 ids2 Hi ks1 ks2 H. transitivity (strays ids1 ks2).
  - apply sumZ_perm. by apply Permutation_map.
  - unfold strays. f_equal. apply map_ext. intros k. by rewrite Hi.
Qed.

Lemma tally_order ids1 ids2 ks1 ks2 :
  Permutation ids1 ids2 -> Permutation ks1 ks2 ->
  fold_left (fun m x => bump x m) ks1 (zeros ids1) = fold_left (fun m x => bump x m) ks2 (zeros ids2).
Proof. intros Hi Hk. apply map_eq. intros k. by rewrite !tally_lookup, Hi, Hk. Qed.

(** A tally that creates its keys sums to the number of items. *)
Lemma tally_new_sum ks : sum_values (fold_left (fun m x => bump_new x m) ks ∅) = len ks.
Proof.
  enough (forall m : gmap string Z,
    sum_values (fold_left (fun m x => bump_new x m) ks m) = sum_values m + len ks) as H by by rewrite H.
  unfold len, sum_values. induction ks as [|x ks IH]; intros m; cbn [fold_left List.length]; [lia |].
  rewrite IH. unfold bump_new. rewrite tally_insert. lia.
Qed.

Lemma fold_left_map {A B C} (f : C -> B -> C) (g : A -> B) l c :
  fold_left (fun c a => f c (g a)) l c = fold_left f (map g l) c.
Proof. revert c. induction l as [|a l IH]; intros c; simpl; [done | apply IH]. Qed.

(** ** Sorting *)

Section Sorting.
Context {A : Type} (key : A -> Z).

Lemma insert_by_perm x l : Permutation (insert_by key x l) (x :: l).
Proof.
  induction l as [|y l IH]; simpl; [done |]. case_match; [done |]. rewrite IH. by constructor.
Qed.

Lemma sort_by_perm l : Permutation (sort_by key l) l.
Proof.
  unfold sort_by. enough (forall acc, Permutation (fold_left (fun acc x => insert_by key x acc) l acc) (acc ++ l)) as H
    by by rewrite H.
  induction l as [|x l IH]; intros acc; simpl; [by rewrite app_nil_r |].
  rewrite IH, insert_by_perm. simpl. by rewrite Permutation_middle.
Qed.

Lemma insert_by_sorted x l :
  StronglySorted (fun a b => key a <= key b) l -> StronglySorted (fun a b => key a <= key b) (insert_by key x l).
Proof.
  induction 1 as [|y l Hl IH Hy]; simpl; [by repeat constructor |].
  destruct (key x <? key y) eqn:E.
  - apply Z.ltb_lt in E. constructor; [by constructor |]. constructor; [lia |].
    eapply Forall_impl; [exact Hy |]. simpl. lia.
  - apply Z.ltb_ge in E. constructor; [done |]. rewrite insert_by_perm. by constructor.
Qed.

Lemma sort_by_sorted l : StronglySorted (fun a b => key a <= key b) (sort_by key l).
Proof.
  unfold sort_by. enough (forall acc, StronglySorted (fun a b => key a <= key b) acc ->
    StronglySorted (fun a b => key a <= key b) (fold_left (fun acc x => insert_by key x acc) l acc)) as H
    by (apply H; constructor).
  induction l as [|x l IH]; intros acc Hacc; simpl; [done |]. by apply IH, insert_by_sorted.
Qed.

(** Two sorted arrangements of the same elements are equal when the keys are distinct. *)
Lemma sorted_unique l1 l2 :
  StronglySorted (fun a b => key a <= key b) l1 -> StronglySorted (fun a b => key a < key b) l2 ->
  Permutation l1 l2 -> l1 = l2.
Proof.
  revert l2. induction l1 as [|a l1 IH]; intros l2 H1 H2 Hp.
  { by apply Permutation_nil in Hp. }
  destruct l2 as [|b l2]; [by apply Permutation_sym, Permutation_nil_cons in Hp |].
  inversion H1 as [|? ? Hs1 Ha]; inversion H2 as [|? ? Hs2 Hb]; subst.
  assert (a = b) as ->.
  { rewrite Forall_forall in Ha, Hb.
    assert (a ∈ b :: l2) as [->|Hin]%elem_of_cons by (rewrite <- Hp; by left); [done |].
    assert (b ∈ a :: l1) as [->|Hin']%elem_of_cons by (rewrite Hp; by left); [done |].
    specialize (Ha _ Hin'). specialize (Hb _ Hin). simpl in *. lia. }
  f_equal. apply IH; [done | done |]. by eapply Permutation_cons_inv.
Qed.
End Sorting.
