(* ===== verification/JsValue.v ===== *)
(** * Dynamic JavaScript values

    The values TypeScript types as [any] or [unknown]: parsed response bodies, thrown
    values, error payloads. Numbers are integers, objects are association lists in
    insertion order. [VBig] is there because it is the one value of a tree that
    [JSON.stringify] rejects. *)
From S2P Require Import Prelude.
From Stdlib Require Import Ascii String.

Inductive value :=
| VUndef
| VNull
| VBool (b : bool)
| VNum (n : Z)
| VBig (n : Z)
| VStr (s : string)
| VArr (l : list value)
| VObj (o : list (string * value)).

(** The induction principle that goes under arrays and objects. *)
Definition value_nested_ind (P : value -> Prop)
  (Hu : P VUndef) (Hn : P VNull) (Hb : forall b, P (VBool b)) (Hz : forall n, P (VNum n))
  (Hbig : forall n, P (VBig n)) (Hs : forall s, P (VStr s))
  (Ha : forall l, Forall P l -> P (VArr l))
  (Ho : forall o, Forall (fun kv => P (snd kv)) o -> P (VObj o)) : forall v, P v :=
  fix go v :=
    match v with
    | VUndef => Hu
    | VNull => Hn
    | VBool b => Hb b
    | VNum n => Hz n
    | VBig n => Hbig n
    | VStr s => Hs s
    | VArr l =>
        Ha l ((fix all l := match l return Forall P l with
                            | [] => Forall_nil_2 _
                            | x :: l' => Forall_cons_2 _ _ _ (go x) (all l')
                            end) l)
    | VObj o =>
        Ho o ((fix all o := match o return Forall (fun kv => P (snd kv)) o with
                            | [] => Forall_nil_2 _
                            | kv :: o' => Forall_cons_2 _ _ _ (go (snd kv)) (all o')
                            end) o)
    end.

(** ** Operators of the language *)

Definition truthy (v : value) : bool :=
  match v with
  | VUndef | VNull => false
  | VBool b => b
  | VNum n | VBig n => negb (n =? 0)
  | VStr s => truthy_str s
  | VArr _ | VObj _ => true
  end.

(** [a || b]. *)
Definition v_or (a b : value) : value := if truthy a then a else b.

Fixpoint assoc (k : string) (o : list (string * value)) : option value :=
  match o with
  | [] => None
  | (k', v) :: o' => if String.eqb k k' then Some v else assoc k o'
  end.

(** [v?.k]: undefined on null and undefined, and on every value without that property.
    The names read this way ([detail], [message], [msg], ...) are not inherited by
    strings, numbers or arrays. *)
Definition prop (k : string) (v : value) : value :=
  match v with
  | VObj o => default VUndef (assoc k o)
  | _ => VUndef
  end.

(** [k in v] on an object. *)
Definition has_prop (k : string) (v : value) : bool :=
  match v with
  | VObj o => match assoc k o with Some _ => true | None => false end
  | _ => false
  end.

Definition is_string (v : value) : bool := match v with VStr _ => true | _ => false end.
Definition is_array (v : value) : bool := match v with VArr _ => true | _ => false end.
Definition is_nullish (v : value) : bool :=
  match v with VUndef | VNull => true | _ => false end.

(** [typeof v === 'object' && v !== null]. *)
Definition is_object (v : value) : bool :=
  match v with VArr _ | VObj _ => true | _ => false end.

(** [String(v)]; the elements of an array are joined with commas, null and undefined
    giving the empty string. *)
Fixpoint to_string (v : value) : string :=
  match v with
  | VUndef => "undefined"
  | VNull => "null"
  | VBool b => if b then "true" else "false"
  | VNum n | VBig n => Z_to_string n
  | VStr s => s
  | VArr l => join "," (map (fun x => if is_nullish x then EmptyString else to_string x) l)
  | VObj _ => "[object Object]"
  end.

(** An element of [xs.join(sep)]. *)
Definition join_elem (v : value) : string :=
  if is_nullish v then EmptyString else to_string v.

(** ** JSON.stringify *)

Definition hex_digit (n : nat) : ascii :=
  ascii_of_nat (if (n <? 10)%nat then 48 + n else 87 + n).

Definition backslash : string := String (ascii_of_nat 92) EmptyString.

Definition escape_char (c : ascii) : string :=
  let n := nat_of_ascii c in
  if (n =? 34)%nat then backslash ++s quote
  else if (n =? 92)%nat then backslash ++s backslash
  else if (n =? 8)%nat then backslash ++s "b"
  else if (n =? 9)%nat then backslash ++s "t"
  else if (n =? 10)%nat then backslash ++s "n"
  else if (n =? 12)%nat then backslash ++s "f"
  else if (n =? 13)%nat then backslash ++s "r"
  else if (n <? 32)%nat then
    backslash ++s "u00" ++s String (hex_digit (n / 16)) (String (hex_digit (n mod 16)) EmptyString)
  else String c EmptyString.

Fixpoint escape (s : string) : string :=
  match s with
  | EmptyString => EmptyString
  | String c s' => escape_char c ++s escape s'
  end.

Definition quoted (s : string) : string := quote ++s escape s ++s quote.

(** What stringify gives: a text, [undefined], or a TypeError. *)
Inductive json_text := JText (s : string) | JUndefined | JThrows.

Definition text_or_null (j : json_text) : option string :=
  match j with JText s => Some s | JUndefined => Some "null" | JThrows => None end.

Fixpoint stringify (v : value) : json_text :=
  match v with
  | VUndef => JUndefined
  | VNull => JText "null"
  | VBool b => JText (if b then "true" else "false")
  | VNum n => JText (Z_to_string n)
  | VBig _ => JThrows
  | VStr s => JText (quoted s)
  | VArr l =>
      match mapM (fun x => text_or_null (stringify x)) l with
      | Some ts => JText ("[" ++s join "," ts ++s "]")
      | None => JThrows
      end
  | VObj o =>
      let fields :=
        (fix go o := match o with
                     | [] => Some []
                     | (k, x) :: o' =>
                         match stringify x, go o' with
                         | JThrows, _ | _, None => None
                         | JUndefined, Some ts => Some ts
                         | JText t, Some ts => Some ((quoted k ++s ":" ++s t) :: ts)
                         end
                     end) o in
      match fields with
      | Some ts => JText ("{" ++s join "," ts ++s "}")
      | None => JThrows
      end
  end.

(** [JSON.stringify(v, null, 2)] on a value without [undefined] and bigint; [ind] is the
    indentation of the line the value starts on. *)
Fixpoint stringify_pretty (ind : string) (v : value) : string :=
  let ind' := ind ++s "  " in
  let block (opening closing : string) (items : list string) :=
    match items with
    | [] => opening ++s closing
    | _ => opening ++s newline ++s join ("," ++s newline) (map (fun t => ind' ++s t) items)
           ++s newline ++s ind ++s closing
    end in
  match v with
  | VArr l => block "[" "]" (map (stringify_pretty ind') l)
  | VObj o => block "{" "}" (map (fun kv => quoted (fst kv) ++s ": " ++s stringify_pretty ind' (snd kv)) o)
  | _ => match stringify v with JText t => t | _ => EmptyString end
  end%string.

(** A request body: the text of [JSON.stringify] on an object of plain fields. *)
Definition json_body (o : list (string * value)) : string :=
  match stringify (VObj o) with JText t => t | _ => EmptyString end.

(** A field that is [string | undefined]; stringify drops it when undefined. *)
Definition v_opt (s : option string) : value := match s with Some s => VStr s | None => VUndef end.

(** A field that is [string | null]. *)
Definition v_null (s : option string) : value := match s with Some s => VStr s | None => VNull end.

(** ** Thrown values *)

(** Which class an Error object was made by: [api-client.ts] and [format-error.ts] each
    declare a class named ApiError. *)
Inductive error_class := CError | CClientApiError | CFormatApiError.

Record error_obj := {
  e_class : error_class;
  e_name : string;
  e_message : string;
  e_status : option Z;
  e_data : option value   (** the own property [data], when the object has one *)
}.

Inductive thrown :=
| TError (e : error_obj)
| TValue (v : value).

Definition plain_error (name msg : string) : error_obj :=
  {| e_class := CError; e_name := name; e_message := msg; e_status := None; e_data := None |}.

(** The result of an awaited call: the resolved value or the Error it rejects with. *)
Inductive outcome (A : Type) := Ok (a : A) | Err (e : error_obj).
Arguments Ok {A} _.
Arguments Err {A} _.

Definition outcome_map {A B} (f : A -> B) (r : outcome A) : outcome B :=
  match r with Ok a => Ok (f a) | Err e => Err e end.

(** A value that holds no bigint: everything [response.json()] can return. *)
Fixpoint json_value (v : value) : bool :=
  match v with
  | VUndef | VBig _ => false
  | VArr l => forallb json_value l
  | VObj o => forallb (fun kv => json_value (snd kv)) o
  | _ => true
  end.

(** ** Lemmas *)

Lemma truthy_prop_obj k v : truthy (prop k v) = true -> has_prop k v = true.
Proof. destruct v; simpl; try done. by destruct (assoc k o). Qed.

Lemma is_object_truthy v : is_object v = true -> truthy v = true.
Proof. by destruct v. Qed.

Lemma v_or_truthy a b : truthy b = true -> truthy (v_or a b) = true.
Proof. intros H. unfold v_or. by destruct (truthy a) eqn:?. Qed.

(** Stringify gives a text on every value a response body can be. *)
Lemma stringify_json v : json_value v = true -> exists t, stringify v = JText t.
Proof.
  induction v as [| | b | n | n | s | l IH | o IH] using value_nested_ind;
    simpl; intros H; try done; try (eexists; reflexivity).
  - enough (exists ts, mapM (fun x => text_or_null (stringify x)) l = Some ts) as [ts ->]
      by (eexists; reflexivity).
    induction IH as [|x l Hx _ IHl]; simpl in *; [by eexists |].
    apply andb_true_iff in H as [H1 H2].
    destruct (Hx H1) as [t ->], (IHl H2) as [ts Hts]. simpl.
    eexists. by rewrite Hts.
  - match goal with |- context [match ?f with Some _ => _ | None => _ end] =>
      enough (exists ts, f = Some ts) as [ts ->] by (eexists; reflexivity) end.
    induction IH as [|[k x] o Hx _ IHo]; simpl in *; [by eexists |].
    apply andb_true_iff in H as [H1 H2].
    destruct (Hx H1) as [t ->], (IHo H2) as [ts ->]. by eexists.
Qed.

#[export] Hint Resolve v_or_truthy is_object_truthy : js.
