(* ===== verification/FormatError.v ===== *)
(** * Error formatting: [lib/format-error.ts]

    [formatApiError] turns anything a [catch] clause may see into the message a page
    shows. The model keeps the order of the tests, the value each branch returns (which
    need not be a string when the thrown value is not an Error) and the one way the
    function itself can throw. *)
From S2P Require Import Prelude JsValue.
From Stdlib Require Import String.

Module FormatError.

(** [new ApiError(status, message, data)] of [format-error.ts]. *)
(*@ dashboard/lib/format-error.ts 1 11 ApiError *)
Definition ApiError (status : Z) (message : string) (data : value) : error_obj :=
  {| e_class := CFormatApiError; e_name := "ApiError"; e_message := message;
     e_status := Some status; e_data := Some data |}.

(** The fields [formatApiError] reads off the thrown value. *)
(*@ dashboard/lib/format-error.ts 18 19 formatApiError *)
Definition data_of (t : thrown) : value :=
  match t with
  | TError e => default VUndef (e_data e)
  | TValue v => prop "data" v
  end.

(*@ dashboard/lib/format-error.ts 46 46 formatApiError *)
Definition message_of (t : thrown) : value :=
  match t with
  | TError e => VStr (e_message e)
  | TValue v => prop "message" v
  end.

(** The first test: an ApiError of this module, or an object with a [data] property or
    whose name is ApiError. *)
(*@ dashboard/lib/format-error.ts 14 17 formatApiError *)
Definition looks_like_api_error (t : thrown) : bool :=
  match t with
  | TError e =>
      match e_class e with CFormatApiError => true | _ => false end
      || (match e_data e with Some _ => true | None => false end
          || String.eqb (e_name e) "ApiError")
  | TValue v =>
      is_object v
      && (has_prop "data" v
          || match prop "name" v with VStr s => String.eqb s "ApiError" | _ => false end)
  end.

(** One element of a validation-error array; [None] when stringify throws. *)
(*@ dashboard/lib/format-error.ts 23 29 formatApiError *)
Definition detail_item (e : value) : option value :=
  match e with
  | VStr s => Some (VStr s)
  | VArr _ | VObj _ =>
      if truthy (prop "msg" e) then Some (prop "msg" e)
      else if truthy (prop "message" e) then Some (prop "message" e)
      else match stringify e with
           | JText t => Some (VStr t)
           | JUndefined => Some VUndef
           | JThrows => None
           end
  | _ => Some (VStr (to_string e))
  end.

(** The branches on a truthy [data.detail]. *)
(*@ dashboard/lib/format-error.ts 20 46 formatApiError *)
Definition format_detail (msg detail : value) : option value :=
  match detail with
  | VStr s => Some (VStr s)
  | VArr l =>
      match mapM detail_item l with
      | Some items => Some (VStr (join ". " (map join_elem items)))
      | None => None
      end
  | VObj _ =>
      if is_string (prop "msg" detail) then Some (prop "msg" detail)
      else if is_string (prop "message" detail) then Some (prop "message" detail)
      else match stringify detail with
           | JText t => Some (VStr t)
           | JUndefined => Some VUndef
           | JThrows => Some (v_or msg (VStr "An unexpected error occurred. Please try again."))
           end
  | _ =>
      let str := to_string detail in
      if String.eqb str "[object Object]"
      then Some (v_or msg (VStr "An unexpected error occurred."))
      else Some (VStr str)
  end.

(** [formatApiError]: [None] is an exception out of the function. *)
(*@ dashboard/lib/format-error.ts 13 64 formatApiError *)
Definition formatApiError (t : thrown) : option value :=
  if looks_like_api_error t then
    let data := data_of t in
    let msg := message_of t in
    if truthy (prop "detail" data) then format_detail msg (prop "detail" data)
    else if truthy (prop "message" data) && is_string (prop "message" data)
    then Some (prop "message" data)
    else Some (v_or msg (VStr "An unexpected API error occurred."))
  else
    match t with
    | TError e => Some (VStr (e_message e))
    | TValue (VStr s) => Some (VStr s)
    | TValue v =>
        if is_object v then
          match stringify v with
          | JText s =>
              if String.eqb s "{}" then Some (VStr "An unexpected error occurred.")
              else Some (VStr s)
          | JUndefined => Some VUndef
          | JThrows => Some (VStr "An unexpected error occurred. Please try again.")
          end
        else Some (VStr "An unexpected error occurred. Please try again.")
    end.

(** The string a page stores: [setError(formatApiError(err))] on a caught Error object. *)
Definition format_error (e : error_obj) : string :=
  match formatApiError (TError e) with
  | Some (VStr s) => s
  | Some v => to_string v
  | None => EmptyString
  end.

(** An Error whose payload came from [response.json()], or that has none. *)
Definition wire_error (e : error_obj) : bool :=
  match e_data e with
  | None | Some VUndef => true
  | Some d => json_value d
  end.

(** ** Lemmas *)

Lemma json_value_prop k v : json_value v = true -> prop k v = VUndef \/ json_value (prop k v) = true.
Proof.
  destruct v as [| | | | | | |o]; simpl; auto. intros H.
  induction o as [|[k' x] o IH]; simpl in *; [auto |].
  apply andb_true_iff in H as [H1 H2].
  destruct (String.eqb k k'); simpl; auto.
Qed.

Lemma detail_items_json l :
  forallb json_value l = true -> exists items, mapM detail_item l = Some items.
Proof.
  induction l as [|x l IH]; simpl; [by eexists |].
  intros [Hx Hl]%andb_true_iff. destruct (IH Hl) as [items Hi].
  assert (exists y, detail_item x = Some y) as [y Hy].
  { destruct x as [| | | | | |l'|o']; try (by eexists); unfold detail_item;
      do 2 (case_match; [by eexists |]).
    - destruct (stringify_json (VArr l') Hx) as [t ->]. by eexists.
    - destruct (stringify_json (VObj o') Hx) as [t ->]. by eexists. }
  eexists. rewrite Hy. simpl. rewrite Hi. reflexivity.
Qed.

Lemma format_detail_string (msg : string) d :
  json_value d = true -> exists s, format_detail (VStr msg) d = Some (VStr s).
Proof.
  intros Hd. destruct d as [| |b|n|n|s|l|o]; cbn [format_detail].
  - done.
  - case_match; eauto. unfold v_or. case_match; eauto.
  - case_match; eauto. unfold v_or. case_match; eauto.
  - case_match; eauto. unfold v_or. case_match; eauto.
  - done.
  - eauto.
  - destruct (detail_items_json l Hd) as [items ->]. eauto.
  - destruct (is_string (prop "msg" (VObj o))) eqn:E1.
    { destruct (prop "msg" (VObj o)); try done. eauto. }
    destruct (is_string (prop "message" (VObj o))) eqn:E2.
    { destruct (prop "message" (VObj o)); try done. eauto. }
    destruct (stringify_json (VObj o) Hd) as [t Ht].
    rewrite Ht. eauto.
Qed.

Lemma Z_to_string_filled z : Z_to_string z <> EmptyString.
Proof. unfold Z_to_string. destruct (Z.to_int z) as [[]|[]]; done. Qed.

Lemma truthy_string_filled s : truthy_str s = true -> s <> EmptyString.
Proof. by intros H ->. Qed.

Lemma v_or_string (s d : string) :
  d <> EmptyString -> exists x, v_or (VStr s) (VStr d) = VStr x /\ x <> EmptyString.
Proof.
  intros Hd. unfold v_or. cbn [truthy]. destruct (truthy_str s) eqn:E;
    [exists s; split; [done | by apply truthy_string_filled] | by exists d].
Qed.

(** A detail that is neither an array nor an object. *)
Definition scalar (v : value) : Prop := match v with VArr _ | VObj _ => False | _ => True end.

Lemma format_detail_scalar (msg : string) d :
  scalar d -> truthy d = true ->
  exists s, format_detail (VStr msg) d = Some (VStr s) /\ s <> EmptyString
    /\ (forall t, d = VStr t -> s = t).
Proof.
  destruct d as [| |b|n|n|t|l|o]; intros Hs Ht; try done; cbn [format_detail to_string];
    try (case_match;
         [destruct (v_or_string msg "An unexpected error occurred.") as (x & -> & ?); [done |];
          exists x; by split_and! |];
         eexists; split_and!; [done | | done]).
  - cbn in Ht. by rewrite Ht.
  - apply Z_to_string_filled.
  - apply Z_to_string_filled.
  - exists t. split_and!; [done | by apply truthy_string_filled | by intros ? [= ->]].
Qed.

(** The payload of a caught Error, as [response.json()] gives it. *)
Lemma wire_data e : wire_error e = true -> data_of (TError e) = VUndef \/ json_value (data_of (TError e)) = true.
Proof.
  unfold wire_error, data_of. destruct (e_data e) as [d|]; [| by left]. destruct d; simpl; auto.
Qed.

Lemma wire_detail e :
  wire_error e = true -> truthy (prop "detail" (data_of (TError e))) = true ->
  json_value (prop "detail" (data_of (TError e))) = true.
Proof.
  intros Hw Ht. destruct (wire_data e Hw) as [E|Hj]; [by rewrite E in Ht |].
  by destruct (json_value_prop "detail" _ Hj) as [E|]; [rewrite E in Ht |].
Qed.

(** Without a detail: the payload's message, or the Error's, or a text of its own. *)
Lemma format_without_detail e :
  looks_like_api_error (TError e) = true -> truthy (prop "detail" (data_of (TError e))) = false ->
  exists s, formatApiError (TError e) = Some (VStr s) /\ s <> EmptyString.
Proof.
  intros Hl Ht. unfold formatApiError. rewrite Hl, Ht.
  destruct (truthy (prop "message" (data_of (TError e)))) eqn:Hm; cbn [andb];
    [destruct (prop "message" (data_of (TError e))) as [| | | | |m| |] eqn:Em; cbn [is_string] |].
  6: { exists m. split; [done | by apply truthy_string_filled]. }
  all: destruct (v_or_string (e_message e) "An unexpected API error occurred.") as (x & Hx & ?); [done |];
       exists x; split; [exact (f_equal Some Hx) | done].
Qed.

(** ** Properties *)



End FormatError.
