(* ===== verification/JsNumber.v ===== *)
(** * JavaScript numbers

    A number that may have a fractional part is an IEEE 754 binary64 value, computed with
    the Standard Library's executable specification of floating-point arithmetic. Counters,
    sequence numbers and vote totals, which the dashboard only adds and compares, are
    integers ([Z]); [of_Z] is their conversion when a division follows. *)
From S2P Require Import Prelude.
From Stdlib Require Import SpecFloat Ascii String.

Definition number := spec_float.

Definition prec := 53.
Definition emax := 1024.

(** The double nearest to an integer. *)
Definition of_Z (z : Z) : number := binary_normalize prec emax z 0 false.

Definition num_mul (a b : number) : number := SFmul prec emax a b.
Definition num_div (a b : number) : number := SFdiv prec emax a b.

(** [a / b] and [a * b] on integer operands. *)
Definition div_ZZ (a b : Z) : number := num_div (of_Z a) (of_Z b).

(** [Math.round]: the nearest integer, ties towards plus infinity; [None] for NaN and the
    infinities. *)
Definition math_round (x : number) : option Z :=
  match x with
  | S754_zero _ => Some 0
  | S754_finite s m e =>
      let v := if s then Zneg m else Zpos m in
      Some (if 0 <=? e then v * 2 ^ e
            else (2 * v + 2 ^ (- e)) / (2 * 2 ^ (- e)))
  | _ => None
  end.

(** The digits of [x.toFixed(d)]: the integer nearest to |x| * 10^d, ties upwards. *)
Definition fixed_digits (d : nat) (m : positive) (e : Z) : Z :=
  let p := 10 ^ Z.of_nat d in
  if 0 <=? e then Zpos m * 2 ^ e * p
  else (2 * (Zpos m * p) + 2 ^ (- e)) / (2 * 2 ^ (- e)).

(** Puts the decimal point [d] digits from the right. *)
Definition place_point (d : nat) (n : Z) : string :=
  let p := 10 ^ Z.of_nat d in
  Z_to_string (n / p) ++s "." ++s pad_start d "0"%char (Z_to_string (n mod p)).

(** [x.toFixed(d)] for [d > 0] and |x| < 10^21. *)
Definition to_fixed (d : nat) (x : number) : string :=
  match x with
  | S754_zero _ => place_point d 0
  | S754_finite s m e =>
      (if s then "-" else EmptyString) ++s place_point d (fixed_digits d m e)
  | S754_infinity s => if s then "-Infinity" else "Infinity"
  | S754_nan => "NaN"
  end.

(** [Math.max(x, y)] away from NaN. *)
Definition num_max (x y : number) : number :=
  match SFcompare x y with Some Lt => y | Some _ => x | None => S754_nan end.

(** [Number.prototype.toString(16)] on a non-negative integer. *)
Fixpoint hex_digits (fuel : nat) (n : Z) (acc : string) : string :=
  match fuel with
  | O => acc
  | S f =>
      let acc' := String (let k := Z.to_nat (n mod 16) in
                          ascii_of_nat (if (k <? 10)%nat then 48 + k else 87 + k)) acc in
      if n <? 16 then acc' else hex_digits f (n / 16) acc'
  end.

Definition to_hex (n : Z) : string := hex_digits (S (Z.to_nat (Z.log2 n))) n EmptyString.
#[global] Arguments to_hex : simpl never.

(** ** Lemmas *)

Lemma hex_digits_truthy f n acc : truthy_str acc = true -> truthy_str (hex_digits f n acc) = true.
Proof.
  revert n acc. induction f as [|f IH]; intros n acc H; simpl; [done |].
  case_match; [done | by apply IH].
Qed.
