(* ===== verification/JsNumberFacts.v ===== *)
(** * Rounding of JavaScript numbers

    What binary64 arithmetic makes of the quotients and products the pages round to whole
    votes: for tallies below 2^40 [Math.round] gives the integer nearest to the exact
    quotient, so the floating-point detour loses nothing. *)
From S2P Require Import Prelude JsNumber.
From Stdlib Require Import SpecFloat.

(** ** Digits and right shifts *)

Lemma digits2_bounds p : 2 ^ (Zpos (digits2_pos p) - 1) <= Zpos p < 2 ^ Zpos (digits2_pos p).
Proof.
  induction p as [p IH|p IH|]; cbn [digits2_pos]; [| | by split].
  - rewrite Pos2Z.inj_succ. replace (Z.succ _ - 1) with (Z.succ (Zpos (digits2_pos p) - 1)) by lia.
    rewrite !Z.pow_succ_r by lia. lia.
  - rewrite Pos2Z.inj_succ. replace (Z.succ _ - 1) with (Z.succ (Zpos (digits2_pos p) - 1)) by lia.
    rewrite !Z.pow_succ_r by lia. lia.
Qed.

Lemma Zdigits2_pow m d : 0 <= d -> 2 ^ d <= m < 2 ^ (d + 1) -> Zdigits2 m = d + 1.
Proof.
  intros Hd Hm. destruct m as [|p|p]; [pose proof (Z.pow_pos_nonneg 2 d); lia | | lia].
  pose proof (digits2_bounds p) as Hb. cbn [Zdigits2]. set (k := Zpos (digits2_pos p)) in *.
  assert (k - 1 < d + 1) by (apply (Z.pow_lt_mono_r_iff 2); lia).
  assert (d < k) by (apply (Z.pow_lt_mono_r_iff 2); lia). lia.
Qed.

Lemma shr_1_m r : 0 <= shr_m r -> shr_m (shr_1 r) = shr_m r / 2.
Proof.
  destruct r as [m b s]. cbn [shr_m]. intros Hm. destruct m as [|[p|p|]|p]; cbn; try done; try lia.
  - rewrite (Pos2Z.inj_xI p). apply (Z.div_unique _ _ _ 1); lia.
  - rewrite (Pos2Z.inj_xO p). apply (Z.div_unique _ _ _ 0); lia.
Qed.

Lemma iter_pos_nat {A} (f : A -> A) p x : iter_pos f p x = Nat.iter (Pos.to_nat p) f x.
Proof.
  revert x. induction p as [p IH|p IH|]; intros x; cbn [iter_pos]; [| | done].
  - rewrite !IH, Pos2Nat.inj_xI, <- Nat.iter_add.
    replace (S (2 * Pos.to_nat p)) with (Pos.to_nat p + Pos.to_nat p + 1)%nat by lia.
    by rewrite (Nat.iter_add (Pos.to_nat p + Pos.to_nat p)).
  - rewrite !IH, Pos2Nat.inj_xO, <- Nat.iter_add. f_equal. lia.
Qed.

Lemma iter_shr_m k r : 0 <= shr_m r ->
  shr_m (Nat.iter k shr_1 r) = shr_m r / 2 ^ Z.of_nat k /\ 0 <= shr_m (Nat.iter k shr_1 r).
Proof.
  intros Hr. induction k as [|k [IH Hk]]; [by rewrite Z.div_1_r |].
  rewrite Nat.iter_succ, shr_1_m, IH by done. split; [| apply Z.div_pos; [|lia]; apply Z.div_pos; lia].
  rewrite Nat2Z.inj_succ, Z.pow_succ_r, Z.mul_comm, Z.div_div by lia. done.
Qed.

(** Shifting out zeros leaves nothing behind. *)
Lemma iter_shr_exact k a :
  0 < a -> Nat.iter k shr_1 (Build_shr_record (a * 2 ^ Z.of_nat k) false false)
  = Build_shr_record a false false.
Proof.
  intros Ha. revert a Ha. induction k as [|k IH]; intros a Ha; [by rewrite Z.mul_1_r |].
  rewrite Nat.iter_succ, Nat2Z.inj_succ, Z.pow_succ_r, Z.mul_assoc, IH by lia.
  destruct a as [|p|p]; [lia | | lia]. by rewrite Z.mul_comm.
Qed.

Lemma shr_nonneg_m r e n : 0 <= n -> 0 <= shr_m r ->
  shr_m (fst (shr r e n)) = shr_m r / 2 ^ n /\ snd (shr r e n) = e + n.
Proof.
  intros Hn Hr. destruct n as [|n|n]; [| | lia]; cbn.
  - rewrite Z.div_1_r. split; [done | lia].
  - rewrite iter_pos_nat. split; [| done].
    destruct (iter_shr_m (Pos.to_nat n) r Hr) as [-> _]. by rewrite positive_nat_Z.
Qed.

Lemma shr_record_m m l : shr_m (shr_record_of_loc m l) = m.
Proof. by destruct l as [|[]]. Qed.

Lemma round_even_cases m l : round_nearest_even m l = m \/ round_nearest_even m l = m + 1.
Proof. destruct l as [|[]]; cbn; auto. destruct (Z.even m); auto. Qed.

(** ** Rounding to 53 bits *)

(** In the range of normal numbers [shr_fexp] drops the digits beyond the 53rd. *)
Lemma shr_fexp_m m e l d :
  0 <= d -> 2 ^ d <= m < 2 ^ (d + 1) -> 52 <= d -> -1074 <= e + d - 52 ->
  shr_m (fst (shr_fexp prec emax m e l)) = m / 2 ^ (d - 52)
  /\ snd (shr_fexp prec emax m e l) = e + (d - 52).
Proof.
  intros Hd Hm Hd52 He. unfold shr_fexp, fexp, emin, prec, emax.
  rewrite (Zdigits2_pow m d) by done.
  replace (Z.max _ _ - e) with (d - 52) by lia.
  destruct (shr_nonneg_m (shr_record_of_loc m l) e (d - 52)) as [H1 H2]; [lia | |].
  - rewrite shr_record_m. pose proof (Z.pow_pos_nonneg 2 d). lia.
  - by rewrite H1, H2, shr_record_m.
Qed.

(** The double next to [m * 2^e] (and something below its last digit). *)
Lemma round_close m e l d :
  52 <= d < 200 -> 2 ^ d <= m < 2 ^ (d + 1) -> -800 <= e <= 700 ->
  exists m' k, 0 <= k /\ binary_round_aux prec emax false m e l = S754_finite false m' (e + k)
    /\ - m <= (Zpos m' * 2 ^ k - m) * 2 ^ 51 <= m.
Proof.
  intros Hd Hm He. unfold binary_round_aux.
  destruct (shr_fexp_m m e l d) as [Hq He']; [lia | done | lia | lia |].
  destruct (shr_fexp prec emax m e l) as [r e'] eqn:E1. cbn [fst snd] in Hq, He'. subst e'.
  set (t := round_nearest_even (shr_m r) (loc_of_shr_record r)).
  set (P := 2 ^ (d - 52)). assert (0 < P) as HP by (apply Z.pow_pos_nonneg; lia).
  assert (2 ^ d = 2 ^ 52 * P) as Hpd by (unfold P; rewrite <- Z.pow_add_r by lia; f_equal; lia).
  assert (2 ^ (d + 1) = 2 ^ 53 * P) as Hpd1 by (unfold P; rewrite <- Z.pow_add_r by lia; f_equal; lia).
  assert (t = m / P \/ t = m / P + 1) as Ht.
  { unfold t. rewrite Hq. fold P. apply round_even_cases. }
  pose proof (Z.div_mod m P ltac:(lia)) as Hdm. pose proof (Z.mod_pos_bound m P HP) as Hmod.
  assert (2 ^ 52 <= m / P) as Hlo by (apply Z.div_le_lower_bound; lia).
  assert (m / P < 2 ^ 53) as Hhi by (apply Z.div_lt_upper_bound; lia).
  assert (exists n, (n = 0 \/ n = 1) /\ 2 ^ (52 + n) <= t < 2 ^ (52 + n + 1)) as (n & Hn & Htn).
  { destruct (Z.lt_ge_cases t (2 ^ 53)); [exists 0 | exists 1]; (split; [auto |]); simpl; lia. }
  destruct (shr_fexp_m t (e + (d - 52)) loc_Exact (52 + n)) as [Hq2 He2]; [lia | done | lia | lia |].
  destruct (shr_fexp prec emax t (e + (d - 52)) loc_Exact) as [r2 e2] eqn:E2.
  cbn [fst snd] in Hq2, He2. subst e2. rewrite Hq2.
  replace (52 + n - 52) with n by lia.
  pose proof (Z.div_mod t (2 ^ n)) as Hdm2. pose proof (Z.mod_pos_bound t (2 ^ n)) as Hmod2.
  assert (2 ^ n = 1 \/ 2 ^ n = 2) as Hpn by (destruct Hn as [-> | ->]; auto).
  destruct (t / 2 ^ n) as [|p|p] eqn:Ep; [lia | | lia].
  exists p, (d - 52 + n). split; [lia |]. split.
  - rewrite (proj2 (Z.leb_le _ _)) by (unfold emax, prec; lia). f_equal. lia.
  - rewrite Z.pow_add_r by lia. fold P. destruct Ht as [Ht|Ht], Hpn as [Hpn|Hpn]; rewrite Hpn in *; nia.
Qed.

(** When the digits beyond the 53rd are zeros nothing is lost. *)
Lemma round_exact a j e :
  2 ^ 52 <= a < 2 ^ 53 -> 0 <= j < 200 -> -800 <= e <= 700 ->
  binary_round_aux prec emax false (a * 2 ^ j) e loc_Exact
  = S754_finite false (Z.to_pos a) (e + j).
Proof.
  intros Ha Hj He.
  assert (forall i e, 0 <= i < 200 -> -800 <= e <= 900 ->
    shr_fexp prec emax (a * 2 ^ i) e loc_Exact = (Build_shr_record a false false, e + i)) as H.
  { clear e He. intros i e Hi He. unfold shr_fexp, fexp, emin, prec, emax.
    rewrite (Zdigits2_pow _ (52 + i)); [| lia |].
    - replace (Z.max _ _ - e) with i by lia. destruct i as [|i|i]; [| | lia]; cbn [shr shr_record_of_loc].
      + rewrite Z.mul_1_r, Z.add_0_r. done.
      + rewrite iter_pos_nat, <- (positive_nat_Z i), iter_shr_exact by lia. done.
    - rewrite Z.add_shuffle0, !Z.pow_add_r by lia. pose proof (Z.pow_pos_nonneg 2 i). nia. }
  unfold binary_round_aux. rewrite H by lia. cbn [shr_m loc_of_shr_record round_nearest_even].
  pose proof (H 0 (e + j) ltac:(lia) ltac:(lia)) as H0. rewrite Z.mul_1_r in H0. rewrite H0.
  cbn [shr_m]. destruct a as [|p|p]; [lia | | lia].
  rewrite (proj2 (Z.leb_le _ _)) by (unfold emax, prec; lia). f_equal. lia.
Qed.

Lemma iter_xO n p : Zpos (Pos.iter xO p n) = Zpos p * 2 ^ Zpos n.
Proof.
  induction n as [|n IH] using Pos.peano_ind; [by rewrite Z.mul_comm |].
  rewrite Pos.iter_succ, Pos2Z.inj_xO, IH, Pos2Z.inj_succ, Z.pow_succ_r by lia. ring.
Qed.

(** Integers of up to 53 bits are doubles. *)
Lemma of_Z_exact v :
  0 < v < 2 ^ 53 ->
  exists m e, of_Z v = S754_finite false (Z.to_pos m) e
    /\ 2 ^ 52 <= m < 2 ^ 53 /\ -52 <= e <= 0 /\ m = v * 2 ^ (- e).
Proof.
  intros Hv. destruct v as [|p|p]; [lia | | lia].
  pose proof (digits2_bounds p) as Hb. set (d := Zpos (digits2_pos p)) in *.
  assert (0 < d) by (unfold d; lia).
  assert (d - 1 < 53) by (apply (Z.pow_lt_mono_r_iff 2); lia).
  exists (Zpos p * 2 ^ (53 - d)), (d - 53).
  assert (2 ^ 52 <= Zpos p * 2 ^ (53 - d) < 2 ^ 53) as Hm.
  { pose proof (Z.pow_pos_nonneg 2 (53 - d)). 
    replace (2 ^ 52) with (2 ^ (d - 1) * 2 ^ (53 - d)) by (rewrite <- Z.pow_add_r by lia; f_equal; lia).
    replace (2 ^ 53) with (2 ^ d * 2 ^ (53 - d)) by (rewrite <- Z.pow_add_r by lia; f_equal; lia).
    nia. }
  split; [| split; [done | split; [lia | do 2 f_equal; lia]]].
  unfold of_Z, binary_normalize, binary_round, shl_align, fexp, emin. fold d.
  replace (Z.max _ _ - 0) with (d - 53) by (unfold prec, emax; lia).
  pose proof (round_exact (Zpos p * 2 ^ (53 - d)) 0 (d - 53) Hm ltac:(lia) ltac:(lia)) as Hr.
  rewrite Z.mul_1_r, Z.add_0_r in Hr. rewrite <- Hr. clear Hr.
  destruct (d - 53) as [|n|n] eqn:En; [| lia |].
  - replace (53 - d) with 0 by lia. by rewrite Z.mul_1_r.
  - replace (53 - d) with (Zpos n) by lia.
    replace (Z.max _ _) with (Zneg n) by (unfold prec, emax; lia). by rewrite iter_xO.
Qed.

(** ** [Math.round] of a share of a tally *)

(** [Math.round] from bounds on the value, scaled by [2^K] to be integers. *)
Lemma math_round_spec m e K z :
  0 <= K -> 0 <= e + K ->
  (2 * z - 1) * 2 ^ K <= 2 * (Zpos m * 2 ^ (e + K)) < (2 * z + 1) * 2 ^ K ->
  math_round (S754_finite false m e) = Some z.
Proof.
  intros HK HeK Hz. cbn [math_round]. f_equal.
  pose proof (Z.pow_pos_nonneg 2 K ltac:(lia) HK).
  pose proof (Z.pow_pos_nonneg 2 (e + K) ltac:(lia) HeK).
  destruct (0 <=? e) eqn:E; reflect_bool.
  - rewrite Z.pow_add_r in Hz by lia. pose proof (Z.pow_pos_nonneg 2 e). nia.
  - assert (2 ^ K = 2 ^ (e + K) * 2 ^ (- e)) as HD by (rewrite <- Z.pow_add_r by lia; f_equal; lia).
    pose proof (Z.pow_pos_nonneg 2 (- e)). rewrite HD in Hz.
    set (D := 2 ^ (- e)) in *. set (A := 2 ^ (e + K)) in *.
    assert ((2 * z - 1) * D <= 2 * Zpos m < (2 * z + 1) * D) by nia.
    symmetry. apply (Z.div_unique _ _ _ (2 * Zpos m + D - z * (2 * D))); nia.
Qed.

(** The integer nearest to [v * n / d], ties upwards. *)
Definition nearest (v n d : Z) : Z := (2 * (v * n) + d) / (2 * d).

(** An approximation this close rounds like the fifths it approximates, none of which is
    half-way between two integers. *)
Lemma nearest_close v n V vC :
  0 < v < 2 ^ 40 -> 0 < n <= 5 ->
  - v * 2 ^ 70 <= 5 * vC - v * n * 2 ^ 120 <= v * 2 ^ 70 -> - vC <= (V - vC) * 2 ^ 51 <= vC ->
  (2 * nearest v n 5 - 1) * 2 ^ 120 <= 2 * V < (2 * nearest v n 5 + 1) * 2 ^ 120.
Proof.
  intros Hv Hn HC HV. unfold nearest.
  assert (v * n <= 2 ^ 43) as Hvn by nia. set (vn := v * n) in *.
  pose proof (Z.div_mod (2 * vn + 5) (2 * 5) ltac:(lia)) as Hz.
  pose proof (Z.mod_pos_bound (2 * vn + 5) (2 * 5) ltac:(lia)).
  set (z := (2 * vn + 5) / (2 * 5)) in *.
  assert (10 * z + 1 <= 2 * vn + 5 <= 10 * z + 9) by lia. clear Hz. 
  cbn in *. lia.
Qed.

(** The product of an integer of at most 40 bits and a constant whose double [c * 2^ec] is
    close to the fraction [n / 5]. *)
Lemma round_mul_fifths v n c ec :
  0 < v < 2 ^ 40 -> 0 < n <= 5 -> -60 <= ec <= -52 -> 2 ^ 52 <= Zpos c < 2 ^ 53 ->
  let C := Zpos c * 2 ^ (120 + ec) in
  - 2 ^ 70 <= 5 * C - n * 2 ^ 120 <= 2 ^ 70 ->
  math_round (num_mul (of_Z v) (S754_finite false c ec)) = Some (nearest v n 5).
Proof.
  intros Hv Hn Hec Hc C HC.
  destruct (of_Z_exact v) as (m & e & -> & Hm & He & Hmv); [lia |].
  unfold num_mul, SFmul. cbn [xorb].
  assert (Zpos (Z.to_pos m * c) = m * Zpos c) as Hmc by (rewrite Pos2Z.inj_mul; lia).
  assert (exists d, 52 <= d < 200 /\ 2 ^ d <= m * Zpos c < 2 ^ (d + 1)) as (d & Hd & Hdm).
  { destruct (Z.lt_ge_cases (m * Zpos c) (2 ^ 105)); [exists 104 | exists 105];
      (split; [lia |]); simpl; nia. }
  destruct (round_close (Zpos (Z.to_pos m * c)) (e + ec) loc_Exact d) as (m' & k & Hk & -> & Hclose);
    [done | by rewrite Hmc | lia |].
  rewrite Hmc in Hclose. 
  apply (math_round_spec m' (e + ec + k) 120); [lia | lia |].
  replace (e + ec + k + 120) with (k + (120 + ec + e)) by lia. rewrite Z.pow_add_r, (Z.mul_assoc (Zpos m')) by lia.
  assert (m * Zpos c * 2 ^ (120 + ec + e) = v * C) as HvC.
  { unfold C. replace (2 ^ (120 + ec)) with (2 ^ (- e) * 2 ^ (120 + ec + e)); [rewrite Hmv; ring |].
    rewrite <- Z.pow_add_r by lia. f_equal. lia. }
  pose proof (Z.pow_pos_nonneg 2 (120 + ec + e)). set (P := 2 ^ (120 + ec + e)) in *.
  assert (- (v * C) <= (Zpos m' * 2 ^ k * P - v * C) * 2 ^ 51 <= v * C) as HV.
  { rewrite <- HvC. nia. }
  assert (- v * 2 ^ 70 <= 5 * (v * C) - v * n * 2 ^ 120 <= v * 2 ^ 70) as HC' by nia.
  by apply (nearest_close v n _ (v * C)).
Qed.

(** A multiple of 1/4, a power of two, is computed exactly. *)
Lemma round_mul_quarter v :
  0 < v < 2 ^ 40 -> math_round (num_mul (of_Z v) (div_ZZ 1 4)) = Some (nearest v 1 4).
Proof.
  intros Hv. change (div_ZZ 1 4) with (S754_finite false (2 ^ 52)%positive (-54)).
  destruct (of_Z_exact v) as (m & e & -> & Hm & He & Hmv); [lia |].
  unfold num_mul, SFmul. cbn [xorb].
  replace (Zpos (Z.to_pos m * 2 ^ 52)) with (m * 2 ^ 52) by (rewrite Pos2Z.inj_mul; lia).
  rewrite round_exact by lia.
  apply (math_round_spec _ _ 120); [lia | lia |].
  rewrite Z2Pos.id by lia.
  replace (m * 2 ^ (e + -54 + 52 + 120)) with (v * 2 ^ 118).
  - unfold nearest. pose proof (Z.div_mod (2 * (v * 1) + 4) (2 * 4) ltac:(lia)).
    pose proof (Z.mod_pos_bound (2 * (v * 1) + 4) (2 * 4) ltac:(lia)).
    set (z := (2 * (v * 1) + 4) / (2 * 4)) in *. cbn. lia.
  - rewrite Hmv, <- Z.mul_assoc, <- Z.pow_add_r by lia. do 2 f_equal. lia.
Qed.

(** The quotient by five. *)
Lemma round_div_five v :
  0 < v < 2 ^ 40 -> math_round (div_ZZ v 5) = Some (nearest v 1 5).
Proof.
  intros Hv. unfold div_ZZ. change (of_Z 5) with (S754_finite false (5 * 2 ^ 50)%positive (-50)).
  destruct (of_Z_exact v) as (m & e & -> & Hm & He & Hmv); [lia |].
  unfold num_div, SFdiv, SFdiv_core_binary. cbn [xorb].
  rewrite Z2Pos.id, (Zdigits2_pow m 52) by (done || lia).
  change (Zdigits2 (Zpos (5 * 2 ^ 50)%positive)) with 53.
  replace (fexp prec emax (52 + 1 + e - (53 + -50)) `min` (e - -50)) with (e - 3)
    by (unfold fexp, emin, prec, emax; lia).
  replace (e - -50 - (e - 3)) with 53 by lia. rewrite Z.shiftl_mul_pow2 by lia.
  change (Zpos (5 * 2 ^ 50)) with (5 * 2 ^ 50).
  pose proof (Z_div_mod (m * 2 ^ 53) (5 * 2 ^ 50) ltac:(lia)) as Hq.
  destruct (Z.div_eucl (m * 2 ^ 53) (5 * 2 ^ 50)) as [q r]. set (l := new_location _ _).
  destruct Hq as [Hq Hr].
  assert (2 ^ 52 <= q < 2 ^ 53 \/ 2 ^ 53 <= q < 2 ^ 54) as Hqd by (cbn in *; lia).
  assert (exists d, 52 <= d < 200 /\ 2 ^ d <= q < 2 ^ (d + 1)) as (d & Hd & Hdq).
  { destruct Hqd; [exists 52 | exists 53]; (split; [lia | done]). }
  destruct (round_close q (e - 3) l d) as (m' & k & Hk & -> & Hclose); [done | done | lia |].
  apply (math_round_spec m' (e - 3 + k) 120); [lia | lia |].
  replace (e - 3 + k + 120) with (k + (117 + e)) by lia. rewrite Z.pow_add_r, (Z.mul_assoc (Zpos m')) by lia.
  assert (m * 8 * 2 ^ (117 + e) = v * 2 ^ 120) as HvC.
  { rewrite Hmv. replace (2 ^ 120) with (2 ^ (- e) * 8 * 2 ^ (117 + e)); [ring |].
    change 8 with (2 ^ 3). rewrite <- !Z.pow_add_r by lia. f_equal. lia. }
  pose proof (Z.pow_pos_nonneg 2 (117 + e)). set (P := 2 ^ (117 + e)) in *.
  assert (5 * q <= 8 * m <= 5 * q + 5) as Hq5 by (cbn in *; lia).
  assert (2 ^ 52 * P <= m * P) by nia.
  apply (nearest_close v 1 _ (q * P)); [done | done | | ]; [| clear - Hclose H; nia].
  assert (5 * (q * P) <= 8 * (m * P) <= 5 * (q * P) + 5 * P) by nia.
  assert (v * 2 ^ 120 = 8 * (m * P)) as Hv8 by lia.
  rewrite Z.mul_1_r, Hv8. cbn in *. lia.
Qed.

(** The doubles of one to five fifths. *)
Lemma round_of_fifths v r :
  0 < v < 2 ^ 40 -> 1 <= r <= 5 -> math_round (num_mul (of_Z v) (div_ZZ r 5)) = Some (nearest v r 5).
Proof.
  intros Hv Hr. assert (r = 1 \/ r = 2 \/ r = 3 \/ r = 4 \/ r = 5) as H by lia.
  destruct H as [->|[->|[->|[->| ->]]]];
    match goal with |- context [div_ZZ ?r 5] =>
      let x := eval vm_compute in (div_ZZ r 5) in change (div_ZZ r 5) with x end;
    (apply round_mul_fifths; [done | lia | lia | lia | cbn; lia]).
Qed.

(** ** The nearest integer to a share *)

Lemma nearest_bounds v n d : 0 < d -> - d <= 2 * (d * nearest v n d - v * n) <= d.
Proof.
  intros Hd. unfold nearest.
  pose proof (Z.div_mod (2 * (v * n) + d) (2 * d) ltac:(lia)).
  pose proof (Z.mod_pos_bound (2 * (v * n) + d) (2 * d) ltac:(lia)). lia.
Qed.

Lemma nearest_mono v n v' n' d : 0 < d -> v * n <= v' * n' -> nearest v n d <= nearest v' n' d.
Proof. intros Hd Hv. unfold nearest. apply Z.div_le_mono; lia. Qed.

Lemma nearest_whole v d : 0 < d -> nearest v d d = v.
Proof. intros Hd. unfold nearest. symmetry. apply (Z.div_unique _ _ _ d); lia. Qed.

Lemma nearest_zero n d : 0 < d -> nearest 0 n d = 0.
Proof. intros Hd. unfold nearest. rewrite Z.mul_0_l. apply Z.div_small. lia. Qed.

(** A share of a tally lies between nothing and the tally. *)
Lemma nearest_part v n d : 0 <= v -> 0 <= n <= d -> 0 < d -> 0 <= nearest v n d <= v.
Proof.
  intros Hv Hn Hd. split.
  - rewrite <- (nearest_zero n d Hd). apply nearest_mono; nia.
  - rewrite <- (nearest_whole v d Hd) at 2. apply nearest_mono; nia.
Qed.
