(* ===== verification/JsDate.v ===== *)
(** * Dates

    [new Date(ms).toISOString()] on the Gregorian calendar, for years 0 to 9999. *)
From S2P Require Import Prelude.
From Stdlib Require Import Ascii String.

(** Year, month and day of a number of days since 1970-01-01. *)
Definition civil_of_days (days : Z) : Z * Z * Z :=
  let z := days + 719468 in
  let era := z / 146097 in
  let doe := z mod 146097 in
  let yoe := (doe - doe / 1460 + doe / 36524 - doe / 146096) / 365 in
  let doy := doe - (365 * yoe + yoe / 4 - yoe / 100) in
  let mp := (5 * doy + 2) / 153 in
  let d := doy - (153 * mp + 2) / 5 + 1 in
  let m := if mp <? 10 then mp + 3 else mp - 9 in
  let y := yoe + era * 400 + (if m <=? 2 then 1 else 0) in
  (y, m, d).

Definition pad (n : nat) (z : Z) : string := pad_start n "0"%char (Z_to_string z).

Definition to_iso (ms : Z) : string :=
  let '(y, m, d) := civil_of_days (ms / 86400000) in
  let r := ms mod 86400000 in
  pad 4 y ++s "-" ++s pad 2 m ++s "-" ++s pad 2 d ++s "T"
  ++s pad 2 (r / 3600000) ++s ":" ++s pad 2 (r / 60000 mod 60) ++s ":"
  ++s pad 2 (r / 1000 mod 60) ++s "." ++s pad 3 (r mod 1000) ++s "Z".
#[global] Arguments to_iso : simpl never.

Example to_iso_epoch : to_iso 0 = "1970-01-01T00:00:00.000Z"%string.
Proof. reflexivity. Qed.

Example to_iso_leap : to_iso 1709210096789 = "2024-02-29T12:34:56.789Z"%string.
Proof. reflexivity. Qed.
