(* ===== verification/Types.v ===== *)
(** * The API contract: [lib/types.ts]

    One record per interface the modelled components read, field by field; a union of
    string literals is an inductive type. [string | null] is [option string], a string
    field that is only displayed stays a string, dates are ISO strings. *)
From S2P Require Import Prelude JsValue JsNumber.
From Stdlib Require Import String.

(*@ dashboard/lib/types.ts 6 6 Role *)
Inductive Role := ADMIN | AUDITOR | OBSERVER.

(*@ dashboard/lib/types.ts 8 15 ElectionState *)
Inductive ElectionState :=
| CREATED | CONFIGURED | LOCKED | OPEN | SUSPENDED | CLOSED | PUBLISHED.

(*@ dashboard/lib/types.ts 17 21 DeviceStatus *)
Inductive DeviceStatus := D_REGISTERED | D_ACTIVE | D_SUSPENDED | D_REVOKED.

#[export] Instance Role_eq_dec : EqDecision Role. Proof. solve_decision. Defined.
#[export] Instance ElectionState_eq_dec : EqDecision ElectionState. Proof. solve_decision. Defined.
#[export] Instance DeviceStatus_eq_dec : EqDecision DeviceStatus. Proof. solve_decision. Defined.

(** The string each literal is written as. *)
Definition role_str (r : Role) : string :=
  match r with ADMIN => "ADMIN" | AUDITOR => "AUDITOR" | OBSERVER => "OBSERVER" end.

Definition election_state_str (s : ElectionState) : string :=
  match s with
  | CREATED => "CREATED" | CONFIGURED => "CONFIGURED" | LOCKED => "LOCKED" | OPEN => "OPEN"
  | SUSPENDED => "SUSPENDED" | CLOSED => "CLOSED" | PUBLISHED => "PUBLISHED"
  end.

Definition device_status_str (s : DeviceStatus) : string :=
  match s with
  | D_REGISTERED => "REGISTERED" | D_ACTIVE => "ACTIVE"
  | D_SUSPENDED => "SUSPENDED" | D_REVOKED => "REVOKED"
  end.

(*@ dashboard/lib/types.ts 23 29 UserResponse *)
Record UserResponse := {
  u_id : string; u_username : string; u_role : Role; u_is_active : bool; u_created_at : string }.

(*@ dashboard/lib/types.ts 31 34 TokenResponse *)
Record TokenResponse := { access_token : string; token_type : string }.

(*@ dashboard/lib/types.ts 36 42 CandidateResponse *)
Record CandidateResponse := {
  c_id : string; c_name : string; c_party : option string; c_symbol : option string;
  c_position : Z }.

(*@ dashboard/lib/types.ts 44 49 CandidateCreate *)
Record CandidateCreate := {
  cc_name : string; cc_party : option string; cc_symbol : option string; cc_position : Z }.

(*@ dashboard/lib/types.ts 51 65 ElectionResponse *)
Record ElectionResponse := {
  e_id : string; e_title_name : option string; e_title : option string;
  e_description : option string; e_state : ElectionState;
  e_configuration_hash : option string; e_device_count : Z; e_ballot_count : Z;
  e_created_at : string; e_opened_at : option string; e_closed_at : option string;
  e_published_at : option string; e_candidates : list CandidateResponse }.

(** [all.find((e) => e.id === id) || all[0]]. *)
Definition find_or_first (id : string) (all : list ElectionResponse) : option ElectionResponse :=
  match find_first (fun e => String.eqb (e_id e) id) all with
  | Some e => Some e
  | None => head all
  end.

(*@ dashboard/lib/types.ts 67 78 DeviceResponse *)
Record DeviceResponse := {
  d_id : string; d_election_id : string; d_name : string; d_status : DeviceStatus;
  d_device_hash : option string; d_last_sequence_number : Z; d_total_votes_cast : Z;
  d_registered_at : string; d_activated_at : option string; d_last_seen_at : option string }.

(*@ dashboard/lib/types.ts 80 84 DeviceRegister *)
Record DeviceRegister := { dr_id : string; dr_name : string; dr_device_hash : option string }.

(*@ dashboard/lib/types.ts 90 101 AuditEntryResponse *)
Record AuditEntryResponse := {
  a_id : Z; a_election_id : string; a_event_type : string; a_event_data : option string;
  a_actor : option string; a_device_id : option string; a_sequence_number : Z;
  a_timestamp : string; a_previous_hash : option string; a_entry_hash : string }.

(*@ dashboard/lib/types.ts 103 109 AuditVerificationResponse *)
Record AuditVerificationResponse := {
  av_election_id : string; av_total_entries : Z; av_is_intact : bool;
  av_first_broken_sequence : option Z; av_details : string }.

(*@ dashboard/lib/types.ts 111 117 ReconciliationResult *)
Record ReconciliationResult := {
  rr_total_ballots : Z; rr_sum_candidate_totals : Z; rr_sum_device_totals : Z;
  rr_is_exact_match : bool; rr_status : string }.

(*@ dashboard/lib/types.ts 119 126 CandidateResult *)
Record CandidateResult := {
  cr_candidate_id : string; cr_candidate_name : string; cr_party : option string;
  cr_symbol : option string; cr_vote_count : Z; cr_percentage : number }.

(*@ dashboard/lib/types.ts 128 132 DeviceResult *)
Record DeviceResult := {
  dres_device_id : string; dres_device_name : string; dres_ballot_count : Z }.

(*@ dashboard/lib/types.ts 134 151 ResultManifestResponse *)
Record ResultManifestResponse := {
  m_id : string; m_election_id : string; m_total_ballots : Z;
  m_candidate_totals : string; m_device_totals : string;
  m_reconciliation_status : string; m_audit_chain_status : string;
  m_configuration_hash : string; m_manifest_hash : string;
  m_digital_signature : option string; m_generated_at : string;
  m_verified_at : option string; m_verified_by : option string;
  m_candidate_results : list CandidateResult; m_device_results : list DeviceResult;
  m_reconciliation : ReconciliationResult }.

(*@ dashboard/lib/types.ts 153 162 VerificationResponse *)
Record VerificationResponse := {
  v_election_id : string; v_config_hash_valid : bool; v_audit_chain_intact : bool;
  v_reconciliation_passed : bool; v_tally_independently_verified : bool;
  v_overall_status : string; v_manifest : option ResultManifestResponse;
  v_details : list string }.

(*@ dashboard/lib/types.ts 164 173 SessionResponse *)
Record SessionResponse := {
  s_id : string; s_election_id : string; s_device_id : string; s_session_token : string;
  s_voter_credential : string; s_status : string; s_authorized_at : string;
  s_voted_at : option string }.

(*@ dashboard/lib/types.ts 175 179 HealthCheckResponse *)
Record HealthCheckResponse := { h_status : string; h_app : string; h_version : string }.

(*@ dashboard/lib/types.ts 181 185 WsTicketResponse *)
Record WsTicketResponse := { ws_ticket : string; ws_expires_in : Z; ws_election_id : option string }.

(*@ dashboard/lib/types.ts 188 196 BallotExportItem *)
Record BallotExportItem := {
  b_id : string; b_session_id : string; b_device_id : string; b_candidate_id : string;
  b_sequence_number : Z; b_ballot_hash : string; b_recorded_at : string }.

(*@ dashboard/lib/types.ts 198 209 AuditExportItem *)
Record AuditExportItem := {
  ax_id : string; ax_sequence_number : Z; ax_event_type : string;
  ax_event_data : option string; ax_actor : option string; ax_device_id : option string;
  ax_timestamp : string; ax_previous_hash : option string; ax_entry_hash : string }.

(*@ dashboard/lib/types.ts 211 220 DeviceExportItem *)
Record DeviceExportItem := {
  dx_id : string; dx_name : string; dx_status : string; dx_last_sequence_number : Z;
  dx_total_votes_cast : Z; dx_registered_at : string; dx_activated_at : option string;
  dx_last_seen_at : option string }.

(*@ dashboard/lib/types.ts 222 228 CandidateExportItem *)
Record CandidateExportItem := {
  cx_id : string; cx_name : string; cx_party : option string; cx_symbol : option string;
  cx_position : Z }.

(*@ dashboard/lib/types.ts 230 242 ElectionExportMeta *)
Record ElectionExportMeta := {
  em_id : string; em_name : string; em_description : option string; em_state : string;
  em_configuration_hash : option string; em_total_ballots : Z; em_created_at : string;
  em_locked_at : option string; em_opened_at : option string; em_closed_at : option string;
  em_published_at : option string }.

(** The [manifest: any | null] of an export, with the two fields the verifiers read. *)
Record ExportManifest := { xm_total_ballots : Z; xm_digital_signature : option string }.

(** A package may come from an uploaded file, so every key the verifiers guard with [?.],
    [||] or a truthiness test can be missing. *)
(*@ dashboard/lib/types.ts 244 254 ElectionExportResponse *)
Record ElectionExportResponse := {
  x_export_version : option string; x_exported_at : option string;
  x_election : option ElectionExportMeta; x_candidates : option (list CandidateExportItem);
  x_devices : option (list DeviceExportItem); x_ballots : option (list BallotExportItem);
  x_audit_log : option (list AuditExportItem); x_manifest : option ExportManifest;
  x_export_hash : option string }.

(*@ dashboard/lib/types.ts 260 266 PublicKeyInfoResponse *)
Record PublicKeyInfoResponse := {
  pk_key_id : string; pk_algorithm : string; pk_public_key_hex : string;
  pk_fingerprint : string; pk_status : string }.

(*@ dashboard/lib/types.ts 268 282 SignedManifestResponse *)
Record SignedManifestResponse := {
  sm_manifest_id : string; sm_election_id : string; sm_manifest_hash : string;
  sm_algorithm : option string; sm_key_id : option string; sm_public_key : option string;
  sm_signature : option string; sm_fingerprint : option string;
  sm_signed_payload : value;
  sm_signed_at : option string; sm_signed_by : option string }.

(*@ dashboard/lib/types.ts 284 298 AuditAnchorResponse *)
Record AuditAnchorResponse := {
  an_anchor_id : string; an_election_id : string; an_provider : string;
  an_root_hash : string; an_anchored_at : string; an_actor : option string;
  an_receipt_status : string; an_receipt_provider : option string;
  an_receipt_timestamp : option string; an_receipt_id : option string;
  an_receipt_extra : value }.

(*@ dashboard/lib/types.ts 306 306 AdvisoryFinding *)
Inductive Severity := LOW | MEDIUM | HIGH.

(*@ dashboard/lib/types.ts 300 311 AdvisoryFinding *)
Record AdvisoryFinding := {
  f_finding_id : string; f_election_id : string; f_device_id : option string;
  f_rule_id : string; f_category : string; f_severity : Severity; f_evidence : value;
  f_timestamp : string; f_advisory_explanation : string; f_requires_human_review : bool }.

(*@ dashboard/lib/types.ts 313 318 AdvisoryFindingsResponse *)
Record AdvisoryFindingsResponse := {
  af_election_id : string; af_findings_count : Z; af_findings : list AdvisoryFinding;
  af_status : string }.

(*@ dashboard/lib/types.ts 320 324 RFIDTapRequest *)
Record RFIDTapRequest := { rf_raw_uid : string; rf_device_id : string; rf_election_id : string }.

(*@ dashboard/lib/types.ts 329 329 RFIDTapResponse *)
Inductive CardStatus := CS_VALID | CS_INVALID | CS_REVOKED | CS_REPEATED_USE.

(*@ dashboard/lib/types.ts 326 333 RFIDTapResponse *)
Record RFIDTapResponse := {
  rt_authenticated : bool; rt_pseudonym : string; rt_card_status : CardStatus;
  rt_device_id : string; rt_session_id : option string; rt_notice : string }.

(*@ dashboard/lib/types.ts 337 350 IndependentVerificationResult *)
Record VerificationChecks := {
  export_envelope : bool; configuration : bool; ballot_hashes : bool;
  ballot_sequence : bool; candidate_totals : bool; device_totals : bool;
  reconciliation : bool; audit_chain : bool; audit_root : bool; manifest : bool;
  signature : bool; anchor : bool }.

(*@ dashboard/lib/types.ts 353 361 IndependentVerificationResult *)
Record VerificationSummary := {
  vs_election_id : string; total_ballots_recounted : Z; candidates_recounted : Z;
  devices_recounted : Z; audit_entries_recomputed : Z; audit_root_hash : string;
  reconciliation_drift : Z }.

(*@ dashboard/lib/types.ts 335 362 IndependentVerificationResult *)
Record IndependentVerificationResult := {
  iv_valid : bool; iv_checks : VerificationChecks; iv_failures : list string;
  iv_details : list string; iv_summary : VerificationSummary }.

(*@ dashboard/lib/types.ts 366 378 VoterResponse *)
Record VoterResponse := {
  vr_id : string; vr_election_id : string; vr_voter_id_number : string; vr_name : string;
  vr_date_of_birth : string; vr_constituency : string; vr_polling_station_id : option string;
  vr_eligibility_status : string; vr_registration_status : string; vr_has_voted : bool;
  vr_registered_at : string }.

(*@ dashboard/lib/types.ts 381 381 EligibilityCheckResponse *)
Inductive EligibilityStatus := ELIGIBLE | NOT_ELIGIBLE | NEEDS_REVIEW.

(*@ dashboard/lib/types.ts 380 385 EligibilityCheckResponse *)
Record EligibilityCheckResponse := {
  el_status : EligibilityStatus; el_reasons : list string; el_voter_id : option string;
  el_notice : string }.

(*@ dashboard/lib/types.ts 388 401 PollingStationResponse *)
Record PollingStationResponse := {
  ps_id : string; ps_election_id : string; ps_station_code : string; ps_name : string;
  ps_constituency : string; ps_location : string; ps_assigned_devices : Z;
  ps_registered_voters : Z; ps_votes_cast : Z; ps_status : string;
  ps_officer_name : option string; ps_created_at : string }.

(*@ dashboard/lib/types.ts 404 417 ComplaintResponse *)
Record ComplaintResponse := {
  co_id : string; co_election_id : option string; co_reference_number : string;
  co_category : string; co_description : string; co_complainant_name : string;
  co_complainant_contact : option string; co_status : string;
  co_assigned_officer : option string; co_resolution_notes : option string;
  co_created_at : string; co_updated_at : string }.

(*@ dashboard/lib/types.ts 420 431 SimulationResponse *)
Record SimulationResponse := {
  si_election_id : string; si_preset : string; si_ballots_generated : Z;
  si_devices_created : Z; si_polling_stations_created : Z; si_voters_registered : Z;
  si_candidates_created : Z; si_audit_entries : Z; si_duration_seconds : number;
  si_status : string }.

(*@ dashboard/lib/types.ts 434 448 TransparencyOverview *)
Record TransparencyOverview := {
  t_election_id : string; t_election_name : string; t_state : string; t_total_ballots : Z;
  t_device_count : Z; t_polling_station_count : Z; t_candidate_count : Z;
  t_registered_voters : Z; t_turnout_percentage : number; t_audit_chain_status : string;
  t_reconciliation_status : string; t_manifest_status : string; t_notice : string }.
