(* ===== verification/ApiClient.v ===== *)
(** * The API client: [lib/api-client.ts]

    [req] has one constructor per method of the [api] object and [resp] its result type.
    [http_of] is the HTTP request each method builds (path, method, body, token);
    [request] is the shared function: URL, headers, the 401 branch with its callback, the
    error branch, the JSON of a success. [fetch] is the browser's, a parameter. *)
From S2P Require Import Prelude JsValue JsNumber Types FormatError.
From Stdlib Require Import Ascii String.

(** ** encodeURIComponent

    Bytes of the UTF-8 encoding, as the standard has it. *)

Definition uri_unreserved (c : ascii) : bool :=
  let n := nat_of_ascii c in
  (((97 <=? n) && (n <=? 122)) || ((65 <=? n) && (n <=? 90)) || ((48 <=? n) && (n <=? 57))
   || (n =? 45) || (n =? 95) || (n =? 46) || (n =? 33) || (n =? 126) || (n =? 42)
   || (n =? 39) || (n =? 40) || (n =? 41))%nat.

Definition upper_hex (n : nat) : ascii :=
  ascii_of_nat (if (n <? 10)%nat then 48 + n else 55 + n).

Definition percent (c : ascii) : string :=
  let n := nat_of_ascii c in
  String "%" (String (upper_hex (n / 16)) (String (upper_hex (n mod 16)) EmptyString)).

Fixpoint encodeURIComponent (s : string) : string :=
  match s with
  | EmptyString => EmptyString
  | String c s' =>
      (if uri_unreserved c then String c EmptyString else percent c) ++s encodeURIComponent s'
  end.

(** The inverse a server applies: percent triples back to bytes. *)
Definition hex_val (c : ascii) : nat :=
  let n := nat_of_ascii c in if (n <? 65)%nat then n - 48 else n - 55.

Fixpoint decodeURIComponent (s : string) : string :=
  match s with
  | EmptyString => EmptyString
  | String "%" (String a (String b s')) =>
      String (ascii_of_nat (16 * hex_val a + hex_val b)) (decodeURIComponent s')
  | String c s' => String c (decodeURIComponent s')
  end.

(** ** The shared request function *)

Record request_init := {
  ri_method : option string;
  ri_body : option string;
  ri_headers : gmap string string }.

Definition no_options : request_init :=
  {| ri_method := None; ri_body := None; ri_headers := ∅ |}.

Definition with_method (m : string) : request_init :=
  {| ri_method := Some m; ri_body := None; ri_headers := ∅ |}.

Definition with_body (m : string) (body : string) : request_init :=
  {| ri_method := Some m; ri_body := Some body; ri_headers := ∅ |}.

(** What [fetch] is called with. *)
Record http_request := {
  hr_url : string;
  hr_method : option string;
  hr_headers : gmap string string;
  hr_body : option string }.

(** What [fetch] settles with: a rejection, or a response whose [json()] gives a value or
    rejects. *)
Inductive fetch_result :=
| FetchRejected (e : error_obj)
| Response (status : Z) (json : outcome value).

Definition response_ok (status : Z) : bool := (200 <=? status) && (status <=? 299).

(*@ dashboard/lib/api-client.ts 49 59 ApiError *)
Definition ApiError (status : Z) (message : string) (data : value) : error_obj :=
  {| e_class := CClientApiError; e_name := "ApiError"; e_message := message;
     e_status := Some status; e_data := Some data |}.

(*@ dashboard/lib/api-client.ts 66 79 request *)
Definition build_request (base endpoint : string) (options : request_init)
    (token : option string) : http_request :=
  let headers := ri_headers options ∪ {[ "Content-Type" := "application/json" ]} in
  {| hr_url := base ++s endpoint;
     hr_method := ri_method options;
     hr_headers := if truthy_opt token
                   then <["Authorization" := "Bearer " ++s default EmptyString token]> headers
                   else headers;
     hr_body := ri_body options |}.

(** The message and payload of the error branch: [errorData.detail] replaces the default
    message when it is truthy; a body that is not JSON leaves both defaults, and a [null]
    body makes the property access throw inside the [try]. *)
(*@ dashboard/lib/api-client.ts 89 99 request *)
Definition error_of_response (status : Z) (json : outcome value) : error_obj :=
  let dflt := VStr ("Request failed with status " ++s Z_to_string status) in
  match json with
  | Err _ => ApiError status (to_string dflt) VNull
  | Ok data =>
      if is_nullish data then ApiError status (to_string dflt) data
      else ApiError status (to_string (v_or (prop "detail" data) dflt)) data
  end.

(** [request]: the outcome, and whether the unauthorized callback was called. *)
(*@ dashboard/lib/api-client.ts 61 103 request *)
Definition request (fetch : http_request -> fetch_result) (callback_set : bool)
    (base endpoint : string) (options : request_init) (token : option string)
    : outcome value * bool :=
  match fetch (build_request base endpoint options token) with
  | FetchRejected e => (Err e, false)
  | Response status json =>
      if status =? 401 then
        (Err (ApiError 401 "Session expired or unauthorized. Please log in again." VUndef),
         truthy_opt token && callback_set)
      else if negb (response_ok status) then (Err (error_of_response status json), false)
      else (json, false)
  end.

(** ** The methods of [api] *)

Definition token := option string.

(** The form of a voter, shared by registration and the eligibility check. *)
Record voter_form := { vf_name : string; vf_date_of_birth : string; vf_constituency : string }.

Inductive req :=
| login (username password : string)
| getMe (t : token)
| getHealth
| getElections (t : token)
| getElection (electionId : string) (t : token)
| updateElectionState (electionId : string) (state : ElectionState) (t : token)
| addCandidate (electionId : string) (data : CandidateCreate) (t : token)
| deleteCandidate (electionId candidateId : string) (t : token)
| getDevices (electionId : string) (t : token)
| registerDevice (electionId : string) (data : DeviceRegister) (t : token)
| updateDeviceStatus (electionId deviceId : string) (status : DeviceStatus) (t : token)
| getAuditLog (electionId : string) (t : token)
| verifyAuditChain (electionId : string) (t : token)
| getResults (electionId : string) (t : token)
| runVerification (electionId : string) (t : token)
| getWsTicket (t : token) (electionId : option string)
| exportElection (electionId : string) (t : token)
| getSigningPublicKey
| signElectionManifest (electionId : string) (t : token)
| getElectionAnchors (electionId : string) (t : token)
| createElectionAnchor (electionId : string) (t : token) (provider : string)
| getElectionAnomalies (electionId : string) (t : token)
| tapRFID (data : RFIDTapRequest)
| getRFIDDemoCards
| registerVoter (electionId : string) (data : voter_form) (t : token)
| getVoters (electionId : string) (t : token)
| checkEligibility (electionId : string) (data : voter_form)
| lookupVoter (electionId voterIdNumber : string)
| getPollingStations (electionId : string) (t : token)
| createPollingStation (electionId : string) (data : value) (t : token)
| submitComplaint (election_id : option string) (category description name : string)
    (contact : option string)
| getComplaints (t : token)
| trackComplaint (referenceNumber : string)
| updateComplaintStatus (complaintId status : string) (officer notes : option string) (t : token)
| runSimulation (preset : string) (election_name : option string) (t : token)
| getSimulationPresets
| getTransparencyElections
| getTransparencyOverview (electionId : string)
| getTransparencyCandidates (electionId : string)
| getTransparencyDevices (electionId : string)
| getTransparencyResults (electionId : string)
| seedDemoElection (t : token) (reset : bool)
| getGeographyStates
| getGeographyState (code : string)
| getGeographyPC (pcId : string)
| getGeographyMapData
| getOverseasFramework
| submitForm6A (data : value)
| simulateConsularSession (data : value)
| authorizeSession (electionId voter_credential device_id : string) (t : token)
| castVote (session_token candidate_id device_id : string) (sequence_number : Z)
| getSessions (electionId : string) (t : token).

(** The fields of a recorded vote the dashboard reads. *)
Record VoteResponse := { vote_ballot_hash : option string }.

(*@ dashboard/lib/api-client.ts 448 449 seedDemoElection *)
Record SeedResponse := {
  sd_status : string; sd_election_id : string; sd_state : string; sd_message : string }.

(** The type each method resolves with. *)
Definition resp (r : req) : Type :=
  match r with
  | login _ _ => TokenResponse
  | getMe _ => UserResponse
  | getHealth => HealthCheckResponse
  | getElections _ => list ElectionResponse
  | getElection _ _ | updateElectionState _ _ _ => ElectionResponse
  | addCandidate _ _ _ => option CandidateResponse
  | deleteCandidate _ _ _ => unit
  | getDevices _ _ | getTransparencyDevices _ => list DeviceResponse
  | registerDevice _ _ _ | updateDeviceStatus _ _ _ _ => DeviceResponse
  | getAuditLog _ _ => list AuditEntryResponse
  | verifyAuditChain _ _ => AuditVerificationResponse
  | getResults _ _ | runVerification _ _ => VerificationResponse
  | getWsTicket _ _ => WsTicketResponse
  | exportElection _ _ => ElectionExportResponse
  | getSigningPublicKey => PublicKeyInfoResponse
  | signElectionManifest _ _ => SignedManifestResponse
  | getElectionAnchors _ _ => list AuditAnchorResponse
  | createElectionAnchor _ _ _ => AuditAnchorResponse
  | getElectionAnomalies _ _ => AdvisoryFindingsResponse
  | tapRFID _ => RFIDTapResponse
  | registerVoter _ _ _ | lookupVoter _ _ => VoterResponse
  | getVoters _ _ => list VoterResponse
  | checkEligibility _ _ => EligibilityCheckResponse
  | getPollingStations _ _ => list PollingStationResponse
  | createPollingStation _ _ _ => PollingStationResponse
  | submitComplaint _ _ _ _ _ | trackComplaint _ | updateComplaintStatus _ _ _ _ _ =>
      ComplaintResponse
  | getComplaints _ => list ComplaintResponse
  | runSimulation _ _ _ => SimulationResponse
  | getTransparencyElections => list TransparencyOverview
  | getTransparencyOverview _ => TransparencyOverview
  | getTransparencyCandidates _ => list CandidateResponse
  | seedDemoElection _ _ => SeedResponse
  | authorizeSession _ _ _ _ => SessionResponse
  | getSessions _ _ => list SessionResponse
  | castVote _ _ _ _ => VoteResponse
  | getRFIDDemoCards | getSimulationPresets | getTransparencyResults _
  | getGeographyStates | getGeographyState _ | getGeographyPC _ | getGeographyMapData
  | getOverseasFramework | submitForm6A _ | simulateConsularSession _ => value
  end.

(** What a method passes to [request]. *)
Record api_call := { call_endpoint : string; call_init : request_init; call_token : token }.

Definition mk_call (endpoint : string) (init : request_init) (t : token) : api_call :=
  {| call_endpoint := endpoint; call_init := init; call_token := t |}.

(** [JSON.stringify] of a body the caller built. *)
Definition value_body (v : value) : string :=
  match stringify v with JText t => t | _ => EmptyString end.

Definition candidate_value (c : CandidateCreate) : value :=
  VObj [("name", VStr (cc_name c)); ("party", v_opt (cc_party c));
        ("symbol", v_opt (cc_symbol c)); ("position", VNum (cc_position c))].

(*@ dashboard/lib/api-client.ts 107 112 login *)
Definition http_login (username password : string) : api_call :=
  mk_call ("/api/auth/login") 
    (with_body "POST" (json_body [("username", VStr username); ("password", VStr password)])) None.

(*@ dashboard/lib/api-client.ts 114 116 getMe *)
Definition http_getMe (t : token) : api_call :=
  mk_call ("/api/auth/me") no_options t.

(*@ dashboard/lib/api-client.ts 119 121 getHealth *)
Definition http_getHealth : api_call :=
  mk_call ("/api/health") no_options None.

(*@ dashboard/lib/api-client.ts 124 125 getElections *)
Definition http_getElections (t : token) : api_call :=
  mk_call ("/api/elections") no_options t.

(*@ dashboard/lib/api-client.ts 131 136 getElection *)
Definition http_getElection (electionId : string) (t : token) : api_call :=
  mk_call ("/api/elections/" ++s electionId) no_options t.

(*@ dashboard/lib/api-client.ts 138 151 updateElectionState *)
Definition http_updateElectionState (electionId : string) (state : ElectionState) (t : token) : api_call :=
  mk_call ("/api/elections/" ++s electionId ++s "/state") 
    (with_body "PATCH" (json_body [("new_state", VStr (election_state_str state))])) t.

(*@ dashboard/lib/api-client.ts 153 165 addCandidate *)
Definition http_addCandidate (electionId : string) (data : CandidateCreate) (t : token) : api_call :=
  mk_call ("/api/elections/" ++s electionId ++s "/candidates") 
    (with_body "POST" (json_body [("candidates", VArr [candidate_value data])])) t.

(*@ dashboard/lib/api-client.ts 169 181 deleteCandidate *)
Definition http_deleteCandidate (electionId candidateId : string) (t : token) : api_call :=
  mk_call ("/api/v1/elections/" ++s electionId ++s "/candidates/" ++s candidateId) (with_method "DELETE") t.

(*@ dashboard/lib/api-client.ts 187 196 getDevices *)
Definition http_getDevices (electionId : string) (t : token) : api_call :=
  mk_call ("/api/elections/" ++s electionId ++s "/devices") no_options t.

(*@ dashboard/lib/api-client.ts 198 211 registerDevice *)
Definition http_registerDevice (electionId : string) (data : DeviceRegister) (t : token) : api_call :=
  mk_call ("/api/elections/" ++s electionId ++s "/devices") 
    (with_body "POST" (json_body [("id", VStr (dr_id data)); ("name", VStr (dr_name data));
      ("device_hash", v_opt (dr_device_hash data))])) t.

(*@ dashboard/lib/api-client.ts 213 227 updateDeviceStatus *)
Definition http_updateDeviceStatus (electionId deviceId : string) (status : DeviceStatus) (t : token) : api_call :=
  mk_call ("/api/elections/" ++s electionId ++s "/devices/" ++s deviceId ++s "/status") 
    (with_body "PATCH" (json_body [("status", VStr (device_status_str status))])) t.

(*@ dashboard/lib/api-client.ts 230 238 getAuditLog *)
Definition http_getAuditLog (electionId : string) (t : token) : api_call :=
  mk_call ("/api/elections/" ++s electionId ++s "/audit") no_options t.

(*@ dashboard/lib/api-client.ts 244 253 verifyAuditChain *)
Definition http_verifyAuditChain (electionId : string) (t : token) : api_call :=
  mk_call ("/api/elections/" ++s electionId ++s "/audit/verify") no_options t.

(*@ dashboard/lib/api-client.ts 256 265 getResults *)
Definition http_getResults (electionId : string) (t : token) : api_call :=
  mk_call ("/api/elections/" ++s electionId ++s "/results") no_options t.

(*@ dashboard/lib/api-client.ts 267 278 runVerification *)
Definition http_runVerification (electionId : string) (t : token) : api_call :=
  mk_call ("/api/elections/" ++s electionId ++s "/verify") (with_method "POST") t.

(*@ dashboard/lib/api-client.ts 281 293 getWsTicket *)
Definition http_getWsTicket (t : token) (electionId : option string) : api_call :=
  mk_call ("/api/auth/ws-ticket") 
    (with_body "POST" (json_body [("election_id", if truthy_opt electionId then v_null electionId else VNull)])) t.

(*@ dashboard/lib/api-client.ts 297 306 exportElection *)
Definition http_exportElection (electionId : string) (t : token) : api_call :=
  mk_call ("/api/elections/" ++s electionId ++s "/export") no_options t.

(*@ dashboard/lib/api-client.ts 309 311 getSigningPublicKey *)
Definition http_getSigningPublicKey : api_call :=
  mk_call ("/api/signing/public-key") no_options None.

(*@ dashboard/lib/api-client.ts 313 322 signElectionManifest *)
Definition http_signElectionManifest (electionId : string) (t : token) : api_call :=
  mk_call ("/api/elections/" ++s electionId ++s "/sign-manifest") (with_method "POST") t.

(*@ dashboard/lib/api-client.ts 325 334 getElectionAnchors *)
Definition http_getElectionAnchors (electionId : string) (t : token) : api_call :=
  mk_call ("/api/elections/" ++s electionId ++s "/anchors") no_options t.

(*@ dashboard/lib/api-client.ts 336 349 createElectionAnchor *)
Definition http_createElectionAnchor (electionId : string) (t : token) (provider : string) : api_call :=
  mk_call ("/api/elections/" ++s electionId ++s "/anchors") 
    (with_body "POST" (json_body [("provider", VStr provider)])) t.

(*@ dashboard/lib/api-client.ts 352 361 getElectionAnomalies *)
Definition http_getElectionAnomalies (electionId : string) (t : token) : api_call :=
  mk_call ("/api/elections/" ++s electionId ++s "/anomalies") no_options t.

(*@ dashboard/lib/api-client.ts 364 369 tapRFID *)
Definition http_tapRFID (data : RFIDTapRequest) : api_call :=
  mk_call ("/api/rfid/tap") 
    (with_body "POST" (json_body [("raw_uid", VStr (rf_raw_uid data)); ("device_id", VStr (rf_device_id data));
      ("election_id", VStr (rf_election_id data))])) None.

(*@ dashboard/lib/api-client.ts 371 373 getRFIDDemoCards *)
Definition http_getRFIDDemoCards : api_call :=
  mk_call ("/api/rfid/demo-cards") no_options None.

(*@ dashboard/lib/api-client.ts 376 378 registerVoter *)
Definition http_registerVoter (electionId : string) (data : voter_form) (t : token) : api_call :=
  mk_call ("/api/elections/" ++s electionId ++s "/voters") 
    (with_body "POST" (json_body [("name", VStr (vf_name data)); ("date_of_birth", VStr (vf_date_of_birth data));
      ("constituency", VStr (vf_constituency data))])) t.

(*@ dashboard/lib/api-client.ts 380 382 getVoters *)
Definition http_getVoters (electionId : string) (t : token) : api_call :=
  mk_call ("/api/elections/" ++s electionId ++s "/voters") no_options t.

(*@ dashboard/lib/api-client.ts 384 386 checkEligibility *)
Definition http_checkEligibility (electionId : string) (data : voter_form) : api_call :=
  mk_call ("/api/elections/" ++s electionId ++s "/eligibility") 
    (with_body "POST" (json_body [("name", VStr (vf_name data)); ("date_of_birth", VStr (vf_date_of_birth data));
      ("constituency", VStr (vf_constituency data))])) None.

(*@ dashboard/lib/api-client.ts 388 390 lookupVoter *)
Definition http_lookupVoter (electionId voterIdNumber : string) : api_call :=
  mk_call ("/api/elections/" ++s electionId ++s "/voter-lookup?voter_id_number=" ++s encodeURIComponent voterIdNumber) no_options None.

(*@ dashboard/lib/api-client.ts 393 395 getPollingStations *)
Definition http_getPollingStations (electionId : string) (t : token) : api_call :=
  mk_call ("/api/elections/" ++s electionId ++s "/polling-stations") no_options t.

(*@ dashboard/lib/api-client.ts 397 399 createPollingStation *)
Definition http_createPollingStation (electionId : string) (data : value) (t : token) : api_call :=
  mk_call ("/api/elections/" ++s electionId ++s "/polling-stations") (with_body "POST" (value_body data)) t.

(*@ dashboard/lib/api-client.ts 402 404 submitComplaint *)
Definition http_submitComplaint (election_id : option string) (category description name : string)
    (contact : option string) : api_call :=
  mk_call ("/api/complaints") 
    (with_body "POST" (json_body [("election_id", v_opt election_id); ("category", VStr category);
      ("description", VStr description); ("complainant_name", VStr name);
      ("complainant_contact", v_opt contact)])) None.

(*@ dashboard/lib/api-client.ts 406 408 getComplaints *)
Definition http_getComplaints (t : token) : api_call :=
  mk_call ("/api/complaints") no_options t.

(*@ dashboard/lib/api-client.ts 410 412 trackComplaint *)
Definition http_trackComplaint (referenceNumber : string) : api_call :=
  mk_call ("/api/complaints/track/" ++s encodeURIComponent referenceNumber) no_options None.

(*@ dashboard/lib/api-client.ts 414 416 updateComplaintStatus *)
Definition http_updateComplaintStatus (complaintId status : string) (officer notes : option string) (t : token) : api_call :=
  mk_call ("/api/complaints/" ++s complaintId ++s "/status") 
    (with_body "PATCH" (json_body [("status", VStr status); ("assigned_officer", v_opt officer);
      ("resolution_notes", v_opt notes)])) t.

(*@ dashboard/lib/api-client.ts 419 421 runSimulation *)
Definition http_runSimulation (preset : string) (election_name : option string) (t : token) : api_call :=
  mk_call ("/api/simulation/run") 
    (with_body "POST" (json_body [("preset", VStr preset); ("election_name", v_opt election_name)])) t.

(*@ dashboard/lib/api-client.ts 423 425 getSimulationPresets *)
Definition http_getSimulationPresets : api_call :=
  mk_call ("/api/simulation/presets") no_options None.

(*@ dashboard/lib/api-client.ts 428 430 getTransparencyElections *)
Definition http_getTransparencyElections : api_call :=
  mk_call ("/api/transparency/elections") no_options None.

(*@ dashboard/lib/api-client.ts 432 434 getTransparencyOverview *)
Definition http_getTransparencyOverview (electionId : string) : api_call :=
  mk_call ("/api/transparency/elections/" ++s electionId) no_options None.

(*@ dashboard/lib/api-client.ts 436 438 getTransparencyCandidates *)
Definition http_getTransparencyCandidates (electionId : string) : api_call :=
  mk_call ("/api/transparency/elections/" ++s electionId ++s "/candidates") no_options None.

(*@ dashboard/lib/api-client.ts 440 442 getTransparencyDevices *)
Definition http_getTransparencyDevices (electionId : string) : api_call :=
  mk_call ("/api/transparency/elections/" ++s electionId ++s "/devices") no_options None.

(*@ dashboard/lib/api-client.ts 444 446 getTransparencyResults *)
Definition http_getTransparencyResults (electionId : string) : api_call :=
  mk_call ("/api/transparency/elections/" ++s electionId ++s "/results") no_options None.

(*@ dashboard/lib/api-client.ts 448 454 seedDemoElection *)
Definition http_seedDemoElection (t : token) (reset : bool) : api_call :=
  mk_call ("/api/simulation/seed-demo" ++s (if reset then "?reset=true" else EmptyString)) (with_method "POST") (if truthy_opt t then t else None).

(*@ dashboard/lib/api-client.ts 457 459 getGeographyStates *)
Definition http_getGeographyStates : api_call :=
  mk_call ("/api/geography/states") no_options None.

(*@ dashboard/lib/api-client.ts 461 463 getGeographyState *)
Definition http_getGeographyState (code : string) : api_call :=
  mk_call ("/api/geography/states/" ++s code) no_options None.

(*@ dashboard/lib/api-client.ts 465 467 getGeographyPC *)
Definition http_getGeographyPC (pcId : string) : api_call :=
  mk_call ("/api/geography/pc/" ++s pcId) no_options None.

(*@ dashboard/lib/api-client.ts 469 471 getGeographyMapData *)
Definition http_getGeographyMapData : api_call :=
  mk_call ("/api/geography/map-data") no_options None.

(*@ dashboard/lib/api-client.ts 474 476 getOverseasFramework *)
Definition http_getOverseasFramework : api_call :=
  mk_call ("/api/overseas/framework") no_options None.

(*@ dashboard/lib/api-client.ts 478 483 submitForm6A *)
Definition http_submitForm6A (data : value) : api_call :=
  mk_call ("/api/overseas/form6a") (with_body "POST" (value_body data)) None.

(*@ dashboard/lib/api-client.ts 485 490 simulateConsularSession *)
Definition http_simulateConsularSession (data : value) : api_call :=
  mk_call ("/api/overseas/consular-simulate") (with_body "POST" (value_body data)) None.

(*@ dashboard/lib/api-client.ts 493 495 authorizeSession *)
Definition http_authorizeSession (electionId voter_credential device_id : string) (t : token) : api_call :=
  mk_call ("/api/elections/" ++s electionId ++s "/sessions") 
    (with_body "POST" (json_body [("voter_credential", VStr voter_credential); ("device_id", VStr device_id)])) t.

(*@ dashboard/lib/api-client.ts 497 499 castVote *)
Definition http_castVote (session_token candidate_id device_id : string) (sequence_number : Z) : api_call :=
  mk_call ("/api/votes") 
    (with_body "POST" (json_body [("session_token", VStr session_token); ("candidate_id", VStr candidate_id);
      ("device_id", VStr device_id); ("sequence_number", VNum sequence_number)])) None.

(*@ dashboard/lib/api-client.ts 501 503 getSessions *)
Definition http_getSessions (electionId : string) (t : token) : api_call :=
  mk_call ("/api/elections/" ++s electionId ++s "/sessions") no_options t.

(** The HTTP call of every method. *)
Definition http_of (r : req) : api_call :=
  match r with
  | login username password => http_login username password
  | getMe t => http_getMe t
  | getHealth => http_getHealth
  | getElections t => http_getElections t
  | getElection electionId t => http_getElection electionId t
  | updateElectionState electionId state t => http_updateElectionState electionId state t
  | addCandidate electionId data t => http_addCandidate electionId data t
  | deleteCandidate electionId candidateId t => http_deleteCandidate electionId candidateId t
  | getDevices electionId t => http_getDevices electionId t
  | registerDevice electionId data t => http_registerDevice electionId data t
  | updateDeviceStatus electionId deviceId status t => http_updateDeviceStatus electionId deviceId status t
  | getAuditLog electionId t => http_getAuditLog electionId t
  | verifyAuditChain electionId t => http_verifyAuditChain electionId t
  | getResults electionId t => http_getResults electionId t
  | runVerification electionId t => http_runVerification electionId t
  | getWsTicket t electionId => http_getWsTicket t electionId
  | exportElection electionId t => http_exportElection electionId t
  | getSigningPublicKey => http_getSigningPublicKey
  | signElectionManifest electionId t => http_signElectionManifest electionId t
  | getElectionAnchors electionId t => http_getElectionAnchors electionId t
  | createElectionAnchor electionId t provider => http_createElectionAnchor electionId t provider
  | getElectionAnomalies electionId t => http_getElectionAnomalies electionId t
  | tapRFID data => http_tapRFID data
  | getRFIDDemoCards => http_getRFIDDemoCards
  | registerVoter electionId data t => http_registerVoter electionId data t
  | getVoters electionId t => http_getVoters electionId t
  | checkEligibility electionId data => http_checkEligibility electionId data
  | lookupVoter electionId voterIdNumber => http_lookupVoter electionId voterIdNumber
  | getPollingStations electionId t => http_getPollingStations electionId t
  | createPollingStation electionId data t => http_createPollingStation electionId data t
  | submitComplaint election_id category description name contact => http_submitComplaint election_id category description name contact
  | getComplaints t => http_getComplaints t
  | trackComplaint referenceNumber => http_trackComplaint referenceNumber
  | updateComplaintStatus complaintId status officer notes t => http_updateComplaintStatus complaintId status officer notes t
  | runSimulation preset election_name t => http_runSimulation preset election_name t
  | getSimulationPresets => http_getSimulationPresets
  | getTransparencyElections => http_getTransparencyElections
  | getTransparencyOverview electionId => http_getTransparencyOverview electionId
  | getTransparencyCandidates electionId => http_getTransparencyCandidates electionId
  | getTransparencyDevices electionId => http_getTransparencyDevices electionId
  | getTransparencyResults electionId => http_getTransparencyResults electionId
  | seedDemoElection t reset => http_seedDemoElection t reset
  | getGeographyStates => http_getGeographyStates
  | getGeographyState code => http_getGeographyState code
  | getGeographyPC pcId => http_getGeographyPC pcId
  | getGeographyMapData => http_getGeographyMapData
  | getOverseasFramework => http_getOverseasFramework
  | submitForm6A data => http_submitForm6A data
  | simulateConsularSession data => http_simulateConsularSession data
  | authorizeSession electionId voter_credential device_id t => http_authorizeSession electionId voter_credential device_id t
  | castVote session_token candidate_id device_id sequence_number => http_castVote session_token candidate_id device_id sequence_number
  | getSessions electionId t => http_getSessions electionId t
  end.

(** The request as [fetch] sees it. *)
Definition http_request_of (base : string) (r : req) : http_request :=
  let c := http_of r in build_request base (call_endpoint c) (call_init c) (call_token c).

(** One API call: the parsed body, or the error, and whether the session was dropped. *)
Definition api_fetch (fetch : http_request -> fetch_result) (callback_set : bool)
    (base : string) (r : req) : outcome value * bool :=
  let c := http_of r in
  request fetch callback_set base (call_endpoint c) (call_init c) (call_token c).

(** [getElections] and [getAuditLog] accept a bare array or a page object. *)
(*@ dashboard/lib/api-client.ts 126 128 getElections *)
Definition elections_of_body (res : value) : list value :=
  match res with
  | VArr l => l
  | _ => match prop "elections" res with VArr l => l | _ => [] end
  end.

(*@ dashboard/lib/api-client.ts 239 241 getAuditLog *)
Definition entries_of_body (res : value) : list value :=
  match res with
  | VArr l => l
  | _ => match prop "entries" res with VArr l => l | _ => [] end
  end.

(** [addCandidate] returns [res[0]]. *)
(*@ dashboard/lib/api-client.ts 166 166 addCandidate *)
Definition first_of_body (res : value) : value :=
  match res with VArr (x :: _) => x | _ => VUndef end.

(*@ dashboard/lib/api-client.ts 510 528 isDemoMode *)
Definition isDemoMode (event_data voter_credential : option string) : bool :=
  match voter_credential with
  | Some c => truthy_str c && starts_with "VOTER-SERIAL-" c
  | None => false
  end
  || match event_data with
     | Some d => truthy_str d && (includes "VOTER-SERIAL-" d || includes "DEMO-MODE" d
                                  || includes "simulated_session_token" d)
     | None => false
     end.

(** ** Lemmas *)

(** The requests no method ever authenticates. *)
Definition public_req (r : req) : bool :=
  match r with
  | login _ _ | getHealth | getSigningPublicKey | tapRFID _ | getRFIDDemoCards
  | checkEligibility _ _ | lookupVoter _ _ | submitComplaint _ _ _ _ _ | trackComplaint _
  | getSimulationPresets | getTransparencyElections | getTransparencyOverview _
  | getTransparencyCandidates _ | getTransparencyDevices _ | getTransparencyResults _
  | getGeographyStates | getGeographyState _ | getGeographyPC _ | getGeographyMapData
  | getOverseasFramework | submitForm6A _ | simulateConsularSession _ | castVote _ _ _ _ => true
  | _ => false
  end.

(** The token the caller handed to the method. *)
Definition req_token (r : req) : token :=
  match r with
  | getMe t | getElections t | getElection _ t | updateElectionState _ _ t
  | addCandidate _ _ t | deleteCandidate _ _ t | getDevices _ t | registerDevice _ _ t
  | updateDeviceStatus _ _ _ t | getAuditLog _ t | verifyAuditChain _ t | getResults _ t
  | runVerification _ t | getWsTicket t _ | exportElection _ t | signElectionManifest _ t
  | getElectionAnchors _ t | createElectionAnchor _ t _ | getElectionAnomalies _ t
  | registerVoter _ _ t | getVoters _ t | getPollingStations _ t
  | createPollingStation _ _ t | getComplaints t | updateComplaintStatus _ _ _ _ t
  | runSimulation _ _ t | seedDemoElection t _ | authorizeSession _ _ _ t
  | getSessions _ t => t
  | _ => None
  end.

Lemma call_token_of r :
  call_token (http_of r) = req_token r
  \/ (truthy_opt (req_token r) = false /\ call_token (http_of r) = None).
Proof. destruct r; simpl; auto. destruct (truthy_opt t); auto. Qed.

Lemma call_headers_of r : ri_headers (call_init (http_of r)) = ∅.
Proof. by destruct r. Qed.

(** Every byte of an escape is one [encodeURIComponent] may write. *)
Definition uri_safe (c : ascii) : bool := uri_unreserved c || Ascii.eqb c "%".

Fixpoint all_chars (p : ascii -> bool) (s : string) : bool :=
  match s with EmptyString => true | String c s' => p c && all_chars p s' end.

Lemma all_chars_app p a b : all_chars p (a ++s b) = all_chars p a && all_chars p b.
Proof. induction a as [|c a IH]; simpl; [done |]. by rewrite IH, andb_assoc. Qed.

(** A test on one byte, for all 256 bytes at once. *)
Definition all_bytes (p : ascii -> bool) : bool :=
  forallb (fun n => p (ascii_of_nat n)) (seq 0 256).

Lemma all_bytes_spec p : all_bytes p = true -> forall c, p c = true.
Proof.
  unfold all_bytes. rewrite forallb_forall. intros H c.
  rewrite <- (ascii_nat_embedding c). apply H. apply in_seq.
  pose proof (nat_ascii_bounded c). lia.
Qed.

Lemma percent_safe c : all_chars uri_safe (percent c) = true.
Proof. revert c. apply all_bytes_spec. by vm_compute. Qed.

Lemma percent_decodes c s :
  decodeURIComponent (percent c ++s s) = String c (decodeURIComponent s).
Proof.
  cut (ascii_of_nat (16 * hex_val (upper_hex (nat_of_ascii c / 16))
                     + hex_val (upper_hex (nat_of_ascii c mod 16))) = c).
  { intros H. rewrite <- H at 2. reflexivity. }
  apply Ascii.eqb_eq. revert c. apply all_bytes_spec. by vm_compute.
Qed.

Lemma unreserved_not_percent c : uri_unreserved c = true -> c <> "%"%char.
Proof. intros H ->. by vm_compute in H. Qed.

Lemma decode_plain c s :
  c <> "%"%char -> decodeURIComponent (String c s) = String c (decodeURIComponent s).
Proof.
  intros Hc. destruct c as [b0 b1 b2 b3 b4 b5 b6 b7].
  destruct b0, b1, b2, b3, b4, b5, b6, b7; try reflexivity. by destruct Hc.
Qed.

(** Encoding is undone by decoding, and writes only unreserved bytes and escapes. *)
Lemma encodeURIComponent_roundtrip s :
  decodeURIComponent (encodeURIComponent s) = s
  /\ all_chars uri_safe (encodeURIComponent s) = true.
Proof.
  induction s as [|c s [IH1 IH2]]; [done |]. simpl encodeURIComponent.
  destruct (uri_unreserved c) eqn:E.
  - split.
    + change (decodeURIComponent (String c (encodeURIComponent s)) = String c s).
      rewrite decode_plain by (by apply unreserved_not_percent). by rewrite IH1.
    + change (uri_safe c && all_chars uri_safe (encodeURIComponent s) = true).
      rewrite IH2. unfold uri_safe. by rewrite E.
  - rewrite percent_decodes, IH1, all_chars_app, percent_safe, IH2. done.
Qed.

(** The two headers [request] sets. *)
Section Headers.
Context (t : token).
Let headers : gmap string string :=
  let h := (∅ : gmap string string) ∪ {[ "Content-Type"%string := "application/json"%string ]} in
  if truthy_opt t
  then <["Authorization"%string := "Bearer " ++s default EmptyString t]> h else h.

Lemma headers_auth :
  headers !! "Authorization"%string
  = if truthy_opt t then Some ("Bearer " ++s default EmptyString t) else None.
Proof.
  unfold headers. cbn zeta. destruct (truthy_opt t).
  - apply lookup_insert_eq.
  - rewrite map_empty_union. apply lookup_singleton_ne. discriminate.
Qed.

Lemma headers_content : headers !! "Content-Type"%string = Some "application/json"%string.
Proof.
  unfold headers. cbn zeta. destruct (truthy_opt t).
  - rewrite lookup_insert_ne by discriminate. rewrite map_empty_union. apply lookup_singleton_eq.
  - rewrite map_empty_union. apply lookup_singleton_eq.
Qed.
End Headers.

(** A FastAPI validation body with the given messages. *)
Definition validation_body (msgs : list string) : value :=
  VObj [("detail", VArr (map (fun m => VObj [("msg", VStr m)]) msgs))].

Lemma detail_items_of_msgs msgs :
  forallb truthy_str msgs = true ->
  mapM FormatError.detail_item (map (fun m => VObj [("msg", VStr m)]) msgs)
  = Some (map VStr msgs).
Proof.
  induction msgs as [|m msgs IH]; [done |]. simpl. intros [Hm H]%andb_true_iff.
  rewrite Hm. simpl. by rewrite IH.
Qed.

Lemma join_elem_strs msgs : map join_elem (map VStr msgs) = msgs.
Proof. induction msgs as [|m msgs IH]; [done |]. simpl. f_equal. exact IH. Qed.

(** ** Properties *)

(** (safety): a request carries an Authorization header exactly when the caller handed
    a non-empty token to a method that takes one, the header is that token as a bearer
    token, and the body is declared to be JSON whatever the method. *)
Theorem authorization_header base r :
  hr_headers (http_request_of base r) !! "Authorization"%string
    = (if truthy_opt (req_token r)
       then Some ("Bearer " ++s default EmptyString (req_token r)) else None)
  /\ hr_headers (http_request_of base r) !! "Content-Type"%string = Some "application/json"%string
  /\ (public_req r = true -> hr_headers (http_request_of base r) !! "Authorization"%string = None).
Proof.
  unfold http_request_of, build_request. cbn [hr_headers]. rewrite call_headers_of.
  rewrite headers_auth, headers_content.
  assert (public_req r = true -> truthy_opt (call_token (http_of r)) = false) as Hp
    by (by destruct r).
  destruct (call_token_of r) as [E|[E1 E2]].
  - split_and!; [by rewrite E | done |]. intros Hpub. by rewrite (Hp Hpub).
  - rewrite E1, E2. by split_and!.
Qed.

(** C38 (functional): the outcome of a call on every answer of the network: a rejected
    fetch is passed on, a 401 is always the session-expired ApiError, any other status
    outside 200..299 is an ApiError with that status, and only a 2xx answer resolves, with
    its parsed body. The unauthorized callback runs exactly on a 401 answered to a request
    that carried a token. *)
Theorem api_fetch_spec fetch cb base r :
  let '(out, called) := api_fetch fetch cb base r in
  match fetch (http_request_of base r) with
  | FetchRejected e => out = Err e /\ called = false
  | Response status json =>
      (called = true <-> status = 401 /\ truthy_opt (req_token r) = true /\ cb = true)
      /\ (status = 401 -> exists e, out = Err e /\ e_status e = Some 401
            /\ e_message e = "Session expired or unauthorized. Please log in again."%string)
      /\ (status <> 401 -> response_ok status = false ->
            out = Err (error_of_response status json)
            /\ e_status (error_of_response status json) = Some status)
      /\ (response_ok status = true -> out = json)
  end.
Proof.
  unfold api_fetch, http_request_of, request. cbn zeta.
  destruct (fetch _) as [e|status json]; [done |].
  assert (truthy_opt (call_token (http_of r)) = truthy_opt (req_token r)) as ->
    by (destruct (call_token_of r) as [->|[-> ->]]; done).
  destruct (status =? 401) eqn:E; reflect_bool.
  - subst. split_and!; try done.
    + rewrite andb_true_iff. naive_solver.
    + intros _. by eexists.
  - destruct (response_ok status) eqn:Ho; simpl; split_and!; try done.
    + split; [done | tauto].
    + split; [done | tauto].
    + intros _ _. split; [done |]. unfold error_of_response.
      destruct json as [d|]; [| done]. by destruct (is_nullish d).
Qed.

(** C39 (roundtrip): the voter number of a lookup and the reference number of a complaint,
    the only arguments the client encodes, stand in the URL percent-encoded: what follows
    the fixed prefix contains only unreserved characters and escapes, and decoding it gives
    the argument back, so different numbers have different URLs. The identifier of the
    election in the URL of a lookup is interpolated as it is. *)
Theorem url_argument_roundtrip electionId s :
  (exists enc, call_endpoint (http_lookupVoter electionId s)
     = "/api/elections/" ++s electionId ++s "/voter-lookup?voter_id_number=" ++s enc
     /\ all_chars uri_safe enc = true /\ decodeURIComponent enc = s)
  /\ (exists enc, call_endpoint (http_trackComplaint s) = "/api/complaints/track/" ++s enc
     /\ all_chars uri_safe enc = true /\ decodeURIComponent enc = s).
Proof.
  destruct (encodeURIComponent_roundtrip s).
  split; exists (encodeURIComponent s); done.
Qed.

(** (error): on a validation error (a [detail] array of objects with non-empty
    messages) the two ways the pages show an error differ: [formatApiError] joins the
    messages, the [message] of the ApiError is the useless string form of the objects. *)
Theorem validation_error_texts status msgs :
  forallb truthy_str msgs = true ->
  let e := error_of_response status (Ok (validation_body msgs)) in
  FormatError.format_error e = join ". " msgs
  /\ e_message e = join "," (map (fun _ => "[object Object]"%string) msgs).
Proof.
  intros H. unfold FormatError.format_error, FormatError.formatApiError. simpl.
  rewrite (detail_items_of_msgs _ H), join_elem_strs. split; [done |].
  f_equal. rewrite map_map. apply map_ext. done.
Qed.

Lemma validation_error_texts_witness :
  let e := error_of_response 422 (Ok (validation_body ["name is required"; "position is required"]%string)) in
  FormatError.format_error e = "name is required. position is required"%string
  /\ e_message e = "[object Object],[object Object]"%string.
Proof. exact (validation_error_texts 422 ["name is required"; "position is required"]%string eq_refl). Defined.
