(* ===== verification/View.v ===== *)
(** * Rendered pages

    What a component's JSX amounts to for its user: texts, numbers, badges, links and
    controls, without markup and styling. A control carries the user event it raises and
    whether it is disabled; [fires] decides whether a rendered page lets the user raise an
    event, so the guards the code puts on its buttons are guards of the model. *)
From S2P Require Import Prelude.
From Stdlib Require Import String.

Section View.
Context {U : Type} `{EqDecision U}.

Inductive node :=
| Text (s : string)                        (** a text node *)
| Count (z : Z)                            (** [z.toLocaleString()] *)
| Date (iso : string)                      (** [new Date(iso).toLocale...String()] *)
| Icon (name : string)
| Badge (variant label : string)
| Link (href label : string)
| Button (label : string) (disabled : bool) (ev : U)
| Field (label val : string) (disabled : bool) (on : U -> bool)
    (** an input: the events its [onChange] can raise *)
| Select (val : string) (options : list (string * string)) (disabled : bool)
    (on : string -> U)
| Banner (kind title message : string) (dismiss : option U)
| Box (tone : string) (children : list node).
    (** an element whose class names depend on the state *)

(** The page lets the user raise [u]. *)
Fixpoint fires (u : U) (n : node) : bool :=
  match n with
  | Button _ disabled ev => negb disabled && bool_decide (u = ev)
  | Field _ _ disabled on => negb disabled && on u
  | Select _ options disabled on =>
      negb disabled && existsb (fun o => bool_decide (u = on (fst o))) options
  | Banner _ _ _ (Some ev) => bool_decide (u = ev)
  | Box _ children => existsb (fires u) children
  | _ => false
  end.

Definition allows (page : list node) (u : U) : bool := existsb (fires u) page.

(** The page shows this text somewhere. *)
Fixpoint shows_in (t : string) (n : node) : bool :=
  match n with
  | Text s | Badge _ s => String.eqb s t
  | Link _ s | Button s _ _ => String.eqb s t
  | Banner _ _ m _ => String.eqb m t
  | Box _ children => existsb (shows_in t) children
  | _ => false
  end.

Definition shows (page : list node) (t : string) : bool := existsb (shows_in t) page.

(** [cond && <Element/>]. *)
Definition when (b : bool) (ns : list node) : list node := if b then ns else [].

Lemma allows_app p1 p2 u : allows (p1 ++ p2) u = allows p1 u || allows p2 u.
Proof. apply existsb_app. Qed.

Lemma allows_cons n p u : allows (n :: p) u = fires u n || allows p u.
Proof. done. Qed.

Lemma allows_when b ns u : allows (when b ns) u = b && allows ns u.
Proof. by destruct b. Qed.

Lemma allows_map {A} (f : A -> node) (l : list A) u :
  allows (map f l) u = existsb (fun x => fires u (f x)) l.
Proof. unfold allows. induction l; simpl; [done | by rewrite IHl]. Qed.

Lemma allows_flat_map {A} (f : A -> list node) (l : list A) u :
  allows (flat_map f l) u = existsb (fun x => allows (f x) u) l.
Proof.
  induction l as [|x l IH]; simpl; [done |]. by rewrite allows_app, IH.
Qed.

Lemma allows_flat_map_none {A} (f : A -> list node) (l : list A) u :
  (forall x, allows (f x) u = false) -> allows (flat_map f l) u = false.
Proof.
  intros Hf. induction l as [|x l IH]; [done |]. cbn [flat_map]. by rewrite allows_app, Hf, IH.
Qed.

Lemma shows_app p1 p2 t : shows (p1 ++ p2) t = shows p1 t || shows p2 t.
Proof. apply existsb_app. Qed.

(** A page without controls. *)
Lemma allows_nothing (page : list node) u :
  forallb (fun n => negb (fires u n)) page = true -> allows page u = false.
Proof.
  unfold allows. induction page as [|n p IH]; simpl; [done |].
  intros [Hn%negb_true_iff Hp]%andb_true_iff. by rewrite Hn, IH.
Qed.

(** The values a drop-down list built from records offers. *)
Lemma select_options {A} (id label : A -> string) (l : list A) (on : string -> U) v :
  (forall a b, on a = on b -> a = b) ->
  existsb (fun o => bool_decide (on v = on (fst o))) (map (fun x => (id x, label x)) l)
  = str_in v (map id l).
Proof.
  intros Hinj. induction l as [|x l IH]; [done |]. cbn [existsb map]. rewrite IH, str_in_cons. f_equal.
  cbn. destruct (String.eqb_spec v (id x)) as [->|Hne]; [by apply bool_decide_eq_true_2 |].
  apply bool_decide_eq_false_2. intros E. by apply Hne, Hinj.
Qed.

Lemma select_other (opts : list (string * string)) (on : string -> U) u :
  (forall a, u <> on a) -> existsb (fun o => bool_decide (u = on (fst o))) opts = false.
Proof.
  intros Hne. induction opts as [|o l IH]; [done |]. cbn [existsb]. rewrite IH, orb_false_r.
  by apply bool_decide_eq_false_2.
Qed.

Lemma fires_box u tone ns : fires u (Box tone ns) = allows ns u.
Proof. done. Qed.

Lemma allows_imap {A} (f : nat -> A -> node) (l : list A) u :
  (forall i x, fires u (f i x) = false) -> allows (imap f l) u = false.
Proof.
  revert f. induction l as [|x l IH]; intros f Hf; [done |].
  rewrite imap_cons, allows_cons, Hf. apply IH. intros i y. apply Hf.
Qed.

Lemma allows_map_none {A} (f : A -> node) (l : list A) u :
  (forall x, fires u (f x) = false) -> allows (map f l) u = false.
Proof. intros Hf. induction l as [|x l IH]; [done |]. cbn [map]. by rewrite allows_cons, Hf. Qed.

Lemma allows_nil u : allows [] u = false.
Proof. done. Qed.
End View.

Arguments node : clear implicits.

Create Rewrite HintDb view.
#[export] Hint Rewrite @allows_app @allows_cons @allows_when @allows_map @allows_flat_map : view.

(** Reads off the control a page has for an event: fires each node in turn. *)
Ltac read_page :=
  rewrite ?allows_app, ?allows_when; rewrite ?allows_cons, ?allows_nil; cbn [fires];
  repeat match goal with
  | |- context [existsb (fun o => bool_decide (?u = ?on (fst o))) ?l] =>
      rewrite (select_other l on u) by (intros; discriminate)
  | |- context [existsb (fun o => bool_decide (?on ?v = ?on (fst o))) (map (fun x => (@?id x, @?lbl x)) ?l)] =>
      rewrite (select_options id lbl l on v) by congruence
  | |- context [bool_decide (?a = ?b)] =>
      first [ rewrite (bool_decide_eq_true_2 (a = b)) by reflexivity
            | rewrite (bool_decide_eq_false_2 (a = b)) by discriminate ]
  end;
  cbn [orb andb negb];
  rewrite ?orb_false_r, ?andb_true_r, ?andb_false_r, ?negb_orb, ?negb_involutive;
  cbn [orb andb negb]; rewrite ?orb_false_r.

(** Decides the equalities a page compares its events with, leaving the state's own tests
    as cases. *)
Ltac decide_eqs :=
  repeat match goal with
  | |- context [bool_decide (?a = ?b)] =>
      first [ rewrite (bool_decide_eq_true_2 (a = b)) by reflexivity
            | rewrite (bool_decide_eq_false_2 (a = b)) by discriminate
            | destruct (bool_decide (a = b)) eqn:? ]
  end.

(** Clears the constants out of a page's tests. *)
Ltac tidy_bool :=
  repeat progress (cbn [orb andb negb];
    rewrite ?orb_false_r, ?orb_true_r, ?andb_false_r, ?andb_true_r, ?negb_involutive).
