(* ===== verification/Common.v ===== *)
(** * Shared elements: [components/common/] and [components/ui/]

    The status badge, the alert banner, the button, the fields of forms and the placeholders,
    as parts of a page. Cards only group what is in them. *)
From S2P Require Import Prelude View.
From Stdlib Require Import String.

Section Common.
Context {U : Type}.

(** The colour of a status, by its upper-case form; the first list that contains it wins. *)
(*@ dashboard/components/common/StatusBadge.tsx 13 44 StatusBadge *)
Definition status_color (status : string) : string :=
  let s := to_upper status in
  if str_in s ["OPEN"; "ACTIVE"; "PASSED"; "INTACT"] then "emerald"
  else if str_in s ["LOCKED"; "CONFIGURED"] then "blue"
  else if str_in s ["SUSPENDED"; "PAUSED"; "WARNING"] then "amber"
  else if str_in s ["REVOKED"; "FAILED"; "RECONCILIATION FAILURE"; "BROKEN"; "ERROR";
                    "TAMPER_DETECTED"] then "rose"
  else if str_in s ["CLOSED"; "PUBLISHED"] then "purple"
  else if str_in s ["ADMIN"] then "indigo"
  else if str_in s ["AUDITOR"] then "teal"
  else if str_in s ["OBSERVER"] then "slate"
  else "gray"%string.

(*@ dashboard/components/common/StatusBadge.tsx 54 63 StatusBadge *)
Definition status_dot (status : string) : string :=
  let s := to_upper status in
  if str_in s ["OPEN"; "ACTIVE"; "PASSED"; "INTACT"] then "emerald"
  else if str_in s ["SUSPENDED"; "PAUSED"] then "amber"
  else if str_in s ["REVOKED"; "FAILED"; "RECONCILIATION FAILURE"; "BROKEN"] then "rose"
  else "gray"%string.

(*@ dashboard/components/common/StatusBadge.tsx 45 75 StatusBadge *)
Definition StatusBadge (status : string) (isDemo : bool) : list (node U) :=
  [Badge (status_color status ++s "/" ++s status_dot status) status]
  ++ when isDemo [Badge "amber" "[DEMO-MODE]"].

(*@ dashboard/components/common/AlertBanner.tsx 13 66 AlertBanner *)
Definition AlertBanner (type title message : string) (onDismiss : option U) : list (node U) :=
  [Banner type title message onDismiss].

(** A button of the library is disabled while it is loading. *)
(*@ dashboard/components/ui/Button.tsx 12 51 Button *)
Definition LibButton (label : string) (loading disabled : bool) (onClick : U) : list (node U) :=
  [Button label (disabled || loading) onClick].

(*@ dashboard/components/ui/ErrorState.tsx 5 24 ErrorState *)
Definition ErrorState (title message : string) (onRetry : option U) : list (node U) :=
  [Icon "AlertTriangle"; Text title; Text message]
  ++ match onRetry with Some ev => [Button "Try Again" false ev] | None => [] end.

(*@ dashboard/components/ui/EmptyState.tsx 4 20 EmptyState *)
Definition EmptyState (icon title description : string) (action : list (node U)) : list (node U) :=
  [Icon icon; Text title; Text description] ++ action.

(** An element with the label above it and the error below it, when they are given. *)
Definition labelled (label error : option string) (element : node U) : list (node U) :=
  match label with Some l => when (truthy_str l) [Text l] | None => [] end
  ++ [element]
  ++ match error with Some e => when (truthy_str e) [Text e] | None => [] end.

(*@ dashboard/components/ui/Input.tsx 9 34 Input *)
Definition LibInput (label error : option string) (name val : string) (disabled : bool) (onChange : U -> bool)
    : list (node U) :=
  labelled label error (Field name val disabled onChange).

(*@ dashboard/components/ui/Select.tsx 10 41 Select *)
Definition LibSelect (label error : option string) (val : string) (options : list (string * string)) (disabled : bool)
    (onChange : string -> U) : list (node U) :=
  labelled label error (Select val options disabled onChange).

(*@ dashboard/components/ui/Skeleton.tsx 4 11 Skeleton *)
Definition Skeleton : node U := Icon "Skeleton".
End Common.
