(* ===== verification/React.v ===== *)
(** * The runtime: asynchronous handlers on a single-threaded event loop

    A component keeps a state; its handlers are programs of [prog]: state updates, awaited
    API calls, timers. The loop runs a handler without interruption until it awaits
    something or ends; what remains of it is a task, resumed by the answer to its call or
    by its timer. User events are possible when the rendered page has an enabled control
    for them. [wp] is a program logic for invariants of all interleavings, sound by
    [reachable_good]. *)
From S2P Require Import Prelude JsValue JsNumber Types ApiClient View.

(** ** Programs *)

(** What an [await] waits for: one call, [Promise.all] of two, or [Promise.all] of calls that
    each have their own [catch], so that every one of them ends. *)
Inductive query := One (r : req) | Two (r1 r2 : req) | Each (rs : list req).

Fixpoint settled (rs : list req) : Type :=
  match rs with [] => unit | r :: rs' => outcome (resp r) * settled rs' end.

Definition qresp (q : query) : Type :=
  match q with One r => resp r | Two r1 r2 => resp r1 * resp r2 | Each rs => settled rs end.

Definition reqs (q : query) : list req :=
  match q with One r => [r] | Two r1 r2 => [r1; r2] | Each rs => rs end.

Fixpoint settle (f : forall r, outcome (resp r)) (rs : list req) : settled rs :=
  match rs with [] => tt | r :: rs' => (f r, settle f rs') end.

(** The answer to a query from the answers to its calls; [Promise.all] rejects with the
    first rejection. *)
Definition answers (f : forall r, outcome (resp r)) (q : query) : outcome (qresp q) :=
  match q with
  | One r => f r
  | Two r1 r2 =>
      match f r1, f r2 with
      | Ok a, Ok b => Ok (a, b)
      | Err e, _ => Err e
      | _, Err e => Err e
      end
  | Each rs => Ok (settle f rs)
  end.

Section Prog.
Context {S : Type}.

Inductive prog (A : Type) : Type :=
| Ret (a : A)
| Throw (e : error_obj)
| Upd (f : S -> S) (k : prog A)                 (** state setters, refs, browser effects *)
| Peek (k : S -> prog A)                        (** reading a ref, not a captured value *)
| Call (q : query) (k : outcome (qresp q) -> prog A)
| Sleep (ms : Z) (k : prog A)                   (** [await new Promise(setTimeout)] *)
| Timer (every : bool) (ms : Z) (body : prog unit) (k : nat -> prog A)
| Clear (id : nat) (k : prog A)
| Now (k : Z -> prog A).                        (** [Date.now()] *)

Arguments Ret {A} _.
Arguments Throw {A} _.
Arguments Upd {A} _ _.
Arguments Peek {A} _.
Arguments Call {A} _ _.
Arguments Sleep {A} _ _.
Arguments Timer {A} _ _ _ _.
Arguments Clear {A} _ _.
Arguments Now {A} _.

#[global] Instance prog_ret : MRet prog := fun A a => Ret a.

#[global] Instance prog_bind : MBind prog :=
  fun A B (g : A -> prog B) => fix go (p : prog A) : prog B :=
    match p with
    | Ret a => g a
    | Throw e => Throw e
    | Upd f k => Upd f (go k)
    | Peek k => Peek (fun s => go (k s))
    | Call q k => Call q (fun o => go (k o))
    | Sleep ms k => Sleep ms (go k)
    | Timer b ms t k => Timer b ms t (fun i => go (k i))
    | Clear i k => Clear i (go k)
    | Now k => Now (fun t => go (k t))
    end.

(** [try { p } catch (e) { h e }]. *)
Fixpoint try_catch {A} (p : prog A) (h : error_obj -> prog A) : prog A :=
  match p with
  | Ret a => Ret a
  | Throw e => h e
  | Upd f k => Upd f (try_catch k h)
  | Peek k => Peek (fun s => try_catch (k s) h)
  | Call q k => Call q (fun o => try_catch (k o) h)
  | Sleep ms k => Sleep ms (try_catch k h)
  | Timer b ms t k => Timer b ms t (fun i => try_catch (k i) h)
  | Clear i k => Clear i (try_catch k h)
  | Now k => Now (fun t => try_catch (k t) h)
  end.

(** [try { p } finally { q }]. *)
Fixpoint finally {A} (p : prog A) (q : prog unit) : prog A :=
  match p with
  | Ret a => mbind (fun _ => Ret a) q
  | Throw e => mbind (fun _ => Throw e) q
  | Upd f k => Upd f (finally k q)
  | Peek k => Peek (fun s => finally (k s) q)
  | Call c k => Call c (fun o => finally (k o) q)
  | Sleep ms k => Sleep ms (finally k q)
  | Timer b ms t k => Timer b ms t (fun i => finally (k i) q)
  | Clear i k => Clear i (finally k q)
  | Now k => Now (fun t => finally (k t) q)
  end.

(** [await api.m(...)]: the value, or the rejection thrown. *)
Definition await_query (q : query) : prog (qresp q) :=
  Call q (fun o => match o with Ok a => Ret a | Err e => Throw e end).
Definition await (r : req) : prog (resp r) := await_query (One r).
Definition await_both (r1 r2 : req) : prog (resp r1 * resp r2) := await_query (Two r1 r2).

(** [await Promise.all([...])] of calls that cannot reject. An answer that rejects the whole
    stands for one that rejects each call. *)
Definition await_each (rs : list req) : prog (settled rs) :=
  Call (Each rs) (fun o => match o with Ok a => Ret a | Err e => Ret (settle (fun _ => Err e) rs) end).

Definition upd (f : S -> S) : prog unit := Upd f (Ret tt).
Definition set_timeout (ms : Z) (body : prog unit) : prog unit :=
  Timer false ms body (fun _ => Ret tt).
Definition sleep (ms : Z) : prog unit := Sleep ms (Ret tt).
Definition date_now : prog Z := Now Ret.
End Prog.

Arguments prog : clear implicits.
Arguments Ret {S A} _.
Arguments Throw {S A} _.
Arguments Upd {S A} _ _.
Arguments Peek {S A} _.
Arguments Call {S A} _ _.
Arguments Sleep {S A} _ _.
Arguments Timer {S A} _ _ _ _.
Arguments Clear {S A} _ _.
Arguments Now {S A} _.

(** Induction on the part of a program that runs before it suspends. *)
Definition prog_unit_ind {S} (P : prog S unit -> Prop)
  (HRet : forall a, P (Ret a)) (HThrow : forall e, P (Throw e))
  (HUpd : forall f k, P k -> P (Upd f k))
  (HPeek : forall k, (forall s, P (k s)) -> P (Peek k))
  (HCall : forall q k, P (Call q k)) (HSleep : forall ms k, P (Sleep ms k))
  (HTimer : forall every ms body k, (forall i, P (k i)) -> P (Timer every ms body k))
  (HClear : forall id k, P k -> P (Clear id k))
  (HNow : forall k, (forall t, P (k t)) -> P (Now k)) : forall p, P p :=
  fix go p :=
    match p with
    | Ret a => HRet a
    | Throw e => HThrow e
    | Upd f k => HUpd f k (go k)
    | Peek k => HPeek k (fun s => go (k s))
    | Call q k => HCall q k
    | Sleep ms k => HSleep ms k
    | Timer b ms t k => HTimer b ms t k (fun i => go (k i))
    | Clear i k => HClear i k (go k)
    | Now k => HNow k (fun t => go (k t))
    end.

(** Induction on a whole program, timer callbacks included. *)
Definition prog_unit_full_ind {S} (P : prog S unit -> Prop)
  (HRet : forall a, P (Ret a)) (HThrow : forall e, P (Throw e))
  (HUpd : forall f k, P k -> P (Upd f k))
  (HPeek : forall k, (forall s, P (k s)) -> P (Peek k))
  (HCall : forall q k, (forall o, P (k o)) -> P (Call q k))
  (HSleep : forall ms k, P k -> P (Sleep ms k))
  (HTimer : forall every ms body, P body ->
            forall k, (forall i, P (k i)) -> P (Timer every ms body k))
  (HClear : forall id k, P k -> P (Clear id k))
  (HNow : forall k, (forall t, P (k t)) -> P (Now k)) : forall p, P p :=
  fix go p :=
    match p with
    | Ret a => HRet a
    | Throw e => HThrow e
    | Upd f k => HUpd f k (go k)
    | Peek k => HPeek k (fun s => go (k s))
    | Call q k => HCall q k (fun o => go (k o))
    | Sleep ms k => HSleep ms k (go k)
    | Timer b ms t k => HTimer b ms t (go t) k (fun i => go (k i))
    | Clear i k => HClear i k (go k)
    | Now k => HNow k (fun t => go (k t))
    end.

(** ** The event loop *)

Inductive task (S : Type) :=
| Waiting (id : nat) (q : query) (k : outcome (qresp q) -> prog S unit)
| Sleeping (id : nat) (due : Z) (k : prog S unit)
| Timed (id : nat) (due : Z) (period : option Z) (body : prog S unit).

Arguments Waiting {S} _ _ _.
Arguments Sleeping {S} _ _ _.
Arguments Timed {S} _ _ _ _.

Record world (S : Type) := mk_world {
  st : S;
  now : Z;
  fresh : nat;
  tasks : list (task S);
  sent : list (S * req);              (** each request with the state it was sent in *)
  uncaught : list error_obj }.

Arguments mk_world {S} _ _ _ _ _ _.
Arguments st {S} _.
Arguments now {S} _.
Arguments fresh {S} _.
Arguments tasks {S} _.
Arguments sent {S} _.
Arguments uncaught {S} _.

Definition task_id {S} (t : task S) : nat :=
  match t with Waiting i _ _ | Sleeping i _ _ | Timed i _ _ _ => i end.

(** An async function that has not returned yet; timer callbacks are not. *)
Definition suspended {S} (t : task S) : bool :=
  match t with Timed _ _ _ _ => false | _ => true end.

Definition idle {S} (w : world S) : bool := negb (existsb suspended (tasks w)).

Lemma idle_tasks {S} (w : world S) : idle w = true <-> forall t, In t (tasks w) -> suspended t = false.
Proof.
  unfold idle. rewrite negb_true_iff. split.
  - intros H t Hin. destruct (suspended t) eqn:E; [| done]. rewrite <- H. symmetry.
    apply existsb_exists. eauto.
  - intros H. apply not_true_is_false. intros (t & Hin & Hs)%existsb_exists. by rewrite H in Hs.
Qed.

Definition due_of {S} (t : task S) : option Z :=
  match t with
  | Waiting _ _ _ => None
  | Sleeping _ d _ | Timed _ d _ _ => Some d
  end.

Definition with_st {S} (s : S) (w : world S) : world S :=
  mk_world s (now w) (fresh w) (tasks w) (sent w) (uncaught w).

Definition with_tasks {S} (ts : list (task S)) (w : world S) : world S :=
  mk_world (st w) (now w) (fresh w) ts (sent w) (uncaught w).

(** Adds a task under the next identifier. *)
Definition add_task {S} (t : nat -> task S) (rs : list req) (w : world S) : world S :=
  mk_world (st w) (now w) (Datatypes.S (fresh w)) (tasks w ++ [t (fresh w)])
           (sent w ++ map (fun r => (st w, r)) rs) (uncaught w).

Arguments with_st {S} _ !_ /.
Arguments with_tasks {S} _ !_ /.
Arguments add_task {S} _ _ !_ /.

(** Runs a program until it ends or waits. *)
Fixpoint exec {S} (p : prog S unit) (w : world S) : world S :=
  match p with
  | Ret _ => w
  | Throw e => mk_world (st w) (now w) (fresh w) (tasks w) (sent w) (uncaught w ++ [e])
  | Upd f k => exec k (with_st (f (st w)) w)
  | Peek k => exec (k (st w)) w
  | Call q k => add_task (fun i => Waiting i q k) (reqs q) w
  | Sleep ms k => add_task (fun i => Sleeping i (now w + ms) k) [] w
  | Timer every ms body k =>
      exec (k (fresh w))
        (add_task (fun i => Timed i (now w + ms) (if every then Some ms else None) body) [] w)
  | Clear id k =>
      exec k (with_tasks (filter (fun t => negb (Nat.eqb (task_id t) id) || suspended t) (tasks w)) w)
  | Now k => exec (k (now w)) w
  end.

(** A component: what it renders and how it reacts to its user ([U]) and to its
    surroundings ([X]: mounting, a changed context or dependency). *)
Record component (S U X : Type) := mk_component {
  render : S -> list (node U);
  on_user : U -> S -> prog S unit;
  on_env : X -> S -> prog S unit }.

Arguments mk_component {S U X} _ _ _.
Arguments render {S U X} _ _.
Arguments on_user {S U X} _ _ _.
Arguments on_env {S U X} _ _ _.

Inductive event (U X : Type) :=
| User (u : U)
| Env (x : X)
| Reply (id : nat) (answer : forall q, outcome (qresp q))
| Tick (ms : Z)
| Fire (id : nat).

Arguments User {U X} _.
Arguments Env {U X} _.
Arguments Reply {U X} _ _.
Arguments Tick {U X} _.
Arguments Fire {U X} _.

Definition get_task {S} (id : nat) (w : world S) : option (task S) :=
  find_first (fun t => Nat.eqb (task_id t) id) (tasks w).

Definition drop_task {S} (id : nat) (w : world S) : world S :=
  with_tasks (filter (fun t => negb (Nat.eqb (task_id t) id)) (tasks w)) w.

(** Timers run in the order of their deadlines, none before its own. *)
Definition may_fire {S} (id : nat) (due : Z) (w : world S) : bool :=
  (due <=? now w)
  && forallb (fun t => match due_of t with
                       | Some d => (due <? d) || ((due =? d) && (id <=? task_id t)%nat)
                       | None => true
                       end) (tasks w).

Section Loop.
Context {S U X : Type} `{EqDecision U} (C : component S U X).

Definition step (w : world S) (e : event U X) : option (world S) :=
  match e with
  | User u => if allows (render C (st w)) u then Some (exec (on_user C u (st w)) w) else None
  | Env x => Some (exec (on_env C x (st w)) w)
  | Reply id answer =>
      match get_task id w with
      | Some (Waiting _ q k) => Some (exec (k (answer q)) (drop_task id w))
      | _ => None
      end
  | Tick ms =>
      if 0 <=? ms
      then Some (mk_world (st w) (now w + ms) (fresh w) (tasks w) (sent w) (uncaught w))
      else None
  | Fire id =>
      match get_task id w with
      | Some (Sleeping _ due k) =>
          if may_fire id due w then Some (exec k (drop_task id w)) else None
      | Some (Timed _ due period body) =>
          if may_fire id due w then
            match period with
            | None => Some (exec body (drop_task id w))
            | Some ms =>
                Some (exec body
                  (with_tasks (map (fun t => if Nat.eqb (task_id t) id
                                             then Timed id (due + ms) period body else t)
                                   (tasks w)) w))
            end
          else None
      | _ => None
      end
  end.

Fixpoint run (w : world S) (es : list (event U X)) : option (world S) :=
  match es with
  | [] => Some w
  | e :: es' => match step w e with Some w' => run w' es' | None => None end
  end.

(** A world before anything happened. *)
Definition boot (s : S) : world S := mk_world s 0 0 [] [] [].

(** Reachable by events that satisfy [P]. *)
Inductive reachable (P : event U X -> Prop) (s0 : S) : world S -> Prop :=
| reach_boot : reachable P s0 (boot s0)
| reach_step w e w' : reachable P s0 w -> P e -> step w e = Some w' -> reachable P s0 w'.

(** A concrete run and what its end satisfies, by computation. *)
Lemma run_witness (Q : world S -> Prop) w es :
  match run w es with Some w' => Q w' | None => False end ->
  exists w', run w es = Some w' /\ Q w'.
Proof. destruct (run w es) as [w'|]; [by exists w' | done]. Qed.

Lemma run_app w es1 es2 :
  run w (es1 ++ es2) = match run w es1 with Some w' => run w' es2 | None => None end.
Proof.
  revert w. induction es1 as [|e es1 IH]; intros w; simpl; [done |].
  destruct (step w e); [apply IH | done].
Qed.

Lemma reachable_run P s0 w es w' :
  reachable P s0 w -> Forall P es -> run w es = Some w' -> reachable P s0 w'.
Proof.
  revert w. induction es as [|e es IH]; intros w Hw HP; simpl.
  - by intros [= <-].
  - destruct (step w e) as [w1|] eqn:E; [| done]. intros Hr. inversion HP; subst.
    eapply IH; [| done | done]. by eapply reach_step.
Qed.

(** The end of a concrete run, reachable whether or not the run is possible: no computation
    of the closures that wait in it is needed. *)
Lemma reachable_default P s0 w es :
  reachable P s0 w -> Forall P es -> reachable P s0 (default w (run w es)).
Proof. intros Hw He. destruct (run w es) eqn:E; [by eapply reachable_run | done]. Qed.

(** Steps of a world with at most one task. *)
Lemma run_cons w e es :
  run w (e :: es) = match step w e with Some w' => run w' es | None => None end.
Proof. done. Qed.

Lemma step_reply_single w t i answer :
  tasks w = [t] -> task_id t = i ->
  step w (Reply i answer)
  = match t with
    | Waiting _ q k => Some (exec (k (answer q)) (with_tasks [] w))
    | _ => None
    end.
Proof.
  intros Ht <-. unfold step, get_task, drop_task. rewrite Ht. simpl. rewrite Nat.eqb_refl.
  destruct t; simpl; try done.
  by rewrite filter_cons_False by (simpl; rewrite Nat.eqb_refl; auto).
Qed.

Lemma step_timer_single w i d body :
  tasks w = [Timed i d None body] -> d <= now w ->
  step w (Fire i) = Some (exec body (with_tasks [] w)).
Proof.
  intros Ht Hd. unfold step, get_task, drop_task, may_fire. rewrite Ht. simpl.
  rewrite Nat.eqb_refl, (proj2 (Z.leb_le _ _) Hd), Z.eqb_refl, Nat.leb_refl, orb_true_r. simpl.
  by rewrite filter_cons_False by (simpl; rewrite Nat.eqb_refl; auto).
Qed.

Lemma step_sleep_single w i d k :
  tasks w = [Sleeping i d k] -> d <= now w ->
  step w (Fire i) = Some (exec k (with_tasks [] w)).
Proof.
  intros Ht Hd. unfold step, get_task, drop_task, may_fire. rewrite Ht. simpl.
  rewrite Nat.eqb_refl, (proj2 (Z.leb_le _ _) Hd), Z.eqb_refl, Nat.leb_refl, orb_true_r. simpl.
  by rewrite filter_cons_False by (simpl; rewrite Nat.eqb_refl; auto).
Qed.

Lemma step_interval_single w i d ms body :
  tasks w = [Timed i d (Some ms) body] -> d <= now w ->
  step w (Fire i) = Some (exec body (with_tasks [Timed i (d + ms) (Some ms) body] w)).
Proof.
  intros Ht Hd. unfold step, get_task, may_fire. rewrite Ht. simpl.
  by rewrite Nat.eqb_refl, (proj2 (Z.leb_le _ _) Hd), Z.eqb_refl, Nat.leb_refl, orb_true_r.
Qed.

Lemma step_tick w ms :
  0 <= ms ->
  step w (Tick ms) = Some (mk_world (st w) (now w + ms) (fresh w) (tasks w) (sent w) (uncaught w)).
Proof. intros H. unfold step. by rewrite (proj2 (Z.leb_le _ _) H). Qed.

(** A timer that is the only task does not run before its deadline, and nothing changes
    the state until then. *)
Lemma timer_waits s n f i d body snt unc ms j :
  0 <= ms < d - n ->
  exists w, run (mk_world s n f [Timed i d None body] snt unc) [Tick ms] = Some w
    /\ st w = s /\ step w (Fire j) = None.
Proof.
  intros Hms. eexists. rewrite run_cons, step_tick by lia.
  split; [reflexivity |]. split; [done |]. unfold step, get_task, may_fire. simpl.
  destruct (i =? j)%nat; [| done]. by rewrite (proj2 (Z.leb_gt d (n + ms))) by lia.
Qed.

Lemma step_env w x : step w (Env x) = Some (exec (on_env C x (st w)) w).
Proof. done. Qed.
End Loop.

(** ** A program logic for all interleavings

    [Inv] is an invariant of the component state at every suspension point, [Sends] what a
    request may be given the state it is sent in. *)
Section Logic.
Context {S : Type}.
Context (Inv : S -> Prop) (Sends : S -> req -> Prop).

(** From [s], [p] ends in a state satisfying [Q] or suspends in one satisfying [Inv], and
    whatever it suspends is safe to resume in every state satisfying [Inv]. *)
Fixpoint wp {A : Type} (p : prog S A) (Q : S -> Prop) (s : S) {struct p} : Prop :=
  match p with
  | Ret _ | Throw _ => Q s
  | Upd f k => wp k Q (f s)
  | Peek k => wp (k s) Q s
  | Call q k =>
      Inv s /\ Forall (Sends s) (reqs q) /\ forall o s', Inv s' -> wp (k o) Inv s'
  | Sleep _ k => Inv s /\ forall s', Inv s' -> wp k Inv s'
  | Timer _ _ body k =>
      (forall s', Inv s' -> wp body Inv s') /\ forall id, wp (k id) Q s
  | Clear _ k => wp k Q s
  | Now k => forall t, wp (k t) Q s
  end.

(** The obligation of a handler called in [s]. *)
Definition handles (p : prog S unit) (s : S) : Prop := wp p Inv s.

Definition task_safe (t : task S) : Prop :=
  match t with
  | Waiting _ q k => forall o s', Inv s' -> wp (k o) Inv s'
  | Sleeping _ _ k => forall s', Inv s' -> wp k Inv s'
  | Timed _ _ _ body => forall s', Inv s' -> wp body Inv s'
  end.

Record good (w : world S) : Prop := {
  good_inv : Inv (st w);
  good_tasks : Forall task_safe (tasks w);
  good_sent : Forall (fun '(s, r) => Sends s r) (sent w) }.

Lemma exec_good_tasks p w :
  Forall task_safe (tasks w) -> Forall (fun '(s, r) => Sends s r) (sent w) ->
  wp p Inv (st w) -> good (exec p w).
Proof.
  revert w.
  induction p as [[]|e|f k IH|k IH|q k|ms k|every ms body k IH|id k IH|k IH]
    using prog_unit_ind; intros w Ht Hs Hp; simpl in Hp |- *.
  - by split.
  - by split.
  - by apply (IH (with_st (f (st w)) w)).
  - by apply IH.
  - destruct Hp as (Hi & Hr & Hk). split; simpl; auto.
    + apply Forall_app_2; [done | by constructor].
    + apply Forall_app_2; [done |]. apply Forall_fmap. by apply Forall_impl with (1 := Hr).
  - destruct Hp as (Hi & Hk). split; simpl; auto.
    + apply Forall_app_2; [done | by constructor].
    + by rewrite app_nil_r.
  - destruct Hp as (Hb & Hk). apply IH; simpl; auto.
    + apply Forall_app_2; [done | by constructor].
    + by rewrite app_nil_r.
  - apply IH; simpl; auto. by apply Forall_sub_filter.
  - by apply IH.
Qed.

Lemma exec_good p w : good w -> wp p Inv (st w) -> good (exec p w).
Proof. intros [_ Ht Hs]. by apply exec_good_tasks. Qed.

Lemma good_with_tasks ts w : good w -> Forall task_safe ts -> good (with_tasks ts w).
Proof. by intros [Hi _ Hs] Ht. Qed.

Lemma good_drop id w : good w -> good (drop_task id w).
Proof. intros Hg. apply good_with_tasks; [done |]. apply Forall_sub_filter. apply Hg. Qed.
End Logic.

(** Soundness: if every handler the page and the surroundings can call is safe, then the
    invariant and the send condition hold in every reachable world. *)
Section Soundness.
Context {S U X : Type} `{EqDecision U} (C : component S U X).
Context (Inv : S -> Prop) (Sends : S -> req -> Prop).
Context (P : event U X -> Prop).

Record safe_component : Prop := {
  safe_user : forall u s, P (User u) -> Inv s -> allows (render C s) u = true ->
                handles Inv Sends (on_user C u s) s;
  safe_env : forall x s, P (Env x) -> Inv s -> handles Inv Sends (on_env C x s) s }.

Lemma get_task_In id (w : world S) t :
  get_task id w = Some t -> In t (tasks w) /\ task_id t = id.
Proof.
  intros [Hin Hid]%find_first_Some. split; [done |]. by apply Nat.eqb_eq.
Qed.

(** Task identifiers are pairwise different and below the next fresh one. *)
Definition wf (w : world S) : Prop :=
  NoDup (map task_id (tasks w)) /\ Forall (fun t => (task_id t < fresh w)%nat) (tasks w).

Lemma wf_filter (Q : task S -> Prop) `{forall t, Decision (Q t)} w :
  wf w -> wf (with_tasks (filter Q (tasks w)) w).
Proof.
  intros [Hn Hf]. split; simpl; [| by apply Forall_sub_filter].
  clear Hf. induction (tasks w) as [|t ts IH]; [done |].
  simpl in Hn. apply NoDup_cons in Hn as [Hni Hn].
  rewrite filter_cons. destruct (decide (Q t)); simpl; [| by apply IH].
  constructor; [| by apply IH]. intros Hin. apply Hni.
  apply list_elem_of_fmap in Hin as (t' & -> & [_ Hin]%list_elem_of_filter).
  by apply list_elem_of_fmap_2.
Qed.

Lemma wf_add_task t rs w : (forall i, task_id (t i) = i) -> wf w -> wf (add_task t rs w).
Proof.
  intros Hid [Hn Hf]. unfold add_task. split; simpl.
  - rewrite map_app. simpl. rewrite Hid. apply NoDup_app. split_and!; [done | | by apply NoDup_singleton].
    intros i Hi Hin. apply list_elem_of_singleton in Hin as ->.
    apply list_elem_of_fmap in Hi as (t' & Hi & Ht'). rewrite Forall_forall in Hf.
    specialize (Hf _ Ht'). lia.
  - apply Forall_app_2; [| constructor; [rewrite Hid; lia | done]].
    eapply Forall_impl; [exact Hf |]. simpl. lia.
Qed.

Lemma wf_exec p w : wf w -> wf (exec p w).
Proof.
  revert w. induction p as [[]|e|f k IH|k IH|q k|ms k|every ms body k IH|id k IH|k IH]
    using prog_unit_ind; intros w Hw; simpl; auto.
  - by apply wf_add_task.
  - by apply wf_add_task.
  - apply IH. by apply wf_add_task.
  - apply IH. by apply wf_filter.
Qed.

Lemma wf_step w e w' : wf w -> step C w e = Some w' -> wf w'.
Proof.
  intros Hw. destruct e as [u|x|id answer|ms|id]; simpl.
  - case_match; [intros [= <-]; by apply wf_exec | done].
  - intros [= <-]. by apply wf_exec.
  - do 2 (case_match; try done). intros [= <-]. apply wf_exec. by apply wf_filter.
  - case_match; [intros [= <-]; done | done].
  - destruct (get_task id w) as [[|i d k|i d o body]|] eqn:Eg; try done;
      (destruct (may_fire id d w); [| done]).
    + intros [= <-]. apply wf_exec. by apply wf_filter.
    + destruct o as [ms|]; intros [= <-]; apply wf_exec; [| by apply wf_filter].
      destruct Hw as [Hn Hf]. split; simpl.
      * rewrite map_map. erewrite map_ext; [exact Hn |]. intros t. simpl.
        destruct (Nat.eqb_spec (task_id t) id); done.
      * apply Forall_fmap. eapply Forall_impl; [exact Hf |]. intros t Ht. simpl in *.
        destruct (Nat.eqb_spec (task_id t) id) as [E|]; simpl; [by rewrite <- E | done].
Qed.

(** The task an identifier stands for is unique. *)
Lemma wf_task_unique w t1 t2 :
  wf w -> In t1 (tasks w) -> In t2 (tasks w) -> task_id t1 = task_id t2 -> t1 = t2.
Proof.
  intros [Hn _] H1%list_elem_of_In H2%list_elem_of_In E.
  apply list_elem_of_lookup in H1 as [i Hi], H2 as [j Hj].
  assert (i = j) as ->; [| congruence].
  eapply (NoDup_lookup _ _ _ (task_id t1) Hn); rewrite list_lookup_fmap.
  - by rewrite Hi.
  - rewrite Hj. simpl. by rewrite E.
Qed.

Context (HC : safe_component).

Lemma step_good w e w' :
  good Inv Sends w -> P e -> step C w e = Some w' -> good Inv Sends w'.
Proof.
  intros Hg HP. pose proof Hg as [Hi Ht Hs].
  destruct e as [u|x|id answer|ms|id]; simpl.
  - destruct (allows _ u) eqn:E; [| done]. intros [= <-].
    apply exec_good; [done |]. by apply (safe_user HC).
  - intros [= <-]. apply exec_good; [done |]. by apply (safe_env HC).
  - destruct (get_task id w) as [[i q k| |]|] eqn:Eg; try done. intros [= <-].
    apply get_task_In in Eg as [Hin _]. apply exec_good; [by apply good_drop |].
    by apply (Forall_In _ _ _ Ht Hin).
  - case_match; [intros [= <-]; by split | done].
  - destruct (get_task id w) as [[|i d k|i d o body]|] eqn:Eg; try done;
      (destruct (may_fire id d w); [| done]); pose proof Eg as [Hin _]%get_task_In;
      pose proof (Forall_In _ _ _ Ht Hin) as Hsafe; simpl in Hsafe.
    + intros [= <-]. apply exec_good; [by apply good_drop | by apply Hsafe].
    + destruct o as [ms|]; intros [= <-]; (apply exec_good; [| by apply Hsafe]).
      * apply good_with_tasks; [done |]. apply Forall_fmap. eapply Forall_impl; [exact Ht |].
        intros t Hst. simpl. by destruct (Nat.eqb (task_id t) id).
      * by apply good_drop.
Qed.

Lemma run_good w es w' :
  good Inv Sends w -> Forall P es -> run C w es = Some w' -> good Inv Sends w'.
Proof.
  intros Hw Hes. revert w Hw. induction Hes as [|e es He _ IH]; intros w Hw; cbn [run].
  - by intros [= <-].
  - destruct (step C w e) as [w1|] eqn:E; [| done]. apply IH. by eapply step_good.
Qed.

(** Every reachable world is good. *)
Theorem reachable_good s0 w :
  Inv s0 -> reachable C P s0 w -> good Inv Sends w.
Proof.
  intros Hi Hw. induction Hw as [|w e w' _ IHw HP Hstep]; [by split | by eapply step_good].
Qed.
End Soundness.

(** Without an invariant there is nothing to show. *)
Lemma trivially_safe {S U X} `{EqDecision U} (C : component S U X) P :
  safe_component C (fun _ => True) (fun _ _ => True) P.
Proof.
  assert (forall {A} (p : prog S A) s, wp (fun _ => True) (fun _ _ => True) p (fun _ => True) s) as Hp.
  { intros A p. induction p as [A a|A e|A g k IH|A k IH|A c k IH|A ms k IH|A every ms body IHb k IH|A id k IH|A k IH];
      simpl; intros s; auto.
    split_and!; [done | by apply Forall_true | auto]. }
  split; intros; apply Hp.
Qed.


(** ** Composing proofs: specifications of parts of a handler

    [wpf] also tells how a part ends (with a value or an exception) and whether it
    suspended on the way. *)
Section Parts.
Context {S : Type} (Inv : S -> Prop) (Sends : S -> req -> Prop).

Fixpoint wpf {A : Type} (b : bool) (p : prog S A) (Q : bool -> A -> S -> Prop)
    (E : bool -> error_obj -> S -> Prop) (s : S) {struct p} : Prop :=
  match p with
  | Ret a => Q b a s
  | Throw e => E b e s
  | Upd f k => wpf b k Q E (f s)
  | Peek k => wpf b (k s) Q E s
  | Call q k =>
      Inv s /\ Forall (Sends s) (reqs q) /\ forall o s', Inv s' -> wpf true (k o) Q E s'
  | Sleep _ k => Inv s /\ forall s', Inv s' -> wpf true k Q E s'
  | Timer _ _ body k =>
      (forall s', Inv s' -> handles Inv Sends body s') /\ forall id, wpf b (k id) Q E s
  | Clear _ k => wpf b k Q E s
  | Now k => forall t, wpf b (k t) Q E s
  end.

Ltac by_parts p tac :=
  induction p as [A a|A e|A g k IH|A k IH|A c k IH|A ms k IH|A every ms body _ k IH|A id k IH|A k IH];
  simpl; intros b s0 Hp;
  [ tac | tac | tac | tac
  | destruct Hp as (Hi & Hr & Hk); split; [done|]; split; [done|]; intros o s' Hs'; specialize (Hk o s' Hs'); tac
  | destruct Hp as (Hi & Hk); split; [done|]; intros s' Hs'; specialize (Hk s' Hs'); tac
  | destruct Hp as (Hi & Hk); split; [done|]; intros id; specialize (Hk id); tac
  | tac | intros t; specialize (Hp t); tac ].

Lemma wp_wpf b (p : prog S unit) s :
  wpf b p (fun _ _ s => Inv s) (fun _ _ s => Inv s) s -> wp Inv Sends p Inv s.
Proof.
  revert b s. induction p as [[]|e|f k IH|k IH|q k IH|ms k IH|every ms body _ k IH|id k IH|k IH]
    using prog_unit_full_ind; simpl; intros b s0 Hp; eauto.
  - destruct Hp as (Hi & Hr & Hk). split_and!; eauto.
  - destruct Hp as (Hi & Hk). split_and!; eauto.
  - destruct Hp as (Hi & Hk). split_and!; eauto.
Qed.

Lemma wpf_mono {A} b (p : prog S A) (Q Q' : bool -> A -> S -> Prop) (E E' : bool -> error_obj -> S -> Prop) s :
  wpf b p Q E s ->
  (forall b a s, Q b a s -> Q' b a s) -> (forall b e s, E b e s -> E' b e s) ->
  wpf b p Q' E' s.
Proof. intros Hp HQ HE. revert b s Hp. by_parts p ltac:(eauto). Qed.

Lemma wpf_bind {A B} b (p : prog S A) (f : A -> prog S B) Q E s :
  wpf b p (fun b a s => wpf b (f a) Q E s) E s -> wpf b (p ≫= f) Q E s.
Proof. revert b s. by_parts p ltac:(eauto). Qed.

Lemma wpf_upd {A} b f (k : unit -> prog S A) Q E s :
  wpf b (k tt) Q E (f s) -> wpf b (upd f ≫= k) Q E s.
Proof. done. Qed.

Lemma wpf_try {A} b (p : prog S A) (h : error_obj -> prog S A) Q E s :
  wpf b p Q (fun b e s => wpf b (h e) Q E s) s -> wpf b (try_catch p h) Q E s.
Proof. revert b s. by_parts p ltac:(eauto). Qed.

Lemma wpf_finally {A} b (p : prog S A) (q : prog S unit) Q E s :
  wpf b p (fun b a s => wpf b q (fun b _ s => Q b a s) E s)
          (fun b e s => wpf b q (fun b _ s => E b e s) E s) s ->
  wpf b (finally p q) Q E s.
Proof. revert b s. by_parts p ltac:(eauto using @wpf_bind). Qed.

(** A part that keeps the invariant, whatever it returns or throws. *)
Definition keeps {A} (p : prog S A) : Prop :=
  forall b s, Inv s -> wpf b p (fun _ _ s => Inv s) (fun _ _ s => Inv s) s.

Lemma keeps_bind {A B} (p : prog S A) (f : A -> prog S B) :
  keeps p -> (forall a, keeps (f a)) -> keeps (p ≫= f).
Proof.
  intros Hp Hf b s Hs. apply wpf_bind. eapply wpf_mono; [by apply Hp | | done].
  intros b' a s' Hs'. by apply Hf.
Qed.

Lemma keeps_try {A} (p : prog S A) (h : error_obj -> prog S A) :
  keeps p -> (forall e, keeps (h e)) -> keeps (try_catch p h).
Proof.
  intros Hp Hh b s Hs. apply wpf_try. eapply wpf_mono; [by apply Hp | done |].
  intros b' e s' Hs'. by apply Hh.
Qed.

Lemma keeps_upd f : (forall s, Inv s -> Inv (f s)) -> keeps (upd f).
Proof. intros Hf b s Hs. by apply Hf. Qed.

Lemma keeps_finally {A} (p : prog S A) (q : prog S unit) :
  keeps p -> keeps q -> keeps (finally p q).
Proof.
  intros Hp Hq b s Hs. apply wpf_finally. eapply wpf_mono; [by apply Hp | |]; intros b' a s' Hs';
    by apply Hq.
Qed.

Lemma keeps_ret {A} (a : A) : keeps (Ret a).
Proof. by intros b s Hs. Qed.

Lemma keeps_throw {A} e : keeps (@Throw S A e).
Proof. by intros b s Hs. Qed.

Lemma keeps_await r : (forall s, Inv s -> Sends s r) -> keeps (await r).
Proof.
  intros Hr b s Hs. simpl. split_and!; [done | by constructor; [apply Hr |] |].
  intros [a|e] s' Hs'; done.
Qed.

Lemma keeps_await_both r1 r2 :
  (forall s, Inv s -> Sends s r1 /\ Sends s r2) -> keeps (await_both r1 r2).
Proof.
  intros Hr b s Hs. simpl. destruct (Hr s Hs). split_and!; [done | by repeat constructor |].
  intros [a|e] s' Hs'; done.
Qed.

Lemma keeps_await_each rs :
  (forall s, Inv s -> Forall (Sends s) rs) -> keeps (await_each rs).
Proof.
  intros Hr b s Hs. simpl. split_and!; [done | by apply Hr |]. intros [a|e] s' Hs'; done.
Qed.

Lemma keeps_sleep ms : keeps (sleep ms).
Proof. by intros b s Hs. Qed.

Lemma keeps_now : keeps date_now.
Proof. by intros b s Hs t. Qed.

Lemma keeps_timeout ms body : keeps body -> keeps (set_timeout ms body).
Proof. intros Hb b s Hs. simpl. split; [| done]. intros s' Hs'. apply (wp_wpf false body). by apply Hb. Qed.

Lemma keeps_peek {A} (k : S -> prog S A) : (forall s, keeps (k s)) -> keeps (Peek k).
Proof. intros Hk b s Hs. by apply (Hk s b s). Qed.

Lemma keeps_timer {A} every ms body (k : nat -> prog S A) :
  keeps body -> (forall id, keeps (k id)) -> keeps (Timer every ms body k).
Proof.
  intros Hb Hk b s Hs. simpl. split.
  - intros s' Hs'. apply (wp_wpf false body). by apply Hb.
  - intros id. by apply (Hk id b s).
Qed.

Lemma keeps_clear {A} id (k : prog S A) : keeps k -> keeps (Clear id k).
Proof. intros Hk b s Hs. by apply (Hk b s). Qed.

Lemma keeps_handles (p : prog S unit) s : keeps p -> Inv s -> handles Inv Sends p s.
Proof. intros Hp Hs. apply (wp_wpf false p). by apply Hp. Qed.
End Parts.

(** ** Proof automation for [wp]

    [Hint Unfold ... : prog] declares a component's handlers; [wp_auto] runs a program
    symbolically and leaves the state conditions it could not discharge. *)
Create HintDb prog.
#[export] Hint Unfold handles : prog.

Ltac wp_auto :=
  repeat (progress (autounfold with prog in *; cbn; try done; intros)
   || match goal with
      | |- _ /\ _ => split
      | |- Forall _ [_] => apply Forall_singleton
      | |- Forall _ [] => constructor
      | |- Forall _ [_; _] => repeat constructor
      | H : context [match ?x with _ => _ end] |- _ => destruct x eqn:?
      | |- context [match ?x with _ => _ end] => destruct x eqn:?
      end).

(** Runs the next event of a symbolic world that has at most one task; [click] is the
    component's lemma for its user events, whose side condition [cond] solves. *)
Ltac run_next click cond :=
  rewrite run_cons;
  first [ rewrite click by cond
        | erewrite step_reply_single by reflexivity
        | rewrite step_tick by lia
        | erewrite step_timer_single by (first [reflexivity | cbn; lia])
        | erewrite step_sleep_single by (first [reflexivity | cbn; lia])
        | rewrite step_env ];
  repeat (progress (autounfold with prog; cbn -[run step Z.add])
          || match goal with
             | H : ?t = _ |- context [?t] => rewrite H
             | H : forall _, _ |- _ => progress rewrite H
             | |- context [bool_decide (?a = ?b)] =>
                 first [ rewrite (bool_decide_eq_true_2 (a = b)) by reflexivity
                       | rewrite (bool_decide_eq_false_2 (a = b)) by discriminate ]
             end);
  rewrite ?app_nil_r.

(** The next event of a symbolic world with several tasks, whose identifiers and deadlines
    [lia] can compare. *)
Ltac decide_arith :=
  repeat match goal with
  | |- context [Nat.eqb ?a ?b] =>
      first [rewrite (proj2 (Nat.eqb_eq a b)) by lia | rewrite (proj2 (Nat.eqb_neq a b)) by lia]
  | |- context [Nat.leb ?a ?b] =>
      first [rewrite (proj2 (Nat.leb_le a b)) by lia | rewrite (proj2 (Nat.leb_gt a b)) by lia]
  | |- context [Z.leb ?a ?b] =>
      first [rewrite (proj2 (Z.leb_le a b)) by lia | rewrite (proj2 (Z.leb_gt a b)) by lia]
  | |- context [Z.ltb ?a ?b] =>
      first [rewrite (proj2 (Z.ltb_lt a b)) by lia | rewrite (proj2 (Z.ltb_ge a b)) by lia]
  | |- context [Z.eqb ?a ?b] =>
      first [rewrite (proj2 (Z.eqb_eq a b)) by lia | rewrite (proj2 (Z.eqb_neq a b)) by lia]
  end.

Ltac run_code :=
  repeat ((progress (autounfold with prog; cbn -[run step lookup alter Z.add Nat.eqb Nat.leb Z.leb Z.ltb Z.eqb filter]))
          || (progress decide_arith) || rewrite filter_bool
          || match goal with
             | H : ?t = _ |- context [?t] => rewrite H
             | H : forall _ _, _ = _ |- _ => progress rewrite H
             | |- context [bool_decide (?a = ?b)] =>
                 first [ rewrite (bool_decide_eq_true_2 (a = b)) by reflexivity
                       | rewrite (bool_decide_eq_false_2 (a = b)) by discriminate ]
             end);
  rewrite ?app_nil_r.

Ltac run_tasks :=
  rewrite run_cons; unfold step at 1, get_task, drop_task, may_fire; run_code.

(** Proves [keeps] by the structure of a handler: the requests and state updates that are
    not immediate are left. *)
Ltac keeps_auto :=
  repeat (intros;
    lazymatch goal with
    | |- keeps _ _ ?p =>
        lazymatch p with
        | mbind _ _ => apply keeps_bind
        | try_catch _ _ => apply keeps_try
        | finally _ _ => apply keeps_finally
        | set_timeout _ _ => apply keeps_timeout
        | Timer _ _ _ _ => apply keeps_timer
        | Clear _ _ => apply keeps_clear
        | Peek _ => apply keeps_peek
        | mret _ => apply keeps_ret
        | Ret _ => apply keeps_ret
        | Throw _ => apply keeps_throw
        | sleep _ => apply keeps_sleep
        | date_now => apply keeps_now
        | await _ => apply keeps_await
        | await_both _ _ => apply keeps_await_both
        | await_each _ => apply keeps_await_each
        | upd _ => apply keeps_upd
        | match ?x with _ => _ end => destruct x eqn:?
        | _ => progress autounfold with prog
        end
    end);
  try done.
