(* ===== verification/Tokens.v ===== *)
(** * What answers bring, and where tokens come from

    A program logic for the values that answers hand out: [carries] says that a program whose
    answers bring only values that satisfy [I] keeps a property of its state, returns such
    values only, and sends requests it may send; [run_carries] is the theorem for whole runs,
    in terms of the values granted in their course ([grants]). It is used for tickets by
    [WebSocketFacts], and here for tokens: [Bearer] is the interface between the session and
    whatever else lives on a page, a component that sends tokens it was told, or got from a
    login, and no others. *)
From S2P Require Import Prelude JsValue JsNumber Types ApiClient View React.
From Stdlib Require Import String.

Create HintDb bearing discriminated.

(** ** Programs and what they carry *)

Section Carries.
Context {T : Type} {gains : forall q, outcome (qresp q) -> list T} {Owned : req -> Prop} (I : T -> Prop).

(** An answer that brings only what satisfies [I]. *)
Definition honest (q : query) (o : outcome (qresp q)) : Prop := Forall I (gains q o).

Section Program.
Context {S : Type} (Holds : S -> Prop).

(** Run in states that satisfy [Holds], the program keeps it, sends requests that satisfy
    [Owned] only, and returns a value that satisfies [Q]. *)
Fixpoint carries {A : Type} (p : prog S A) (Q : A -> Prop) : Prop :=
  match p with
  | Ret a => Q a
  | Throw _ => True
  | Upd f k => (forall s, Holds s -> Holds (f s)) /\ carries k Q
  | Peek k => forall s, Holds s -> carries (k s) Q
  | Call q k => Forall Owned (reqs q) /\ forall o, honest q o -> carries (k o) Q
  | Sleep _ k => carries k Q
  | Timer _ _ body k => carries body (fun _ => True) /\ forall id, carries (k id) Q
  | Clear _ k => carries k Q
  | Now k => forall t, carries (k t) Q
  end.

Ltac by_program p :=
  induction p as [A a|A e|A g k IH|A k IH|A c k IH|A ms k IH|A every ms body _ k IH|A id k IH|A k IH]; cbn in *.

Lemma carries_bind {A B} (p : prog S A) (f : A -> prog S B) Q R :
  carries p Q -> (forall a, Q a -> carries (f a) R) -> carries (p ≫= f) R.
Proof. intros Hp Hf. by_program p; naive_solver. Qed.

Lemma carries_try {A} (p : prog S A) (h : error_obj -> prog S A) Q :
  carries p Q -> (forall e, carries (h e) Q) -> carries (try_catch p h) Q.
Proof. intros Hp Hh. by_program p; naive_solver. Qed.

Lemma carries_finally {A} (p : prog S A) (q : prog S unit) Q :
  carries p Q -> carries q (fun _ => True) -> carries (finally p q) Q.
Proof.
  intros Hp Hq. by_program p; try naive_solver; by eapply carries_bind; [exact Hq |].
Qed.

Lemma carries_await r : Owned r -> carries (await r) (fun _ => True).
Proof. intros Hr. cbn. split; [by apply Forall_singleton |]. by intros [a|e] _. Qed.

Lemma carries_await_both r1 r2 : Owned r1 -> Owned r2 -> carries (await_both r1 r2) (fun _ => True).
Proof. intros H1 H2. cbn. split; [by repeat constructor |]. by intros [a|e] _. Qed.

Lemma carries_await_each rs : Forall Owned rs -> carries (await_each rs) (fun _ => True).
Proof. intros H. cbn. split; [done |]. by intros [a|e] _. Qed.

Lemma carries_upd (f : S -> S) : (forall s, Holds s -> Holds (f s)) -> carries (upd f) (fun _ => True).
Proof. done. Qed.

Lemma carries_timeout ms body : carries body (fun _ => True) -> carries (set_timeout ms body) (fun _ => True).
Proof. done. Qed.

Definition carries_task (t : task S) : Prop :=
  match t with
  | Waiting _ q k => forall o, honest q o -> carries (k o) (fun _ => True)
  | Sleeping _ _ k => carries k (fun _ => True)
  | Timed _ _ _ body => carries body (fun _ => True)
  end.

Record carried (w : world S) : Prop := {
  carried_state : Holds (st w);
  carried_tasks : Forall carries_task (tasks w);
  carried_sent : Forall (fun '(_, r) => Owned r) (sent w) }.

Lemma exec_carries p w : carried w -> carries p (fun _ => True) -> carried (exec p w).
Proof.
  revert w. induction p as [[]|e|f k IH|k IH|q k|ms k|every ms body k IH|id k IH|k IH] using prog_unit_ind;
    intros w [Hs Ht Hr] Hp; cbn [exec carries] in *; unfold add_task.
  - by split.
  - by split.
  - destruct Hp as [Hf Hk]. apply IH; [split; [by apply Hf | done | done] | done].
  - apply IH; [by split | by apply Hp].
  - destruct Hp as [Hq Hk]. split; cbn; [done | |].
    + apply Forall_app_2; [done | by apply Forall_singleton].
    + apply Forall_app_2; [done |]. apply Forall_fmap. by apply Forall_impl with (1 := Hq).
  - split; cbn; [done | apply Forall_app_2; [done | by apply Forall_singleton] | by rewrite app_nil_r].
  - destruct Hp as [Hb Hk]. apply IH; [| done].
    split; cbn; [done | apply Forall_app_2; [done | by apply Forall_singleton] | by rewrite app_nil_r].
  - apply IH; [| done]. split; cbn; [done | by apply Forall_sub_filter | done].
  - apply IH; [by split | done].
Qed.
End Program.

(** ** Runs *)

Context {S U X : Type} `{EqDecision U} (C : component S U X).

(** What an event brings: the answer to a query that waits. *)
Definition granted (w : world S) (e : event U X) : list T :=
  match e with
  | Reply i answer =>
      match get_task i w with Some (Waiting _ q _) => gains q (answer q) | _ => [] end
  | _ => []
  end.

(** What is granted in the course of a run. *)
Fixpoint grants (w : world S) (es : list (event U X)) : list T :=
  match es with
  | [] => []
  | e :: es' => granted w e ++ match step C w e with Some w' => grants w' es' | None => [] end
  end.

(** Every handler carries; [Tells] is what the events of the surroundings bring. *)
Record carrier (Holds : S -> Prop) (Tells : X -> Prop) : Prop := {
  carrier_user : forall u s, Holds s -> carries Holds (on_user C u s) (fun _ => True);
  carrier_env : forall x s, Holds s -> Tells x -> carries Holds (on_env C x s) (fun _ => True) }.

Definition told (Tells : X -> Prop) (e : event U X) : Prop := match e with Env x => Tells x | _ => True end.

Lemma step_carries Holds Tells w e w' :
  carrier Holds Tells -> carried Holds w -> told Tells e -> Forall I (granted w e) -> step C w e = Some w' ->
  carried Holds w'.
Proof.
  intros [Hu Hx] Hw He Hg Hs. pose proof Hw as [H1 H2 H3]. destruct e as [u|x|i answer|ms|i]; cbn [step told granted] in *.
  - destruct (allows _ u); [| done]. injection Hs as <-. by apply exec_carries, Hu.
  - injection Hs as <-. by apply exec_carries, Hx.
  - destruct (get_task i w) as [[j q k| |]|] eqn:Ht; try done. injection Hs as <-.
    apply get_task_In in Ht as [Hin _]. apply exec_carries; [split; [done | by apply Forall_sub_filter | done] |].
    by apply (Forall_In _ _ _ H2 Hin _ Hg).
  - destruct (0 <=? ms); [| done]. injection Hs as <-. by split.
  - destruct (get_task i w) as [[|j d k|j d o body]|] eqn:Ht; try done;
      apply get_task_In in Ht as [Hin _]; pose proof (Forall_In _ _ _ H2 Hin) as Hb; cbn in Hb;
      (destruct (may_fire i d w); [| done]).
    + injection Hs as <-. apply exec_carries; [split; [done | by apply Forall_sub_filter | done] | done].
    + destruct o as [ms|]; injection Hs as <-; (apply exec_carries; [split; [done | | done] | done]);
        [| by apply Forall_sub_filter].
      cbn. apply Forall_fmap. eapply Forall_impl; [exact H2 |]. intros t Ht. cbn. by destruct (Nat.eqb _ i).
Qed.

(** A run that brings only what satisfies [I]. *)
Lemma run_carries Holds Tells s es w :
  carrier Holds Tells -> Holds s -> Forall (told Tells) es -> Forall I (grants (boot s) es) ->
  run C (boot s) es = Some w -> carried Holds w.
Proof.
  intros HC Hs He. assert (carried Holds (boot s)) as Hb by by split.
  revert Hb. generalize (boot s). induction He as [|e es He _ IH]; intros v Hv; cbn [run grants].
  - by intros _ [= <-].
  - intros [Hg Hgs]%Forall_app. destruct (step C v e) as [v'|] eqn:E; [| done]. apply IH; [| done].
    by eapply step_carries.
Qed.
End Carries.

Arguments carries {T} gains Owned I {S} Holds {A} p Q.
Arguments carried {T} gains Owned I {S} Holds w.
Arguments granted {T} gains {S U X} w e.
Arguments grants {T} gains {S U X _} C w es.
Arguments carrier {T} gains Owned I {S U X} C Holds Tells.
Arguments told {U X} Tells e.

(** ** Tokens *)

(** The token an answer to a query brings: that of a login. *)
Definition login_tokens (q : query) : outcome (qresp q) -> list string :=
  match q with
  | One r => match r return outcome (resp r) -> list string with
             | login _ _ => fun o => match o with Ok t => [access_token t] | Err _ => [] end
             | _ => fun _ => []
             end
  | _ => fun _ => []
  end.

(** No token, an empty one, or one that was issued. *)
Definition issued (I : string -> Prop) (t : option string) : Prop :=
  match t with Some t => truthy_str t = true -> I t | None => True end.

Definition owned (I : string -> Prop) (r : req) : Prop := issued I (req_token r).

Lemma issued_none I t : truthy_opt t = false -> issued I t.
Proof. destruct t as [t|]; [| done]. cbn. by intros ->. Qed.

(** Programs that send issued tokens only. *)
Abbreviation bearing I := (carries login_tokens (owned I) I).

Lemma carries_login {S} I (Holds : S -> Prop) u p :
  bearing I Holds (await (login u p)) (fun t => I (access_token t)).
Proof.
  cbn. split; [by apply Forall_singleton |]. intros [t|e] Ht; [| done].
  by apply Forall_inv in Ht.
Qed.

(** [holds I s]: the tokens in the state are issued; [tells I x]: those an event of the
    surroundings brings are. *)
Class Bearer {S U X : Type} (C : component S U X) := {
  holds : (string -> Prop) -> S -> Prop;
  tells : (string -> Prop) -> X -> Prop;
  bearer_user : forall I u s, holds I s -> bearing I (holds I) (on_user C u s) (fun _ => True);
  bearer_env : forall I x s, holds I s -> tells I x -> bearing I (holds I) (on_env C x s) (fun _ => True) }.

Arguments holds {S U X} C {_} I s.
Arguments tells {S U X} C {_} I x.

(** Whatever happens, every token sent is one of those the run began with or was granted. *)
Lemma run_bears {S U X} `{EqDecision U} (C : component S U X) `{!Bearer C} I s es w :
  holds C I s -> Forall (told (tells C I)) es -> Forall I (grants login_tokens C (boot s) es) ->
  run C (boot s) es = Some w -> carried login_tokens (owned I) I (holds C I) w.
Proof.
  apply run_carries. split; [intros u s'; apply bearer_user | intros x s'; apply bearer_env].
Qed.

(** Proves [carries] by the structure of a handler, with the lemmas of the [bearing] database
    on the handlers it calls; the updates and requests it cannot decide are left. *)
Ltac bearing_auto :=
  repeat (intros;
    lazymatch goal with
    | |- carries _ _ _ _ ?p _ =>
        lazymatch p with
        | mbind _ (await (login _ _)) => eapply carries_bind; [apply carries_login |]
        | mbind _ _ => apply (carries_bind _ _ _ _ (fun _ => True))
        | try_catch _ _ => apply carries_try
        | finally _ _ => apply carries_finally
        | upd _ => apply carries_upd
        | await _ => apply carries_await
        | await_both _ _ => apply carries_await_both
        | await_each _ => apply carries_await_each; repeat (apply Forall_nil_2 || apply Forall_cons_2)
        | set_timeout _ _ => apply carries_timeout
        | Peek _ => cbn [carries]
        | Timer _ _ _ _ => cbn [carries]; split
        | Clear _ _ => cbn [carries]
        | date_now => by intros ?
        | mret _ => done
        | Ret _ => done
        | Throw _ => exact Logic.I
        | match ?x with _ => _ end => destruct x eqn:?
        | _ => first [solve [auto with bearing] | progress autounfold with prog]
        end
    | |- owned _ _ => unfold owned; cbn [req_token]
    end);
  try done.
