(* ===== verification/Alone.v ===== *)
(** * Handlers that run alone

    What a handler ends with when nothing else happens while it runs: [alone f p s] runs
    [p] from [s] against a backend that answers with [f], without the event loop, and
    [run_alone] shows that the event loop then ends there too. Functional properties of a
    page are proved by computing with [alone]. *)
From S2P Require Import Prelude JsValue JsNumber Types ApiClient View React.

Section Alone.
Context {S : Type} (f : forall r, outcome (resp r)).

(** How a program ended: its value or exception, the state, and the requests it made. *)
Record ending (A : Type) := mk_ending { ended : A + error_obj; left_in : S; asked : list (S * req) }.

(** [None] when the program waits for a timer or reads the clock. *)
Fixpoint alone {A} (p : prog S A) (s : S) : option (ending A) :=
  match p with
  | Ret a => Some (mk_ending _ (inl a) s [])
  | Throw e => Some (mk_ending _ (inr e) s [])
  | Upd g k => alone k (g s)
  | Peek k => alone (k s) s
  | Call q k =>
      match alone (k (answers f q)) s with
      | Some (mk_ending _ r s' l) => Some (mk_ending _ r s' (map (fun q => (s, q)) (reqs q) ++ l))
      | None => None
      end
  | Sleep _ _ | Timer _ _ _ _ | Clear _ _ | Now _ => None
  end.

(** What follows a program that ended. *)
Definition after {A B} (o : option (ending A)) (k : A + error_obj -> S -> option (ending B)) : option (ending B) :=
  match o with
  | Some (mk_ending _ r s l) =>
      match k r s with
      | Some (mk_ending _ r' s' l') => Some (mk_ending _ r' s' (l ++ l'))
      | None => None
      end
  | None => None
  end.

Lemma alone_bind {A B} (p : prog S A) (g : A -> prog S B) s :
  alone (p ≫= g) s
  = after (alone p s) (fun r s' => match r with inl a => alone (g a) s' | inr e => Some (mk_ending _ (inr e) s' []) end).
Proof.
  revert s. induction p as [A a|A e|A h k IH|A k IH|A q k IH|A ms k IH|A every ms body _ k IH|A id k IH|A k IH];
    intros s; try done; try (by apply IH).
  - cbn. by destruct (alone (g a) s) as [[? ? ?]|].
  - change (alone (Call q k ≫= g) s) with
      (match alone (k (answers f q) ≫= g) s with
       | Some (mk_ending _ r s' l) => Some (mk_ending _ r s' (map (fun q => (s, q)) (reqs q) ++ l))
       | None => None end). rewrite IH. cbn [alone].
    destruct (alone (k (answers f q)) s) as [[r s' l]|]; cbn [after]; [| done].
    destruct (match r with inl a => _ | inr e => _ end) as [[? ? ?]|]; [by rewrite app_assoc | done].
Qed.

Lemma alone_try {A} (p : prog S A) h s :
  alone (try_catch p h) s
  = after (alone p s) (fun r s' => match r with inl a => Some (mk_ending _ (inl a) s' []) | inr e => alone (h e) s' end).
Proof.
  revert s. induction p as [A a|A e|A g k IH|A k IH|A q k IH|A ms k IH|A every ms body _ k IH|A id k IH|A k IH];
    intros s; try done; try (by apply IH).
  - cbn. by destruct (alone (h e) s) as [[? ? ?]|].
  - cbn [try_catch alone]. rewrite IH.
    destruct (alone (k (answers f q)) s) as [[r s' l]|]; cbn [after]; [| done].
    destruct (match r with inl a => _ | inr e => _ end) as [[? ? ?]|]; [by rewrite app_assoc | done].
Qed.

Lemma alone_finally {A} (p : prog S A) (q : prog S unit) s :
  alone (finally p q) s
  = after (alone p s) (fun r s' =>
      after (alone q s') (fun r' s2 => match r' with
                                       | inl _ => Some (mk_ending _ r s2 [])
                                       | inr e => Some (mk_ending _ (inr e) s2 [])
                                       end)).
Proof.
  revert s. induction p as [A a|A e|A g k IH|A k IH|A c k IH|A ms k IH|A every ms body _ k IH|A id k IH|A k IH];
    intros s; try done; try (by apply IH).
  - cbn [finally]. rewrite alone_bind. cbn. destruct (alone q s) as [[[a'|e] ? l]|]; cbn; by rewrite ?app_nil_r.
  - cbn [finally]. rewrite alone_bind. cbn. destruct (alone q s) as [[[a'|e'] ? l]|]; cbn; by rewrite ?app_nil_r.
  - cbn [finally alone]. rewrite IH.
    destruct (alone (k (answers f c)) s) as [[r s' l]|]; cbn [after]; [| done].
    destruct (alone q s') as [[[a'|e] ? l']|]; cbn [after]; by rewrite ?app_assoc, ?app_nil_r.
Qed.

Lemma alone_upd {A} g (k : unit -> prog S A) s : alone (upd g ≫= k) s = alone (k tt) (g s).
Proof. done. Qed.

Lemma alone_last g s : alone (upd g) s = Some (mk_ending _ (inl tt) (g s) []).
Proof. done. Qed.

Lemma alone_ret {A} (a : A) s : alone (mret a) s = Some (mk_ending _ (inl a) s []).
Proof. done. Qed.

Lemma alone_await r s :
  alone (await r) s = Some (mk_ending _ (match f r with Ok a => inl a | Err e => inr e end) s [(s, r)]).
Proof. cbn. by destruct (f r). Qed.

Lemma alone_await_both r1 r2 s :
  alone (await_both r1 r2) s
  = Some (mk_ending _ (match f r1, f r2 with
                       | Ok a, Ok b => inl (a, b)
                       | Err e, _ => inr e
                       | _, Err e => inr e
                       end) s [(s, r1); (s, r2)]).
Proof. cbn. by destruct (f r1), (f r2). Qed.

Lemma alone_await_each rs s :
  alone (await_each rs) s = Some (mk_ending _ (inl (settle f rs)) s (map (fun r => (s, r)) rs)).
Proof. cbn. by rewrite app_nil_r. Qed.

(** ** In the event loop *)

Context {U X : Type} `{EqDecision U} (C : component S U X).

(** The answers to the next [k] requests. *)
Definition replies (fr k : nat) : list (event U X) := map (fun i => Reply i (answers f)) (List.seq fr k).

Lemma run_alone p : forall w e,
  tasks w = [] -> alone p (st w) = Some e ->
  exists k w', run C (exec p w) (replies (fresh w) k) = Some w'
    /\ tasks w' = [] /\ st w' = left_in _ e /\ sent w' = sent w ++ asked _ e /\ now w' = now w
    /\ uncaught w' = uncaught w ++ match ended _ e with inl _ => [] | inr err => [err] end.
Proof.
  induction p as [a|e0|g k IH|k IH|q k IH|ms k IH|every ms body _ k IH|id k IH|k IH] using prog_unit_full_ind;
    intros w e Ht; cbn [alone exec]; try done.
  - intros [= <-]. exists 0%nat, w. cbn. by rewrite !app_nil_r.
  - intros [= <-]. eexists 0%nat, _. split; [reflexivity |]. cbn. by rewrite !app_nil_r.
  - intros He. destruct w as [s n fr ts snt unc]. exact (IH (mk_world (g s) n fr ts snt unc) e Ht He).
  - by apply IH.
  - destruct (alone (k (answers f q)) (st w)) as [[r s' l]|] eqn:E; [| done]. intros [= <-].
    destruct w as [s n fr ts snt unc]. cbn [tasks st] in *. subst ts.
    destruct (IH (answers f q) (mk_world s n (Datatypes.S fr) [] (snt ++ map (fun q => (s, q)) (reqs q)) unc) _ eq_refl E)
      as (j & w' & H1 & H2 & H3 & H4 & H5 & H6).
    exists (Datatypes.S j), w'. unfold replies. cbn [List.seq map fresh]. rewrite run_cons.
    erewrite step_reply_single by reflexivity. split; [exact H1 |]. cbn in *. split_and!; try done.
    by rewrite H4, app_assoc.
Qed.

(** A user event whose handler runs alone. *)
Lemma click_alone w u e :
  tasks w = [] -> allows (render C (st w)) u = true -> alone (on_user C u (st w)) (st w) = Some e ->
  exists k w', run C w (User u :: replies (fresh w) k) = Some w'
    /\ tasks w' = [] /\ st w' = left_in _ e /\ sent w' = sent w ++ asked _ e /\ now w' = now w
    /\ uncaught w' = uncaught w ++ match ended _ e with inl _ => [] | inr err => [err] end.
Proof.
  intros Ht Hu He. destruct (run_alone _ w e Ht He) as (k & w' & H1 & Hrest).
  exists k, w'. split; [| exact Hrest]. rewrite run_cons. unfold step. by rewrite Hu.
Qed.

(** The same for an event of the surroundings. *)
Lemma env_alone w x e :
  tasks w = [] -> alone (on_env C x (st w)) (st w) = Some e ->
  exists k w', run C w (Env x :: replies (fresh w) k) = Some w'
    /\ tasks w' = [] /\ st w' = left_in _ e /\ sent w' = sent w ++ asked _ e /\ now w' = now w
    /\ uncaught w' = uncaught w ++ match ended _ e with inl _ => [] | inr err => [err] end.
Proof.
  intros Ht He. destruct (run_alone _ w e Ht He) as (k & w' & H1 & Hrest).
  exists k, w'. split; [| exact Hrest]. by rewrite run_cons, step_env.
Qed.
End Alone.

Arguments mk_ending {S A} _ _ _.
Arguments ended {S A} _.
Arguments left_in {S A} _.
Arguments asked {S A} _.

(** Computes what a handler ends with, rewriting with what is known of the answers. *)
Ltac alone_step :=
  first
    [ rewrite alone_upd | rewrite alone_finally | rewrite alone_try | rewrite alone_bind
    | rewrite alone_await
    | match goal with
      | |- context [@alone ?S ?f ?A (await ?r) ?s] =>
          rewrite (alone_await f r s
                   : @alone S f A (await r) s
                     = Some (@mk_ending S A (match f r with Ok a => inl a | Err e => inr e end) s [(s, r)]))
      end
    | rewrite alone_await_both | rewrite alone_await_each
    | match goal with
      | |- context [@alone ?S ?f ?A (await_each ?rs) ?s] =>
          rewrite (alone_await_each f rs s
                   : @alone S f A (await_each rs) s
                     = Some (@mk_ending S A (inl (settle f rs)) s (map (fun r => (s, r)) rs)))
      end
    | rewrite alone_last | rewrite alone_ret
    | match goal with H : _ = Ok _ |- _ => rewrite H | H : _ = Err _ |- _ => rewrite H end ].

Ltac alone_auto := repeat (alone_step; cbn [after]).
