(* ===== verification/Spinner.v ===== *)
(** * Loading flags

    A page shows a spinner and disables its controls while a flag of its state is raised.
    [Busy] is such a flag (or a disjunction of flags). A suspended function is [owing] when
    it promises that the flag is down when it next stops; the flag is never raised without
    an owing function in flight, so a page whose requests have all been answered is not
    left loading: [busy_has_task]. *)
From S2P Require Import Prelude JsValue JsNumber Types ApiClient View React.

Section Spinner.
Context {S U X : Type} `{EqDecision U} (C : component S U X).
Context (Inv : S -> Prop) (Sends : S -> req -> Prop) (P : event U X -> Prop).
Context (Busy : S -> bool).

(** A segment that ran from [s0] to [s]: it left the flag raised only if it does not owe
    and found it raised. *)
Definition fine (owes : bool) (s0 s : S) : Prop :=
  Busy s = true -> owes = false /\ Busy s0 = true.

(** [low owes p Q E s0 s]: the rest [p] of a segment that started in [s0], now in [s]. At a
    suspension the function may start to owe. *)
Fixpoint low {A : Type} (owes : bool) (p : prog S A) (Q : bool -> A -> S -> S -> Prop)
    (E : bool -> error_obj -> S -> S -> Prop) (s0 s : S) {struct p} : Prop :=
  match p with
  | Ret a => Q owes a s0 s
  | Throw e => E owes e s0 s
  | Upd f k => low owes k Q E s0 (f s)
  | Peek k => low owes (k s) Q E s0 s
  | Call q k =>
      exists owes', (owes' = true \/ fine owes s0 s)
        /\ forall o s', Inv s' -> low owes' (k o) Q E s' s'
  | Sleep _ k =>
      exists owes', (owes' = true \/ fine owes s0 s) /\ forall s', Inv s' -> low owes' k Q E s' s'
  | Timer _ _ body k =>
      (forall s', Inv s' -> low false body (fun b _ => fine b) (fun b _ => fine b) s' s')
      /\ forall id, low owes (k id) Q E s0 s
  | Clear _ k => low owes k Q E s0 s
  | Now k => forall t, low owes (k t) Q E s0 s
  end.

Definition lowers (owes : bool) (p : prog S unit) (s0 s : S) : Prop :=
  low owes p (fun b _ => fine b) (fun b _ => fine b) s0 s.

Definition owing (t : task S) : Prop :=
  match t with
  | Waiting _ q k => forall o s', Inv s' -> lowers true (k o) s' s'
  | Sleeping _ _ k => forall s', Inv s' -> lowers true k s' s'
  | Timed _ _ _ _ => False
  end.

Definition tame (t : task S) : Prop :=
  match t with
  | Waiting _ q k => exists b, forall o s', Inv s' -> lowers b (k o) s' s'
  | Sleeping _ _ k => exists b, forall s', Inv s' -> lowers b k s' s'
  | Timed _ _ _ body => forall s', Inv s' -> lowers false body s' s'
  end.

(** What a page must show: each handler raises the flag only while it owes. *)
Record lowering_component : Prop := {
  lowering_user : forall u s, P (User u) -> Inv s -> allows (render C s) u = true ->
                    lowers false (on_user C u s) s s;
  lowering_env : forall x s, P (Env x) -> Inv s -> lowers false (on_env C x s) s s }.

(** ** Composition *)

Lemma low_bind {A B} b (p : prog S A) (f : A -> prog S B) Q E s0 s :
  low b p (fun b a s0 s => low b (f a) Q E s0 s) E s0 s -> low b (p ≫= f) Q E s0 s.
Proof.
  revert b s0 s.
  induction p as [A a|A e|A g k IH|A k IH|A c k IH|A ms k IH|A every ms body _ k IH|A id k IH|A k IH];
    simpl; intros b s0 s Hp; eauto.
  - destruct Hp as (b' & Hf & Hk). exists b'. eauto.
  - destruct Hp as (b' & Hf & Hk). exists b'. eauto.
  - destruct Hp as (Hb & Hk). eauto.
Qed.

Lemma low_upd {A} b f (k : unit -> prog S A) Q E s0 s :
  low b (k tt) Q E s0 (f s) -> low b (upd f ≫= k) Q E s0 s.
Proof. done. Qed.

Lemma low_try {A} b (p : prog S A) (h : error_obj -> prog S A) Q E s0 s :
  low b p Q (fun b e s0 s => low b (h e) Q E s0 s) s0 s -> low b (try_catch p h) Q E s0 s.
Proof.
  revert b s0 s.
  induction p as [A a|A e|A g k IH|A k IH|A c k IH|A ms k IH|A every ms body _ k IH|A id k IH|A k IH];
    simpl; intros b s0 s Hp; eauto.
  - destruct Hp as (b' & Hf & Hk). exists b'. eauto.
  - destruct Hp as (b' & Hf & Hk). exists b'. eauto.
  - destruct Hp as (Hb & Hk). eauto.
Qed.

Lemma low_finally {A} b (p : prog S A) (q : prog S unit) Q E s0 s :
  low b p (fun b a s0 s => low b q (fun b _ => Q b a) E s0 s)
          (fun b e s0 s => low b q (fun b _ => E b e) E s0 s) s0 s ->
  low b (finally p q) Q E s0 s.
Proof.
  revert b s0 s.
  induction p as [A a|A e|A g k IH|A k IH|A c k IH|A ms k IH|A every ms body _ k IH|A id k IH|A k IH];
    simpl; intros b s0 s Hp; eauto using low_bind.
  - destruct Hp as (b' & Hf & Hk). exists b'. eauto.
  - destruct Hp as (b' & Hf & Hk). exists b'. eauto.
  - destruct Hp as (Hb & Hk). eauto.
Qed.

Lemma low_mono {A} b (p : prog S A) (Q Q' : bool -> A -> S -> S -> Prop)
    (E E' : bool -> error_obj -> S -> S -> Prop) s0 s :
  low b p Q E s0 s ->
  (forall b a s0 s, Q b a s0 s -> Q' b a s0 s) -> (forall b e s0 s, E b e s0 s -> E' b e s0 s) ->
  low b p Q' E' s0 s.
Proof.
  intros Hp HQ HE. revert b s0 s Hp.
  induction p as [A a|A e|A g k IH|A k IH|A c k IH|A ms k IH|A every ms body _ k IH|A id k IH|A k IH];
    simpl; intros b s0 s Hp; eauto.
  - destruct Hp as (b' & Hf & Hk). exists b'. eauto.
  - destruct Hp as (b' & Hf & Hk). exists b'. eauto.
  - destruct Hp as (Hb & Hk). eauto.
Qed.

(** ** Handlers that lower the flag at the end, and handlers that never raise it *)

Fixpoint timerless {A : Type} (p : prog S A) : Prop :=
  match p with
  | Ret _ | Throw _ => True
  | Upd _ k | Sleep _ k | Clear _ k => timerless k
  | Peek k => forall s, timerless (k s)
  | Call _ k => forall o, timerless (k o)
  | Timer _ _ _ _ => False
  | Now k => forall t, timerless (k t)
  end.

(** No update raises the flag. *)
Fixpoint calm {A : Type} (p : prog S A) : Prop :=
  match p with
  | Ret _ | Throw _ => True
  | Upd f k => (forall s, Busy (f s) = true -> Busy s = true) /\ calm k
  | Sleep _ k | Clear _ k => calm k
  | Peek k => forall s, calm (k s)
  | Call _ k => forall o, calm (k o)
  | Timer _ _ body k => calm body /\ forall id, calm (k id)
  | Now k => forall t, calm (k t)
  end.

Ltac use_IH IH :=
  try done; try (by apply IH); try (by intros ?; apply IH);
  try match goal with H : _ /\ _ |- _ => destruct H end;
  try (split; [done | first [by apply IH | by intros ?; apply IH]]).

Ltac prog_induction p :=
  induction p as [A a|A e|A g k IH|A k IH|A c k IH|A ms k IH|A every ms body IHb k IH|A id k IH|A k IH].

Lemma timerless_bind {A B} (p : prog S A) (f : A -> prog S B) :
  timerless p -> (forall a, timerless (f a)) -> timerless (p ≫= f).
Proof. prog_induction p; simpl; intros Hp Hf; try done; use_IH IH. Qed.

Lemma timerless_try {A} (p : prog S A) (h : error_obj -> prog S A) :
  timerless p -> (forall e, timerless (h e)) -> timerless (try_catch p h).
Proof. prog_induction p; simpl; intros Hp Hf; try done; use_IH IH. Qed.

Lemma timerless_finally {A} (p : prog S A) (q : prog S unit) :
  timerless p -> timerless q -> timerless (finally p q).
Proof.
  intros Hp Hq. revert Hp.
  prog_induction p; simpl; intros Hp; try (by apply timerless_bind); use_IH IH.
Qed.

Lemma calm_bind {A B} (p : prog S A) (f : A -> prog S B) :
  calm p -> (forall a, calm (f a)) -> calm (p ≫= f).
Proof. prog_induction p; simpl; intros Hp Hf; try done; auto; use_IH IH. Qed.

Lemma calm_try {A} (p : prog S A) (h : error_obj -> prog S A) :
  calm p -> (forall e, calm (h e)) -> calm (try_catch p h).
Proof. prog_induction p; simpl; intros Hp Hf; try done; auto; use_IH IH. Qed.

Lemma calm_finally {A} (p : prog S A) (q : prog S unit) : calm p -> calm q -> calm (finally p q).
Proof.
  intros Hp Hq. revert Hp.
  prog_induction p; simpl; intros Hp; try (by apply calm_bind); use_IH IH.
Qed.

Lemma low_any {A} b (p : prog S A) s0 s :
  timerless p -> low b p (fun _ _ _ _ => True) (fun _ _ _ _ => True) s0 s.
Proof.
  revert b s0 s. prog_induction p; simpl; intros b s0 s Hp; try done; auto.
  - exists true. split; [by left |]. auto.
  - exists true. split; [by left |]. auto.
Qed.

(** [finally] lowers the flag, whatever the body does. *)
Lemma lowers_finally {A} b (p : prog S A) f Q E s0 s :
  (forall s, Busy (f s) = false) -> timerless p ->
  (forall b a s0 s, Busy s = false -> Q b a s0 s) -> (forall b e s0 s, Busy s = false -> E b e s0 s) ->
  low b (finally p (upd f)) Q E s0 s.
Proof.
  intros Hf Hp HQ HE. apply low_finally. eapply low_mono; [by apply low_any | |]; simpl; auto.
Qed.

Lemma lowers_at_end {A} b (p : prog S A) f s0 s :
  (forall s, Busy (f s) = false) -> timerless p ->
  low b (finally p (upd f)) (fun b _ => fine b) (fun b _ => fine b) s0 s.
Proof. intros Hf Hp. apply lowers_finally; [done | done | |]; intros b' ? s2 s3 Hs; unfold fine; congruence. Qed.

Lemma low_calm {A} (p : prog S A) s0 s :
  calm p -> (Busy s = true -> Busy s0 = true) ->
  low false p (fun b _ => fine b) (fun b _ => fine b) s0 s.
Proof.
  revert s0 s. prog_induction p; simpl; intros s0 s Hp Hs; unfold fine in *; auto.
  - destruct Hp as [Hg Hk]. apply IH; auto.
  - exists false. split; [right; auto |]. intros o s' _. by apply IH.
  - exists false. split; [right; auto |]. intros s' _. by apply IH.
  - destruct Hp as [Hb Hk]. split; [| auto]. intros s' _. by apply IHb.
Qed.

(** ** Soundness *)

Lemma owing_suspended t : owing t -> suspended t = true.
Proof. by destruct t. Qed.

Lemma low_exec p : forall b s0 w,
  lowers b p s0 (st w) -> Forall tame (tasks w) ->
  let w' := exec p w in
  Forall tame (tasks w')
  /\ (forall t, In t (tasks w) -> suspended t = true -> In t (tasks w'))
  /\ (Busy (st w') = true -> (b = false /\ Busy s0 = true) \/ exists t, In t (tasks w') /\ owing t).
Proof.
  induction p as [[]|e|f k IH|k IH|q k|ms k|every ms body k IH|id k IH|k IH]
    using prog_unit_ind; intros b s0 w Hp Ht; cbn [exec].
  - split_and!; auto.
  - split_and!; auto.
  - exact (IH b s0 (with_st (f (st w)) w) Hp Ht).
  - exact (IH (st w) b s0 w Hp Ht).
  - destruct Hp as (b' & Hf & Hk). simpl. split_and!.
    + apply Forall_app_2; [done |]. constructor; [by exists b' | done].
    + intros t Hin _. apply in_or_app. by left.
    + intros HB. destruct b'.
      * right. eexists. split; [apply in_or_app; right; by left | exact Hk].
      * left. destruct Hf as [Hf|Hf]; [done | by apply Hf].
  - destruct Hp as (b' & Hf & Hk). simpl. split_and!.
    + apply Forall_app_2; [done |]. constructor; [by exists b' | done].
    + intros t Hin _. apply in_or_app. by left.
    + intros HB. destruct b'.
      * right. eexists. split; [apply in_or_app; right; by left | exact Hk].
      * left. destruct Hf as [Hf|Hf]; [done | by apply Hf].
  - destruct Hp as (Hb & Hk).
    destruct (IH (fresh w) b s0 (add_task (fun i => Timed i (now w + ms)
      (if every then Some ms else None) body) [] w)) as (H1 & H2 & H3); [apply Hk | |].
    + simpl. apply Forall_app_2; [done | by constructor].
    + split_and!; auto. intros t Hin Hs. apply H2; [simpl; apply in_or_app; by left | done].
  - destruct (IH b s0 (with_tasks (filter (fun t => negb (Nat.eqb (task_id t) id) || suspended t)
      (tasks w)) w)) as (H1 & H2 & H3); [done | by apply Forall_sub_filter |].
    split_and!; auto. intros t Hin Hs. apply H2; [| done].
    apply list_elem_of_In, list_elem_of_filter. split; [| by apply list_elem_of_In].
    rewrite Hs, orb_true_r. done.
  - exact (IH (now w) b s0 w (Hp _) Ht).
Qed.

Definition busy_ok (w : world S) : Prop :=
  Forall tame (tasks w) /\ (Busy (st w) = true -> exists t, In t (tasks w) /\ owing t).

(** A handler runs beside the suspended functions. *)
Lemma busy_handler p w ts :
  (forall t, In t (tasks w) -> suspended t = true -> In t ts) ->
  busy_ok w -> Forall tame ts -> lowers false p (st w) (st w) ->
  busy_ok (exec p (with_tasks ts w)).
Proof.
  intros Hts [_ Hb] Ht Hp.
  destruct (low_exec p false (st w) (with_tasks ts w) Hp Ht) as (H1 & H2 & H3).
  split; [done |]. intros HB. destruct (H3 HB) as [[_ H0]|H0]; [| done].
  destruct (Hb H0) as (t & Hin & Ho). exists t. split; [| done].
  pose proof (owing_suspended t Ho). by apply H2; [apply Hts |].
Qed.

(** A suspended function is resumed. *)
Lemma busy_resume p w t :
  wf w -> busy_ok w -> In t (tasks w) ->
  (exists b, lowers b p (st w) (st w)) -> (owing t -> lowers true p (st w) (st w)) ->
  busy_ok (exec p (drop_task (task_id t) w)).
Proof.
  intros Hwf [Ht Hb] Hin [b Hp] Ho.
  assert (Forall tame (tasks (drop_task (task_id t) w))) as Ht' by by apply Forall_sub_filter.
  destruct (Busy (st w)) eqn:E.
  - destruct (Hb eq_refl) as (t1 & Hin1 & Ho1).
    destruct (decide (task_id t1 = task_id t)) as [Eid|Nid].
    + rewrite (wf_task_unique w t1 t Hwf Hin1 Hin Eid) in Ho1.
      destruct (low_exec p true (st w) (drop_task (task_id t) w) (Ho Ho1) Ht') as (H1 & _ & H3).
      split; [done |]. intros HB. by destruct (H3 HB) as [[]|].
    + destruct (low_exec p b (st w) (drop_task (task_id t) w) Hp Ht') as (H1 & H2 & _).
      split; [done |]. intros _. exists t1. split; [| done].
      apply H2; [| by apply owing_suspended]. apply list_elem_of_In, list_elem_of_filter.
      split; [| by apply list_elem_of_In]. by apply Nat.eqb_neq in Nid as ->.
  - destruct (low_exec p b (st w) (drop_task (task_id t) w) Hp Ht') as (H1 & _ & H3).
    split; [done |]. intros HB. destruct (H3 HB) as [[_ H0]|]; [congruence | done].
Qed.

Context (HC : lowering_component).

Lemma busy_step w e w' :
  wf w -> Inv (st w) -> busy_ok w -> P e -> step C w e = Some w' -> busy_ok w'.
Proof.
  intros Hwf Hi Hb HP. pose proof Hb as [Ht Hbusy].
  assert (forall t, In t (tasks w) -> suspended t = true -> In t (tasks w)) as Hid by done.
  destruct e as [u|x|id answer|ms|id]; cbn [step].
  - destruct (allows _ u) eqn:E; [| done]. intros [= <-].
    destruct w. by apply (busy_handler _ _ _ Hid Hb Ht), (lowering_user HC).
  - intros [= <-]. destruct w. by apply (busy_handler _ _ _ Hid Hb Ht), (lowering_env HC).
  - destruct (get_task id w) as [[i q k| |]|] eqn:Eg; try done. intros [= <-].
    apply get_task_In in Eg as [Hin <-].
    apply (busy_resume _ w (Waiting i q k) Hwf Hb Hin).
    + destruct (Forall_In _ _ _ Ht Hin) as [b Hk]. exists b. by apply Hk.
    + intros Ho. by apply Ho.
  - case_match; [intros [= <-]; done | done].
  - destruct (get_task id w) as [[|i d k|i d o body]|] eqn:Eg; try done;
      (destruct (may_fire id d w); [| done]); apply get_task_In in Eg as [Hin <-].
    + intros [= <-]. apply (busy_resume _ w (Sleeping i d k) Hwf Hb Hin).
      * destruct (Forall_In _ _ _ Ht Hin) as [b Hk]. exists b. by apply Hk.
      * intros Ho. by apply Ho.
    + assert (tame (Timed i d o body)) as Hbody by by apply (Forall_In _ _ _ Ht Hin).
      assert (forall t, In t (tasks w) -> suspended t = true -> task_id t <> i) as Hne.
      { intros t Hin' Hs Eid. by rewrite (wf_task_unique w t _ Hwf Hin' Hin Eid) in Hs. }
      simpl task_id in *. destruct o as [ms|]; intros [= <-]; (apply busy_handler; [| done | | by apply Hbody]).
      * intros t Hin' Hs. apply in_map_iff. exists t. split; [| done].
        by rewrite (proj2 (Nat.eqb_neq _ _) (Hne t Hin' Hs)).
      * apply Forall_fmap. eapply Forall_impl; [exact Ht |]. intros t Htame. simpl.
        by destruct (Nat.eqb (task_id t) i).
      * intros t Hin' Hs. apply list_elem_of_In, list_elem_of_filter.
        split; [| by apply list_elem_of_In]. by rewrite (proj2 (Nat.eqb_neq _ _) (Hne t Hin' Hs)).
      * by apply Forall_sub_filter.
Qed.

(** When the flag is raised some function is suspended. *)
Theorem busy_has_task s0 w :
  safe_component C Inv Sends P -> Inv s0 -> Busy s0 = false ->
  reachable C P s0 w -> idle w = true -> Busy (st w) = false.
Proof.
  intros Hsafe Hi0 H0 Hw.
  assert (wf w /\ busy_ok w) as [_ [_ Hb]].
  { induction Hw as [|w e w' Hw [IHwf IHb] HP Hstep].
    - split; [by repeat constructor |]. split; [constructor |]. simpl. congruence.
    - split; [by eapply wf_step |]. eapply busy_step; try done.
      by apply (reachable_good C Inv Sends P Hsafe s0 w). }
  intros Hidle. destruct (Busy (st w)); [| done].
  destruct (Hb eq_refl) as (t & Hin & Ho). unfold idle in Hidle.
  apply negb_true_iff in Hidle. apply owing_suspended in Ho.
  assert (existsb suspended (tasks w) = true) by (apply existsb_exists; eauto). congruence.
Qed.
End Spinner.

(** The same for a flag that needs no invariant. *)
Corollary never_left_busy {S U X} `{EqDecision U} (C : component S U X) P Busy s0 w :
  lowering_component C (fun _ => True) P Busy -> Busy s0 = false ->
  reachable C P s0 w -> idle w = true -> Busy (st w) = false.
Proof.
  intros HC H0. by apply (busy_has_task C (fun _ => True) (fun _ _ => True) P Busy HC s0 w (trivially_safe C P)).
Qed.


(** ** Proof automation for [lowers]

    Runs a handler symbolically. At a suspension it first tries to go on without owing. *)
Ltac fine_auto :=
  unfold fine; cbn; intros; simplify_eq/=; try discriminate;
  first [ by split | by (reflect_bool; split_and!; simplify_eq/=; auto) | exfalso; by intuition congruence ].

Ltac low_auto :=
  repeat (progress (autounfold with prog in *; cbn; try done; intros)
   || match goal with
      | |- _ /\ _ => split
      | |- exists b, (b = true \/ fine _ true _ _) /\ _ => exists true; split; [by left |]
      | |- exists b, (b = true \/ fine _ false _ _) /\ _ =>
          first [ exists false; split; [right; solve [fine_auto] |] | exists true; split; [by left |] ]
      | H : context [match ?x with _ => _ end] |- _ => destruct x eqn:?
      | |- context [match ?x with _ => _ end] => destruct x eqn:?
      end);
  try fine_auto.

(** Proves [timerless] and [calm] by the structure of a handler; what is left of [calm] are
    the updates that might raise the flag. *)
Ltac timerless_auto :=
  repeat (intros;
    lazymatch goal with
    | |- timerless ?p =>
        lazymatch p with
        | mbind _ _ => apply timerless_bind
        | try_catch _ _ => apply timerless_try
        | finally _ _ => apply timerless_finally
        | match ?x with _ => _ end => destruct x eqn:?
        | mret _ => exact I
        | Throw _ => exact I
        | upd _ => exact I
        | sleep _ => exact I
        | date_now => exact (fun _ => I)
        | Peek _ => intros ?; cbv beta
        | await _ => intros [?|?]; exact I
        | await_both _ _ => intros [?|?]; exact I
        | await_each _ => intros [?|?]; exact I
        | _ => progress autounfold with prog
        end
    end).

Ltac calm_auto :=
  repeat (intros;
    lazymatch goal with
    | |- calm _ ?p =>
        lazymatch p with
        | mbind _ _ => apply calm_bind
        | try_catch _ _ => apply calm_try
        | finally _ _ => apply calm_finally
        | match ?x with _ => _ end => destruct x eqn:?
        | mret _ => exact I
        | Throw _ => exact I
        | upd _ => split; [intros ?; cbn; try done | exact I]
        | sleep _ => exact I
        | date_now => exact (fun _ => I)
        | await _ => intros [?|?]; exact I
        | await_both _ _ => intros [?|?]; exact I
        | await_each _ => intros [?|?]; exact I
        | Peek _ => intros ?; cbv beta
        | set_timeout _ _ => split; [| exact (fun _ => I)]
        | _ => progress autounfold with prog
        end
    end).
