(* ===== verification/Timeouts.v ===== *)
(** * Pending timers and guarantees

    A relation [R] between the timers that are pending, callbacks included, and the
    component's state, and a guarantee [G] every uninterrupted piece of code gives about the
    states it starts and stops in, for all interleavings. [reachable_timed] is the invariant,
    [step_guarantee] the simulation of the component by an abstract machine whose steps [G]
    allows. [Intervals] specialises the relation to the identifiers of intervals. *)
From S2P Require Import Prelude JsValue JsNumber Types ApiClient View React.

Section Timeouts.
Context {S U X : Type} `{EqDecision U} (C : component S U X).

Record timer := mk_timer { tm_id : nat; tm_every : bool; tm_body : prog S unit }.

Context (R : list timer -> S -> Prop) (G : S -> S -> Prop) (P : event U X -> Prop).

Definition timer_of (t : task S) : list timer :=
  match t with
  | Timed i _ o body => [mk_timer i (match o with Some _ => true | None => false end) body]
  | _ => []
  end.

(** The timers pending in a world. *)
Definition timers_of (ts : list (task S)) : list timer := flat_map timer_of ts.

Definition disarm (id : nat) (T : list timer) : list timer :=
  List.filter (fun t => negb (Nat.eqb (tm_id t) id)) T.

(** [timed p T s0 s]: a piece of code that started in [s0] has come to [s] with the timers [T]
    pending and [p] to run. It ends and suspends only with related timers and state, and
    within its guarantee. *)
Fixpoint timed {A : Type} (p : prog S A) (T : list timer) (s0 s : S) {struct p} : Prop :=
  match p with
  | Ret _ | Throw _ => R T s /\ G s0 s
  | Upd f k => timed k T s0 (f s)
  | Peek k => timed (k s) T s0 s
  | Call q k => (R T s /\ G s0 s) /\ forall o T' s', R T' s' -> timed (k o) T' s' s'
  | Sleep _ k => (R T s /\ G s0 s) /\ forall T' s', R T' s' -> timed k T' s' s'
  | Timer every _ body k =>
      forall id, ~ In id (map tm_id T) -> timed (k id) (T ++ [mk_timer id every body]) s0 s
  | Clear id k => timed k (disarm id T) s0 s
  | Now k => forall t, timed (k t) T s0 s
  end.

Definition resumable (t : task S) : Prop :=
  match t with
  | Waiting _ q k => forall o T s, R T s -> timed (k o) T s s
  | Sleeping _ _ k => forall T s, R T s -> timed k T s s
  | Timed _ _ _ _ => True
  end.

Record timed_component : Prop := {
  timed_user : forall u T s, P (User u) -> R T s -> allows (render C s) u = true ->
                 timed (on_user C u s) T s s;
  timed_env : forall x T s, P (Env x) -> R T s -> timed (on_env C x s) T s s;
  timed_fire : forall t T s, R T s -> In t T ->
                 timed (tm_body t) (if tm_every t then T else disarm (tm_id t) T) s s }.

Definition in_step (w : world S) : Prop :=
  wf w /\ Forall resumable (tasks w) /\ R (timers_of (tasks w)) (st w).

Lemma timers_app ts1 ts2 : timers_of (ts1 ++ ts2) = timers_of ts1 ++ timers_of ts2.
Proof. apply flat_map_app. Qed.

Lemma timers_ids ts i : In i (map tm_id (timers_of ts)) -> In i (map task_id ts).
Proof.
  intros Hi. apply in_map_iff in Hi as (t & <- & Ht).
  apply in_flat_map in Ht as (k & Hk & Hin). apply in_map_iff. exists k. split; [| done].
  by destruct k; simpl in Hin; [| | destruct Hin as [<-|[]]].
Qed.

Lemma timers_below w : wf w -> ~ In (fresh w) (map tm_id (timers_of (tasks w))).
Proof.
  intros [_ Hf] Hin%timers_ids. apply in_map_iff in Hin as (t & Ht & Hin).
  apply (Forall_In _ _ _ Hf) in Hin. lia.
Qed.

Lemma timers_filter (Q : task S -> Prop) `{forall t, Decision (Q t)} id ts :
  (forall t, In t ts -> suspended t = false -> bool_decide (Q t) = negb (Nat.eqb (task_id t) id)) ->
  timers_of (filter Q ts) = disarm id (timers_of ts).
Proof.
  induction ts as [|t ts IH]; intros HQ; [done |].
  change (t :: ts) with ([t] ++ ts). rewrite filter_app, !timers_app. unfold disarm.
  rewrite List.filter_app. fold (disarm id (timers_of ts)).
  rewrite IH by (intros t' Hin; apply HQ; by right). f_equal.
  assert (filter Q [t] = [t] \/ filter Q [t] = []) as Hf
    by (rewrite filter_cons, filter_nil; case_decide; auto).
  destruct t as [i q k|i d k|i d o b]; [by destruct Hf as [-> | ->] | by destruct Hf as [-> | ->] |].
  specialize (HQ _ (or_introl eq_refl) eq_refl). rewrite filter_cons, filter_nil. cbn in *.
  rewrite <- HQ. case_decide; [by rewrite bool_decide_eq_true_2 | by rewrite bool_decide_eq_false_2].
Qed.

Lemma bool_decide_test (b : bool) `{Decision b} : bool_decide b = b.
Proof. destruct b; [by apply bool_decide_eq_true_2 | by apply bool_decide_eq_false_2; intros []]. Qed.

Lemma timers_clear id ts :
  timers_of (filter (fun t => negb (Nat.eqb (task_id t) id) || suspended t) ts)
  = disarm id (timers_of ts).
Proof.
  apply timers_filter. intros t _ Hs. by rewrite bool_decide_test, Hs, orb_false_r.
Qed.

Lemma timers_drop id ts :
  timers_of (filter (fun t => negb (Nat.eqb (task_id t) id)) ts) = disarm id (timers_of ts).
Proof.
  apply timers_filter. intros t _ _. by rewrite bool_decide_test.
Qed.

(** Nothing is disarmed under an identifier that is no timer's. *)
Lemma disarm_other id T : ~ In id (map tm_id T) -> disarm id T = T.
Proof.
  induction T as [|t T IH]; [done |]. cbn. intros Hn.
  destruct (Nat.eqb_spec (tm_id t) id); [by destruct Hn; left |]. cbn. f_equal. auto.
Qed.

Lemma exec_in_step p s0 w :
  wf w -> Forall resumable (tasks w) -> timed p (timers_of (tasks w)) s0 (st w) ->
  in_step (exec p w) /\ G s0 (st (exec p w)).
Proof.
  revert w. induction p as [[]|e|f k IH|k IH|q k|ms k|every ms body k IH|id k IH|k IH]
    using prog_unit_ind; intros w Hwf Ht Hp; cbn [exec timed] in *.
  - destruct Hp. by split; [split |].
  - destruct Hp. by split; [split |].
  - by apply (IH (with_st (f (st w)) w)).
  - by apply IH.
  - destruct Hp as [[HR HG] Hk]. split; [| done]. split; [by apply wf_add_task |]. simpl. split.
    + apply Forall_app_2; [done | by constructor].
    + by rewrite timers_app, app_nil_r.
  - destruct Hp as [[HR HG] Hk]. split; [| done]. split; [by apply wf_add_task |]. simpl. split.
    + apply Forall_app_2; [done | by constructor].
    + by rewrite timers_app, app_nil_r.
  - apply IH; [by apply wf_add_task | |].
    + apply Forall_app_2; [done | by constructor].
    + simpl. rewrite timers_app. simpl. specialize (Hp (fresh w) (timers_below w Hwf)).
      by destruct every.
  - apply IH; [by apply wf_filter | by apply Forall_sub_filter |]. simpl. by rewrite timers_clear.
  - by apply IH.
Qed.

Lemma drop_in_step w t k :
  in_step w -> In t (tasks w) -> timed k (disarm (task_id t) (timers_of (tasks w))) (st w) (st w) ->
  in_step (exec k (drop_task (task_id t) w)) /\ G (st w) (st (exec k (drop_task (task_id t) w))).
Proof.
  intros (Hwf & Ht & HR) Hin Hk. apply exec_in_step; [by apply wf_filter | by apply Forall_sub_filter |].
  simpl. by rewrite timers_drop.
Qed.

(** A suspended function is no timer. *)
Lemma suspended_disarm w t :
  wf w -> In t (tasks w) -> timer_of t = [] ->
  disarm (task_id t) (timers_of (tasks w)) = timers_of (tasks w).
Proof.
  intros Hwf Hin Ht. apply disarm_other. intros Hi. apply in_map_iff in Hi as (m & Hid & Hm).
  apply in_flat_map in Hm as (k & Hk & Hm).
  assert (task_id k = task_id t) as E by (destruct k; simpl in Hm; [done | done | destruct Hm as [<-|[]]; done]).
  rewrite (wf_task_unique w k t Hwf Hk Hin E), Ht in Hm. done.
Qed.

(** Moving the deadline of an interval. *)
Lemma timers_rearm w i d d' ms body :
  wf w -> In (Timed i d (Some ms) body) (tasks w) ->
  timers_of (map (fun t => if (task_id t =? i)%nat then Timed i d' (Some ms) body else t) (tasks w))
  = timers_of (tasks w).
Proof.
  intros Hwf Hin.
  assert (forall t, In t (tasks w) -> timer_of (if (task_id t =? i)%nat then Timed i d' (Some ms) body else t)
    = timer_of t) as H.
  { intros t Ht. destruct (Nat.eqb_spec (task_id t) i) as [E|]; [| done].
    by rewrite (wf_task_unique w t _ Hwf Ht Hin E). }
  unfold timers_of. revert H. generalize (tasks w). intros ts Hts.
  induction ts as [|t ts IH]; [done |]. cbn [map flat_map]. rewrite Hts by by left.
  f_equal. apply IH. intros t' Ht'. apply Hts. by right.
Qed.

Lemma step_in_step w e w' :
  (forall s, G s s) -> timed_component -> in_step w -> P e -> step C w e = Some w' ->
  in_step w' /\ G (st w) (st w').
Proof.
  intros Hrefl HC Hw HP. pose proof Hw as (Hwf & Ht & HR).
  destruct e as [u|x|id answer|ms|id]; cbn [step].
  - destruct (allows _ u) eqn:E; [| done]. intros [= <-]. apply exec_in_step; try done.
    by apply (timed_user HC).
  - intros [= <-]. apply exec_in_step; try done. by apply (timed_env HC).
  - destruct (get_task id w) as [[i q k| |]|] eqn:Eg; try done. intros [= <-].
    apply get_task_In in Eg as [Hin <-]. apply (drop_in_step w (Waiting i q k)); try done.
    rewrite suspended_disarm by done. by apply (Forall_In _ _ _ Ht Hin).
  - case_match; [by intros [= <-] | done].
  - destruct (get_task id w) as [[|i d k|i d o body]|] eqn:Eg; try done;
      (destruct (may_fire id d w); [| done]); apply get_task_In in Eg as [Hin <-].
    + intros [= <-]. apply (drop_in_step w (Sleeping i d k)); try done.
      rewrite suspended_disarm by done. by apply (Forall_In _ _ _ Ht Hin).
    + assert (forall m, In m (timer_of (Timed i d o body)) -> In m (timers_of (tasks w))) as Hm
        by (intros m Hm; apply in_flat_map; eauto).
      pose proof (timed_fire HC _ _ _ HR (Hm _ (or_introl eq_refl))) as Hf. cbn in Hf.
      destruct o as [ms|]; intros [= <-]; [| by apply (drop_in_step w (Timed i d None body))].
      apply exec_in_step; simpl.
      * destruct Hwf as [Hn Hlt]. split; simpl.
        -- rewrite map_map. erewrite map_ext; [exact Hn |]. intros t. simpl.
           by destruct (Nat.eqb_spec (task_id t) i).
        -- apply Forall_fmap. eapply Forall_impl; [exact Hlt |]. intros t Hl. simpl in *.
           by destruct (Nat.eqb_spec (task_id t) i) as [<-|].
      * apply Forall_fmap. eapply Forall_impl; [exact Ht |]. intros t Htt. simpl.
        by destruct (task_id t =? i)%nat.
      * by rewrite (timers_rearm w i d) by done.
Qed.

(** The relation holds in every reachable world. *)
Theorem reachable_timed s0 w :
  (forall s, G s s) -> timed_component -> R [] s0 -> reachable C P s0 w -> R (timers_of (tasks w)) (st w).
Proof.
  intros Hrefl HC H0 Hw. enough (in_step w) by by destruct H as (_ & _ & H).
  induction Hw as [|w e w' _ IH HP Hstep]; [| by destruct (step_in_step w e w')].
  split; [by repeat constructor |]. by split; [constructor |].
Qed.

(** Every step from a reachable world keeps the guarantee. *)
Theorem step_guarantee s0 w e w' :
  (forall s, G s s) -> timed_component -> R [] s0 ->
  reachable C P s0 w -> P e -> step C w e = Some w' -> G (st w) (st w').
Proof.
  intros Hrefl HC H0 Hw HP Hstep. enough (in_step w) by by destruct (step_in_step w e w').
  clear Hstep. induction Hw as [|w1 e1 w2 _ IH HP1 Hstep]; [| by destruct (step_in_step w1 e1 w2)].
  split; [by repeat constructor |]. by split; [constructor |].
Qed.
End Timeouts.

Arguments mk_timer {S} _ _ _.
Arguments tm_id {S} _.
Arguments tm_every {S} _.
Arguments tm_body {S} _.

(** Runs a handler symbolically. *)
Ltac timed_auto :=
  repeat (progress (autounfold with prog in *; cbn; intros)
   || match goal with
      | |- _ /\ _ => split
      | |- context [match ?x with _ => _ end] => destruct x eqn:?
      end).
