(* ===== verification/Intervals.v ===== *)
(** * Interval timers

    Which intervals are running is not part of a component's state, only the identifiers it
    keeps of them. [ticks] proves, for all interleavings, a relation between the running
    intervals and the state: no interval is lost or started twice. *)
From S2P Require Import Prelude JsValue JsNumber Types ApiClient View React Timeouts.

Section Intervals.
Context {S U X : Type} `{EqDecision U} (C : component S U X).
Context (R : list nat -> S -> Prop) (P : event U X -> Prop).

Definition is_interval (t : task S) : bool :=
  match t with Timed _ _ (Some _) _ => true | _ => false end.

(** The running intervals of a world. *)
Definition intervals_of (ts : list (task S)) : list nat :=
  flat_map (fun t => if is_interval t then [task_id t] else []) ts.

Definition without (id : nat) (T : list nat) : list nat :=
  List.filter (fun i => negb (Nat.eqb i id)) T.

(** [ticks p T s]: from state [s] with the intervals [T] running, [p] ends and suspends only
    with related intervals and state. *)
Fixpoint ticks {A : Type} (p : prog S A) (T : list nat) (s : S) {struct p} : Prop :=
  match p with
  | Ret _ | Throw _ => R T s
  | Upd f k => ticks k T (f s)
  | Peek k => ticks (k s) T s
  | Call q k => R T s /\ forall o T' s', R T' s' -> ticks (k o) T' s'
  | Sleep _ k => R T s /\ forall T' s', R T' s' -> ticks k T' s'
  | Timer every _ body k =>
      (forall T' s', R T' s' -> ticks body T' s')
      /\ forall id, ~ In id T -> ticks (k id) (if every then T ++ [id] else T) s
  | Clear id k => ticks k (without id T) s
  | Now k => forall t, ticks (k t) T s
  end.

Record ticking_component : Prop := {
  ticking_user : forall u T s, P (User u) -> R T s -> ticks (on_user C u s) T s;
  ticking_env : forall x T s, P (Env x) -> R T s -> ticks (on_env C x s) T s }.

(** Handlers composed of others. *)
Lemma ticks_bind {A B} (p : prog S A) (f : A -> prog S B) T s :
  ticks p T s -> (forall a T' s', R T' s' -> ticks (f a) T' s') -> ticks (p ≫= f) T s.
Proof.
  intros Hp Hf. revert T s Hp.
  induction p as [A a|A e|A g k IH|A k IH|A q k IH|A ms k IH|A every ms body _ k IH|A id k IH|A k IH];
    cbn in *; naive_solver.
Qed.

Lemma ticks_try {A} (p : prog S A) (h : error_obj -> prog S A) T s :
  ticks p T s -> (forall e T' s', R T' s' -> ticks (h e) T' s') -> ticks (try_catch p h) T s.
Proof.
  intros Hp Hh. revert T s Hp.
  induction p as [A a|A e|A g k IH|A k IH|A q k IH|A ms k IH|A every ms body _ k IH|A id k IH|A k IH];
    cbn in *; naive_solver.
Qed.

(** The relation of [Timeouts]: distinct timers, each of whose callbacks [ticks]. *)
Definition interval_ids (T : list (timer (S:=S))) : list nat :=
  flat_map (fun t => if tm_every t then [tm_id t] else []) T.

Definition ticking (t : timer (S:=S)) : Prop :=
  forall T s, R T s -> ticks (tm_body t) T s.

Definition related (T : list timer) (s : S) : Prop :=
  R (interval_ids T) s /\ Forall ticking T /\ NoDup (map tm_id T).

Lemma interval_ids_of ts : interval_ids (timers_of ts) = intervals_of ts.
Proof.
  unfold interval_ids, timers_of, intervals_of. induction ts as [|t ts IH]; [done |].
  cbn [flat_map]. rewrite flat_map_app, IH. by destruct t as [| |i d [ms|] b].
Qed.

Lemma interval_ids_sub T i : In i (interval_ids T) -> In i (map tm_id T).
Proof.
  intros (t & Ht & Hi)%in_flat_map. apply in_map_iff. exists t. destruct (tm_every t); [| done].
  by destruct Hi as [|[]].
Qed.

Lemma interval_ids_disarm id T : interval_ids (disarm id T) = without id (interval_ids T).
Proof.
  unfold interval_ids, disarm, without. induction T as [|t T IH]; [done |].
  cbn [flat_map List.filter]. rewrite List.filter_app, <- IH.
  destruct (tm_every t) eqn:E; cbn; destruct (tm_id t =? id)%nat; cbn; by rewrite ?E.
Qed.

Lemma disarm_sub id (T : list (timer (S:=S))) t : In t (disarm id T) -> In t T.
Proof. by intros [Hin _]%filter_In. Qed.

Lemma disarm_nodup id (T : list (timer (S:=S))) : NoDup (map tm_id T) -> NoDup (map tm_id (disarm id T)).
Proof.
  induction T as [|t T IH]; [done |]. cbn [map]. intros [Hni Hn]%NoDup_cons. cbn.
  destruct (negb _); [| by apply IH]. cbn. apply NoDup_cons. split; [| by apply IH].
  intros (t' & E & Hin)%list_elem_of_fmap. apply Hni. rewrite E.
  by apply list_elem_of_fmap_2, list_elem_of_In, (disarm_sub id), list_elem_of_In.
Qed.

Lemma related_disarm id T s :
  R (without id (interval_ids T)) s -> Forall ticking T -> NoDup (map tm_id T) ->
  related (disarm id T) s.
Proof.
  intros HR Ht Hn. split; [by rewrite interval_ids_disarm |]. split.
  - rewrite Forall_forall in *. intros t Hin%list_elem_of_In%disarm_sub. by apply Ht, list_elem_of_In.
  - by apply disarm_nodup.
Qed.

Lemma ticks_timed {A} (p : prog S A) T s0 s :
  ticks p (interval_ids T) s -> Forall ticking T -> NoDup (map tm_id T) -> timed related (fun _ _ => True) p T s0 s.
Proof.
  revert T s0 s.
  induction p as [A a|A e|A f k IH|A k IH|A q k IH|A ms k IH|A every ms body _ k IH|A id k IH|A k IH];
    cbn [ticks timed]; intros T s0 s Hp Ht Hn; try done; auto.
  - destruct Hp as [HR Hk]. split; [done |]. intros o T' s' (HR' & Ht' & Hn'). by apply IH; [apply Hk | |].
  - destruct Hp as [HR Hk]. split; [done |]. intros T' s' (HR' & Ht' & Hn'). by apply IH; [apply Hk | |].
  - destruct Hp as [Hb Hk]. intros id Hid. apply IH.
    + unfold interval_ids. rewrite flat_map_app. fold (interval_ids T). cbn.
      specialize (Hk id (fun H => Hid (interval_ids_sub T id H))).
      destruct every; cbn; [done | by rewrite app_nil_r].
    + apply Forall_app_2; [done | by constructor].
    + rewrite map_app. apply NoDup_app. split_and!; [done | | by apply NoDup_singleton].
      intros x Hx ->%list_elem_of_singleton. by apply Hid, list_elem_of_In.
  - apply IH; [by rewrite interval_ids_disarm | |].
    + rewrite Forall_forall in *. intros t Hin%list_elem_of_In%disarm_sub. by apply Ht, list_elem_of_In.
    + by apply disarm_nodup.
Qed.

(** A one-shot timer is not among the intervals. *)
Lemma one_shot_without T t :
  NoDup (map tm_id T) -> In t T -> tm_every t = false ->
  without (tm_id t) (interval_ids T) = interval_ids T.
Proof.
  intros Hn Hin He. unfold without. apply filter_all. intros i (m & Hm & Hi)%in_flat_map.
  apply negb_true_iff, Nat.eqb_neq. intros ->.
  destruct (tm_every m) eqn:E; [| done]. destruct Hi as [Hi|[]].
  by rewrite (nodup_map_inj tm_id T m t Hn Hm Hin Hi), He in E.
Qed.

Lemma ticking_timed : ticking_component -> timed_component C related (fun _ _ => True) P.
Proof.
  intros HC. split.
  - intros u T s HP (HR & Ht & Hn) _. by apply ticks_timed; [apply (ticking_user HC) | |].
  - intros x T s HP (HR & Ht & Hn). by apply ticks_timed; [apply (ticking_env HC) | |].
  - intros t T s (HR & Ht & Hn) Hin. pose proof (Forall_In _ _ _ Ht Hin) as Hb.
    destruct (tm_every t) eqn:E; [by apply ticks_timed; [apply Hb | |] |].
    assert (R (without (tm_id t) (interval_ids T)) s) as HR' by by rewrite one_shot_without.
    destruct (related_disarm (tm_id t) T s HR' Ht Hn) as (H1 & H2 & H3).
    by apply ticks_timed; [apply Hb | |].
Qed.

(** The relation holds in every reachable world. *)
Theorem reachable_related s0 w :
  ticking_component -> R [] s0 -> reachable C P s0 w -> R (intervals_of (tasks w)) (st w).
Proof.
  intros HC H0 Hw. rewrite <- interval_ids_of.
  refine (proj1 (reachable_timed C related (fun _ _ => True) P s0 w (fun _ => I) (ticking_timed HC) _ Hw)).
  split; [done |]. split; constructor.
Qed.
End Intervals.

(** Runs a handler symbolically. *)
Ltac ticks_auto :=
  repeat (progress (autounfold with prog in *; cbn; intros)
   || match goal with
      | |- _ /\ _ => split
      | |- context [match ?x with _ => _ end] => destruct x eqn:?
      end).
