(* ===== verification/EvmTerminal.v ===== *)
(** * The EVM digital twin: [components/evm/]

    [EvmTerminal.tsx] with its children: LCD, candidate buttons, control panel with the
    officer login form, status panel. The state holds the terminal's [useState] cells, the
    control panel's three, the token of the auth context, and whether the mount effect has
    run. Handlers close over the state of the render they belong to, as in React: their
    argument [s] is that snapshot, while [upd] acts on the current state. *)
From S2P Require Import Prelude JsValue JsNumber Types ApiClient View React.
From Stdlib Require Import String Ascii.

Module EvmTerminal.

(*@ dashboard/components/evm/EvmTerminal.tsx 13 21 EvmState *)
Inductive EvmState :=
| IDLE | READY | SESSION_AUTHORIZED | CANDIDATE_SELECTION | VOTE_CONFIRMED
| VOTE_SUBMITTED | VOTE_COMPLETE | ERROR.

#[export] Instance EvmState_eq_dec : EqDecision EvmState. Proof. solve_decision. Defined.

(** The election as the terminal keeps it: from the officer endpoint or rebuilt from the
    public transparency endpoints. *)
Record ElectionData := {
  ed_id : string; ed_title : option string; ed_state : string;
  ed_candidates : list CandidateResponse }.

(*@ dashboard/components/evm/EvmTerminal.tsx 40 46 init *)
Definition of_election (e : ElectionResponse) : ElectionData :=
  {| ed_id := e_id e; ed_title := e_title e; ed_state := election_state_str (e_state e);
     ed_candidates := e_candidates e |}.

(*@ dashboard/components/evm/EvmTerminal.tsx 50 56 EvmTerminal *)
Definition of_overview (pub : TransparencyOverview) (cands : list CandidateResponse) :
    ElectionData :=
  {| ed_id := t_election_id pub; ed_title := Some (t_election_name pub);
     ed_state := t_state pub; ed_candidates := cands |}.

(*@ dashboard/components/evm/EvmTerminal.tsx 24 34 EvmTerminal *)
Record state := mk_state {
  token : option string;
  mounted : bool;
  election : option ElectionData;
  device : option DeviceResponse;
  evm : EvmState;
  lcdMessage : string;
  sessionToken : option string;
  selectedCandidate : option string;
  sequenceNumber : Z;
  showVvpat : bool;
  lastVoteHash : string;
  isMockPoll : bool;
  mockVotes : gmap string Z;
  mockCleared : bool;
  showLogin : bool;
  username : string;
  password : string }.

Definition set_token (v : option string) (s : state) : state :=
  mk_state v (mounted s) (election s) (device s) (evm s) (lcdMessage s) (sessionToken s)
    (selectedCandidate s) (sequenceNumber s) (showVvpat s) (lastVoteHash s) (isMockPoll s)
    (mockVotes s) (mockCleared s) (showLogin s) (username s) (password s).
Definition set_mounted (v : bool) (s : state) : state :=
  mk_state (token s) v (election s) (device s) (evm s) (lcdMessage s) (sessionToken s)
    (selectedCandidate s) (sequenceNumber s) (showVvpat s) (lastVoteHash s) (isMockPoll s)
    (mockVotes s) (mockCleared s) (showLogin s) (username s) (password s).
Definition set_election (v : option ElectionData) (s : state) : state :=
  mk_state (token s) (mounted s) v (device s) (evm s) (lcdMessage s) (sessionToken s)
    (selectedCandidate s) (sequenceNumber s) (showVvpat s) (lastVoteHash s) (isMockPoll s)
    (mockVotes s) (mockCleared s) (showLogin s) (username s) (password s).
Definition set_device (v : option DeviceResponse) (s : state) : state :=
  mk_state (token s) (mounted s) (election s) v (evm s) (lcdMessage s) (sessionToken s)
    (selectedCandidate s) (sequenceNumber s) (showVvpat s) (lastVoteHash s) (isMockPoll s)
    (mockVotes s) (mockCleared s) (showLogin s) (username s) (password s).
Definition set_evm (v : EvmState) (s : state) : state :=
  mk_state (token s) (mounted s) (election s) (device s) v (lcdMessage s) (sessionToken s)
    (selectedCandidate s) (sequenceNumber s) (showVvpat s) (lastVoteHash s) (isMockPoll s)
    (mockVotes s) (mockCleared s) (showLogin s) (username s) (password s).
Definition set_lcdMessage (v : string) (s : state) : state :=
  mk_state (token s) (mounted s) (election s) (device s) (evm s) v (sessionToken s)
    (selectedCandidate s) (sequenceNumber s) (showVvpat s) (lastVoteHash s) (isMockPoll s)
    (mockVotes s) (mockCleared s) (showLogin s) (username s) (password s).
Definition set_sessionToken (v : option string) (s : state) : state :=
  mk_state (token s) (mounted s) (election s) (device s) (evm s) (lcdMessage s) v
    (selectedCandidate s) (sequenceNumber s) (showVvpat s) (lastVoteHash s) (isMockPoll s)
    (mockVotes s) (mockCleared s) (showLogin s) (username s) (password s).
Definition set_selectedCandidate (v : option string) (s : state) : state :=
  mk_state (token s) (mounted s) (election s) (device s) (evm s) (lcdMessage s)
    (sessionToken s) v (sequenceNumber s) (showVvpat s) (lastVoteHash s) (isMockPoll s)
    (mockVotes s) (mockCleared s) (showLogin s) (username s) (password s).
Definition set_sequenceNumber (v : Z) (s : state) : state :=
  mk_state (token s) (mounted s) (election s) (device s) (evm s) (lcdMessage s)
    (sessionToken s) (selectedCandidate s) v (showVvpat s) (lastVoteHash s) (isMockPoll s)
    (mockVotes s) (mockCleared s) (showLogin s) (username s) (password s).
Definition set_showVvpat (v : bool) (s : state) : state :=
  mk_state (token s) (mounted s) (election s) (device s) (evm s) (lcdMessage s)
    (sessionToken s) (selectedCandidate s) (sequenceNumber s) v (lastVoteHash s) (isMockPoll s)
    (mockVotes s) (mockCleared s) (showLogin s) (username s) (password s).
Definition set_lastVoteHash (v : string) (s : state) : state :=
  mk_state (token s) (mounted s) (election s) (device s) (evm s) (lcdMessage s)
    (sessionToken s) (selectedCandidate s) (sequenceNumber s) (showVvpat s) v (isMockPoll s)
    (mockVotes s) (mockCleared s) (showLogin s) (username s) (password s).
Definition set_isMockPoll (v : bool) (s : state) : state :=
  mk_state (token s) (mounted s) (election s) (device s) (evm s) (lcdMessage s)
    (sessionToken s) (selectedCandidate s) (sequenceNumber s) (showVvpat s) (lastVoteHash s) v
    (mockVotes s) (mockCleared s) (showLogin s) (username s) (password s).
Definition set_mockVotes (v : gmap string Z) (s : state) : state :=
  mk_state (token s) (mounted s) (election s) (device s) (evm s) (lcdMessage s)
    (sessionToken s) (selectedCandidate s) (sequenceNumber s) (showVvpat s) (lastVoteHash s)
    (isMockPoll s) v (mockCleared s) (showLogin s) (username s) (password s).
Definition set_mockCleared (v : bool) (s : state) : state :=
  mk_state (token s) (mounted s) (election s) (device s) (evm s) (lcdMessage s)
    (sessionToken s) (selectedCandidate s) (sequenceNumber s) (showVvpat s) (lastVoteHash s)
    (isMockPoll s) (mockVotes s) v (showLogin s) (username s) (password s).
Definition set_showLogin (v : bool) (s : state) : state :=
  mk_state (token s) (mounted s) (election s) (device s) (evm s) (lcdMessage s)
    (sessionToken s) (selectedCandidate s) (sequenceNumber s) (showVvpat s) (lastVoteHash s)
    (isMockPoll s) (mockVotes s) (mockCleared s) v (username s) (password s).
Definition set_username (v : string) (s : state) : state :=
  mk_state (token s) (mounted s) (election s) (device s) (evm s) (lcdMessage s)
    (sessionToken s) (selectedCandidate s) (sequenceNumber s) (showVvpat s) (lastVoteHash s)
    (isMockPoll s) (mockVotes s) (mockCleared s) (showLogin s) v (password s).
Definition set_password (v : string) (s : state) : state :=
  mk_state (token s) (mounted s) (election s) (device s) (evm s) (lcdMessage s)
    (sessionToken s) (selectedCandidate s) (sequenceNumber s) (showVvpat s) (lastVoteHash s)
    (isMockPoll s) (mockVotes s) (mockCleared s) (showLogin s) (username s) v.

(*@ dashboard/components/evm/EvmTerminal.tsx 24 34 EvmTerminal *)
Definition initial (t : option string) : state :=
  mk_state t false None None IDLE "INITIALIZING..." None None 0 false EmptyString
    false ∅ false false EmptyString EmptyString.

(** ** The candidate slate *)

(*@ dashboard/components/evm/EvmTerminal.tsx 172 174 hasNota *)
Definition hasNota (cands : list CandidateResponse) : bool :=
  existsb (fun c => includes "NOTA" (to_upper (c_name c)) || includes "NOTA" (to_upper (c_id c)))
    cands.

(*@ dashboard/components/evm/EvmTerminal.tsx 178 186 candidateSlate *)
Definition nota (position : Z) : CandidateResponse :=
  {| c_id := "C005"; c_name := "None of the Above (NOTA)"; c_party := Some "None of the Above";
     c_symbol := Some "NOTA"; c_position := position |}%string.

(*@ dashboard/components/evm/EvmTerminal.tsx 171 171 rawCandidates *)
Definition rawCandidates (s : state) : list CandidateResponse :=
  match election s with Some e => ed_candidates e | None => [] end.

(*@ dashboard/components/evm/EvmTerminal.tsx 171 187 candidateSlate *)
Definition candidateSlate (s : state) : list CandidateResponse :=
  let raw := rawCandidates s in
  if hasNota raw then raw else raw ++ [nota (Z.of_nat (List.length raw) + 1)].

(*@ dashboard/components/evm/EvmTerminal.tsx 258 258 selectedCandData *)
Definition selectedCandData (s : state) : option CandidateResponse :=
  match selectedCandidate s with
  | Some id => find_first (fun c => String.eqb (c_id c) id) (candidateSlate s)
  | None => None
  end.

(*@ dashboard/components/evm/EvmTerminal.tsx 137 137 totalMockVotes *)
Definition totalMockVotes (s : state) : Z := sumZ (map snd (map_to_list (mockVotes s))).

Section Terminal.
Context (electionId deviceId : string).

Abbreviation M := (prog state).

(** ** Handlers *)

(** The officer's view of the election, [null] when there is no token or the call fails. *)
(*@ dashboard/components/evm/EvmTerminal.tsx 39 46 init *)
Definition officer_election (s : state) : M (option ElectionData) :=
  if truthy_opt (token s) then
    try_catch (e ← await (getElection electionId (token s)); mret (Some (of_election e)))
              (fun _ => mret None)
  else mret None.

(*@ dashboard/components/evm/EvmTerminal.tsx 47 57 init *)
Definition election_or_public (eData : option ElectionData) : M ElectionData :=
  match eData with
  | Some d => mret d
  | None =>
      pub ← await (getTransparencyOverview electionId);
      cands ← await (getTransparencyCandidates electionId);
      mret (of_overview pub cands)
  end.

(*@ dashboard/components/evm/EvmTerminal.tsx 58 62 init *)
Definition with_candidates (d : ElectionData) : M ElectionData :=
  match ed_candidates d with
  | [] =>
      try_catch
        (cands ← await (getTransparencyCandidates electionId);
         mret {| ed_id := ed_id d; ed_title := ed_title d; ed_state := ed_state d;
                 ed_candidates := cands |})
        (fun _ => mret d)
  | _ => mret d
  end.

(*@ dashboard/components/evm/EvmTerminal.tsx 65 75 init *)
Definition device_list (s : state) : M (list DeviceResponse) :=
  dData ← (if truthy_opt (token s)
           then try_catch (await (getDevices electionId (token s))) (fun _ => mret [])
           else mret []);
  match dData with
  | [] => await (getTransparencyDevices electionId)
  | _ => mret dData
  end.

(*@ dashboard/components/evm/EvmTerminal.tsx 36 92 init *)
Definition init (s : state) : M unit :=
  try_catch
    (eData ← officer_election s;
     eData ← election_or_public eData;
     eData ← with_candidates eData;
     upd (set_election (Some eData));;
     dData ← device_list s;
     match find_first (fun d => String.eqb (d_id d) deviceId) dData with
     | None => Throw (plain_error "Error" "DEVICE_NOT_FOUND")
     | Some dev =>
         upd (set_device (Some dev));;
         upd (set_sequenceNumber (d_last_sequence_number dev + 1));;
         if negb (String.eqb (ed_state eData) "OPEN")
         then Throw (plain_error "Error" "POLLING_CLOSED")
         else if negb (bool_decide (d_status dev = D_ACTIVE))
         then Throw (plain_error "Error" "DEVICE_INACTIVE")
         else upd (set_evm READY);; upd (set_lcdMessage "READY - AWAITING SESSION")
     end)
    (fun err =>
       upd (set_evm ERROR);;
       upd (set_lcdMessage (str_or (e_message err) "INITIALIZATION FAILED"))).

(*@ dashboard/components/evm/EvmTerminal.tsx 94 124 handleInitSession *)
Definition handleInitSession (authCreds : option (string * string)) (s : state) : M unit :=
  try_catch
    (currentToken ←
       match truthy_opt (token s), authCreds with
       | false, Some (u, p) =>
           upd (set_lcdMessage "AUTHENTICATING...");;
           t ← await (login u p);
           mret (Some (access_token t))
       | _, _ => mret (token s)
       end;
     if negb (truthy_opt currentToken) then
       if isMockPoll s
       then upd (set_evm CANDIDATE_SELECTION);; upd (set_lcdMessage "SELECT CANDIDATE")
       else upd (set_lcdMessage "OFFICER LOGIN REQUIRED")
     else
       upd (set_lcdMessage "AUTHORIZING SESSION...");;
       t ← date_now;
       res ← await (authorizeSession electionId ("VOTER-EVM-" ++s Z_to_string t) deviceId
                      currentToken);
       upd (set_sessionToken (Some (s_session_token res)));;
       upd (set_evm CANDIDATE_SELECTION);;
       upd (set_lcdMessage "SELECT CANDIDATE"))
    (fun _ =>
       upd (set_lcdMessage "SESSION FAILED");;
       set_timeout 3000 (upd (set_lcdMessage "READY - AWAITING SESSION"))).

(*@ dashboard/components/evm/EvmTerminal.tsx 126 131 handleCandidateSelect *)
Definition handleCandidateSelect (id : string) (s : state) : M unit :=
  if negb (bool_decide (evm s = CANDIDATE_SELECTION)) && negb (bool_decide (evm s = VOTE_CONFIRMED))
  then mret tt
  else
    upd (set_selectedCandidate (Some id));;
    upd (set_evm VOTE_CONFIRMED);;
    upd (set_lcdMessage "CANDIDATE SELECTED").

(*@ dashboard/components/evm/EvmTerminal.tsx 139 146 handleClearMockPoll *)
Definition handleClearMockPoll (s : state) : M unit :=
  upd (set_mockVotes ∅);;
  upd (set_mockCleared true);;
  upd (set_lcdMessage "UI DIAGNOSTIC MODE - DATA CLEARED");;
  set_timeout 3000
    (upd (set_lcdMessage (if isMockPoll s then "UI DIAGNOSTIC MODE - READY"
                          else "READY - AWAITING SESSION"))).

(*@ dashboard/components/evm/EvmTerminal.tsx 192 211 handleConfirm *)
Definition confirm_mock (candidate : string) : M unit :=
  upd (set_evm VOTE_SUBMITTED);;
  upd (set_lcdMessage "UI DIAGNOSTIC — LOCAL ONLY (NO BACKEND)");;
  upd (fun prev => set_mockVotes
         (<[candidate := default 0 (mockVotes prev !! candidate) + 1]> (mockVotes prev)) prev);;
  t ← date_now;
  upd (set_lastVoteHash ("DIAG-SLIP-" ++s to_upper (to_hex t)));;
  upd (set_evm VOTE_COMPLETE);;
  upd (set_showVvpat true);;
  set_timeout 7000
    (upd (set_showVvpat false);;
     upd (set_evm READY);;
     upd (set_selectedCandidate None);;
     upd (set_lcdMessage "UI DIAGNOSTIC MODE - READY")).

(*@ dashboard/components/evm/EvmTerminal.tsx 215 247 handleConfirm *)
Definition confirm_vote (session candidate : string) (s : state) : M unit :=
  upd (set_evm VOTE_SUBMITTED);;
  upd (set_lcdMessage "RECORDING VOTE...");;
  try_catch
    (res ← await (castVote session candidate deviceId (sequenceNumber s));
     upd (set_lastVoteHash (opt_or (vote_ballot_hash res) "TEST-HASH"));;
     upd (set_evm VOTE_COMPLETE);;
     upd (set_lcdMessage "VOTE RECORDED - VVPAT SLIP PRINTED");;
     upd (set_showVvpat true);;
     set_timeout 7000
       (upd (set_showVvpat false);;
        upd (set_evm READY);;
        upd (set_sessionToken None);;
        upd (set_selectedCandidate None);;
        upd (fun prev => set_sequenceNumber (sequenceNumber prev + 1) prev);;
        upd (set_lcdMessage "READY - AWAITING SESSION")))
    (fun _ =>
       upd (set_lcdMessage "VOTE REJECTED");;
       set_timeout 3000
         (upd (set_evm CANDIDATE_SELECTION);; upd (set_lcdMessage "SELECT CANDIDATE"))).

(*@ dashboard/components/evm/EvmTerminal.tsx 189 248 handleConfirm *)
Definition handleConfirm (s : state) : M unit :=
  if negb (bool_decide (evm s = VOTE_CONFIRMED)) then mret tt
  else match selectedCandidate s with
       | Some candidate =>
           if negb (truthy_str candidate) then mret tt
           else if isMockPoll s then confirm_mock candidate
           else match sessionToken s with
                | Some session =>
                    if truthy_str session then confirm_vote session candidate s else mret tt
                | None => mret tt
                end
       | None => mret tt
       end.

(*@ dashboard/components/evm/EvmTerminal.tsx 250 256 handleCancel *)
Definition handleCancel (s : state) : M unit :=
  if bool_decide (evm s = VOTE_CONFIRMED) then
    upd (set_selectedCandidate None);;
    upd (set_evm CANDIDATE_SELECTION);;
    upd (set_lcdMessage "SELECT CANDIDATE")
  else mret tt.

(*@ dashboard/components/evm/EvmTerminal.tsx 274 280 EvmTerminal *)
Definition toggleDiagnostic (s : state) : M unit :=
  let nextMode := negb (isMockPoll s) in
  upd (set_isMockPoll nextMode);;
  upd (set_evm READY);;
  upd (set_selectedCandidate None);;
  upd (set_lcdMessage (if nextMode then "UI DIAGNOSTIC MODE - READY"
                       else "READY - AWAITING SESSION")).

(** ** The control panel *)

(*@ dashboard/components/evm/EvmControlPanel.tsx 21 27 handleInit *)
Definition handleInit (s : state) : M unit :=
  if truthy_opt (token s) || isMockPoll s then handleInitSession None s
  else upd (set_showLogin true).

(*@ dashboard/components/evm/EvmControlPanel.tsx 29 33 handleLoginSubmit *)
Definition handleLoginSubmit (s : state) : M unit :=
  upd (set_showLogin false);;
  handleInitSession (Some (username s, password s)) s.

(*@ dashboard/components/evm/EvmControlPanel.tsx 52 52 EvmControlPanel *)
Definition fillDemoCredentials : M unit :=
  upd (set_username "officer");; upd (set_password "OfficerSecurePassword123!").

(** ** Events *)

Inductive ui :=
| ClickInit | SubmitLogin | TypeUsername (v : string) | TypePassword (v : string)
| ClickDemoCredentials | CancelLogin | ClickCandidate (id : string) | ClickConfirm
| ClickCancel | ClickToggle | ClickClear.

#[global] Instance ui_eq_dec : EqDecision ui. Proof. solve_decision. Defined.

(** The effect's dependencies are the two identifiers, fixed here, and the token. *)
Inductive env := Mount | TokenChanged (t : option string).

Definition on_ui (u : ui) (s : state) : M unit :=
  match u with
  | ClickInit => handleInit s
  | SubmitLogin => handleLoginSubmit s
  | TypeUsername v => upd (set_username v)
  | TypePassword v => upd (set_password v)
  | ClickDemoCredentials => fillDemoCredentials
  | CancelLogin => upd (set_showLogin false)
  | ClickCandidate id => handleCandidateSelect id s
  | ClickConfirm => handleConfirm s
  | ClickCancel => handleCancel s
  | ClickToggle => toggleDiagnostic s
  | ClickClear => handleClearMockPoll s
  end.

Definition on_surroundings (x : env) (s : state) : M unit :=
  match x with
  | Mount => if mounted s then mret tt else upd (set_mounted true);; init s
  | TokenChanged t =>
      if bool_decide (token s = t) then mret tt
      else upd (set_token t);; init (set_token t s)
  end.
(** ** What the terminal renders *)

Abbreviation page := (list (node ui)).

(*@ dashboard/components/evm/EvmLCD.tsx 5 16 EvmLCD *)
Definition EvmLCD (message : string) : page := [Text message].

(*@ dashboard/components/evm/EvmStatusLED.tsx 3 18 EvmStatusLED *)
Definition EvmStatusLED (label color : string) (on : bool) : page :=
  [Box (if on then color else "off") [Text label]].

(*@ dashboard/components/evm/EvmStatusPanel.tsx 12 36 EvmStatusPanel *)
Definition EvmStatusPanel (st : EvmState) (sequenceNumber : Z) (isElectionOpen : bool) : page :=
  let isSessionActive :=
    bool_decide (st = CANDIDATE_SELECTION) || bool_decide (st = VOTE_CONFIRMED)
    || bool_decide (st = VOTE_SUBMITTED) in
  Text "SYSTEM STATUS"
  :: EvmStatusLED "POWER" "green" true
  ++ EvmStatusLED "POLLING" (if isElectionOpen then "green" else "red") true
  ++ EvmStatusLED "TAMPER" "red" (bool_decide (st = ERROR))
  ++ EvmStatusLED "SESSION" "amber" isSessionActive
  ++ [Text "SEQUENCE NO."; Text (pad_start 4 "0" (Z_to_string sequenceNumber))].

(*@ dashboard/components/evm/EvmCandidateButton.tsx 13 42 EvmCandidateButton *)
Definition EvmCandidateButton (candidate : CandidateResponse) (isActive isSelected : bool)
    (onClick : ui) : page :=
  let symbolColor := if bool_decide (c_party candidate = Some "IND"%string)
                     then "border-slate-500" else "border-indigo-500" in
  [Box ((if isSelected then "selected " else "") ++s symbolColor)
     [Button (Z_to_string (c_position candidate) ++s " " ++s c_name candidate ++s " "
              ++s opt_or (c_party candidate) "Independent" ++s " "
              ++s (match c_symbol candidate with
                   | Some sym => if truthy_str sym then " | " ++s sym else EmptyString
                   | None => EmptyString
                   end)) (negb isActive) onClick]]%string.

(** The login form or the ballot button, then the two voting buttons. *)
(*@ dashboard/components/evm/EvmControlPanel.tsx 16 102 EvmControlPanel *)
Definition EvmControlPanel (canInit canConfirm canCancel : bool) (s : state) : page :=
  (if showLogin s then
     [Text "OFFICER LOGIN REQUIRED";
      Field "Username" (username s) false (fun u => match u with TypeUsername _ => true | _ => false end);
      Field "Password" (password s) false (fun u => match u with TypePassword _ => true | _ => false end);
      Button "Use Local Demo Credentials (officer / demo-only)" false ClickDemoCredentials;
      Text "LOCAL DEMO CREDENTIALS - Synthetic environment only. Never use in production.";
      Button "LOGIN & INIT" false SubmitLogin;
      Button "Cancel" false CancelLogin]
   else [Button "BALLOT (ENABLE BU)" (negb canInit) ClickInit])
  ++ [Button "CLEAR SELECTION" (negb canCancel) ClickCancel;
      Button "CAST VOTE" (negb canConfirm) ClickConfirm].

(** The paper slip; [secondsRemaining] is the state of [VvpatCountdown] below. *)
(*@ dashboard/components/evm/VVPATSlip.tsx 24 98 VVPATSlip *)
Definition VVPATSlip (candidate : CandidateResponse) (hash : string) (mock : bool)
    (secondsRemaining : Z) : page :=
  [Text "VVPAT VIEWING WINDOW"; Text (Z_to_string secondsRemaining ++s "s REMAINING");
   Text "Voter Verifiable Paper Audit Trail (VVPAT)";
   Text "Slip visible for 7 seconds before dropping into sealed compartment"]
  ++ when mock [Text "*** UI DIAGNOSTIC MODE - LOCAL PREVIEW ONLY ***"]
  ++ [Text "SERIAL NO:"; Text (Z_to_string (c_position candidate));
      Text "CANDIDATE NAME"; Text (c_name candidate);
      Text "PARTY"; Text (opt_or (c_party candidate) "Independent");
      Text "SYMBOL"; Text (opt_or (c_symbol candidate) "*");
      Text "BALLOT HASH:";
      Text ((if truthy_str hash then take_str 16 hash else "PENDING") ++s "...")].

(** The terminal's page. The slip mounts with a full countdown; its later frames are the
    countdown component's. *)
(*@ dashboard/components/evm/EvmTerminal.tsx 258 385 EvmTerminal *)
Definition render (s : state) : page :=
  [Text "EVM DIGITAL TWIN";
   Text (deviceId ++s " | " ++s
         match election s with Some e => opt_or (ed_title e) "Loading..." | None => "Loading..." end);
   Button (if isMockPoll s then "UI DIAGNOSTIC: ACTIVE" else "ENABLE UI DIAGNOSTIC") false ClickToggle;
   Text "SIMULATION";
   Box (if bool_decide (evm s = READY) then "current" else "step") [Text "1. CU BALLOT ENABLE"];
   Box (if bool_decide (evm s = CANDIDATE_SELECTION) then "current" else "step")
     [Text "2. BU CANDIDATE / NOTA"];
   Box (if bool_decide (evm s = VOTE_CONFIRMED) then "current" else "step") [Text "3. CU CONFIRM"];
   Box (if showVvpat s then "current" else "step") [Text "4. 7s VVPAT & BEEP"]]
  ++ when (isMockPoll s)
       [Text "UI DIAGNOSTIC MODE"; Text (Z_to_string (totalMockVotes s) ++s " Local Test Interactions");
        Button "Clear Data (CLR)" false ClickClear;
        Text "Local-only test interaction - No ballot is persisted to the election backend"]
  ++ EvmLCD (lcdMessage s)
  ++ [Text "BALLOT UNIT (BU) - CANDIDATE SLATE"; Text "RULE 49B COMPLIANT WITH NOTA"]
  ++ flat_map (fun c =>
       EvmCandidateButton c
         (bool_decide (evm s = CANDIDATE_SELECTION) || bool_decide (evm s = VOTE_CONFIRMED))
         (bool_decide (selectedCandidate s = Some (c_id c))) (ClickCandidate (c_id c)))
       (candidateSlate s)
  ++ [Text "CONTROL UNIT (CU) TWIN"]
  ++ EvmStatusPanel (evm s) (sequenceNumber s)
       (match election s with Some e => String.eqb (ed_state e) "OPEN" | None => false end)
  ++ EvmControlPanel (bool_decide (evm s = READY)) (bool_decide (evm s = VOTE_CONFIRMED))
       (bool_decide (evm s = VOTE_CONFIRMED)) s
  ++ match showVvpat s, selectedCandData s with
     | true, Some c => VVPATSlip c (lastVoteHash s) (isMockPoll s) 7
     | _, _ => []
     end.

Definition terminal : component state ui env := mk_component render on_ui on_surroundings.

End Terminal.
End EvmTerminal.
