(* ===== verification/EvmTerminalFacts.v ===== *)
(** * Correctness of the EVM digital twin

    Which controls the terminal offers, which votes and authorisations it can send in any
    interleaving of clicks, answers and timers, the voting cycle with its rejection path,
    the gate of its initialisation, and what its diagnostic mode lets through. *)
From S2P Require Import Prelude Tally JsValue JsNumber Types ApiClient View React Alone EvmTerminal.
From Stdlib Require Import String.
Import EvmTerminal.

#[export] Hint Unfold on_ui on_surroundings handleInitSession handleCandidateSelect
  handleClearMockPoll confirm_mock confirm_vote handleConfirm handleCancel toggleDiagnostic
  handleInit handleLoginSubmit fillDemoCredentials : prog.

(** The terminal is ready to take a candidate. *)
Definition selecting (s : state) : bool :=
  bool_decide (evm s = CANDIDATE_SELECTION) || bool_decide (evm s = VOTE_CONFIRMED).

Section Facts.
Context (electionId deviceId : string).

(** ** Controls *)

(** When the page offers each control. *)
Definition enabled (u : ui) (s : state) : bool :=
  match u with
  | ClickInit => negb (showLogin s) && bool_decide (evm s = READY)
  | SubmitLogin | TypeUsername _ | TypePassword _ | ClickDemoCredentials | CancelLogin =>
      showLogin s
  | ClickCandidate id => selecting s && str_in id (map c_id (candidateSlate s))
  | ClickConfirm | ClickCancel => bool_decide (evm s = VOTE_CONFIRMED)
  | ClickToggle => true
  | ClickClear => isMockPoll s
  end.

Lemma allows_slate u s :
  allows (flat_map (fun c => EvmCandidateButton c (selecting s)
            (bool_decide (selectedCandidate s = Some (c_id c))) (ClickCandidate (c_id c)))
            (candidateSlate s)) u
  = match u with
    | ClickCandidate id => selecting s && str_in id (map c_id (candidateSlate s))
    | _ => false
    end.
Proof.
  induction (candidateSlate s) as [|c l IH]; [destruct u; by rewrite ?andb_false_r |].
  simpl flat_map. rewrite allows_cons, IH. cbn. rewrite negb_involutive.
  destruct u; try by rewrite andb_false_r.
  unfold str_in. simpl. rewrite orb_false_r. destruct (selecting s); [| done]. simpl. f_equal.
  rewrite bool_decide_decide. destruct (decide _), (String.eqb_spec id (c_id c)); congruence.
Qed.

Lemma allows_status v n o u : allows (EvmStatusPanel v n o) u = false.
Proof. done. Qed.

Lemma allows_slip c h m n u : allows (VVPATSlip c h m n) u = false.
Proof. by destruct m. Qed.

Lemma allows_panel s u :
  allows (EvmControlPanel (bool_decide (evm s = READY)) (bool_decide (evm s = VOTE_CONFIRMED))
            (bool_decide (evm s = VOTE_CONFIRMED)) s) u
  = match u with
    | ClickInit => negb (showLogin s) && bool_decide (evm s = READY)
    | SubmitLogin | TypeUsername _ | TypePassword _ | ClickDemoCredentials | CancelLogin =>
        showLogin s
    | ClickConfirm | ClickCancel => bool_decide (evm s = VOTE_CONFIRMED)
    | _ => false
    end.
Proof.
  unfold EvmControlPanel. rewrite !allows_app.
  destruct (showLogin s), u; cbn; decide_eqs; cbn; by rewrite ?orb_false_r, ?andb_false_r.
Qed.

Lemma allows_terminal u s : allows (render deviceId s) u = enabled u s.
Proof.
  unfold render. rewrite !allows_app, allows_when. fold (selecting s).
  rewrite allows_slate, allows_status, allows_panel.
  replace (allows (match showVvpat s with true => _ | false => _ end) u) with false
    by (destruct (showVvpat s), (selectedCandData s); by rewrite ?allows_slip).
  destruct u; cbn; decide_eqs; cbn; by rewrite ?orb_false_r, ?andb_false_r, ?andb_true_r.
Qed.
(** ** What the terminal may send *)

(** Each request of the terminal, with what must hold of the state it is sent in. *)
Definition Sends (s : state) (r : req) : Prop :=
  match r with
  | castVote session candidate dev seq =>
      isMockPoll s = false /\ evm s = VOTE_SUBMITTED
      /\ selectedCandidate s = Some candidate /\ truthy_str candidate = true
      /\ sessionToken s = Some session /\ truthy_str session = true
      /\ dev = deviceId /\ seq = sequenceNumber s
  | authorizeSession e voter dev tok =>
      e = electionId /\ dev = deviceId /\ truthy_opt tok = true
      /\ starts_with "VOTER-EVM-" voter = true
  | login u p => truthy_opt (token s) = false /\ showLogin s = false
  | getElection e tok | getDevices e tok => e = electionId /\ truthy_opt tok = true
  | getTransparencyOverview e | getTransparencyCandidates e | getTransparencyDevices e =>
      e = electionId
  | _ => False
  end.

(** The invariant of the terminal's state. *)
Record Inv (s : state) : Prop := {
  confirmed_selected : evm s = VOTE_CONFIRMED -> selectedCandidate s <> None;
  slip_hash : showVvpat s = true -> truthy_str (lastVoteHash s) = true;
  device_own : forall d, device s = Some d -> d_id d = deviceId }.

Abbreviation keeps_inv := (keeps Inv Sends).

Ltac inv_auto :=
  wp_auto; reflect_bool;
  repeat match goal with H : Inv _ |- _ => destruct H end; cbn in *;
  first [ done | split; cbn in *; intros; simplify_eq; eauto with js; fail | solve [auto with js] ].

Lemma keeps_officer_election s : keeps_inv (officer_election electionId s).
Proof. intros b s1 H1. unfold officer_election. inv_auto. Qed.

Lemma keeps_election_or_public e : keeps_inv (election_or_public electionId e).
Proof. intros b s1 H1. unfold election_or_public. inv_auto. Qed.

Lemma keeps_with_candidates d : keeps_inv (with_candidates electionId d).
Proof. intros b s1 H1. unfold with_candidates. inv_auto. Qed.

Lemma keeps_device_list s : keeps_inv (device_list electionId s).
Proof. intros b s1 H1. unfold device_list. inv_auto. Qed.

Lemma keeps_init s : keeps_inv (init electionId deviceId s).
Proof.
  unfold init. apply keeps_try.
  - apply keeps_bind; [apply keeps_officer_election | intros e1].
    apply keeps_bind; [apply keeps_election_or_public | intros e2].
    apply keeps_bind; [apply keeps_with_candidates | intros e3].
    apply keeps_bind; [apply keeps_upd; intros s' []; by split | intros _].
    apply keeps_bind; [apply keeps_device_list | intros ds].
    intros b s1 H1. destruct (find_first _ ds) as [d|] eqn:Hd; [| done].
    apply find_first_Some in Hd as [_ Hd%String.eqb_eq]. inv_auto.
  - intros e b s1 H1. inv_auto.
Qed.

Lemma terminal_safe :
  safe_component (terminal electionId deviceId) Inv Sends (fun _ => True).
Proof.
  split.
  - intros u s _ HI Hu. change (allows (render deviceId s) u = true) in Hu. rewrite allows_terminal in Hu.
    unfold terminal. cbn [on_user]. destruct u; cbn in Hu; inv_auto.
  - intros [|t] s _ HI; unfold terminal; cbn [on_env on_surroundings].
    + destruct (mounted s); [done |]. simpl.
      apply (keeps_handles Inv Sends (init electionId deviceId s)); [apply keeps_init |].
      destruct HI. by split.
    + destruct (bool_decide _); [done |]. simpl.
      apply (keeps_handles Inv Sends (init electionId deviceId _)); [apply keeps_init |].
      destruct HI. by split.
Qed.

Lemma Inv_initial t : Inv (initial t).
Proof. by split. Qed.

(** A click on an enabled control runs its handler. *)
Lemma terminal_click w u :
  enabled u (st w) = true ->
  step (terminal electionId deviceId) w (User u) = Some (exec (on_ui electionId deviceId u (st w)) w).
Proof.
  intros H. unfold step.
  change (allows _ u) with (allows (render deviceId (st w)) u). by rewrite allows_terminal, H.
Qed.

(** The backend's answers to a given request. *)
Definition cast_answered (answer : forall q, outcome (qresp q)) (o : outcome VoteResponse) : Prop :=
  forall session c seq, answer (One (castVote session c deviceId seq)) = o.

Definition session_answered (answer : forall q, outcome (qresp q)) (o : outcome SessionResponse) : Prop :=
  forall voter tok, answer (One (authorizeSession electionId voter deviceId tok)) = o.

#[local] Hint Unfold init officer_election election_or_public with_candidates device_list : prog.

(** ** Phases of the voting cycle *)

Lemma session_opens s n f snt unc sess a :
  evm s = READY -> showLogin s = false -> isMockPoll s = false -> truthy_opt (token s) = true ->
  session_answered a (Ok sess) ->
  run (terminal electionId deviceId) (mk_world s n f [] snt unc) [User ClickInit; Reply f a]
  = Some (mk_world
      (set_lcdMessage "SELECT CANDIDATE" (set_evm CANDIDATE_SELECTION
         (set_sessionToken (Some (s_session_token sess))
            (set_lcdMessage "AUTHORIZING SESSION..." s))))
      n (S f) []
      (snt ++ [(set_lcdMessage "AUTHORIZING SESSION..." s,
                authorizeSession electionId ("VOTER-EVM-" ++s Z_to_string n) deviceId (token s))])
      unc).
Proof.
  intros Hevm Hl Hm Ht Ha. unfold session_answered in Ha.
  by do 2 (run_next terminal_click ltac:(cbn; by rewrite Hevm, Hl)).
Qed.

Lemma candidate_chosen s n f snt unc c :
  selecting s = true -> str_in c (map c_id (candidateSlate s)) = true ->
  run (terminal electionId deviceId) (mk_world s n f [] snt unc) [User (ClickCandidate c)]
  = Some (mk_world
      (set_lcdMessage "CANDIDATE SELECTED" (set_evm VOTE_CONFIRMED
         (set_selectedCandidate (Some c) s)))
      n f [] snt unc).
Proof.
  intros Hs Hc. rewrite run_cons, terminal_click by (unfold enabled; cbn [st]; by rewrite Hs, Hc).
  cbn. unfold handleCandidateSelect. unfold selecting in Hs.
  by rewrite <- negb_orb, Hs.
Qed.

(** The timer that drops the slip. *)
Definition slip_timer : prog state unit :=
  upd (set_showVvpat false);;
  upd (set_evm READY);;
  upd (set_sessionToken None);;
  upd (set_selectedCandidate None);;
  upd (fun prev => set_sequenceNumber (sequenceNumber prev + 1) prev);;
  upd (set_lcdMessage "READY - AWAITING SESSION").

Lemma vote_recorded s n f snt unc session c receipt a :
  evm s = VOTE_CONFIRMED -> isMockPoll s = false ->
  selectedCandidate s = Some c -> truthy_str c = true ->
  sessionToken s = Some session -> truthy_str session = true ->
  cast_answered a (Ok receipt) ->
  let recording := set_lcdMessage "RECORDING VOTE..." (set_evm VOTE_SUBMITTED s) in
  run (terminal electionId deviceId) (mk_world s n f [] snt unc) [User ClickConfirm; Reply f a]
  = Some (mk_world
      (set_showVvpat true (set_lcdMessage "VOTE RECORDED - VVPAT SLIP PRINTED"
         (set_evm VOTE_COMPLETE
            (set_lastVoteHash (opt_or (vote_ballot_hash receipt) "TEST-HASH") recording))))
      n (S (S f)) [Timed (S f) (n + 7000) None slip_timer]
      (snt ++ [(recording, castVote session c deviceId (sequenceNumber s))]) unc).
Proof.
  intros Hevm Hm Hsel Hc Hses Hs Ha recording. unfold cast_answered in Ha. subst recording.
  by do 2 (run_next terminal_click ltac:(cbn; by rewrite Hevm)).
Qed.

(** ** The terminal after its initialisation failed *)

Definition locked (s : state) : Prop :=
  mounted s = true /\ evm s = ERROR /\ showLogin s = false.

(** Neither the diagnostic switch nor a change of the auth token. *)
Definition ordinary (e : event ui env) : Prop :=
  match e with User ClickToggle | Env (TokenChanged _) => False | _ => True end.

Lemma locked_safe :
  safe_component (terminal electionId deviceId) locked (fun _ _ => False) ordinary.
Proof.
  split.
  - intros u s HP (Hm & He & Hl) Hu.
    change (allows (render deviceId s) u = true) in Hu. rewrite allows_terminal in Hu.
    unfold terminal. cbn [on_user]. unfold enabled, selecting in Hu. rewrite He, Hl in Hu.
    by destruct u; cbn in Hu, HP.
  - intros [|t] s HP (Hm & He & Hl); [| done]. unfold terminal. cbn. rewrite Hm. by split.
Qed.

(** ** The initialisation *)

(** What the initialisation finds when the backend answers with [f]: the officer's view of
    the election, the public one without it, an empty slate filled from the public
    candidates, and the devices the terminal looks itself up in. *)
Definition officer_view (f : forall r, outcome (resp r)) (t : option string) : option ElectionData :=
  if truthy_opt t
  then match f (getElection electionId t) with Ok e => Some (of_election e) | Err _ => None end
  else None.

Definition public_view (f : forall r, outcome (resp r)) : outcome ElectionData :=
  match f (getTransparencyOverview electionId), f (getTransparencyCandidates electionId) with
  | Ok pub, Ok cands => Ok (of_overview pub cands)
  | Err e, _ => Err e
  | _, Err e => Err e
  end.

Definition fill_slate (f : forall r, outcome (resp r)) (d : ElectionData) : ElectionData :=
  match ed_candidates d, f (getTransparencyCandidates electionId) with
  | [], Ok cands => {| ed_id := ed_id d; ed_title := ed_title d; ed_state := ed_state d;
                       ed_candidates := cands |}
  | _, _ => d
  end.

Definition terminal_election (f : forall r, outcome (resp r)) (t : option string) : outcome ElectionData :=
  match officer_view f t with
  | Some d => Ok (fill_slate f d)
  | None => match public_view f with Ok d => Ok (fill_slate f d) | Err e => Err e end
  end.

Definition terminal_devices (f : forall r, outcome (resp r)) (t : option string) :
    outcome (list DeviceResponse) :=
  match (if truthy_opt t then f (getDevices electionId t) else Ok []) with
  | Ok (d :: ds) => Ok (d :: ds)
  | _ => f (getTransparencyDevices electionId)
  end.

Lemma officer_ends f s s0 :
  exists l, alone f (officer_election electionId s) s0
            = Some (mk_ending (inl (officer_view f (token s))) s0 l).
Proof.
  unfold officer_election, officer_view.
  destruct (truthy_opt (token s)); [destruct (f (getElection electionId (token s))) eqn:E |];
    alone_auto; by eexists.
Qed.

Lemma public_ends f o s0 :
  exists l, alone f (election_or_public electionId o) s0
    = Some (mk_ending (match o, public_view f with
                       | Some d, _ | None, Ok d => inl d
                       | None, Err e => inr e
                       end) s0 l).
Proof.
  unfold election_or_public, public_view. destruct o; [by eexists |].
  destruct (f (getTransparencyOverview electionId)) eqn:E1;
    [destruct (f (getTransparencyCandidates electionId)) eqn:E2 |]; alone_auto; by eexists.
Qed.

Lemma candidates_end f d s0 :
  exists l, alone f (with_candidates electionId d) s0 = Some (mk_ending (inl (fill_slate f d)) s0 l).
Proof.
  unfold with_candidates, fill_slate.
  destruct (ed_candidates d); [destruct (f (getTransparencyCandidates electionId)) eqn:E |];
    alone_auto; by eexists.
Qed.

Lemma devices_end f s s0 :
  exists l, alone f (device_list electionId s) s0
    = Some (mk_ending (match terminal_devices f (token s) with Ok ds => inl ds | Err e => inr e end) s0 l).
Proof.
  unfold device_list, terminal_devices.
  destruct (truthy_opt (token s));
    [destruct (f (getDevices electionId (token s))) as [[|d ds]|] eqn:E1 |]; alone_auto; by eexists.
Qed.

(** How the mount effect leaves the terminal. *)
Definition decided (f : forall r, outcome (resp r)) (t : option string) (s : state) : Prop :=
  match terminal_election f t, terminal_devices f t with
  | Err e, _ => election s = None /\ device s = None /\ evm s = ERROR
                /\ lcdMessage s = str_or (e_message e) "INITIALIZATION FAILED"
  | Ok d, Err e => election s = Some d /\ device s = None /\ evm s = ERROR
                   /\ lcdMessage s = str_or (e_message e) "INITIALIZATION FAILED"
  | Ok d, Ok ds =>
      election s = Some d
      /\ match find_first (fun d => String.eqb (d_id d) deviceId) ds with
         | None => device s = None /\ evm s = ERROR /\ lcdMessage s = "DEVICE_NOT_FOUND"%string
         | Some dev =>
             device s = Some dev /\ sequenceNumber s = d_last_sequence_number dev + 1
             /\ (if bool_decide (ed_state d <> "OPEN"%string)
                 then evm s = ERROR /\ lcdMessage s = "POLLING_CLOSED"%string
                 else if bool_decide (d_status dev <> D_ACTIVE)
                 then evm s = ERROR /\ lcdMessage s = "DEVICE_INACTIVE"%string
                 else evm s = READY /\ lcdMessage s = "READY - AWAITING SESSION"%string)
         end
  end.

Lemma terminal_mounts f t :
  exists e, alone f (on_surroundings electionId deviceId Mount (initial t)) (initial t) = Some e
            /\ ended e = inl tt /\ decided f t (left_in e).
Proof.
  unfold on_surroundings, init, decided, terminal_election. cbn [mounted initial].
  rewrite alone_upd, alone_try, alone_bind.
  destruct (officer_ends f (initial t) (set_mounted true (initial t))) as [l1 ->]. cbn [after].
  change (token (initial t)) with t. rewrite alone_bind.
  destruct (public_ends f (officer_view f t) (set_mounted true (initial t))) as [l2 H2].
  rewrite H2. clear H2. cbn [after].
  destruct (officer_view f t); [| destruct (public_view f)].
  3: { alone_auto. eexists. by split_and!. }
  all: rewrite alone_bind;
    match goal with |- context [with_candidates electionId ?d] =>
      destruct (candidates_end f d (set_mounted true (initial t))) as [l3 ->] end;
    cbn [after]; rewrite alone_upd, alone_bind;
    match goal with |- context [set_election ?d ?s] =>
      destruct (devices_end f (initial t) (set_election d s)) as [l4 ->] end;
    cbn [after]; change (token (initial t)) with t;
    destruct (terminal_devices f t) as [ds|];
    [destruct (find_first _ ds) as [dev|];
     [rewrite alone_upd, alone_upd;
      match goal with |- context [String.eqb (ed_state ?d) "OPEN"] =>
        destruct (String.eqb_spec (ed_state d) "OPEN") end;
      repeat case_bool_decide; try done |] |];
    cbn [negb]; (eexists; split; [reflexivity |]; by split_and!).
Qed.

(** ** The properties *)

(** C1. In every interleaving of clicks, answers and timers, each request the terminal
    sends is one its state justifies: a ballot is sent only outside diagnostic mode, at
    the VOTE_SUBMITTED point, for the candidate selected on the panel, under the session
    token the backend issued, with this device's identifier and current sequence number;
    a session is requested only with an officer's token. *)
Theorem evm_requests_justified t w s r :
  reachable (terminal electionId deviceId) (fun _ => True) (initial t) w ->
  In (s, r) (sent w) -> Sends s r.
Proof.
  intros Hw Hin.
  destruct (reachable_good _ _ _ _ terminal_safe _ _ (Inv_initial t) Hw) as [_ _ Hs].
  exact (Forall_In _ _ _ Hs Hin).
Qed.

(** In every reachable state a confirmed vote has a candidate, a visible VVPAT slip
    has a ballot hash, and the device record is this terminal's. *)
Theorem evm_state_invariant t w :
  reachable (terminal electionId deviceId) (fun _ => True) (initial t) w -> Inv (st w).
Proof.
  intros Hw.
  by destruct (reachable_good _ _ _ _ terminal_safe _ _ (Inv_initial t) Hw).
Qed.

(** The page offers exactly the controls of the terminal's stage. *)
Theorem evm_controls u s : allows (render deviceId s) u = enabled u s.
Proof. apply allows_terminal. Qed.

(** C5. A full voting cycle: from READY, authorising a session, choosing a candidate and
    confirming sends exactly one authorisation and one ballot with the current sequence
    number; the slip then shows, at no time before seven seconds can its timer run, and once
    they are over it drops the slip: the terminal is READY again with the next sequence
    number and no session. *)
Theorem evm_voting_cycle w c sess receipt a1 a2 :
  tasks w = [] -> evm (st w) = READY -> isMockPoll (st w) = false ->
  showLogin (st w) = false -> truthy_opt (token (st w)) = true ->
  str_in c (map c_id (candidateSlate (st w))) = true -> truthy_str c = true ->
  session_answered a1 (Ok sess) -> truthy_str (s_session_token sess) = true ->
  cast_answered a2 (Ok receipt) ->
  exists w1 w2,
    run (terminal electionId deviceId) w
      [User ClickInit; Reply (fresh w) a1; User (ClickCandidate c); User ClickConfirm;
       Reply (S (fresh w)) a2] = Some w1
    /\ showVvpat (st w1) = true /\ evm (st w1) = VOTE_COMPLETE
    /\ (forall ms i, 0 <= ms < 7000 ->
          exists w', run (terminal electionId deviceId) w1 [Tick ms] = Some w'
            /\ showVvpat (st w') = true /\ step (terminal electionId deviceId) w' (Fire i) = None)
    /\ run (terminal electionId deviceId) w1 [Tick 7000; Fire (S (S (fresh w)))] = Some w2
    /\ evm (st w2) = READY /\ showVvpat (st w2) = false /\ tasks w2 = []
    /\ sessionToken (st w2) = None /\ selectedCandidate (st w2) = None
    /\ sequenceNumber (st w2) = sequenceNumber (st w) + 1
    /\ map snd (sent w2)
       = map snd (sent w)
         ++ [authorizeSession electionId ("VOTER-EVM-" ++s Z_to_string (now w)) deviceId
               (token (st w));
             castVote (s_session_token sess) c deviceId (sequenceNumber (st w))].
Proof.
  destruct w as [s n f ts snt unc]. cbn [st tasks fresh sent now].
  intros -> Hevm Hmock Hlogin Htok Hslate Hc Ha1 Hsess Ha2.
  eexists. eexists. split.
  { change [User ClickInit; Reply f a1; User (ClickCandidate c); User ClickConfirm; Reply (S f) a2]
      with ([User ClickInit; Reply f a1] ++ [User (ClickCandidate c)]
            ++ [User ClickConfirm; @Reply ui env (S f) a2]).
    rewrite run_app, (session_opens s n f snt unc sess a1) by done.
    rewrite run_app, candidate_chosen by done.
    by rewrite (vote_recorded _ _ _ _ _ (s_session_token sess) c receipt a2) by done. }
  split; [done |]. split; [done |].
  split; [intros ms i Hms; edestruct (timer_waits (terminal electionId deviceId)) as (w' & ? & E & ?);
          [| exists w'; rewrite E; by split_and!]; lia |].
  split; [rewrite run_cons, step_tick, run_cons by lia;
          erewrite step_timer_single by (first [reflexivity | cbn; lia]); reflexivity |].
  cbn. split_and!; try done. by rewrite !map_app, <- !app_assoc.
Qed.

(** C21. When the backend rejects a ballot, VOTE REJECTED is displayed with no candidate to
    choose and no new slip; at no time before three seconds does that change, and once they
    are over a candidate can be chosen again, with the sequence number, the session and the
    selection as they were. *)
Theorem evm_rejected_vote_retried w session c answer err :
  tasks w = [] ->
  evm (st w) = VOTE_CONFIRMED -> isMockPoll (st w) = false ->
  selectedCandidate (st w) = Some c -> truthy_str c = true ->
  sessionToken (st w) = Some session -> truthy_str session = true ->
  cast_answered answer (Err err) ->
  exists w1 w2,
    run (terminal electionId deviceId) w [User ClickConfirm; Reply (fresh w) answer] = Some w1
    /\ evm (st w1) = VOTE_SUBMITTED /\ lcdMessage (st w1) = "VOTE REJECTED"%string
    /\ showVvpat (st w1) = showVvpat (st w)
    /\ (forall id, allows (render deviceId (st w1)) (ClickCandidate id) = false)
    /\ (forall ms i, 0 <= ms < 3000 ->
          exists w', run (terminal electionId deviceId) w1 [Tick ms] = Some w'
            /\ st w' = st w1 /\ step (terminal electionId deviceId) w' (Fire i) = None)
    /\ run (terminal electionId deviceId) w1 [Tick 3000; Fire (S (fresh w))] = Some w2
    /\ evm (st w2) = CANDIDATE_SELECTION /\ showVvpat (st w2) = showVvpat (st w)
    /\ sessionToken (st w2) = Some session /\ selectedCandidate (st w2) = Some c
    /\ sequenceNumber (st w2) = sequenceNumber (st w) /\ tasks w2 = []
    /\ map snd (sent w2) =
       map snd (sent w) ++ [castVote session c deviceId (sequenceNumber (st w))].
Proof.
  destruct w as [s n f ts snt unc]. cbn [st tasks fresh sent].
  intros -> Hevm Hmock Hsel Hc Hses Hs Hans. unfold cast_answered in Hans.
  eexists. eexists. split; [by do 2 (run_next terminal_click ltac:(cbn; by rewrite Hevm)) |].
  split; [done |]. split; [done |]. split; [done |].
  split; [intros id; by rewrite allows_terminal |].
  split; [intros ms i Hms; edestruct (timer_waits (terminal electionId deviceId)) as (w' & ? & E & ?);
          [| exists w'; rewrite E; by split_and!]; lia |].
  split; [by do 2 (run_next terminal_click fail) |].
  cbn. split_and!; try done. by rewrite map_app.
Qed.

(** A terminal whose initialisation failed stays in ERROR and sends nothing, whatever
    is clicked, as long as the diagnostic switch is not used and the token not changed. *)
Theorem evm_error_is_terminal s0 w :
  locked s0 ->
  reachable (terminal electionId deviceId) ordinary s0 w ->
  evm (st w) = ERROR /\ sent w = [].
Proof.
  intros H0 Hw.
  destruct (reachable_good _ _ _ _ locked_safe _ _ H0 Hw) as [(_ & He & _) _ Hs].
  split; [done |]. destruct (sent w) as [|[s r] l]; [done |]. by inversion Hs.
Qed.

(** C13. Whatever the backend answers and whether or not an officer is logged in, mounting
    the terminal ends with its initialisation decided: it is READY exactly when an election
    was found, it is OPEN, and this device is listed and ACTIVE, and in ERROR otherwise, with
    the reason displayed; the sequence number continues the device's. The election is the
    officer's or, failing that, the public one, its empty slate filled from the public
    candidates; the devices are the officer's or, when there are none, the public ones. *)
Theorem evm_initialisation_gate f t :
  exists k w,
    run (terminal electionId deviceId) (boot (initial t)) (Env Mount :: replies f 0 k) = Some w
    /\ tasks w = [] /\ uncaught w = []
    /\ match terminal_election f t, terminal_devices f t with
       | Err e, _ => election (st w) = None /\ device (st w) = None /\ evm (st w) = ERROR
                     /\ lcdMessage (st w) = str_or (e_message e) "INITIALIZATION FAILED"
       | Ok d, Err e => election (st w) = Some d /\ device (st w) = None /\ evm (st w) = ERROR
                        /\ lcdMessage (st w) = str_or (e_message e) "INITIALIZATION FAILED"
       | Ok d, Ok ds =>
           election (st w) = Some d
           /\ match find_first (fun d => String.eqb (d_id d) deviceId) ds with
              | None => device (st w) = None /\ evm (st w) = ERROR
                        /\ lcdMessage (st w) = "DEVICE_NOT_FOUND"%string
              | Some dev =>
                  device (st w) = Some dev
                  /\ sequenceNumber (st w) = d_last_sequence_number dev + 1
                  /\ (if bool_decide (ed_state d <> "OPEN"%string)
                      then evm (st w) = ERROR /\ lcdMessage (st w) = "POLLING_CLOSED"%string
                      else if bool_decide (d_status dev <> D_ACTIVE)
                      then evm (st w) = ERROR /\ lcdMessage (st w) = "DEVICE_INACTIVE"%string
                      else evm (st w) = READY
                           /\ lcdMessage (st w) = "READY - AWAITING SESSION"%string)
              end
       end.
Proof.
  destruct (terminal_mounts f t) as (e & He & Hend & Hs).
  destruct (env_alone f (terminal electionId deviceId) (boot (initial t)) Mount e)
    as (k & w & H1 & H2 & H3 & _ & _ & H4); [done | exact He |].
  exists k, w. rewrite H3, H4, Hend. by split_and!.
Qed.

(** In diagnostic mode confirming a selection sends nothing: it adds one to the local
    tally of the chosen candidate and to the total, and prints a DIAG slip. *)
Theorem evm_diagnostic_votes_are_local w c :
  evm (st w) = VOTE_CONFIRMED -> isMockPoll (st w) = true ->
  selectedCandidate (st w) = Some c -> truthy_str c = true ->
  exists w', run (terminal electionId deviceId) w [User ClickConfirm] = Some w'
    /\ sent w' = sent w /\ sequenceNumber (st w') = sequenceNumber (st w)
    /\ totalMockVotes (st w') = totalMockVotes (st w) + 1
    /\ mockVotes (st w') !! c = Some (default 0 (mockVotes (st w) !! c) + 1)
    /\ starts_with "DIAG-SLIP-" (lastVoteHash (st w')) = true /\ showVvpat (st w') = true.
Proof.
  destruct w as [s n f ts snt unc]. cbn [st sent]. intros Hevm Hmock Hsel Hc.
  run_next terminal_click ltac:(cbn; by rewrite Hevm).
  eexists. split; [reflexivity |]. cbn. rewrite ?app_nil_r.
  split_and!; try done; 
    [apply tally_insert | apply lookup_insert_eq | apply starts_with_app].
Qed.

(** NOTA can always be chosen while a candidate can, and the officer's slate is shown
    unchanged before it. *)
Theorem evm_nota_always_offered s :
  hasNota (candidateSlate s) = true
  /\ (exists extra, candidateSlate s = rawCandidates s ++ extra)
  /\ (selecting s = true ->
      exists c, In c (candidateSlate s) /\ hasNota [c] = true
        /\ allows (render deviceId s) (ClickCandidate (c_id c)) = true).
Proof.
  assert (hasNota (candidateSlate s) = true) as Hn.
  { unfold candidateSlate. destruct (hasNota (rawCandidates s)) eqn:E; [done |].
    unfold hasNota in *. rewrite existsb_app. simpl. apply orb_true_r. }
  split_and!; [done | |].
  - unfold candidateSlate. destruct (hasNota (rawCandidates s));
    [exists []; by rewrite app_nil_r | by eexists].
  - intros Hs. unfold hasNota in Hn. apply existsb_exists in Hn as (c & Hin & Hc).
    exists c. split_and!; [done | unfold hasNota; simpl; by rewrite Hc |].
    rewrite allows_terminal. simpl. rewrite Hs. simpl. apply str_in_In, in_map_iff. eauto.
Qed.
End Facts.

