(* ===== verification/EvmBallot.v ===== *)
(** * The ballot unit: what the EVM digital twin refines

    An abstract voting unit issues one ballot per sequence number. The terminal of
    [EvmTerminal], with its awaited requests, timers and page, refines it in careful use: the
    ballot is not enabled again while an answer is on the way, the diagnostic switch and the
    officer's token are left alone. [EvmDemo] shows what happens otherwise. *)
From S2P Require Import Prelude JsValue JsNumber Types ApiClient View React EvmTerminal EvmTerminalFacts.
From Stdlib Require Import String Sorting.Sorted.
Import EvmTerminal.

(** ** The abstract unit *)

Inductive phase :=
| Starting | Broken | Ready | Authorising | Choosing
| Casting (session candidate : string) | Printing | Refused.

(** A ballot: sequence number, session token, candidate. *)
Definition ballot : Type := Z * string * string.

Record ballot_unit := mk_unit {
  bu_phase : phase;
  bu_seq : Z;
  bu_cast : list ballot;       (** sent, oldest first *)
  bu_ledger : list ballot }.   (** accepted, oldest first *)

Definition set_phase (p : phase) (u : ballot_unit) : ballot_unit :=
  mk_unit p (bu_seq u) (bu_cast u) (bu_ledger u).

Inductive unit_step (u : ballot_unit) : ballot_unit -> Prop :=
| us_start n : bu_phase u = Starting -> bu_cast u = [] -> unit_step u (mk_unit Ready n [] [])
| us_break : bu_phase u = Starting -> unit_step u (set_phase Broken u)
| us_authorise : bu_phase u = Ready -> unit_step u (set_phase Authorising u)
| us_denied : bu_phase u = Authorising -> unit_step u (set_phase Ready u)
| us_authorised : bu_phase u = Authorising -> unit_step u (set_phase Choosing u)
| us_cast s c : bu_phase u = Choosing ->
    unit_step u (mk_unit (Casting s c) (bu_seq u) (bu_cast u ++ [(bu_seq u, s, c)]) (bu_ledger u))
| us_accept s c : bu_phase u = Casting s c ->
    unit_step u (mk_unit Printing (bu_seq u) (bu_cast u) (bu_ledger u ++ [(bu_seq u, s, c)]))
| us_refuse s c : bu_phase u = Casting s c -> unit_step u (set_phase Refused u)
| us_retry : bu_phase u = Refused -> unit_step u (set_phase Choosing u)
| us_printed : bu_phase u = Printing ->
    unit_step u (mk_unit Ready (bu_seq u + 1) (bu_cast u) (bu_ledger u)).

Inductive unit_reachable : ballot_unit -> Prop :=
| ur_start n : unit_reachable (mk_unit Starting n [] [])
| ur_step u u' : unit_reachable u -> unit_step u u' -> unit_reachable u'.

Definition number (b : ballot) : Z := fst (fst b).

(** What the unit guarantees: ballots go out in the order of their numbers, every accepted ballot was sent, the accepted ballots carry
    increasing numbers, no ballot is sent under the number of an accepted one any more, and
    one is accepted under the current number only while its slip is printed. *)
Record sound (u : ballot_unit) : Prop := {
  so_increasing : StronglySorted Z.lt (map number (bu_ledger u));
  so_ordered : StronglySorted Z.le (map number (bu_cast u));
  so_sent : forall b, In b (bu_ledger u) -> In b (bu_cast u);
  so_below : forall b, In b (bu_cast u) -> number b <= bu_seq u;
  so_open : forall b, In b (bu_ledger u) ->
              number b < bu_seq u \/ (number b = bu_seq u /\ bu_phase u = Printing);
  so_casting : forall s c, bu_phase u = Casting s c -> last (bu_cast u) = Some (bu_seq u, s, c) }.

Lemma sorted_snoc (R : Z -> Z -> Prop) l n :
  StronglySorted R l -> Forall (fun m => R m n) l -> StronglySorted R (l ++ [n]).
Proof.
  induction 1 as [|m l Hl IH Hm]; intros Hn; [by repeat constructor |].
  inversion Hn; subst. constructor; [by apply IH |]. apply Forall_app_2; [done | by constructor].
Qed.

(** A step that sends and accepts nothing, to a phase that is neither of the two that matter. *)
Lemma sound_phase p u :
  bu_phase u <> Printing -> (forall s c, p <> Casting s c) -> sound u -> sound (set_phase p u).
Proof.
  intros Hp Hc [I1 I0 I2 I3 I4 I5]. split; cbn; try done.
  - intros b Hb. destruct (I4 b Hb) as [H|[_ H]]; [by left | done].
  - intros s c E. by destruct (Hc s c).
Qed.

Lemma unit_sound u : unit_reachable u -> sound u.
Proof.
  induction 1 as [n|u u' _ IH Hstep]; [by split; cbn; try done; constructor |].
  destruct Hstep as [n Hp Hc|Hp|Hp|Hp|Hp|s c Hp|s c Hp|s c Hp|Hp|Hp];
    try (apply sound_phase; [congruence | done | done]); destruct IH as [I1 I0 I2 I3 I4 I5].
  - split; cbn; try done; constructor.
  - split; cbn.
    + done.
    + rewrite map_app. apply sorted_snoc; [done |].
      apply List.Forall_forall. intros m (b & <- & Hb)%in_map_iff. auto.
    + intros b Hb. apply in_or_app. auto.
    + intros b [Hb|[<-|[]]]%in_app_or; [auto | cbn; lia].
    + intros b Hb. destruct (I4 b Hb) as [H|[_ H]]; [by left | congruence].
    + intros s' c' [= <- <-]. by rewrite last_snoc.
  - assert (Forall (fun m => m < bu_seq u) (map number (bu_ledger u))) as Hlt.
    { apply List.Forall_forall. intros m (b & <- & Hb)%in_map_iff.
      destruct (I4 b Hb) as [H|[_ H]]; [done | congruence]. }
    split; cbn.
    + rewrite map_app. by apply sorted_snoc.
    + done.
    + intros b [Hb|[<-|[]]]%in_app_or; [auto |].
      apply list_elem_of_In. eapply last_Some_elem_of. by apply I5.
    + done.
    + intros b [Hb|[<-|[]]]%in_app_or; [| by right].
      destruct (I4 b Hb) as [H|[_ H]]; [by left | congruence].
    + done.
  - split; cbn; try done.
    + intros b Hb. specialize (I3 b Hb). lia.
    + intros b Hb. left. destruct (I4 b Hb) as [H|[H _]]; lia.
Qed.

(** ** Careful use of the terminal *)

Section Refinement.
Context (electionId deviceId : string).

Abbreviation app := (terminal electionId deviceId).

(** The ballot is enabled only while no answer is on the way; the diagnostic switch is not
    used and the officer's token does not change. *)
Definition careful (w : world state) (e : event ui env) : Prop :=
  match e with
  | User ClickInit | User SubmitLogin => idle w = true
  | User ClickToggle | Env (TokenChanged _) => False
  | _ => True
  end.

Inductive carefully (t : option string) : world state -> Prop :=
| careful_boot : carefully t (boot (initial t))
| careful_step w e w' : carefully t w -> careful w e -> step app w e = Some w' -> carefully t w'.

(** The ballots among the requests sent. *)
Definition ballot_of (r : state * req) : list ballot :=
  match snd r with castVote session candidate _ seq => [(seq, session, candidate)] | _ => [] end.
Definition ballots (l : list (state * req)) : list ballot := flat_map ballot_of l.

(** A timer that only changes the display. *)
Definition lcd_timer (t : task state) : Prop :=
  exists i d m, t = Timed i d None (upd (set_lcdMessage m)).

(** The tasks are [X] among display timers. *)
Definition pending (w : world state) (X : list (task state)) : Prop :=
  exists l1 l2, tasks w = l1 ++ X ++ l2 /\ Forall lcd_timer l1 /\ Forall lcd_timer l2.

(** ** Handlers that cast nothing

    [phased p s]: from [s], [p] stays in [Keep] while it waits and ends in [End]; it sends no
    ballot and starts no timer but the display's. *)
Section Phased.
Context (Keep End : state -> Prop).

Fixpoint phased {A : Type} (p : prog state A) (Q : A -> state -> Prop)
    (E : error_obj -> state -> Prop) (s : state) {struct p} : Prop :=
  match p with
  | Ret a => Q a s
  | Throw e => E e s
  | Upd f k => phased k Q E (f s)
  | Peek k => phased (k s) Q E s
  | Call q k =>
      Keep s /\ ballots (map (fun r => (s, r)) (reqs q)) = []
      /\ forall o s', Keep s' -> phased (k o) Q E s'
  | Timer false _ body k => (exists m, body = upd (set_lcdMessage m)) /\ forall i, phased (k i) Q E s
  | Now k => forall t, phased (k t) Q E s
  | Sleep _ _ | Timer true _ _ _ | Clear _ _ => False
  end.

Lemma phased_mono {A} (p : prog state A) (Q Q' : A -> state -> Prop) (E E' : error_obj -> state -> Prop) s :
  phased p Q E s -> (forall a s, Q a s -> Q' a s) -> (forall e s, E e s -> E' e s) -> phased p Q' E' s.
Proof.
  intros Hp HQ HE. revert s Hp.
  induction p as [A a|A e|A g k IH|A k IH|A c k IH|A ms k IH|A every ms body _ k IH|A id k IH|A k IH];
    simpl; intros s0 Hp; eauto.
  - destruct Hp as (H1 & H2 & H3). split_and!; eauto.
  - destruct every; [done |]. destruct Hp as [H1 H2]. eauto.
Qed.

Lemma phased_bind {A B} (p : prog state A) (f : A -> prog state B) Q E s :
  phased p (fun a s => phased (f a) Q E s) E s -> phased (p ≫= f) Q E s.
Proof.
  revert s. induction p as [A a|A e|A g k IH|A k IH|A c k IH|A ms k IH|A every ms body _ k IH|A id k IH|A k IH];
    simpl; intros s0 Hp; eauto.
  - destruct Hp as (H1 & H2 & H3). split_and!; eauto.
  - destruct every; [done |]. destruct Hp as [H1 H2]. eauto.
Qed.

Lemma phased_try {A} (p : prog state A) (h : error_obj -> prog state A) Q E s :
  phased p Q (fun e s => phased (h e) Q E s) s -> phased (try_catch p h) Q E s.
Proof.
  revert s. induction p as [A a|A e|A g k IH|A k IH|A c k IH|A ms k IH|A every ms body _ k IH|A id k IH|A k IH];
    simpl; intros s0 Hp; eauto.
  - destruct Hp as (H1 & H2 & H3). split_and!; eauto.
  - destruct every; [done |]. destruct Hp as [H1 H2]. eauto.
Qed.

(** A handler's program, which returns and throws into [End]. *)
Definition ends (p : prog state unit) (s : state) : Prop :=
  phased p (fun _ => End) (fun _ => End) s.

Lemma exec_ends p w :
  pending w [] -> ends p (st w) ->
  let w' := exec p w in
  ballots (sent w') = ballots (sent w)
  /\ ((End (st w') /\ pending w' [])
      \/ (Keep (st w') /\ exists i q k, pending w' [Waiting i q k]
            /\ forall o s', Keep s' -> ends (k o) s')).
Proof.
  unfold ends. revert w.
  induction p as [[]|e|f k IH|k IH|q k|ms k|every ms body k IH|id k IH|k IH]
    using prog_unit_ind; intros w Hw Hp; cbn [exec phased] in *.
  - auto.
  - auto.
  - by apply (IH (with_st (f (st w)) w)).
  - by apply IH.
  - destruct Hp as (HK & Hb & Hk). destruct Hw as (l1 & l2 & Ht & H1 & H2).
    unfold add_task. cbn. split.
    + unfold ballots in *. by rewrite flat_map_app, Hb, app_nil_r.
    + right. split; [done |]. exists (fresh w), q, k. split; [| done].
      exists (l1 ++ l2), []. cbn in Ht |- *. rewrite Ht. split_and!; [done | by apply Forall_app_2 | done].
  - done.
  - destruct every; [done |]. destruct Hp as [[m ->] Hk]. destruct Hw as (l1 & l2 & Ht & H1 & H2).
    specialize (IH (fresh w) (add_task (fun i => Timed i (now w + ms) None (upd (set_lcdMessage m))) [] w)).
    unfold add_task in IH |- *. cbn in IH |- *. rewrite !app_nil_r in IH |- *. apply IH; [| apply Hk].
    exists l1, (l2 ++ [Timed (fresh w) (now w + ms) None (upd (set_lcdMessage m))]). cbn in *.
    rewrite Ht, app_assoc. split_and!; [done | done |]. apply Forall_app_2; [done |].
    constructor; [| done]. by eexists _, _, _.
  - done.
  - by apply IH.
Qed.

(** A task that goes on, with any answer, to where the handler ends. *)
Definition resumes (t : task state) : Prop :=
  match t with Waiting _ _ k => forall o s', Keep s' -> ends (k o) s' | _ => False end.

Definition waits (X : list (task state)) : Prop := exists t, X = [t] /\ resumes t.
End Phased.

(** ** The tasks of a careful terminal *)

Lemma pending_drop w X id t :
  pending w X -> get_task id w = Some t ->
  pending (drop_task id w) (filter (fun x => negb (Nat.eqb (task_id x) id)) X) /\ (lcd_timer t \/ In t X).
Proof.
  intros (l1 & l2 & Ht & H1 & H2) [Hin _]%get_task_In. split.
  - exists (filter (fun x => negb (Nat.eqb (task_id x) id)) l1), (filter (fun x => negb (Nat.eqb (task_id x) id)) l2).
    unfold drop_task. cbn. rewrite Ht, !filter_app. split_and!; [done | by apply Forall_sub_filter..].
  - rewrite Ht in Hin. rewrite List.Forall_forall in H1, H2.
    apply in_app_or in Hin as [Hin|[Hin|Hin]%in_app_or]; auto.
Qed.

Lemma pending_none w id t :
  pending w [] -> get_task id w = Some t -> lcd_timer t /\ pending (drop_task id w) [].
Proof. intros Hp Hg. by destruct (pending_drop w [] id t Hp Hg) as [H [Hl|[]]]. Qed.

Lemma pending_one w x id t :
  wf w -> pending w [x] -> get_task id w = Some t ->
  (lcd_timer t /\ pending (drop_task id w) [x]) \/ (t = x /\ pending (drop_task id w) []).
Proof.
  intros [Hn _] Hp Hg. destruct (pending_drop w [x] id t Hp Hg) as [Hd Ho].
  apply get_task_In in Hg as [Hin <-]. destruct (Nat.eqb_spec (task_id x) (task_id t)) as [E|E].
  - right. rewrite filter_cons_False in Hd by (rewrite E, Nat.eqb_refl; auto). split; [| done].
    destruct Hp as (l1 & l2 & Ht & _ & _). apply (nodup_map_inj task_id (tasks w)); [done | done | | done].
    rewrite Ht. apply in_or_app. right. by left.
  - left. rewrite filter_cons_True in Hd by (apply Nat.eqb_neq in E; by rewrite E). split; [| done].
    by destruct Ho as [Ho|[->|[]]].
Qed.

Lemma pending_add w w' x : tasks w' = tasks w ++ [x] -> pending w [] -> pending w' [x].
Proof.
  intros E (l1 & l2 & Ht & H1 & H2). exists (l1 ++ l2), []. rewrite E. cbn in Ht |- *. rewrite Ht.
  split_and!; [done | by apply Forall_app_2 | done].
Qed.

(** ** The refinement relation *)

(** Nothing is diagnosed and the login form is closed. *)
Definition calm (s : state) : Prop := mounted s = true /\ isMockPoll s = false /\ showLogin s = false.

Definition booting (s : state) : Prop := calm s /\ evm s = IDLE.
Definition booted (s : state) : Prop := calm s /\ (evm s = READY \/ evm s = ERROR).
Definition authorising (n : Z) (s : state) : Prop := calm s /\ sequenceNumber s = n /\ evm s = READY.
Definition authorised (n : Z) (s : state) : Prop :=
  calm s /\ sequenceNumber s = n /\ (evm s = READY \/ evm s = CANDIDATE_SELECTION).

Definition retry_timer : prog state unit :=
  upd (set_evm CANDIDATE_SELECTION);; upd (set_lcdMessage "SELECT CANDIDATE").

(** What the terminal does with the answer to a ballot. *)
Definition recorded (o : outcome VoteResponse) : prog state unit :=
  match o with
  | Ok res =>
      upd (set_lastVoteHash (opt_or (vote_ballot_hash res) "TEST-HASH"));;
      upd (set_evm VOTE_COMPLETE);;
      upd (set_lcdMessage "VOTE RECORDED - VVPAT SLIP PRINTED");;
      upd (set_showVvpat true);;
      set_timeout 7000 slip_timer
  | Err _ => upd (set_lcdMessage "VOTE REJECTED");; set_timeout 3000 retry_timer
  end.

(** The task of a ballot on its way. *)
Definition records (session candidate : string) (n : Z) (t : task state) : Prop :=
  match t with
  | Waiting _ (One r) k =>
      match r as r return (outcome (resp r) -> prog state unit) -> Prop with
      | castVote s c d m => fun k =>
          (s, c, d, m) = (session, candidate, deviceId, n) /\ forall o, k o = recorded o
      | _ => fun _ => False
      end k
  | _ => False
  end.

(** The state and the tasks, display timers aside, of a unit's phase. *)
Definition shape (p : phase) (n : Z) (s : state) (X : list (task state)) : Prop :=
  match p with
  | Starting =>
      (mounted s = false /\ isMockPoll s = false /\ showLogin s = false /\ evm s = IDLE /\ X = [])
      \/ (booting s /\ waits booting booted X)
  | Broken => calm s /\ evm s = ERROR /\ X = []
  | Ready => mounted s = true /\ isMockPoll s = false /\ sequenceNumber s = n /\ evm s = READY /\ X = []
  | Authorising => authorising n s /\ waits (authorising n) (authorised n) X
  | Choosing => calm s /\ sequenceNumber s = n /\ selecting s = true /\ X = []
  | Casting session candidate =>
      calm s /\ sequenceNumber s = n /\ evm s = VOTE_SUBMITTED
      /\ exists t, X = [t] /\ records session candidate n t
  | Printing =>
      calm s /\ sequenceNumber s = n /\ evm s = VOTE_COMPLETE
      /\ exists i d, X = [Timed i d None slip_timer]
  | Refused =>
      calm s /\ sequenceNumber s = n /\ evm s = VOTE_SUBMITTED
      /\ exists i d, X = [Timed i d None retry_timer]
  end.

(** A world refines a unit. *)
Definition refines (w : world state) (u : ballot_unit) : Prop :=
  ballots (sent w) = bu_cast u
  /\ (bu_phase u = Starting -> bu_cast u = [])
  /\ exists X, pending w X /\ shape (bu_phase u) (bu_seq u) (st w) X.

(** ** Handlers *)

#[local] Hint Unfold init officer_election election_or_public with_candidates device_list
  booting booted authorising authorised calm ends : prog.

Ltac phase_auto :=
  wp_auto; repeat match goal with H : _ /\ _ |- _ => destruct H end; cbn in *; eauto with js.

(** A part of the initialisation before the device is known. *)
Definition boots {A} (p : prog state A) : Prop :=
  forall s, booting s -> phased booting p (fun _ => booting) (fun _ => booting) s.

Lemma boots_bind {A B} (p : prog state A) (f : A -> prog state B) Q E s :
  boots p -> booting s ->
  (forall a s', booting s' -> phased booting (f a) Q E s') -> (forall e s', booting s' -> E e s') ->
  phased booting (p ≫= f) Q E s.
Proof. intros Hp Hs Hf HE. apply phased_bind. eapply phased_mono; [by apply Hp | exact Hf | exact HE]. Qed.

Lemma boots_parts s0 :
  boots (officer_election electionId s0) /\ (forall d, boots (election_or_public electionId d))
  /\ (forall d, boots (with_candidates electionId d)) /\ boots (device_list electionId s0).
Proof. unfold boots. split_and!; intros; phase_auto. Qed.

Lemma init_ends s0 s : booting s -> ends booting booted (init electionId deviceId s0) s.
Proof.
  intros Hs. unfold ends. apply phased_try. destruct (boots_parts s0) as (P1 & P2 & P3 & P4).
  assert (forall (e : error_obj) s', booting s' ->
    phased booting (upd (set_evm ERROR);; upd (set_lcdMessage (str_or (e_message e) "INITIALIZATION FAILED")))
      (fun _ => booted) (fun _ => booted) s') as HE by (intros; phase_auto).
  apply boots_bind; [done | done | intros e1 s1 H1 | done].
  apply boots_bind; [done | done | intros e2 s2 H2 | done].
  apply boots_bind; [done | done | intros e3 s3 H3 | done].
  apply boots_bind; [by intros s' | done | intros [] s4 H4 | done].
  apply boots_bind; [done | done | intros ds s5 H5 | done].
  clear -H5. phase_auto.
Qed.

Lemma session_ends creds n s0 s :
  isMockPoll s0 = false -> authorising n s ->
  ends (authorising n) (authorised n) (handleInitSession electionId deviceId creds s0) s.
Proof. intros Hm Hs. phase_auto. Qed.

(** ** Simulation *)

(** The two states differ only in what the refinement does not look at. *)
Definition agrees (s s' : state) : Prop :=
  mounted s' = mounted s /\ isMockPoll s' = isMockPoll s /\ sequenceNumber s' = sequenceNumber s
  /\ evm s' = evm s /\ (showLogin s' = true -> showLogin s = true).

Lemma agrees_calm s s' : agrees s s' -> calm s -> calm s'.
Proof.
  intros (E1 & E2 & _ & _ & E5) (H1 & H2 & H3). unfold calm. rewrite E1, E2. split_and!; [done | done |].
  destruct (showLogin s'); [by rewrite E5 in H3 | done].
Qed.

Lemma shape_agrees p n s s' X : agrees s s' -> shape p n s X -> shape p n s' X.
Proof.
  intros Ha. pose proof (agrees_calm _ _ Ha) as Hc. destruct Ha as (E1 & E2 & E3 & E4 & E5).
  assert (showLogin s = false -> showLogin s' = false) as E6.
  { intros H. destruct (showLogin s'); [by rewrite E5 in H | done]. }
  destruct p; unfold shape, booting, authorising, selecting; rewrite ?E1, ?E2, ?E3, ?E4; try tauto; eauto;
    naive_solver.
Qed.

Lemma refines_agrees w w' u :
  sent w' = sent w -> tasks w' = tasks w -> agrees (st w) (st w') -> refines w u -> refines w' u.
Proof.
  intros E1 E2 Ha (H1 & H2 & X & H3 & H4). unfold refines, pending in *. rewrite E1, E2.
  split_and!; [done | done |]. exists X. split; [done |]. by apply (shape_agrees _ _ (st w)).
Qed.

(** The unit moves to the phase the terminal's state and tasks show. *)
Definition simulates (w' : world state) (u : ballot_unit) : Prop :=
  exists u', rtc unit_step u u' /\ refines w' u'.

Lemma simulates_stay w' u : refines w' u -> simulates w' u.
Proof. intros H. by exists u. Qed.

Lemma simulates_once w' u u' : unit_step u u' -> refines w' u' -> simulates w' u.
Proof. intros H1 H2. exists u'. split; [by apply rtc_once | done]. Qed.

Lemma boots_step w u p :
  bu_phase u = Starting -> bu_cast u = [] -> ballots (sent w) = bu_cast u -> pending w [] ->
  ends booting booted p (st w) -> simulates (exec p w) u.
Proof.
  intros Hu Hc Hb Hp He.
  destruct (exec_ends booting booted p w Hp He) as [Hs [[[H1 H2] H3]|[H1 (i & q & k & H2 & H3)]]].
  - destruct H2 as [H2|H2].
    + apply (simulates_once _ _ (mk_unit Ready (sequenceNumber (st (exec p w))) [] [])); [by constructor |].
      split_and!; cbn; [congruence | done |]. exists []. split; [done |]. destruct H1 as (? & ? & ?). by split_and!.
    + apply (simulates_once _ _ (set_phase Broken u)); [by constructor |].
      split_and!; cbn; [congruence | done |]. by exists [].
  - apply simulates_stay. split_and!; [congruence | done |]. exists [Waiting i q k]. split; [done |].
    rewrite Hu. right. split; [done |]. by eexists.
Qed.

Lemma session_step w u p :
  bu_phase u = Authorising -> ballots (sent w) = bu_cast u -> pending w [] ->
  ends (authorising (bu_seq u)) (authorised (bu_seq u)) p (st w) -> simulates (exec p w) u.
Proof.
  intros Hu Hb Hp He.
  destruct (exec_ends _ _ p w Hp He) as [Hs [[(H1 & H2 & H4) H3]|[H1 (i & q & k & H2 & H3)]]].
  - destruct H4 as [H4|H4].
    + apply (simulates_once _ _ (set_phase Ready u)); [by constructor |].
      split_and!; cbn; [congruence | done |]. exists []. split; [done |]. destruct H1 as (? & ? & ?). by split_and!.
    + apply (simulates_once _ _ (set_phase Choosing u)); [by constructor |].
      split_and!; cbn; [congruence | done |]. exists []. split; [done |]. unfold selecting.
      by rewrite H4.
  - apply simulates_stay. split_and!; [congruence | by rewrite Hu |]. exists [Waiting i q k]. split; [done |].
    rewrite Hu. split; [done |]. by eexists.
Qed.

(** The ballot is enabled: directly with a token, or from the login form. *)
Lemma authorise_step w u creds s0 :
  bu_phase u = Ready -> refines w u -> isMockPoll s0 = false -> showLogin (st w) = false ->
  simulates (exec (handleInitSession electionId deviceId creds s0) w) u.
Proof.
  intros Hu (Hb & _ & X & Hp & Hs) Hm Hl. rewrite Hu in Hs. destruct Hs as (H1 & H2 & H3 & H4 & ->).
  destruct (session_step w (set_phase Authorising u) (handleInitSession electionId deviceId creds s0))
    as (u' & Hr & Hw); [done | done | done | |].
  - apply session_ends; [done |]. by split_and!.
  - exists u'. split; [| done]. eapply rtc_l; [by apply us_authorise | done].
Qed.

Lemma selecting_evm s :
  selecting s = true <-> evm s = CANDIDATE_SELECTION \/ evm s = VOTE_CONFIRMED.
Proof. unfold selecting. by rewrite orb_true_iff, !bool_decide_eq_true. Qed.

(** What the terminal shows in a phase. *)
Definition shown_in (p : phase) (e : EvmState) : Prop :=
  match p with
  | Starting => e = IDLE
  | Broken => e = ERROR
  | Ready | Authorising => e = READY
  | Choosing => e = CANDIDATE_SELECTION \/ e = VOTE_CONFIRMED
  | Casting _ _ | Refused => e = VOTE_SUBMITTED
  | Printing => e = VOTE_COMPLETE
  end.

Lemma shape_public p n s X :
  shape p n s X ->
  shown_in p (evm s) /\ isMockPoll s = false /\ (p = Ready \/ showLogin s = false)
  /\ (p = Starting \/ mounted s = true) /\ (p = Starting \/ p = Broken \/ sequenceNumber s = n).
Proof.
  destruct p; cbn [shape].
  - intros [(H1 & H2 & H3 & H4 & _)|[[(H1 & H2 & H3) H4] _]]; cbn; auto 8.
  - intros ((H1 & H2 & H3) & H4 & _); cbn; auto 8.
  - intros (H1 & H2 & H3 & H4 & _); cbn; auto 8.
  - intros [((H1 & H2 & H3) & H4 & H5) _]; cbn; auto 8.
  - intros ((H1 & H2 & H3) & H4 & H5%selecting_evm & _); cbn; auto 8.
  - intros ((H1 & H2 & H3) & H4 & H5 & _); cbn; auto 8.
  - intros ((H1 & H2 & H3) & H4 & H5 & _); cbn; auto 8.
  - intros ((H1 & H2 & H3) & H4 & H5 & _); cbn; auto 8.
Qed.

(** What a user of the terminal sees of the unit. *)
Lemma refines_public w u :
  refines w u ->
  ballots (sent w) = bu_cast u /\ shown_in (bu_phase u) (evm (st w)) /\ isMockPoll (st w) = false
  /\ (bu_phase u = Ready \/ showLogin (st w) = false) /\ (bu_phase u = Starting \/ mounted (st w) = true)
  /\ (bu_phase u = Starting \/ bu_phase u = Broken \/ sequenceNumber (st w) = bu_seq u).
Proof. intros (Hb & _ & X & _ & Hs). split; [done |]. by apply (shape_public _ _ _ X). Qed.

Lemma selecting_phase w u :
  refines w u -> selecting (st w) = true ->
  bu_phase u = Choosing /\ calm (st w) /\ sequenceNumber (st w) = bu_seq u /\ pending w [].
Proof.
  intros Hr Hsel%selecting_evm. destruct (refines_public _ _ Hr) as (_ & He & _).
  destruct Hr as (_ & _ & X & Hp & Hs).
  assert (bu_phase u = Choosing) as Hu
    by (destruct (bu_phase u), Hsel as [E|E]; rewrite E in He; cbn in He; naive_solver).
  rewrite Hu in Hs. by destruct Hs as (Hc & Hn & _ & ->).
Qed.

Lemma ready_phase w u :
  refines w u -> evm (st w) = READY -> idle w = true -> bu_phase u = Ready.
Proof.
  intros Hr He Hi. destruct (refines_public _ _ Hr) as (_ & Hs & _). rewrite He in Hs.
  destruct Hr as (_ & _ & X & (l1 & l2 & Ht & _) & HX).
  destruct (bu_phase u) eqn:Hu; cbn in Hs; try naive_solver. exfalso.
  destruct HX as (_ & t & -> & Hk). rewrite idle_tasks in Hi.
  specialize (Hi t). rewrite Ht in Hi. destruct t; try done. discriminate Hi. apply in_or_app. right. by left.
Qed.

Lemma login_phase w u : refines w u -> showLogin (st w) = true -> bu_phase u = Ready.
Proof. intros Hr Hl. destruct (refines_public _ _ Hr) as (_ & _ & _ & [H|H] & _); congruence. Qed.

(** A click while the voter chooses, which sends nothing. *)
Lemma choosing_step w u s' :
  refines w u -> selecting (st w) = true ->
  calm s' -> sequenceNumber s' = sequenceNumber (st w) -> selecting s' = true ->
  simulates (with_st s' w) u.
Proof.
  intros Hr Hsel Hc Hn Hs'. destruct (selecting_phase _ _ Hr Hsel) as (Hu & _ & Hn' & Hp).
  destruct Hr as (Hb & _). apply simulates_stay. split_and!; [done | by rewrite Hu |].
  exists []. split; [done |]. rewrite Hu. unfold with_st, shape. cbn. by rewrite Hn.
Qed.

Lemma confirm_step w u :
  refines w u -> evm (st w) = VOTE_CONFIRMED -> simulates (exec (handleConfirm deviceId (st w)) w) u.
Proof.
  intros Hr He. assert (selecting (st w) = true) as Hsel by (unfold selecting; by rewrite He).
  destruct (selecting_phase _ _ Hr Hsel) as (Hu & Hc & Hn & Hp).
  unfold handleConfirm. rewrite He. cbn [negb bool_decide]. rewrite bool_decide_eq_true_2 by done. cbn [negb].
  destruct (selectedCandidate (st w)) as [c|]; [| by apply simulates_stay].
  destruct (truthy_str c); [cbn [negb] | by apply simulates_stay].
  destruct Hc as (Hm & Hi & Hl). rewrite Hi.
  destruct (sessionToken (st w)) as [se|]; [| by apply simulates_stay].
  destruct (truthy_str se); [| by apply simulates_stay].
  destruct Hr as (Hb & _). destruct Hp as (l1 & l2 & Ht & H1 & H2).
  eapply simulates_once; [by apply (us_cast u se c) |].
  unfold confirm_vote. cbn. unfold add_task, with_st. cbn. split_and!; cbn.
  - unfold ballots in *. rewrite flat_map_app, Hb. cbn. by rewrite Hn.
  - done.
  - eexists. split.
    + exists (l1 ++ l2), []. cbn in Ht |- *. rewrite Ht. rewrite app_nil_r.
      split_and!; [reflexivity | by apply Forall_app_2 | done].
    + split_and!; cbn; try done. eexists. split; [reflexivity |]. split; [by rewrite Hn |]. by intros [].
Qed.

Lemma user_step w u (e : ui) :
  refines w u -> careful w (User e) -> enabled e (st w) = true ->
  simulates (exec (on_ui electionId deviceId e (st w)) w) u.
Proof.
  intros Hr Hcare He. destruct e; cbn in He, Hcare; cbn [on_ui].
  - apply andb_true_iff in He as [Hl%negb_true_iff He%bool_decide_eq_true].
    pose proof (ready_phase _ _ Hr He Hcare) as Hu. unfold handleInit.
    assert (isMockPoll (st w) = false) as Hm.
    { by destruct (refines_public _ _ Hr) as (_ & _ & ? & _). }
    rewrite Hm, orb_false_r. destruct (truthy_opt (token (st w))); [by apply authorise_step |].
    destruct Hr as (Hb & _ & X & Hp & Hs). apply simulates_stay. split_and!; [done | by rewrite Hu |].
    exists X. split; [done |]. by rewrite Hu in Hs |- *.
  - pose proof (login_phase _ _ Hr He) as Hu. unfold handleLoginSubmit.
    destruct Hr as (Hb & H0 & X & Hp & Hs). rewrite Hu in Hs. destruct Hs as (H1 & H2 & H3 & H4 & ->).
    apply (authorise_step (with_st (set_showLogin false (st w)) w)); [done | | done | done].
    split_and!; [done | done |]. exists []. split; [done |]. by rewrite Hu.
  - apply simulates_stay. by apply (refines_agrees w).
  - apply simulates_stay. by apply (refines_agrees w).
  - apply simulates_stay. by apply (refines_agrees w).
  - apply simulates_stay. by apply (refines_agrees w).
  - apply andb_true_iff in He as [He _]. destruct (selecting_phase _ _ Hr He) as (_ & Hc & _).
    unfold handleCandidateSelect. rewrite <- negb_orb. fold (selecting (st w)). rewrite He.
    by apply (choosing_step w u).
  - apply bool_decide_eq_true in He. by apply confirm_step.
  - apply bool_decide_eq_true in He. unfold handleCancel. rewrite bool_decide_eq_true_2 by done.
    assert (selecting (st w) = true) as Hsel by (unfold selecting; by rewrite He).
    destruct (selecting_phase _ _ Hr Hsel) as (_ & Hc & _). by apply (choosing_step w u).
  - done.
  - destruct (refines_public _ _ Hr) as (_ & _ & H & _). congruence.
Qed.

(** A display timer changes nothing the relation sees. *)
Lemma lcd_step w id i d body u X :
  refines w u -> pending w X -> shape (bu_phase u) (bu_seq u) (st w) X ->
  lcd_timer (Timed i d None body) -> pending (drop_task id w) X ->
  simulates (exec body (drop_task id w)) u.
Proof.
  intros (Hb & H0 & _) _ Hs (j & d' & m & [= -> -> ->]) Hp. apply simulates_stay.
  split_and!; [done | done |]. exists X. split; [done |]. by apply (shape_agrees _ _ (st w)).
Qed.

Lemma recorded_step w u session candidate o :
  bu_phase u = Casting session candidate -> ballots (sent w) = bu_cast u ->
  calm (st w) -> sequenceNumber (st w) = bu_seq u -> evm (st w) = VOTE_SUBMITTED -> pending w [] ->
  simulates (exec (recorded o) w) u.
Proof.
  intros Hu Hb Hc Hn He Hp.
  destruct o as [res|e];
    [eapply simulates_once; [by eapply us_accept |] | eapply simulates_once; [by eapply us_refuse |]];
    cbn [recorded]; unfold refines; cbn; unfold add_task, with_st; cbn; rewrite app_nil_r;
    (split_and!; [done | done |]); (eexists; split; [by eapply pending_add |]); cbn;
    split_and!; eauto; apply Hc.
Qed.

Lemma reply_step w u id q k o :
  wf w -> refines w u -> get_task id w = Some (Waiting id q k) ->
  simulates (exec (k o) (drop_task id w)) u.
Proof.
  intros Hw Hr Hg. destruct Hr as (Hb & H0 & X & Hp & Hs).
  assert (forall t, ~ (lcd_timer (Waiting id q k) /\ t)) as Hno by (intros t [(? & ? & ? & E) _]; discriminate).
  assert (forall x, X = [x] -> x = Waiting id q k /\ pending (drop_task id w) []) as Hone.
  { intros x ->. destruct (pending_one w x id _ Hw Hp Hg) as [H|[<- H]]; [by destruct (Hno _ H) | done]. }
  destruct (bu_phase u) as [| | | | |se c| |] eqn:Hu; unfold shape in Hs.
  - destruct Hs as [(_ & _ & _ & _ & ->)|[Hboot (t & HX & Hk)]];
      [by destruct (Hno _ (pending_none _ _ _ Hp Hg)) |].
    destruct (Hone _ HX) as [-> Hp']. apply boots_step; [done | by apply H0 | done | done | by apply Hk].
  - destruct Hs as (_ & _ & ->). by destruct (Hno _ (pending_none _ _ _ Hp Hg)).
  - destruct Hs as (_ & _ & _ & _ & ->). by destruct (Hno _ (pending_none _ _ _ Hp Hg)).
  - destruct Hs as [Ha (t & HX & Hk)]. destruct (Hone _ HX) as [-> Hp'].
    apply session_step; [done | done | done | by apply Hk].
  - destruct Hs as (_ & _ & _ & ->). by destruct (Hno _ (pending_none _ _ _ Hp Hg)).
  - destruct Hs as (Hc & Hn & He & t & HX & Hk). destruct (Hone _ HX) as [-> Hp'].
    destruct q as [r| |]; [| done..]. destruct r; try done. destruct Hk as [_ Hk]. rewrite Hk.
    by apply (recorded_step _ u se c).
  - destruct Hs as (_ & _ & _ & i & d & HX). by destruct (Hone _ HX).
  - destruct Hs as (_ & _ & _ & i & d & HX). by destruct (Hone _ HX).
Qed.

(** Which task can fire: a display timer, or the one the phase waits for. *)
Lemma fire_step w w' u id :
  wf w -> refines w u -> step app w (Fire id) = Some w' -> simulates w' u.
Proof.
  intros Hw Hr Hstep. unfold step in Hstep. destruct Hr as (Hb & H0 & X & Hp & Hs).
  destruct (get_task id w) as [t|] eqn:Hg; [| done].
  assert (forall Y, pending (drop_task id w) Y -> X = Y -> lcd_timer t -> simulates w' u) as Hlcd.
  { intros Y Hp' <- Hl. pose proof Hl as (i & d & m & ->). destruct (may_fire id d w); [| done].
    injection Hstep as <-. apply (lcd_step w id i d (upd (set_lcdMessage m)) u X); try done. split_and!; eauto. }
  assert (forall x, X = [x] -> (lcd_timer t /\ pending (drop_task id w) [x]) \/ (t = x /\ pending (drop_task id w) []))
    as Hone by (intros x ->; by apply pending_one).
  assert (X = [] -> simulates w' u) as Hnone.
  { intros ->. destruct (pending_none _ _ _ Hp Hg). by eapply Hlcd. }
  assert (forall K E, waits K E X -> simulates w' u) as Hwaits.
  { intros K E (x & HX & Hk). destruct (Hone _ HX) as [[Hl Hp']|[-> _]]; [by eapply Hlcd |]. by destruct x. }
  destruct (bu_phase u) as [| | | | |se c| |] eqn:Hu; unfold shape in Hs.
  - destruct Hs as [(_ & _ & _ & _ & HX)|[_ HX]]; [by apply Hnone | by eapply Hwaits].
  - destruct Hs as (_ & _ & HX). by apply Hnone.
  - destruct Hs as (_ & _ & _ & _ & HX). by apply Hnone.
  - destruct Hs as [_ HX]. by eapply Hwaits.
  - destruct Hs as (_ & _ & _ & HX). by apply Hnone.
  - destruct Hs as (_ & _ & _ & x & HX & Hk).
    destruct (Hone _ HX) as [[Hl Hp']|[-> _]]; [by eapply Hlcd |]. by destruct x.
  - destruct Hs as (Hc & Hn & He & i & d & HX).
    destruct (Hone _ HX) as [[Hl Hp']|[-> Hp']]; [by eapply Hlcd |].
    destruct (may_fire id d w); [| done]. injection Hstep as <-.
    apply (simulates_once _ u _ (us_printed u Hu)). unfold refines. cbn.
    split_and!; [done | done |]. exists []. split; [done |]. rewrite Hn. by destruct Hc as (? & ? & ?).
  - destruct Hs as (Hc & Hn & He & i & d & HX).
    destruct (Hone _ HX) as [[Hl Hp']|[-> Hp']]; [by eapply Hlcd |].
    destruct (may_fire id d w); [| done]. injection Hstep as <-.
    apply (simulates_once _ u _ (us_retry u Hu)). unfold refines. cbn.
    split_and!; [done | done |]. by exists [].
Qed.

Lemma env_step w u (x : env) :
  refines w u -> careful w (Env x) -> simulates (exec (on_env app x (st w)) w) u.
Proof.
  intros Hr Hcare. destruct x; [| done]. cbn [on_env terminal on_surroundings].
  destruct (mounted (st w)) eqn:Hm; [by apply simulates_stay |].
  destruct (refines_public _ _ Hr) as (_ & _ & _ & _ & [Hu|H] & _); [| congruence].
  destruct Hr as (Hb & H0 & X & Hp & Hs). rewrite Hu in Hs.
  destruct Hs as [(_ & H2 & H3 & H4 & ->)|[[(H & _) _] _]]; [| congruence].
  apply (boots_step (with_st (set_mounted true (st w)) w)); [done | by apply H0 | done | done |].
  apply init_ends. by split_and!.
Qed.

(** One event of a careful terminal is a number of steps of the unit. *)
Lemma terminal_simulates w u e w' :
  wf w -> refines w u -> careful w e -> step app w e = Some w' -> simulates w' u.
Proof.
  intros Hw Hr Hcare Hstep. destruct e as [c|x|id answer|ms|id].
  - unfold step in Hstep. change (allows (React.render app (st w)) c) with (allows (render deviceId (st w)) c) in Hstep.
    rewrite allows_terminal in Hstep. destruct (enabled c (st w)) eqn:He; [| done].
    injection Hstep as <-. by apply user_step.
  - injection Hstep as <-. by apply env_step.
  - unfold step in Hstep. destruct (get_task id w) as [[i q k|i d k|i d o body]|] eqn:Hg; try done.
    injection Hstep as <-. assert (i = id) as -> by (by apply get_task_In in Hg as [_ ?]).
    by apply reply_step.
  - unfold step in Hstep. destruct (0 <=? ms); [| done]. injection Hstep as <-.
    apply simulates_stay. by apply (refines_agrees w).
  - by eapply fire_step.
Qed.

Lemma carefully_refines t w :
  carefully t w -> wf w /\ exists u, unit_reachable u /\ refines w u.
Proof.
  induction 1 as [|w e w' _ [Hw (u & Hu & Hr)] Hcare Hstep].
  - split; [by split; constructor |]. exists (mk_unit Starting 0 [] []). split; [by constructor |].
    split_and!; [done | done |]. exists []. split; [by exists [], [] |]. by left.
  - split; [by eapply wf_step |].
    destruct (terminal_simulates w u e w' Hw Hr Hcare Hstep) as (u' & Hrun & Hr').
    exists u'. split; [| done]. clear -Hu Hrun. induction Hrun; eauto using ur_step.
Qed.

(** C4. In careful use the terminal refines the ballot unit: whatever the interleaving of clicks,
    answers and timers, some reachable state of the unit has the phase the terminal shows, its
    sequence number, and has cast exactly the ballots the terminal has sent. They are sent in
    the order of their numbers, and those the unit has accepted carry different ones. *)
Theorem evm_refines_ballot_unit t w :
  carefully t w ->
  exists u, unit_reachable u /\ ballots (sent w) = bu_cast u
    /\ shown_in (bu_phase u) (evm (st w))
    /\ (bu_phase u = Starting \/ bu_phase u = Broken \/ sequenceNumber (st w) = bu_seq u)
    /\ StronglySorted Z.le (map number (ballots (sent w)))
    /\ StronglySorted Z.lt (map number (bu_ledger u)) /\ incl (bu_ledger u) (ballots (sent w)).
Proof.
  intros [_ (u & Hu & Hr)]%carefully_refines. exists u.
  destruct (refines_public _ _ Hr) as (Hb & He & _ & _ & _ & Hn). destruct (unit_sound _ Hu).
  rewrite Hb. by split_and!.
Qed.

(** A careful run of given events. *)
Fixpoint careful_run (w : world state) (es : list (event ui env)) : Prop :=
  match es with
  | [] => True
  | e :: es' => careful w e /\ match step app w e with Some w' => careful_run w' es' | None => False end
  end.

Lemma carefully_run t w es w' :
  carefully t w -> careful_run w es -> run app w es = Some w' -> carefully t w'.
Proof.
  revert w. induction es as [|e es IH]; intros w Hw Hc; cbn [run]; [by intros [= <-] |].
  destruct Hc as [He Hc]. destruct (step app w e) as [w1|] eqn:E; [| done].
  intros Hr. eapply (IH w1); [by eapply careful_step | done | done].
Qed.
End Refinement.
