(* ===== verification/EvmDemo.v ===== *)
(** * The EVM digital twin on a concrete election

    A polling day with one device and five candidates: the properties of [EvmTerminalFacts]
    at work, and runs that show what the diagnostic switch and the synthesised NOTA entry let
    through. *)
From S2P Require Import Prelude JsValue JsNumber Types ApiClient View React EvmTerminal EvmTerminalFacts EvmBallot.
From Stdlib Require Import String.
Import EvmTerminal.

Definition candidate (id name : string) (position : Z) : CandidateResponse :=
  {| c_id := id; c_name := name; c_party := None; c_symbol := None; c_position := position |}.

Definition slate : list CandidateResponse :=
  [candidate "C001" "Asha" 1; candidate "C002" "Bimal" 2; candidate "C003" "Chitra" 3;
   candidate "C004" "Devan" 4; candidate "C005" "Esha" 5].

Definition election (st : ElectionState) : ElectionResponse :=
  {| e_id := "E1"; e_title_name := None; e_title := Some "Demo"%string; e_description := None;
     e_state := st; e_configuration_hash := None; e_device_count := 1; e_ballot_count := 0;
     e_created_at := EmptyString; e_opened_at := None; e_closed_at := None;
     e_published_at := None; e_candidates := slate |}.

Definition device (st : DeviceStatus) : DeviceResponse :=
  {| d_id := "D1"; d_election_id := "E1"; d_name := "Booth"; d_status := st;
     d_device_hash := None; d_last_sequence_number := 41; d_total_votes_cast := 41;
     d_registered_at := EmptyString; d_activated_at := None; d_last_seen_at := None |}.

Definition session : SessionResponse :=
  {| s_id := "S1"; s_election_id := "E1"; s_device_id := "D1"; s_session_token := "SESSION";
     s_voter_credential := "VOTER"; s_status := "AUTHORIZED"; s_authorized_at := EmptyString;
     s_voted_at := None |}.

(** A backend with the election and the device in given states; it accepts or rejects
    ballots. *)
Definition backend (est : ElectionState) (dst : DeviceStatus) (accept : bool)
    (r : req) : outcome (resp r) :=
  match r as r return outcome (resp r) with
  | getElection _ _ => Ok (election est)
  | getDevices _ _ => Ok [device dst]
  | authorizeSession _ _ _ _ => Ok session
  | castVote _ _ _ _ =>
      if accept then Ok {| vote_ballot_hash := Some "abc"%string |}
      else Err (plain_error "Error" "sequence rejected")
  | _ => Err (plain_error "TypeError" "Failed to fetch")
  end.

Abbreviation evm_app := (terminal "E1" "D1").
Definition start : state := initial (Some "token"%string).

Definition day (es : list (event ui env)) : world state :=
  match run evm_app (boot start) es with Some w => w | None => boot (initial None) end.

Definition honest (id : nat) : event ui env := Reply id (answers (backend OPEN D_ACTIVE true)).
Definition rejecting (id : nat) : event ui env := Reply id (answers (backend OPEN D_ACTIVE false)).
Definition closed (id : nat) : event ui env := Reply id (answers (backend CLOSED D_SUSPENDED true)).

Definition setup : list (event ui env) := [Env Mount; honest 0; honest 1].
Definition choosing : list (event ui env) :=
  [User ClickInit; honest 2; User (ClickCandidate "C002")].
Definition ready : world state := Eval vm_compute in day setup.
Definition chosen : world state := Eval vm_compute in day (setup ++ choosing).
Definition voted : world state := day (setup ++ choosing ++ [User ClickConfirm; honest 3]).
Definition locked_day : world state := Eval vm_compute in day [Env Mount; closed 0; closed 1].
Definition diagnosed : world state := Eval vm_compute in
  day (setup ++ [User ClickToggle; User ClickInit; honest 2; User (ClickCandidate "C003")]).

Lemma reachable_day es :
  run evm_app (boot start) es <> None ->
  reachable evm_app (fun _ => True) start (day es).
Proof.
  unfold day. destruct (run evm_app (boot start) es) as [w|] eqn:E; [intros _ | done].
  eapply reachable_run; [constructor | | exact E]. by apply Forall_true.
Qed.

(** ** The properties at work *)

Ltac by_run := first [vm_compute; reflexivity | intros; reflexivity | discriminate].

Lemma evm_requests_justified_witness :
  exists s, In (s, castVote "SESSION" "C002" "D1" 42) (sent voted)
    /\ Sends "E1" "D1" s (castVote "SESSION" "C002" "D1" 42).
Proof.
  eexists. assert (Hin : In (_, castVote "SESSION" "C002" "D1" 42) (sent voted))
    by (vm_compute; do 3 right; left; reflexivity).
  split; [exact Hin |].
  exact (evm_requests_justified "E1" "D1" (Some "token"%string) voted _ _
           (reachable_day (setup ++ choosing ++ [User ClickConfirm; honest 3]) ltac:(vm_compute; discriminate)) Hin).
Defined.

Lemma evm_state_invariant_witness : showVvpat (st voted) = true /\ Inv "D1" (st voted).
Proof.
  split; [vm_compute; reflexivity |].
  apply (evm_state_invariant "E1" "D1" (Some "token"%string)).
  apply (reachable_day (setup ++ choosing ++ [User ClickConfirm; honest 3])). vm_compute. discriminate.
Defined.

Lemma evm_voting_cycle_witness :
  exists w1 w2,
    run evm_app ready
      [User ClickInit; honest 2; User (ClickCandidate "C002"); User ClickConfirm; honest 3] = Some w1
    /\ run evm_app w1 [Tick 7000; Fire 4] = Some w2
    /\ evm (st w2) = READY /\ sequenceNumber (st w2) = 43.
Proof.
  destruct (evm_voting_cycle "E1" "D1" ready "C002" session {| vote_ballot_hash := Some "abc"%string |}
              (answers (backend OPEN D_ACTIVE true)) (answers (backend OPEN D_ACTIVE true)))
    as (w1 & w2 & H1 & _ & _ & _ & H2 & H3 & _ & _ & _ & _ & H4 & _); try by_run.
  exists w1, w2. split; [exact H1 |]. split; [exact H2 |]. split; [exact H3 | exact H4].
Defined.

Lemma evm_rejected_vote_retried_witness :
  exists w1 w2, run evm_app chosen [User ClickConfirm; rejecting 3] = Some w1
    /\ run evm_app w1 [Tick 3000; Fire 4] = Some w2
    /\ evm (st w2) = CANDIDATE_SELECTION /\ sequenceNumber (st w2) = 42.
Proof.
  destruct (evm_rejected_vote_retried "E1" "D1" chosen "SESSION" "C002"
              (answers (backend OPEN D_ACTIVE false)) (plain_error "Error" "sequence rejected"))
    as (w1 & w2 & H1 & _ & _ & _ & _ & _ & H2 & H3 & _ & _ & _ & H4 & _); try by_run.
  exists w1, w2. split; [exact H1 |]. split; [exact H2 |]. split; [exact H3 | exact H4].
Defined.

Lemma evm_error_is_terminal_witness :
  exists w, run evm_app (boot (st locked_day)) [User (TypeUsername "x")] = None
    /\ run evm_app (boot (st locked_day)) [Env Mount; Tick 5000] = Some w
    /\ evm (st w) = ERROR /\ sent w = [].
Proof.
  eexists. split; [vm_compute; reflexivity |]. split; [vm_compute; reflexivity |].
  apply (evm_error_is_terminal "E1" "D1" (st locked_day)); [by vm_compute |].
  eapply (reachable_run _ _ _ _ [Env Mount; Tick 5000]); [constructor | by repeat constructor |].
  vm_compute. reflexivity.
Defined.

Lemma evm_diagnostic_votes_are_local_witness :
  exists w', run evm_app diagnosed [User ClickConfirm] = Some w'
    /\ mockVotes (st w') !! "C003"%string = Some 1 /\ sent w' = sent diagnosed.
Proof.
  destruct (evm_diagnostic_votes_are_local "E1" "D1" diagnosed "C003")
    as (w' & H1 & H2 & _ & _ & H3 & _); try by_run.
  exists w'. split; [exact H1 |]. split; [exact H3 | exact H2].
Defined.

(** A vote, then one that is rejected and cast again. *)
Definition two_voters : list (event ui env) :=
  setup ++ choosing ++ [User ClickConfirm; honest 3; Tick 7000; Fire 4; User ClickInit; honest 5;
    User (ClickCandidate "C001"); User ClickConfirm; rejecting 6; Tick 3000; Fire 7;
    User (ClickCandidate "C003"); User ClickConfirm; honest 8].

Lemma evm_refines_ballot_unit_witness :
  exists u, unit_reachable u /\ shown_in (bu_phase u) VOTE_COMPLETE
    /\ bu_cast u = [(42, "SESSION", "C002"); (43, "SESSION", "C001"); (43, "SESSION", "C003")]%string.
Proof.
  assert (carefully "E1" "D1" (Some "token"%string) (day two_voters)) as Hc.
  { eapply (carefully_run "E1" "D1" _ (boot start) two_voters); [constructor | vm_compute; by split_and! |].
    vm_compute. reflexivity. }
  destruct (evm_refines_ballot_unit "E1" "D1" _ _ Hc) as (u & Hu & Hb & He & _).
  exists u. split; [exact Hu |]. split; [exact He |]. rewrite <- Hb. vm_compute. reflexivity.
Defined.

(** ** What the diagnostic switch lets through *)

(** After an initialisation refused with POLLING_CLOSED, switching diagnostic mode on and
    off leaves the terminal READY, and it sends a ballot for the closed poll. *)
Theorem diagnostic_switch_reopens_closed_poll :
  let w := day [Env Mount; closed 0; closed 1; User ClickToggle; User ClickToggle;
                User ClickInit; closed 2; User (ClickCandidate "C001"); User ClickConfirm] in
  option_map ed_state (EvmTerminal.election (st w)) = Some "CLOSED"%string
  /\ option_map d_status (EvmTerminal.device (st w)) = Some D_SUSPENDED
  /\ In (castVote "SESSION" "C001" "D1" 42) (map snd (sent w)).
Proof. vm_compute. split_and!; try reflexivity. do 3 right. by left. Qed.

(** Switching while a ballot is being recorded allows a second ballot with the same
    sequence number. *)
Theorem diagnostic_switch_repeats_sequence_number :
  let w := day (setup ++ choosing ++ [User ClickConfirm; User ClickToggle; User ClickToggle;
                 User ClickInit; honest 4; User (ClickCandidate "C001"); User ClickConfirm]) in
  map snd (skipn 3 (sent w))
  = [castVote "SESSION" "C002" "D1" 42;
     authorizeSession "E1" "VOTER-EVM-0" "D1" (Some "token"%string);
     castVote "SESSION" "C001" "D1" 42].
Proof. vm_compute. reflexivity. Qed.

(** The diagnostic banner promises that nothing reaches the backend, but with a token the
    ballot button still authorises a voting session there. *)
Theorem diagnostic_mode_authorises_sessions :
  In (authorizeSession "E1" "VOTER-EVM-0" "D1" (Some "token"%string)) (map snd (sent diagnosed))
  /\ isMockPoll (st diagnosed) = true
  /\ shows (render "D1" (st diagnosed))
       "Local-only test interaction - No ballot is persisted to the election backend" = true.
Proof. vm_compute. split_and!; try reflexivity. do 2 right. by left. Qed.

(** The NOTA entry the terminal adds to a slate without one has the identifier C005. With
    five candidates numbered as the backend numbers them, pressing NOTA selects the fifth
    candidate: the ballot is theirs and the slip shows their name. *)
Theorem nota_button_votes_for_fifth_candidate :
  let w := day (setup ++ [User ClickInit; honest 2; User (ClickCandidate (c_id (nota 6)));
                          User ClickConfirm; honest 3]) in
  map c_name (candidateSlate (st w))
  = ["Asha"; "Bimal"; "Chitra"; "Devan"; "Esha"; "None of the Above (NOTA)"]%string
  /\ In (castVote "SESSION" "C005" "D1" 42) (map snd (sent w))
  /\ option_map c_name (selectedCandData (st w)) = Some "Esha"%string.
Proof. vm_compute. split_and!; try reflexivity. do 3 right. by left. Qed.

(** The ballot button stays enabled until its answer comes. Pressed twice it has two sessions
    authorised; the second answer reopens the choice while the first ballot is on its way,
    and a second ballot goes out with the same sequence number. *)
Theorem double_authorisation_repeats_sequence_number :
  exists w, run evm_app (boot start)
      (setup ++ [User ClickInit; User ClickInit; honest 2; User (ClickCandidate "C002");
                 User ClickConfirm; honest 3; User (ClickCandidate "C003"); User ClickConfirm]) = Some w
    /\ isMockPoll (st w) = false
    /\ map snd (skipn 4 (sent w)) = [castVote "SESSION" "C002" "D1" 42; castVote "SESSION" "C003" "D1" 42].
Proof. apply run_witness. vm_compute. by split_and!. Qed.
