(* ===== verification/VvpatSlip.v ===== *)
(** * The paper slip's countdown: [components/evm/VVPATSlip.tsx]

    The slip counts the seconds left of its viewing window with an interval of its own, from
    mounting to unmounting; what it shows is [EvmTerminal.VVPATSlip]. *)
From S2P Require Import Prelude JsValue JsNumber Types ApiClient View React Timeouts Intervals EvmTerminal.
From Stdlib Require Import String.

Module VvpatSlip.

(** [interval] is the identifier the cleanup of the effect captured. *)
(*@ dashboard/components/evm/VVPATSlip.tsx 16 16 VVPATSlip *)
Record state := mk_state {
  mounted : bool;
  interval : option nat;
  secondsRemaining : Z }.

Definition set_mounted (v : bool) (s : state) : state := mk_state v (interval s) (secondsRemaining s).
Definition set_interval (v : option nat) (s : state) : state := mk_state (mounted s) v (secondsRemaining s).
Definition set_secondsRemaining (v : Z) (s : state) : state := mk_state (mounted s) (interval s) v.

Definition initial : state := mk_state false None 7.

(*@ dashboard/components/evm/VVPATSlip.tsx 20 20 setSecondsRemaining *)
Definition tick : prog state unit :=
  upd (fun prev => set_secondsRemaining
         (if 1 <? secondsRemaining prev then secondsRemaining prev - 1 else 1) prev).

Inductive env := Mount | Unmount.

(*@ dashboard/components/evm/VVPATSlip.tsx 18 23 useEffect *)
Definition on_surroundings (x : env) (s : state) : prog state unit :=
  match x with
  | Mount =>
      if mounted s then mret tt
      else upd (set_mounted true);;
           Timer true 1000 tick (fun id => upd (set_interval (Some id)))
  | Unmount =>
      if mounted s
      then upd (set_mounted false);;
           match interval s with
           | Some id => Clear id (upd (set_interval None))
           | None => mret tt
           end
      else mret tt
  end.

(** A part of the terminal's page that offers its user nothing. *)
Definition slip (candidate : CandidateResponse) (hash : string) (mock : bool) :
    component state EvmTerminal.ui env :=
  mk_component (fun s => EvmTerminal.VVPATSlip candidate hash mock (secondsRemaining s))
    (fun _ _ => mret tt) on_surroundings.
End VvpatSlip.

Import VvpatSlip.

#[export] Hint Unfold on_surroundings tick : prog.

Section Slip.
Context (candidate : CandidateResponse) (hash : string) (mock : bool).

Abbreviation app := (slip candidate hash mock).

(** The running intervals and the state. *)
Definition counting (T : list nat) (s : state) : Prop :=
  1 <= secondsRemaining s <= 7
  /\ if mounted s then exists id, interval s = Some id /\ T = [id] else interval s = None /\ T = [].

Lemma slip_ticking : ticking_component app counting (fun _ => True).
Proof.
  split; [done |]. intros x T s _ [Hs HT]. unfold slip. cbn [on_env].
  destruct x; cbn [on_surroundings]; destruct (mounted s) eqn:Em.
  - cbn. split; [done |]. by rewrite Em.
  - destruct HT as [Hi ->]. cbn. split.
    + intros T' s' [Hs' HT']. split; [| by cbn]. cbn. destruct (Z.ltb_spec 1 (secondsRemaining s')); lia.
    + intros id _. split; [done |]. by exists id.
  - destruct HT as (id & Hi & ->). cbn. rewrite Hi. cbn. split; [done |]. by rewrite Nat.eqb_refl.
  - cbn. split; [done |]. by rewrite Em.
Qed.

(** In every interleaving the countdown stays between 7 and 1, and exactly one interval runs
    while the slip is mounted, none otherwise. *)
Theorem slip_countdown_bounded w :
  reachable app (fun _ => True) initial w ->
  1 <= secondsRemaining (st w) <= 7
  /\ List.length (intervals_of (tasks w)) = (if mounted (st w) then 1 else 0)%nat.
Proof.
  intros Hw.
  destruct (reachable_related app counting (fun _ => True) initial w slip_ticking) as [Hs HT]; [by split | done |].
  split; [done |]. destruct (mounted (st w)); [by destruct HT as (id & _ & ->) | by destruct HT as [_ ->]].
Qed.

(** [k] seconds. *)
Fixpoint seconds (id k : nat) : list (event EvmTerminal.ui env) :=
  match k with O => [] | S k' => [Tick 1000; Fire id] ++ seconds id k' end.

Lemma run_seconds k : forall s n f i d snt unc, d = n + 1000 ->
  exists w, run app (mk_world s n f [Timed i d (Some 1000) tick] snt unc) (seconds i k) = Some w
    /\ secondsRemaining (st w) = (if 1 <=? secondsRemaining s then Z.max 1 (secondsRemaining s - Z.of_nat k)
                                  else if (k =? 0)%nat then secondsRemaining s else 1)
    /\ now w = n + 1000 * Z.of_nat k.
Proof.
  induction k as [|k IH]; intros s n f i d snt unc ->.
  - eexists. split; [reflexivity |]. cbn. split; [destruct (Z.leb_spec 1 (secondsRemaining s)); lia | lia].
  - change (seconds i (S k)) with ([Tick 1000; Fire i] ++ seconds i k). cbn [Datatypes.app].
    rewrite run_cons, step_tick by lia. cbn -[run step seconds]. rewrite run_cons.
    erewrite step_interval_single by (first [reflexivity | cbn; lia]). cbn -[run step seconds].
    destruct (IH (set_secondsRemaining (if 1 <? secondsRemaining s then secondsRemaining s - 1 else 1) s)
                (n + 1000) f i (n + 1000 + 1000) snt unc eq_refl) as (w & H1 & H2 & H3).
    exists w. split; [exact H1 |]. split; [| rewrite H3; lia]. rewrite H2. cbn.
    destruct (Z.ltb_spec 1 (secondsRemaining s)), (Z.leb_spec 1 (secondsRemaining s)); try lia;
      destruct (Z.leb_spec 1 (secondsRemaining s - 1)); try lia; destruct (Nat.eqb_spec k 0); cbn; lia.
Qed.

(** [k] seconds after mounting the slip shows the whole seconds left of the seven, but never
    fewer than one. *)
Theorem slip_counts_down k :
  exists w, run app (boot initial) (Env Mount :: seconds 0 k) = Some w
    /\ secondsRemaining (st w) = Z.max 1 (7 - Z.of_nat k) /\ now w = 1000 * Z.of_nat k.
Proof.
  destruct (run_seconds k (set_interval (Some 0%nat) (set_mounted true initial)) 0 1 0 1000 [] [] eq_refl)
    as (w & H1 & H2 & H3).
  exists w. split; [exact H1 |]. split; [exact H2 | exact H3].
Qed.
End Slip.

Lemma slip_countdown_bounded_witness :
  exists w, run (slip (EvmTerminal.nota 5) "abc" false) (boot initial) (Env Mount :: seconds 0 9) = Some w
    /\ 1 <= secondsRemaining (st w) <= 7.
Proof.
  eexists. split; [vm_compute; reflexivity |].
  apply (slip_countdown_bounded (EvmTerminal.nota 5) "abc" false).
  eapply (reachable_run _ (fun _ => True) initial (boot initial) (Env Mount :: seconds 0 9));
    [constructor | by apply Forall_true | vm_compute; reflexivity].
Defined.
