(* ===== verification/EvmLauncher.v ===== *)
(** * The launcher of the terminal: [app/(evm)/evm/page.tsx], [app/(evm)/evm/\[deviceId\]/page.tsx]

    Elections that are OPEN, the devices of the one selected, seeding of the demonstration
    election, and the route that opens [EvmTerminal] for the pair chosen. *)
From S2P Require Import Prelude JsValue JsNumber Types ApiClient View React EvmTerminal.
From Stdlib Require Import String Ascii.

Module EvmLauncher.

(** An entry of the list, from either source. *)
Record LauncherElection := {
  le_id : string; le_title : option string; le_name : option string; le_state : string }.

Definition of_officer (e : ElectionResponse) : LauncherElection :=
  {| le_id := e_id e; le_title := e_title e; le_name := e_title_name e;
     le_state := election_state_str (e_state e) |}.

(*@ dashboard/app/(evm)/evm/page.tsx 35 42 fetchElections *)
Definition of_public (e : TransparencyOverview) : LauncherElection :=
  {| le_id := t_election_id e; le_title := Some (t_election_name e);
     le_name := Some (t_election_name e); le_state := t_state e |}.

(** [ran] are the dependencies the device effect last ran with, [pushed] the navigations asked
    of the router. *)
(*@ dashboard/app/(evm)/evm/page.tsx 11 19 EvmLauncher *)
Record state := mk_state {
  token : option string;
  mounted : bool;
  elections : list LauncherElection;
  selectedElectionId : string;
  devices : list DeviceResponse;
  selectedDeviceId : string;
  loading : bool;
  seeding : bool;
  feedbackMsg : option string;
  ran : option (string * option string);
  pushed : list string }.

Definition set_token (v : option string) (s : state) : state :=
  mk_state v (mounted s) (elections s) (selectedElectionId s) (devices s) (selectedDeviceId s)
    (loading s) (seeding s) (feedbackMsg s) (ran s) (pushed s).
Definition set_mounted (v : bool) (s : state) : state :=
  mk_state (token s) v (elections s) (selectedElectionId s) (devices s) (selectedDeviceId s)
    (loading s) (seeding s) (feedbackMsg s) (ran s) (pushed s).
Definition set_elections (v : list LauncherElection) (s : state) : state :=
  mk_state (token s) (mounted s) v (selectedElectionId s) (devices s) (selectedDeviceId s)
    (loading s) (seeding s) (feedbackMsg s) (ran s) (pushed s).
Definition set_selectedElectionId (v : string) (s : state) : state :=
  mk_state (token s) (mounted s) (elections s) v (devices s) (selectedDeviceId s) (loading s)
    (seeding s) (feedbackMsg s) (ran s) (pushed s).
Definition set_devices (v : list DeviceResponse) (s : state) : state :=
  mk_state (token s) (mounted s) (elections s) (selectedElectionId s) v (selectedDeviceId s)
    (loading s) (seeding s) (feedbackMsg s) (ran s) (pushed s).
Definition set_selectedDeviceId (v : string) (s : state) : state :=
  mk_state (token s) (mounted s) (elections s) (selectedElectionId s) (devices s) v (loading s)
    (seeding s) (feedbackMsg s) (ran s) (pushed s).
Definition set_loading (v : bool) (s : state) : state :=
  mk_state (token s) (mounted s) (elections s) (selectedElectionId s) (devices s)
    (selectedDeviceId s) v (seeding s) (feedbackMsg s) (ran s) (pushed s).
Definition set_seeding (v : bool) (s : state) : state :=
  mk_state (token s) (mounted s) (elections s) (selectedElectionId s) (devices s)
    (selectedDeviceId s) (loading s) v (feedbackMsg s) (ran s) (pushed s).
Definition set_feedbackMsg (v : option string) (s : state) : state :=
  mk_state (token s) (mounted s) (elections s) (selectedElectionId s) (devices s)
    (selectedDeviceId s) (loading s) (seeding s) v (ran s) (pushed s).
Definition set_ran (v : option (string * option string)) (s : state) : state :=
  mk_state (token s) (mounted s) (elections s) (selectedElectionId s) (devices s)
    (selectedDeviceId s) (loading s) (seeding s) (feedbackMsg s) v (pushed s).
Definition set_pushed (v : list string) (s : state) : state :=
  mk_state (token s) (mounted s) (elections s) (selectedElectionId s) (devices s)
    (selectedDeviceId s) (loading s) (seeding s) (feedbackMsg s) (ran s) v.

(*@ dashboard/app/(evm)/evm/page.tsx 11 19 EvmLauncher *)
Definition initial (t : option string) : state :=
  mk_state t false [] EmptyString [] EmptyString true false None None [].

Abbreviation M := (prog state).

(*@ dashboard/app/(evm)/evm/page.tsx 24 43 fetchElections *)
Definition open_elections (s : state) : M (list LauncherElection) :=
  list ← (if truthy_opt (token s)
          then try_catch
                 (data ← await (getElections (token s));
                  mret (map of_officer (List.filter (fun e => bool_decide (e_state e = OPEN)) data)))
                 (fun _ => mret [])
          else mret []);
  match list with
  | [] =>
      publicData ← await getTransparencyElections;
      mret (map of_public (List.filter (fun e => String.eqb (t_state e) "OPEN") publicData))
  | _ => mret list
  end.

(*@ dashboard/app/(evm)/evm/page.tsx 21 53 fetchElections *)
Definition fetchElections (s : state) : M unit :=
  finally
    (try_catch
       (upd (set_loading true);;
        list ← open_elections s;
        upd (set_elections list);;
        match list with
        | first :: _ =>
            upd (fun prev => set_selectedElectionId (str_or (selectedElectionId prev) (le_id first)) prev)
        | [] => mret tt
        end)
       (fun _ => mret tt))
    (upd (set_loading false)).

(** [devs.find(d => d.status === "ACTIVE") || devs[0]]. *)
(*@ dashboard/app/(evm)/evm/page.tsx 79 79 activeDev *)
Definition activeDev (devs : list DeviceResponse) : option DeviceResponse :=
  match find_first (fun d => bool_decide (d_status d = D_ACTIVE)) devs with
  | Some d => Some d
  | None => head devs
  end.

(*@ dashboard/app/(evm)/evm/page.tsx 59 87 useEffect *)
Definition fetchDevices (s : state) : M unit :=
  if negb (truthy_str (selectedElectionId s)) then upd (set_devices [])
  else
    try_catch
      (devs ← (if truthy_opt (token s)
               then try_catch (await (getDevices (selectedElectionId s) (token s))) (fun _ => mret [])
               else mret []);
       devs ← match devs with
              | [] => await (getTransparencyDevices (selectedElectionId s))
              | _ => mret devs
              end;
       upd (set_devices devs);;
       match activeDev devs with
       | Some active =>
           upd (fun prev => set_selectedDeviceId (str_or (selectedDeviceId prev) (d_id active)) prev)
       | None => mret tt
       end)
      (fun _ => mret tt).

(*@ dashboard/app/(evm)/evm/page.tsx 89 103 handleSeedDemo *)
Definition handleSeedDemo (reset : bool) (s : state) : M unit :=
  finally
    (try_catch
       (upd (set_seeding true);;
        upd (set_feedbackMsg (Some (if reset then "Resetting and seeding demo election (EV-2026-001)..."
                                    else "Seeding deterministic demo election (EV-2026-001)...")%string));;
        await (seedDemoElection (token s) reset);;
        upd (set_feedbackMsg (Some "Demo election seeded successfully! Loading devices..."%string));;
        fetchElections s;;
        upd (set_selectedElectionId "EV-2026-001");;
        set_timeout 4000 (upd (set_feedbackMsg None)))
       (fun err => upd (set_feedbackMsg (Some ("Seeding failed: " ++s str_or (e_message err) "Unknown error")))))
    (upd (set_seeding false)).

(*@ dashboard/app/(evm)/evm/page.tsx 107 107 handleLaunch *)
Definition launch_url (deviceId electionId : string) : string :=
  "/evm/" ++s deviceId ++s "?election=" ++s electionId.

(*@ dashboard/app/(evm)/evm/page.tsx 105 109 handleLaunch *)
Definition handleLaunch (s : state) : M unit :=
  if truthy_str (selectedDeviceId s) && truthy_str (selectedElectionId s)
  then upd (fun prev => set_pushed (pushed prev ++ [launch_url (selectedDeviceId s) (selectedElectionId s)]) prev)
  else mret tt.

Inductive ui :=
| ClickSeed (reset : bool) | SelectElection (v : string) | SelectDevice (v : string) | ClickLaunch.

#[export] Instance ui_eq_dec : EqDecision ui. Proof. solve_decision. Defined.

(** [Effect]: the device effect after a render whose dependencies changed. *)
Inductive env := Mount | TokenChanged (t : option string) | Effect.

(*@ dashboard/app/(evm)/evm/page.tsx 141 223 onClick/onChange *)
Definition on_ui (u : ui) (s : state) : M unit :=
  match u with
  | ClickSeed reset => handleSeedDemo reset s
  | SelectElection v => upd (set_selectedElectionId v);; upd (set_selectedDeviceId EmptyString)
  | SelectDevice v => upd (set_selectedDeviceId v)
  | ClickLaunch => handleLaunch s
  end.

(*@ dashboard/app/(evm)/evm/page.tsx 55 87 useEffect *)
Definition on_surroundings (x : env) (s : state) : M unit :=
  match x with
  | Mount => if mounted s then mret tt else upd (set_mounted true);; fetchElections s
  | TokenChanged t =>
      if bool_decide (token s = t) then mret tt
      else upd (set_token t);; if mounted s then fetchElections (set_token t s) else mret tt
  | Effect =>
      let deps := (selectedElectionId s, token s) in
      if negb (mounted s) || bool_decide (ran s = Some deps) then mret tt
      else upd (set_ran (Some deps));; fetchDevices s
  end.

(** ** The page *)

(*@ dashboard/app/(evm)/evm/page.tsx 111 111 selectedDevice *)
Definition selectedDevice (s : state) : option DeviceResponse :=
  find_first (fun d => String.eqb (d_id d) (selectedDeviceId s)) (devices s).

(*@ dashboard/app/(evm)/evm/page.tsx 155 225 EvmLauncher *)
Definition pickers (s : state) : list (node ui) :=
  [Text "Select Election";
   Button (if seeding s then "Seeding..." else "Reset / Re-seed Demo") (seeding s) (ClickSeed true);
   Select (selectedElectionId s)
     ((EmptyString, "-- Choose Election --"%string)
      :: map (fun e => (le_id e, opt_or (le_title e) (opt_or (le_name e) (le_id e))
                                 ++s " (" ++s le_state e ++s ")")) (elections s)) false SelectElection]
  ++ when (truthy_str (selectedElectionId s))
       [Text "Select Device";
        Select (selectedDeviceId s)
          ((EmptyString, "-- Choose Device --"%string)
           :: map (fun d => (d_id d, d_name d ++s " (" ++s device_status_str (d_status d) ++s ")")) (devices s))
          false SelectDevice]
  ++ match selectedDevice s with
     | Some d =>
         [Text "Device ID:"; Text (d_id d); Text "Status:";
          Box (if bool_decide (d_status d = D_ACTIVE) then "emerald" else "amber")
            [Text (device_status_str (d_status d))];
          Text "Last Sequence:"; Text (Z_to_string (d_last_sequence_number d))]
     | None => []
     end
  ++ [Button "LAUNCH EVM TERMINAL"
        (negb (truthy_str (selectedDeviceId s)) || negb (truthy_str (selectedElectionId s))) ClickLaunch].

(*@ dashboard/app/(evm)/evm/page.tsx 113 229 EvmLauncher *)
Definition render (s : state) : list (node ui) :=
  [Text "EVM Launcher"; Text "EVM DIGITAL TWIN - SIMULATION"]
  ++ match feedbackMsg s with Some m => when (truthy_str m) [Text m] | None => [] end
  ++ (if loading s then [Text "Loading elections..."]
      else match elections s with
           | [] =>
               [Text "No Active Simulation Elections Found";
                Text "To launch the EVM terminal, an election must be in OPEN state with active ballot units.";
                Button "Seed Demo Election (EV-2026-001)" (seeding s) (ClickSeed false)]
           | _ => pickers s
           end).

Definition launcher : component state ui env := mk_component render on_ui on_surroundings.

(** ** The route of the terminal *)

(** Splits at the first [c]; without one the second part is [None]. *)
Fixpoint cut (c : ascii) (s : string) : string * option string :=
  match s with
  | EmptyString => (EmptyString, None)
  | String a s' => if Ascii.eqb a c then (EmptyString, Some s')
                   else let (x, y) := cut c s' in (String a x, y)
  end.

(** [+] is a space in a query. *)
Fixpoint plus_to_space (s : string) : string :=
  match s with
  | EmptyString => EmptyString
  | String a s' => String (if Ascii.eqb a "+" then " "%char else a) (plus_to_space s')
  end.

Fixpoint query_get (fuel : nat) (key query : string) : option string :=
  match fuel with
  | O => None
  | S n =>
      let (pair, rest) := cut "&" query in
      let (k, v) := cut "=" pair in
      if String.eqb (decodeURIComponent (plus_to_space k)) key
      then Some (decodeURIComponent (plus_to_space (default EmptyString v)))
      else match rest with Some r => query_get n key r | None => None end
  end.

(** [searchParams.get(key)] of a URL; a query has fewer pairs than characters, and one. *)
Definition search_get (key url : string) : option string :=
  let (without_fragment, _) := cut "#" url in
  match snd (cut "?" without_fragment) with
  | Some query => query_get (S (String.length query)) key query
  | None => None
  end.

(** The terminal the route opens, or the text that the election is missing. *)
(*@ dashboard/app/(evm)/evm/[deviceId]/page.tsx 7 20 EvmTerminalWrapper *)
Definition EvmTerminalWrapper (deviceId url : string) :
    string + component EvmTerminal.state EvmTerminal.ui EvmTerminal.env :=
  match search_get "election" url with
  | Some electionId =>
      if truthy_str electionId then inr (EvmTerminal.terminal electionId deviceId)
      else inl "Missing election ID in URL"%string
  | None => inl "Missing election ID in URL"%string
  end.

(** What follows [p] in [s]. *)
Fixpoint strip_prefix (p s : string) : option string :=
  match p, s with
  | EmptyString, _ => Some s
  | String a p', String b s' => if Ascii.eqb a b then strip_prefix p' s' else None
  | _, _ => None
  end.

(** The segment of the address that the route [/evm/\[deviceId\]] names; [None] when the
    address is not of this route. *)
Definition device_segment (url : string) : option string :=
  match strip_prefix "/evm/" (fst (cut "?" (fst (cut "#" url)))) with
  | Some seg =>
      if truthy_str seg && all_chars (fun c => negb (Ascii.eqb c "/")) seg then Some seg else None
  | None => None
  end.

(** The page at an address; [param] is how the router hands the segment over as
    [params.deviceId]. *)
(*@ dashboard/app/(evm)/evm/[deviceId]/page.tsx 22 28 EvmPage *)
Definition EvmPage (param : string -> string) (url : string) :
    option (string + component EvmTerminal.state EvmTerminal.ui EvmTerminal.env) :=
  match device_segment url with
  | Some seg => Some (EvmTerminalWrapper (param seg) url)
  | None => None
  end.

End EvmLauncher.
