(* ===== verification/EvmLauncherFacts.v ===== *)
(** * Correctness of the launcher

    What it asks for and where it navigates, its spinners, the pair it offers after loading,
    and how it comes to offer a device of another election. *)
From S2P Require Import Prelude JsValue JsNumber Types ApiClient View React Spinner EvmTerminal EvmLauncher.
From Stdlib Require Import String Ascii.
Import EvmLauncher.

#[export] Hint Unfold on_ui on_surroundings fetchElections open_elections fetchDevices handleSeedDemo
  handleLaunch : prog.

(** ** Navigation *)

(** A URL the launcher may have asked the router for. *)
Definition launched (u : string) : Prop :=
  exists d e, u = launch_url d e /\ truthy_str d = true /\ truthy_str e = true.

Definition Inv (s : state) : Prop := Forall launched (pushed s).

Definition Sends (s : state) (r : req) : Prop :=
  match r with
  | getElections tok => truthy_opt tok = true
  | getDevices e tok => truthy_str e = true /\ truthy_opt tok = true
  | getTransparencyDevices e => truthy_str e = true
  | getTransparencyElections | seedDemoElection _ _ => True
  | _ => False
  end.

Lemma open_elections_keeps s : keeps Inv Sends (open_elections s).
Proof. intros b s1 H1. wp_auto. Qed.

Lemma fetchElections_keeps s : keeps Inv Sends (fetchElections s).
Proof.
  unfold fetchElections. apply keeps_finally; [| by apply keeps_upd].
  apply keeps_try; [| by intros; apply keeps_ret].
  apply keeps_bind; [by apply keeps_upd | intros _].
  apply keeps_bind; [apply open_elections_keeps | intros list].
  apply keeps_bind; [by apply keeps_upd | intros _]. destruct list; [apply keeps_ret | by apply keeps_upd].
Qed.

Lemma fetchDevices_keeps s : keeps Inv Sends (fetchDevices s).
Proof.
  unfold fetchDevices. destruct (truthy_str (selectedElectionId s)) eqn:Es; [| by apply keeps_upd].
  intros b s1 H1. wp_auto.
Qed.

Lemma launcher_safe : safe_component launcher Inv Sends (fun _ => True).
Proof.
  split.
  - intros u s _ HI _. unfold launcher. cbn [on_user]. destruct u as [reset|v|v|]; cbn [on_ui].
    + apply keeps_handles; [| done]. unfold handleSeedDemo.
      apply keeps_finally; [| by apply keeps_upd]. apply keeps_try; [| by intros; apply keeps_upd].
      do 2 (apply keeps_bind; [by apply keeps_upd | intros _]).
      apply keeps_bind; [by apply keeps_await | intros _].
      apply keeps_bind; [by apply keeps_upd | intros _].
      apply keeps_bind; [apply fetchElections_keeps | intros _].
      apply keeps_bind; [by apply keeps_upd | intros _]. by apply keeps_timeout, keeps_upd.
    + done.
    + done.
    + unfold handleLaunch. destruct (truthy_str (selectedDeviceId s)) eqn:Ed; [| done].
      destruct (truthy_str (selectedElectionId s)) eqn:Ee; [| done].
      unfold handles, Inv. cbn. apply Forall_app_2; [done |]. constructor; [| done]. by eexists _, _.
  - intros x s _ HI. unfold launcher. cbn [on_env].
    destruct x; cbn [on_surroundings]; [destruct (mounted s) | destruct (bool_decide _) | destruct (_ || _)];
      try done; (apply keeps_handles; [| done]; apply keeps_bind; [by apply keeps_upd | intros _]);
      [apply fetchElections_keeps | | apply fetchDevices_keeps].
    destruct (mounted s); [apply fetchElections_keeps | apply keeps_ret].
Qed.

(** ** Reading the route *)

(** Without characters that mean something in a URL. *)
Definition plain_id (s : string) : bool := all_chars uri_unreserved s.

Lemma cut_none c s : uri_unreserved c = false -> plain_id s = true -> cut c s = (s, None).
Proof.
  intros Hc. induction s as [|a s IH]; [done |]. cbn. intros [Ha Hs]%andb_true_iff.
  destruct (Ascii.eqb_spec a c) as [->|]; [congruence |]. by rewrite IH.
Qed.

Lemma cut_some c s rest : uri_unreserved c = false -> plain_id s = true ->
  cut c (s ++s String c rest) = (s, Some rest).
Proof.
  intros Hc. induction s as [|a s IH]; simpl.
  - by rewrite Ascii.eqb_refl.
  - intros [Ha Hs]%andb_true_iff. destruct (Ascii.eqb_spec a c) as [->|]; [congruence |]. by rewrite IH.
Qed.

Lemma plus_plain s : plain_id s = true -> plus_to_space s = s.
Proof.
  induction s as [|a s IH]; [done |]. cbn. intros [Ha Hs]%andb_true_iff.
  destruct (Ascii.eqb_spec a "+"%char) as [->|]; [done | by rewrite IH].
Qed.

Lemma decode_plain_id s : plain_id s = true -> decodeURIComponent s = s.
Proof.
  induction s as [|a s IH]; [done |]. cbn [plain_id all_chars]. intros [Ha Hs]%andb_true_iff.
  rewrite decode_plain by by apply unreserved_not_percent. by rewrite IH.
Qed.

(** A part of a URL without [c] before and after. *)
Lemma cut_skip c a b :
  all_chars (fun x => negb (Ascii.eqb x c)) a = true ->
  cut c (a ++s b) = let (x, y) := cut c b in (a ++s x, y).
Proof.
  induction a as [|x a IH]; [change (EmptyString ++s b) with b; by destruct (cut c b) |].
  change (String x a ++s b) with (String x (a ++s b)). cbn. intros [Hx%negb_true_iff Ha]%andb_true_iff.
  rewrite Hx, (IH Ha). by destruct (cut c b).
Qed.

Lemma plain_avoids c s : uri_unreserved c = false -> plain_id s = true ->
  all_chars (fun x => negb (Ascii.eqb x c)) s = true.
Proof.
  intros Hc. induction s as [|a s IH]; [done |]. cbn. intros [Ha Hs]%andb_true_iff. rewrite (IH Hs), andb_true_r.
  destruct (Ascii.eqb_spec a c) as [->|]; [congruence | done].
Qed.

(** The parts of the address the launcher wrote. *)
Lemma launch_parts d e :
  plain_id d = true -> plain_id e = true ->
  cut "#" (launch_url d e) = (launch_url d e, None)
  /\ cut "?" (launch_url d e) = ("/evm/" ++s d, Some ("election=" ++s e)).
Proof.
  intros Hd He. unfold launch_url. split.
  - rewrite cut_skip by done. rewrite cut_skip by by apply plain_avoids. rewrite cut_skip by done.
    by rewrite cut_none.
  - rewrite cut_skip by done. change ("?election=" ++s e) with (String "?" ("election=" ++s e)).
    by rewrite cut_some.
Qed.

(** The route reads back the election. *)
Lemma search_get_launch d e :
  plain_id d = true -> plain_id e = true -> search_get "election" (launch_url d e) = Some e.
Proof.
  intros Hd He. unfold search_get. destruct (launch_parts d e Hd He) as [-> ->].
  cbn [snd]. cbn [query_get].
  assert (cut "&" ("election=" ++s e) = ("election=" ++s e, None)) as ->
    by (rewrite cut_skip by done; by rewrite cut_none).
  assert (cut "=" ("election=" ++s e) = ("election"%string, Some e)) as ->
    by exact (cut_some "=" "election" e eq_refl eq_refl).
  change (default EmptyString (Some e)) with e. rewrite (plus_plain e), (decode_plain_id e) by done. reflexivity.
Qed.

Lemma strip_prefix_app p s : strip_prefix p (p ++s s) = Some s.
Proof. induction p as [|a p IH]; [done |]. change (String a p ++s s) with (String a (p ++s s)). cbn [strip_prefix]. by rewrite Ascii.eqb_refl. Qed.

(** And the device. *)
Lemma device_segment_launch d e :
  truthy_str d = true -> plain_id d = true -> plain_id e = true -> device_segment (launch_url d e) = Some d.
Proof.
  intros Hne Hd He. unfold device_segment. destruct (launch_parts d e Hd He) as [H1 H2].
  rewrite H1. cbn [fst]. rewrite H2. cbn [fst]. rewrite strip_prefix_app, Hne. cbn [andb].
  by rewrite (plain_avoids "/" d).
Qed.


(** An identifier with a character that has a meaning in a URL opens another terminal: the
    launcher does not encode what it interpolates. *)
Theorem launcher_raw_identifier :
  EvmPage id (launch_url "EVM-1" "A&B") = Some (inr (EvmTerminal.terminal "A" "EVM-1")).
Proof. reflexivity. Qed.

(** ** Spinners *)

Definition raised (seed : bool) (s : state) : bool :=
  if seed then seeding s else mounted s && loading s.

Lemma fetchElections_lowers seed s0 s1 s :
  (seed = true -> raised seed s1 = true -> raised seed s0 = true) ->
  low (fun _ => True) (raised seed) false (fetchElections s) (fun b _ => fine (raised seed) b)
    (fun b _ => fine (raised seed) b) s0 s1.
Proof.
  intros Hs. destruct seed.
  - apply low_calm; [| by apply Hs]. calm_auto.
  - unfold fetchElections.
    apply lowers_at_end; [intros; apply andb_false_r | timerless_auto].
Qed.

Lemma launcher_lowers seed : lowering_component launcher (fun _ => True) (fun _ => True) (raised seed).
Proof.
  split.
  - intros u s _ _ _. unfold lowers, launcher. cbn [on_user]. destruct u as [reset|v|v|]; cbn [on_ui].
    + destruct seed; low_auto.
    + by destruct seed.
    + by destruct seed.
    + unfold handleLaunch. destruct (_ && _); by destruct seed.
  - intros x s _ _. unfold lowers, launcher. cbn [on_env]. destruct x; cbn [on_surroundings].
    + destruct (mounted s); [by destruct seed |]. apply low_upd, fetchElections_lowers. by intros ->.
    + destruct (bool_decide _); [by destruct seed |]. apply low_upd.
      destruct (mounted s); [apply fetchElections_lowers; by intros -> | by destruct seed].
    + destruct (_ || _); [by destruct seed |]. apply low_upd, low_calm; [| by destruct seed].
      destruct seed; calm_auto.
Qed.

(** When nothing is pending neither the list nor the seeding button is left waiting. *)
Theorem launcher_not_left_loading t w :
  reachable launcher (fun _ => True) (initial t) w -> idle w = true ->
  seeding (st w) = false /\ (mounted (st w) = true -> loading (st w) = false).
Proof.
  intros Hw Hidle.
  assert (forall seed, raised seed (st w) = false) as H.
  { intros seed. eapply never_left_busy; [apply launcher_lowers | | exact Hw | exact Hidle]. by destruct seed. }
  split; [apply (H true) |]. intros Hm. specialize (H false). cbn in H. by rewrite Hm in H.
Qed.

(** ** The pair offered *)

Lemma allows_launch s :
  allows (render s) ClickLaunch
  = negb (loading s) && negb (bool_decide (elections s = []))
    && (truthy_str (selectedDeviceId s) && truthy_str (selectedElectionId s)).
Proof.
  unfold render. rewrite !allows_app.
  replace (allows (match feedbackMsg s with Some m => when (truthy_str m) [Text m] | None => [] end) ClickLaunch)
    with false by (destruct (feedbackMsg s) as [m|]; [by destruct (truthy_str m) | done]).
  cbn [orb allows existsb fires]. destruct (loading s); [done |].
  destruct (elections s) as [|e l]; [cbn; decide_eqs; by tidy_bool |].
  rewrite (bool_decide_eq_false_2 (e :: l = [])) by done. cbn [negb andb].
  unfold pickers. rewrite !allows_app, allows_when.
  replace (allows (match selectedDevice s with Some d => _ | None => [] end) ClickLaunch) with false
    by (destruct (selectedDevice s); done).
  rewrite !allows_cons, !allows_nil. cbn [fires].
  rewrite !(select_other _ _ ClickLaunch) by (intros; discriminate). decide_eqs. tidy_bool.
  by rewrite negb_orb, !negb_involutive.
Qed.

(** For an officer whose list contains an OPEN election with devices, the launcher chooses
    the first such election and its first ACTIVE device, or the first one if none is, and
    navigates to the terminal of that pair. *)
Theorem launcher_offers tok es ds e d (a0 a1 : forall q, outcome (qresp q)) :
  truthy_str tok = true ->
  head (List.filter (fun e => bool_decide (e_state e = OPEN)) es) = Some e -> truthy_str (e_id e) = true ->
  activeDev ds = Some d -> truthy_str (d_id d) = true ->
  a0 (One (getElections (Some tok))) = Ok es -> a1 (One (getDevices (e_id e) (Some tok))) = Ok ds ->
  exists w, run launcher (boot (initial (Some tok)))
      [Env Mount; Reply 0 a0; Env Effect; Reply 1 a1; User ClickLaunch] = Some w
    /\ selectedElectionId (st w) = e_id e /\ devices (st w) = ds /\ selectedDeviceId (st w) = d_id d
    /\ pushed (st w) = [launch_url (d_id d) (e_id e)] /\ tasks w = [].
Proof.
  intros Ht He Heid Hd Hdid H0 H1. destruct (List.filter _ es) as [|e' l] eqn:Ef; [done |].
  injection He as ->. unfold boot, initial.
  rewrite run_cons, step_env. cbn -[run step]. rewrite Ht. cbn -[run step].
  rewrite run_cons. erewrite step_reply_single by reflexivity. cbn -[run step]. rewrite H0. cbn -[run step].
  rewrite Ef. cbn -[run step].
  rewrite run_cons, step_env. cbn -[run step]. unfold fetchDevices. cbn -[run step].
  unfold str_or at 1. cbn -[run step]. rewrite Heid, Ht. cbn -[run step].
  rewrite bool_decide_eq_false_2 by done. cbn -[run step].
  rewrite run_cons. erewrite step_reply_single by reflexivity. cbn -[run step activeDev]. rewrite H1.
  destruct ds as [|d0 ds]; [done |]. cbn -[run step activeDev]. rewrite Hd. cbn -[run step].
  rewrite run_cons. unfold step.
  match goal with |- context [allows (React.render launcher ?s) ClickLaunch] =>
    change (allows (React.render launcher s) ClickLaunch) with (allows (render s) ClickLaunch) end.
  rewrite allows_launch. cbn -[run step]. rewrite Hdid, Heid. cbn -[run step].
  unfold handleLaunch. cbn -[run step]. rewrite Hdid, Heid. cbn -[run step].
  eexists. split; [reflexivity |]. by split_and!.
Qed.

Section Demo.
Open Scope string_scope.

Definition an_election (id : string) : ElectionResponse :=
  {| e_id := id; e_title_name := None; e_title := Some id; e_description := None; e_state := OPEN;
     e_configuration_hash := None; e_device_count := 1; e_ballot_count := 0;
     e_created_at := EmptyString; e_opened_at := None; e_closed_at := None;
     e_published_at := None;
     e_candidates := [{| c_id := "C1"; c_name := "Asha"; c_party := None; c_symbol := None; c_position := 1 |}] |}.

Definition a_device (election : string) : DeviceResponse :=
  {| d_id := "EVM-" ++s election; d_election_id := election; d_name := "Booth"; d_status := D_ACTIVE;
     d_device_hash := None; d_last_sequence_number := 0; d_total_votes_cast := 0;
     d_registered_at := EmptyString; d_activated_at := None; d_last_seen_at := None |}.

(** A backend with two open elections of one device each. *)
Definition backend (r : req) : outcome (resp r) :=
  match r with
  | getElections _ => Ok [an_election "E1"; an_election "E2"]
  | getElection e _ => Ok (an_election e)
  | getDevices e _ => Ok [a_device e]
  | seedDemoElection _ _ =>
      Ok {| sd_status := "ok"; sd_election_id := "EV-2026-001"; sd_state := "OPEN"; sd_message := EmptyString |}
  | _ => Err (plain_error "Error" "offline")
  end.

Definition honest {U X} (id : nat) : event U X := Reply id (answers backend).

Definition start : world state := boot (initial (Some "token")).

(** Choosing another election before the devices of the first have arrived launches the first
    election's device for the second election, although the page then shows the right
    devices: the device once chosen is kept. The terminal opened by this route ends in ERROR. *)
Theorem launcher_wrong_device :
  (exists w, run launcher start
      [Env Mount; honest 0; Env Effect; User (SelectElection "E2"); Env Effect; honest 1; honest 2;
       User ClickLaunch] = Some w
    /\ selectedElectionId (st w) = "E2" /\ map d_id (devices (st w)) = ["EVM-E2"]
    /\ pushed (st w) = ["/evm/EVM-E1?election=E2"])
  /\ EvmPage id "/evm/EVM-E1?election=E2" = Some (inr (EvmTerminal.terminal "E2" "EVM-E1"))
  /\ exists w, run (EvmTerminal.terminal "E2" "EVM-E1") (boot (EvmTerminal.initial (Some "token")))
       [Env EvmTerminal.Mount; honest 0; honest 1] = Some w
     /\ EvmTerminal.evm (st w) = EvmTerminal.ERROR /\ EvmTerminal.lcdMessage (st w) = "DEVICE_NOT_FOUND".
Proof.
  split; [apply run_witness; vm_compute; by split_and! |]. split; [reflexivity |].
  apply run_witness. vm_compute. by split_and!.
Qed.

(** Seeding the demonstration election again selects it and keeps the device of the election
    before. *)
Theorem launcher_seed_keeps_device :
  exists w, run launcher start
      [Env Mount; honest 0; Env Effect; honest 1; User (ClickSeed true); honest 2; honest 3; Env Effect;
       honest 5; User ClickLaunch] = Some w
    /\ map d_id (devices (st w)) = ["EVM-EV-2026-001"]
    /\ pushed (st w) = ["/evm/EVM-E1?election=EV-2026-001"].
Proof. apply run_witness. vm_compute. by split_and!. Qed.

(** A launch as it should be. *)
Definition launch : list (event ui env) :=
  [Env Mount; honest 0; Env Effect; honest 1; User ClickLaunch].

Definition after_launch : world state := default start (run launcher start launch).

Lemma reachable_launch : reachable launcher (fun _ => True) (initial (Some "token")) after_launch.
Proof.
  eapply (reachable_run launcher (fun _ => True) _ start launch);
    [constructor | by repeat constructor | vm_compute; reflexivity].
Qed.


Lemma launcher_not_left_loading_witness :
  idle after_launch = true /\ seeding (st after_launch) = false.
Proof.
  assert (idle after_launch = true) as Hi by (vm_compute; reflexivity). split; [exact Hi |].
  exact (proj1 (launcher_not_left_loading (Some "token") after_launch reachable_launch Hi)).
Defined.

Lemma launcher_offers_witness :
  exists w, run launcher start [Env Mount; honest 0; Env Effect; honest 1; User ClickLaunch] = Some w
    /\ pushed (st w) = ["/evm/EVM-E1?election=E1"].
Proof.
  destruct (launcher_offers "token" [an_election "E1"; an_election "E2"] [a_device "E1"]
              (an_election "E1") (a_device "E1") (answers backend) (answers backend))
    as (w & H1 & _ & _ & _ & H2 & _); try reflexivity.
  exists w. split; [exact H1 | exact H2].
Defined.
End Demo.
