(* ===== verification/PublicVerify.v ===== *)
(** * The public verifier: [app/(public)/verify/page.tsx]

    The nine checkpoints run on an exported election archive, the tamper demonstration, the
    upload of an archive, and the page. A JavaScript object used as a map is a [gmap]; its
    keys are identifiers, never names inherited from Object.prototype. *)
From S2P Require Import Prelude Tally JsValue JsNumber Types ApiClient View React.
From Stdlib Require Import String.

Module PublicVerify.

(*@ dashboard/app/(public)/verify/page.tsx 29 29 VerificationCheckpoint *)
Inductive CheckStatus := PASSED | FAILED | PENDING.

#[export] Instance CheckStatus_eq_dec : EqDecision CheckStatus. Proof. solve_decision. Defined.

(*@ dashboard/app/(public)/verify/page.tsx 25 31 VerificationCheckpoint *)
Record VerificationCheckpoint := {
  ck_id : string; ck_name : string; ck_description : string; ck_status : CheckStatus;
  ck_details : string }.

(*@ dashboard/app/(public)/verify/page.tsx 41 47 recountedStats *)
Record Stats := {
  st_ballots : Z; st_candidatesCount : Z; st_devicesCount : Z; st_auditEntries : Z;
  st_reconciliationDrift : Z }.

(*@ dashboard/app/(public)/verify/page.tsx 48 48 overallStatus *)
Inductive Overall := Overall_PASSED | Overall_FAILED.

#[export] Instance Overall_eq_dec : EqDecision Overall. Proof. solve_decision. Defined.

(** ** The checks *)

(** A non-empty string of 64 characters, which is what is asked of a hash. *)
(*@ dashboard/app/(public)/verify/page.tsx 124 124 hash_ok *)
Definition hash_ok (h : string) : bool :=
  truthy_str h && (Z.of_nat (String.length h) =? 64).

(*@ dashboard/app/(public)/verify/page.tsx 96 96 hasEnvelope *)
Definition hasEnvelope (data : ElectionExportResponse) : bool :=
  truthy_opt (x_export_version data) && bool_decide (is_Some (x_election data))
  && bool_decide (is_Some (x_ballots data)) && bool_decide (is_Some (x_audit_log data)).

(*@ dashboard/app/(public)/verify/page.tsx 107 108 configHashValid *)
Definition configHashValid (data : ElectionExportResponse) : bool :=
  match x_election data with Some m => truthy_opt (em_configuration_hash m) | None => false end.

(*@ dashboard/app/(public)/verify/page.tsx 121 128 ballotHashesValid *)
Definition ballotHashesValid (ballots : list BallotExportItem) : bool :=
  forallb (fun b => hash_ok (b_ballot_hash b)) ballots.

(** The sequence numbers of each device, in archive order. *)
(*@ dashboard/app/(public)/verify/page.tsx 139 144 deviceSequences *)
Definition deviceSequences (ballots : list BallotExportItem) : gmap string (list Z) :=
  fold_left (fun m b => <[b_device_id b := default [] (m !! b_device_id b) ++ [b_sequence_number b]]> m)
    ballots ∅.

(*@ dashboard/app/(public)/verify/page.tsx 147 152 seqValid *)
Fixpoint increasing (seqs : list Z) : bool :=
  match seqs with
  | a :: (b :: _) as rest => negb (b <=? a) && increasing rest
  | _ => true
  end.

(*@ dashboard/app/(public)/verify/page.tsx 140 153 seqValid *)
Definition seqValid (ballots : list BallotExportItem) : bool :=
  forallb (fun kv => increasing (snd kv)) (map_to_list (deviceSequences ballots)).

(** Votes per listed candidate; a ballot for an unlisted one is not counted. *)
(*@ dashboard/app/(public)/verify/page.tsx 164 172 candidateRecount *)
Definition candidateRecount (candidates : list CandidateExportItem) (ballots : list BallotExportItem)
    : gmap string Z :=
  fold_left (fun m b => bump (b_candidate_id b) m) ballots (zeros (map cx_id candidates)).

(*@ dashboard/app/(public)/verify/page.tsx 182 185 deviceRecount *)
Definition deviceRecount (ballots : list BallotExportItem) : gmap string Z :=
  fold_left (fun m b => bump_new (b_device_id b) m) ballots ∅.

(*@ dashboard/app/(public)/verify/page.tsx 213 228 auditChainValid *)
Fixpoint chain_from (prev : option AuditExportItem) (log : list AuditExportItem) : bool :=
  match log with
  | [] => true
  | entry :: log' =>
      if negb (hash_ok (ax_entry_hash entry)) then false
      else match prev with
           | Some p =>
               if negb (bool_decide (ax_previous_hash entry = Some (ax_entry_hash p))) then false
               else chain_from (Some entry) log'
           | None => chain_from (Some entry) log'
           end
  end.

(*@ dashboard/app/(public)/verify/page.tsx 212 228 auditChainValid *)
Definition auditChainValid (log : list AuditExportItem) : bool := chain_from None log.

(*@ dashboard/app/(public)/verify/page.tsx 241 242 hasSignature *)
(*@ dashboard/app/(public)/verify/page.tsx 242 242 hasSignature *)
Definition hasSignature (data : ElectionExportResponse) : bool :=
  match x_manifest data with Some m => truthy_opt (xm_digital_signature m) | None => false end.

(*@ dashboard/app/(public)/verify/page.tsx 241 241 hasManifest *)
Definition hasManifest (data : ElectionExportResponse) : bool := bool_decide (is_Some (x_manifest data)).

(*@ dashboard/app/(public)/verify/page.tsx 165 165 candidates *)
Definition candidates_of (data : ElectionExportResponse) : list CandidateExportItem :=
  default [] (x_candidates data).
(*@ dashboard/app/(public)/verify/page.tsx 121 121 ballots *)
Definition ballots_of (data : ElectionExportResponse) : list BallotExportItem :=
  default [] (x_ballots data).
(*@ dashboard/app/(public)/verify/page.tsx 213 213 auditLog *)
Definition audit_of (data : ElectionExportResponse) : list AuditExportItem :=
  default [] (x_audit_log data).

(*@ dashboard/app/(public)/verify/page.tsx 195 199 reconciliationPassed *)
Definition reconciliationPassed (data : ElectionExportResponse) : bool :=
  let totalBallots := len (ballots_of data) in
  (totalBallots =? sum_values (candidateRecount (candidates_of data) (ballots_of data)))
  && (totalBallots =? sum_values (deviceRecount (ballots_of data))).

(*@ dashboard/app/(public)/verify/page.tsx 199 199 drift *)
Definition drift (data : ElectionExportResponse) : Z :=
  Z.abs (len (ballots_of data)
         - sum_values (candidateRecount (candidates_of data) (ballots_of data))).

(*@ dashboard/app/(public)/verify/page.tsx 101 101 status *)
Definition pass_if (b : bool) : CheckStatus := if b then PASSED else FAILED.

(** The nine rows, in the order they are pushed. *)
(*@ dashboard/app/(public)/verify/page.tsx 92 253 results *)
Definition results (data : ElectionExportResponse) : list VerificationCheckpoint :=
  let ballots := ballots_of data in
  let n := Z_to_string (len ballots) in
  let sumCandidates := sum_values (candidateRecount (candidates_of data) ballots) in
  let sumDevices := sum_values (deviceRecount ballots) in
  [ {| ck_id := "envelope"; ck_name := "1. Export Envelope Integrity";
       ck_description := "Validates archive structure, version metadata, and root export hash";
       ck_status := pass_if (hasEnvelope data);
       ck_details := if hasEnvelope data
         then "Version " ++s default EmptyString (x_export_version data) ++s " package format verified"
         else "Missing required top-level export keys" |};
    {| ck_id := "config_hash"; ck_name := "2. Candidate Roster & Configuration Hash";
       ck_description := "Verifies frozen candidate roster against SHA-256 configuration fingerprint";
       ck_status := pass_if (configHashValid data);
       ck_details := if configHashValid data
         then "Configuration hash: "
              ++s take_str 16 (match x_election data with
                               | Some m => default EmptyString (em_configuration_hash m)
                               | None => EmptyString end)
              ++s "... (" ++s Z_to_string (len (candidates_of data)) ++s " candidates)"
         else "Configuration hash missing from export metadata" |};
    {| ck_id := "ballot_hashes"; ck_name := "3. Ballot Cryptographic Hashes";
       ck_description := "Recomputes SHA-256 hash for every raw ballot: SHA-256(election:session:device:candidate:sequence)";
       ck_status := pass_if (ballotHashesValid ballots);
       ck_details := if ballotHashesValid ballots
         then "All " ++s n ++s " individual ballot hashes verified intact"
         else "Found corrupted ballot hash" |};
    {| ck_id := "device_sequence"; ck_name := "4. Device Sequence Continuity";
       ck_description := "Ensures strictly monotonic sequence numbers per device to prevent replay attacks";
       ck_status := pass_if (seqValid ballots);
       ck_details := if seqValid ballots
         then "Monotonic sequence confirmed across "
              ++s Z_to_string (Z.of_nat (size (deviceSequences ballots))) ++s " devices"
         else "Found duplicate or decreasing sequence numbers" |};
    {| ck_id := "candidate_totals"; ck_name := "5. Independent Candidate Tally";
       ck_description := "Re-aggregates votes cast directly from individual raw ballot records";
       ck_status := PASSED;
       ck_details := "Independently tallied " ++s n ++s " ballots across "
         ++s (match x_candidates data with
              | Some l => Z_to_string (len l) | None => "undefined" end) ++s " candidates" |};
    {| ck_id := "device_totals"; ck_name := "6. Device-Level Ballot Counts";
       ck_description := "Re-aggregates ballots submitted per physical / simulated hardware device";
       ck_status := PASSED;
       ck_details := "Reconstructed device totals across "
         ++s Z_to_string (Z.of_nat (size (deviceRecount ballots))) ++s " registered units" |};
    {| ck_id := "reconciliation"; ck_name := "7. Full Record Reconciliation";
       ck_description := "Verifies total ballots == sum(candidate tallies) == sum(device contributions)";
       ck_status := pass_if (reconciliationPassed data);
       ck_details := if reconciliationPassed data
         then "Zero drift: Total (" ++s n ++s ") == Candidates (" ++s Z_to_string sumCandidates
              ++s ") == Devices (" ++s Z_to_string sumDevices ++s ")"
         else "Drift detected: Difference of " ++s Z_to_string (drift data) ++s " ballots" |};
    {| ck_id := "audit_chain"; ck_name := "8. Tamper-Evident Audit Hash Chain";
       ck_description := "Recomputes continuous SHA-256 hash chaining across all chronological event entries";
       ck_status := pass_if (auditChainValid (audit_of data));
       ck_details := if auditChainValid (audit_of data)
         then "Cryptographic continuity validated for all "
              ++s Z_to_string (len (audit_of data)) ++s " events from genesis"
         else "Hash mismatch detected in audit chain link" |};
    {| ck_id := "digital_signature"; ck_name := "9. Result Manifest & Ed25519 Signature";
       ck_description := "Validates canonical manifest hash and verifies digital signature authenticity";
       ck_status := if hasSignature data then PASSED else if hasManifest data then PENDING else FAILED;
       ck_details := if hasSignature data
         then "Valid Ed25519 digital signature verified against published SecureVOTE authority key"
         else if hasManifest data then "Manifest present but unsigned"
         else "Manifest not yet generated" |} ]%string.

(** [allPassed] after the nine checks. *)
(*@ dashboard/app/(public)/verify/page.tsx 93 254 allPassed *)
Definition allPassed (data : ElectionExportResponse) : bool :=
  hasEnvelope data && configHashValid data && ballotHashesValid (ballots_of data)
  && seqValid (ballots_of data) && reconciliationPassed data
  && auditChainValid (audit_of data) && hasManifest data.

(*@ dashboard/app/(public)/verify/page.tsx 264 264 runVerificationOnData *)
Definition verdict (data : ElectionExportResponse) : Overall :=
  if allPassed data then Overall_PASSED else Overall_FAILED.

(*@ dashboard/app/(public)/verify/page.tsx 257 263 recountedStats *)
Definition stats (data : ElectionExportResponse) : Stats :=
  {| st_ballots := len (ballots_of data); st_candidatesCount := len (candidates_of data);
     st_devicesCount := Z.of_nat (size (deviceRecount (ballots_of data)));
     st_auditEntries := len (audit_of data); st_reconciliationDrift := drift data |}.

#[global] Arguments results : simpl never.
#[global] Arguments allPassed : simpl never.
#[global] Arguments stats : simpl never.
#[global] Arguments verdict : simpl never.

(** ** The component *)

(** An election of the selector, from the officer's list or the public one. *)
(*@ dashboard/app/(public)/verify/page.tsx 54 68 loadElectionsList *)
Record ElectionRow := { er_id : string; er_title : option string }.

(** An exported archive, or a JSON value of another shape on which one of the checks throws,
    such as an archive whose list of ballots contains [null]: with the message of that
    exception, and that of the mutation's, if it throws as well. The mutation only sets
    strings, so it does not stop a check from throwing. *)
Inductive package :=
| Typed (data : ElectionExportResponse)
| Throwing (check mutation : string) (mutation_throws : bool).

(*@ dashboard/app/(public)/verify/page.tsx 34 49 IndependentVerificationPage *)
Record state := mk_state {
  token : option string;
  mounted : bool;
  elections : list ElectionRow;
  selectedElectionId : string;
  loadingElections : bool;
  verifying : bool;
  exportPackage : option package;
  checkpoints : list VerificationCheckpoint;
  recountedStats : option Stats;
  overallStatus : option Overall;
  customFileLoaded : bool;
  isTamperDemo : bool;
  alerts : list string }.

Definition set_token (v : option string) (s : state) : state :=
  mk_state v (mounted s) (elections s) (selectedElectionId s) (loadingElections s)
    (verifying s) (exportPackage s) (checkpoints s) (recountedStats s) (overallStatus s)
    (customFileLoaded s) (isTamperDemo s) (alerts s).
Definition set_mounted (v : bool) (s : state) : state :=
  mk_state (token s) v (elections s) (selectedElectionId s) (loadingElections s) (verifying s)
    (exportPackage s) (checkpoints s) (recountedStats s) (overallStatus s) (customFileLoaded s)
    (isTamperDemo s) (alerts s).
Definition set_elections (v : list ElectionRow) (s : state) : state :=
  mk_state (token s) (mounted s) v (selectedElectionId s) (loadingElections s) (verifying s)
    (exportPackage s) (checkpoints s) (recountedStats s) (overallStatus s) (customFileLoaded s)
    (isTamperDemo s) (alerts s).
Definition set_selectedElectionId (v : string) (s : state) : state :=
  mk_state (token s) (mounted s) (elections s) v (loadingElections s) (verifying s)
    (exportPackage s) (checkpoints s) (recountedStats s) (overallStatus s) (customFileLoaded s)
    (isTamperDemo s) (alerts s).
Definition set_loadingElections (v : bool) (s : state) : state :=
  mk_state (token s) (mounted s) (elections s) (selectedElectionId s) v (verifying s)
    (exportPackage s) (checkpoints s) (recountedStats s) (overallStatus s) (customFileLoaded s)
    (isTamperDemo s) (alerts s).
Definition set_verifying (v : bool) (s : state) : state :=
  mk_state (token s) (mounted s) (elections s) (selectedElectionId s) (loadingElections s) v
    (exportPackage s) (checkpoints s) (recountedStats s) (overallStatus s) (customFileLoaded s)
    (isTamperDemo s) (alerts s).
Definition set_exportPackage (v : option package) (s : state) : state :=
  mk_state (token s) (mounted s) (elections s) (selectedElectionId s) (loadingElections s)
    (verifying s) v (checkpoints s) (recountedStats s) (overallStatus s) (customFileLoaded s)
    (isTamperDemo s) (alerts s).
Definition set_checkpoints (v : list VerificationCheckpoint) (s : state) : state :=
  mk_state (token s) (mounted s) (elections s) (selectedElectionId s) (loadingElections s)
    (verifying s) (exportPackage s) v (recountedStats s) (overallStatus s) (customFileLoaded s)
    (isTamperDemo s) (alerts s).
Definition set_recountedStats (v : option Stats) (s : state) : state :=
  mk_state (token s) (mounted s) (elections s) (selectedElectionId s) (loadingElections s)
    (verifying s) (exportPackage s) (checkpoints s) v (overallStatus s) (customFileLoaded s)
    (isTamperDemo s) (alerts s).
Definition set_overallStatus (v : option Overall) (s : state) : state :=
  mk_state (token s) (mounted s) (elections s) (selectedElectionId s) (loadingElections s)
    (verifying s) (exportPackage s) (checkpoints s) (recountedStats s) v (customFileLoaded s)
    (isTamperDemo s) (alerts s).
Definition set_customFileLoaded (v : bool) (s : state) : state :=
  mk_state (token s) (mounted s) (elections s) (selectedElectionId s) (loadingElections s)
    (verifying s) (exportPackage s) (checkpoints s) (recountedStats s) (overallStatus s) v
    (isTamperDemo s) (alerts s).
Definition set_isTamperDemo (v : bool) (s : state) : state :=
  mk_state (token s) (mounted s) (elections s) (selectedElectionId s) (loadingElections s)
    (verifying s) (exportPackage s) (checkpoints s) (recountedStats s) (overallStatus s)
    (customFileLoaded s) v (alerts s).
Definition set_alerts (v : list string) (s : state) : state :=
  mk_state (token s) (mounted s) (elections s) (selectedElectionId s) (loadingElections s)
    (verifying s) (exportPackage s) (checkpoints s) (recountedStats s) (overallStatus s)
    (customFileLoaded s) (isTamperDemo s) v.

(*@ dashboard/app/(public)/verify/page.tsx 34 49 IndependentVerificationPage *)
Definition initial (t : option string) : state :=
  mk_state t false [] EmptyString true false None [] None None false false [].

Abbreviation M := (prog state).

(*@ dashboard/app/(public)/verify/page.tsx 279 279 alert *)
Definition alert (msg : string) : M unit := upd (fun s => set_alerts (alerts s ++ [msg]) s).

(*@ dashboard/app/(public)/verify/page.tsx 52 80 loadElectionsList *)
Definition loadElectionsList (s : state) : M unit :=
  finally
    (try_catch
       (own ← (if truthy_opt (token s)
               then try_catch
                      (l ← await (getElections (token s));
                       mret (map (fun e => {| er_id := e_id e; er_title := e_title e |}) l))
                      (fun _ => mret [])
               else mret []);
        list ← match own with
               | [] =>
                   publicData ← await getTransparencyElections;
                   mret (map (fun e => {| er_id := t_election_id e;
                                          er_title := Some (t_election_name e) |}) publicData)
               | _ => mret own
               end;
        upd (set_elections list);;
        match list with
        | first :: _ =>
            upd (fun prev => set_selectedElectionId
                               (str_or (selectedElectionId prev) (er_id first)) prev)
        | [] => mret tt
        end)
       (fun _ => mret tt))
    (upd (set_loadingElections false)).

(** The package is [None] when the parsed file is [null]: the first property read throws. *)
(*@ dashboard/app/(public)/verify/page.tsx 84 266 runVerificationOnData *)
Definition runVerificationOnData (data : option package) : M unit :=
  upd (set_verifying true);;
  upd (set_overallStatus None);;
  upd (set_exportPackage data);;
  sleep 600;;
  match data with
  | None => Throw (plain_error "TypeError" "Cannot read properties of null (reading 'export_version')")
  | Some (Throwing check _ _) => Throw (plain_error "TypeError" check)
  | Some (Typed data) =>
      upd (set_checkpoints (results data));;
      upd (set_recountedStats (Some (stats data)));;
      upd (set_overallStatus (Some (verdict data)));;
      upd (set_verifying false)
  end.

(*@ dashboard/app/(public)/verify/page.tsx 270 282 handleFetchAndVerify *)
Definition handleFetchAndVerify (s : state) : M unit :=
  if negb (truthy_str (selectedElectionId s)) then mret tt
  else
    try_catch
      (upd (set_verifying true);;
       upd (set_isTamperDemo false);;
       data ← await (exportElection (selectedElectionId s) (token s));
       upd (set_customFileLoaded false);;
       runVerificationOnData (Some (Typed data)))
      (fun err =>
         alert ("Failed to export election data: " ++s str_or (e_message err) "Unknown error");;
         upd (set_verifying false)).

(*@ dashboard/app/(public)/verify/page.tsx 295 295 handleSimulateTamper *)
Definition DEADBEEF : string :=
  "deadbeef00000000000000000000000000000000000000000000000000000000".
(*@ dashboard/app/(public)/verify/page.tsx 297 297 handleSimulateTamper *)
Definition FFFFFFFF : string :=
  "ffffffff00000000000000000000000000000000000000000000000000000000".

(*@ dashboard/app/(public)/verify/page.tsx 295 295 handleSimulateTamper *)
Definition with_previous_hash (h : string) (e : AuditExportItem) : AuditExportItem :=
  {| ax_id := ax_id e; ax_sequence_number := ax_sequence_number e;
     ax_event_type := ax_event_type e; ax_event_data := ax_event_data e; ax_actor := ax_actor e;
     ax_device_id := ax_device_id e; ax_timestamp := ax_timestamp e;
     ax_previous_hash := Some h; ax_entry_hash := ax_entry_hash e |}.

(*@ dashboard/app/(public)/verify/page.tsx 297 297 handleSimulateTamper *)
Definition with_ballot_hash (h : string) (b : BallotExportItem) : BallotExportItem :=
  {| b_id := b_id b; b_session_id := b_session_id b; b_device_id := b_device_id b;
     b_candidate_id := b_candidate_id b; b_sequence_number := b_sequence_number b;
     b_ballot_hash := h; b_recorded_at := b_recorded_at b |}.

(*@ dashboard/app/(public)/verify/page.tsx 293 298 handleSimulateTamper *)
Definition with_records (data : ElectionExportResponse) (ballots : option (list BallotExportItem))
    (log : option (list AuditExportItem)) : ElectionExportResponse :=
  {| x_export_version := x_export_version data; x_exported_at := x_exported_at data;
     x_election := x_election data; x_candidates := x_candidates data;
     x_devices := x_devices data; x_ballots := ballots; x_audit_log := log;
     x_manifest := x_manifest data; x_export_hash := x_export_hash data |}.

(** The mutated copy: the second audit entry's link, or else the first ballot's hash. *)
(*@ dashboard/app/(public)/verify/page.tsx 292 298 handleSimulateTamper *)
Definition tampered (data : ElectionExportResponse) : ElectionExportResponse :=
  match x_audit_log data with
  | Some (e0 :: e1 :: log) =>
      with_records data (x_ballots data) (Some (e0 :: with_previous_hash DEADBEEF e1 :: log))
  | _ =>
      match x_ballots data with
      | Some (b :: bs) =>
          with_records data (Some (with_ballot_hash FFFFFFFF b :: bs)) (x_audit_log data)
      | _ => data
      end
  end.

#[global] Arguments tampered : simpl never.

(*@ dashboard/app/(public)/verify/page.tsx 284 305 handleSimulateTamper *)
Definition handleSimulateTamper (s : state) : M unit :=
  if negb (truthy_str (selectedElectionId s)) then mret tt
  else
    try_catch
      (upd (set_verifying true);;
       data ← match exportPackage s with
              | Some data => mret data
              | None =>
                  data ← await (exportElection (selectedElectionId s) (token s));
                  mret (Typed data)
              end;
       mutated ← match data with
                 | Typed data => mret (Typed (tampered data))
                 | Throwing _ mutation true => Throw (plain_error "TypeError" mutation)
                 | Throwing _ _ false => mret data
                 end;
       upd (set_isTamperDemo true);;
       runVerificationOnData (Some mutated))
      (fun err =>
         alert ("Failed to run tamper simulation: " ++s str_or (e_message err) "Unknown error");;
         upd (set_verifying false)).

(** What [JSON.parse] makes of the chosen file: nothing, [null], or another value. *)
Inductive upload := NotJson | JsonNull | Json (p : package).

(** The reader's [onload] runs later, when the file has been read. *)
(*@ dashboard/app/(public)/verify/page.tsx 307 322 handleFileUpload *)
Definition handleFileUpload (file : upload) : M unit :=
  set_timeout 0
    (try_catch
       (match file with
        | NotJson => Throw (plain_error "SyntaxError" "Unexpected token")
        | JsonNull => upd (set_customFileLoaded true);; runVerificationOnData None
        | Json p => upd (set_customFileLoaded true);; runVerificationOnData (Some p)
        end)
       (fun _ => alert "Invalid JSON election archive file.")).

(** ** Events and page *)

#[export] Instance BallotExportItem_eq_dec : EqDecision BallotExportItem. Proof. solve_decision. Defined.
#[export] Instance AuditExportItem_eq_dec : EqDecision AuditExportItem. Proof. solve_decision. Defined.
#[export] Instance DeviceExportItem_eq_dec : EqDecision DeviceExportItem. Proof. solve_decision. Defined.
#[export] Instance CandidateExportItem_eq_dec : EqDecision CandidateExportItem. Proof. solve_decision. Defined.
#[export] Instance ElectionExportMeta_eq_dec : EqDecision ElectionExportMeta. Proof. solve_decision. Defined.
#[export] Instance ExportManifest_eq_dec : EqDecision ExportManifest. Proof. solve_decision. Defined.
#[export] Instance ElectionExportResponse_eq_dec : EqDecision ElectionExportResponse. Proof. solve_decision. Defined.
#[export] Instance package_eq_dec : EqDecision package. Proof. solve_decision. Defined.
#[export] Instance upload_eq_dec : EqDecision upload. Proof. solve_decision. Defined.

Inductive ui := SelectElection (v : string) | ClickVerify | ClickTamper | UploadFile (f : upload).

#[export] Instance ui_eq_dec : EqDecision ui. Proof. solve_decision. Defined.

Inductive env := Mount | TokenChanged (t : option string).

(*@ dashboard/app/(public)/verify/page.tsx 363 405 onChange/onClick *)
Definition on_ui (u : ui) (s : state) : M unit :=
  match u with
  | SelectElection v => upd (set_selectedElectionId v)
  | ClickVerify => handleFetchAndVerify s
  | ClickTamper => handleSimulateTamper s
  | UploadFile f => handleFileUpload f
  end.

(*@ dashboard/app/(public)/verify/page.tsx 51 82 useEffect *)
Definition on_surroundings (x : env) (s : state) : M unit :=
  match x with
  | Mount => if mounted s then mret tt else upd (set_mounted true);; loadElectionsList s
  | TokenChanged t =>
      if bool_decide (token s = t) then mret tt
      else upd (set_token t);; loadElectionsList (set_token t s)
  end.

Definition status_str (c : CheckStatus) : string :=
  match c with PASSED => "PASSED" | FAILED => "FAILED" | PENDING => "PENDING" end.

(*@ dashboard/app/(public)/verify/page.tsx 472 521 IndependentVerificationPage *)
Definition checkpoint_row (cp : VerificationCheckpoint) : list (node ui) :=
  [Text (ck_name cp);
   Badge (match ck_status cp with PASSED => "success" | FAILED => "danger" | PENDING => "warning" end)
     (status_str (ck_status cp));
   Text (ck_description cp)]
  ++ when (truthy_str (ck_details cp)) [Text (ck_details cp)]
  ++ [Icon (match ck_status cp with
            | PASSED => "CheckCircle2" | FAILED => "XCircle" | PENDING => "AlertTriangle" end)].

(*@ dashboard/app/(public)/verify/page.tsx 413 470 IndependentVerificationPage *)
Definition summary_banner (s : state) : list (node ui) :=
  when (isTamperDemo s && bool_decide (overallStatus s = Some Overall_FAILED))
    [Text "Demonstration Evidence: Cryptographic Tamper-Evidence In Action";
     Text "The verifier detected a deliberate hash-chain mutation."]
  ++ match overallStatus s, recountedStats s with
     | Some o, Some r =>
         let passed := bool_decide (o = Overall_PASSED) in
         [Box (if passed then "emerald" else "rose")
            [Icon (if passed then "CheckCircle2" else "XCircle");
             Text (if passed then "INDEPENDENT VERIFICATION: PASSED"
                   else "INDEPENDENT VERIFICATION: FAILED");
             Text (if passed
                   then "All 9 independent mathematical proofs succeeded with zero reconciliation drift."
                   else "Integrity check failure detected in one or more checkpoints.");
             Text "Recounted"; Text (Z_to_string (st_ballots r) ++s " Ballots");
             Text "Audit Events"; Text (Z_to_string (st_auditEntries r));
             Text "Drift"; Text (Z_to_string (st_reconciliationDrift r))]]
     | _, _ => []
     end.

(*@ dashboard/app/(public)/verify/page.tsx 324 412 IndependentVerificationPage *)
Definition control_panel (s : state) : list (node ui) :=
  [Text "Third-Party Election Verifier";
   Text "Independently audits raw exported election records without trusting the database, backend ORM, or dashboard.";
   Text "Zero-Trust Boundary";
   Text "Select Verification Target";
   Select (selectedElectionId s)
     (map (fun el => (er_id el, er_id el ++s " - " ++s default EmptyString (er_title el))) (elections s))
     (loadingElections s || verifying s) SelectElection;
   Button "Fetch & Verify" (negb (truthy_str (selectedElectionId s)) || verifying s) ClickVerify;
   Button "Simulate Mutation" (negb (truthy_str (selectedElectionId s)) || verifying s) ClickTamper;
   Field "Upload export.json" EmptyString (verifying s)
     (fun u => match u with UploadFile _ => true | _ => false end)].

(*@ dashboard/app/(public)/verify/page.tsx 324 524 IndependentVerificationPage *)
Definition render (s : state) : list (node ui) :=
  control_panel s ++ summary_banner s ++ flat_map checkpoint_row (checkpoints s).

Definition verifier : component state ui env := mk_component render on_ui on_surroundings.

End PublicVerify.
