(* ===== verification/PublicVerifyFacts.v ===== *)
(** * Correctness of the public verifier

    What the nine checkpoints decide about an archive, what they cannot see, and how the
    page presents the verdict. *)
From Stdlib Require Import Sorting.Sorted.
From stdpp Require Import sorting.
From S2P Require Import Prelude Tally JsValue JsNumber Types ApiClient View React Spinner PublicVerify.
From Stdlib Require Import Ascii String.
Open Scope Z_scope.
Import PublicVerify.

#[export] Hint Unfold on_ui on_surroundings loadElectionsList runVerificationOnData
  handleFetchAndVerify handleSimulateTamper handleFileUpload alert : prog.

(** ** Reference notions *)

(** The sequence numbers of one device, in archive order. *)
Definition seqs_of (d : string) (bs : list BallotExportItem) : list Z :=
  omap (fun b => if String.eqb (b_device_id b) d then Some (b_sequence_number b) else None) bs.

Definition roster (data : ElectionExportResponse) : list string := map cx_id (candidates_of data).

(** Number of ballots for a candidate; number of ballots for candidates outside a roster. *)
Definition votes_for (c : string) (bs : list BallotExportItem) : Z :=
  occurrences c (map b_candidate_id bs).

Definition stray (ids : list string) (bs : list BallotExportItem) : Z :=
  strays ids (map b_candidate_id bs).

(** A log whose entries have 64-character hashes, each linked to the one before. *)
Definition linked (log : list AuditExportItem) : Prop :=
  (forall e, In e log -> String.length (ax_entry_hash e) = 64%nat)
  /\ forall i p e, log !! i = Some p -> log !! S i = Some e ->
       ax_previous_hash e = Some (ax_entry_hash p).

(** ** The checks against the notions *)

Lemma hash_ok_length h : hash_ok h = true <-> String.length h = 64%nat.
Proof.
  unfold hash_ok. rewrite andb_true_iff, truthy_str_true, Z.eqb_eq. split; [lia |].
  intros H. split; [by intros -> | lia].
Qed.

Lemma increasing_sorted l : increasing l = true <-> StronglySorted Z.lt l.
Proof.
  split.
  - intros H. apply Sorted_StronglySorted; [intros x y z; lia |].
    induction l as [|a [|b l] IH]; [constructor | by repeat constructor |].
    simpl in H. reflect_bool. constructor; [by apply IH | constructor; lia].
  - induction 1 as [|a l Hl IH Ha]; [done |]. destruct l as [|b l]; [done |].
    simpl in *. rewrite IH, andb_true_r. inversion Ha; subst. apply negb_true_iff, Z.leb_gt. lia.
Qed.

Lemma deviceSequences_lookup d bs :
  deviceSequences bs !! d = match seqs_of d bs with [] => None | l => Some l end.
Proof.
  unfold deviceSequences.
  enough (forall m : gmap string (list Z), fold_left (fun m b => <[b_device_id b := default [] (m !! b_device_id b) ++ [b_sequence_number b]]> m) bs m !! d
            = match seqs_of d bs with [] => m !! d | l => Some (default [] (m !! d) ++ l) end) as H.
  { rewrite H, lookup_empty. by destruct (seqs_of d bs). }
  induction bs as [|b bs IH]; intros m; simpl; [done |]. rewrite IH. unfold seqs_of. simpl.
  destruct (String.eqb_spec (b_device_id b) d) as [<-|Hne].
  - rewrite lookup_insert_eq. simpl. fold (seqs_of (b_device_id b) bs).
    destruct (seqs_of (b_device_id b) bs); [done | by rewrite <- app_assoc].
  - by rewrite lookup_insert_ne.
Qed.

Lemma seqValid_spec bs : seqValid bs = true <-> forall d, StronglySorted Z.lt (seqs_of d bs).
Proof.
  unfold seqValid. rewrite forallb_forall. split.
  - intros H d. pose proof (deviceSequences_lookup d bs) as Hd.
    destruct (seqs_of d bs) as [|x l] eqn:E; [constructor |].
    apply increasing_sorted. apply (H (d, x :: l)). by apply list_elem_of_In, elem_of_map_to_list.
  - intros H [d l] Hin. apply list_elem_of_In, elem_of_map_to_list in Hin.
    rewrite deviceSequences_lookup in Hin. simpl.
    apply increasing_sorted. destruct (seqs_of d bs) eqn:E; simplify_eq. rewrite <- E. apply H.
Qed.

Lemma sum_deviceRecount bs : sum_values (deviceRecount bs) = len bs.
Proof.
  unfold deviceRecount. rewrite (fold_left_map (fun m x => bump_new x m) b_device_id), tally_new_sum.
  unfold len. by rewrite length_map.
Qed.

(** The recount of a listed candidate is the number of ballots for it. *)
Lemma candidateRecount_lookup cs bs c :
  candidateRecount cs bs !! c
  = if str_in c (map cx_id cs) then Some (votes_for c bs) else None.
Proof.
  unfold candidateRecount. rewrite (fold_left_map (fun m x => bump x m) b_candidate_id).
  apply tally_lookup.
Qed.

Lemma sum_candidateRecount cs bs :
  sum_values (candidateRecount cs bs) = len bs - stray (map cx_id cs) bs.
Proof.
  unfold candidateRecount. rewrite (fold_left_map (fun m x => bump x m) b_candidate_id), tally_sum.
  unfold len. by rewrite length_map.
Qed.

Lemma stray_zero ids bs : stray ids bs = 0 <-> forall b, In b bs -> In (b_candidate_id b) ids.
Proof.
  unfold stray. rewrite strays_zero. split; [intros H b Hb; apply H, in_map_iff; eauto |].
  intros H k (b & <- & Hb)%in_map_iff. auto.
Qed.

Lemma reconciliation_spec data :
  reconciliationPassed data = true <-> forall b, In b (ballots_of data) -> In (b_candidate_id b) (roster data).
Proof.
  unfold reconciliationPassed. rewrite sum_deviceRecount, sum_candidateRecount, Z.eqb_refl, andb_true_r.
  rewrite Z.eqb_eq, <- stray_zero. unfold roster. lia.
Qed.

Lemma chain_from_spec prev log :
  chain_from prev log = true <->
  linked log /\ match prev, log with
                | Some p, e :: _ => ax_previous_hash e = Some (ax_entry_hash p)
                | _, _ => True
                end.
Proof.
  revert prev. induction log as [|e log IH]; intros prev; simpl.
  { split; [intros _; split; [by split | by destruct prev] | done]. }
  destruct (hash_ok (ax_entry_hash e)) eqn:Eh; cbn [negb].
  2: { split; [done |]. intros [[H _] _]. rewrite (proj2 (hash_ok_length _)) in Eh; [done |].
       apply H. by left. }
  apply hash_ok_length in Eh.
  assert (linked (e :: log) <-> linked log /\ match log with
            e' :: _ => ax_previous_hash e' = Some (ax_entry_hash e) | [] => True end) as Hl.
  { unfold linked. split.
    - intros [H1 H2]. split_and!.
      + intros e' He'. apply H1. by right.
      + intros i p e' Hp He'. exact (H2 (S i) p e' Hp He').
      + destruct log as [|e' log]; [done |]. by apply (H2 0%nat).
    - intros [[H1 H2] H3]. split; [intros e' [<-|He']; auto |].
      intros [|i] p e' Hp He'; [| exact (H2 i p e' Hp He')].
      simpl in Hp, He'. simplify_eq. destruct log as [|e1 log]; simplify_eq/=; done. }
  rewrite Hl. destruct prev as [p|].
  - destruct (bool_decide _) eqn:Eb; reflect_bool; cbn [negb].
    + rewrite IH. tauto.
    + split; [done | by intros [_ ?]].
  - rewrite IH. tauto.
Qed.

Lemma auditChain_spec log : auditChainValid log = true <-> linked log.
Proof. unfold auditChainValid. rewrite chain_from_spec. tauto. Qed.

Lemma ballotHashes_spec bs :
  ballotHashesValid bs = true <-> forall b, In b bs -> String.length (b_ballot_hash b) = 64%nat.
Proof.
  unfold ballotHashesValid. rewrite forallb_forall. split; intros H b Hb; by apply hash_ok_length, H.
Qed.

Lemma seqs_of_app d bs1 bs2 : seqs_of d (bs1 ++ bs2) = seqs_of d bs1 ++ seqs_of d bs2.
Proof. unfold seqs_of. apply omap_app. Qed.

Lemma seqs_of_order d bs i j b1 b2 :
  (i < j)%nat -> bs !! i = Some b1 -> bs !! j = Some b2 ->
  b_device_id b1 = d -> b_device_id b2 = d ->
  StronglySorted Z.lt (seqs_of d bs) -> b_sequence_number b1 < b_sequence_number b2.
Proof.
  intros Hij H1 H2 <- E2 Hs.
  assert (In b2 (drop (S i) bs)) as Hin.
  { apply list_elem_of_In. apply list_elem_of_lookup. exists (j - S i)%nat.
    rewrite lookup_drop. by replace (S i + (j - S i))%nat with j by lia. }
  rewrite <- (take_drop_middle bs i b1 H1), seqs_of_app in Hs. simpl in Hs.
  unfold seqs_of at 2 in Hs. simpl in Hs. rewrite String.eqb_refl in Hs. fold (seqs_of (b_device_id b1) (drop (S i) bs)) in Hs.
  apply StronglySorted_app_1_r in Hs. inversion Hs as [|? ? _ Hall]; subst.
  rewrite Forall_forall in Hall. apply Hall, list_elem_of_omap. exists b2.
  split; [by apply list_elem_of_In |]. by rewrite E2, String.eqb_refl.
Qed.

Lemma allPassed_spec data :
  allPassed data = true <->
  (hasEnvelope data = true /\ configHashValid data = true)
  /\ (forall b, In b (ballots_of data) ->
        String.length (b_ballot_hash b) = 64%nat /\ In (b_candidate_id b) (roster data))
  /\ (forall d, StronglySorted Z.lt (seqs_of d (ballots_of data)))
  /\ linked (audit_of data)
  /\ is_Some (x_manifest data).
Proof.
  unfold allPassed. rewrite !andb_true_iff, ballotHashes_spec, seqValid_spec, reconciliation_spec,
    auditChain_spec. unfold hasManifest. rewrite bool_decide_eq_true.
  split; [naive_solver |]. intros ((? & ?) & Hb & ? & ? & ?).
  split_and!; try done; intros b Hin; by apply Hb.
Qed.

(** ** The page *)

(** What is displayed together belongs to one archive. *)
Definition Inv (s : state) : Prop :=
  forall o, overallStatus s = Some o ->
  exists data, checkpoints s = results data /\ recountedStats s = Some (stats data) /\ o = verdict data.

Definition Sends (s : state) (r : req) : Prop :=
  match r with
  | getElections t => truthy_opt t = true
  | getTransparencyElections => True
  | exportElection e t => truthy_str e = true /\ verifying s = true
  | _ => False
  end.

Ltac inv_auto :=
  wp_auto; reflect_bool; unfold Inv in *; cbn in *;
  first [ done | intros ? ?; simplify_eq; by eauto 6 | by eauto ].

Lemma verifier_safe : safe_component verifier Inv Sends (fun _ => True).
Proof.
  split.
  - intros u s _ HI Hu. clear Hu. unfold verifier. cbn [on_user]. destruct u; inv_auto.
  - intros x s _ HI. unfold verifier. cbn [on_env]. destruct x; inv_auto.
Qed.

(** Uploads on which a check throws. *)
Definition throwing (f : upload) : bool :=
  match f with JsonNull | Json (Throwing _ _ _) => true | _ => false end.

(** Any event but such an upload. *)
Definition sane (e : event ui env) : Prop :=
  match e with User (UploadFile f) => throwing f = false | _ => True end.

Lemma verifier_lowers_verifying :
  lowering_component verifier (fun _ => True) sane verifying.
Proof.
  split.
  - intros u s HP _ _. unfold lowers, verifier. cbn [on_user].
    destruct u as [v| | |[| |[d|? ? ?]]]; try done; low_auto.
  - intros x s _ _. unfold lowers, verifier. cbn [on_env]. destruct x; low_auto.
Qed.

Lemma verifier_lowers_loading P :
  lowering_component verifier (fun _ => True) P
    (fun s => mounted s && loadingElections s).
Proof.
  split.
  - intros u s _ _ _. unfold lowers, verifier. cbn [on_user].
    destruct u as [v| | |[| |[d|? ? ?]]]; low_auto.
  - intros x s _ _. unfold lowers, verifier. cbn [on_env]. destruct x; low_auto.
Qed.

(** ** A small archive *)

Definition h64 (c : ascii) : string := Nat.iter 64 (String c) EmptyString.

Definition ballot (id d c : string) (seq : Z) : BallotExportItem :=
  {| b_id := id; b_session_id := "S"; b_device_id := d; b_candidate_id := c;
     b_sequence_number := seq; b_ballot_hash := h64 "a"%char; b_recorded_at := EmptyString |}.

Definition entry (n : Z) (prev : option string) (h : string) : AuditExportItem :=
  {| ax_id := "A"; ax_sequence_number := n; ax_event_type := "BALLOT_RECORDED"; ax_event_data := None;
     ax_actor := None; ax_device_id := None; ax_timestamp := EmptyString;
     ax_previous_hash := prev; ax_entry_hash := h |}.

Definition listed (id name : string) : CandidateExportItem :=
  {| cx_id := id; cx_name := name; cx_party := None; cx_symbol := None; cx_position := 1 |}.

Definition archive (ballots : list BallotExportItem) (log : list AuditExportItem)
    (signature : option string) : ElectionExportResponse :=
  {| x_export_version := Some "1.0"%string; x_exported_at := None;
     x_election := Some {| em_id := "E1"; em_name := "Demo"; em_description := None;
       em_state := "CLOSED"; em_configuration_hash := Some (h64 "c"%char); em_total_ballots := 3;
       em_created_at := EmptyString; em_locked_at := None; em_opened_at := None;
       em_closed_at := None; em_published_at := None |};
     x_candidates := Some [listed "C001" "Asha"; listed "C002" "Bimal"];
     x_devices := None; x_ballots := Some ballots; x_audit_log := Some log;
     x_manifest := Some {| xm_total_ballots := 3; xm_digital_signature := signature |};
     x_export_hash := None |}.

Definition three_ballots : list BallotExportItem :=
  [ballot "B1" "D1" "C001" 1; ballot "B2" "D2" "C002" 1; ballot "B3" "D1" "C001" 2].

Definition two_entries : list AuditExportItem :=
  [entry 1 None (h64 "1"%char); entry 2 (Some (h64 "1"%char)) (h64 "2"%char)].

Definition sound : ElectionExportResponse := archive three_ballots two_entries (Some "sig"%string).

(** When the page offers each control. *)
Definition enabled (u : ui) (s : state) : bool :=
  match u with
  | SelectElection v =>
      negb (loadingElections s || verifying s) && str_in v (map er_id (elections s))
  | ClickVerify | ClickTamper => truthy_str (selectedElectionId s) && negb (verifying s)
  | UploadFile _ => negb (verifying s)
  end.

Lemma allows_rows u rows : allows (flat_map checkpoint_row rows) u = false.
Proof.
  induction rows as [|r rows IH]; [done |]. cbn [flat_map]. rewrite allows_app, IH, orb_false_r.
  unfold checkpoint_row. rewrite !allows_app, allows_when. by destruct (truthy_str _).
Qed.

Lemma allows_banner u s : allows (summary_banner s) u = false.
Proof.
  unfold summary_banner. rewrite allows_app, allows_when.
  destruct (isTamperDemo s && _); by destruct (overallStatus s) as [[]|], (recountedStats s).
Qed.

Lemma allows_verifier u s : allows (render s) u = enabled u s.
Proof.
  unfold render. rewrite !allows_app, allows_rows, allows_banner, !orb_false_r.
  unfold control_panel. destruct u; read_page; cbn [enabled]; rewrite ?negb_orb; try done.
Qed.

Lemma verifier_click w u :
  enabled u (st w) = true -> step verifier w (User u) = Some (exec (on_ui u (st w)) w).
Proof.
  intros H. unfold step. change (allows _ u) with (allows (render (st w)) u).
  by rewrite allows_verifier, H.
Qed.

(** ** The properties *)

(** C2. The verdict of the public verifier: PASSED exactly when the archive has its
    top-level keys, a configuration hash and a manifest, every ballot has a 64-character
    hash and a listed candidate, each device's sequence numbers strictly increase, and every
    audit entry has a 64-character hash and names its predecessor's. *)
Theorem verifier_verdict data :
  verdict data = Overall_PASSED <->
  (hasEnvelope data = true /\ configHashValid data = true)
  /\ (forall b, In b (ballots_of data) ->
        String.length (b_ballot_hash b) = 64%nat /\ In (b_candidate_id b) (roster data))
  /\ (forall d, StronglySorted Z.lt (seqs_of d (ballots_of data)))
  /\ linked (audit_of data)
  /\ is_Some (x_manifest data).
Proof.
  unfold verdict. rewrite <- allPassed_spec. by destruct (allPassed data).
Qed.

(** C14. The recount: each listed candidate gets exactly the number of ballots cast for them,
    nobody else gets any, and the reported drift is the number of ballots cast for
    candidates that are not listed. *)
Theorem verifier_recount data c :
  candidateRecount (candidates_of data) (ballots_of data) !! c
  = (if str_in c (roster data) then Some (votes_for c (ballots_of data)) else None)
  /\ sum_values (deviceRecount (ballots_of data)) = len (ballots_of data)
  /\ drift data = stray (roster data) (ballots_of data).
Proof.
  split_and!.
  - apply candidateRecount_lookup.
  - apply sum_deviceRecount.
  - unfold drift. rewrite sum_candidateRecount. fold (roster data).
    pose proof (strays_nonneg (roster data) (map b_candidate_id (ballots_of data))). unfold stray. lia.
Qed.

(** The nine rows and the verdict agree: the verdict is PASSED exactly when no row is
    FAILED, and a PENDING row, which the unsigned manifest gets, does not count. *)
Theorem verifier_rows_agree data :
  map ck_id (results data)
  = ["envelope"; "config_hash"; "ballot_hashes"; "device_sequence"; "candidate_totals";
     "device_totals"; "reconciliation"; "audit_chain"; "digital_signature"]%string
  /\ (verdict data = Overall_PASSED <->
      forall row, In row (results data) -> ck_status row <> FAILED)
  /\ (forall row, In row (results data) -> ck_status row = PENDING ->
      hasManifest data = true /\ hasSignature data = false).
Proof.
  assert (forall b, pass_if b <> FAILED <-> b = true) as Hp by by intros [].
  assert (forall Q : CheckStatus -> Prop, (forall row, In row (results data) -> Q (ck_status row))
            <-> Forall Q (map ck_status (results data))) as Hall.
  { intros Q. rewrite Forall_fmap, Forall_forall. by setoid_rewrite list_elem_of_In. }
  split_and!; [reflexivity | |].
  - rewrite (Hall (fun c => c <> FAILED)). unfold verdict, allPassed, results. cbn [map ck_status].
    rewrite !Forall_cons, Forall_nil, !Hp.
    assert ((if hasSignature data then PASSED else if hasManifest data then PENDING else FAILED)
            <> FAILED <-> hasManifest data = true) as ->.
    { unfold hasSignature, hasManifest. destruct (x_manifest data) as [m|]; [| done].
      by destruct (truthy_opt (xm_digital_signature m)). }
    assert (forall b : bool, (if b then Overall_PASSED else Overall_FAILED) = Overall_PASSED <-> b = true)
      as -> by by intros [].
    assert (PASSED <> FAILED) by done. rewrite !andb_true_iff. tauto.
  - apply (Hall (fun c => c = PENDING -> hasManifest data = true /\ hasSignature data = false)).
    unfold results. cbn [map ck_status]. rewrite !Forall_cons, Forall_nil.
    assert (forall b, pass_if b <> PENDING) as Hq by by intros [].
    split_and!; try done; try (by intros ?%Hq).
    by destruct (hasSignature data), (hasManifest data).
Qed.

(** Replayed or reordered ballots are caught: if a later ballot of a device does not have
    a greater sequence number, the verdict is FAILED. *)
Theorem verifier_detects_replay data i j b1 b2 :
  (i < j)%nat -> ballots_of data !! i = Some b1 -> ballots_of data !! j = Some b2 ->
  b_device_id b1 = b_device_id b2 -> b_sequence_number b2 <= b_sequence_number b1 ->
  verdict data = Overall_FAILED.
Proof.
  intros Hij H1 H2 Hd Hle. unfold verdict. destruct (allPassed data) eqn:E; [| done].
  apply allPassed_spec in E as (_ & _ & Hs & _).
  pose proof (seqs_of_order (b_device_id b1) _ i j b1 b2 Hij H1 H2 eq_refl (eq_sym Hd) (Hs _)). lia.
Qed.

(** The tamper demonstration works on an archive with two audit entries: its mutated
    copy is FAILED, unless the first entry's hash happens to be the forged value. *)
Theorem verifier_tamper_demo data e0 e1 log :
  x_audit_log data = Some (e0 :: e1 :: log) -> ax_entry_hash e0 <> DEADBEEF ->
  verdict (tampered data) = Overall_FAILED.
Proof.
  intros Hlog Hne. unfold verdict. destruct (allPassed (tampered data)) eqn:E; [| done].
  apply allPassed_spec in E as (_ & _ & _ & [_ Hlink] & _).
  unfold tampered in Hlink. rewrite Hlog in Hlink. unfold audit_of in Hlink. simpl in Hlink.
  specialize (Hlink 0%nat e0 _ eq_refl eq_refl). simpl in Hlink. congruence.
Qed.

(** With fewer than two audit entries the demonstration overwrites a ballot hash by
    another 64-character string, and the verifier, whose row claims to recompute the hash,
    does not notice: the verdict does not change. *)
Theorem verifier_misses_forged_ballot_hash data :
  (List.length (audit_of data) < 2)%nat -> verdict data = Overall_PASSED ->
  verdict (tampered data) = Overall_PASSED.
Proof.
  unfold verdict. destruct (allPassed data) eqn:E; [| done]. intros Hlen _.
  enough (allPassed (tampered data) = true) as -> by done.
  apply allPassed_spec. apply allPassed_spec in E as ((He & Hc) & Hb & Hs & Hl & Hm).
  assert (tampered data = match x_ballots data with
            | Some (b :: bs) =>
                with_records data (Some (with_ballot_hash FFFFFFFF b :: bs)) (x_audit_log data)
            | _ => data end) as ->.
  { unfold tampered. unfold audit_of in Hlen.
    destruct (x_audit_log data) as [[|? [|? ?]]|]; simpl in *; try done; lia. }
  assert (forall bs b, x_ballots data = Some (b :: bs) ->
    let d := with_records data (Some (with_ballot_hash FFFFFFFF b :: bs)) (x_audit_log data) in
    hasEnvelope d = true /\ (forall b, In b (ballots_of d) ->
        String.length (b_ballot_hash b) = 64%nat /\ In (b_candidate_id b) (roster d))
    /\ forall d', StronglySorted Z.lt (seqs_of d' (ballots_of d))) as Hforged.
  { intros bs b Hx d. split_and!.
    - unfold hasEnvelope in *. simpl. rewrite Hx in He. exact He.
    - unfold ballots_of in Hb. rewrite Hx in Hb. intros b' [<-|Hin]; simpl in *.
      + split; [done |]. by apply (Hb b (or_introl eq_refl)).
      + by apply Hb; right.
    - intros d'. specialize (Hs d'). unfold ballots_of in Hs. rewrite Hx in Hs. exact Hs. }
  destruct (x_ballots data) as [[|b bs]|] eqn:Ex; [done | | done].
  by destruct (Hforged bs b eq_refl) as (? & ? & ?).
Qed.

(** C20. What the verifier cannot see: reassigning ballots to other listed candidates, with
    any 64-character hashes, never changes a PASSED verdict, although the third row claims
    to recompute each hash from the candidate. *)
Theorem verifier_accepts_rewritten_votes data ballots :
  verdict data = Overall_PASSED -> x_ballots data <> None ->
  map (fun b => (b_device_id b, b_sequence_number b)) ballots
  = map (fun b => (b_device_id b, b_sequence_number b)) (ballots_of data) ->
  (forall b, In b ballots ->
     String.length (b_ballot_hash b) = 64%nat /\ In (b_candidate_id b) (roster data)) ->
  verdict (with_records data (Some ballots) (x_audit_log data)) = Overall_PASSED.
Proof.
  unfold verdict. destruct (allPassed data) eqn:E; [| done]. intros _ Hx Hsame Hb.
  enough (allPassed (with_records data (Some ballots) (x_audit_log data)) = true) as -> by done.
  apply allPassed_spec. apply allPassed_spec in E as ((He & Hc) & _ & Hs & Hl & Hm).
  split_and!; try done.
  - unfold hasEnvelope in *. simpl in *. destruct (x_ballots data); done.
  - intros d. specialize (Hs d). change (ballots_of (with_records _ _ _)) with ballots.
    enough (forall l1 l2 : list BallotExportItem,
      map (fun b => (b_device_id b, b_sequence_number b)) l1
      = map (fun b => (b_device_id b, b_sequence_number b)) l2 ->
      seqs_of d l1 = seqs_of d l2) as H by by rewrite (H _ _ Hsame).
    unfold seqs_of. induction l1 as [|b1 l1 IH]; intros [|b2 l2]; try done.
    intros [= Hd Hq Hr]. cbn. by rewrite Hd, Hq, (IH l2 Hr).
Qed.

(** C24. Rows, recount and verdict on the page always belong to one and the same archive, in
    every interleaving of clicks, uploads, answers and delays. *)
Theorem verifier_display_consistent t w :
  reachable verifier (fun _ => True) (initial t) w ->
  forall o, overallStatus (st w) = Some o ->
  exists data, checkpoints (st w) = results data /\ recountedStats (st w) = Some (stats data)
    /\ o = verdict data.
Proof.
  intros Hw. apply (good_inv Inv Sends w).
  by apply (reachable_good verifier Inv Sends (fun _ => True) verifier_safe (initial t) w).
Qed.

(** C37. The page is not left loading: when no request, delay or file is pending, neither
    spinner shows, provided no file was uploaded that is JSON on which a check throws: [null],
    or an archive with, say, [null] among its ballots. *)
Theorem verifier_not_left_loading t w :
  reachable verifier sane (initial t) w -> idle w = true ->
  verifying (st w) = false /\ (mounted (st w) = true -> loadingElections (st w) = false).
Proof.
  intros Hw Hidle. split.
  - by apply (never_left_busy verifier sane verifying (initial t) w verifier_lowers_verifying).
  - intros Hm.
    pose proof (never_left_busy verifier sane (fun s => mounted s && loadingElections s) (initial t) w
                  (verifier_lowers_loading sane) eq_refl Hw Hidle) as Hb.
    cbn beta in Hb. by rewrite Hm in Hb.
Qed.

(** Such an upload leaves the page loading for good, with a message that the file is not
    valid JSON: nothing is pending, and no control is enabled any more. *)
Theorem verifier_null_upload_blocks f :
  throwing f = true ->
  exists w, run verifier (boot (set_loadingElections false (initial None)))
              [User (UploadFile f); Fire 0; Tick 600; Fire 1] = Some w
    /\ tasks w = [] /\ alerts (st w) = ["Invalid JSON election archive file."%string]
    /\ forall u, allows (render (st w)) u = false.
Proof.
  intros Hf. destruct f as [| |[|]]; try done;
    (eexists; split; [vm_compute; reflexivity |]; split; [done |]; split; [done |]; intros u;
     rewrite allows_verifier; destruct u; simpl; by rewrite ?andb_false_r).
Qed.

Lemma verifier_null_upload_blocks_witness :
  exists w, run verifier (boot (set_loadingElections false (initial None)))
      [User (UploadFile (Json (Throwing "Cannot read properties of null (reading 'ballot_hash')" EmptyString false)));
       Fire 0; Tick 600; Fire 1] = Some w
    /\ verifying (st w) = true.
Proof.
  edestruct verifier_null_upload_blocks as (w & H1 & _ & _ & H2); [| exists w; split; [exact H1 |]]; [reflexivity |].
  revert H1. vm_compute. by intros [= <-].
Defined.

(** Fetch & Verify: from a quiet page with a selected election, the export is asked for
    with the officer's token and, 600 milliseconds after it arrives, its nine rows, its
    recount and its verdict are shown and the controls are enabled again. *)
Theorem verifier_fetch_and_verify w data answer :
  tasks w = [] -> verifying (st w) = false -> truthy_str (selectedElectionId (st w)) = true ->
  (forall e t, answer (One (exportElection e t)) = Ok data) ->
  exists w', run verifier w [User ClickVerify; Reply (fresh w) answer; Tick 600; Fire (S (fresh w))] = Some w'
    /\ tasks w' = [] /\ verifying (st w') = false /\ isTamperDemo (st w') = false
    /\ checkpoints (st w') = results data /\ recountedStats (st w') = Some (stats data)
    /\ overallStatus (st w') = Some (verdict data) /\ alerts (st w') = alerts (st w)
    /\ map snd (sent w')
       = map snd (sent w) ++ [exportElection (selectedElectionId (st w)) (token (st w))].
Proof.
  destruct w as [s n f ts snt unc]. cbn [st tasks fresh sent]. intros -> Hv Hsel Ha.
  do 4 (run_next verifier_click ltac:(cbn; by rewrite Hv, Hsel)).
  eexists. split; [reflexivity |]. cbn. split_and!; try done. by rewrite map_app.
Qed.

(** ** Witnesses *)

Lemma verifier_detects_replay_witness :
  verdict (archive (three_ballots ++ [ballot "B4" "D1" "C001" 2]) two_entries None) = Overall_FAILED.
Proof.
  apply (verifier_detects_replay _ 2 3 (ballot "B3" "D1" "C001" 2) (ballot "B4" "D1" "C001" 2));
    first [reflexivity | lia | simpl; lia].
Defined.

Lemma verifier_tamper_demo_witness :
  verdict sound = Overall_PASSED /\ verdict (tampered sound) = Overall_FAILED.
Proof.
  split; [vm_compute; reflexivity |].
  apply (verifier_tamper_demo sound (entry 1 None (h64 "1"%char))
           (entry 2 (Some (h64 "1"%char)) (h64 "2"%char)) []); [reflexivity | discriminate].
Defined.

Lemma verifier_misses_forged_ballot_hash_witness :
  let one := archive three_ballots [entry 1 None (h64 "1"%char)] None in
  tampered one <> one /\ verdict (tampered one) = Overall_PASSED.
Proof.
  intros one. split; [discriminate |].
  apply (verifier_misses_forged_ballot_hash one); [simpl; lia | vm_compute; reflexivity].
Defined.

Definition stolen : list BallotExportItem :=
  [ballot "B1" "D1" "C002" 1; ballot "B2" "D2" "C002" 1; ballot "B3" "D1" "C002" 2].

Lemma verifier_accepts_rewritten_votes_witness :
  votes_for "C002" stolen = 3 /\ votes_for "C002" three_ballots = 1
  /\ verdict (archive stolen two_entries (Some "sig"%string)) = Overall_PASSED.
Proof.
  split; [reflexivity |]. split; [reflexivity |].
  apply (verifier_accepts_rewritten_votes sound stolen);
    [vm_compute; reflexivity | discriminate | reflexivity |].
  intros b [<-|[<-|[<-|[]]]]; (split; [reflexivity | vm_compute; auto]).
Defined.

Definition quiet : world state := boot (set_selectedElectionId "E1" (initial None)).

Definition exported : forall q, outcome (qresp q) :=
  answers (fun r => match r as r return outcome (resp r) with
                    | exportElection _ _ => Ok sound
                    | _ => Err (plain_error "Error" "offline")
                    end).

Lemma verifier_fetch_and_verify_witness :
  exists w', run verifier quiet [User ClickVerify; Reply 0 exported; Tick 600; Fire 1] = Some w'
    /\ overallStatus (st w') = Some Overall_PASSED.
Proof.
  destruct (verifier_fetch_and_verify quiet sound exported) as (w' & H1 & _ & _ & _ & _ & _ & H2 & _);
    [reflexivity | reflexivity | reflexivity | intros; reflexivity |].
  exists w'. split; [exact H1 |]. rewrite H2. vm_compute. reflexivity.
Defined.

Definition uploaded : world state :=
  match run verifier (boot (initial None)) [User (UploadFile (Json (Typed sound))); Fire 0; Tick 600; Fire 1] with
  | Some w => w
  | None => quiet
  end.

Lemma reachable_uploaded (P : event ui env -> Prop) :
  P (User (UploadFile (Json (Typed sound)))) -> (forall i, P (Fire i)) -> (forall ms, P (Tick ms)) ->
  reachable verifier P (initial None) uploaded.
Proof.
  intros H1 H2 H3.
  eapply (reachable_run verifier P (initial None) (boot (initial None))
            [User (UploadFile (Json (Typed sound))); Fire 0; Tick 600; Fire 1]);
    [constructor | by repeat constructor |]. vm_compute. reflexivity.
Qed.

Lemma verifier_display_consistent_witness :
  exists data, checkpoints (st uploaded) = results data /\ Overall_PASSED = verdict data.
Proof.
  destruct (verifier_display_consistent None uploaded
              (reachable_uploaded (fun _ => True) I (fun _ => I) (fun _ => I)) Overall_PASSED)
    as (data & H1 & _ & H2); [vm_compute; reflexivity |].
  exists data. split; [exact H1 | exact H2].
Defined.

Lemma verifier_not_left_loading_witness : verifying (st uploaded) = false.
Proof.
  apply (verifier_not_left_loading None uploaded
           (reachable_uploaded sane eq_refl (fun _ => I) (fun _ => I))). vm_compute. reflexivity.
Defined.
