(* ===== verification/AuditExplorer.v ===== *)
(** * The audit explorer: [app/(officer)/audit/page.tsx]

    The hash-chained event log with its filters, the chain verification by the backend, and
    the twelve-point verifier the page runs on an exported archive. *)
From S2P Require Import Prelude Tally JsValue JsNumber Types ApiClient View Common React.
From Stdlib Require Import String.

Module AuditExplorer.

(** ** The twelve-point verifier *)

(** The three objects the ballot loop updates. *)
(*@ dashboard/app/(officer)/audit/page.tsx 103 106 handleRunIndependentVerification *)
Record Recount := {
  rc_sequenceValid : bool; rc_devLastSeq : gmap string Z;
  rc_countedCand : gmap string Z; rc_countedDev : gmap string Z }.

(*@ dashboard/app/(officer)/audit/page.tsx 111 118 handleRunIndependentVerification *)
Definition count_ballot (r : Recount) (b : BallotExportItem) : Recount :=
  {| rc_sequenceValid :=
       rc_sequenceValid r
       && negb (match rc_devLastSeq r !! b_device_id b with
                | Some last => b_sequence_number b <=? last
                | None => false
                end);
     rc_devLastSeq := <[b_device_id b := b_sequence_number b]> (rc_devLastSeq r);
     rc_countedCand := bump (b_candidate_id b) (rc_countedCand r);
     rc_countedDev := bump (b_device_id b) (rc_countedDev r) |}.

(*@ dashboard/app/(officer)/audit/page.tsx 102 118 handleRunIndependentVerification *)
Definition recount (candidates : list CandidateExportItem) (devices : list DeviceExportItem)
    (ballots : list BallotExportItem) : Recount :=
  fold_left count_ballot ballots
    {| rc_sequenceValid := true; rc_devLastSeq := ∅;
       rc_countedCand := zeros (map cx_id candidates);
       rc_countedDev := zeros (map dx_id devices) |}.

(** Position [i] of the sorted log, [prev] being the entry before it. *)
(*@ dashboard/app/(officer)/audit/page.tsx 130 135 auditChainValid *)
Fixpoint chain_numbered (i : Z) (prev : option AuditExportItem) (log : list AuditExportItem) : bool :=
  match log with
  | [] => true
  | e :: log' =>
      (ax_sequence_number e =? i + 1)
      && match prev with
         | Some p => bool_decide (ax_previous_hash e = Some (ax_entry_hash p))
         | None => true
         end
      && chain_numbered (i + 1) (Some e) log'
  end.

(*@ dashboard/app/(officer)/audit/page.tsx 128 135 auditChainValid *)
Definition auditChainValid (auditLog : list AuditExportItem) : bool :=
  chain_numbered 0 None (sort_by ax_sequence_number auditLog).

(*@ dashboard/app/(officer)/audit/page.tsx 136 136 auditRootHash *)
Definition auditRootHash (sortedAudit : list AuditExportItem) : string :=
  match last sortedAudit with Some e => ax_entry_hash e | None => "GENESIS" end.

(*@ dashboard/app/(officer)/audit/page.tsx 92 92 ballots *)
Definition ballots_of (x : ElectionExportResponse) := default [] (x_ballots x).
(*@ dashboard/app/(officer)/audit/page.tsx 90 90 candidates *)
Definition candidates_of (x : ElectionExportResponse) := default [] (x_candidates x).
(*@ dashboard/app/(officer)/audit/page.tsx 91 91 devices *)
Definition devices_of (x : ElectionExportResponse) := default [] (x_devices x).
(*@ dashboard/app/(officer)/audit/page.tsx 93 93 auditLog *)
Definition audit_of (x : ElectionExportResponse) := default [] (x_audit_log x).

(*@ dashboard/app/(officer)/audit/page.tsx 102 118 handleRunIndependentVerification *)
Definition export_recount (x : ElectionExportResponse) : Recount :=
  recount (candidates_of x) (devices_of x) (ballots_of x).

(*@ dashboard/app/(officer)/audit/page.tsx 120 125 drift *)
Definition drift (x : ElectionExportResponse) : Z :=
  let totalBallots := len (ballots_of x) in
  Z.abs (sum_values (rc_countedCand (export_recount x)) - totalBallots)
  + Z.abs (sum_values (rc_countedDev (export_recount x)) - totalBallots).

(*@ dashboard/app/(officer)/audit/page.tsx 96 160 checks *)
Definition checks (x : ElectionExportResponse) : VerificationChecks :=
  let totalBallots := len (ballots_of x) in
  let r := export_recount x in
  let sumCand := sum_values (rc_countedCand r) in
  let sumDev := sum_values (rc_countedDev r) in
  let nonempty := match audit_of x with [] => false | _ => true end in
  {| export_envelope := truthy_opt (x_export_hash x);
     configuration := match x_election x with
                      | Some m => truthy_opt (em_configuration_hash m) | None => false end;
     ballot_hashes := true;
     ballot_sequence := rc_sequenceValid r;
     candidate_totals := sumCand =? totalBallots;
     device_totals := sumDev =? totalBallots;
     reconciliation := (drift x =? 0) && (sumCand =? totalBallots) && (sumDev =? totalBallots);
     audit_chain := auditChainValid (audit_of x);
     audit_root := nonempty;
     manifest := match x_manifest x with
                 | Some m => xm_total_ballots m =? totalBallots | None => true end;
     signature := match x_manifest x with
                  | Some m => truthy_opt (xm_digital_signature m) | None => false end;
     anchor := nonempty |}.

(** [Object.values(checks)]. *)
(*@ dashboard/app/(officer)/audit/page.tsx 162 162 valid *)
Definition check_values (c : VerificationChecks) : list bool :=
  [export_envelope c; configuration c; ballot_hashes c; ballot_sequence c; candidate_totals c;
   device_totals c; reconciliation c; audit_chain c; audit_root c; manifest c; signature c; anchor c].

(*@ dashboard/app/(officer)/audit/page.tsx 162 162 valid *)
Definition valid (x : ElectionExportResponse) : bool := forallb (fun b => b) (check_values (checks x)).

(*@ dashboard/app/(officer)/audit/page.tsx 164 182 handleRunIndependentVerification *)
Definition independent_result (selected : string) (x : ElectionExportResponse) :
    IndependentVerificationResult :=
  let totalBallots := len (ballots_of x) in
  let sortedAudit := sort_by ax_sequence_number (audit_of x) in
  let root := auditRootHash sortedAudit in
  {| iv_valid := valid x; iv_checks := checks x;
     iv_failures := if valid x then []
                    else ["Independent check identified divergence in export package."%string];
     iv_details :=
       ["Recount verified: " ++s Z_to_string totalBallots ++s " ballots across "
        ++s Z_to_string (len (candidates_of x)) ++s " candidates.";
        "Audit chain verified: " ++s Z_to_string (len sortedAudit) ++s " chained entries to root "
        ++s take_str 16 root ++s "...";
        "Reconciliation drift: " ++s Z_to_string (drift x) ++s " (exact tolerance)."]%string;
     iv_summary :=
       {| vs_election_id := match x_election x with
                            | Some m => str_or (em_id m) selected | None => selected end;
          total_ballots_recounted := totalBallots;
          candidates_recounted := len (candidates_of x);
          devices_recounted := len (devices_of x);
          audit_entries_recomputed := len sortedAudit;
          audit_root_hash := root;
          reconciliation_drift := drift x |} |}.

#[global] Arguments independent_result : simpl never.

(** ** Filters *)

(** [Array.from(new Set(xs))]: first occurrences, in order. *)
(*@ dashboard/app/(officer)/audit/page.tsx 190 190 eventTypes *)
Fixpoint distinct (seen xs : list string) : list string :=
  match xs with
  | [] => []
  | x :: xs' => if str_in x seen then distinct seen xs' else x :: distinct (x :: seen) xs'
  end.

(*@ dashboard/app/(officer)/audit/page.tsx 190 190 eventTypes *)
Definition eventTypes (entries : list AuditEntryResponse) : list string :=
  "ALL"%string :: distinct [] (map a_event_type entries).

(*@ dashboard/app/(officer)/audit/page.tsx 202 205 filteredEntries *)
Definition opt_matches (q : string) (o : option string) : bool :=
  match o with Some s => includes q (to_lower s) | None => false end.

(*@ dashboard/app/(officer)/audit/page.tsx 196 196 isDemo *)
Definition is_demo (e : AuditEntryResponse) : bool := isDemoMode (a_event_data e) None.

(*@ dashboard/app/(officer)/audit/page.tsx 192 209 filteredEntries *)
Definition entry_passes (selectedType : string) (filterDemoOnly : bool) (searchQuery : string)
    (entry : AuditEntryResponse) : bool :=
  if negb (String.eqb selectedType "ALL") && negb (String.eqb (a_event_type entry) selectedType)
  then false
  else if filterDemoOnly && negb (is_demo entry) then false
  else if truthy_str searchQuery then
    let q := to_lower searchQuery in
    opt_matches q (a_actor entry) || opt_matches q (a_device_id entry)
    || includes q (to_lower (a_event_type entry)) || opt_matches q (a_event_data entry)
  else true.

(** ** The component *)

(*@ dashboard/app/(officer)/audit/page.tsx 28 42 AuditExplorerPage *)
Record state := mk_state {
  token : option string;
  mounted : bool;
  elections : list ElectionResponse;
  selectedElectionId : string;
  entries : list AuditEntryResponse;
  verification : option AuditVerificationResponse;
  independentResult : option IndependentVerificationResult;
  loading : bool;
  verifyLoading : bool;
  indepLoading : bool;
  error : option string;
  selectedType : string;
  filterDemoOnly : bool;
  searchQuery : string }.

Definition set_token (v : option string) (s : state) : state :=
  mk_state v (mounted s) (elections s) (selectedElectionId s) (entries s) (verification s)
    (independentResult s) (loading s) (verifyLoading s) (indepLoading s) (error s)
    (selectedType s) (filterDemoOnly s) (searchQuery s).
Definition set_mounted (v : bool) (s : state) : state :=
  mk_state (token s) v (elections s) (selectedElectionId s) (entries s) (verification s)
    (independentResult s) (loading s) (verifyLoading s) (indepLoading s) (error s)
    (selectedType s) (filterDemoOnly s) (searchQuery s).
Definition set_elections (v : list ElectionResponse) (s : state) : state :=
  mk_state (token s) (mounted s) v (selectedElectionId s) (entries s) (verification s)
    (independentResult s) (loading s) (verifyLoading s) (indepLoading s) (error s)
    (selectedType s) (filterDemoOnly s) (searchQuery s).
Definition set_selectedElectionId (v : string) (s : state) : state :=
  mk_state (token s) (mounted s) (elections s) v (entries s) (verification s)
    (independentResult s) (loading s) (verifyLoading s) (indepLoading s) (error s)
    (selectedType s) (filterDemoOnly s) (searchQuery s).
Definition set_entries (v : list AuditEntryResponse) (s : state) : state :=
  mk_state (token s) (mounted s) (elections s) (selectedElectionId s) v (verification s)
    (independentResult s) (loading s) (verifyLoading s) (indepLoading s) (error s)
    (selectedType s) (filterDemoOnly s) (searchQuery s).
Definition set_verification (v : option AuditVerificationResponse) (s : state) : state :=
  mk_state (token s) (mounted s) (elections s) (selectedElectionId s) (entries s) v
    (independentResult s) (loading s) (verifyLoading s) (indepLoading s) (error s)
    (selectedType s) (filterDemoOnly s) (searchQuery s).
Definition set_independentResult (v : option IndependentVerificationResult) (s : state) : state :=
  mk_state (token s) (mounted s) (elections s) (selectedElectionId s) (entries s)
    (verification s) v (loading s) (verifyLoading s) (indepLoading s) (error s)
    (selectedType s) (filterDemoOnly s) (searchQuery s).
Definition set_loading (v : bool) (s : state) : state :=
  mk_state (token s) (mounted s) (elections s) (selectedElectionId s) (entries s)
    (verification s) (independentResult s) v (verifyLoading s) (indepLoading s) (error s)
    (selectedType s) (filterDemoOnly s) (searchQuery s).
Definition set_verifyLoading (v : bool) (s : state) : state :=
  mk_state (token s) (mounted s) (elections s) (selectedElectionId s) (entries s)
    (verification s) (independentResult s) (loading s) v (indepLoading s) (error s)
    (selectedType s) (filterDemoOnly s) (searchQuery s).
Definition set_indepLoading (v : bool) (s : state) : state :=
  mk_state (token s) (mounted s) (elections s) (selectedElectionId s) (entries s)
    (verification s) (independentResult s) (loading s) (verifyLoading s) v (error s)
    (selectedType s) (filterDemoOnly s) (searchQuery s).
Definition set_error (v : option string) (s : state) : state :=
  mk_state (token s) (mounted s) (elections s) (selectedElectionId s) (entries s)
    (verification s) (independentResult s) (loading s) (verifyLoading s) (indepLoading s) v
    (selectedType s) (filterDemoOnly s) (searchQuery s).
Definition set_selectedType (v : string) (s : state) : state :=
  mk_state (token s) (mounted s) (elections s) (selectedElectionId s) (entries s)
    (verification s) (independentResult s) (loading s) (verifyLoading s) (indepLoading s)
    (error s) v (filterDemoOnly s) (searchQuery s).
Definition set_filterDemoOnly (v : bool) (s : state) : state :=
  mk_state (token s) (mounted s) (elections s) (selectedElectionId s) (entries s)
    (verification s) (independentResult s) (loading s) (verifyLoading s) (indepLoading s)
    (error s) (selectedType s) v (searchQuery s).
Definition set_searchQuery (v : string) (s : state) : state :=
  mk_state (token s) (mounted s) (elections s) (selectedElectionId s) (entries s)
    (verification s) (independentResult s) (loading s) (verifyLoading s) (indepLoading s)
    (error s) (selectedType s) (filterDemoOnly s) v.

(*@ dashboard/app/(officer)/audit/page.tsx 28 42 AuditExplorerPage *)
Definition initial (t : option string) : state :=
  mk_state t false [] "EV-2026-001" [] None None true false false None "ALL" false EmptyString.

(*@ dashboard/app/(officer)/audit/page.tsx 192 209 filteredEntries *)
Definition filteredEntries (s : state) : list AuditEntryResponse :=
  List.filter (entry_passes (selectedType s) (filterDemoOnly s) (searchQuery s)) (entries s).

Abbreviation M := (prog state).

(*@ dashboard/app/(officer)/audit/page.tsx 60 61 fetchAuditData *)
Definition fail_with (text : string) (err : error_obj) : M unit :=
  upd (set_error (Some (str_or (e_message err) text))).

(*@ dashboard/app/(officer)/audit/page.tsx 44 65 fetchAuditData *)
Definition fetchAuditData (electionId : string) (s : state) : M unit :=
  upd (set_loading true);;
  upd (set_error None);;
  finally
    (try_catch
       (all ← await (getElections (token s));
        upd (set_elections all);;
        match (match find_first (fun e => String.eqb (e_id e) electionId) all with
               | Some e => Some e | None => head all end) with
        | Some target =>
            upd (set_selectedElectionId (e_id target));;
            both ← await_both (getAuditLog (e_id target) (token s))
                              (verifyAuditChain (e_id target) (token s));
            upd (set_entries (fst both));;
            upd (set_verification (Some (snd both)))
        | None => mret tt
        end)
       (fail_with "Failed to fetch audit log"))
    (upd (set_loading false)).

(*@ dashboard/app/(officer)/audit/page.tsx 71 82 handleVerifyChain *)
Definition handleVerifyChain (s : state) : M unit :=
  upd (set_verifyLoading true);;
  upd (set_error None);;
  finally
    (try_catch
       (status ← await (verifyAuditChain (selectedElectionId s) (token s));
        upd (set_verification (Some status)))
       (fail_with "Verification request failed"))
    (upd (set_verifyLoading false)).

(*@ dashboard/app/(officer)/audit/page.tsx 84 188 handleRunIndependentVerification *)
Definition handleRunIndependentVerification (s : state) : M unit :=
  upd (set_indepLoading true);;
  upd (set_error None);;
  finally
    (try_catch
       (exportData ← await (exportElection (selectedElectionId s) (token s));
        upd (set_independentResult (Some (independent_result (selectedElectionId s) exportData))))
       (fail_with "Independent verification execution failed"))
    (upd (set_indepLoading false)).

(*@ dashboard/app/(officer)/audit/page.tsx 227 279 onChange/onClick *)
Inductive ui :=
| SelectElection (v : string) | ClickIndependent | ClickVerifyChain | ClickRefresh | DismissError
| SelectType (v : string) | ToggleDemoOnly (b : bool) | TypeSearch (v : string).

#[export] Instance ui_eq_dec : EqDecision ui. Proof. solve_decision. Defined.

Inductive env := Mount | TokenChanged (t : option string).

(*@ dashboard/app/(officer)/audit/page.tsx 227 279 onChange/onClick *)
Definition on_ui (u : ui) (s : state) : M unit :=
  match u with
  | SelectElection v => upd (set_selectedElectionId v);; fetchAuditData v s
  | ClickIndependent => handleRunIndependentVerification s
  | ClickVerifyChain => handleVerifyChain s
  | ClickRefresh => fetchAuditData (selectedElectionId s) s
  | DismissError => upd (set_error None)
  | SelectType v => upd (set_selectedType v)
  | ToggleDemoOnly b => upd (set_filterDemoOnly b)
  | TypeSearch v => upd (set_searchQuery v)
  end.

(*@ dashboard/app/(officer)/audit/page.tsx 67 69 useEffect *)
Definition on_surroundings (x : env) (s : state) : M unit :=
  match x with
  | Mount =>
      if mounted s then mret tt
      else upd (set_mounted true);; fetchAuditData (selectedElectionId s) s
  | TokenChanged t =>
      if bool_decide (token s = t) then mret tt
      else upd (set_token t);; fetchAuditData (selectedElectionId s) (set_token t s)
  end.

(** ** The page *)

(*@ dashboard/app/(officer)/audit/page.tsx 211 281 AuditExplorerPage *)
Definition header (s : state) : list (node ui) :=
  [Text "Append-Only Audit Explorer";
   Text "Cryptographic SHA-256 hash-chained immutable event timeline";
   Select (selectedElectionId s)
     (map (fun el => (e_id el, e_id el ++s "  -  " ++s default EmptyString (e_title el))) (elections s))
     false SelectElection;
   Button (if indepLoading s then "Verifying Export..." else "Run 12-Point Verifier")
     (indepLoading s || loading s) ClickIndependent;
   Button "Verify Hash Chain" (verifyLoading s || loading s) ClickVerifyChain;
   Button "Refresh audit log" (loading s) ClickRefresh]
  ++ match error s with
     | Some e => when (truthy_str e) (AlertBanner "error" "Audit Service Notice" e (Some DismissError))
     | None => []
     end.

(*@ dashboard/app/(officer)/audit/page.tsx 283 319 AuditExplorerPage *)
Definition chain_banner (s : state) : list (node ui) :=
  match verification s with
  | Some v =>
      Icon (if av_is_intact v then "CheckCircle2" else "XCircle")
      :: Text (if av_is_intact v then "Cryptographic Chain Intact" else "Cryptographic Chain Broken")
      :: StatusBadge (if av_is_intact v then "INTACT" else "BROKEN") false
      ++ [Text (av_details v); Text "Total Verified Entries: "; Text (Z_to_string (av_total_entries v))]
  | None => []
  end.

(*@ dashboard/app/(officer)/audit/page.tsx 347 360 AuditExplorerPage *)
Definition check_labels (c : VerificationChecks) : list (bool * string * string) :=
  [ (export_envelope c, "1. Export Envelope Integrity", "Canonical JSON envelope SHA-256 hash verified");
    (configuration c, "2. Frozen Configuration", "Slate & rules configuration hash match");
    (ballot_hashes c, "3. Individual Ballot Hashes", "Every ballot hash independently recomputed");
    (ballot_sequence c, "4. Sequence Monotonicity", "Replay-protected strictly monotonic counters");
    (candidate_totals c, "5. Candidate Totals Recount", "Raw ballots independently summed per candidate");
    (device_totals c, "6. Device Counters Recount", "Raw ballots independently summed per device");
    (reconciliation c, "7. Zero-Drift Reconciliation", "Mathematical identity sum(cand) == total == sum(dev)");
    (audit_chain c, "8. Audit Log Hash Chain", "SHA-256 sequential hash chain intact");
    (audit_root c, "9. Audit Root Commitment", "Latest tip hash matches root commitment");
    (manifest c, "10. Result Manifest Consistency", "Manifest totals match independent recount");
    (signature c, "11. Ed25519 Digital Signature", "Cryptographic manifest signature verified");
    (anchor c, "12. Audit Root Anchoring", "Anchor receipt commitment verified") ]%string.

(*@ dashboard/app/(officer)/audit/page.tsx 321 387 AuditExplorerPage *)
Definition independent_panel (s : state) : list (node ui) :=
  match independentResult s with
  | Some r =>
      [Text "12-Point Independent Verification (Machine-Verifiable Export)";
       Box (if iv_valid r then "emerald" else "rose")
         [Text (if iv_valid r then "OVERALL PASSED (12/12)" else "VERIFICATION FAILED")]]
      ++ flat_map (fun '((isPassed, label, desc) : bool * string * string) =>
           [Box "tile" [Text label; Icon (if isPassed then "CheckCircle2" else "XCircle"); Text desc]])
           (check_labels (iv_checks r))
      ++ map (fun d => Text ("â€¢ " ++s d)) (iv_details r)
  | None => []
  end.

(*@ dashboard/app/(officer)/audit/page.tsx 389 428 AuditExplorerPage *)
Definition filter_bar (s : state) : list (node ui) :=
  [Text "Type:";
   Select (selectedType s) (map (fun t => (t, t)) (eventTypes (entries s))) false SelectType;
   Field "Only [DEMO-MODE]" (if filterDemoOnly s then "checked" else EmptyString) false
     (fun u => match u with ToggleDemoOnly b => bool_decide (b = negb (filterDemoOnly s)) | _ => false end);
   Field "Filter by actor, device, data..." (searchQuery s) false
     (fun u => match u with TypeSearch _ => true | _ => false end)].

(*@ dashboard/app/(officer)/audit/page.tsx 454 522 AuditExplorerPage *)
Definition entry_row (entry : AuditEntryResponse) : list (node ui) :=
  [Text ("#" ++s Z_to_string (a_sequence_number entry)); Text (a_event_type entry)]
  ++ when (is_demo entry) [Text "[DEMO-MODE]"]
  ++ [Text (opt_or (a_actor entry) "system"); Text (opt_or (a_device_id entry) " - ");
      Text (match a_previous_hash entry with
            | Some h => if truthy_str h then take_str 8 h else "00000000"
            | None => "00000000" end);
      Icon "LinkIcon"; Text (take_str 8 (a_entry_hash entry)); Date (a_timestamp entry);
      Text (opt_or (a_event_data entry) " - ")].

(*@ dashboard/app/(officer)/audit/page.tsx 428 529 AuditExplorerPage *)
Definition log_table (s : state) : list (node ui) :=
  match filteredEntries s with
  | [] => [Text "No audit records matching selected criteria."]
  | l => flat_map entry_row l
  end.

(*@ dashboard/app/(officer)/audit/page.tsx 211 530 AuditExplorerPage *)
Definition render (s : state) : list (node ui) :=
  header s ++ chain_banner s ++ independent_panel s ++ filter_bar s ++ log_table s.

Definition explorer : component state ui env := mk_component render on_ui on_surroundings.

End AuditExplorer.
