(* ===== verification/AuditExplorerFacts.v ===== *)
(** * Correctness of the audit explorer

    The twelve-point verifier against reference notions and against the public verifier,
    what its chain check detects, the filters, and the page's loading flags. *)
From Stdlib Require Import Sorting.Sorted.
From stdpp Require Import sorting.
From S2P Require Import Prelude Tally JsValue JsNumber Types ApiClient View Common React Spinner PublicVerify PublicVerifyFacts AuditExplorer.
From Stdlib Require Import Ascii String.
Import AuditExplorer.
Open Scope Z_scope.

#[export] Hint Unfold on_ui on_surroundings fetchAuditData handleVerifyChain
  handleRunIndependentVerification fail_with : prog.

(** ** Reference notions *)

(** Entries numbered from one, each linked to the one before. *)
Definition numbered_chain (l : list AuditExportItem) : Prop :=
  (forall j e, l !! j = Some e -> ax_sequence_number e = Z.of_nat j + 1)
  /\ (forall j p e, l !! j = Some p -> l !! S j = Some e -> ax_previous_hash e = Some (ax_entry_hash p)).

(** ** The ballot loop *)

Lemma recount_tallies cs ds bs :
  rc_countedCand (recount cs ds bs)
  = fold_left (fun m x => bump x m) (map b_candidate_id bs) (zeros (map cx_id cs))
  /\ rc_countedDev (recount cs ds bs)
     = fold_left (fun m x => bump x m) (map b_device_id bs) (zeros (map dx_id ds)).
Proof.
  unfold recount. rewrite <- !(fold_left_map (fun m x => bump x m)).
  enough (forall r, rc_countedCand (fold_left count_ballot bs r)
            = fold_left (fun m b => bump (b_candidate_id b) m) bs (rc_countedCand r)
          /\ rc_countedDev (fold_left count_ballot bs r)
            = fold_left (fun m b => bump (b_device_id b) m) bs (rc_countedDev r)) as H by apply H.
  induction bs as [|b bs IH]; intros r; cbn [fold_left]; [done | apply (IH (count_ballot r b))].
Qed.

Lemma count_ballot_valid bs r :
  rc_sequenceValid (fold_left count_ballot bs r) = true <->
  rc_sequenceValid r = true
  /\ forall d, PublicVerify.increasing (option_list (rc_devLastSeq r !! d) ++ seqs_of d bs) = true.
Proof.
  revert r. induction bs as [|b bs IH]; intros r; cbn [fold_left].
  { split; [| tauto]. intros Hv. split; [done |]. intros d. by destruct (rc_devLastSeq r !! d). }
  rewrite IH. cbn [count_ballot rc_sequenceValid rc_devLastSeq].
  rewrite andb_true_iff.
  assert (forall d, seqs_of d (b :: bs)
            = (if String.eqb (b_device_id b) d then [b_sequence_number b] else []) ++ seqs_of d bs) as Hcons.
  { intros d. unfold seqs_of. simpl. by destruct (String.eqb (b_device_id b) d). }
  split.
  - intros [[Hv Hb] Hd]. split; [done |]. intros d. rewrite Hcons. specialize (Hd d).
    destruct (String.eqb_spec (b_device_id b) d) as [<-|Hne].
    + rewrite lookup_insert_eq in Hd. simpl in Hd |- *.
      destruct (rc_devLastSeq r !! b_device_id b); simpl; [| done]. by rewrite Hb.
    + by rewrite lookup_insert_ne in Hd.
  - intros [Hv Hd]. split; [split; [done |] |].
    + specialize (Hd (b_device_id b)). rewrite Hcons, String.eqb_refl in Hd.
      destruct (rc_devLastSeq r !! b_device_id b); simpl in *; [| done].
      by apply andb_true_iff in Hd as [? _].
    + intros d. pose proof (Hd d) as Hd'. rewrite Hcons in Hd'.
      destruct (String.eqb_spec (b_device_id b) d) as [E|Hne].
      * rewrite E, lookup_insert_eq.
        destruct (rc_devLastSeq r !! d); simpl in *; [| done].
        by apply andb_true_iff in Hd' as [_ ?].
      * by rewrite lookup_insert_ne.
Qed.

Lemma sequence_checks_agree cs ds bs :
  rc_sequenceValid (recount cs ds bs) = PublicVerify.seqValid bs.
Proof.
  apply eq_iff_eq_true. unfold recount. rewrite count_ballot_valid, seqValid_spec. simpl.
  split.
  - intros [_ H] d. apply increasing_sorted. specialize (H d). by rewrite lookup_empty in H.
  - intros H. split; [done |]. intros d. rewrite lookup_empty. apply increasing_sorted, H.
Qed.

(** ** The chain *)

Lemma chain_numbered_spec i prev l :
  chain_numbered i prev l = true <->
  (forall j e, l !! j = Some e -> ax_sequence_number e = i + Z.of_nat j + 1)
  /\ (forall j p e, (match prev with Some p => p :: l | None => l end) !! j = Some p ->
        (match prev with Some p => p :: l | None => l end) !! S j = Some e ->
        ax_previous_hash e = Some (ax_entry_hash p)).
Proof.
  revert i prev. induction l as [|e l IH]; intros i prev; cbn [chain_numbered].
  { split; [| done]. intros _. split; [done |]. by destruct prev; intros [|]. }
  rewrite !andb_true_iff, Z.eqb_eq, IH. split.
  - intros [[Hn Hp] [Hs Hl]]. split.
    + intros [|j] e' He; simpl in He; simplify_eq; [lia |]. rewrite (Hs j e' He). lia.
    + destruct prev as [p|]; [| exact Hl].
      intros [|j] p' e' H1 H2; simpl in H1, H2; simplify_eq; [by reflect_bool | by apply (Hl j)].
  - intros [Hs Hl]. split_and!.
    + rewrite (Hs 0%nat e eq_refl). lia.
    + destruct prev as [p|]; [| done]. apply bool_decide_eq_true. by apply (Hl 0%nat).
    + intros j e' He. rewrite (Hs (S j) e' He). lia.
    + destruct prev as [p|]; [| exact Hl]. intros j p' e' H1 H2. by apply (Hl (S j)).
Qed.

Lemma chain_numbered_start l : chain_numbered 0 None l = true <-> numbered_chain l.
Proof. apply chain_numbered_spec. Qed.

Lemma numbered_sorted l :
  numbered_chain l -> StronglySorted (fun a b => ax_sequence_number a < ax_sequence_number b) l.
Proof.
  intros [Hn _].
  enough (forall i, (forall j e, l !! j = Some e -> ax_sequence_number e = i + Z.of_nat j + 1) ->
            StronglySorted (fun a b => ax_sequence_number a < ax_sequence_number b) l) as H
    by by apply (H 0).
  clear Hn. induction l as [|e l IH]; intros i Hi; constructor.
  - apply (IH (i + 1)). intros j e' He. rewrite (Hi (S j) e' He). lia.
  - rewrite Forall_forall. intros e' (j & Hj)%list_elem_of_lookup.
    rewrite (Hi 0%nat e eq_refl), (Hi (S j) e' Hj). lia.
Qed.

Lemma auditChain_perm log :
  auditChainValid log = true <-> exists l, Permutation l log /\ numbered_chain l.
Proof.
  unfold auditChainValid. rewrite chain_numbered_start. split.
  - intros H. exists (sort_by ax_sequence_number log). split; [apply sort_by_perm | done].
  - intros (l & Hp & Hl).
    rewrite (sorted_unique ax_sequence_number (sort_by ax_sequence_number log) l); [done | | |].
    + apply sort_by_sorted.
    + by apply numbered_sorted.
    + by rewrite sort_by_perm.
Qed.

Lemma numbered_length l e : numbered_chain l -> In e l -> 1 <= ax_sequence_number e <= len l.
Proof.
  intros [Hn _] Hin. apply list_elem_of_In, list_elem_of_lookup in Hin as [j Hj].
  rewrite (Hn j e Hj). apply lookup_lt_Some in Hj. unfold len. lia.
Qed.

Lemma numbered_prefix l1 l2 : numbered_chain (l1 ++ l2) -> numbered_chain l1.
Proof.
  intros [Hn Hl]. split.
  - intros j e He. apply Hn. by apply lookup_app_l_Some.
  - intros j p e Hp He. apply (Hl j); by apply lookup_app_l_Some.
Qed.

(** ** Loading flags *)

(** The three flags of the page; the first is raised from the start, until the page has
    mounted and loaded. *)
Inductive flag := Loading | Verifying | Independent.

Definition raised (f : flag) (s : state) : bool :=
  match f with
  | Loading => mounted s && loading s
  | Verifying => verifyLoading s
  | Independent => indepLoading s
  end.

Lemma explorer_lowers f : lowering_component explorer (fun _ => True) (fun _ => True) (raised f).
Proof.
  split.
  - intros u s _ _ _. unfold lowers, explorer. cbn [on_user]. destruct f, u; low_auto.
  - intros x s _ _. unfold lowers, explorer. cbn [on_env]. destruct f, x; low_auto.
Qed.

(** ** A concrete log *)

Definition log_entry (n : Z) (type : string) (data : option string) : AuditEntryResponse :=
  {| a_id := n; a_election_id := "E"; a_event_type := type; a_event_data := data;
     a_actor := Some "Officer"%string; a_device_id := None; a_sequence_number := n;
     a_timestamp := EmptyString; a_previous_hash := None; a_entry_hash := "hash" |}.

Definition some_election (id : string) : ElectionResponse :=
  {| e_id := id; e_title_name := None; e_title := None; e_description := None;
     e_state := OPEN; e_configuration_hash := None; e_device_count := 1; e_ballot_count := 0;
     e_created_at := EmptyString; e_opened_at := None; e_closed_at := None;
     e_published_at := None; e_candidates := [] |}.

(** A backend with two elections, whose logs differ. *)
Definition two_elections (r : req) : outcome (resp r) :=
  match r as r return outcome (resp r) with
  | getElections _ => Ok [some_election "A"; some_election "B"]
  | getAuditLog e _ => Ok [log_entry 1 e None]
  | verifyAuditChain e _ =>
      Ok {| av_election_id := e; av_total_entries := 1; av_is_intact := true;
            av_first_broken_sequence := None; av_details := e |}
  | _ => Err (plain_error "Error" "offline")
  end.

(** An archive that passes: numbered entries given in reverse order. *)
Definition reversed_log : list AuditExportItem :=
  [entry 3 (Some (h64 "2"%char)) (h64 "3"%char); entry 2 (Some (h64 "1"%char)) (h64 "2"%char);
   entry 1 None (h64 "1"%char)].

Definition numbered_log : list AuditExportItem := rev reversed_log.

(** ** The properties *)

(** C6. The verdict of the twelve-point verifier: PASSED (12/12) exactly when the archive has
    an export hash, a configuration hash, audit entries and a signed manifest with the right
    total, each device's sequence numbers strictly increase, every ballot has a listed
    candidate and a listed device, and the audit entries, put in order, are numbered from
    one and linked. *)
Theorem audit_verdict x :
  valid x = true <->
  truthy_opt (x_export_hash x) = true
  /\ (exists m, x_election x = Some m /\ truthy_opt (em_configuration_hash m) = true)
  /\ (forall d, StronglySorted Z.lt (seqs_of d (ballots_of x)))
  /\ (forall b, In b (ballots_of x) ->
        In (b_candidate_id b) (map cx_id (candidates_of x)) /\ In (b_device_id b) (map dx_id (devices_of x)))
  /\ (exists l, Permutation l (audit_of x) /\ numbered_chain l) /\ audit_of x <> []
  /\ (exists m, x_manifest x = Some m /\ xm_total_ballots m = len (ballots_of x)
        /\ truthy_opt (xm_digital_signature m) = true).
Proof.
  unfold valid, check_values, checks, drift, export_recount. cbn [export_envelope configuration
    ballot_hashes ballot_sequence candidate_totals device_totals reconciliation audit_chain
    audit_root manifest signature anchor forallb].
  rewrite sequence_checks_agree. destruct (recount_tallies (candidates_of x) (devices_of x) (ballots_of x)) as [-> ->].
  rewrite !tally_sum. unfold len at 1 3 5 7 9 11. rewrite !length_map. fold (len (ballots_of x)).
  set (sc := strays _ (map b_candidate_id _)). set (sd := strays _ (map b_device_id _)).
  assert (0 <= sc /\ 0 <= sd) as [? ?] by (split; apply strays_nonneg).
  assert ((forall b, In b (ballots_of x) ->
        In (b_candidate_id b) (map cx_id (candidates_of x)) /\ In (b_device_id b) (map dx_id (devices_of x)))
        <-> sc = 0 /\ sd = 0) as ->.
  { unfold sc, sd. rewrite !strays_zero. split.
    - intros Hb. split; intros k (b & <- & Hin)%in_map_iff; by apply Hb.
    - intros [Hc Hd] b Hin. split; [apply Hc | apply Hd]; apply in_map_iff; eauto. }
  rewrite !andb_true_iff, seqValid_spec, auditChain_perm, !Z.eqb_eq.
  assert ((match audit_of x with [] => false | _ => true end) = true <-> audit_of x <> []) as ->
    by by destruct (audit_of x).
  destruct (x_election x) as [m|], (x_manifest x) as [mf|]; rewrite ?Z.eqb_eq; split; intros Hall;
    decompose [and ex] Hall; simplify_eq; try done; split_and!; try done; try lia; eauto.
Qed.

(** Two archives with the same records in another order, each device's ballots in the same
    one. *)
Record reordered (x y : ElectionExportResponse) : Prop := {
  re_export_hash : x_export_hash x = x_export_hash y;
  re_election : x_election x = x_election y;
  re_manifest : x_manifest x = x_manifest y;
  re_candidates : Permutation (candidates_of x) (candidates_of y);
  re_devices : Permutation (devices_of x) (devices_of y);
  re_ballots : Permutation (ballots_of x) (ballots_of y);
  re_sequences : forall d, seqs_of d (ballots_of x) = seqs_of d (ballots_of y);
  re_audit : Permutation (audit_of x) (audit_of y) }.

#[export] Instance reordered_equivalence : Equivalence reordered.
Proof.
  split.
  - by intros x.
  - intros x y []. by split.
  - intros x y z [] []. split; first [congruence | by etransitivity].
Qed.

#[export] Instance auditChain_proper : Proper (Permutation ==> eq) auditChainValid.
Proof. intros l1 l2 H. apply eq_iff_eq_true. rewrite !auditChain_perm. by setoid_rewrite H. Qed.

(** The replays a running comparison finds are those within a device. *)
Lemma sequence_order cs1 cs2 ds1 ds2 bs1 bs2 :
  (forall d, seqs_of d bs1 = seqs_of d bs2) ->
  rc_sequenceValid (recount cs1 ds1 bs1) = rc_sequenceValid (recount cs2 ds2 bs2).
Proof.
  intros H. rewrite !sequence_checks_agree. apply eq_iff_eq_true. rewrite !seqValid_spec. by setoid_rewrite H.
Qed.

Lemma recount_order cs1 cs2 ds1 ds2 bs1 bs2 :
  Permutation cs1 cs2 -> Permutation ds1 ds2 -> Permutation bs1 bs2 ->
  rc_countedCand (recount cs1 ds1 bs1) = rc_countedCand (recount cs2 ds2 bs2)
  /\ rc_countedDev (recount cs1 ds1 bs1) = rc_countedDev (recount cs2 ds2 bs2).
Proof.
  intros Hc Hd Hb. destruct (recount_tallies cs1 ds1 bs1) as [-> ->], (recount_tallies cs2 ds2 bs2) as [-> ->].
  split; apply tally_order; by apply Permutation_map.
Qed.

#[export] Instance drift_proper : Proper (reordered ==> eq) drift.
Proof.
  intros x y [_ _ _ Hc Hd Hb _ _]. unfold drift, export_recount.
  destruct (recount_order _ _ _ _ _ _ Hc Hd Hb) as [-> ->]. by rewrite Hb.
Qed.

#[export] Instance checks_proper : Proper (reordered ==> eq) checks.
Proof.
  intros x y H. pose proof H as [He1 He2 He3 Hc Hd Hb Hs Ha]. unfold checks, export_recount.
  destruct (recount_order _ _ _ _ _ _ Hc Hd Hb) as [-> ->].
  rewrite (sequence_order _ (candidates_of y) _ (devices_of y) _ _ Hs), (drift_proper _ _ H), He1, He2, He3,
    (auditChain_proper _ _ Ha), (len_proper _ _ Hb).
  assert (match audit_of x with [] => false | _ => true end = match audit_of y with [] => false | _ => true end) as ->; [| done].
  destruct (audit_of x), (audit_of y); try done; [by apply Permutation_nil_cons in Ha | by symmetry in Ha; apply Permutation_nil_cons in Ha].
Qed.

#[export] Instance valid_proper : Proper (reordered ==> eq) valid.
Proof. intros x y H. unfold valid. by rewrite H. Qed.

(** The order of an archive means nothing to the officer's verifier but the order of each
    device's ballots: checks, verdict, tallies and drift are the same. *)
Theorem audit_order_irrelevant x y :
  reordered x y ->
  checks x = checks y /\ valid x = valid y /\ drift x = drift y
  /\ forall c, rc_countedCand (export_recount x) !! c = rc_countedCand (export_recount y) !! c.
Proof.
  intros H. rewrite H. split_and!; [done | done | done |]. intros c.
  destruct (recount_order _ _ _ _ _ _ (re_candidates _ _ H) (re_devices _ _ H) (re_ballots _ _ H)) as [E _].
  unfold export_recount. by rewrite E.
Qed.

(** C15. The two independent implementations agree where they check the same thing: the
    running comparison of the officer's verifier finds the same replays as the grouped one
    of the public verifier, and both find the same ballots for unlisted candidates. *)
Theorem verifiers_agree x :
  ballot_sequence (checks x) = PublicVerify.seqValid (ballots_of x)
  /\ candidate_totals (checks x) = PublicVerify.reconciliationPassed x.
Proof.
  split; [apply sequence_checks_agree |].
  apply eq_iff_eq_true. rewrite reconciliation_spec, <- stray_zero. unfold stray, roster.
  unfold checks, export_recount. cbn [candidate_totals].
  destruct (recount_tallies (candidates_of x) (devices_of x) (ballots_of x)) as [-> _].
  rewrite tally_sum, Z.eqb_eq. unfold len. rewrite length_map.
  change (PublicVerify.candidates_of x) with (candidates_of x).
  change (PublicVerify.ballots_of x) with (ballots_of x). lia.
Qed.

(** C16. The chain check does not depend on the order of the archive, it notices every entry
    removed from the middle or the beginning of an intact log, and it cannot notice
    entries cut off its end. *)
Theorem audit_chain_removal log l1 e l2 :
  Permutation (l1 ++ e :: l2) log -> numbered_chain (l1 ++ e :: l2) ->
  auditChainValid log = true
  /\ (l2 <> [] -> auditChainValid (l1 ++ l2) = false)
  /\ auditChainValid l1 = true.
Proof.
  intros Hp Hc. split_and!.
  - apply auditChain_perm. eauto.
  - intros Hne. destruct (auditChainValid (l1 ++ l2)) eqn:E; [| done].
    apply auditChain_perm in E as (l & Hl & Hn). exfalso.
    destruct l2 as [|e2 l2]; [done |].
    assert (exists z, (e2 :: l2) !! List.length l2 = Some z) as [z Hz] by (apply lookup_lt_is_Some; simpl; lia).
    assert (In z (l1 ++ e2 :: l2)) as Hin.
    { apply in_or_app. right. apply list_elem_of_In. by eapply list_elem_of_lookup_2. }
    rewrite <- Hl in Hin. apply (numbered_length l z Hn) in Hin.
    destruct Hc as [Hc _].
    assert ((l1 ++ e :: e2 :: l2) !! (List.length l1 + S (List.length l2))%nat = Some z) as Hz2.
    { rewrite lookup_app_r by lia. replace (_ + _ - _)%nat with (S (List.length l2)) by lia. exact Hz. }
    apply Hc in Hz2. unfold len in Hin. rewrite Hl, !length_app in Hin. simpl in Hin. lia.
  - apply auditChain_perm. exists l1. split; [done |]. by apply (numbered_prefix l1 (e :: l2)).
Qed.

(** The filters: with none set every entry is listed; the type menu offers ALL and each
    type of the log once, and choosing a type lists exactly the entries of that type, of
    which there is at least one. *)
Theorem audit_filters es :
  List.filter (entry_passes "ALL" false EmptyString) es = es
  /\ NoDup (distinct [] (map a_event_type es))
  /\ (forall t, t <> "ALL"%string ->
        (forall e, In e (List.filter (entry_passes t false EmptyString) es) <-> In e es /\ a_event_type e = t)
        /\ (In t (eventTypes es) <-> List.filter (entry_passes t false EmptyString) es <> [])).
Proof.
  assert (forall xs seen, NoDup (distinct seen xs)
            /\ forall x, In x (distinct seen xs) <-> In x xs /\ ~ In x seen) as Hd.
  { induction xs as [|x xs IH]; intros seen; cbn [distinct]; [split; [constructor | simpl; tauto] |].
    destruct (str_in x seen) eqn:E.
    - apply str_in_In in E. destruct (IH seen) as [H1 H2]. split; [done |]. intros y. rewrite H2. simpl.
      intuition congruence.
    - assert (~ In x seen) as Hx by (rewrite <- str_in_In; congruence).
      destruct (IH (x :: seen)) as [H1 H2]. split.
      + constructor; [| done]. rewrite list_elem_of_In, H2. simpl. tauto.
      + intros y. simpl. rewrite H2. simpl. destruct (string_dec x y) as [<-|]; intuition congruence. }
  split_and!.
  - induction es as [|e es IH]; simpl; [done | by rewrite IH].
  - apply Hd.
  - intros t Ht.
    assert (forall e, In e (List.filter (entry_passes t false EmptyString) es)
              <-> In e es /\ a_event_type e = t) as Hf.
    { intros e. rewrite filter_In. unfold entry_passes. simpl.
      destruct (String.eqb_spec t "ALL"); [done |]. simpl.
      destruct (String.eqb_spec (a_event_type e) t); simpl; intuition congruence. }
    split; [done |]. unfold eventTypes. simpl. rewrite (proj2 (Hd _ _)). split.
    + intros [?|[(e & <- & He)%in_map_iff _]]; [congruence |].
      intros Hnil. specialize (Hf e). rewrite Hnil in Hf. by apply Hf.
    + intros Hne. right. destruct (List.filter _ es) as [|e l] eqn:E; [done |].
      destruct (proj1 (Hf e) (or_introl eq_refl)) as [He <-].
      split; [by apply in_map | by intros []].
Qed.

(** None of the three spinners of the page stays on: when no request is pending, each
    flag is down (the first one once the page has mounted). *)
Theorem audit_not_left_loading t w f :
  reachable explorer (fun _ => True) (initial t) w -> idle w = true -> raised f (st w) = false.
Proof. apply (never_left_busy explorer _ (raised f)); [apply explorer_lowers | by destruct f]. Qed.

(** The election menu stays enabled while a log is loading, and answers are taken as they
    come: after choosing B while A's log is on its way, the page ends up showing A's log
    and verification under B, with nothing pending. *)
Theorem audit_stale_log_shown :
  exists w,
    run explorer (boot (set_elections [some_election "A"; some_election "B"]
                          (set_loading false (initial (Some "token"%string)))))
      [User (SelectElection "A"); Reply 0 (answers two_elections); User (SelectElection "B");
       Reply 2 (answers two_elections); Reply 3 (answers two_elections);
       Reply 1 (answers two_elections)] = Some w
    /\ tasks w = [] /\ selectedElectionId (st w) = "B"%string
    /\ map a_event_type (entries (st w)) = ["A"%string]
    /\ option_map av_election_id (verification (st w)) = Some "A"%string.
Proof. eexists. split; [vm_compute; reflexivity |]. by split_and!. Qed.

(** ** Witnesses *)

Lemma audit_chain_removal_witness :
  auditChainValid reversed_log = true
  /\ auditChainValid [entry 1 None (h64 "1"%char); entry 3 (Some (h64 "2"%char)) (h64 "3"%char)] = false.
Proof.
  destruct (audit_chain_removal reversed_log [entry 1 None (h64 "1"%char)]
              (entry 2 (Some (h64 "1"%char)) (h64 "2"%char))
              [entry 3 (Some (h64 "2"%char)) (h64 "3"%char)]) as (H1 & H2 & _).
  - apply Permutation_rev.
  - split.
    + intros [|[|[|j]]] e H; simplify_eq/=; reflexivity.
    + intros [|[|[|j]]] p e Hp He; simplify_eq/=; reflexivity.
  - split; [exact H1 | apply H2; discriminate].
Defined.

Definition loaded : world state :=
  match run explorer (boot (initial (Some "token"%string)))
          [Env Mount; Reply 0 (answers two_elections); Reply 1 (answers two_elections)] with
  | Some w => w
  | None => boot (initial None)
  end.

Lemma audit_not_left_loading_witness :
  map a_event_type (entries (st loaded)) = ["A"%string] /\ raised Loading (st loaded) = false.
Proof.
  split; [vm_compute; reflexivity |].
  apply (audit_not_left_loading (Some "token"%string) loaded Loading); [| vm_compute; reflexivity].
  eapply (reachable_run explorer (fun _ => True) (initial (Some "token"%string))
            (boot (initial (Some "token"%string)))
            [Env Mount; Reply 0 (answers two_elections); Reply 1 (answers two_elections)]);
    [constructor | by repeat constructor | vm_compute; reflexivity].
Defined.
