(* ===== verification/Command.v ===== *)
(** * The command centre: [app/(officer)/command/page.tsx]

    The election's lifecycle: the twelve stages shown for each state, the transitions an
    administrator is offered, and the loading of the data with its fallbacks. *)
From S2P Require Import Prelude JsValue JsNumber JsDate Types ApiClient View Common React.
From Stdlib Require Import Ascii String.

Module Command.

(** The backend's state machine, which answers [updateElectionState]. *)
(*@ backend/app/services/election_service.py 31 39 VALID_TRANSITIONS *)
Definition VALID_TRANSITIONS (s : ElectionState) : list ElectionState :=
  match s with
  | CREATED => [CONFIGURED]
  | CONFIGURED => [LOCKED]
  | LOCKED => [OPEN]
  | OPEN => [SUSPENDED; CLOSED]
  | SUSPENDED => [OPEN; CLOSED]
  | CLOSED => [PUBLISHED]
  | PUBLISHED => []
  end.

(*@ dashboard/app/(officer)/command/page.tsx 61 62 LIFECYCLE_STAGES *)
Definition is_in (l : list ElectionState) (s : ElectionState) : bool := bool_decide (s ∈ l).

(** ** The twelve stages *)

(*@ dashboard/app/(officer)/command/page.tsx 26 34 ElectionLifecycleStage *)
Record ElectionLifecycleStage := {
  step : Z; title : string; eciRef : string; description : string; href : string;
  isCurrent : ElectionState -> bool; isDone : ElectionState -> bool }.

(*@ dashboard/app/(officer)/command/page.tsx 36 145 LIFECYCLE_STAGES *)
Definition LIFECYCLE_STAGES : list ElectionLifecycleStage :=
[
  {| step := 1; title := "Setup & Gazette Notification"; eciRef := "RP Act 1951 § 30";
     description := "Constituency setup, electoral roll definition, polling timetable.";
     href := "/election/setup"; isCurrent := is_in [CONFIGURED];
     isDone := fun s => negb (is_in [CONFIGURED] s) |};
  {| step := 2; title := "Candidate Roster (Form 7A)"; eciRef := "Rule 10(1) CE Rules";
     description := "Nomination scrutiny, symbol allotment, candidate slate freeze.";
     href := "/election/candidates"; isCurrent := is_in [CONFIGURED];
     isDone := fun s => negb (is_in [CONFIGURED] s) |};
  {| step := 3; title := "Station Allocation & BLO Prep"; eciRef := "Handbook RO Ch. 2";
     description := "Polling station layout, Booth Level Officer assignment, voter queue plans.";
     href := "/election/polling-stations"; isCurrent := is_in [LOCKED];
     isDone := is_in [OPEN; SUSPENDED; CLOSED; PUBLISHED] |};
  {| step := 4; title := "FLC & Hardware Commissioning"; eciRef := "EVM Manual Ch. 3";
     description := "First Level Checking, pink paper seal validation, diagnostic self-test.";
     href := "/election/devices"; isCurrent := is_in [LOCKED];
     isDone := is_in [OPEN; SUSPENDED; CLOSED; PUBLISHED] |};
  {| step := 5; title := "Pre-Poll Mock Poll & Clear"; eciRef := "Rule 49E CE Rules";
     description := "Mandatory 50+ mock votes in presence of polling agents, CLR button verification.";
     href := "/evm"; isCurrent := is_in [LOCKED];
     isDone := is_in [OPEN; SUSPENDED; CLOSED; PUBLISHED] |};
  {| step := 6; title := "Poll Commencement (07:00 HRS)"; eciRef := "Rule 49J CE Rules";
     description := "Presiding Officer diary initialized, green paper seal verification.";
     href := "/command"; isCurrent := is_in [OPEN];
     isDone := is_in [CLOSED; PUBLISHED] |};
  {| step := 7; title := "Poll-Day Turnout & Monitoring"; eciRef := "ECI Turnout App";
     description := "Two-hourly voter turnout metrics, incident logging, webcasting oversight.";
     href := "/election/polling"; isCurrent := is_in [OPEN; SUSPENDED];
     isDone := is_in [CLOSED; PUBLISHED] |};
  {| step := 8; title := "Poll Close & Form 17C Part I"; eciRef := "Rule 49S CE Rules";
     description := "CU close button pressed, total votes sealed with special address tags.";
     href := "/command"; isCurrent := is_in [CLOSED];
     isDone := is_in [CLOSED; PUBLISHED] |};
  {| step := 9; title := "Strongroom Custody & Transit"; eciRef := "EVM Manual Ch. 8";
     description := "Double-lock strongroom entry, continuous CCTV audit log, security patrol.";
     href := "/election/audit"; isCurrent := is_in [CLOSED];
     isDone := is_in [PUBLISHED] |};
  {| step := 10; title := "Counting Center Operations"; eciRef := "Rule 56D CE Rules";
     description := "Round-wise CU tallying, RO & candidate counting agent cross-checks.";
     href := "/election/counting"; isCurrent := is_in [CLOSED];
     isDone := is_in [PUBLISHED] |};
  {| step := 11; title := "Mandatory VVPAT & Crypto Audit"; eciRef := "SC 2019 Precedent / Research";
     description := "Indian practice: 5 random PS VVPAT paper counts. Prototype: Independent hash-chain verification.";
     href := "/election/verification"; isCurrent := is_in [PUBLISHED];
     isDone := is_in [PUBLISHED] |};
  {| step := 12; title := "Result Declaration (Form 20/21E)"; eciRef := "Rule 64 CE Rules";
     description := "Official result manifest publishing, public gazette notification.";
     href := "/election/results"; isCurrent := is_in [PUBLISHED];
     isDone := is_in [PUBLISHED] |}
].

(** ** The component *)

(*@ dashboard/app/(officer)/command/page.tsx 148 155 CommandCenterPage *)
Record state := mk_state {
  token : option string;
  role : option Role;
  mounted : bool;
  elections : list ElectionResponse;
  selectedElectionId : string;
  election : option ElectionResponse;
  loading : bool;
  actionLoading : bool;
  error : option string;
  successMsg : option string }.

Definition set_token (v : option string) (s : state) : state :=
  mk_state v (role s) (mounted s) (elections s) (selectedElectionId s) (election s) (loading s)
    (actionLoading s) (error s) (successMsg s).
Definition set_role (v : option Role) (s : state) : state :=
  mk_state (token s) v (mounted s) (elections s) (selectedElectionId s) (election s)
    (loading s) (actionLoading s) (error s) (successMsg s).
Definition set_mounted (v : bool) (s : state) : state :=
  mk_state (token s) (role s) v (elections s) (selectedElectionId s) (election s) (loading s)
    (actionLoading s) (error s) (successMsg s).
Definition set_elections (v : list ElectionResponse) (s : state) : state :=
  mk_state (token s) (role s) (mounted s) v (selectedElectionId s) (election s) (loading s)
    (actionLoading s) (error s) (successMsg s).
Definition set_selectedElectionId (v : string) (s : state) : state :=
  mk_state (token s) (role s) (mounted s) (elections s) v (election s) (loading s)
    (actionLoading s) (error s) (successMsg s).
Definition set_election (v : option ElectionResponse) (s : state) : state :=
  mk_state (token s) (role s) (mounted s) (elections s) (selectedElectionId s) v (loading s)
    (actionLoading s) (error s) (successMsg s).
Definition set_loading (v : bool) (s : state) : state :=
  mk_state (token s) (role s) (mounted s) (elections s) (selectedElectionId s) (election s) v
    (actionLoading s) (error s) (successMsg s).
Definition set_actionLoading (v : bool) (s : state) : state :=
  mk_state (token s) (role s) (mounted s) (elections s) (selectedElectionId s) (election s)
    (loading s) v (error s) (successMsg s).
Definition set_error (v : option string) (s : state) : state :=
  mk_state (token s) (role s) (mounted s) (elections s) (selectedElectionId s) (election s)
    (loading s) (actionLoading s) v (successMsg s).
Definition set_successMsg (v : option string) (s : state) : state :=
  mk_state (token s) (role s) (mounted s) (elections s) (selectedElectionId s) (election s)
    (loading s) (actionLoading s) (error s) v.

(*@ dashboard/app/(officer)/command/page.tsx 148 155 CommandCenterPage *)
Definition initial (t : option string) (r : option Role) : state :=
  mk_state t r false [] "EV-2026-001" None true false None None.

Abbreviation M := (prog state).

(** A state name of the public overview, which is the name of one of the states, as the
    backend has it, or empty, which counts as OPEN; the page would keep another text. *)
Definition state_of_str (s : string) : ElectionState :=
  match find_first (fun st => String.eqb (election_state_str st) s)
          [CREATED; CONFIGURED; LOCKED; OPEN; SUSPENDED; CLOSED; PUBLISHED] with
  | Some st => st
  | None => OPEN
  end.

(*@ dashboard/app/(officer)/command/page.tsx 168 182 fetchElectionData *)
Definition of_public (now : Z) (t : TransparencyOverview) : ElectionResponse :=
  {| e_id := t_election_id t; e_title_name := Some (t_election_name t);
     e_title := Some (str_or (t_election_name t) (t_election_id t));
     e_description := Some "Simulated General Election"%string;
     e_state := state_of_str (t_state t); e_configuration_hash := None;
     e_device_count := t_device_count t; e_ballot_count := t_total_ballots t;
     e_created_at := to_iso now; e_opened_at := None; e_closed_at := None;
     e_published_at := None; e_candidates := [] |}.

(*@ dashboard/app/(officer)/command/page.tsx 186 202 fetchElectionData *)
Definition placeholder (now : Z) : ElectionResponse :=
  {| e_id := "EV-2026-001"; e_title_name := Some "General Election 2026"%string;
     e_title := Some "General Election 2026"%string;
     e_description := Some "Simulated General Election"%string; e_state := OPEN;
     e_configuration_hash := None; e_device_count := 3; e_ballot_count := 0;
     e_created_at := to_iso now; e_opened_at := None; e_closed_at := None;
     e_published_at := None; e_candidates := [] |}.

(*@ dashboard/app/(officer)/command/page.tsx 216 217 fetchElectionData *)
Definition fail_with (text : string) (err : error_obj) : M unit :=
  upd (set_error (Some (str_or (e_message err) text))).

(*@ dashboard/app/(officer)/command/page.tsx 161 203 fetchElectionData *)
Definition all_elections (s : state) : M (list ElectionResponse) :=
  all ← try_catch (await (getElections (token s)))
          (fun _ =>
             publicList ← try_catch (await getTransparencyElections) (fun _ => mret []);
             now ← date_now;
             mret (map (of_public now) publicList));
  match all with
  | [] => now ← date_now; mret [placeholder now]
  | _ => mret all
  end.

(*@ dashboard/app/(officer)/command/page.tsx 157 221 fetchElectionData *)
Definition fetchElectionData (electionId : string) (s : state) : M unit :=
  upd (set_loading true);;
  upd (set_error None);;
  finally
    (try_catch
       (all ← all_elections s;
        upd (set_elections all);;
        match (match find_first (fun e => String.eqb (e_id e) electionId) all with
               | Some e => Some e | None => head all end) with
        | Some target =>
            upd (set_selectedElectionId (e_id target));;
            try_catch
              (detailed ← await (getElection (e_id target) (token s));
               upd (set_election (Some detailed)))
              (fun _ => upd (set_election (Some target)))
        | None => mret tt
        end)
       (fail_with "Failed to load election data"))
    (upd (set_loading false)).

(*@ dashboard/app/(officer)/command/page.tsx 227 248 handleStateTransition *)
Definition handleStateTransition (newState : ElectionState) (s : state) : M unit :=
  match election s with
  | Some e =>
      if negb (truthy_opt (token s)) then mret tt
      else if negb (bool_decide (role s = Some ADMIN))
      then upd (set_error (Some "Forbidden: Only ADMIN users may transition election state."%string))
      else
        upd (set_actionLoading true);;
        upd (set_error None);;
        upd (set_successMsg None);;
        finally
          (try_catch
             (updated ← await (updateElectionState (e_id e) newState (token s));
              upd (set_election (Some updated));;
              upd (set_successMsg (Some ("Election state successfully changed to "
                                         ++s election_state_str newState)));;
              all ← await (getElections (token s));
              upd (set_elections all))
             (fail_with ("Failed to transition state to " ++s election_state_str newState)))
          (upd (set_actionLoading false))
  | None => mret tt
  end.

Inductive ui :=
| SelectElection (v : string) | ClickRefresh | DismissError | DismissSuccess
| ClickTransition (newState : ElectionState).

#[export] Instance ui_eq_dec : EqDecision ui. Proof. solve_decision. Defined.

Inductive env := Mount | TokenChanged (t : option string) | RoleChanged (r : option Role).

(*@ dashboard/app/(officer)/command/page.tsx 266 300 onChange/onClick *)
Definition on_ui (u : ui) (s : state) : M unit :=
  match u with
  | SelectElection v => upd (set_selectedElectionId v);; fetchElectionData v s
  | ClickRefresh => fetchElectionData (selectedElectionId s) s
  | DismissError => upd (set_error None)
  | DismissSuccess => upd (set_successMsg None)
  | ClickTransition st => handleStateTransition st s
  end.

(*@ dashboard/app/(officer)/command/page.tsx 223 225 useEffect *)
Definition on_surroundings (x : env) (s : state) : M unit :=
  match x with
  | Mount =>
      if mounted s then mret tt
      else upd (set_mounted true);; fetchElectionData (selectedElectionId s) s
  | TokenChanged t =>
      if bool_decide (token s = t) then mret tt
      else upd (set_token t);; fetchElectionData (selectedElectionId s) (set_token t s)
  | RoleChanged r => upd (set_role r)
  end.

(** ** The page *)

(*@ dashboard/app/(officer)/command/page.tsx 250 306 CommandCenterPage *)
Definition top_bar (s : state) : list (node ui) :=
  [Text "Election Command Center"; Text "Manage lifecycle, candidate freezing, and hardware device states";
   Select (selectedElectionId s)
     (map (fun el => (e_id el, e_id el ++s "  -  "
                      ++s opt_or (e_title_name el) (opt_or (e_title el) (e_id el)))) (elections s))
     false SelectElection;
   Button "Refresh data" (loading s) ClickRefresh]
  ++ match error s with
     | Some e => when (truthy_str e) (AlertBanner "error" "Operation Error" e (Some DismissError))
     | None => []
     end
  ++ match successMsg s with
     | Some m => when (truthy_str m) (AlertBanner "success" "State Updated" m (Some DismissSuccess))
     | None => []
     end.

(*@ dashboard/app/(officer)/command/page.tsx 333 333 role *)
Definition is_admin (s : state) : bool := bool_decide (role s = Some ADMIN).

(*@ dashboard/app/(officer)/command/page.tsx 340 348 button *)
Definition transition_button (s : state) (label : string) (st : ElectionState) : node ui :=
  Button label (negb (is_admin s) || actionLoading s) (ClickTransition st).

(*@ dashboard/app/(officer)/command/page.tsx 330 413 CommandCenterPage *)
Definition lifecycle_actions (s : state) (e : ElectionResponse) : list (node ui) :=
  when (negb (is_admin s))
    [Text ("Read-only mode (" ++s match role s with Some r => role_str r | None => EmptyString end ++s ")")]
  ++ match e_state e with
     | CONFIGURED => [transition_button s "Lock Configuration" LOCKED]
     | LOCKED => [transition_button s "Open Polls" OPEN]
     | OPEN => [transition_button s "Suspend Polls" SUSPENDED; transition_button s "Close Polls" CLOSED]
     | SUSPENDED => [transition_button s "Resume Polls" OPEN; transition_button s "Close Polls" CLOSED]
     | CLOSED => [transition_button s "Publish Results" PUBLISHED]
     | CREATED | PUBLISHED => []
     end.

(*@ dashboard/app/(officer)/command/page.tsx 458 476 CommandCenterPage *)
Definition timeline (e : ElectionResponse) : list (node ui) :=
  match e_opened_at e with
  | Some d => if truthy_str d then [Text "Opened:"; Date d] else [Text "Not opened"]
  | None => [Text "Not opened"]
  end
  ++ match e_closed_at e with
     | Some d => if truthy_str d then [Text "Closed:"; Date d] else [Text "Voting active / pending"]
     | None => [Text "Voting active / pending"]
     end.

(*@ dashboard/app/(officer)/command/page.tsx 308 479 CommandCenterPage *)
Definition info_card (s : state) (e : ElectionResponse) : list (node ui) :=
  Text (e_id e) :: StatusBadge (election_state_str (e_state e)) false
  ++ [Text (default EmptyString (e_title e))]
  ++ match e_description e with Some d => when (truthy_str d) [Text d] | None => [] end
  ++ lifecycle_actions s e
  ++ [Text "Total Ballots Cast"; Text (Z_to_string (e_ballot_count e)); Text "Recorded ballots";
      Text "Hardware Units"; Text (Z_to_string (e_device_count e)); Text "Active polling units";
      Text "Config Hash";
      Text (match e_configuration_hash e with
            | Some h => if truthy_str h then take_str 16 h ++s "..." else "Not frozen yet"
            | None => "Not frozen yet" end);
      Text "Timeline"]
  ++ timeline e.

(*@ dashboard/app/(officer)/command/page.tsx 508 558 CommandCenterPage *)
Definition stage_card (st : ElectionState) (g : ElectionLifecycleStage) : list (node ui) :=
  [Box (if isCurrent g st then "current" else if isDone g st then "done" else "upcoming")
     [Text ("STAGE " ++s pad_start 2 "0"%char (Z_to_string (step g)));
      Text (if isDone g st then "DONE" else if isCurrent g st then "ACTIVE" else "UPCOMING");
      Text (title g); Text (eciRef g); Text (description g); Link (href g) "Open console"]].

(*@ dashboard/app/(officer)/command/page.tsx 562 609 CommandCenterPage *)
Definition candidate_table (e : ElectionResponse) : list (node ui) :=
  Text ("Candidate Roster (" ++s Z_to_string (Z.of_nat (List.length (e_candidates e))) ++s ")")
  :: flat_map (fun c => [Text ("#" ++s Z_to_string (c_position c)); Text (c_id c); Text (c_name c);
                         Text (opt_or (c_party c) " - "); Text (opt_or (c_symbol c) " - ")])
       (e_candidates e).

(*@ dashboard/app/(officer)/command/page.tsx 481 614 CommandCenterPage *)
Definition render (s : state) : list (node ui) :=
  top_bar s
  ++ match election s with
     | Some e =>
         info_card s e
         ++ [Text "12-Stage Indian Election Operational Lifecycle"; Text "SIMULATION ENVIRONMENT";
             Text ("STATE: " ++s election_state_str (e_state e))]
         ++ flat_map (stage_card (e_state e)) LIFECYCLE_STAGES
         ++ candidate_table e
     | None => []
     end.

Definition command : component state ui env := mk_component render on_ui on_surroundings.

End Command.
