(* ===== verification/CommandFacts.v ===== *)
(** * Correctness of the command centre

    The transitions offered and requested against the backend's state machine, the progress
    of the twelve stages, and the page's loading flags. *)
From S2P Require Import Prelude JsValue JsNumber JsDate Types ApiClient View Common React Spinner Command.
From Stdlib Require Import Ascii String.
Import Command.

#[export] Hint Unfold on_ui on_surroundings fetchElectionData all_elections handleStateTransition
  fail_with : prog.

(** The transitions a state is left by on this page. *)
Definition offered (from : ElectionState) : list ElectionState :=
  match from with CREATED => [] | _ => VALID_TRANSITIONS from end.

Definition can_transition (st : ElectionState) (s : state) : bool :=
  match election s with
  | Some e => is_admin s && negb (actionLoading s) && is_in (offered (e_state e)) st
  | None => false
  end.

Lemma allows_banners (s : state) st :
  allows (top_bar s) (ClickTransition st) = false.
Proof.
  unfold top_bar, AlertBanner. rewrite !allows_app.
  destruct (error s) as [e|], (successMsg s) as [m|]; rewrite ?allows_when; read_page; try done;
    by rewrite ?andb_false_r.
Qed.

Lemma allows_stages (st0 st : ElectionState) gs :
  allows (flat_map (stage_card st0) gs) (ClickTransition st) = false.
Proof. induction gs as [|g gs IH]; [done |]. cbn [flat_map]. by rewrite allows_app, IH. Qed.

Lemma allows_candidates e st : allows (candidate_table e) (ClickTransition st) = false.
Proof.
  unfold candidate_table. rewrite allows_cons. cbn [fires].
  induction (e_candidates e) as [|c l IH]; [done |]. cbn [flat_map]. by rewrite allows_app.
Qed.

Lemma allows_actions s e st :
  allows (lifecycle_actions s e) (ClickTransition st)
  = is_admin s && negb (actionLoading s) && is_in (offered (e_state e)) st.
Proof.
  unfold lifecycle_actions, transition_button. rewrite allows_app, allows_when.
  destruct (is_admin s), (actionLoading s), (e_state e); cbn -[bool_decide]; try done;
    by destruct st.
Qed.

Lemma allows_transition s st : allows (render s) (ClickTransition st) = can_transition st s.
Proof.
  unfold render, can_transition. rewrite allows_app, allows_banners. cbn [orb].
  destruct (election s) as [e|]; [| done].
  rewrite !allows_app, allows_stages, allows_candidates. unfold info_card, timeline, StatusBadge.
  rewrite allows_cons, !allows_app, allows_actions. cbn [fires].
  destruct (e_description e), (e_opened_at e), (e_closed_at e); rewrite ?allows_when; read_page;
    repeat case_match; cbn; by rewrite ?orb_false_r, ?andb_false_r.
Qed.

(** ** Requests *)

Definition Sends (s : state) (r : req) : Prop :=
  match r with
  | updateElectionState id st tok =>
      role s = Some ADMIN /\ truthy_opt tok = true /\ actionLoading s = true
      /\ exists e, election s = Some e /\ id = e_id e /\ st ∈ VALID_TRANSITIONS (e_state e)
  | getElections _ | getElection _ _ | getTransparencyElections => True
  | _ => False
  end.

Lemma fetch_keeps v s : keeps (fun _ => True) Sends (fetchElectionData v s).
Proof. keeps_auto. Qed.

Lemma command_safe : safe_component command (fun _ => True) Sends (fun _ => True).
Proof.
  split.
  - intros u s _ _ Hu. change (allows (render s) u = true) in Hu. unfold command. cbn [on_user].
    destruct u as [v| | | |newState]; cbn [on_ui]; [| | done | done |].
    { apply keeps_handles; [| done].
      apply keeps_bind; [by apply keeps_upd | intros; apply fetch_keeps]. }
    { apply keeps_handles; [apply fetch_keeps | done]. }
    rewrite allows_transition in Hu.
    unfold can_transition, is_admin in Hu. destruct (election s) as [e|] eqn:Ee; [| done].
    apply andb_true_iff in Hu as [[Ha _]%andb_true_iff Hst].
    unfold is_in in Hst. apply bool_decide_eq_true in Ha, Hst.
    assert (newState ∈ VALID_TRANSITIONS (e_state e)) as Hv.
    { destruct (e_state e); try exact Hst. by apply not_elem_of_nil in Hst. }
    unfold handleStateTransition. rewrite Ee, Ha.
    destruct (truthy_opt (token s)) eqn:Et; [| done]. rewrite bool_decide_eq_true_2 by done.
    wp_auto; eauto 10.
  - intros x s _ _. unfold command. cbn [on_env].
    destruct x; cbn [on_surroundings]; [destruct (mounted s) | destruct (bool_decide _) |]; try done;
      (apply keeps_handles; [| done]; apply keeps_bind; [by apply keeps_upd | intros; apply fetch_keeps]).
Qed.

Definition raised (action : bool) (s : state) : bool :=
  if action then actionLoading s else mounted s && loading s.

Lemma fetch_lowers a v s0 s1 s :
  (a = true -> raised a s1 = true -> raised a s0 = true) ->
  low (fun _ => True) (raised a) false (fetchElectionData v s) (fun b _ => fine (raised a) b)
    (fun b _ => fine (raised a) b) s0 s1.
Proof.
  intros Ha. destruct a.
  - apply low_calm; [| by apply Ha]. calm_auto.
  - unfold fetchElectionData. do 2 apply low_upd.
    apply lowers_at_end; [intros; apply andb_false_r | timerless_auto].
Qed.

Lemma command_lowers a : lowering_component command (fun _ => True) (fun _ => True) (raised a).
Proof.
  split.
  - intros u s _ _ _. unfold lowers, command. cbn [on_user].
    destruct u as [v| | | |newState]; cbn [on_ui].
    + apply low_upd, fetch_lowers. by intros ->.
    + apply fetch_lowers. by intros ->.
    + by destruct a.
    + by destruct a.
    + destruct a; low_auto.
  - intros x s _ _. unfold lowers, command. cbn [on_env].
    destruct x; cbn [on_surroundings].
    + destruct (mounted s); [by destruct a |]. apply low_upd, fetch_lowers. by intros ->.
    + destruct (bool_decide _); [by destruct a |]. apply low_upd, fetch_lowers. by intros ->.
    + by destruct a.
Qed.

(** ** What the page asks for and shows *)

Lemma command_click (w : world state) u :
  allows (render (st w)) u = true -> React.step command w (User u) = Some (exec (on_ui u (st w)) w).
Proof. intros Hu. unfold React.step, command. cbn [React.render on_user]. by rewrite Hu. Qed.

(** The list of elections a page with token [tok] loads at time [now], and the one it shows. *)
Definition available (f : forall r, outcome (resp r)) (tok : option string) (now : Z)
    : list ElectionResponse :=
  match f (getElections tok) with
  | Ok [] => [placeholder now]
  | Ok all => all
  | Err _ =>
      match f getTransparencyElections with
      | Ok [] | Err _ => [placeholder now]
      | Ok overviews => map (of_public now) overviews
      end
  end.

Definition wanted (id : string) (all : list ElectionResponse) : option ElectionResponse :=
  match find_first (fun e => String.eqb (e_id e) id) all with
  | Some e => Some e
  | None => head all
  end.

Definition detail (f : forall r, outcome (resp r)) (tok : option string) (e : ElectionResponse)
    : ElectionResponse :=
  match f (getElection (e_id e) tok) with Ok d => d | Err _ => e end.

(** The page offers the transition to [st] exactly when an election is shown, the user is
    an administrator, no transition is under way and the backend's state machine allows
    it from the election's state; leaving [CREATED] is offered nowhere. *)
Theorem command_offers_legal_transitions s st :
  allows (render s) (ClickTransition st) = true
  <-> role s = Some ADMIN /\ actionLoading s = false
      /\ exists e, election s = Some e /\ e_state e <> CREATED /\ st ∈ VALID_TRANSITIONS (e_state e).
Proof.
  rewrite allows_transition. unfold can_transition, is_admin, is_in.
  destruct (election s) as [e|].
  - rewrite !andb_true_iff, negb_true_iff, !bool_decide_eq_true. split.
    + intros [[Hr Ha] Hs]. split_and!; try done. exists e. split; [done |].
      destruct (e_state e); try (split; [done | exact Hs]). by apply not_elem_of_nil in Hs.
    + intros (Hr & Ha & e' & [= <-] & Hc & Hs). split_and!; try done. by destruct (e_state e).
  - split; [done |]. by intros (_ & _ & e' & ? & _).
Qed.

(** C3. In every interleaving, each transition the page requests is one the backend's state
    machine allows from the state of the election shown, asked for by an administrator with
    a token, for that election; the page sends nothing else that changes state. *)
Theorem command_requests_legal t r w s q :
  reachable command (fun _ => True) (initial t r) w -> In (s, q) (sent w) -> Sends s q.
Proof.
  intros Hw Hin.
  pose proof (good_sent _ _ _ (reachable_good command (fun _ => True) Sends (fun _ => True)
                                 command_safe (initial t r) w I Hw)) as Hs.
  rewrite Forall_forall in Hs. apply list_elem_of_In in Hin. exact (Hs _ Hin).
Qed.

(** C19. A transition: the request is sent for the election shown; the answer replaces it and
    is announced, and the list is loaded again. A refusal changes nothing but the message,
    and in both cases the buttons are enabled again. *)
Theorem command_transition w e newState f :
  tasks w = [] -> election (st w) = Some e -> truthy_opt (token (st w)) = true ->
  allows (render (st w)) (ClickTransition newState) = true ->
  let request := updateElectionState (e_id e) newState (token (st w)) in
  match f request with
  | Ok updated =>
      exists w', run command w [User (ClickTransition newState); Reply (fresh w) (answers f);
                                Reply (S (fresh w)) (answers f)] = Some w'
        /\ tasks w' = [] /\ election (st w') = Some updated /\ actionLoading (st w') = false
        /\ successMsg (st w') = Some ("Election state successfully changed to "
                                      ++s election_state_str newState)
        /\ elections (st w') = match f (getElections (token (st w))) with
                               | Ok all => all
                               | Err _ => elections (st w)
                               end
        /\ error (st w') = match f (getElections (token (st w))) with
                           | Ok _ => None
                           | Err err => Some (str_or (e_message err)
                               ("Failed to transition state to " ++s election_state_str newState))
                           end
        /\ map snd (sent w') = map snd (sent w) ++ [request; getElections (token (st w))]
  | Err err =>
      exists w', run command w [User (ClickTransition newState); Reply (fresh w) (answers f)] = Some w'
        /\ tasks w' = [] /\ election (st w') = Some e /\ actionLoading (st w') = false
        /\ elections (st w') = elections (st w) /\ successMsg (st w') = None
        /\ error (st w') = Some (str_or (e_message err)
             ("Failed to transition state to " ++s election_state_str newState))
        /\ map snd (sent w') = map snd (sent w) ++ [request]
  end.
Proof.
  destruct w as [s n fr ts snt unc]. cbn [st tasks fresh sent]. intros -> He Ht Hu.
  assert (role s = Some ADMIN) as Hr.
  { rewrite allows_transition in Hu. unfold can_transition, is_admin in Hu. rewrite He in Hu.
    by apply andb_true_iff in Hu as [[Hr%bool_decide_eq_true _]%andb_true_iff _]. }
  destruct (f (updateElectionState (e_id e) newState (token s))) as [updated|err] eqn:Ef.
  - destruct (f (getElections (token s))) as [all|err] eqn:El;
      do 3 (run_next command_click ltac:(exact Hu));
      (eexists; split; [reflexivity |]; cbn; split_and!; try done; by rewrite <- app_assoc, !map_app).
  - do 2 (run_next command_click ltac:(exact Hu)).
    eexists. split; [reflexivity |]. cbn. split_and!; try done. by rewrite map_app.
Qed.

#[local] Arguments find_first : simpl never.

(** Runs the loading of the page, ending after [k] answers with the list [all], whose first
    element is [first]. *)
Ltac shown f target Hu k :=
  let E := fresh "E" in
  match goal with |- context [detail f ?tok _] => destruct (f (getElection (e_id target) tok)) eqn:E end; cbn in E;
  (exists k; eexists _, target; split;
   [cbn [List.seq map]; rewrite ?Nat.add_0_r, ?Nat.add_1_r, ?Nat.add_succ_r, ?Nat.add_0_r;
    do 4 (try run_next command_click ltac:(exact Hu)); reflexivity
   | unfold wanted, detail; cbn;
     split_and!; try lia; repeat match goal with H : _ = _ |- _ => rewrite H end; done]).

Ltac load_page f Hu k all first :=
  let E := fresh "E" in
  match goal with
  | |- context [wanted ?id _] =>
      destruct (find_first (fun e => String.eqb (e_id e) id) all) as [target|] eqn:E;
      [shown f target Hu k | shown f first Hu k]
  end.

(** Refreshing ends, whatever the backend answers, after at most three requests: the list
    is the officer's, else the public overview, else one made-up entry; the election shown
    is the one selected, else the first, in detail when that can be had; no error shows. *)
Theorem command_load w f :
  tasks w = [] -> loading (st w) = false ->
  let all := available f (token (st w)) (now w) in
  exists k w' target,
    run command w (User ClickRefresh
                   :: map (fun i => Reply (fresh w + i)%nat (answers f)) (List.seq 0 k)) = Some w'
    /\ (k <= 3)%nat /\ tasks w' = [] /\ loading (st w') = false /\ error (st w') = None
    /\ elections (st w') = all /\ wanted (selectedElectionId (st w)) all = Some target
    /\ selectedElectionId (st w') = e_id target
    /\ election (st w') = Some (detail f (token (st w)) target).
Proof.
  destruct w as [s n fr ts snt unc]. cbn [st tasks fresh sent now]. intros -> Hl.
  assert (allows (render s) ClickRefresh = true) as Hu.
  { unfold render, top_bar. rewrite !allows_app. read_page. by rewrite Hl. }
  cbv zeta. unfold available.
  destruct (f (getElections (token s))) as [[|e l]|err] eqn:E1;
    [load_page f Hu 2%nat [placeholder n] (placeholder n) | load_page f Hu 2%nat (e :: l) e |].
  destruct (f getTransparencyElections) as [[|e l]|err'] eqn:E2;
    [load_page f Hu 3%nat [placeholder n] (placeholder n) | load_page f Hu 3%nat (of_public n e :: map (of_public n) l) (of_public n e)
     | load_page f Hu 3%nat [placeholder n] (placeholder n)].
Qed.

(** Progress of the stages: along the election's transitions no finished stage becomes
    unfinished, except when a created election is configured, and all twelve are finished when
    the results are published. In every state but [CREATED] and [SUSPENDED] what precedes a
    current stage is finished or current too. *)
Theorem command_stage_progress :
  (forall from to g, from <> CREATED -> to ∈ VALID_TRANSITIONS from -> In g LIFECYCLE_STAGES ->
     isDone g from = true -> isDone g to = true)
  /\ (forall g, In g LIFECYCLE_STAGES -> isDone g PUBLISHED = true)
  /\ (forall s g g', s <> CREATED -> s <> SUSPENDED -> In g LIFECYCLE_STAGES ->
        In g' LIFECYCLE_STAGES -> step g <= step g' -> isCurrent g' s = true ->
        isDone g s || isCurrent g s = true).
Proof.
  assert (forall (P : ElectionLifecycleStage -> bool),
    forallb P LIFECYCLE_STAGES = true -> forall g, In g LIFECYCLE_STAGES -> P g = true) as HP.
  { intros P H. by apply forallb_forall. }
  split_and!.
  - intros from to g Hc Ht Hg Hd.
    enough (negb (isDone g from) || isDone g to = true) as H by by rewrite Hd in H.
    revert g Hg Hd. intros g Hg _. revert g Hg. apply HP.
    destruct from; try done; simpl in Ht; rewrite ?elem_of_cons, ?elem_of_nil in Ht;
      (repeat destruct Ht as [->|Ht]); done.
  - apply HP. reflexivity.
  - intros s g g' Hc Hs Hg Hg' Hle Hcur.
    enough ((step g' <? step g) || negb (isCurrent g' s) || isDone g s || isCurrent g s = true) as H.
    { rewrite Hcur in H. apply Z.ltb_ge in Hle. by rewrite Hle in H. }
    clear Hle Hcur. revert g Hg. apply HP. revert g' Hg'. apply HP. by destruct s.
Qed.

(** Two states show a wrong progress. A created election shows its set-up and candidate
    roster, which are still to be done, as DONE and no stage as ACTIVE; a suspended poll shows its
    commencement as UPCOMING. *)
Theorem command_stage_anomalies :
  map step (List.filter (fun g => isDone g CREATED) LIFECYCLE_STAGES) = [1; 2]
  /\ (forall g, In g LIFECYCLE_STAGES -> isCurrent g CREATED = false)
  /\ map step (List.filter (fun g => isDone g CONFIGURED) LIFECYCLE_STAGES) = []
  /\ map step (List.filter (fun g => negb (isDone g SUSPENDED || isCurrent g SUSPENDED)
                                     && (step g <? 7)) LIFECYCLE_STAGES) = [6].
Proof.
  split_and!; try (vm_compute; reflexivity).
  intros g Hg. apply negb_true_iff. revert g Hg. apply forallb_forall. reflexivity.
Qed.

(** Neither spinner of the page stays on: when no request is pending the transition
    buttons are not disabled as busy, and the refresh button is not (once mounted). *)
Theorem command_not_left_loading t r w :
  reachable command (fun _ => True) (initial t r) w -> idle w = true ->
  actionLoading (st w) = false /\ (mounted (st w) = true -> loading (st w) = false).
Proof.
  intros Hw Hidle.
  assert (forall a, raised a (st w) = false) as H.
  { intros a. eapply never_left_busy; [apply command_lowers | | exact Hw | exact Hidle]. by destruct a. }
  split; [apply (H true) |]. intros Hm. specialize (H false). simpl in H. by rewrite Hm in H.
Qed.

(** ** Witnesses *)

Definition some_election (s : ElectionState) : ElectionResponse :=
  {| e_id := "E1"; e_title_name := None; e_title := Some "Poll"%string; e_description := None;
     e_state := s; e_configuration_hash := None; e_device_count := 1; e_ballot_count := 7;
     e_created_at := "2026-01-01T00:00:00Z"; e_opened_at := None; e_closed_at := None;
     e_published_at := None; e_candidates := [] |}.

(** A backend that accepts a transition. *)
Definition accepting : forall r, outcome (resp r) :=
  fun r => match r as r return outcome (resp r) with
           | updateElectionState _ st _ => Ok (some_election st)
           | getElections _ => Ok [some_election OPEN]
           | getElection _ _ => Ok (some_election OPEN)
           | _ => Err (plain_error "Error" "offline")
           end.

Definition admin_token : option string := Some "token"%string.

Definition open_page : world state :=
  match run command (boot (initial admin_token (Some ADMIN)))
          [Env Mount; Reply 0 (answers accepting); Reply 1 (answers accepting)] with
  | Some w => w
  | None => boot (initial None None)
  end.

Lemma reachable_open :
  reachable command (fun _ => True) (initial admin_token (Some ADMIN)) open_page.
Proof.
  eapply (reachable_run command (fun _ => True) _ (boot (initial admin_token (Some ADMIN)))
            [Env Mount; Reply 0 (answers accepting); Reply 1 (answers accepting)]);
    [constructor | by repeat constructor | vm_compute; reflexivity].
Qed.

Lemma command_transition_witness :
  exists w', run command open_page
      [User (ClickTransition CLOSED); Reply 2 (answers accepting); Reply 3 (answers accepting)] = Some w'
    /\ election (st w') = Some (some_election CLOSED).
Proof.
  destruct (command_transition open_page (some_election OPEN) CLOSED accepting)
    as (w' & H1 & _ & H2 & _); try (vm_compute; reflexivity).
  exists w'. split; [exact H1 | exact H2].
Defined.

Definition closing : world state :=
  match run command open_page [User (ClickTransition CLOSED)] with Some w => w | None => open_page end.

Lemma command_requests_legal_witness :
  exists s, Sends s (updateElectionState "E1" CLOSED admin_token).
Proof.
  eexists. apply (command_requests_legal admin_token (Some ADMIN) closing).
  - eapply (reachable_run command (fun _ => True) _ open_page [User (ClickTransition CLOSED)]);
      [exact reachable_open | by repeat constructor | vm_compute; reflexivity].
  - vm_compute. right. right. left. reflexivity.
Defined.

Lemma command_load_witness :
  exists k w', run command (boot (set_loading false (initial admin_token None)))
      (User ClickRefresh :: map (fun i => Reply (0 + i)%nat (answers accepting)) (List.seq 0 k)) = Some w'
    /\ elections (st w') = [some_election OPEN].
Proof.
  destruct (command_load (boot (set_loading false (initial admin_token None))) accepting)
    as (k & w' & target & H1 & _ & _ & _ & _ & H2 & _); [reflexivity | reflexivity |].
  exists k, w'. split; [exact H1 | exact H2].
Defined.

Lemma command_not_left_loading_witness : loading (st open_page) = false.
Proof.
  apply (command_not_left_loading admin_token (Some ADMIN) open_page reachable_open);
    vm_compute; reflexivity.
Defined.
