(* ===== verification/WebSocket.v ===== *)
(** * The live connection: [lib/use-websocket.ts]

    [useWebSocketElection]: a socket opened with a single-use ticket, polling while it is
    down, a reconnection ten seconds after it closed. The browser's part, the sockets and
    their events, is in the state: a socket is named by its position in [sockets], and its
    handlers close over the token, the election and the caller's options of the [connect]
    that made it. The caller's callbacks are functions, compared by identity: each is a
    number, and what they are called with is recorded. *)
From S2P Require Import Prelude JsValue JsNumber Types ApiClient View React.
From Stdlib Require Import String.

Module WebSocket.

(*@ dashboard/lib/use-websocket.ts 11 15 WebSocketStatus *)
Inductive WebSocketStatus := connecting | connected | disconnected | fallback_polling.

Definition status_str (s : WebSocketStatus) : string :=
  match s with
  | connecting => "connecting" | connected => "connected" | disconnected => "disconnected"
  | fallback_polling => "fallback_polling"
  end.

(*@ dashboard/lib/use-websocket.ts 17 24 WebSocketEventMessage *)
Record WebSocketEventMessage := {
  wm_event : string; wm_election_id : option string; wm_timestamp : option string;
  wm_data : value; wm_user : option string; wm_role : option string }.

(** [readyState] of a browser socket. *)
Inductive phase := CONNECTING | OPEN_ | CLOSING | CLOSED_.

#[export] Instance phase_eq_dec : EqDecision phase. Proof. solve_decision. Defined.

(** The options of the caller that a render closes over besides token and election. *)
(*@ dashboard/lib/use-websocket.ts 26 32 UseWebSocketOptions *)
Record options := mk_options {
  onEvent : option nat;
  onPoll : option nat;
  pollIntervalMs : Z }.

#[export] Instance options_eq_dec : EqDecision options. Proof. solve_decision. Defined.

Record socket := {
  so_url : string; so_phase : phase;
  so_token : option string; so_election : option string; so_options : options }.

(*@ dashboard/lib/use-websocket.ts 34 46 useWebSocketElection *)
Record state := mk_state {
  token : option string;
  electionId : option string;
  caller : options;
  mounted : bool;
  status : WebSocketStatus;
  lastEvent : option WebSocketEventMessage;
  wsRef : option nat;
  pollTimerRef : option nat;
  reconnectTimerRef : option nat;
  unmountedRef : bool;
  sockets : list socket;
  delivered : list (nat * WebSocketEventMessage);
  polls : list nat }.

Definition set_token (v : option string) (s : state) : state :=
  mk_state v (electionId s) (caller s) (mounted s) (status s) (lastEvent s) (wsRef s)
    (pollTimerRef s) (reconnectTimerRef s) (unmountedRef s) (sockets s) (delivered s) (polls
    s).
Definition set_electionId (v : option string) (s : state) : state :=
  mk_state (token s) v (caller s) (mounted s) (status s) (lastEvent s) (wsRef s)
    (pollTimerRef s) (reconnectTimerRef s) (unmountedRef s) (sockets s) (delivered s) (polls
    s).
Definition set_caller (v : options) (s : state) : state :=
  mk_state (token s) (electionId s) v (mounted s) (status s) (lastEvent s) (wsRef s)
    (pollTimerRef s) (reconnectTimerRef s) (unmountedRef s) (sockets s) (delivered s) (polls
    s).
Definition set_mounted (v : bool) (s : state) : state :=
  mk_state (token s) (electionId s) (caller s) v (status s) (lastEvent s) (wsRef s)
    (pollTimerRef s) (reconnectTimerRef s) (unmountedRef s) (sockets s) (delivered s) (polls
    s).
Definition set_status (v : WebSocketStatus) (s : state) : state :=
  mk_state (token s) (electionId s) (caller s) (mounted s) v (lastEvent s) (wsRef s)
    (pollTimerRef s) (reconnectTimerRef s) (unmountedRef s) (sockets s) (delivered s) (polls
    s).
Definition set_lastEvent (v : option WebSocketEventMessage) (s : state) : state :=
  mk_state (token s) (electionId s) (caller s) (mounted s) (status s) v (wsRef s)
    (pollTimerRef s) (reconnectTimerRef s) (unmountedRef s) (sockets s) (delivered s) (polls
    s).
Definition set_wsRef (v : option nat) (s : state) : state :=
  mk_state (token s) (electionId s) (caller s) (mounted s) (status s) (lastEvent s) v
    (pollTimerRef s) (reconnectTimerRef s) (unmountedRef s) (sockets s) (delivered s) (polls
    s).
Definition set_pollTimerRef (v : option nat) (s : state) : state :=
  mk_state (token s) (electionId s) (caller s) (mounted s) (status s) (lastEvent s) (wsRef
    s) v (reconnectTimerRef s) (unmountedRef s) (sockets s) (delivered s) (polls s).
Definition set_reconnectTimerRef (v : option nat) (s : state) : state :=
  mk_state (token s) (electionId s) (caller s) (mounted s) (status s) (lastEvent s) (wsRef
    s) (pollTimerRef s) v (unmountedRef s) (sockets s) (delivered s) (polls s).
Definition set_unmountedRef (v : bool) (s : state) : state :=
  mk_state (token s) (electionId s) (caller s) (mounted s) (status s) (lastEvent s) (wsRef
    s) (pollTimerRef s) (reconnectTimerRef s) v (sockets s) (delivered s) (polls s).
Definition set_sockets (v : list socket) (s : state) : state :=
  mk_state (token s) (electionId s) (caller s) (mounted s) (status s) (lastEvent s) (wsRef
    s) (pollTimerRef s) (reconnectTimerRef s) (unmountedRef s) v (delivered s) (polls s).
Definition set_delivered (v : list (nat * WebSocketEventMessage)) (s : state) : state :=
  mk_state (token s) (electionId s) (caller s) (mounted s) (status s) (lastEvent s) (wsRef
    s) (pollTimerRef s) (reconnectTimerRef s) (unmountedRef s) (sockets s) v (polls s).
Definition set_polls (v : list nat) (s : state) : state :=
  mk_state (token s) (electionId s) (caller s) (mounted s) (status s) (lastEvent s) (wsRef
    s) (pollTimerRef s) (reconnectTimerRef s) (unmountedRef s) (sockets s) (delivered s) v.
Definition initial (t e : option string) (c : options) : state :=
  mk_state t e c false disconnected None None None None false [] [] [].

Abbreviation M := (prog state).

Definition with_phase (p : phase) (k : socket) : socket :=
  {| so_url := so_url k; so_phase := p; so_token := so_token k; so_election := so_election k;
     so_options := so_options k |}.

(** The browser moves socket [i] to a phase; closing a closed socket does nothing. *)
Definition move_socket (i : nat) (p : phase) (s : state) : state :=
  set_sockets (alter (with_phase p) i (sockets s)) s.

Definition close_socket (i : nat) (s : state) : state :=
  match sockets s !! i with
  | Some k => if bool_decide (so_phase k = CLOSED_) then s else move_socket i CLOSING s
  | None => s
  end.

Definition phase_of (i : nat) (s : state) : option phase := option_map so_phase (sockets s !! i).

Section Hook.
Context (NEXT_PUBLIC_WS_URL NEXT_PUBLIC_API_URL : option string).

(** The addresses the constructor of a socket accepts; it throws for others. *)
Context (accepts : string -> bool).

(** [s.replace(/^http/, "ws")]. *)
(*@ dashboard/lib/use-websocket.ts 84 84 connect *)
Definition http_to_ws (s : string) : string :=
  if starts_with "http" s then "ws" ++s String.substring 4 (String.length s - 4) s else s.

(*@ dashboard/lib/use-websocket.ts 81 85 wsBase *)
Definition wsBase : string :=
  match NEXT_PUBLIC_WS_URL with
  | Some u => if truthy_str u then u else
      match NEXT_PUBLIC_API_URL with
      | Some a => if truthy_str a then http_to_ws a else "ws://localhost:8000"
      | None => "ws://localhost:8000"
      end
  | None =>
      match NEXT_PUBLIC_API_URL with
      | Some a => if truthy_str a then http_to_ws a else "ws://localhost:8000"
      | None => "ws://localhost:8000"
      end
  end.

(*@ dashboard/lib/use-websocket.ts 87 89 wsUrl *)
Definition wsUrl (election ticket : string) : string :=
  wsBase ++s "/api/ws/" ++s election ++s "?ticket=" ++s encodeURIComponent ticket.

(*@ dashboard/lib/use-websocket.ts 51 53 startPolling *)
Definition poll (c : options) : M unit :=
  match onPoll c with
  | Some callback => upd (fun s => set_polls (polls s ++ [callback]) s)
  | None => mret tt
  end.

(*@ dashboard/lib/use-websocket.ts 48 59 startPolling *)
Definition startPolling (c : options) : M unit :=
  Peek (fun s =>
    match pollTimerRef s with
    | Some _ => mret tt
    | None =>
        upd (set_status fallback_polling);;
        poll c;;
        Timer true (pollIntervalMs c) (poll c) (fun id => upd (set_pollTimerRef (Some id)))
    end).

(*@ dashboard/lib/use-websocket.ts 61 66 stopPolling *)
Definition stopPolling : M unit :=
  Peek (fun s =>
    match pollTimerRef s with
    | Some id => Clear id (upd (set_pollTimerRef None))
    | None => mret tt
    end).

(*@ dashboard/lib/use-websocket.ts 90 91 connect *)
Definition new_socket (t e : option string) (c : options) (url : string) (s : state) : state :=
  set_wsRef (Some (List.length (sockets s)))
    (set_sockets (sockets s ++ [{| so_url := url; so_phase := CONNECTING;
                                   so_token := t; so_election := e; so_options := c |}]) s).

(** The socket opened with a ticket. *)
(*@ dashboard/lib/use-websocket.ts 78 91 connect *)
Definition open_socket (t e : option string) (c : options) (ticket : string) : M unit :=
  Peek (fun s =>
    if unmountedRef s then mret tt
    else if accepts (wsUrl (default EmptyString e) ticket)
    then upd (new_socket t e c (wsUrl (default EmptyString e) ticket))
    else Throw (plain_error "SyntaxError" "The URL is invalid.")).

(** [connect] of the render with token [t], election [e] and options [c]. *)
(*@ dashboard/lib/use-websocket.ts 68 134 connect *)
Definition connect (t e : option string) (c : options) : M unit :=
  Peek (fun s =>
    if negb (truthy_opt t) || negb (truthy_opt e) || unmountedRef s then mret tt
    else
      try_catch
        (upd (set_status connecting);;
         ticket ← await (getWsTicket t e);
         open_socket t e c (ws_ticket ticket))
        (fun _ => startPolling c)).

(*@ dashboard/lib/use-websocket.ts 93 100 onopen *)
Definition onopen (i : nat) : M unit :=
  upd (move_socket i OPEN_);;
  Peek (fun s =>
    if unmountedRef s then upd (close_socket i)
    else upd (set_status connected);; stopPolling).

(** The message as [JSON.parse] reads it: nothing when it is not JSON. *)
(*@ dashboard/lib/use-websocket.ts 102 112 onmessage *)
Definition onmessage (c : options) (m : option WebSocketEventMessage) : M unit :=
  match m with
  | Some parsed =>
      upd (set_lastEvent (Some parsed));;
      match onEvent c with
      | Some callback => upd (fun s => set_delivered (delivered s ++ [(callback, parsed)]) s)
      | None => mret tt
      end
  | None => mret tt
  end.

(*@ dashboard/lib/use-websocket.ts 114 117 onerror *)
Definition onerror (c : options) : M unit := startPolling c.

(*@ dashboard/lib/use-websocket.ts 119 129 onclose *)
Definition onclose (i : nat) (k : socket) : M unit :=
  upd (move_socket i CLOSED_);;
  Peek (fun s =>
    if unmountedRef s then mret tt
    else
      upd (set_status disconnected);;
      startPolling (so_options k);;
      Timer false 10000
        (Peek (fun s => if unmountedRef s then mret tt
                        else connect (so_token k) (so_election k) (so_options k)))
        (fun id => upd (set_reconnectTimerRef (Some id)))).

(*@ dashboard/lib/use-websocket.ts 136 138 useEffect *)
Definition effect (t e : option string) (c : options) : M unit :=
  upd (set_unmountedRef false);;
  connect t e c.

(*@ dashboard/lib/use-websocket.ts 140 150 useEffect *)
Definition cleanup : M unit :=
  upd (set_unmountedRef true);;
  stopPolling;;
  Peek (fun s => match reconnectTimerRef s with Some id => Clear id (mret tt) | None => mret tt end);;
  Peek (fun s =>
    match wsRef s with
    | Some i => upd (close_socket i);; upd (set_wsRef None)
    | None => mret tt
    end).

Inductive ui := Reconnect.

#[export] Instance ui_eq_dec : EqDecision ui. Proof. solve_decision. Defined.

(** What happens to the hook: its component's life, a render with a token, an election and
    options of the caller, and the events of the browser's sockets. *)
Inductive env :=
| Mount | Unmount | Props (t e : option string) (c : options)
| SocketOpen (i : nat) | SocketMessage (i : nat) (m : option WebSocketEventMessage)
| SocketError (i : nat) | SocketClose (i : nat).

Definition on_ui (u : ui) (s : state) : M unit :=
  match u with Reconnect => connect (token s) (electionId s) (caller s) end.

(** A render with any of the dependencies changed, a callback's identity included, runs the
    cleanup and the effect again. A browser opens a connecting socket, delivers messages of an open one, and reports
    errors and the end of any that is not closed yet. *)
(*@ dashboard/lib/use-websocket.ts 136 151 useEffect *)
Definition on_surroundings (x : env) (s : state) : M unit :=
  match x with
  | Mount =>
      if mounted s then mret tt
      else upd (set_mounted true);; effect (token s) (electionId s) (caller s)
  | Unmount => if mounted s then upd (set_mounted false);; cleanup else mret tt
  | Props t e c =>
      if negb (mounted s)
         || (bool_decide (t = token s) && bool_decide (e = electionId s) && bool_decide (c = caller s))
      then mret tt
      else upd (set_token t);; upd (set_electionId e);; upd (set_caller c);; cleanup;; effect t e c
  | SocketOpen i =>
      if bool_decide (phase_of i s = Some CONNECTING) then onopen i else mret tt
  | SocketMessage i m =>
      match sockets s !! i with
      | Some k => if bool_decide (so_phase k = OPEN_) then onmessage (so_options k) m else mret tt
      | None => mret tt
      end
  | SocketError i =>
      match sockets s !! i with
      | Some k => if bool_decide (so_phase k = CLOSED_) then mret tt else onerror (so_options k)
      | None => mret tt
      end
  | SocketClose i =>
      match sockets s !! i with
      | Some k => if bool_decide (so_phase k = CLOSED_) then mret tt else onclose i k
      | None => mret tt
      end
  end.

(*@ dashboard/lib/use-websocket.ts 153 157 useWebSocketElection *)
Definition render (s : state) : list (node ui) :=
  when (mounted s)
    [Text (status_str (status s));
     Text (match lastEvent s with Some m => wm_event m | None => EmptyString end);
     Button "reconnect" false Reconnect].

Definition hook : component state ui env := mk_component render on_ui on_surroundings.
End Hook.

End WebSocket.
