(* ===== verification/WebSocketFacts.v ===== *)
(** * Correctness of the live connection

    The polling interval against the reference kept of it, the requests for tickets, the way
    from a dropped socket to the next, and what is left running or shown wrongly. *)
From S2P Require Import Prelude JsValue JsNumber Types ApiClient View React Tokens Intervals WebSocket.
From Stdlib Require Import String.
Import WebSocket.

#[export] Hint Unfold on_ui on_surroundings connect open_socket startPolling stopPolling poll onopen
  onmessage onerror onclose effect cleanup await await_query : prog.

Section Hook.
Context (wsEnv apiEnv : option string) (accepts : string -> bool).

Definition hook_at := hook wsEnv apiEnv accepts.

(** ** Polling *)

Definition polling (T : list nat) (s : state) : Prop :=
  T = match pollTimerRef s with Some id => [id] | None => [] end.

Lemma close_keeps_timer i s : pollTimerRef (close_socket i s) = pollTimerRef s.
Proof. unfold close_socket. by repeat case_match. Qed.

Definition steady {A : Type} (p : prog state A) : Prop := forall T s, polling T s -> ticks polling p T s.

Lemma steady_upd f : (forall s, pollTimerRef (f s) = pollTimerRef s) -> steady (upd f).
Proof. intros Hf T s HR. cbn. unfold polling. by rewrite Hf. Qed.

Lemma steady_bind {A B} (p : prog state A) (f : A -> prog state B) :
  steady p -> (forall a, steady (f a)) -> steady (p ≫= f).
Proof. intros Hp Hf T s HR. apply ticks_bind; [by apply Hp | by intros; apply Hf]. Qed.

Lemma steady_peek {A} (k : state -> prog state A) : (forall s, steady (k s)) -> steady (Peek k).
Proof. intros Hk T s HR. by apply Hk. Qed.

Lemma startPolling_steady c : steady (startPolling c).
Proof.
  intros T s HR. unfold startPolling, poll. cbn. unfold polling in *.
  destruct (pollTimerRef s) eqn:E; [by cbn; rewrite E |]. subst T. destruct (onPoll c); cbn; by split.
Qed.

Lemma stopPolling_steady : steady stopPolling.
Proof.
  intros T s HR. unfold stopPolling. cbn. unfold polling in *. destruct (pollTimerRef s) eqn:E; [| by cbn; rewrite E].
  subst T. cbn. unfold without. cbn. by rewrite Nat.eqb_refl.
Qed.

Lemma connect_steady t e c : steady (connect wsEnv apiEnv accepts t e c).
Proof.
  intros T s HR. unfold connect. cbn [ticks]. destruct (_ || _); [exact HR |].
  apply ticks_try; [| intros; by apply startPolling_steady].
  cbn. split; [exact HR |]. intros [a|err] T' s' HR'; cbn; [| exact HR'].
  destruct (unmountedRef s'); [done |]. by destruct (accepts _).
Qed.

(** Once polling has stopped no interval is left for the rest of the cleanup to touch. *)
Lemma cleanup_steady : steady cleanup.
Proof.
  intros T s HR. unfold cleanup. cbn.
  assert (forall s', pollTimerRef s' = None -> ticks polling
    (Peek (fun s => match reconnectTimerRef s with Some id => Clear id (mret tt) | None => mret tt end);;
     Peek (fun s => match wsRef s with Some i => upd (close_socket i);; upd (set_wsRef None) | None => mret tt end)) [] s')
    as Hrest.
  { intros s' Hs'. assert (polling [] s') as HR' by (unfold polling; by rewrite Hs').
    cbn. destruct (reconnectTimerRef s'); cbn; (destruct (wsRef s') as [i|]; cbn; [| exact HR']);
      unfold polling; cbn; by rewrite close_keeps_timer, Hs'. }
  unfold polling in HR. destruct (pollTimerRef s) as [id|] eqn:E; subst T.
  - cbn. unfold without. cbn. rewrite Nat.eqb_refl.
    exact (Hrest (set_pollTimerRef None (set_unmountedRef true s)) eq_refl).
  - exact (Hrest (set_unmountedRef true s) E).
Qed.

Lemma effect_steady t e c : steady (effect wsEnv apiEnv accepts t e c).
Proof. apply steady_bind; [by apply steady_upd | intros _; apply connect_steady]. Qed.

Lemma onopen_steady i : steady (onopen i).
Proof.
  apply steady_bind; [by apply steady_upd | intros _]. apply steady_peek. intros s.
  destruct (unmountedRef s); [apply steady_upd, close_keeps_timer |].
  apply steady_bind; [by apply steady_upd | intros _; apply stopPolling_steady].
Qed.

Lemma onclose_steady i k : steady (onclose wsEnv apiEnv accepts i k).
Proof.
  apply steady_bind; [by apply steady_upd | intros _]. apply steady_peek. intros s.
  destruct (unmountedRef s); [by intros ? |]. apply steady_bind; [by apply steady_upd | intros _].
  apply steady_bind; [apply startPolling_steady | intros _ T s' HR]. cbn [ticks]. split.
  - apply steady_peek. intros s2. destruct (unmountedRef s2); [by intros ? | apply connect_steady].
  - intros id _. exact HR.
Qed.

Lemma hook_ticks : ticking_component hook_at polling (fun _ => True).
Proof.
  split; [intros [] T s _; apply connect_steady |]. intros x T s _. revert T s.
  enough (forall s0, steady (on_surroundings wsEnv apiEnv accepts x s0)) as H by (intros T s; apply H).
  intros s0. destruct x as [| |t e c|i|i m|i|i]; cbn [on_surroundings].
  - destruct (mounted s0); [by intros ? |]. apply steady_bind; [by apply steady_upd | intros _; apply effect_steady].
  - destruct (mounted s0); [| by intros ?]. apply steady_bind; [by apply steady_upd | intros _; apply cleanup_steady].
  - destruct (_ || _); [by intros ? |]. do 3 (apply steady_bind; [by apply steady_upd | intros _]).
    apply steady_bind; [apply cleanup_steady | intros _; apply effect_steady].
  - destruct (bool_decide _); [apply onopen_steady | by intros ?].
  - destruct (sockets s0 !! i) as [k|]; [| by intros ?]. destruct (bool_decide _); [| by intros ?].
    unfold onmessage. destruct m; [| by intros ?]. apply steady_bind; [by apply steady_upd | intros _].
    destruct (onEvent (so_options k)); [by apply steady_upd | by intros ?].
  - destruct (sockets s0 !! i) as [k|]; [| by intros ?].
    destruct (bool_decide _); [by intros ? | apply startPolling_steady].
  - destruct (sockets s0 !! i) as [k|]; [| by intros ?].
    destruct (bool_decide _); [by intros ? | apply onclose_steady].
Qed.

(** C29. The polling interval: exactly the one whose identifier the hook keeps is running, and
    none when it keeps none, in every interleaving. *)
Theorem ws_one_polling_interval t e c w :
  reachable hook_at (fun _ => True) (initial t e c) w ->
  intervals_of (tasks w) = match pollTimerRef (st w) with Some id => [id] | None => [] end.
Proof. by apply (reachable_related hook_at polling (fun _ => True) (initial t e c) w hook_ticks). Qed.

(** ** Tickets and sockets *)

Definition Sends (s : state) (r : req) : Prop :=
  match r with
  | getWsTicket t e => truthy_opt t = true /\ truthy_opt e = true /\ unmountedRef s = false
  | _ => False
  end.

Abbreviation safe := (keeps (fun _ => True) Sends).

Lemma connect_safe t e c : safe (connect wsEnv apiEnv accepts t e c).
Proof.
  intros b s _. unfold connect. cbn [wpf].
  destruct (truthy_opt t) eqn:Ht; [| done]. destruct (truthy_opt e) eqn:He; [| done].
  destruct (unmountedRef s) eqn:Hu; [done |]. cbn [negb orb].
  assert (safe (startPolling c)) as Hp by keeps_auto.
  apply wpf_try. cbn. split_and!; [done | by repeat constructor |].
  intros [a|err] s' _; [| by apply Hp]. cbn. destruct (unmountedRef s'); [done |].
  destruct (accepts _); [done | by apply Hp].
Qed.

Lemma effect_safe t e c : safe (effect wsEnv apiEnv accepts t e c).
Proof. apply keeps_bind; [by apply keeps_upd | intros; apply connect_safe]. Qed.

Lemma hook_safe : safe_component hook_at (fun _ => True) Sends (fun _ => True).
Proof.
  split; [intros [] s _ _ _; by apply keeps_handles; [apply connect_safe |] |].
  intros x s _ _. apply keeps_handles; [| done]. unfold hook_at, hook. cbn [on_env].
  destruct x as [| |t e c|i|i m|i|i]; cbn [on_surroundings].
  - destruct (mounted s); [apply keeps_ret |].
    apply keeps_bind; [by apply keeps_upd | intros; apply effect_safe].
  - keeps_auto.
  - destruct (_ || _); [apply keeps_ret |]. repeat (apply keeps_bind; [by apply keeps_upd | intros _]).
    apply keeps_bind; [keeps_auto | intros; apply effect_safe].
  - keeps_auto.
  - keeps_auto.
  - keeps_auto.
  - destruct (sockets s !! i) as [k|]; [| apply keeps_ret].
    destruct (bool_decide _); [apply keeps_ret |]. unfold onclose.
    apply keeps_bind; [by apply keeps_upd | intros _].
    apply keeps_peek. intros s'. destruct (unmountedRef s'); [apply keeps_ret |].
    apply keeps_bind; [by apply keeps_upd | intros _].
    apply keeps_bind; [keeps_auto | intros _].
    apply keeps_timer; [| intros; by apply keeps_upd].
    apply keeps_peek. intros s2. destruct (unmountedRef s2); [apply keeps_ret | apply connect_safe].
Qed.

(** A ticket with the token and the election it was asked for. *)
Definition tickets (q : query) : outcome (qresp q) -> list (option string * option string * string) :=
  match q with
  | One r => match r return outcome (resp r) -> list (option string * option string * string) with
             | getWsTicket t e => fun o => match o with Ok a => [(t, e, ws_ticket a)] | Err _ => [] end
             | _ => fun _ => []
             end
  | _ => fun _ => []
  end.

Section Ticketed.
Context (I : option string * option string * string -> Prop).

(** A socket opened with a ticket that was answered to a request for its election. *)
Definition ticketed (k : socket) : Prop :=
  exists ticket, I (so_token k, so_election k, ticket) /\ truthy_opt (so_token k) = true
    /\ truthy_opt (so_election k) = true
    /\ so_url k = wsUrl wsEnv apiEnv (default EmptyString (so_election k)) ticket.

Definition all_ticketed (s : state) : Prop := Forall ticketed (sockets s).

Lemma ticketed_move i p s : all_ticketed s -> all_ticketed (move_socket i p s).
Proof. intros Hs. unfold all_ticketed, move_socket. cbn. by apply Forall_alter; [| intros k _ Hk]. Qed.

Lemma ticketed_close i s : all_ticketed s -> all_ticketed (close_socket i s).
Proof. intros Hs. unfold close_socket. repeat case_match; try done. by apply ticketed_move. Qed.

Abbreviation opens p := (carries tickets (fun _ => True) I all_ticketed p (fun _ => True)).

Lemma startPolling_opens c : opens (startPolling c).
Proof. unfold startPolling, poll. cbn. intros s Hs. by repeat case_match. Qed.

Lemma connect_opens t e c : opens (connect wsEnv apiEnv accepts t e c).
Proof.
  unfold connect. intros s _. destruct (truthy_opt t) eqn:Ht; [| done].
  destruct (truthy_opt e) eqn:He; [| done]. destruct (unmountedRef s); [done |]. cbn [negb orb].
  apply carries_try; [| intros _; apply startPolling_opens].
  apply (carries_bind _ _ _ _ (fun _ => True)); [by apply carries_upd | intros _ _].
  cbn. split; [by apply Forall_singleton |]. intros [a|err] Ha; [| done]. apply Forall_inv in Ha.
  intros s' Hs'. destruct (unmountedRef s'); [done |]. destruct (accepts _); [| done]. split; [| done].
  intros s2 H2. apply Forall_app_2; [done |]. apply Forall_singleton. by exists (ws_ticket a).
Qed.

Lemma cleanup_opens : opens cleanup.
Proof.
  unfold cleanup, stopPolling.
  apply (carries_bind _ _ _ _ (fun _ => True)); [by apply carries_upd | intros _ _].
  apply (carries_bind _ _ _ _ (fun _ => True)); [intros s _; by destruct (pollTimerRef s) | intros _ _].
  apply (carries_bind _ _ _ _ (fun _ => True)); [intros s _; by destruct (reconnectTimerRef s) | intros _ _].
  intros s _. destruct (wsRef s) as [i|]; [| done]. cbn. split; [intros s'; apply ticketed_close | by split].
Qed.

Lemma effect_opens t e c : opens (effect wsEnv apiEnv accepts t e c).
Proof.
  unfold effect. apply (carries_bind _ _ _ _ (fun _ => True)); [by apply carries_upd |].
  intros _ _. apply connect_opens.
Qed.

Lemma onopen_opens i : opens (onopen i).
Proof.
  unfold onopen, stopPolling. cbn. split; [intros s; apply ticketed_move |]. intros s _.
  destruct (unmountedRef s); cbn; split; auto using ticketed_close. intros s' _. by destruct (pollTimerRef s').
Qed.

Lemma onclose_opens i k : opens (onclose wsEnv apiEnv accepts i k).
Proof.
  unfold onclose. apply (carries_bind _ _ _ _ (fun _ => True)); [apply carries_upd; intros s; apply ticketed_move |].
  intros _ _ s _. destruct (unmountedRef s); [done |].
  apply (carries_bind _ _ _ _ (fun _ => True)); [by apply carries_upd | intros _ _].
  apply (carries_bind _ _ _ _ (fun _ => True)); [apply startPolling_opens | intros _ _].
  split; [| done]. intros s' _. destruct (unmountedRef s'); [done | apply connect_opens].
Qed.

Lemma hook_carries : carrier tickets (fun _ => True) I hook_at all_ticketed (fun _ => True).
Proof.
  split; [intros [] s _; apply connect_opens |]. intros x s _ _.
  change (opens (on_surroundings wsEnv apiEnv accepts x s)).
  destruct x as [| |t e c|i|i m|i|i]; cbn [on_surroundings].
  - destruct (mounted s); [done |]. apply (carries_bind _ _ _ _ (fun _ => True)); [by apply carries_upd |].
    intros _ _. apply effect_opens.
  - destruct (mounted s); [| done]. apply (carries_bind _ _ _ _ (fun _ => True)); [by apply carries_upd |].
    intros _ _. apply cleanup_opens.
  - destruct (_ || _); [done |].
    do 3 (apply (carries_bind _ _ _ _ (fun _ => True)); [by apply carries_upd | intros _ _]).
    apply (carries_bind _ _ _ _ (fun _ => True)); [apply cleanup_opens | intros _ _; apply effect_opens].
  - destruct (bool_decide _); [apply onopen_opens | done].
  - destruct (sockets s !! i) as [k|]; [| done]. destruct (bool_decide _); [| done].
    unfold onmessage. destruct m as [m|]; [| done]. destruct (onEvent (so_options k)); by cbn.
  - destruct (sockets s !! i) as [k|]; [| done]. destruct (bool_decide _); [done | apply startPolling_opens].
  - destruct (sockets s !! i) as [k|]; [| done]. destruct (bool_decide _); [done | apply onclose_opens].
Qed.
End Ticketed.

(** C28. In every interleaving a ticket is requested only with a token, for an election, and
    while the hook is mounted, and nothing else is requested; and every socket was opened with
    a ticket that was answered to such a request, by its token, and at the address that
    carries that ticket, encoded, under the election it was asked for. *)
Theorem ws_requests_and_sockets t e c es w :
  run hook_at (boot (initial t e c)) es = Some w ->
  (forall s q, In (s, q) (sent w) ->
     exists tok el, q = getWsTicket (Some tok) (Some el)
       /\ truthy_str tok = true /\ truthy_str el = true /\ unmountedRef s = false)
  /\ (forall k, In k (sockets (st w)) ->
        exists tok el ticket, so_token k = Some tok /\ so_election k = Some el
          /\ truthy_str tok = true /\ truthy_str el = true
          /\ In (Some tok, Some el, ticket) (grants tickets hook_at (boot (initial t e c)) es)
          /\ so_url k = wsBase wsEnv apiEnv ++s "/api/ws/" ++s el ++s "?ticket=" ++s encodeURIComponent ticket).
Proof.
  intros Hrun. split.
  - intros s q Hin.
    assert (reachable hook_at (fun _ => True) (initial t e c) w) as Hw
      by (eapply reachable_run; [constructor | by apply Forall_true | exact Hrun]).
    destruct (reachable_good hook_at (fun _ => True) Sends (fun _ => True) hook_safe _ w I Hw) as [_ _ Hs].
    pose proof (Forall_In _ _ _ Hs Hin) as Hq. cbn in Hq.
    destruct q as []; try done. destruct Hq as (Ht & He & Hu).
    match type of Ht with truthy_opt ?x = _ => destruct x as [tok|]; [| done] end.
    match type of He with truthy_opt ?x = _ => destruct x as [el|]; [| done] end.
    by exists tok, el.
  - intros k Hk.
    destruct (run_carries (fun x => In x (grants tickets hook_at (boot (initial t e c)) es)) hook_at
                _ _ (initial t e c) es w (hook_carries _)) as [Hs _ _];
      [constructor | by apply Forall_true; intros [] | by apply Forall_forall; intros x ?%list_elem_of_In | exact Hrun |].
    destruct (Forall_In _ _ k Hs Hk) as (ticket & Hin & Ht & He & Hu).
    destruct (so_token k) as [tok|]; [| done]. destruct (so_election k) as [el|]; [| done].
    exists tok, el, ticket. by split_and!.
Qed.

(** ** From a dropped socket to the next *)

Lemma added_socket (f : socket -> socket) i l k : (alter f i l ++ [k]) !! List.length l = Some k.
Proof. rewrite lookup_app_r by (rewrite length_alter; lia). by rewrite length_alter, Nat.sub_diag. Qed.

(** The states and tasks on the way. *)
Definition polled (c : options) (s : state) : state :=
  match onPoll c with Some callback => set_polls (polls s ++ [callback]) s | None => s end.

Definition reconnect (k : socket) : prog state unit :=
  Peek (fun s => if unmountedRef s then mret tt
                 else connect wsEnv apiEnv accepts (so_token k) (so_election k) (so_options k)).

Definition resume (t e : option string) (c : options) (o : outcome WsTicketResponse) : prog state unit :=
  try_catch
    (ticket ← (match o with Ok a => Ret a | Err err => Throw err end);
     open_socket wsEnv apiEnv accepts t e c (ws_ticket ticket))
    (fun _ => startPolling c).

Lemma polled_unmounted c s : unmountedRef (polled c s) = unmountedRef s.
Proof. unfold polled. by destruct (onPoll c). Qed.
Lemma polled_sockets c s : sockets (polled c s) = sockets s.
Proof. unfold polled. by destruct (onPoll c). Qed.
Lemma polled_timer c s : pollTimerRef (polled c s) = pollTimerRef s.
Proof. unfold polled. by destruct (onPoll c). Qed.
Lemma polled_polls c s :
  polls (polled c s) = polls s ++ match onPoll c with Some callback => [callback] | None => [] end.
Proof. unfold polled. destruct (onPoll c); cbn; by rewrite ?app_nil_r. Qed.

Ltac read_state :=
  unfold new_socket, phase_of, move_socket;
  repeat (progress cbn -[lookup alter List.length Nat.add]
          || rewrite polled_unmounted || rewrite polled_sockets || rewrite polled_timer
          || rewrite polled_polls).

Lemma exec_poll_polled c w : exec (poll c) w = with_st (polled c (st w)) w.
Proof. unfold polled, poll. by destruct (onPoll c), w. Qed.

Lemma socket_drops s n fr snt unc i k :
  unmountedRef s = false -> pollTimerRef s = None -> sockets s !! i = Some k -> so_phase k = OPEN_ ->
  pollIntervalMs (so_options k) = 5000 ->
  step hook_at (mk_world s n fr [] snt unc) (Env (SocketClose i))
  = Some (mk_world
      (set_reconnectTimerRef (Some (S fr)) (set_pollTimerRef (Some fr)
         (polled (so_options k) (set_status fallback_polling (set_status disconnected (move_socket i CLOSED_ s))))))
      n (S (S fr))
      [Timed fr (n + 5000) (Some 5000) (poll (so_options k)); Timed (S fr) (n + 10000) None (reconnect k)]
      snt unc).
Proof.
  intros Hu Hp Hk Ho Hms. rewrite step_env. unfold hook_at, hook. cbn [on_env on_surroundings st].
  rewrite Hk, Ho, bool_decide_eq_false_2 by done. cbn. rewrite Hu. cbn. rewrite Hp. unfold polled, poll, reconnect.
  destruct (onPoll (so_options k)); cbn; by rewrite Hms, !app_nil_r.
Qed.

Lemma interval_fires s n fr F d d2 c body snt unc :
  d <= n -> d <= d2 ->
  step hook_at
    (mk_world s n F [Timed fr d (Some 5000) (poll c); Timed (S fr) d2 None body] snt unc)
    (Fire fr)
  = Some (mk_world (polled c s) n F
      [Timed fr (d + 5000) (Some 5000) (poll c); Timed (S fr) d2 None body] snt unc).
Proof.
  intros Hd Hd2. unfold step, get_task, may_fire.
  cbn -[Z.leb Z.ltb Z.eqb Nat.eqb Nat.leb Z.add exec poll]. rewrite !Nat.eqb_refl.
  cbn -[Z.leb Z.ltb Z.eqb Nat.eqb Nat.leb Z.add exec poll].
  rewrite (proj2 (Z.leb_le _ _) Hd), Z.eqb_refl, Nat.leb_refl, orb_true_r.
  assert ((d <? d2) || (d =? d2) && (fr <=? S fr)%nat = true) as ->.
  { rewrite (proj2 (Nat.leb_le _ _)), andb_true_r by lia. destruct (Z.ltb_spec d d2); [done |].
    apply Z.eqb_eq. lia. }
  rewrite (proj2 (Nat.eqb_neq (S fr) fr)) by lia. by rewrite exec_poll_polled.
Qed.

Lemma reconnects s n fr F d d2 c k e snt unc :
  d2 <= n -> d2 < d -> (S fr < F)%nat ->
  unmountedRef s = false -> truthy_opt (so_token k) = true -> so_election k = Some e ->
  truthy_str e = true ->
  step hook_at
    (mk_world s n F [Timed fr d (Some 5000) (poll c); Timed (S fr) d2 None (reconnect k)] snt unc)
    (Fire (S fr))
  = Some (mk_world (set_status connecting s) n (S F)
      [Timed fr d (Some 5000) (poll c);
       Waiting F (One (getWsTicket (so_token k) (Some e))) (resume (so_token k) (Some e) (so_options k))]
      (snt ++ [(set_status connecting s, getWsTicket (so_token k) (Some e))]) unc).
Proof.
  intros Hd Hd2 HF Hu Ht He Hte. unfold step, get_task, may_fire, drop_task.
  cbn -[Z.leb Z.ltb Z.eqb Nat.eqb Nat.leb Z.add exec poll reconnect filter].
  rewrite (proj2 (Nat.eqb_neq fr (S fr))), Nat.eqb_refl by lia.
  cbn -[Z.leb Z.ltb Z.eqb Nat.eqb Nat.leb Z.add exec poll reconnect filter].
  rewrite (proj2 (Z.leb_le _ _) Hd), (proj2 (Z.ltb_lt _ _) Hd2), Z.eqb_refl, Nat.leb_refl, orb_true_r.
  rewrite filter_bool. cbn -[Nat.eqb exec poll reconnect].
  rewrite (proj2 (Nat.eqb_neq fr (S fr))), Nat.eqb_refl by lia.
  cbn -[poll]. rewrite Hu. unfold connect. rewrite Ht, He.
  cbn -[poll startPolling]. by rewrite Hte, Hu.
Qed.

Lemma ticket_arrives s n F fr d ms body t e c ticket (answer : forall q, outcome (qresp q)) snt unc :
  unmountedRef s = false -> accepts (wsUrl wsEnv apiEnv e (ws_ticket ticket)) = true -> fr <> F -> answer (One (getWsTicket t (Some e))) = Ok ticket ->
  step hook_at
    (mk_world s n (S F) [Timed fr d ms body; Waiting F (One (getWsTicket t (Some e))) (resume t (Some e) c)]
       snt unc) (Reply F answer)
  = Some (mk_world (new_socket t (Some e) c (wsUrl wsEnv apiEnv e (ws_ticket ticket)) s) n (S F)
            [Timed fr d ms body] snt unc).
Proof.
  intros Hu Hacc HF Ha. unfold step, get_task, drop_task. cbn -[Nat.eqb exec filter].
  rewrite (proj2 (Nat.eqb_neq fr F)), Nat.eqb_refl by done. cbn -[Nat.eqb exec filter].
  rewrite filter_bool. cbn -[Nat.eqb exec]. rewrite (proj2 (Nat.eqb_neq fr F)), Nat.eqb_refl by done.
  cbn. rewrite Ha. cbn. by rewrite Hu, Hacc.
Qed.

Lemma socket_opens s n F j id d ms body snt unc :
  phase_of j s = Some CONNECTING -> unmountedRef s = false -> pollTimerRef s = Some id ->
  step hook_at (mk_world s n F [Timed id d ms body] snt unc) (Env (SocketOpen j))
  = Some (mk_world (set_pollTimerRef None (set_status connected (move_socket j OPEN_ s))) n F [] snt unc).
Proof.
  intros Hj Hu Hp. rewrite step_env. unfold hook_at, hook. cbn [on_env on_surroundings st].
  rewrite Hj, bool_decide_eq_true_2 by done. cbn -[filter]. rewrite Hu. cbn -[filter]. rewrite Hp.
  cbn -[filter]. rewrite filter_cons_False by (cbn; rewrite Nat.eqb_refl; auto). done.
Qed.

(** When the open socket of a mounted hook closes, the hook polls at once and every five
    seconds, asks for a ticket after ten, and once the new socket opens polls no more; the
    new socket is for the same election, by the ticket just answered. *)
Theorem ws_recovers w i k e (f : forall r, outcome (resp r)) ticket :
  tasks w = [] -> unmountedRef (st w) = false -> pollTimerRef (st w) = None ->
  sockets (st w) !! i = Some k -> so_phase k = OPEN_ ->
  truthy_opt (so_token k) = true -> so_election k = Some e -> truthy_str e = true ->
  pollIntervalMs (so_options k) = 5000 ->
  f (getWsTicket (so_token k) (Some e)) = Ok ticket ->
  accepts (wsUrl wsEnv apiEnv e (ws_ticket ticket)) = true ->
  let n := fresh w in
  let j := List.length (sockets (st w)) in
  exists w',
    run hook_at w
      [Env (SocketClose i); Tick 5000; Fire n; Tick 5000; Fire n; Fire (S n);
       Reply (S (S n)) (answers f); Env (SocketOpen j)] = Some w'
    /\ tasks w' = [] /\ status (st w') = connected /\ wsRef (st w') = Some j
    /\ pollTimerRef (st w') = None
    /\ polls (st w') = polls (st w) ++ match onPoll (so_options k) with Some callback => [callback; callback; callback]
                                                                   | None => [] end
    /\ option_map (fun k' => (so_url k', so_phase k', so_token k', so_election k')) (sockets (st w') !! j)
       = Some (wsUrl wsEnv apiEnv e (ws_ticket ticket), OPEN_, so_token k, Some e)
    /\ map snd (sent w') = map snd (sent w) ++ [getWsTicket (so_token k) (Some e)].
Proof.
  destruct w as [s n0 fr ts snt unc]. cbn [st tasks fresh sent now].
  intros -> Hu Hp Hk Ho Ht He Hte Hms Hf Hacc. cbv zeta.
  rewrite run_cons, (socket_drops _ _ _ _ _ _ _ Hu Hp Hk Ho Hms), run_cons, step_tick by done.
  cbn [st now fresh tasks sent uncaught]. rewrite run_cons, interval_fires by lia.
  rewrite run_cons, step_tick by done. cbn [st now fresh tasks sent uncaught].
  rewrite run_cons, interval_fires by lia.
  rewrite run_cons, (reconnects _ _ _ _ _ _ _ _ e) by (try done; try lia; by read_state).
  rewrite run_cons, (ticket_arrives _ _ _ _ _ _ _ _ _ _ ticket) by (try done; try lia; by read_state).
  rewrite run_cons, socket_opens
    by (read_state; rewrite ?added_socket; done).
  eexists. split; [reflexivity |]. read_state.
  rewrite list_lookup_alter_eq, added_socket, map_app, length_alter. split_and!; try done.
  destruct (onPoll (so_options k)); by rewrite ?app_nil_r, <- ?app_assoc.
Qed.

(** ** What keeps running *)

(** Once a ticket was refused, only the polling interval is left. *)
Definition only_polls (w : world state) : Prop :=
  sockets (st w) = [] /\ exists i d ms c, tasks w = [Timed i d (Some ms) (poll c)].

Definition undisturbed (e : event ui env) : Prop :=
  match e with
  | User _ | Env Mount | Env Unmount | Env (Props _ _ _) => False
  | _ => True
  end.

Lemma exec_poll c (w : world state) :
  tasks (exec (poll c) w) = tasks w /\ sockets (st (exec (poll c) w)) = sockets (st w)
  /\ sent (exec (poll c) w) = sent w.
Proof. unfold poll. by destruct (onPoll c), w. Qed.

Lemma only_polls_step w e w' :
  only_polls w -> undisturbed e -> step hook_at w e = Some w' ->
  only_polls w' /\ sent w' = sent w.
Proof.
  intros [Hs (i & d & ms & c & Ht)] He. destruct e as [u|x|id answer|ms'|id]; cbn in He; [done | | | |].
  - rewrite step_env. unfold hook_at, hook. cbn [on_env].
    intros [= <-]. destruct x as [| |t e c0|j|j m|j|j]; try done; cbn [on_surroundings];
      unfold phase_of; rewrite Hs; cbn; split; try done; split; eauto 10.
  - intros Hr. unfold step, get_task in Hr. rewrite Ht in Hr. cbn in Hr. by destruct (i =? id)%nat.
  - cbn. destruct (0 <=? ms'); [| done]. intros [= <-]. split; [split; cbn; eauto 10 | done].
  - intros Hr. unfold step, get_task in Hr. rewrite Ht in Hr. cbn in Hr.
    destruct (i =? id)%nat eqn:E; [| done]. apply Nat.eqb_eq in E as ->. cbn in Hr.
    destruct (may_fire id d w); [| done]. injection Hr as <-.
    match goal with |- only_polls (exec _ ?w0) /\ _ =>
      destruct (exec_poll c w0) as (H1 & H2 & H3) end.
    unfold only_polls. rewrite H1, H2, H3. destruct w. cbn in *. eauto 10.
Qed.

(** A refused ticket, or an address the constructor of the socket throws for, ends
    reconnecting: nothing but the polling goes on, however long one waits, until the user, new
    options, a new token or election, or a remount asks again. *)
Theorem ws_refused_ticket_is_final t e c (f : forall r, outcome (resp r)) :
  truthy_opt t = true -> truthy_opt e = true ->
  match f (getWsTicket t e) with
  | Ok a => accepts (wsUrl wsEnv apiEnv (default EmptyString e) (ws_ticket a)) = false
  | Err _ => True
  end ->
  exists w, run hook_at (boot (initial t e c)) [Env Mount; Reply 0 (answers f)] = Some w
    /\ forall es w', Forall undisturbed es -> run hook_at w es = Some w' ->
         sockets (st w') = [] /\ map snd (sent w') = [getWsTicket t e].
Proof.
  intros Ht He Hf.
  assert (exists w, run hook_at (boot (initial t e c)) [Env Mount; Reply 0 (answers f)] = Some w
            /\ only_polls w /\ map snd (sent w) = [getWsTicket t e]) as (w & Hr & Hw & Hsent).
  { unfold boot, initial, hook_at, only_polls, poll. destruct (f (getWsTicket t e)) as [a|err] eqn:Ea;
      destruct c as [oe [op|] ms]; do 2 run_tasks;
      (eexists; split; [reflexivity |]; split; [split; [done | do 3 eexists] | done]);
      first [by exists (mk_options oe (Some op) ms) | by exists (mk_options oe None ms)]. }
  exists w. split; [exact Hr |]. intros es. clear Hr. revert w Hw Hsent.
  induction es as [|x es IH]; intros w Hw Hsent w' Hes; cbn [run].
  - intros [= <-]. by destruct Hw.
  - inversion Hes; subst. destruct (step hook_at w x) as [w1|] eqn:E; [| done].
    destruct (only_polls_step w x w1) as [H1' H2']; try done.
    apply IH; [done | by rewrite H2' | done].
Qed.
End Hook.

(** The caller's options in the runs below: callbacks 0 and 1, the default interval. *)
Definition usual : options := {| onEvent := Some 0%nat; onPoll := Some 1%nat; pollIntervalMs := 5000 |}.

(** A hook that unmounts while its ticket is on the way starts to poll when the ticket is
    refused, and polls for ever: nothing clears the interval any more. *)
Theorem ws_polls_after_unmount wsEnv apiEnv accepts t e (f : forall r, outcome (resp r)) err n :
  truthy_opt t = true -> truthy_opt e = true -> f (getWsTicket t e) = Err err ->
  exists w,
    run (hook wsEnv apiEnv accepts) (boot (initial t e usual))
      ([Env Mount; Env Unmount; Reply 0 (answers f)]
       ++ List.concat (repeat [Tick 5000; Fire 1] n)) = Some w
    /\ mounted (st w) = false /\ polls (st w) = repeat 1%nat (S n).
Proof.
  intros Ht He Hf. rewrite run_app. unfold boot, initial. do 3 run_tasks. cbn [run].
  match goal with |- context [run _ ?w0 _] => set (w := w0) end.
  assert (exists d, tasks w = [Timed 1 d (Some 5000) (poll usual)]
                    /\ d = now w + 5000) as (d & Hts & Hd) by by eexists.
  assert (mounted (st w) = false /\ polls (st w) = [1%nat]) as [Hm Hp] by done. clearbody w.
  enough (exists w', run (hook wsEnv apiEnv accepts) w (List.concat (repeat [Tick 5000; Fire 1] n))
                     = Some w' /\ mounted (st w') = false /\ polls (st w') = polls (st w) ++ repeat 1%nat n)
    as (w' & Hr & Hm' & Hn) by (exists w'; rewrite Hn, Hp; done).
  clear Hp. revert w d Hts Hd Hm.
  induction n as [|n IH]; intros w d Hts Hd Hm; cbn [repeat List.concat app].
  - exists w. by rewrite app_nil_r.
  - rewrite run_cons, step_tick, run_cons by done. erewrite step_interval_single by (first [exact Hts | cbn; lia]).
    cbn [exec upd with_tasks with_st st now tasks sent uncaught fresh].
    match goal with |- context [run _ ?w0 _] =>
      destruct (IH w0 (d + 5000)) as (w' & Hr & Hm' & Hp') end; [done | cbn; lia | done |].
    exists w'. split; [exact Hr |]. split; [done |]. rewrite Hp'. cbn. by rewrite <- app_assoc.
Qed.

(** ** Wrong connections *)

Definition granting : forall r, outcome (resp r) :=
  fun r => match r as r return outcome (resp r) with
           | getWsTicket _ e => Ok {| ws_ticket := "t"; ws_expires_in := 30; ws_election_id := e |}
           | _ => Err (plain_error "Error" "offline")
           end.

Definition a_hook := hook None (Some "http://localhost:8000"%string) (fun _ => true).
Definition on_election (id : string) : state := initial (Some "token"%string) (Some id) usual.

(** A change of election while a ticket is on the way: the late ticket opens a socket to
    the previous election, which becomes the current one; the socket to the new election stays
    open even after the hook has unmounted. *)
Theorem ws_follows_previous_election :
  exists w, run a_hook (boot (on_election "E1"))
      [Env Mount; Env (Props (Some "token"%string) (Some "E2"%string) usual); Reply 1 (answers granting);
       Env (SocketOpen 0); Reply 0 (answers granting); Env (SocketOpen 1)] = Some w
    /\ electionId (st w) = Some "E2"%string /\ status (st w) = connected /\ wsRef (st w) = Some 1%nat
    /\ map so_election (sockets (st w)) = [Some "E2"%string; Some "E1"%string]
    /\ exists w', run a_hook w [Env Unmount] = Some w'
         /\ map so_phase (sockets (st w')) = [OPEN_; CLOSING].
Proof.
  apply run_witness. vm_compute. split_and!; try reflexivity. by eexists.
Qed.

(** The status hides the fallback: a failing socket reports an error and then its end,
    after which the hook polls but says "disconnected"; ten seconds later it says
    "connecting", for good if the ticket is refused. *)
Theorem ws_status_hides_polling :
  exists w, run a_hook (boot (on_election "E1"))
      [Env Mount; Reply 0 (answers granting); Env (SocketError 0); Env (SocketClose 0)] = Some w
    /\ pollTimerRef (st w) = Some 1%nat /\ status (st w) = disconnected
    /\ exists w', run a_hook w [Tick 10000; Fire 1; Fire 1; Fire 2; Reply 3 (fun q => answers (fun _ => Err (plain_error "Error" "offline")) q)] = Some w'
         /\ status (st w') = connecting /\ map task_id (tasks w') = [1%nat].
Proof.
  apply run_witness. vm_compute. split_and!; try reflexivity. by eexists.
Qed.

(** ** Witnesses *)

Definition to_live : list (event ui env) := [Env Mount; Reply 0 (answers granting); Env (SocketOpen 0)].
Definition live : world state := default (boot (on_election "E1")) (run a_hook (boot (on_election "E1")) to_live).

Lemma reachable_live : reachable a_hook (fun _ => True) (on_election "E1") live.
Proof. apply reachable_default; [constructor | by repeat constructor]. Qed.

Lemma ws_one_polling_interval_witness :
  intervals_of (tasks live) = [] /\ status (st live) = connected.
Proof.
  split; [| vm_compute; reflexivity].
  rewrite (ws_one_polling_interval None (Some "http://localhost:8000"%string) (fun _ => true)
             (Some "token"%string) (Some "E1"%string) usual live reachable_live).
  vm_compute. reflexivity.
Defined.

Lemma ws_requests_and_sockets_witness :
  exists k, In k (sockets (st live))
    /\ so_url k = "ws://localhost:8000/api/ws/E1?ticket=t"%string
    /\ grants tickets a_hook (boot (on_election "E1")) to_live = [(Some "token", Some "E1", "t")]%string.
Proof.
  destruct (ws_requests_and_sockets None (Some "http://localhost:8000"%string) (fun _ => true)
              (Some "token"%string) (Some "E1"%string) usual to_live live) as [_ H]; [vm_compute; reflexivity |].
  eexists. split; [by vm_compute; left |]. split; [| vm_compute; reflexivity].
  edestruct H as (tok & el & ticket & _ & _ & _ & _ & Hin & Hu); [by vm_compute; left |].
  rewrite Hu. revert Hin. vm_compute. intros [[= _ <- <-]|[]]. reflexivity.
Defined.

Lemma ws_recovers_witness :
  exists w', run a_hook live
      [Env (SocketClose 0); Tick 5000; Fire 1; Tick 5000; Fire 1; Fire 2; Reply 3 (answers granting);
       Env (SocketOpen 1)] = Some w' /\ status (st w') = connected.
Proof.
  destruct (ws_recovers None (Some "http://localhost:8000"%string) (fun _ => true) live 0
              {| so_url := "ws://localhost:8000/api/ws/E1?ticket=t"; so_phase := OPEN_;
                 so_token := Some "token"%string; so_election := Some "E1"%string; so_options := usual |} "E1" granting
              {| ws_ticket := "t"; ws_expires_in := 30; ws_election_id := Some "E1"%string |})
    as (w' & H1 & _ & H2 & _); try (vm_compute; reflexivity).
  exists w'. split; [exact H1 | exact H2].
Defined.

Definition refusing : forall r, outcome (resp r) := fun _ => Err (plain_error "Error" "offline").

Lemma ws_refused_ticket_is_final_witness :
  exists w, run a_hook (boot (on_election "E1")) [Env Mount; Reply 0 (answers refusing)] = Some w
    /\ exists w', run a_hook w [Tick 5000; Fire 1; Tick 5000; Fire 1] = Some w'
         /\ map snd (sent w') = [getWsTicket (Some "token"%string) (Some "E1"%string)].
Proof.
  destruct (ws_refused_ticket_is_final None (Some "http://localhost:8000"%string) (fun _ => true)
              (Some "token"%string) (Some "E1"%string) usual refusing
              eq_refl eq_refl I) as (w & H1 & H2).
  exists w. split; [exact H1 |]. revert H1 H2. vm_compute run at 1. intros [= <-] H2.
  eexists. split; [vm_compute; reflexivity |].
  apply (H2 [Tick 5000; Fire 1; Tick 5000; Fire 1]); [by repeat constructor | vm_compute; reflexivity].
Defined.

Lemma ws_polls_after_unmount_witness :
  exists w, run a_hook (boot (on_election "E1"))
      ([Env Mount; Env Unmount; Reply 0 (answers refusing)]
       ++ List.concat (repeat [Tick 5000; Fire 1] 3)) = Some w /\ polls (st w) = repeat 1%nat 4.
Proof.
  destruct (ws_polls_after_unmount None (Some "http://localhost:8000"%string) (fun _ => true) (Some "token"%string)
              (Some "E1"%string) refusing (plain_error "Error" "offline") 3 eq_refl eq_refl eq_refl)
    as (w & H1 & _ & H2).
  exists w. split; [exact H1 | exact H2].
Defined.
