(* ===== verification/AuthContext.v ===== *)
(** * The session: [context/AuthContext.tsx], [app/login/page.tsx], [components/layout/Navbar.tsx]

    The provider of user, token and role with the page that logs in and the bar that logs
    out. [storage] is the browser's [localStorage] entry, which other tabs share, and [allowed]
    which operations on it do not throw at the moment; [pushed] are the navigations asked of the router, which change [pathname] when
    the surroundings say so. The callback registered for unauthorized answers closes over
    the path of the first render: [handler] keeps that path. *)
From S2P Require Import Prelude JsValue JsNumber Types ApiClient View Common React.
From Stdlib Require Import String.

Module AuthContext.

(** The operations of the storage that work; the others throw. *)
Record access := { reads : bool; writes : bool; removes : bool }.

Definition working : access := {| reads := true; writes := true; removes := true |}.

(*@ dashboard/context/AuthContext.tsx 22 32 AuthProvider *)
Record state := mk_state {
  user : option UserResponse;
  token : option string;
  isLoading : bool;
  pathname : string;
  mounted : bool;
  storage : option string;
  allowed : access;
  handler : option string;
  pushed : list string;
  username : string;
  password : string;
  error : option string;
  loading : bool }.

Definition set_user (v : option UserResponse) (s : state) : state :=
  mk_state v (token s) (isLoading s) (pathname s) (mounted s) (storage s) (allowed s)
    (handler s) (pushed s) (username s) (password s) (error s) (loading s).
Definition set_token (v : option string) (s : state) : state :=
  mk_state (user s) v (isLoading s) (pathname s) (mounted s) (storage s) (allowed s)
    (handler s) (pushed s) (username s) (password s) (error s) (loading s).
Definition set_isLoading (v : bool) (s : state) : state :=
  mk_state (user s) (token s) v (pathname s) (mounted s) (storage s) (allowed s) (handler s)
    (pushed s) (username s) (password s) (error s) (loading s).
Definition set_pathname (v : string) (s : state) : state :=
  mk_state (user s) (token s) (isLoading s) v (mounted s) (storage s) (allowed s)
    (handler s) (pushed s) (username s) (password s) (error s) (loading s).
Definition set_mounted (v : bool) (s : state) : state :=
  mk_state (user s) (token s) (isLoading s) (pathname s) v (storage s) (allowed s)
    (handler s) (pushed s) (username s) (password s) (error s) (loading s).
Definition set_storage (v : option string) (s : state) : state :=
  mk_state (user s) (token s) (isLoading s) (pathname s) (mounted s) v (allowed s)
    (handler s) (pushed s) (username s) (password s) (error s) (loading s).
Definition set_allowed (v : access) (s : state) : state :=
  mk_state (user s) (token s) (isLoading s) (pathname s) (mounted s) (storage s) v (handler s)
    (pushed s) (username s) (password s) (error s) (loading s).
(*@ dashboard/lib/api-client.ts 43 47 setUnauthorizedHandler *)
Definition set_handler (v : option string) (s : state) : state :=
  mk_state (user s) (token s) (isLoading s) (pathname s) (mounted s) (storage s) (allowed s)
    v (pushed s) (username s) (password s) (error s) (loading s).
Definition set_pushed (v : list string) (s : state) : state :=
  mk_state (user s) (token s) (isLoading s) (pathname s) (mounted s) (storage s) (allowed s)
    (handler s) v (username s) (password s) (error s) (loading s).
Definition set_username (v : string) (s : state) : state :=
  mk_state (user s) (token s) (isLoading s) (pathname s) (mounted s) (storage s) (allowed s)
    (handler s) (pushed s) v (password s) (error s) (loading s).
Definition set_password (v : string) (s : state) : state :=
  mk_state (user s) (token s) (isLoading s) (pathname s) (mounted s) (storage s) (allowed s)
    (handler s) (pushed s) (username s) v (error s) (loading s).
Definition set_error (v : option string) (s : state) : state :=
  mk_state (user s) (token s) (isLoading s) (pathname s) (mounted s) (storage s) (allowed s)
    (handler s) (pushed s) (username s) (password s) v (loading s).
Definition set_loading (v : bool) (s : state) : state :=
  mk_state (user s) (token s) (isLoading s) (pathname s) (mounted s) (storage s) (allowed s)
    (handler s) (pushed s) (username s) (password s) (error s) v.
(** The first render: the token is read from the storage, when that can be read. *)
(*@ dashboard/context/AuthContext.tsx 24 32 AuthProvider *)
Definition initial (path : string) (stored : option string) (a : access) : state :=
  mk_state None (if reads a then stored else None) true path false stored a None []
    EmptyString EmptyString None false.

(*@ dashboard/context/AuthContext.tsx 102 102 role *)
Definition role (s : state) : option Role := option_map u_role (user s).

Abbreviation M := (prog state).

(** Storage operations that do not work throw. *)
(*@ dashboard/context/AuthContext.tsx 39 41 logout *)
Definition remove_item (s : state) : state := if removes (allowed s) then set_storage None s else s.
(*@ dashboard/context/AuthContext.tsx 85 87 login *)
Definition set_item (v : string) (s : state) : state :=
  if writes (allowed s) then set_storage (Some v) s else s.
(*@ dashboard/context/AuthContext.tsx 63 63 initAuth *)
Definition get_item : M (option string) :=
  Peek (fun s => if reads (allowed s) then mret (storage s)
                 else Throw (plain_error "SecurityError" "The operation is insecure.")).

Definition push (path : string) (s : state) : state := set_pushed (pushed s ++ [path]) s.

(*@ dashboard/context/AuthContext.tsx 42 48 isPublic *)
Definition isPublic (pathname : string) : bool :=
  String.eqb pathname "/" || String.eqb pathname "/login" || String.eqb pathname "/verify"
  || starts_with "/voter" pathname || starts_with "/evm" pathname
  || starts_with "/transparency" pathname.

(** [logout] of a render at [path]. *)
(*@ dashboard/context/AuthContext.tsx 36 52 logout *)
Definition logout (path : string) : M unit :=
  upd (set_token None);;
  upd (set_user None);;
  upd remove_item;;
  if isPublic path then mret tt else upd (push "/login").

(** What [request] does on a 401 answer to a call with a token. *)
(*@ dashboard/context/AuthContext.tsx 56 58 setUnauthorizedHandler *)
Definition unauthorized : M unit :=
  Peek (fun s => match handler s with Some path => logout path | None => mret tt end).

(** [await api.getMe(token)], with the unauthorized callback of the request. *)
(*@ dashboard/lib/api-client.ts 81 86 request *)
Definition await_me (t : string) : M UserResponse :=
  try_catch (await (getMe (Some t)))
    (fun err =>
       (if bool_decide (e_status err = Some 401) && truthy_str t then unauthorized else mret tt);;
       Throw err).

(*@ dashboard/context/AuthContext.tsx 61 74 initAuth *)
Definition initAuth (path : string) : M unit :=
  finally
    (try_catch
       (savedToken ← get_item;
        match savedToken with
        | Some t =>
            if truthy_str t
            then upd (set_token (Some t));; me ← await_me t; upd (set_user (Some me))
            else mret tt
        | None => mret tt
        end)
       (fun _ => logout path))
    (upd (set_isLoading false)).

(*@ dashboard/context/AuthContext.tsx 79 95 login *)
Definition login (username password : string) : M unit :=
  upd (set_isLoading true);;
  finally
    (tokenRes ← await (ApiClient.login username password);
     let accessToken := access_token tokenRes in
     upd (set_token (Some accessToken));;
     upd (set_item accessToken);;
     me ← await_me accessToken;
     upd (set_user (Some me));;
     upd (push "/command"))
    (upd (set_isLoading false)).

(** ** The login page *)

(*@ dashboard/app/login/page.tsx 15 26 handleSubmit *)
Definition handleSubmit (s : state) : M unit :=
  upd (set_error None);;
  upd (set_loading true);;
  finally
    (try_catch (login (username s) (password s))
       (fun err => upd (set_error (Some (str_or (e_message err)
                        "Failed to log in. Please verify credentials.")))))
    (upd (set_loading false)).

(*@ dashboard/app/login/page.tsx 28 32 setDemoCreds *)
Definition setDemoCreds (u p : string) : M unit :=
  upd (set_username u);; upd (set_password p);; upd (set_error None).

Inductive ui :=
| Submit | TypeUsername (v : string) | TypePassword (v : string) | DemoCreds (u p : string) | Logout.

#[export] Instance ui_eq_dec : EqDecision ui. Proof. solve_decision. Defined.

(** The provider mounts, the router arrives somewhere, some page's call is answered 401, and
    another tab changes the entry of the storage or the browser what it allows. *)
Inductive env :=
| Mount | Navigate (path : string) | Unauthorized | Storage (v : option string) (a : access).

(*@ dashboard/app/login/page.tsx 58 141 LoginPage *)
Definition on_ui (u : ui) (s : state) : M unit :=
  match u with
  | Submit => handleSubmit s
  | TypeUsername v => upd (set_username v)
  | TypePassword v => upd (set_password v)
  | DemoCreds u p => setDemoCreds u p
  | Logout => logout (pathname s)
  end.

(*@ dashboard/context/AuthContext.tsx 54 77 useEffect *)
Definition on_surroundings (x : env) (s : state) : M unit :=
  match x with
  | Mount =>
      if mounted s then mret tt
      else
        upd (set_mounted true);;
        upd (set_handler (Some (pathname s)));;
        initAuth (pathname s)
  | Navigate path => upd (set_pathname path)
  | Unauthorized => unauthorized
  | Storage v a => upd (set_storage v);; upd (set_allowed a)
  end.

(** A form whose required fields are empty cannot be submitted. *)
(*@ dashboard/app/login/page.tsx 34 146 LoginPage *)
Definition login_page (s : state) : list (node ui) :=
  [Text "SecureVOTE Console"; Text "Authenticate to manage election lifecycle and audit verifications"]
  ++ match error s with
     | Some e => when (truthy_str e) (AlertBanner "error" "Authentication Failed" e None)
     | None => []
     end
  ++ [Field "Username" (username s) false (fun u => match u with TypeUsername _ => true | _ => false end);
      Field "Password" (password s) false (fun u => match u with TypePassword _ => true | _ => false end);
      Button "Sign In" (loading s || negb (truthy_str (username s)) || negb (truthy_str (password s))) Submit;
      Button "ADMIN" false (DemoCreds "admin" "AdminSecurePassword123!");
      Button "AUDITOR" false (DemoCreds "auditor" "AuditorSecurePassword123!");
      Button "OBSERVER" false (DemoCreds "observer" "ObserverSecurePassword123!")].

(*@ dashboard/components/layout/Navbar.tsx 9 67 Navbar *)
Definition navbar (s : state) : list (node ui) :=
  Link "/command" "SecureVOTE"
  :: match user s with
     | Some u =>
         [Text (u_username u)]
         ++ StatusBadge (role_str (u_role u)) false
         ++ [Button "Log out" false Logout]
     | None => [Link "/login" "Log in"]
     end.

(** The pages with the bar, which are those under app/(officer): not the public ones, among
    them the map, which [isPublic] leaves out. *)
Definition officer_page (path : string) : bool := negb (isPublic path) && negb (String.eqb path "/map").

Definition render (s : state) : list (node ui) :=
  if String.eqb (pathname s) "/login" then login_page s
  else if officer_page (pathname s) then navbar s else [].

Definition session : component state ui env := mk_component render on_ui on_surroundings.

End AuthContext.
