(* ===== verification/AuthContextFacts.v ===== *)
(** * Correctness of the session

    The stored token, logging in and out, what the pages may rely on, and two ways in which
    token, user and place come apart. *)
From S2P Require Import Prelude JsValue JsNumber Types ApiClient View Common React Spinner AuthContext.
From Stdlib Require Import String.
Import AuthContext.

#[export] Hint Unfold on_ui on_surroundings login handleSubmit setDemoCreds initAuth await_me
  unauthorized logout get_item : prog.

(** ** The page *)

Lemma allows_submit s :
  allows (render s) Submit
  = String.eqb (pathname s) "/login" && negb (loading s) && truthy_str (username s)
    && truthy_str (password s).
Proof.
  unfold render, login_page, navbar, AlertBanner, StatusBadge.
  destruct (String.eqb (pathname s) "/login"); cbn [andb].
  - rewrite !allows_app. destruct (error s) as [e|]; rewrite ?allows_when; read_page; by rewrite ?andb_false_r, ?andb_assoc.
  - destruct (officer_page (pathname s)); [| done]. destruct (user s); by read_page.
Qed.

Lemma allows_logout s :
  allows (render s) Logout = officer_page (pathname s) && bool_decide (is_Some (user s)).
Proof.
  unfold render, login_page, navbar, AlertBanner, StatusBadge.
  destruct (String.eqb_spec (pathname s) "/login") as [->|].
  - destruct (error s) as [e|]; rewrite ?allows_app, ?allows_when; read_page; by rewrite ?andb_false_r.
  - destruct (officer_page (pathname s)); [| done]. destruct (user s); by read_page.
Qed.

Lemma session_click (w : world state) u :
  allows (render (st w)) u = true -> step session w (User u) = Some (exec (on_ui u (st w)) w).
Proof. intros Hu. unfold step, session. cbn [React.render on_user]. by rewrite Hu. Qed.

(** ** Requests *)

Definition Sends (s : state) (r : req) : Prop :=
  match r with
  | ApiClient.login u p =>
      u = username s /\ p = password s /\ truthy_str u = true /\ truthy_str p = true
  | getMe t => t = token s
  | _ => False
  end.

(** ** The stored token *)

(** Nobody else touches the storage. *)
Definition alone_in_storage (e : event ui env) : Prop :=
  match e with Env (Storage _ _) => False | _ => True end.

(** What is stored, where the storage allows [a], against the token in use. *)
Record stored_as (a : access) (s : state) : Prop := {
  stored_allowed : allowed s = a;
  stored_token : reads a = true -> writes a = true -> forall t, token s = Some t -> storage s = Some t;
  stored_nothing : reads a = true -> removes a = true -> token s = None -> storage s = None }.

Section Stored.
Context (Inv : state -> Prop) (P : event ui env -> Prop).

(** What the invariant must let the handlers do. *)
Record lets_session : Prop := {
  lets_other : forall s s', Inv s -> allowed s' = allowed s -> token s' = token s -> storage s' = storage s -> Inv s';
  lets_logout : forall s, Inv s -> Inv (remove_item (set_user None (set_token None s)));
  lets_saved : forall s t, Inv s -> reads (allowed s) = true -> storage s = Some t -> Inv (set_token (Some t) s);
  lets_login : forall s t, Inv s -> Inv (set_item t (set_token (Some t) s));
  lets_change : forall s v a, P (Env (Storage v a)) -> Inv s -> Inv (set_allowed a (set_storage v s)) }.

Context (HI : lets_session).
Abbreviation safe := (keeps Inv Sends).

Ltac other := by (intros; eapply (lets_other HI); [eassumption | done..]).

Lemma logout_safe path : safe (logout path).
Proof.
  intros b s Hs. unfold logout. pose proof (lets_logout HI s Hs) as Hl. cbn.
  destruct (isPublic path); cbn; [exact Hl |]. by eapply (lets_other HI).
Qed.

Lemma unauthorized_safe : safe unauthorized.
Proof.
  apply keeps_peek. intros s. destruct (handler s); [apply logout_safe | apply keeps_ret].
Qed.

Lemma await_me_safe b t s (Q : bool -> UserResponse -> state -> Prop) E :
  Inv s -> token s = Some t -> (forall b u s, Inv s -> Q b u s) -> (forall b e s, Inv s -> E b e s) ->
  wpf Inv Sends b (await_me t) Q E s.
Proof.
  intros Hs Ht HQ HE. unfold await_me. apply wpf_try. cbn.
  split_and!; [done | by apply Forall_singleton |]. intros [u|err] s' Hs'; cbn; [by apply HQ |].
  destruct (bool_decide _ && _); [| by apply HE]. apply wpf_bind.
  eapply wpf_mono; [by apply unauthorized_safe | by intros; apply HE | by intros; apply HE].
Qed.

Lemma initAuth_safe path : safe (initAuth path).
Proof.
  apply keeps_finally; [| by apply keeps_upd; other]. apply keeps_try; [| intros; apply logout_safe].
  intros b s Hs. apply wpf_bind. unfold get_item. cbn [wpf].
  destruct (reads (allowed s)) eqn:Eok; cbn [wpf mret prog_ret]; [| done].
  destruct (storage s) as [t|] eqn:Est; [| done]. destruct (truthy_str t); [| done].
  apply wpf_upd, wpf_bind, await_me_safe; [by apply (lets_saved HI) | done | | done].
  intros b' u s' Hs'. cbn. by eapply (lets_other HI).
Qed.

Lemma login_safe b u p s :
  u = username s -> p = password s -> truthy_str u = true -> truthy_str p = true -> Inv s ->
  wpf Inv Sends b (login u p) (fun _ _ s => Inv s) (fun _ _ s => Inv s) s.
Proof.
  intros -> -> Hu Hp Hs. unfold login. apply wpf_upd, wpf_finally, wpf_bind.
  unfold await at 1, await_query. cbn [wpf].
  split_and!; [by eapply (lets_other HI) | by apply Forall_singleton |].
  intros [r|err] s1 H1; cbn [wpf]; [| cbn; by eapply (lets_other HI)].
  apply wpf_upd, wpf_upd, wpf_bind, await_me_safe;
    [by apply (lets_login HI) | unfold set_item; cbn; by destruct (writes _) | |];
    intros b' x s2 H2; cbn; by eapply (lets_other HI).
Qed.

Lemma session_safe : safe_component session Inv Sends P.
Proof.
  split.
  - intros u s _ Hs Hu. change (allows (render s) u = true) in Hu. unfold session. cbn [on_user].
    destruct u as [|v|v|u p|]; cbn [on_ui]; [| apply keeps_handles; [| done]..].
    + rewrite allows_submit in Hu. apply andb_true_iff in Hu as [[_ Hu]%andb_true_iff Hp].
      apply (wp_wpf _ _ false). unfold handleSubmit. apply wpf_upd, wpf_upd, wpf_finally, wpf_try.
      eapply wpf_mono; [apply login_safe; try done; by eapply (lets_other HI) | |].
      * intros b [] s1 H1. cbn. by eapply (lets_other HI).
      * intros b e s1 H1. cbn. by eapply (lets_other HI).
    + apply keeps_upd. other.
    + apply keeps_upd. other.
    + unfold setDemoCreds. do 2 (apply keeps_bind; [apply keeps_upd; other | intros _]). apply keeps_upd. other.
    + apply logout_safe.
  - intros x s HP Hs. unfold session. cbn [on_env].
    destruct x as [|path| |v a]; cbn [on_surroundings]; [| apply keeps_handles; [| done].. |].
    + destruct (mounted s); [done |]. apply keeps_handles; [| done].
      do 2 (apply keeps_bind; [apply keeps_upd; other | intros _]). apply initAuth_safe.
    + apply keeps_upd. other.
    + apply unauthorized_safe.
    + by apply (lets_change HI).
Qed.
End Stored.

Lemma lets_any : lets_session (fun _ => True) (fun _ => True).
Proof. by split. Qed.

Lemma lets_stored a : lets_session (stored_as a) alone_in_storage.
Proof.
  split; try done.
  - intros s s' [H1 H2 H3] E1 E2 E3. split; rewrite ?E1, ?E2, ?E3; done.
  - intros s [H1 H2 H3]. unfold remove_item. cbn. split; destruct (removes (allowed s)) eqn:E; cbn; try done.
    intros _ Hr. rewrite H1 in E. congruence.
  - intros s t [H1 H2 H3] Hr Hs. split; cbn; [done | by intros _ _ ? [= <-] | done].
  - intros s t [H1 H2 H3]. unfold set_item. cbn. split; destruct (writes (allowed s)) eqn:E; cbn; try done.
    intros _ Hw. rewrite H1 in E. congruence.
Qed.
(** ** Spinners *)

Definition raised (form : bool) (s : state) : bool :=
  if form then loading s else mounted s && isLoading s.

Lemma remove_item_loading s : isLoading (remove_item s) = isLoading s.
Proof. unfold remove_item. by destruct (removes (allowed s)). Qed.

Lemma logout_calm f path : calm (raised f) (logout path).
Proof.
  unfold logout, remove_item. destruct f; calm_auto; try done; by destruct (removes (allowed _)).
Qed.

Lemma unauthorized_calm f : calm (raised f) unauthorized.
Proof. intros s. destruct (handler s) as [path|]; [apply logout_calm | exact I]. Qed.

Lemma login_lowers f u p Q E s0 s :
  (forall b a s0 s, raised false s = false -> Q b a s0 s) ->
  (forall b e s0 s, raised false s = false -> E b e s0 s) ->
  f = false -> low (fun _ => True) (raised f) false (login u p) Q E s0 s.
Proof.
  intros HQ HE ->. apply low_upd, lowers_finally; try done.
  - intros s'. apply andb_false_r.
  - timerless_auto.
Qed.

Lemma session_lowers f : lowering_component session (fun _ => True) (fun _ => True) (raised f).
Proof.
  split.
  - intros u s _ _ _. unfold lowers, session. cbn [on_user].
    destruct u as [|v|v|u p|]; cbn [on_ui].
    + unfold handleSubmit. apply low_upd, low_upd. destruct f.
      * apply lowers_at_end; [done | timerless_auto].
      * apply low_finally, low_try, login_lowers; [| | done]; intros b ? s2 s3 Hs; cbn; unfold fine;
          cbn in *; congruence.
    + by destruct f.
    + by destruct f.
    + apply low_calm; [destruct f; calm_auto; done | done].
    + apply low_calm; [apply logout_calm | done].
  - intros x s _ _. unfold lowers, session. cbn [on_env].
    destruct x as [|path| |v a]; cbn [on_surroundings].
    + destruct (mounted s); [by destruct f |]. apply low_upd, low_upd. destruct f.
      * apply low_calm; [| done]. unfold initAuth. apply calm_finally; [| calm_auto; done].
        calm_auto; try done; unfold remove_item in *; by destruct (removes (allowed _)).
      * apply lowers_at_end; [intros; apply andb_false_r | timerless_auto].
    + by destruct f.
    + apply low_calm; [apply unauthorized_calm | done].
    + by destruct f.
Qed.

(** ** The properties *)

(** C30. In every interleaving, whatever other tabs store and whatever the storage allows, the
    user's details are asked for with the token in use, and credentials sent only when both
    were typed, and as they were typed. As long as no other tab touches the storage, and it
    can be read and written, a token in use is the one stored, so a reload continues the same
    session; and if entries can also be removed, nothing is stored when there is none. *)
Theorem auth_session_safe path stored a w :
  reachable session (fun _ => True) (initial path stored a) w ->
  (forall s q, In (s, q) (sent w) ->
     match q with
     | ApiClient.login u p =>
         u = username s /\ p = password s /\ truthy_str u = true /\ truthy_str p = true
     | getMe t => t = token s
     | _ => False
     end)
  /\ (reachable session alone_in_storage (initial path stored a) w ->
      reads a = true ->
      (writes a = true -> forall t, token (st w) = Some t -> storage (st w) = Some t)
      /\ (removes a = true -> token (st w) = None -> storage (st w) = None)).
Proof.
  intros Hw. split.
  - intros s q Hin.
    destruct (reachable_good session _ Sends _ (session_safe _ _ lets_any) _ w I Hw) as [_ _ Hs].
    exact (Forall_In _ _ _ Hs Hin).
  - intros Hw' Hr. assert (stored_as a (initial path stored a)) as H0 by (split; cbn; by try rewrite Hr).
    destruct (reachable_good session _ Sends _ (session_safe _ _ (lets_stored a)) _ w H0 Hw') as [[_ H1 H2] _ _].
    split; [by apply H1 | by apply H2].
Qed.

(** Logging out in another tab is not noticed: the token stays in use here, with the user. *)
Theorem auth_other_tab_not_noticed w a :
  exists w', run session w [Env (Storage None a)] = Some w'
    /\ storage (st w') = None /\ token (st w') = token (st w) /\ user (st w') = user (st w).
Proof. destruct w. by eexists. Qed.

(** Logging in. Refused credentials leave the session as it was and show the refusal. An
    accepted login ends with token, user and stored token set and the command centre asked
    for. When the user's details cannot be had for another reason than a 401, the token stays, in use
    and stored, without a user. *)
Theorem auth_login w (f : forall r, outcome (resp r)) :
  tasks w = [] -> allows (render (st w)) Submit = true -> writes (allowed (st w)) = true ->
  let n := fresh w in
  match f (ApiClient.login (username (st w)) (password (st w))) with
  | Err err =>
      exists w', run session w [User Submit; Reply n (answers f)] = Some w'
        /\ tasks w' = [] /\ loading (st w') = false /\ isLoading (st w') = false
        /\ token (st w') = token (st w) /\ user (st w') = user (st w)
        /\ storage (st w') = storage (st w) /\ pushed (st w') = pushed (st w)
        /\ error (st w') = Some (str_or (e_message err) "Failed to log in. Please verify credentials.")
  | Ok t =>
      let token_in_use := Some (access_token t) in
      match f (getMe token_in_use) with
      | Ok me =>
          exists w', run session w [User Submit; Reply n (answers f); Reply (S n) (answers f)] = Some w'
            /\ tasks w' = [] /\ loading (st w') = false /\ isLoading (st w') = false
            /\ token (st w') = token_in_use /\ storage (st w') = token_in_use
            /\ role (st w') = Some (u_role me) /\ pushed (st w') = pushed (st w) ++ ["/command"%string]
            /\ error (st w') = None
      | Err err =>
          e_status err <> Some 401 ->
          exists w', run session w [User Submit; Reply n (answers f); Reply (S n) (answers f)] = Some w'
            /\ tasks w' = [] /\ loading (st w') = false /\ isLoading (st w') = false
            /\ token (st w') = token_in_use /\ storage (st w') = token_in_use
            /\ user (st w') = user (st w) /\ pushed (st w') = pushed (st w)
            /\ error (st w') = Some (str_or (e_message err) "Failed to log in. Please verify credentials.")
      end
  end.
Proof.
  destruct w as [s n0 fr ts snt unc]. cbn [st tasks fresh]. intros -> Hu Hok. cbv zeta.
  destruct (f (ApiClient.login (username s) (password s))) as [t|err] eqn:El.
  - destruct (f (getMe (Some (access_token t)))) as [me|err] eqn:Em.
    + do 3 (run_next session_click ltac:(exact Hu)).
      eexists. split; [reflexivity |]. unfold set_item. cbn. by rewrite Hok.
    + intros Hne. do 2 (run_next session_click ltac:(exact Hu)).
      run_next session_click ltac:(exact Hu). rewrite (bool_decide_eq_false_2 _ Hne). cbn.
      eexists. split; [reflexivity |]. unfold set_item. cbn. by rewrite Hok.
  - do 2 (run_next session_click ltac:(exact Hu)). eexists. split; [reflexivity |]. by cbn.
Qed.

(** Logging out, which a page offers exactly when it is an officer's and a user is shown,
    leaves no token, no user and no stored token, and asks for the login page. *)
Theorem auth_logout w :
  removes (allowed (st w)) = true ->
  (allows (render (st w)) Logout = true
   <-> officer_page (pathname (st w)) = true /\ is_Some (user (st w)))
  /\ (allows (render (st w)) Logout = true ->
      exists w', run session w [User Logout] = Some w'
        /\ token (st w') = None /\ user (st w') = None /\ storage (st w') = None
        /\ pushed (st w') = pushed (st w) ++ ["/login"%string] /\ tasks w' = tasks w).
Proof.
  intros Hok. split.
  - by rewrite allows_logout, andb_true_iff, bool_decide_eq_true.
  - intros Hu. rewrite run_cons, session_click by done. rewrite allows_logout in Hu.
    apply andb_true_iff in Hu as [[Hp%negb_true_iff _]%andb_true_iff _]. destruct w as [s n fr ts snt unc].
    cbn [st pathname on_ui] in *. unfold logout, remove_item. rewrite Hp. cbn. rewrite Hok.
    by eexists.
Qed.

(** The session is never left loading: when nothing is pending neither the provider nor the
    login form shows itself busy. *)
Theorem auth_not_left_loading path stored a w :
  reachable session (fun _ => True) (initial path stored a) w -> idle w = true ->
  loading (st w) = false /\ (mounted (st w) = true -> isLoading (st w) = false).
Proof.
  intros Hw Hidle.
  assert (forall f, raised f (st w) = false) as H.
  { intros f. eapply never_left_busy; [apply session_lowers | | exact Hw | exact Hidle]. by destruct f. }
  split; [apply (H true) |]. intros Hm. specialize (H false). simpl in H. by rewrite Hm in H.
Qed.

(** The callback a 401 calls is the one of the first render. *)
Definition registered (path : string) (s : state) : Prop :=
  mounted s = true /\ handler s = Some path.

Ltac stays :=
  keeps_auto; intros; unfold remove_item, set_item in *; try done;
  match goal with |- context [allowed ?x] => by destruct (allowed x) as [? [] []] end.

Lemma registered_stays path : safe_component session (registered path) (fun _ _ => True) (fun _ => True).
Proof.
  split.
  - intros u s _ Hs _. apply keeps_handles; [| done]. unfold session. cbn [on_user].
    destruct u; stays.
  - intros x s _ Hs. unfold session. cbn [on_env].
    destruct x; cbn [on_surroundings]; [by rewrite (proj1 Hs) |..];
      (apply keeps_handles; [| done]); stays.
Qed.

(** What a 401 does depends on the page the application was opened at, not on the current
    one, whatever happened in between. Opened at a public page, an officer whose session
    expires on an officer page is logged out but stays there; opened at an officer page, the
    visitor of a public page is sent to the login page. *)
Theorem auth_expiry_judged_by_first_page path stored a es current w :
  run session (boot (initial path stored a)) (Env Mount :: es) = Some w ->
  exists w', run session w [Env (Navigate current); Env Unauthorized] = Some w'
    /\ pathname (st w') = current /\ token (st w') = None /\ user (st w') = None
    /\ pushed (st w') = pushed (st w) ++ (if isPublic path then [] else ["/login"%string]).
Proof.
  intros Hr. assert (handler (st w) = Some path) as Hh.
  { rewrite run_cons, step_env in Hr.
    eapply (run_good session (registered path) (fun _ _ => True) (fun _ => True) (registered_stays path));
      [| by apply Forall_true | exact Hr].
    unfold session. cbn [on_env on_surroundings boot st initial mounted].
    apply exec_good_tasks; [constructor | constructor |]. apply (wp_wpf _ _ false).
    apply wpf_upd, wpf_upd. cbn [pathname].
    assert (keeps (registered path) (fun _ _ => True) (initAuth path)) as Hk.
    { stays. }
    by apply Hk. }
  clear Hr. rewrite run_cons, step_env, run_cons, step_env. destruct w as [s n fr ts snt unc].
  cbn in *. rewrite Hh. unfold logout, remove_item. cbn.
  destruct (removes (allowed s)), (isPublic path); cbn; (eexists; split; [reflexivity |]); cbn;
    by rewrite ?app_nil_r.
Qed.

Definition officer : UserResponse :=
  {| u_id := "U1"; u_username := "admin"; u_role := ADMIN; u_is_active := true;
     u_created_at := "2026-01-01T00:00:00Z" |}.

Definition accepting : forall r, outcome (resp r) :=
  fun r => match r as r return outcome (resp r) with
           | ApiClient.login _ _ => Ok {| access_token := "jwt"; token_type := "bearer" |}
           | getMe _ => Ok officer
           | _ => Err (plain_error "Error" "offline")
           end.

(** Losing the session while the user's details are on the way: the late answer shows an
    administrator with a log-out button although there is no token any more, and the
    command centre is asked for. *)
Theorem auth_user_without_token :
  exists w,
    run session (boot (initial "/login" None working))
      [Env Mount; User (DemoCreds "admin" "AdminSecurePassword123!"); User Submit;
       Reply 0 (answers accepting); Env Unauthorized; Reply 1 (answers accepting);
       Env (Navigate "/command")] = Some w
    /\ tasks w = [] /\ token (st w) = None /\ storage (st w) = None
    /\ role (st w) = Some ADMIN /\ pushed (st w) = ["/command"%string]
    /\ allows (render (st w)) Logout = true.
Proof. apply run_witness. vm_compute. by split_and!. Qed.

(** The map is a public page that [isPublic] leaves out: a visitor of the map whose stored
    token has expired is sent to the login page, the visitor of another public page is not. *)
Theorem auth_map_visitor_sent_to_login :
  let refusing : forall r, outcome (resp r) := fun r => Err (ApiError 401 "expired" VUndef) in
  exists w1 w2,
    run session (boot (initial "/map" (Some "old"%string) working)) [Env Mount; Reply 0 (answers refusing)] = Some w1
    /\ pushed (st w1) = ["/login"%string; "/login"%string] /\ officer_page (pathname (st w1)) = false
    /\ run session (boot (initial "/transparency" (Some "old"%string) working)) [Env Mount; Reply 0 (answers refusing)]
       = Some w2
    /\ pushed (st w2) = [].
Proof. cbv zeta. do 2 eexists. split_and!; vm_compute; reflexivity. Qed.

(** ** Witnesses *)

Definition typed : world state :=
  match run session (boot (initial "/login" None working))
          [Env Mount; User (TypeUsername "admin"); User (TypePassword "secret")] with
  | Some w => w
  | None => boot (initial "/" None working)
  end.

Lemma auth_login_witness :
  exists w', run session typed [User Submit; Reply 0 (answers accepting); Reply 1 (answers accepting)] = Some w'
    /\ role (st w') = Some ADMIN.
Proof.
  destruct (auth_login typed accepting) as (w' & H1 & _ & _ & _ & _ & _ & H2 & _);
    try (vm_compute; reflexivity).
  exists w'. split; [exact H1 | exact H2].
Defined.

Definition logged_in : world state :=
  match run session typed [User Submit; Reply 0 (answers accepting); Reply 1 (answers accepting);
                           Env (Navigate "/command")] with
  | Some w => w
  | None => typed
  end.

Definition to_command : list (event ui env) :=
  [Env Mount; User (TypeUsername "admin"); User (TypePassword "secret"); User Submit;
   Reply 0 (answers accepting); Reply 1 (answers accepting); Env (Navigate "/command")].

Lemma reachable_logged_in : reachable session (fun _ => True) (initial "/login" None working) logged_in.
Proof.
  eapply (reachable_run session (fun _ => True) _ (boot (initial "/login" None working)) to_command);
    [constructor | by repeat constructor | vm_compute; reflexivity].
Qed.

Lemma auth_session_safe_witness :
  storage (st logged_in) = Some "jwt"%string
  /\ exists s, In (s, getMe (Some "jwt"%string)) (sent logged_in) /\ Some "jwt"%string = token s.
Proof.
  destruct (auth_session_safe "/login" None working logged_in reachable_logged_in) as [H1 H2].
  split.
  - destruct H2 as [H2 _]; [| reflexivity | by apply H2; vm_compute].
    eapply (reachable_run session _ _ (boot (initial "/login" None working)) to_command);
      [constructor | by repeat constructor | vm_compute; reflexivity].
  - eexists. assert (Hin : In (_, getMe (Some "jwt"%string)) (sent logged_in)) by (vm_compute; right; left; reflexivity).
    split; [exact Hin | exact (H1 _ _ Hin)].
Defined.

Lemma auth_logout_witness :
  exists w', run session logged_in [User Logout] = Some w' /\ token (st w') = None.
Proof.
  destruct (auth_logout logged_in) as [_ H]; [vm_compute; reflexivity |].
  destruct H as (w' & H1 & H2 & _); [vm_compute; reflexivity |]. exists w'. split; [exact H1 | exact H2].
Defined.

Lemma auth_not_left_loading_witness : isLoading (st logged_in) = false.
Proof.
  apply (auth_not_left_loading "/login" None working logged_in reachable_logged_in); vm_compute; reflexivity.
Defined.

Lemma auth_expiry_judged_by_first_page_witness :
  exists w', run session logged_in [Env (Navigate "/command"); Env Unauthorized] = Some w'
    /\ pathname (st w') = "/command"%string /\ token (st w') = None
    /\ pushed (st w') = ["/command"%string].
Proof.
  destruct (auth_expiry_judged_by_first_page "/login" None working
              [User (TypeUsername "admin"); User (TypePassword "secret"); User Submit;
               Reply 0 (answers accepting); Reply 1 (answers accepting); Env (Navigate "/command")]
              "/command" logged_in) as (w' & H1 & H2 & H3 & _ & H4); [vm_compute; reflexivity |].
  exists w'. split; [exact H1 |]. split; [exact H2 |]. split; [exact H3 | exact H4].
Defined.
