(* ===== verification/ElectionContext.v ===== *)
(** * The election in use: [context/ElectionContext.tsx], [components/election/ElectionSelector.tsx]

    The officer pages share one selected election. The provider loads the list when it gets
    a token, and the selector in the bar changes the selection. *)
From S2P Require Import Prelude JsValue JsNumber Types ApiClient View React Spinner.
From Stdlib Require Import String.

Module ElectionContext.

(*@ dashboard/context/ElectionContext.tsx 17 21 ElectionProvider *)
Record state := mk_state {
  token : option string;
  mounted : bool;
  elections : list ElectionResponse;
  selectedElection : option ElectionResponse;
  loading : bool }.

Definition set_token (v : option string) (s : state) : state :=
  mk_state v (mounted s) (elections s) (selectedElection s) (loading s).
Definition set_mounted (v : bool) (s : state) : state :=
  mk_state (token s) v (elections s) (selectedElection s) (loading s).
Definition set_elections (v : list ElectionResponse) (s : state) : state :=
  mk_state (token s) (mounted s) v (selectedElection s) (loading s).
Definition set_selectedElection (v : option ElectionResponse) (s : state) : state :=
  mk_state (token s) (mounted s) (elections s) v (loading s).
Definition set_loading (v : bool) (s : state) : state :=
  mk_state (token s) (mounted s) (elections s) (selectedElection s) v.
(*@ dashboard/context/ElectionContext.tsx 17 21 ElectionProvider *)
Definition initial (t : option string) : state := mk_state t false [] None true.

Abbreviation M := (prog state).

(*@ dashboard/context/ElectionContext.tsx 23 39 refreshElections *)
Definition refreshElections (s : state) : M unit :=
  finally
    (try_catch
       (all ← await (getElections (token s));
        upd (set_elections all);;
        match all, selectedElection s with
        | first :: _, None =>
            detailed ← await (getElection (e_id first) (token s));
            upd (set_selectedElection (Some detailed))
        | _, Some selected =>
            refreshed ← await (getElection (e_id selected) (token s));
            upd (set_selectedElection (Some refreshed))
        | [], None => mret tt
        end)
       (fun _ => mret tt))
    (upd (set_loading false)).

(*@ dashboard/context/ElectionContext.tsx 41 48 selectElection *)
Definition selectElection (id : string) (s : state) : M unit :=
  try_catch
    (detailed ← await (getElection id (token s));
     upd (set_selectedElection (Some detailed)))
    (fun _ => mret tt).

Inductive ui := Select_ (id : string).

#[export] Instance ui_eq_dec : EqDecision ui. Proof. solve_decision. Defined.

(** Mounting, a new token, and a page that asks for a refresh. *)
Inductive env := Mount | TokenChanged (t : option string) | Refresh.

(*@ dashboard/components/election/ElectionSelector.tsx 20 20 onChange *)
Definition on_ui (u : ui) (s : state) : M unit :=
  match u with Select_ id => selectElection id s end.

(*@ dashboard/context/ElectionContext.tsx 50 52 useEffect *)
Definition on_surroundings (x : env) (s : state) : M unit :=
  match x with
  | Mount =>
      if mounted s then mret tt
      else upd (set_mounted true);; if truthy_opt (token s) then refreshElections s else mret tt
  | TokenChanged t =>
      if bool_decide (token s = t) then mret tt
      else upd (set_token t);;
           if truthy_opt t && mounted s then refreshElections (set_token t s) else mret tt
  | Refresh => refreshElections s
  end.

(*@ dashboard/components/election/ElectionSelector.tsx 5 30 ElectionSelector *)
Definition render (s : state) : list (node ui) :=
  if loading s then [Box "animate-pulse" []]
  else match elections s with
       | [] => [Text "No elections found"]
       | _ =>
           [Select (match selectedElection s with Some e => e_id e | None => EmptyString end)
              (map (fun e => (e_id e, opt_or (e_title_name e) (opt_or (e_title e) (e_id e))
                              ++s " (" ++s election_state_str (e_state e) ++s ")")) (elections s))
              false Select_]
       end.

Definition provider : component state ui env := mk_component render on_ui on_surroundings.

End ElectionContext.

Import ElectionContext.

#[export] Hint Unfold on_ui on_surroundings refreshElections selectElection : prog.

Lemma allows_select s id :
  allows (render s) (Select_ id) = negb (loading s) && str_in id (map e_id (elections s)).
Proof.
  unfold render. destruct (loading s); [done |]. destruct (elections s) as [|e l]; [done |].
  read_page. done.
Qed.

Lemma selector_click (w : world state) u :
  allows (render (st w)) u = true -> step provider w (User u) = Some (exec (on_ui u (st w)) w).
Proof. intros Hu. unfold step, provider. cbn [React.render on_user]. by rewrite Hu. Qed.

(** ** Loading the list *)

(** The election asked for in detail after the list arrived: the one selected, else the first. *)
Definition wanted (s : state) (all : list ElectionResponse) : option ElectionResponse :=
  match selectedElection s with Some e => Some e | None => head all end.

(** Runs a refresh that ends after [k] answers. *)
Ltac settle k :=
  exists k; eexists; cbn [List.seq map]; rewrite ?Nat.add_0_r, ?Nat.add_1_r;
  (split; [do 3 try run_next selector_click ltac:(idtac); reflexivity |]);
  cbn; split_and!; try done; lia.

(** A refresh takes the list, and the details of the election in use, or of the first one
    when none is; whatever fails is left as it was, and in every case the selector is
    usable afterwards. *)
Theorem elections_refresh w (f : forall r, outcome (resp r)) :
  tasks w = [] ->
  let s := st w in
  let all := match f (getElections (token s)) with Ok all => all | Err _ => elections s end in
  exists k w',
    run provider w (Env Refresh :: map (fun i => Reply (fresh w + i)%nat (answers f)) (List.seq 0 k))
      = Some w'
    /\ (k <= 2)%nat /\ tasks w' = [] /\ loading (st w') = false /\ elections (st w') = all
    /\ selectedElection (st w')
       = match f (getElections (token s)) with
         | Err _ => selectedElection s
         | Ok all =>
             match wanted s all with
             | Some e => match f (getElection (e_id e) (token s)) with
                         | Ok detailed => Some detailed
                         | Err _ => selectedElection s
                         end
             | None => None
             end
         end.
Proof.
  destruct w as [s n fr ts snt unc]. cbn [st tasks fresh]. intros ->. cbv zeta.
  unfold wanted.
  destruct (f (getElections (token s))) as [all|err] eqn:El; [| settle 1%nat].
  destruct (selectedElection s) as [e|] eqn:Es.
  - destruct (f (getElection (e_id e) (token s))) as [d|err] eqn:Ed; destruct all; settle 2%nat.
  - destruct all as [|e all]; [settle 1%nat |]. cbn [head].
    destruct (f (getElection (e_id e) (token s))) as [d|err] eqn:Ed; settle 2%nat.
Qed.

(** ** The spinner of the selector *)

Definition selector_busy (s : state) : bool := mounted s && truthy_opt (token s) && loading s.

Lemma refresh_lowers s0 s1 s :
  low (fun _ => True) selector_busy false (refreshElections s) (fun b _ => fine selector_busy b)
    (fun b _ => fine selector_busy b) s0 s1.
Proof.
  apply lowers_at_end; [intros; apply andb_false_r | timerless_auto].
Qed.

Lemma provider_lowers : lowering_component provider (fun _ => True) (fun _ => True) selector_busy.
Proof.
  split.
  - intros [id] s _ _ _. apply low_calm; [| done]. unfold provider. cbn [on_user]. calm_auto.
  - intros x s _ _. unfold lowers, provider. cbn [on_env].
    destruct x as [|t|]; cbn [on_surroundings]; [| | apply refresh_lowers].
    + destruct (mounted s); [done |]. apply low_upd.
      destruct (truthy_opt (token s)) eqn:Et; [apply refresh_lowers |].
      unfold selector_busy, fine. cbn. by rewrite Et.
    + destruct (bool_decide _); [done |]. apply low_upd.
      destruct (truthy_opt t && mounted s) eqn:Et; [apply refresh_lowers |].
      unfold selector_busy, fine. cbn. rewrite andb_comm in Et. by rewrite Et.
Qed.

(** For an officer with a token the selector does not stay a placeholder. *)
Theorem elections_not_left_loading t w :
  reachable provider (fun _ => True) (initial t) w -> idle w = true ->
  mounted (st w) = true -> truthy_opt (token (st w)) = true -> loading (st w) = false.
Proof.
  intros Hw Hidle Hm Ht.
  assert (selector_busy (st w) = false) as H.
  { by apply (never_left_busy provider (fun _ => True) selector_busy (initial t) w provider_lowers). }
  unfold selector_busy in H. by rewrite Hm, Ht in H.
Qed.

(** Without a token it does: the flag is only lowered by a refresh, which the effect
    skips, so until a token comes or a page asks for a refresh the selector stays a
    placeholder although nothing is on the way. *)
Theorem elections_loading_without_token t w :
  truthy_opt t = false ->
  reachable provider (fun e => match e with Env Refresh | Env (TokenChanged _) => False | _ => True end)
    (initial t) w ->
  loading (st w) = true /\ sent w = [] /\ render (st w) = [Box "animate-pulse" []].
Proof.
  intros Ht Hw.
  assert (safe_component provider (fun s => loading s = true /\ token s = t) (fun _ _ => False)
    (fun e => match e with Env Refresh | Env (TokenChanged _) => False | _ => True end)) as Hsafe.
  { split.
    - intros [id] s _ [Hl _] Hu. change (allows (render s) (Select_ id) = true) in Hu.
      rewrite allows_select, Hl in Hu. done.
    - intros [| |] s HP [Hl Hs]; try done. unfold provider. cbn [on_env on_surroundings].
      destruct (mounted s); [done |]. by rewrite Hs, Ht. }
  destruct (reachable_good provider _ _ _ Hsafe (initial t) w (conj eq_refl eq_refl) Hw) as [[Hl _] _ Hs].
  split; [exact Hl |]. split; [| unfold render; by rewrite Hl].
  destruct (sent w) as [|[s r] l]; [done |]. by inversion Hs.
Qed.

(** ** Two choices in flight *)

Definition an_election (id : string) : ElectionResponse :=
  {| e_id := id; e_title_name := Some id; e_title := None; e_description := None; e_state := OPEN;
     e_configuration_hash := None; e_device_count := 1; e_ballot_count := 0;
     e_created_at := "2026-01-01T00:00:00Z"; e_opened_at := None; e_closed_at := None;
     e_published_at := None; e_candidates := [] |}.

Definition two_elections : forall r, outcome (resp r) :=
  fun r => match r as r return outcome (resp r) with
           | getElections _ => Ok [an_election "E1"; an_election "E2"]
           | getElection id _ => Ok (an_election id)
           | _ => Err (plain_error "Error" "offline")
           end.

(** The last answer wins, not the last choice: choosing E2 and then E1 again ends with E2
    when its answer is the later one. *)
Theorem elections_late_answer_wins :
  exists w,
    run provider (boot (initial (Some "token"%string)))
      [Env Mount; Reply 0 (answers two_elections); Reply 1 (answers two_elections);
       User (Select_ "E2"); User (Select_ "E1"); Reply 3 (answers two_elections);
       Reply 2 (answers two_elections)] = Some w
    /\ tasks w = [] /\ option_map e_id (selectedElection (st w)) = Some "E2"%string.
Proof. apply run_witness. vm_compute. by split_and!. Qed.

(** ** Witnesses *)

Lemma elections_refresh_witness :
  exists k w', run provider (boot (initial (Some "token"%string)))
      (Env Refresh :: map (fun i => Reply (0 + i)%nat (answers two_elections)) (List.seq 0 k)) = Some w'
    /\ selectedElection (st w') = Some (an_election "E1").
Proof.
  destruct (elections_refresh (boot (initial (Some "token"%string))) two_elections eq_refl)
    as (k & w' & H1 & _ & _ & _ & _ & H2).
  exists k, w'. split; [exact H1 | exact H2].
Defined.

Definition loaded : world state :=
  match run provider (boot (initial (Some "token"%string)))
          [Env Mount; Reply 0 (answers two_elections); Reply 1 (answers two_elections)] with
  | Some w => w
  | None => boot (initial None)
  end.

Lemma elections_not_left_loading_witness : loading (st loaded) = false.
Proof.
  apply (elections_not_left_loading (Some "token"%string)); try (vm_compute; reflexivity).
  eapply (reachable_run provider (fun _ => True) _ (boot (initial (Some "token"%string)))
            [Env Mount; Reply 0 (answers two_elections); Reply 1 (answers two_elections)]);
    [constructor | by repeat constructor | vm_compute; reflexivity].
Defined.

Lemma elections_loading_without_token_witness :
  exists w, run provider (boot (initial None)) [Env Mount; Tick 60000] = Some w /\ loading (st w) = true.
Proof.
  eexists. split; [vm_compute; reflexivity |].
  apply (elections_loading_without_token None); [reflexivity |].
  eapply (reachable_run provider _ _ (boot (initial None)) [Env Mount; Tick 60000]);
    [constructor | by repeat constructor | vm_compute; reflexivity].
Defined.
