(* ===== verification/ActiveElection.v ===== *)
(** * The election of the public pages: [lib/hooks/useActiveElection.ts] *)
From S2P Require Import Prelude JsValue JsNumber Types ApiClient View React.
From Stdlib Require Import String.

Module ActiveElection.

(** What the hook returns of an election, whichever list it comes from. *)
Record ActiveElection := {
  ae_id : string; ae_name : option string; ae_title : option string; ae_state : string;
  ae_device_count : Z }.

Definition of_officer (e : ElectionResponse) : ActiveElection :=
  {| ae_id := e_id e; ae_name := e_title_name e; ae_title := e_title e;
     ae_state := election_state_str (e_state e); ae_device_count := e_device_count e |}.

(*@ dashboard/lib/hooks/useActiveElection.ts 24 31 useActiveElection *)
Definition of_public (e : TransparencyOverview) : ActiveElection :=
  {| ae_id := t_election_id e; ae_name := Some (t_election_name e);
     ae_title := Some (t_election_name e); ae_state := t_state e;
     ae_device_count := t_device_count e |}.

(*@ dashboard/lib/hooks/useActiveElection.ts 37 38 useActiveElection *)
Definition choose (elections : list ActiveElection) : option ActiveElection :=
  match find_first (fun e => String.eqb (ae_state e) "OPEN") elections with
  | Some open => Some open
  | None => head elections
  end.

(*@ dashboard/lib/hooks/useActiveElection.ts 39 43 useActiveElection *)
Definition named (chosen : ActiveElection) : ActiveElection :=
  let name := opt_or (ae_name chosen) (opt_or (ae_title chosen) (ae_id chosen)) in
  {| ae_id := ae_id chosen; ae_name := Some name; ae_title := Some name;
     ae_state := ae_state chosen; ae_device_count := ae_device_count chosen |}.

(*@ dashboard/lib/hooks/useActiveElection.ts 7 9 useActiveElection *)
Record state := mk_state {
  mounted : bool;
  election : option ActiveElection;
  loading : bool;
  error : option string }.

Definition set_mounted (v : bool) (s : state) : state :=
  mk_state v (election s) (loading s) (error s).
Definition set_election (v : option ActiveElection) (s : state) : state :=
  mk_state (mounted s) v (loading s) (error s).
Definition set_loading (v : bool) (s : state) : state :=
  mk_state (mounted s) (election s) v (error s).
Definition set_error (v : option string) (s : state) : state :=
  mk_state (mounted s) (election s) (loading s) v.
(*@ dashboard/lib/hooks/useActiveElection.ts 7 9 useActiveElection *)
Definition initial : state := mk_state false None true None.

Abbreviation M := (prog state).

(*@ dashboard/lib/hooks/useActiveElection.ts 14 33 useActiveElection *)
Definition candidates_for_choice : M (list ActiveElection) :=
  own ← try_catch (l ← await (getElections None); mret (map of_officer l)) (fun _ => mret []);
  match own with
  | [] => try_catch (l ← await getTransparencyElections; mret (map of_public l)) (fun _ => mret [])
  | _ => mret own
  end.

(*@ dashboard/lib/hooks/useActiveElection.ts 12 50 fetch *)
Definition fetch : M unit :=
  finally
    (try_catch
       (elections ← candidates_for_choice;
        match choose elections with
        | Some chosen => upd (set_election (Some (named chosen)))
        | None => mret tt
        end)
       (fun err => upd (set_error (Some (str_or (e_message err) "Unable to load election data")))))
    (upd (set_loading false)).

Inductive env := Mount.

(*@ dashboard/lib/hooks/useActiveElection.ts 11 52 useEffect *)
Definition on_surroundings (x : env) (s : state) : M unit :=
  match x with Mount => if mounted s then mret tt else upd (set_mounted true);; fetch end.

(** The hook offers its user nothing. *)
Definition hook : component state Empty_set env :=
  mk_component (fun _ => []) (fun (u : Empty_set) _ => match u with end) on_surroundings.

End ActiveElection.

Import ActiveElection.

#[export] Hint Unfold on_surroundings fetch candidates_for_choice : prog.

(** The elections to choose from: the officer's list, which an anonymous visitor is refused,
    else the public one. *)
Definition available (f : forall r, outcome (resp r)) : list ActiveElection :=
  match f (getElections None) with
  | Ok ((_ :: _) as l) => map of_officer l
  | _ => match f getTransparencyElections with Ok l => map of_public l | Err _ => [] end
  end.

(** An open election is preferred, and the choice is one of those available. *)
Lemma choose_spec l :
  match choose l with
  | Some e => In e l /\ (ae_state e = "OPEN"%string \/ forall e', In e' l -> ae_state e' <> "OPEN"%string)
  | None => l = []
  end.
Proof.
  unfold choose. destruct (find_first _ l) as [e|] eqn:E.
  - apply find_first_Some in E as [Hin Ho]. split; [done |]. left. by apply String.eqb_eq.
  - rewrite find_first_None in E. destruct l as [|e l]; [done |]. cbn [head].
    split; [by left |]. right. intros e' Hin Ho. specialize (E e' Hin). by rewrite Ho in E.
Qed.

#[local] Arguments choose : simpl never.

Ltac settle k :=
  exists k; eexists; cbn [List.seq map];
  (split; [do 3 try run_next I ltac:(idtac); reflexivity |]);
  cbn; repeat match goal with H : choose _ = _ |- _ => rewrite H end; split_and!; try done; lia.

(** The hook ends after at most two requests with the election to show: an open one if
    there is one, else the first, under a name that is never empty unless its identifier is. *)
Theorem active_election_spec (f : forall r, outcome (resp r)) :
  exists k w,
    run hook (boot initial) (Env Mount :: map (fun i => Reply i (answers f)) (List.seq 0 k)) = Some w
    /\ (k <= 2)%nat /\ tasks w = [] /\ loading (st w) = false
    /\ election (st w) = option_map named (choose (available f))
    /\ match choose (available f) with
       | Some e => In e (available f)
           /\ (ae_state e = "OPEN"%string
               \/ forall e', In e' (available f) -> ae_state e' <> "OPEN"%string)
       | None => available f = []
       end.
Proof.
  pose proof (choose_spec (available f)) as Hc.
  enough (exists k w,
    run hook (boot initial) (Env Mount :: map (fun i => Reply i (answers f)) (List.seq 0 k)) = Some w
    /\ (k <= 2)%nat /\ tasks w = [] /\ loading (st w) = false
    /\ election (st w) = option_map named (choose (available f))) as (k & w & H)
    by (exists k, w; tauto).
  clear Hc. unfold available.
  destruct (f (getElections None)) as [[|e l]|err] eqn:E1.
  - destruct (f getTransparencyElections) as [l|err] eqn:E2; [| settle 2%nat].
    destruct (choose (map of_public l)) as [e|] eqn:Ec; settle 2%nat.
  - destruct (choose (of_officer e :: map of_officer l)) as [e'|] eqn:Ec; settle 1%nat.
  - destruct (f getTransparencyElections) as [l|err'] eqn:E2; [| settle 2%nat].
    destruct (choose (map of_public l)) as [e|] eqn:Ec; settle 2%nat.
Qed.

(** The hook never reports an error: both requests are guarded on their own, so the
    handler that would set it cannot run, and a visitor without backend sees no message. *)
Theorem active_election_never_fails w :
  reachable hook (fun _ => True) initial w -> error (st w) = None.
Proof.
  intros Hw.
  assert (safe_component hook (fun s => error s = None) (fun _ _ => True) (fun _ => True)) as Hsafe.
  { split; [by intros [] |]. intros [] s _ Hs. unfold hook. cbn [on_env].
    wp_auto. }
  by apply (reachable_good hook _ _ _ Hsafe initial w eq_refl Hw).
Qed.

Lemma active_election_never_fails_witness :
  exists w, run hook (boot initial)
      [Env Mount; Reply 0 (answers (fun _ => Err (plain_error "Error" "offline")));
       Reply 1 (answers (fun _ => Err (plain_error "Error" "offline")))] = Some w
    /\ loading (st w) = false /\ election (st w) = None /\ error (st w) = None.
Proof.
  eexists. split; [vm_compute; reflexivity |]. split; [reflexivity |]. split; [reflexivity |].
  apply active_election_never_fails.
  eapply (reachable_run hook (fun _ => True) _ (boot initial)
            [Env Mount; Reply 0 (answers (fun _ => Err (plain_error "Error" "offline")));
             Reply 1 (answers (fun _ => Err (plain_error "Error" "offline")))]);
    [constructor | by repeat constructor | vm_compute; reflexivity].
Defined.
