(* ===== verification/Officer.v ===== *)
(** * What the officers' election pages share

    A page under app/(officer)/election gets the token and the selected election from the
    contexts. [refreshElections] is the provider's function awaited by a page: its requests
    and its catch are [ElectionContext.refreshElections]; what it does to the provider
    reaches the page as an event of its surroundings. *)
From S2P Require Import Prelude JsValue JsNumber FormatError Types ApiClient View React Alone Spinner ElectionContext.
From Stdlib Require Import String.

Section Zoom.
Context {S T : Type} (get : S -> T) (set : T -> S -> S).

(** A program on a part of the state. *)
Fixpoint zoom {A : Type} (p : prog T A) : prog S A :=
  match p with
  | Ret a => Ret a
  | Throw e => Throw e
  | Upd f k => Upd (fun s => set (f (get s)) s) (zoom k)
  | Peek k => Peek (fun s => zoom (k (get s)))
  | Call q k => Call q (fun o => zoom (k o))
  | Sleep ms k => Sleep ms (zoom k)
  | Timer b ms body k => Timer b ms (zoom body) (fun i => zoom (k i))
  | Clear i k => Clear i (zoom k)
  | Now k => Now (fun t => zoom (k t))
  end.
End Zoom.

(** The text of a value used as a child of an element: nothing for null, undefined and the
    booleans. *)
Definition child (v : value) : string :=
  match v with VUndef | VNull | VBool _ => EmptyString | _ => to_string v end.

Section Page.
Context {S : Type}.

(** [await refreshElections()], with the token and the election of the page's render. *)
(*@ dashboard/context/ElectionContext.tsx 23 39 refreshElections *)
Definition refreshElections (t : option string) (e : option ElectionResponse) : prog S unit :=
  let provider := ElectionContext.mk_state t true [] e false in
  zoom (fun _ => provider) (fun _ s => s) (ElectionContext.refreshElections provider).

(** The [error &&] box of a page. *)
Definition error_box {U} (error : option string) : list (node U) :=
  match error with Some e => when (truthy_str e) [Text e] | None => [] end.

Lemma allows_error_box {U} `{EqDecision U} error (u : U) : allows (error_box error) u = false.
Proof. destruct error as [m|]; [| done]. unfold error_box. by destruct (truthy_str m). Qed.

(** [setError(formatApiError(err))]. *)
Definition report (set_error : option string -> S -> S) (err : error_obj) : prog S unit :=
  upd (set_error (Some (FormatError.format_error err))).

(** [setLoading(true); try { ... } catch (err) { setError(formatApiError(err)); } finally
    { setLoading(false); }]. *)
Definition busy (set_loading : bool -> S -> S) (set_error : option string -> S -> S) (body : prog S unit)
    : prog S unit :=
  upd (set_loading true);;
  finally (try_catch body (report set_error)) (upd (set_loading false)).

Lemma busy_keeps (Inv : S -> Prop) (Sends : S -> req -> Prop) sl se body :
  (forall v s, Inv s -> Inv (sl v s)) -> (forall v s, Inv s -> Inv (se v s)) ->
  keeps Inv Sends body -> keeps Inv Sends (busy sl se body).
Proof.
  intros Hl He Hb. unfold busy. apply keeps_bind; [by apply keeps_upd; auto | intros _].
  apply keeps_finally; [| by apply keeps_upd; auto]. apply keeps_try; [done |].
  intros err. apply keeps_upd; auto.
Qed.

Lemma busy_timerless sl se body : timerless body -> timerless (busy sl se body).
Proof. intros Hb. apply timerless_finally; [by apply timerless_try | done]. Qed.

Lemma busy_lowers (loading : S -> bool) sl se body b s0 s :
  (forall s, loading (sl false s) = false) -> timerless body ->
  low (fun _ => True) loading b (busy sl se body) (fun b _ => fine loading b) (fun b _ => fine loading b) s0 s.
Proof.
  intros Hl Hb. unfold busy. apply low_upd, lowers_at_end; [done |]. by apply timerless_try.
Qed.

Lemma busy_alone f sl se body s r :
  alone f body (sl true s) = Some r ->
  alone f (busy sl se body) s
  = Some (mk_ending (inl tt)
       (match ended r with
        | inl _ => sl false (left_in r)
        | inr err => sl false (se (Some (FormatError.format_error err)) (left_in r))
        end) (asked r)).
Proof.
  intros Hr. unfold busy, report. rewrite alone_upd, alone_finally, alone_try, Hr.
  destruct r as [[[]|err] s' l]; cbn; by rewrite !app_nil_r.
Qed.

Lemma refresh_keeps (Inv : S -> Prop) (Sends : S -> req -> Prop) t e :
  (forall s, Inv s -> Sends s (getElections t)) -> (forall s i, Inv s -> Sends s (getElection i t)) ->
  keeps Inv Sends (refreshElections t e).
Proof.
  intros H1 H2 b s Hs. unfold refreshElections, ElectionContext.refreshElections. cbn.
  split_and!; [done | by constructor; [apply H1 |] |]. intros [all|err] s' Hs'; cbn; [| done].
  destruct all as [|e1 l], e as [e|]; cbn; [| done | |];
    (split_and!; [done | by constructor; [apply H2 |] |]; by intros [?|?] s2 Hs2).
Qed.

Lemma refresh_timerless t e : timerless (refreshElections t e).
Proof.
  unfold refreshElections, ElectionContext.refreshElections. cbn. intros [all|err]; [| exact I]. cbn.
  destruct all as [|e1 l], e as [e|]; cbn; try exact I; by intros [?|?].
Qed.

Lemma refresh_calm (Busy : S -> bool) t e : calm Busy (refreshElections t e).
Proof.
  unfold refreshElections, ElectionContext.refreshElections. cbn. intros [all|err]; [| by split]. cbn.
  split; [done |]. destruct all as [|e1 l], e as [e|]; cbn; try (by split);
    intros [?|?]; cbn; by repeat split.
Qed.

(** Refreshing never throws: whatever is answered, what follows it runs. *)
Lemma refresh_no_throw (Inv : S -> Prop) t e b (s : S) :
  Inv s ->
  wpf Inv (fun _ _ => True) b (refreshElections t e) (fun _ _ => Inv) (fun _ _ _ => False) s.
Proof.
  intros Hs. unfold refreshElections, ElectionContext.refreshElections. cbn.
  split_and!; [done | by repeat constructor |]. intros [all|err] s' Hs'; cbn; [| done].
  destruct all as [|e1 l], e as [e|]; cbn; [| done | |];
    (split_and!; [done | by repeat constructor |]; by intros [?|?] s2 Hs2).
Qed.

(** What is asked of a backend that answers with [f] when the elections are refreshed. *)
Definition refreshing (f : forall r, outcome (resp r)) (t : option string) (e : option ElectionResponse) : list req :=
  getElections t
  :: match f (getElections t), e with
     | Err _, _ => []
     | Ok [], None => []
     | Ok (e0 :: _), None => [getElection (e_id e0) t]
     | Ok _, Some e1 => [getElection (e_id e1) t]
     end.

Lemma refresh_alone f t e (s : S) :
  alone f (refreshElections t e) s = Some (mk_ending (inl tt) s (map (fun q => (s, q)) (refreshing f t e))).
Proof.
  unfold refreshElections, ElectionContext.refreshElections, refreshing. cbn.
  destruct (f (getElections t)) as [[|e0 all]|err]; cbn; [| | done].
  - destruct e as [e1|]; cbn; [| done]. by destruct (f (getElection _ _)).
  - destruct e as [e1|]; cbn; by destruct (f (getElection _ _)).
Qed.
End Page.

#[export] Hint Unfold report : prog.
