(* ===== verification/Devices.v ===== *)
(** * The device registry: [app/(officer)/devices/page.tsx]

    The voting units of the selected election, the life cycle of their status, and the
    registration of new ones. *)
From S2P Require Import Prelude JsValue JsNumber Types ApiClient View Common React.
From Stdlib Require Import Ascii String.

Module Devices.

(** The backend's table of status changes. *)
(*@ backend/app/services/device_service.py 25 30 VALID_STATUS_TRANSITIONS *)
Definition VALID_STATUS_TRANSITIONS (s : DeviceStatus) : list DeviceStatus :=
  match s with
  | D_REGISTERED => [D_ACTIVE]
  | D_ACTIVE => [D_SUSPENDED; D_REVOKED]
  | D_SUSPENDED => [D_ACTIVE; D_REVOKED]
  | D_REVOKED => []
  end.

(*@ dashboard/app/(officer)/devices/page.tsx 21 33 DevicesPage *)
Record state := mk_state {
  token : option string;
  role : option Role;
  mounted : bool;
  elections : list ElectionResponse;
  selectedElectionId : string;
  devices : list DeviceResponse;
  loading : bool;
  actionLoading : bool;
  error : option string;
  successMsg : option string;
  showRegisterModal : bool;
  newDeviceId : string;
  newDeviceName : string }.

Definition set_token (v : option string) (s : state) : state :=
  mk_state v (role s) (mounted s) (elections s) (selectedElectionId s) (devices s) (loading s)
    (actionLoading s) (error s) (successMsg s) (showRegisterModal s) (newDeviceId s)
    (newDeviceName s).
Definition set_role (v : option Role) (s : state) : state :=
  mk_state (token s) v (mounted s) (elections s) (selectedElectionId s) (devices s) (loading s)
    (actionLoading s) (error s) (successMsg s) (showRegisterModal s) (newDeviceId s)
    (newDeviceName s).
Definition set_mounted (v : bool) (s : state) : state :=
  mk_state (token s) (role s) v (elections s) (selectedElectionId s) (devices s) (loading s)
    (actionLoading s) (error s) (successMsg s) (showRegisterModal s) (newDeviceId s)
    (newDeviceName s).
Definition set_elections (v : list ElectionResponse) (s : state) : state :=
  mk_state (token s) (role s) (mounted s) v (selectedElectionId s) (devices s) (loading s)
    (actionLoading s) (error s) (successMsg s) (showRegisterModal s) (newDeviceId s)
    (newDeviceName s).
Definition set_selectedElectionId (v : string) (s : state) : state :=
  mk_state (token s) (role s) (mounted s) (elections s) v (devices s) (loading s)
    (actionLoading s) (error s) (successMsg s) (showRegisterModal s) (newDeviceId s)
    (newDeviceName s).
Definition set_devices (v : list DeviceResponse) (s : state) : state :=
  mk_state (token s) (role s) (mounted s) (elections s) (selectedElectionId s) v (loading s)
    (actionLoading s) (error s) (successMsg s) (showRegisterModal s) (newDeviceId s)
    (newDeviceName s).
Definition set_loading (v : bool) (s : state) : state :=
  mk_state (token s) (role s) (mounted s) (elections s) (selectedElectionId s) (devices s) v
    (actionLoading s) (error s) (successMsg s) (showRegisterModal s) (newDeviceId s)
    (newDeviceName s).
Definition set_actionLoading (v : bool) (s : state) : state :=
  mk_state (token s) (role s) (mounted s) (elections s) (selectedElectionId s) (devices s)
    (loading s) v (error s) (successMsg s) (showRegisterModal s) (newDeviceId s)
    (newDeviceName s).
Definition set_error (v : option string) (s : state) : state :=
  mk_state (token s) (role s) (mounted s) (elections s) (selectedElectionId s) (devices s)
    (loading s) (actionLoading s) v (successMsg s) (showRegisterModal s) (newDeviceId s)
    (newDeviceName s).
Definition set_successMsg (v : option string) (s : state) : state :=
  mk_state (token s) (role s) (mounted s) (elections s) (selectedElectionId s) (devices s)
    (loading s) (actionLoading s) (error s) v (showRegisterModal s) (newDeviceId s)
    (newDeviceName s).
Definition set_showRegisterModal (v : bool) (s : state) : state :=
  mk_state (token s) (role s) (mounted s) (elections s) (selectedElectionId s) (devices s)
    (loading s) (actionLoading s) (error s) (successMsg s) v (newDeviceId s) (newDeviceName s).
Definition set_newDeviceId (v : string) (s : state) : state :=
  mk_state (token s) (role s) (mounted s) (elections s) (selectedElectionId s) (devices s)
    (loading s) (actionLoading s) (error s) (successMsg s) (showRegisterModal s) v
    (newDeviceName s).
Definition set_newDeviceName (v : string) (s : state) : state :=
  mk_state (token s) (role s) (mounted s) (elections s) (selectedElectionId s) (devices s)
    (loading s) (actionLoading s) (error s) (successMsg s) (showRegisterModal s)
    (newDeviceId s) v.
(*@ dashboard/app/(officer)/devices/page.tsx 21 33 DevicesPage *)
Definition initial (t : option string) (r : option Role) : state :=
  mk_state t r false [] "EV-2026-001" [] true false None None false "EVM-005"
    "Precinct 5 Voting Terminal".

Abbreviation M := (prog state).

Definition fail_with (text : string) (err : error_obj) : M unit :=
  upd (set_error (Some (str_or (e_message err) text))).

(*@ dashboard/app/(officer)/devices/page.tsx 35 52 fetchDevices *)
Definition fetchDevices (electionId : string) (s : state) : M unit :=
  upd (set_loading true);;
  upd (set_error None);;
  finally
    (try_catch
       (all ← await (getElections (token s));
        upd (set_elections all);;
        match find_or_first electionId all with
        | Some target =>
            upd (set_selectedElectionId (e_id target));;
            devList ← await (getDevices (e_id target) (token s));
            upd (set_devices devList)
        | None => mret tt
        end)
       (fail_with "Failed to load registered hardware devices"))
    (upd (set_loading false)).

(*@ dashboard/app/(officer)/devices/page.tsx 58 76 handleUpdateStatus *)
Definition handleUpdateStatus (deviceId : string) (newStatus : DeviceStatus) (s : state) : M unit :=
  if negb (truthy_opt (token s)) then mret tt
  else if negb (bool_decide (role s = Some ADMIN))
  then upd (set_error (Some "Forbidden: Only ADMIN users may modify hardware device status."%string))
  else
    upd (set_actionLoading true);;
    upd (set_error None);;
    upd (set_successMsg None);;
    finally
      (try_catch
         (await (updateDeviceStatus (selectedElectionId s) deviceId newStatus (token s));;
          upd (set_successMsg (Some ("Device " ++s deviceId ++s " status changed to "
                                     ++s device_status_str newStatus)));;
          fetchDevices (selectedElectionId s) s)
         (fail_with ("Failed to update device " ++s deviceId)))
      (upd (set_actionLoading false)).

(*@ dashboard/app/(officer)/devices/page.tsx 78 97 handleRegisterDevice *)
Definition handleRegisterDevice (s : state) : M unit :=
  if negb (truthy_opt (token s)) then mret tt
  else
    upd (set_actionLoading true);;
    upd (set_error None);;
    finally
      (try_catch
         (await (registerDevice (selectedElectionId s)
                   {| dr_id := newDeviceId s; dr_name := newDeviceName s; dr_device_hash := None |}
                   (token s));;
          upd (set_showRegisterModal false);;
          upd (set_successMsg (Some ("Device " ++s newDeviceId s ++s " successfully registered.")));;
          fetchDevices (selectedElectionId s) s)
         (fail_with "Device registration failed"))
      (upd (set_actionLoading false)).

(** [pattern="^EVM-\d{3}$"]. *)
Definition is_digit (c : ascii) : bool :=
  let n := nat_of_ascii c in ((48 <=? n) && (n <=? 57))%nat.

(*@ dashboard/app/(officer)/devices/page.tsx 304 304 pattern *)
Definition evm_pattern (s : string) : bool :=
  match s with
  | String "E" (String "V" (String "M" (String "-" (String a (String b (String c EmptyString)))))) =>
      is_digit a && is_digit b && is_digit c
  | _ => false
  end.

(** The browser submits the form only when its fields are valid. *)
(*@ dashboard/app/(officer)/devices/page.tsx 300 319 required *)
Definition form_valid (s : state) : bool :=
  evm_pattern (newDeviceId s) && truthy_str (newDeviceName s).

Inductive ui :=
| SelectElection (v : string) | OpenModal | CloseModal | ClickRefresh | DismissError | DismissSuccess
| ClickStatus (deviceId : string) (newStatus : DeviceStatus)
| TypeId (v : string) | TypeName (v : string) | SubmitRegister.

#[export] Instance ui_eq_dec : EqDecision ui. Proof. solve_decision. Defined.

Inductive env := Mount | TokenChanged (t : option string) | RoleChanged (r : option Role).

(*@ dashboard/app/(officer)/devices/page.tsx 115 139 onChange/onClick *)
Definition on_ui (u : ui) (s : state) : M unit :=
  match u with
  | SelectElection v => upd (set_selectedElectionId v);; fetchDevices v s
  | OpenModal => upd (set_showRegisterModal true)
  | CloseModal => upd (set_showRegisterModal false)
  | ClickRefresh => fetchDevices (selectedElectionId s) s
  | DismissError => upd (set_error None)
  | DismissSuccess => upd (set_successMsg None)
  | ClickStatus d st => handleUpdateStatus d st s
  | TypeId v => upd (set_newDeviceId v)
  | TypeName v => upd (set_newDeviceName v)
  | SubmitRegister => handleRegisterDevice s
  end.

(*@ dashboard/app/(officer)/devices/page.tsx 54 56 useEffect *)
Definition on_surroundings (x : env) (s : state) : M unit :=
  match x with
  | Mount =>
      if mounted s then mret tt
      else upd (set_mounted true);; fetchDevices (selectedElectionId s) s
  | TokenChanged t =>
      if bool_decide (token s = t) then mret tt
      else upd (set_token t);; fetchDevices (selectedElectionId s) (set_token t s)
  | RoleChanged r => upd (set_role r)
  end.

(** ** The page *)

Definition is_admin (s : state) : bool := bool_decide (role s = Some ADMIN).

(*@ dashboard/app/(officer)/devices/page.tsx 101 166 DevicesPage *)
Definition top_bar (s : state) : list (node ui) :=
  [Text "Device Management";
   Select (selectedElectionId s)
     (map (fun el => (e_id el, e_id el ++s "  -  " ++s default EmptyString (e_title el))) (elections s))
     false SelectElection]
  ++ when (is_admin s) [Button "Register Unit" false OpenModal]
  ++ [Button "Refresh devices" (loading s) ClickRefresh]
  ++ match error s with
     | Some e => when (truthy_str e) (AlertBanner "error" "Device Service Notice" e (Some DismissError))
     | None => []
     end
  ++ match successMsg s with
     | Some m => when (truthy_str m) (AlertBanner "success" "Success" m (Some DismissSuccess))
     | None => []
     end.

(*@ dashboard/app/(officer)/devices/page.tsx 216 269 DevicesPage *)
Definition status_actions (s : state) (d : DeviceResponse) : list (node ui) :=
  let act label st := Button label (actionLoading s) (ClickStatus (d_id d) st) in
  match d_status d with
  | D_REGISTERED => [act "Activate" D_ACTIVE]
  | D_ACTIVE => [act "Suspend" D_SUSPENDED; act "Revoke" D_REVOKED]
  | D_SUSPENDED => [act "Re-activate" D_ACTIVE; act "Revoke" D_REVOKED]
  | D_REVOKED => [Text "Terminal (Non-reversible)"]
  end%string.

(*@ dashboard/app/(officer)/devices/page.tsx 191 271 DevicesPage *)
Definition device_row (s : state) (d : DeviceResponse) : list (node ui) :=
  [Text (d_id d); Text (d_name d)] ++ StatusBadge (device_status_str (d_status d)) false
  ++ [Text ("#" ++s Z_to_string (d_last_sequence_number d)); Text (Z_to_string (d_total_votes_cast d))]
  ++ match d_last_seen_at d with
     | Some t => if truthy_str t then [Date t] else [Text "Never"]
     | None => [Text "Never"]
     end
  ++ when (is_admin s) (status_actions s d).

(*@ dashboard/app/(officer)/devices/page.tsx 279 342 DevicesPage *)
Definition register_modal (s : state) : list (node ui) :=
  [Text "Register New EVM Terminal"; Button "X" false CloseModal;
   Field "Device ID (Format: EVM-XXX)" (newDeviceId s) false
     (fun u => match u with TypeId _ => true | _ => false end);
   Field "Terminal Name / Precinct Location" (newDeviceName s) false
     (fun u => match u with TypeName _ => true | _ => false end);
   Button "Cancel" false CloseModal;
   Button "Register Unit" (actionLoading s || negb (form_valid s)) SubmitRegister].

(*@ dashboard/app/(officer)/devices/page.tsx 168 276 DevicesPage *)
Definition render (s : state) : list (node ui) :=
  top_bar s
  ++ match devices s with
     | [] => [Text "No hardware devices registered for this election."]
     | ds => flat_map (device_row s) ds
     end
  ++ when (showRegisterModal s) (register_modal s).

Definition registry : component state ui env := mk_component render on_ui on_surroundings.

End Devices.
