(* ===== verification/DevicesFacts.v ===== *)
(** * Correctness of the device registry

    The status changes offered and requested against the backend's table, the registration
    form, and the page's loading flags. *)
From S2P Require Import Prelude JsValue JsNumber Types ApiClient View Common React Spinner Devices.
From Stdlib Require Import Ascii String.
Import Devices.

#[export] Hint Unfold on_ui on_surroundings fetchDevices handleUpdateStatus handleRegisterDevice
  fail_with : prog.

(** ** Controls *)

Lemma bar_silent s u :
  match u with ClickStatus _ _ | SubmitRegister => True | _ => False end ->
  allows (top_bar s) u = false.
Proof.
  intros Hu. unfold top_bar, AlertBanner. rewrite !allows_app, allows_when.
  destruct u; try done; destruct (error s) as [e|], (successMsg s) as [m|]; rewrite ?allows_when;
    read_page; try done; by rewrite ?andb_false_r.
Qed.

(** A change of status the page offers for a device. *)
Definition offers (s : state) (d : string) (st : DeviceStatus) (dev : DeviceResponse) : bool :=
  is_admin s && (negb (actionLoading s) && (String.eqb d (d_id dev)
    && bool_decide (st ∈ VALID_STATUS_TRANSITIONS (d_status dev)))).

Lemma allows_row s d st dev : allows (device_row s dev) (ClickStatus d st) = offers s d st dev.
Proof.
  unfold device_row, StatusBadge, offers. rewrite !allows_app, allows_when.
  replace (allows (match d_last_seen_at dev with
                   | Some t => if truthy_str t then [Date t] else [Text "Never"%string]
                   | None => [Text "Never"%string] end) (ClickStatus d st)) with false
    by (destruct (d_last_seen_at dev) as [t|]; [by destruct (truthy_str t) | done]).
  cbn [allows existsb fires orb]. destruct (is_admin s); [| done]. cbn [andb orb].
  unfold status_actions. destruct (String.eqb_spec d (d_id dev)) as [->|Hne], (d_status dev), st; cbn;
    decide_eqs; tidy_bool; try done;
    repeat case_bool_decide; simplify_eq; by tidy_bool.
Qed.

Lemma allows_modal s u :
  allows (register_modal s) u
  = match u with
    | CloseModal | TypeId _ | TypeName _ => true
    | SubmitRegister => negb (actionLoading s || negb (form_valid s))
    | _ => false
    end.
Proof. unfold register_modal. destruct u; cbn; decide_eqs; by tidy_bool. Qed.

Lemma rows_other s u :
  match u with ClickStatus _ _ => False | _ => True end ->
  allows (match devices s with
          | [] => [Text "No hardware devices registered for this election."%string]
          | ds => flat_map (device_row s) ds
          end) u = false.
Proof.
  intros Hu. assert (forall l, allows (flat_map (device_row s) l) u = false) as H.
  { intros l. rewrite allows_flat_map. induction l as [|dev l IH]; [done |]. cbn [existsb]. rewrite IH, orb_false_r.
    unfold device_row, StatusBadge, status_actions. rewrite !allows_app, allows_when.
    destruct u; try done; destruct (d_last_seen_at dev) as [t|], (d_status dev), (is_admin s); try destruct (truthy_str t); cbn; decide_eqs; by tidy_bool. }
  destruct (devices s); [by destruct u |]. apply H.
Qed.

Lemma allows_update s d st :
  allows (render s) (ClickStatus d st) = existsb (offers s d st) (devices s).
Proof.
  unfold render. rewrite !allows_app, allows_when, bar_silent, allows_modal, andb_false_r, orb_false_r by done.
  cbn [orb]. assert (forall l, allows (flat_map (device_row s) l) (ClickStatus d st) = existsb (offers s d st) l) as H.
  { intros l. rewrite allows_flat_map. induction l as [|dev l IH]; [done |]. cbn [existsb]. by rewrite IH, allows_row. }
  destruct (devices s); [done |]. apply H.
Qed.

Lemma allows_register s :
  allows (render s) SubmitRegister
  = showRegisterModal s && (negb (actionLoading s) && form_valid s).
Proof.
  unfold render. rewrite !allows_app, allows_when, bar_silent, allows_modal, rows_other by done.
  cbn [orb]. by rewrite negb_orb, negb_involutive.
Qed.

(** ** Requests *)

Definition Sends (s : state) (r : req) : Prop :=
  match r with
  | updateDeviceStatus e d st tok =>
      role s = Some ADMIN /\ truthy_opt tok = true /\ e = selectedElectionId s
      /\ exists dev, In dev (devices s) /\ d = d_id dev /\ st ∈ VALID_STATUS_TRANSITIONS (d_status dev)
  | registerDevice e data tok =>
      truthy_opt tok = true /\ showRegisterModal s = true /\ evm_pattern (dr_id data) = true
      /\ truthy_str (dr_name data) = true /\ e = selectedElectionId s
  | getElections _ | getDevices _ _ => True
  | _ => False
  end.

Lemma devices_fetch_keeps v s : keeps (fun _ => True) Sends (fetchDevices v s).
Proof. keeps_auto. Qed.

Lemma registry_safe : safe_component registry (fun _ => True) Sends (fun _ => True).
Proof.
  split.
  - intros u s _ _ Hu. change (allows (render s) u = true) in Hu. unfold registry. cbn [on_user].
    destruct u as [v| | | | | |d st|v|v|]; cbn [on_ui]; try done.
    + apply keeps_handles; [| done]. apply keeps_bind; [by apply keeps_upd | intros; apply devices_fetch_keeps].
    + apply keeps_handles; [apply devices_fetch_keeps | done].
    + rewrite allows_update in Hu. apply existsb_exists in Hu as (dev & Hin & Hu). unfold offers, is_admin in Hu.
      reflect_bool. unfold handleUpdateStatus. destruct (truthy_opt (token s)) eqn:Et; [| done].
      rewrite bool_decide_eq_true_2 by done. wp_auto; eauto 10.
    + rewrite allows_register in Hu. unfold form_valid in Hu. reflect_bool.
      unfold handleRegisterDevice. destruct (truthy_opt (token s)) eqn:Et; [| done]. wp_auto; eauto 10.
  - intros x s _ _. unfold registry. cbn [on_env].
    destruct x; cbn [on_surroundings]; [destruct (mounted s) | destruct (bool_decide _) |]; try done;
      (apply keeps_handles; [| done]; apply keeps_bind; [by apply keeps_upd | intros; apply devices_fetch_keeps]).
Qed.

(** In every interleaving the page asks for a change of status only as an administrator
    with a token, for a device it shows, and only for one the backend's table allows from
    the status shown; a unit is registered only with a well-formed identifier and a name.
    Nothing else that changes state is sent. *)
Theorem devices_requests_legal t r w s q :
  reachable registry (fun _ => True) (initial t r) w -> In (s, q) (sent w) -> Sends s q.
Proof.
  intros Hw Hin. destruct (reachable_good _ _ _ _ registry_safe (initial t r) w I Hw) as [_ _ Hs].
  exact (Forall_In _ _ _ Hs Hin).
Qed.

(** The buttons of a device are exactly the backend's transitions from its status. *)
Theorem devices_offer_table s d st :
  allows (render s) (ClickStatus d st) = true
  <-> role s = Some ADMIN /\ actionLoading s = false
      /\ exists dev, In dev (devices s) /\ d = d_id dev /\ st ∈ VALID_STATUS_TRANSITIONS (d_status dev).
Proof.
  rewrite allows_update, existsb_exists. unfold offers, is_admin. split.
  - intros (dev & Hin & Hu). reflect_bool. eauto 10.
  - intros (Hr & Ha & dev & Hin & -> & Hst). exists dev. split; [done |].
    by rewrite Hr, Ha, String.eqb_refl, !bool_decide_eq_true_2.
Qed.

(** ** Loading *)

Definition raised (action : bool) (s : state) : bool :=
  if action then actionLoading s else mounted s && loading s.

Lemma devices_fetch_lowers a v s0 s1 s :
  (a = true -> raised a s1 = true -> raised a s0 = true) ->
  low (fun _ => True) (raised a) false (fetchDevices v s) (fun b _ => fine (raised a) b)
    (fun b _ => fine (raised a) b) s0 s1.
Proof.
  intros Ha. destruct a.
  - apply low_calm; [| by apply Ha]. calm_auto.
  - unfold fetchDevices. do 2 apply low_upd.
    apply lowers_at_end; [intros; apply andb_false_r | timerless_auto].
Qed.

Lemma registry_lowers a : lowering_component registry (fun _ => True) (fun _ => True) (raised a).
Proof.
  split.
  - intros u s _ _ _. unfold lowers, registry. cbn [on_user].
    destruct u as [v| | | | | |d st|v|v|]; cbn [on_ui]; try (by destruct a).
    + apply low_upd, devices_fetch_lowers. by intros ->.
    + apply devices_fetch_lowers. by intros ->.
    + destruct a; low_auto.
    + destruct a; low_auto.
  - intros x s _ _. unfold lowers, registry. cbn [on_env].
    destruct x; cbn [on_surroundings].
    + destruct (mounted s); [by destruct a |]. apply low_upd, devices_fetch_lowers. by intros ->.
    + destruct (bool_decide _); [by destruct a |]. apply low_upd, devices_fetch_lowers. by intros ->.
    + by destruct a.
Qed.

(** When nothing is pending the page neither shows its spinner nor keeps its buttons disabled. *)
Theorem devices_not_left_loading t r w :
  reachable registry (fun _ => True) (initial t r) w -> idle w = true ->
  actionLoading (st w) = false /\ (mounted (st w) = true -> loading (st w) = false).
Proof.
  intros Hw Hidle.
  assert (forall a, raised a (st w) = false) as H.
  { intros a. eapply never_left_busy; [apply registry_lowers | | exact Hw | exact Hidle]. by destruct a. }
  split; [apply (H true) |]. intros Hm. specialize (H false). cbn in H. by rewrite Hm in H.
Qed.

(** ** Concrete runs *)

Definition a_device (id election : string) : DeviceResponse :=
  {| d_id := id; d_election_id := election; d_name := "Unit"; d_status := D_ACTIVE;
     d_device_hash := None; d_last_sequence_number := 0; d_total_votes_cast := 0;
     d_registered_at := "2026-01-01T00:00:00Z"; d_activated_at := None; d_last_seen_at := None |}.

Definition an_election (id : string) : ElectionResponse :=
  {| e_id := id; e_title_name := None; e_title := Some id; e_description := None; e_state := OPEN;
     e_configuration_hash := None; e_device_count := 1; e_ballot_count := 0;
     e_created_at := "2026-01-01T00:00:00Z"; e_opened_at := None; e_closed_at := None;
     e_published_at := None; e_candidates := [] |}.

Definition two_elections (r : req) : outcome (resp r) :=
  match r with
  | getElections _ => Ok [an_election "E1"; an_election "E2"]
  | getDevices e _ => Ok [a_device ("EVM-" ++s e) e]
  | updateDeviceStatus e d _ _ => Ok (a_device d e)
  | _ => Err (plain_error "Error" "offline")
  end%string.

Definition loaded : list (event ui env) :=
  [Env Mount; Reply 0 (answers two_elections); Reply 1 (answers two_elections)].

(** Between choosing another election and its answer the page shows the devices of the one
    before with their buttons enabled, and sends their changes under the one chosen. *)
Theorem devices_wrong_election :
  exists w, run registry (boot (initial (Some "token"%string) (Some ADMIN)))
      (loaded ++ [User (SelectElection "E2"); User (ClickStatus "EVM-E1" D_REVOKED)]) = Some w
    /\ map d_election_id (devices (st w)) = ["E1"%string]
    /\ last (map snd (sent w)) = Some (updateDeviceStatus "E2" "EVM-E1" D_REVOKED (Some "token"%string)).
Proof. apply run_witness. vm_compute. by split_and!. Qed.

Definition suspending : world state :=
  default (boot (initial None None))
    (run registry (boot (initial (Some "token"%string) (Some ADMIN)))
       (loaded ++ [User (ClickStatus "EVM-E1" D_SUSPENDED)])).

Lemma devices_requests_legal_witness :
  exists s, Sends s (updateDeviceStatus "E1" "EVM-E1" D_SUSPENDED (Some "token"%string)).
Proof.
  eexists. apply (devices_requests_legal (Some "token"%string) (Some ADMIN) suspending).
  - eapply (reachable_run registry (fun _ => True) _ (boot (initial (Some "token"%string) (Some ADMIN)))
              (loaded ++ [User (ClickStatus "EVM-E1" D_SUSPENDED)]));
      [constructor | by repeat constructor | vm_compute; reflexivity].
  - vm_compute. right. right. left. reflexivity.
Defined.

Lemma devices_not_left_loading_witness :
  exists w, run registry (boot (initial (Some "token"%string) (Some ADMIN))) loaded = Some w
    /\ idle w = true /\ actionLoading (st w) = false.
Proof.
  eexists. split; [vm_compute; reflexivity |]. split; [reflexivity |].
  eapply (devices_not_left_loading (Some "token"%string) (Some ADMIN)); [| reflexivity].
  eapply (reachable_run registry (fun _ => True) _ (boot (initial (Some "token"%string) (Some ADMIN))) loaded);
    [constructor | by repeat constructor | vm_compute; reflexivity].
Defined.
