(* ===== verification/Results.v ===== *)
(** * Results and verification: [app/(officer)/results/page.tsx]

    The independent verification of the selected election, the signature of its manifest and
    the anchoring of its audit log. *)
From S2P Require Import Prelude JsValue JsNumber Types ApiClient View Common React.
From Stdlib Require Import String.

Module Results.

(*@ dashboard/app/(officer)/results/page.tsx 23 34 ResultsPage *)
Record state := mk_state {
  token : option string;
  role : option Role;
  mounted : bool;
  elections : list ElectionResponse;
  selectedElectionId : string;
  results : option VerificationResponse;
  anchors : list AuditAnchorResponse;
  loading : bool;
  verifyLoading : bool;
  signLoading : bool;
  anchorLoading : bool;
  error : option string;
  actionSuccess : option string;
  showManifestJson : bool }.

Definition set_token (v : option string) (s : state) : state :=
  mk_state v (role s) (mounted s) (elections s) (selectedElectionId s) (results s) (anchors s)
    (loading s) (verifyLoading s) (signLoading s) (anchorLoading s) (error s) (actionSuccess s)
    (showManifestJson s).
Definition set_role (v : option Role) (s : state) : state :=
  mk_state (token s) v (mounted s) (elections s) (selectedElectionId s) (results s) (anchors s)
    (loading s) (verifyLoading s) (signLoading s) (anchorLoading s) (error s) (actionSuccess s)
    (showManifestJson s).
Definition set_mounted (v : bool) (s : state) : state :=
  mk_state (token s) (role s) v (elections s) (selectedElectionId s) (results s) (anchors s)
    (loading s) (verifyLoading s) (signLoading s) (anchorLoading s) (error s) (actionSuccess s)
    (showManifestJson s).
Definition set_elections (v : list ElectionResponse) (s : state) : state :=
  mk_state (token s) (role s) (mounted s) v (selectedElectionId s) (results s) (anchors s)
    (loading s) (verifyLoading s) (signLoading s) (anchorLoading s) (error s) (actionSuccess s)
    (showManifestJson s).
Definition set_selectedElectionId (v : string) (s : state) : state :=
  mk_state (token s) (role s) (mounted s) (elections s) v (results s) (anchors s) (loading s)
    (verifyLoading s) (signLoading s) (anchorLoading s) (error s) (actionSuccess s)
    (showManifestJson s).
Definition set_results (v : option VerificationResponse) (s : state) : state :=
  mk_state (token s) (role s) (mounted s) (elections s) (selectedElectionId s) v (anchors s)
    (loading s) (verifyLoading s) (signLoading s) (anchorLoading s) (error s) (actionSuccess s)
    (showManifestJson s).
Definition set_anchors (v : list AuditAnchorResponse) (s : state) : state :=
  mk_state (token s) (role s) (mounted s) (elections s) (selectedElectionId s) (results s) v
    (loading s) (verifyLoading s) (signLoading s) (anchorLoading s) (error s) (actionSuccess s)
    (showManifestJson s).
Definition set_loading (v : bool) (s : state) : state :=
  mk_state (token s) (role s) (mounted s) (elections s) (selectedElectionId s) (results s)
    (anchors s) v (verifyLoading s) (signLoading s) (anchorLoading s) (error s)
    (actionSuccess s) (showManifestJson s).
Definition set_verifyLoading (v : bool) (s : state) : state :=
  mk_state (token s) (role s) (mounted s) (elections s) (selectedElectionId s) (results s)
    (anchors s) (loading s) v (signLoading s) (anchorLoading s) (error s) (actionSuccess s)
    (showManifestJson s).
Definition set_signLoading (v : bool) (s : state) : state :=
  mk_state (token s) (role s) (mounted s) (elections s) (selectedElectionId s) (results s)
    (anchors s) (loading s) (verifyLoading s) v (anchorLoading s) (error s) (actionSuccess s)
    (showManifestJson s).
Definition set_anchorLoading (v : bool) (s : state) : state :=
  mk_state (token s) (role s) (mounted s) (elections s) (selectedElectionId s) (results s)
    (anchors s) (loading s) (verifyLoading s) (signLoading s) v (error s) (actionSuccess s)
    (showManifestJson s).
Definition set_error (v : option string) (s : state) : state :=
  mk_state (token s) (role s) (mounted s) (elections s) (selectedElectionId s) (results s)
    (anchors s) (loading s) (verifyLoading s) (signLoading s) (anchorLoading s) v
    (actionSuccess s) (showManifestJson s).
Definition set_actionSuccess (v : option string) (s : state) : state :=
  mk_state (token s) (role s) (mounted s) (elections s) (selectedElectionId s) (results s)
    (anchors s) (loading s) (verifyLoading s) (signLoading s) (anchorLoading s) (error s) v
    (showManifestJson s).
Definition set_showManifestJson (v : bool) (s : state) : state :=
  mk_state (token s) (role s) (mounted s) (elections s) (selectedElectionId s) (results s)
    (anchors s) (loading s) (verifyLoading s) (signLoading s) (anchorLoading s) (error s)
    (actionSuccess s) v.
(*@ dashboard/app/(officer)/results/page.tsx 23 34 ResultsPage *)
Definition initial (t : option string) (r : option Role) : state :=
  mk_state t r false [] "EV-2026-001" None [] true false false false None None false.

Abbreviation M := (prog state).

Definition fail_with (text : string) (err : error_obj) : M unit :=
  upd (set_error (Some (str_or (e_message err) text))).

(*@ dashboard/app/(officer)/results/page.tsx 36 59 fetchResults *)
Definition fetchResults (electionId : string) (s : state) : M unit :=
  upd (set_loading true);;
  upd (set_error None);;
  finally
    (try_catch
       (all ← await (getElections (token s));
        upd (set_elections all);;
        match find_or_first electionId all with
        | Some target =>
            upd (set_selectedElectionId (e_id target));;
            res ← await (getResults (e_id target) (token s));
            upd (set_results (Some res));;
            try_catch
              (anc ← await (getElectionAnchors (e_id target) (token s));
               upd (set_anchors anc))
              (fun _ => upd (set_anchors []))
        | None => mret tt
        end)
       (fail_with "Failed to load independent results"))
    (upd (set_loading false)).

Definition is_verifier (s : state) : bool :=
  bool_decide (role s = Some ADMIN) || bool_decide (role s = Some AUDITOR).

(*@ dashboard/app/(officer)/results/page.tsx 65 83 handleRunVerification *)
Definition handleRunVerification (s : state) : M unit :=
  if negb (truthy_opt (token s)) then mret tt
  else if negb (is_verifier s)
  then upd (set_error (Some "Forbidden: Only ADMIN or AUDITOR roles can run formal verification."%string))
  else
    upd (set_verifyLoading true);;
    upd (set_error None);;
    upd (set_actionSuccess None);;
    finally
      (try_catch
         (res ← await (runVerification (selectedElectionId s) (token s));
          upd (set_results (Some res));;
          upd (set_actionSuccess (Some "Verification and manifest generation completed successfully."%string)))
         (fail_with "Independent verification execution failed"))
      (upd (set_verifyLoading false)).

(*@ dashboard/app/(officer)/results/page.tsx 85 99 handleSignManifest *)
Definition handleSignManifest (s : state) : M unit :=
  if negb (truthy_opt (token s)) then mret tt
  else
    upd (set_signLoading true);;
    upd (set_error None);;
    upd (set_actionSuccess None);;
    finally
      (try_catch
         (await (signElectionManifest (selectedElectionId s) (token s));;
          fetchResults (selectedElectionId s) s;;
          upd (set_actionSuccess (Some "Result manifest digitally signed with Ed25519."%string)))
         (fail_with "Manifest digital signing failed"))
      (upd (set_signLoading false)).

(*@ dashboard/app/(officer)/results/page.tsx 101 115 handleAnchorRoot *)
Definition handleAnchorRoot (s : state) : M unit :=
  if negb (truthy_opt (token s)) then mret tt
  else
    upd (set_anchorLoading true);;
    upd (set_error None);;
    upd (set_actionSuccess None);;
    finally
      (try_catch
         (await (createElectionAnchor (selectedElectionId s) (token s) "LOCAL ANCHOR");;
          fetchResults (selectedElectionId s) s;;
          upd (set_actionSuccess (Some "Audit root anchored successfully (LOCAL ANCHOR)."%string)))
         (fail_with "Audit root anchoring failed"))
      (upd (set_anchorLoading false)).

Inductive ui :=
| SelectElection (v : string) | ClickVerify | ClickRefresh | DismissError | ClickManifest
| ClickSign | ClickAnchor.

#[export] Instance ui_eq_dec : EqDecision ui. Proof. solve_decision. Defined.

Inductive env := Mount | TokenChanged (t : option string) | RoleChanged (r : option Role).

(*@ dashboard/app/(officer)/results/page.tsx 135 162 onChange/onClick *)
Definition on_ui (u : ui) (s : state) : M unit :=
  match u with
  | SelectElection v => upd (set_selectedElectionId v);; fetchResults v s
  | ClickVerify => handleRunVerification s
  | ClickRefresh => fetchResults (selectedElectionId s) s
  | DismissError => upd (set_error None)
  | ClickManifest => upd (set_showManifestJson (negb (showManifestJson s)))
  | ClickSign => handleSignManifest s
  | ClickAnchor => handleAnchorRoot s
  end.

(*@ dashboard/app/(officer)/results/page.tsx 61 63 useEffect *)
Definition on_surroundings (x : env) (s : state) : M unit :=
  match x with
  | Mount =>
      if mounted s then mret tt
      else upd (set_mounted true);; fetchResults (selectedElectionId s) s
  | TokenChanged t =>
      if bool_decide (token s = t) then mret tt
      else upd (set_token t);; fetchResults (selectedElectionId s) (set_token t s)
  | RoleChanged r => upd (set_role r)
  end.

(** ** The page *)

(*@ dashboard/app/(officer)/results/page.tsx 117 117 manifest *)
Definition manifest (s : state) : option ResultManifestResponse := results s ≫= v_manifest.

(** A manifest counts as signed unless its signature is missing or the text "null". *)
(*@ dashboard/app/(officer)/results/page.tsx 329 329 digital_signature *)
Definition signed (m : option ResultManifestResponse) : bool :=
  match m ≫= m_digital_signature with
  | Some sig => truthy_str sig && negb (String.eqb sig "null")
  | None => false
  end.

(*@ dashboard/app/(officer)/results/page.tsx 121 180 ResultsPage *)
Definition top_bar (s : state) : list (node ui) :=
  [Text "Results & Independent Verification";
   Select (selectedElectionId s)
     (map (fun el => (e_id el, e_id el ++s "  -  " ++s default EmptyString (e_title el))) (elections s))
     false SelectElection]
  ++ when (is_verifier s) [Button "Run Full Verification" (verifyLoading s || loading s) ClickVerify]
  ++ [Button "Refresh results" (loading s) ClickRefresh]
  ++ match error s with
     | Some e => when (truthy_str e) (AlertBanner "error" "Verification Notice" e (Some DismissError))
     | None => []
     end.

(*@ dashboard/app/(officer)/results/page.tsx 185 313 ResultsPage *)
Definition summary (s : state) (r : VerificationResponse) : list (node ui) :=
  let pillar title ok yes no := [Text title; Icon (if ok : bool then "CheckCircle2" else "XCircle");
                                 Text (if ok then yes else no)]%string in
  [Text "VERIFICATION STATUS";
   Text (if String.eqb (v_overall_status r) "PASSED" then "Independent Verification: PASSED"
         else "Independent Verification: FAILED")]
  ++ StatusBadge (v_overall_status r) false
  ++ match v_manifest r with
     | Some _ => [Button (if showManifestJson s then "Hide Manifest JSON" else "View Signed Manifest")
                    false ClickManifest]
     | None => []
     end
  ++ pillar "Configuration Hash"%string (v_config_hash_valid r) "FROZEN & VALID"%string "HASH MISMATCH"%string
  ++ pillar "Audit Hash Chain"%string (v_audit_chain_intact r) "CHAIN INTACT"%string "TAMPER DETECTED"%string
  ++ pillar "Exact Reconciliation"%string (v_reconciliation_passed r) "EXACT ZERO-DRIFT"%string "DRIFT DETECTED"%string
  ++ pillar "Independent Recount"%string (v_tally_independently_verified r) "RECOUNT MATCHES"%string "TALLY MISMATCH"%string
  ++ match v_manifest r with
     | Some m => when (showManifestJson s)
                   [Text "Signed Result Manifest Document"; Text "Manifest Hash:"; Text (m_manifest_hash m)]
     | None => []
     end.

(*@ dashboard/app/(officer)/results/page.tsx 328 350 ResultsPage *)
Definition signing_buttons (s : state) (r : VerificationResponse) : list (node ui) :=
  when (negb (signed (v_manifest r)) && is_verifier s)
    [Button (if signLoading s then "Signing..." else "Sign Manifest (Ed25519)")
       (signLoading s || negb (v_reconciliation_passed r)) ClickSign]
  ++ when (is_verifier s)
    [Button (if anchorLoading s then "Anchoring..." else "Anchor Root (Local)") (anchorLoading s) ClickAnchor].

(*@ dashboard/app/(officer)/results/page.tsx 353 432 ResultsPage *)
Definition signing_status (s : state) (r : VerificationResponse) : list (node ui) :=
  [Text "Ed25519 Digital Signature";
   Text (if signed (v_manifest r) then "DIGITALLY SIGNED" else "UNSIGNED")]
  ++ match v_manifest r with
     | Some m =>
         if signed (Some m)
         then [Text "Algorithm:"; Text " Ed25519"; Text "Signer / Actor:"; Text (opt_or (m_verified_by m) "admin");
               Text "Manifest Hash:"; Text (m_manifest_hash m)]
         else [Text "Election manifest is not yet digitally signed. Run reconciliation and sign manifest with authorized key."]
     | None => [Text "Election manifest is not yet digitally signed. Run reconciliation and sign manifest with authorized key."]
     end
  ++ [Text "Audit Root Anchoring"]
  ++ match anchors s with
     | a :: _ =>
         [Text (an_provider a); Text "Anchored Root:"; Text (an_root_hash a); Text "Timestamp:";
          Date (an_anchored_at a); Text "Receipt ID:"; Text (opt_or (an_receipt_id a) (an_anchor_id a))]
     | [] => [Text "NOT CONFIGURED"; Text "No external or local audit anchors committed yet for this election."]
     end.

(*@ dashboard/app/(officer)/results/page.tsx 435 484 ResultsPage *)
Definition candidate_tallies (r : VerificationResponse) : list (node ui) :=
  [Text "Candidate Votes & Independent Tally";
   Text ("Total Ballots Counted: "
         ++s Z_to_string (match v_manifest r with Some m => m_total_ballots m | None => 0 end))]
  ++ match v_manifest r with
     | Some m =>
         flat_map (fun c =>
           [Text (opt_or (cr_symbol c) "?"); Text (cr_candidate_name c);
            Text ("(" ++s opt_or (cr_party c) "Independent" ++s ")");
            Text (Z_to_string (cr_vote_count c) ++s " votes");
            Text ("(" ++s to_fixed 2 (cr_percentage c) ++s "%)")]) (m_candidate_results m)
     | None => []
     end.

(*@ dashboard/app/(officer)/results/page.tsx 487 542 ResultsPage *)
Definition breakdown (r : VerificationResponse) : list (node ui) :=
  match v_manifest r with
  | Some m =>
      let rr := m_reconciliation m in
      [Text "Reconciliation Breakdown (Zero Tolerance Discipline)";
       Text "Total Ballots in DB:"; Text (Z_to_string (rr_total_ballots rr));
       Text "Sum of Candidate Totals:"; Text (Z_to_string (rr_sum_candidate_totals rr));
       Text "Sum of Device Counters:"; Text (Z_to_string (rr_sum_device_totals rr));
       Text ("sum(candidates) [" ++s Z_to_string (rr_sum_candidate_totals rr) ++s "] == total_ballots ["
             ++s Z_to_string (rr_total_ballots rr) ++s "] == sum(devices) ["
             ++s Z_to_string (rr_sum_device_totals rr) ++s "]");
       Text "Delta:";
       Box (if rr_is_exact_match rr then "text-emerald-400 font-bold" else "text-rose-400 font-bold")
         [Text "0 (Exact match)"]]
  | None => []
  end.

(*@ dashboard/app/(officer)/results/page.tsx 119 184 ResultsPage *)
Definition render (s : state) : list (node ui) :=
  top_bar s
  ++ match results s with
     | Some r =>
         summary s r
         ++ [Text "Cryptographic Signing & External Anchoring"]
         ++ signing_buttons s r ++ signing_status s r ++ candidate_tallies r ++ breakdown r
     | None => []
     end.

Definition page : component state ui env := mk_component render on_ui on_surroundings.

End Results.
