(* ===== verification/ResultsFacts.v ===== *)
(** * Correctness of the results page

    Who can verify, sign and anchor, for what, and what the page says about it. *)
From S2P Require Import Prelude JsValue JsNumber Types ApiClient View Common React Spinner Results.
From Stdlib Require Import String.
Import Results.

#[export] Hint Unfold on_ui on_surroundings fetchResults handleRunVerification handleSignManifest
  handleAnchorRoot fail_with : prog.

(** ** Controls *)

(** When the page offers the three actions. *)
Definition enabled (u : ui) (s : state) : bool :=
  match u with
  | ClickVerify => is_verifier s && negb (verifyLoading s || loading s)
  | ClickSign =>
      match results s with
      | Some r => negb (signed (v_manifest r)) && is_verifier s
                  && negb (signLoading s || negb (v_reconciliation_passed r))
      | None => false
      end
  | ClickAnchor => match results s with Some _ => is_verifier s && negb (anchorLoading s) | None => false end
  | _ => false
  end.

Definition is_action (u : ui) : Prop :=
  match u with ClickVerify | ClickSign | ClickAnchor => True | _ => False end.

Lemma bar_controls s u :
  is_action u ->
  allows (top_bar s) u
  = match u with ClickVerify => is_verifier s && negb (verifyLoading s || loading s) | _ => false end.
Proof.
  intros Hu. unfold top_bar, AlertBanner. rewrite !allows_app, !allows_when.
  destruct u; try done; destruct (error s) as [e|]; rewrite ?allows_when; read_page; try done;
    by rewrite ?andb_false_r, ?orb_false_r.
Qed.

Lemma summary_controls s r u : is_action u -> allows (summary s r) u = false.
Proof.
  intros Hu. unfold summary, StatusBadge. rewrite !allows_app.
  destruct (v_manifest r); rewrite ?allows_when; destruct u; try done; read_page; by tidy_bool.
Qed.

Lemma signing_controls s r u :
  is_action u ->
  allows (signing_buttons s r) u
  = match u with
    | ClickSign => negb (signed (v_manifest r)) && is_verifier s
                   && negb (signLoading s || negb (v_reconciliation_passed r))
    | ClickAnchor => is_verifier s && negb (anchorLoading s)
    | _ => false
    end.
Proof.
  intros Hu. unfold signing_buttons. rewrite allows_app, !allows_when.
  destruct u; try done; cbn; decide_eqs; by tidy_bool.
Qed.

Lemma status_silent s r u : allows (signing_status s r) u = false.
Proof.
  unfold signing_status. rewrite !allows_app. destruct (v_manifest r) as [m|]; [destruct (signed (Some m))|];
    by destruct (anchors s).
Qed.

Lemma tallies_silent r u : allows (candidate_tallies r) u = false.
Proof.
  unfold candidate_tallies. rewrite allows_app. destruct (v_manifest r) as [m|]; [| done].
  cbn [allows existsb fires orb]. rewrite allows_flat_map.
  by induction (m_candidate_results m).
Qed.

Lemma breakdown_silent r u : allows (breakdown r) u = false.
Proof. unfold breakdown. by destruct (v_manifest r). Qed.

Lemma allows_action s u : is_action u -> allows (render s) u = enabled u s.
Proof.
  intros Hu. unfold render. rewrite allows_app, bar_controls by done.
  destruct (results s) as [r|] eqn:E; unfold enabled; rewrite ?E.
  - rewrite !allows_app, summary_controls, signing_controls, status_silent, tallies_silent,
      breakdown_silent by done. destruct u; try done; cbn; by tidy_bool.
  - rewrite allows_nil, orb_false_r. by destruct u.
Qed.

(** ** Requests *)

Definition Sends (s : state) (q : req) : Prop :=
  match q with
  | runVerification e tok => is_verifier s = true /\ truthy_opt tok = true /\ e = selectedElectionId s
  | signElectionManifest e tok =>
      is_verifier s = true /\ truthy_opt tok = true /\ e = selectedElectionId s
      /\ exists r, results s = Some r /\ v_reconciliation_passed r = true /\ signed (v_manifest r) = false
  | createElectionAnchor e tok p =>
      is_verifier s = true /\ truthy_opt tok = true /\ e = selectedElectionId s /\ p = "LOCAL ANCHOR"%string
      /\ results s <> None
  | getElections _ | getResults _ _ | getElectionAnchors _ _ => True
  | _ => False
  end.

Lemma results_fetch_keeps v s : keeps (fun _ => True) Sends (fetchResults v s).
Proof. keeps_auto. Qed.

Lemma results_safe : safe_component page (fun _ => True) Sends (fun _ => True).
Proof.
  split.
  - intros u s _ _ Hu. change (allows (render s) u = true) in Hu. unfold page. cbn [on_user].
    destruct u as [v| | | | | |]; cbn [on_ui]; try done.
    + apply keeps_handles; [| done]. apply keeps_bind; [by apply keeps_upd | intros; apply results_fetch_keeps].
    + rewrite allows_action in Hu by done. cbn in Hu. reflect_bool.
      unfold handleRunVerification. destruct (truthy_opt (token s)) eqn:Et; [| done].
      rewrite H. cbn [negb]. wp_auto.
    + apply keeps_handles; [apply results_fetch_keeps | done].
    + rewrite allows_action in Hu by done. cbn in Hu. destruct (results s) as [r|] eqn:Er; [| done].
      reflect_bool. unfold handleSignManifest. destruct (truthy_opt (token s)) eqn:Et; [| done].
      wp_auto; eauto 10.
    + rewrite allows_action in Hu by done. cbn in Hu. destruct (results s) as [r|] eqn:Er; [| done].
      reflect_bool. unfold handleAnchorRoot. destruct (truthy_opt (token s)) eqn:Et; [| done].
      wp_auto; repeat split; congruence.
  - intros x s _ _. unfold page. cbn [on_env].
    destruct x; cbn [on_surroundings]; [destruct (mounted s) | destruct (bool_decide _) |]; try done;
      (apply keeps_handles; [| done]; apply keeps_bind; [by apply keeps_upd | intros; apply results_fetch_keeps]).
Qed.

(** C36. In every interleaving a verification, a signature or an anchor is asked for only by an
    administrator or auditor with a token, a signature only while the answer shown is
    reconciled and its manifest unsigned. *)
Theorem results_requests_justified t r w s q :
  reachable page (fun _ => True) (initial t r) w -> In (s, q) (sent w) -> Sends s q.
Proof.
  intros Hw Hin. destruct (reachable_good _ _ _ _ results_safe (initial t r) w I Hw) as [_ _ Hs].
  exact (Forall_In _ _ _ Hs Hin).
Qed.

(** ** Loading *)

Inductive flag := Load | Verify | Sign | Anchor.

Definition raised (f : flag) (s : state) : bool :=
  match f with
  | Load => mounted s && loading s
  | Verify => verifyLoading s
  | Sign => signLoading s
  | Anchor => anchorLoading s
  end.

Lemma results_fetch_lowers f v s0 s1 s :
  (f <> Load -> raised f s1 = true -> raised f s0 = true) ->
  low (fun _ => True) (raised f) false (fetchResults v s) (fun b _ => fine (raised f) b)
    (fun b _ => fine (raised f) b) s0 s1.
Proof.
  intros Hf. destruct f.
  1: { unfold fetchResults. do 2 apply low_upd.
       apply lowers_at_end; [intros; apply andb_false_r | timerless_auto]. }
  all: apply low_calm; [calm_auto | by apply Hf].
Qed.

Lemma results_lowers f : lowering_component page (fun _ => True) (fun _ => True) (raised f).
Proof.
  split.
  - intros u s _ _ _. unfold lowers, page. cbn [on_user].
    destruct u as [v| | | | | |]; cbn [on_ui]; try (by destruct f).
    + apply low_upd, results_fetch_lowers. by destruct f.
    + destruct f; low_auto.
    + apply results_fetch_lowers. by destruct f.
    + destruct f; low_auto.
    + destruct f; low_auto.
  - intros x s _ _. unfold lowers, page. cbn [on_env].
    destruct x; cbn [on_surroundings].
    + destruct (mounted s); [by destruct f |]. apply low_upd, results_fetch_lowers. by destruct f.
    + destruct (bool_decide _); [by destruct f |]. apply low_upd, results_fetch_lowers. by destruct f.
    + by destruct f.
Qed.

(** When nothing is pending none of the page's four spinners shows. *)
Theorem results_not_left_loading t r w :
  reachable page (fun _ => True) (initial t r) w -> idle w = true ->
  verifyLoading (st w) = false /\ signLoading (st w) = false /\ anchorLoading (st w) = false
  /\ (mounted (st w) = true -> loading (st w) = false).
Proof.
  intros Hw Hidle.
  assert (forall f, raised f (st w) = false) as H.
  { intros f. eapply never_left_busy; [apply results_lowers | | exact Hw | exact Hidle]. by destruct f. }
  split; [apply (H Verify) |]. split; [apply (H Sign) |]. split; [apply (H Anchor) |].
  intros Hm. specialize (H Load). cbn in H. by rewrite Hm in H.
Qed.

(** ** What the page says *)

(** The difference of the reconciliation is announced as zero whatever the numbers are. *)
Lemma delta_always_zero r : v_manifest r <> None -> shows (breakdown r) "0 (Exact match)" = true.
Proof.
  unfold breakdown. destruct (v_manifest r) as [m|]; [intros _ | done]. apply existsb_exists.
  eexists. split; [do 9 right; by left | done].
Qed.

(** The success of an action is never shown: the page does not depend on it. *)
Lemma success_never_shown v s : render (set_actionSuccess v s) = render s.
Proof. done. Qed.

(** ** Concrete runs *)

Definition answer_for (e : string) (ok : bool) : VerificationResponse :=
  {| v_election_id := e; v_config_hash_valid := true; v_audit_chain_intact := true;
     v_reconciliation_passed := ok; v_tally_independently_verified := ok;
     v_overall_status := if ok then "PASSED" else "FAILED"; v_manifest := None; v_details := [] |}.

Definition an_election (id : string) : ElectionResponse :=
  {| e_id := id; e_title_name := None; e_title := Some id; e_description := None; e_state := CLOSED;
     e_configuration_hash := None; e_device_count := 1; e_ballot_count := 0;
     e_created_at := "2026-01-01T00:00:00Z"; e_opened_at := None; e_closed_at := None;
     e_published_at := None; e_candidates := [] |}.

(** Two elections, of which only the first reconciles. *)
Definition two_elections (q : req) : outcome (resp q) :=
  match q with
  | getElections _ => Ok [an_election "E1"; an_election "E2"]
  | getResults e _ => Ok (answer_for e (String.eqb e "E1"))
  | _ => Err (plain_error "Error" "offline")
  end.

Definition officer_page : world state := boot (initial (Some "token"%string) (Some AUDITOR)).

Definition loaded : list (event ui env) :=
  [Env Mount; Reply 0 (answers two_elections); Reply 1 (answers two_elections);
   Reply 2 (answers two_elections)].

(** The guard of the signature looks at the answer shown, which is the previous election's
    until the new answer arrives: an auditor can have an election signed whose own result
    does not reconcile. *)
Theorem results_signs_unreconciled_election :
  exists w, run page officer_page (loaded ++ [User (SelectElection "E2"); User ClickSign]) = Some w
    /\ last (map snd (sent w)) = Some (signElectionManifest "E2" (Some "token"%string))
    /\ option_map v_election_id (results (st w)) = Some "E1"%string
    /\ match two_elections (getResults "E2" (Some "token"%string)) with
       | Ok r => v_reconciliation_passed r = false
       | Err _ => False
       end.
Proof. apply run_witness. vm_compute. by split_and!. Qed.

Definition signing : world state :=
  default officer_page (run page officer_page (loaded ++ [User ClickSign])).

Lemma results_requests_justified_witness :
  exists s, Sends s (signElectionManifest "E1" (Some "token"%string)).
Proof.
  eexists. apply (results_requests_justified (Some "token"%string) (Some AUDITOR) signing).
  - eapply (reachable_run page (fun _ => True) _ officer_page (loaded ++ [User ClickSign]));
      [constructor | by repeat constructor | vm_compute; reflexivity].
  - vm_compute. right. right. right. left. reflexivity.
Defined.

Lemma results_not_left_loading_witness :
  exists w, run page officer_page loaded = Some w /\ idle w = true /\ signLoading (st w) = false.
Proof.
  eexists. split; [vm_compute; reflexivity |]. split; [reflexivity |].
  eapply (results_not_left_loading (Some "token"%string) (Some AUDITOR)); [| reflexivity].
  eapply (reachable_run page (fun _ => True) _ officer_page loaded);
    [constructor | by repeat constructor | vm_compute; reflexivity].
Defined.
