(* ===== verification/Counting.v ===== *)
(** * The counting centre: [app/(officer)/election/counting/page.tsx]

    Tallies of the selected election, their reconciliation, a simulated count in five rounds
    with auto-play, and the Form 20-style sheet with its CSV export. *)
From S2P Require Import Prelude JsValue JsNumber FormatError Types Tally ApiClient View Common React.
From Stdlib Require Import String.

Module Counting.

(** ** The answer, typed [any]

    The page reads four keys of the answer, none of which [VerificationResponse] declares;
    [reading] says what an answer has under them. The keys of an entry are those the page
    tries. *)

Record candidate_entry := {
  ce_candidate_id : string; ce_candidate_name : option string; ce_name : option string;
  ce_party : option string; ce_vote_count : option Z; ce_votes : option Z;
  ce_percentage : option number }.

Record device_entry := {
  de_device_id : string; de_device_name : option string; de_ballot_count : option Z;
  de_votes_counted : option Z }.

Record results_any := {
  candidate_results : option (list candidate_entry);
  device_results : option (list device_entry);
  manifest_hash : option string;
  digital_signature : option string }.

(** An answer with the declared keys only. *)
Definition declared_only (a : VerificationResponse) : results_any :=
  {| candidate_results := None; device_results := None; manifest_hash := None;
     digital_signature := None |}.

(** [c.vote_count ?? c.votes ?? 0]. *)
(*@ dashboard/app/(officer)/election/counting/page.tsx 81 81 reduce *)
Definition votes_of (c : candidate_entry) : Z := default (default 0 (ce_votes c)) (ce_vote_count c).

(*@ dashboard/app/(officer)/election/counting/page.tsx 86 86 reduce *)
Definition ballots_of (d : device_entry) : Z := default (default 0 (de_votes_counted d)) (de_ballot_count d).

(*@ dashboard/app/(officer)/election/counting/page.tsx 250 250 CountingCenterPage *)
Definition name_of (c : candidate_entry) : string :=
  opt_or (ce_candidate_name c) (opt_or (ce_name c) (ce_candidate_id c)).

(** ** Tallies *)

Definition candidates (r : option results_any) : list candidate_entry :=
  default [] (r ≫= candidate_results).
Definition devices (r : option results_any) : list device_entry :=
  default [] (r ≫= device_results).

(*@ dashboard/app/(officer)/election/counting/page.tsx 79 83 totalCandidateVotes *)
Definition totalCandidateVotes (r : option results_any) : Z := sumZ (map votes_of (candidates r)).

(*@ dashboard/app/(officer)/election/counting/page.tsx 84 88 totalDeviceVotes *)
Definition totalDeviceVotes (r : option results_any) : Z := sumZ (map ballots_of (devices r)).

(** An election's [ballot_count] is a number, so the fallback of the code is never used. *)
(*@ dashboard/app/(officer)/election/counting/page.tsx 89 89 actualBallotCount *)
Definition actualBallotCount (e : ElectionResponse) : Z := e_ballot_count e.

(*@ dashboard/app/(officer)/election/counting/page.tsx 90 91 isReconciled *)
Definition isReconciled (e : ElectionResponse) (r : option results_any) : bool :=
  (totalCandidateVotes r =? actualBallotCount e) && (totalDeviceVotes r =? actualBallotCount e).

(*@ dashboard/app/(officer)/election/counting/page.tsx 95 97 sortedCandidates *)
Definition sortedCandidates (r : option results_any) : list candidate_entry :=
  sort_by (fun c => - votes_of c) (candidates r).

(*@ dashboard/app/(officer)/election/counting/page.tsx 99 105 margin *)
Definition margin (sorted : list candidate_entry) : Z :=
  match sorted with
  | leading :: runnerUp :: _ => votes_of leading - votes_of runnerUp
  | _ => 0
  end.

(** ** The simulated rounds *)

(*@ dashboard/app/(officer)/election/counting/page.tsx 36 36 TOTAL_ROUNDS *)
Definition TOTAL_ROUNDS : Z := 5.

(*@ dashboard/app/(officer)/election/counting/page.tsx 94 94 roundFraction *)
Definition roundFraction (currentRound : Z) : number := div_ZZ currentRound TOTAL_ROUNDS.

(** A tally counted up to a round, the candidates' and the total. *)
(*@ dashboard/app/(officer)/election/counting/page.tsx 513 515 cumulativeVotes *)
Definition cumulativeVotes (currentRound votes : Z) : option Z :=
  math_round (num_mul (of_Z votes) (roundFraction currentRound)).

(*@ dashboard/app/(officer)/election/counting/page.tsx 514 514 roundIncrement *)
Definition roundIncrement (votes : Z) : option Z := math_round (div_ZZ votes TOTAL_ROUNDS).

(** [a > 0 ? (b / a) * 100 : 0] on a total and a part of it. *)
(*@ dashboard/app/(officer)/election/counting/page.tsx 516 517 share *)
Definition percent_of (part total : option Z) : number :=
  match part, total with
  | Some p, Some t => if 0 <? t then num_mul (div_ZZ p t) (of_Z 100) else of_Z 0
  | None, Some t => if 0 <? t then SpecFloat.S754_nan else of_Z 0
  | _, None => of_Z 0
  end.

Definition positive (v : option Z) : bool := match v with Some z => 0 <? z | None => false end.

(** ** Form 20 *)

Record polling_station := { ps_id : string; ps_name : string; ps_eevm : string }.

(*@ dashboard/app/(officer)/election/counting/page.tsx 108 113 pollingStations *)
Definition pollingStations : list polling_station :=
  [{| ps_id := "PS-001"; ps_name := "Government High School, Room 1"; ps_eevm := "EVM-001" |};
   {| ps_id := "PS-002"; ps_name := "Government High School, Room 2"; ps_eevm := "EVM-002" |};
   {| ps_id := "PS-003"; ps_name := "Community Welfare Centre, North Hall"; ps_eevm := "EVM-003" |};
   {| ps_id := "PS-004"; ps_name := "Model Primary School, Main Block"; ps_eevm := "EVM-004" |}].

(** What a station is given of a tally. *)
(*@ dashboard/app/(officer)/election/counting/page.tsx 610 611 validInStation *)
Definition station_share (votes : Z) : option Z :=
  math_round (num_mul (of_Z votes) (div_ZZ 1 (Z.of_nat (List.length pollingStations)))).

(** ** CSV *)

Definition in_quotes (s : string) : string := quote ++s s ++s quote.

(*@ dashboard/app/(officer)/election/counting/page.tsx 119 124 handleExportCsv *)
Definition csv_row (c : candidate_entry) : string :=
  in_quotes (ce_candidate_id c) ++s ","
  ++s in_quotes (opt_or (ce_candidate_name c) (opt_or (ce_name c) EmptyString)) ++s ","
  ++s in_quotes (opt_or (ce_party c) "IND") ++s ","
  ++s Z_to_string (votes_of c) ++s ","
  ++s to_fixed 2 (default (of_Z 0) (ce_percentage c)) ++s "%".

(*@ dashboard/app/(officer)/election/counting/page.tsx 117 126 handleExportCsv *)
Definition csv (cs : list candidate_entry) : string :=
  "Candidate ID,Candidate Name,Party,Votes,Percentage" ++s newline
  ++s join newline (map csv_row cs).

(** ** The page *)

(*@ dashboard/app/(officer)/election/counting/page.tsx 33 33 activeTab *)
Inductive tab := CUMULATIVE | ROUNDS | FORM20.

#[export] Instance tab_eq_dec : EqDecision tab. Proof. solve_decision. Defined.

(** [played] are the dependencies the auto-play effect last ran with, [timer] the identifier
    its cleanup captured. *)
(*@ dashboard/app/(officer)/election/counting/page.tsx 26 38 CountingCenterPage *)
Record state := mk_state {
  mounted : bool;
  left : bool;
  token : option string;
  selectedElection : option ElectionResponse;
  results : option results_any;
  loading : bool;
  error : option string;
  activeTab : tab;
  currentRound : Z;
  isAutoPlaying : bool;
  played : option (bool * Z);
  timer : option nat;
  downloads : list (string * string);
  printed : nat }.

Definition set_mounted (v : bool) (s : state) : state :=
  mk_state v (left s) (token s) (selectedElection s) (results s) (loading s) (error s)
    (activeTab s) (currentRound s) (isAutoPlaying s) (played s) (timer s) (downloads s)
    (printed s).
Definition set_left (v : bool) (s : state) : state :=
  mk_state (mounted s) v (token s) (selectedElection s) (results s) (loading s) (error s)
    (activeTab s) (currentRound s) (isAutoPlaying s) (played s) (timer s) (downloads s)
    (printed s).
Definition set_token (v : option string) (s : state) : state :=
  mk_state (mounted s) (left s) v (selectedElection s) (results s) (loading s) (error s)
    (activeTab s) (currentRound s) (isAutoPlaying s) (played s) (timer s) (downloads s)
    (printed s).
Definition set_selectedElection (v : option ElectionResponse) (s : state) : state :=
  mk_state (mounted s) (left s) (token s) v (results s) (loading s) (error s) (activeTab s)
    (currentRound s) (isAutoPlaying s) (played s) (timer s) (downloads s) (printed s).
Definition set_results (v : option results_any) (s : state) : state :=
  mk_state (mounted s) (left s) (token s) (selectedElection s) v (loading s) (error s)
    (activeTab s) (currentRound s) (isAutoPlaying s) (played s) (timer s) (downloads s)
    (printed s).
Definition set_loading (v : bool) (s : state) : state :=
  mk_state (mounted s) (left s) (token s) (selectedElection s) (results s) v (error s)
    (activeTab s) (currentRound s) (isAutoPlaying s) (played s) (timer s) (downloads s)
    (printed s).
Definition set_error (v : option string) (s : state) : state :=
  mk_state (mounted s) (left s) (token s) (selectedElection s) (results s) (loading s) v
    (activeTab s) (currentRound s) (isAutoPlaying s) (played s) (timer s) (downloads s)
    (printed s).
Definition set_activeTab (v : tab) (s : state) : state :=
  mk_state (mounted s) (left s) (token s) (selectedElection s) (results s) (loading s)
    (error s) v (currentRound s) (isAutoPlaying s) (played s) (timer s) (downloads s)
    (printed s).
Definition set_currentRound (v : Z) (s : state) : state :=
  mk_state (mounted s) (left s) (token s) (selectedElection s) (results s) (loading s)
    (error s) (activeTab s) v (isAutoPlaying s) (played s) (timer s) (downloads s) (printed s).
Definition set_isAutoPlaying (v : bool) (s : state) : state :=
  mk_state (mounted s) (left s) (token s) (selectedElection s) (results s) (loading s)
    (error s) (activeTab s) (currentRound s) v (played s) (timer s) (downloads s) (printed s).
Definition set_played (v : option (bool * Z)) (s : state) : state :=
  mk_state (mounted s) (left s) (token s) (selectedElection s) (results s) (loading s)
    (error s) (activeTab s) (currentRound s) (isAutoPlaying s) v (timer s) (downloads s)
    (printed s).
Definition set_timer (v : option nat) (s : state) : state :=
  mk_state (mounted s) (left s) (token s) (selectedElection s) (results s) (loading s)
    (error s) (activeTab s) (currentRound s) (isAutoPlaying s) (played s) v (downloads s)
    (printed s).
Definition set_downloads (v : list (string * string)) (s : state) : state :=
  mk_state (mounted s) (left s) (token s) (selectedElection s) (results s) (loading s)
    (error s) (activeTab s) (currentRound s) (isAutoPlaying s) (played s) (timer s) v
    (printed s).
Definition set_printed (v : nat) (s : state) : state :=
  mk_state (mounted s) (left s) (token s) (selectedElection s) (results s) (loading s)
    (error s) (activeTab s) (currentRound s) (isAutoPlaying s) (played s) (timer s)
    (downloads s) v.
(*@ dashboard/app/(officer)/election/counting/page.tsx 26 38 CountingCenterPage *)
Definition initial (t : option string) (e : option ElectionResponse) : state :=
  mk_state false false t e None false None CUMULATIVE 1 false None None [] 0.

Abbreviation M := (prog state).

(** ** Auto-play

    The effect runs after every render whose dependencies changed; its timer's callback
    renders again, so the effect is recursive. [n] bounds the renders still to come: one per
    round, one that switches auto-play off and one without change. *)

Definition playing (s : state) : bool * Z := (isAutoPlaying s, currentRound s).

(*@ dashboard/app/(officer)/election/counting/page.tsx 57 68 useEffect *)
Fixpoint autoplay (n : nat) : M unit :=
  match n with
  | O => mret tt
  | S n =>
      Peek (fun s =>
        if bool_decide (played s = Some (playing s)) then mret tt
        else
          Peek (fun s => match timer s with Some id => Clear id (upd (set_timer None)) | None => mret tt end);;
          upd (set_played (Some (playing s)));;
          if isAutoPlaying s && (currentRound s <? TOTAL_ROUNDS) then
            Timer false 1500
              (upd (fun prev => set_currentRound (currentRound prev + 1) prev);; autoplay n)
              (fun id => upd (set_timer (Some id)))
          else if TOTAL_ROUNDS <=? currentRound s then
            upd (set_isAutoPlaying false);; autoplay n
          else mret tt)
  end.

Definition RENDERS : nat := 7.

(** A handler's updates, and the effects of the render after them. *)
Definition rendering (p : M unit) : M unit := p;; autoplay RENDERS.

Section Page.
Context (reading : VerificationResponse -> results_any).

(*@ dashboard/app/(officer)/election/counting/page.tsx 40 51 loadData *)
Definition loadData (s : state) : M unit :=
  match selectedElection s with
  | None => mret tt
  | Some e =>
      upd (set_loading true);;
      finally
        (try_catch
           (data ← await (getResults (e_id e) (token s));
            upd (set_results (Some (reading data))))
           (fun err => upd (set_error (Some (FormatError.format_error err)))))
        (upd (set_loading false))
  end.

(*@ dashboard/app/(officer)/election/counting/page.tsx 115 133 handleExportCsv *)
Definition handleExportCsv (s : state) : M unit :=
  match results s ≫= candidate_results, selectedElection s with
  | Some cs, Some e =>
      upd (fun s => set_downloads
        (downloads s ++ [("Form20-ResultSheet-" ++s e_id e ++s ".csv", csv cs)]) s)
  | _, _ => mret tt
  end.

Inductive ui := Refresh | Export | Tab (t : tab) | Reset_ | TogglePlay | Next | Print_.

#[export] Instance ui_eq_dec : EqDecision ui. Proof. solve_decision. Defined.

(** Mounting, another election object or token from the contexts, and leaving the page. *)
Inductive env := Mount | Selected (e : option ElectionResponse) | TokenChanged (t : option string) | Leave.

(*@ dashboard/app/(officer)/election/counting/page.tsx 445 470 onClick *)
Definition on_ui (u : ui) (s : state) : M unit :=
  match u with
  | Refresh => loadData s
  | Export => handleExportCsv s
  | Tab t => upd (set_activeTab t)
  | Reset_ => rendering (upd (set_currentRound 1);; upd (set_isAutoPlaying false))
  | TogglePlay => rendering (upd (set_isAutoPlaying (negb (isAutoPlaying s))))
  | Next => rendering (upd (fun prev => set_currentRound (Z.min TOTAL_ROUNDS (currentRound prev + 1)) prev))
  | Print_ => upd (fun s => set_printed (S (printed s)) s)
  end.

(*@ dashboard/app/(officer)/election/counting/page.tsx 53 68 useEffect *)
Definition on_surroundings (x : env) (s : state) : M unit :=
  match x with
  | Mount =>
      if mounted s || left s then mret tt
      else upd (set_mounted true);; autoplay RENDERS;; loadData s
  | Selected e =>
      upd (set_selectedElection e);;
      (if mounted s then loadData (set_selectedElection e s) else mret tt)
  | TokenChanged t => upd (set_token t)
  | Leave =>
      if mounted s then
        match timer s with Some id => Clear id (upd (set_timer None)) | None => mret tt end;;
        upd (set_mounted false);; upd (set_left true)
      else mret tt
  end.

(** ** What is shown *)

Definition shown (v : option Z) : node ui :=
  match v with Some z => Count z | None => Text "NaN" end.

(*@ dashboard/app/(officer)/election/counting/page.tsx 149 209 CountingCenterPage *)
Definition page_head (s : state) (e : ElectionResponse) : list (node ui) :=
  [Text "Counting Center & Verification"]
  ++ LibButton "Refresh Tallies" false (loading s) Refresh
  ++ LibButton "Export Form 20 (CSV)" false
       (match results s ≫= candidate_results with Some _ => false | None => true end) Export
  ++ when (negb (bool_decide (e_state e = CLOSED) || bool_decide (e_state e = PUBLISHED)))
       [Text "Election is currently "; Text (election_state_str (e_state e));
        Text ". Counting tallies reflect live authorized ballots and are subject to final poll close certification."]
  ++ match error s with Some m => when (truthy_str m) [Text m] | None => [] end
  ++ [Button "Live Cumulative Tally" false (Tab CUMULATIVE);
      Button "Round-by-Round Progressive Count" false (Tab ROUNDS);
      Button "Form 20-Style Simulation Sheet" false (Tab FORM20)].

(*@ dashboard/app/(officer)/election/counting/page.tsx 229 277 CountingCenterPage *)
Definition candidate_card (sorted : list candidate_entry) (total : Z) (idx : nat) (c : candidate_entry) : node ui :=
  let votes := votes_of c in
  let percent := percent_of (Some votes) (Some total) in
  let isWinner := (idx =? 0)%nat && (0 <? votes) in
  Box (if isWinner then "winner" else "candidate")
    ([Text ("#" ++s Z_to_string (Z.of_nat idx + 1)); Text (name_of c)]
     ++ match ce_party c with Some p => when (truthy_str p) [Badge "neutral" p] | None => [] end
     ++ when isWinner [Box "warning" [Text "Leading (+"; Count (margin sorted); Text ")"]]
     ++ [Count votes; Text (" (" ++s to_fixed 1 percent ++s "%)")]).

(*@ dashboard/app/(officer)/election/counting/page.tsx 287 324 CountingCenterPage *)
Definition device_cards (r : option results_any) : list (node ui) :=
  [Text "EVM Control Unit Registers";
   Badge "neutral" (Z_to_string (Z.of_nat (List.length (devices r))) ++s " Connected EVMs")]
  ++ flat_map (fun d =>
       [Text ("Device " ++s de_device_id d); Text (opt_or (de_device_name d) "Ballot Unit");
        Count (ballots_of d); Text "ballots"]) (devices r)
  ++ when (match devices r with [] => true | _ => false end) [Text "No device register data available."].

(*@ dashboard/app/(officer)/election/counting/page.tsx 329 415 CountingCenterPage *)
Definition reconciliation (s : state) (e : ElectionResponse) : list (node ui) :=
  let matched := isReconciled e (results s) in
  let hash := results s ≫= manifest_hash in
  let signature := results s ≫= digital_signature in
  let check (b : bool) : node ui := Icon (if b then "CheckCircle2" else "none") in
  [Text "Cryptographic Reconciliation";
   Text "Total Ballots in DB"; Count (actualBallotCount e);
   Text "Sum of Candidate Totals"; Count (totalCandidateVotes (results s));
   Text "Sum of EVM Unit Totals"; Count (totalDeviceVotes (results s));
   Box (if matched then "emerald" else "rose")
     (if matched then [Icon "CheckCircle2"; Text "ZERO-DRIFT MATCH VERIFIED"]
      else [Icon "XCircle"; Text "TALLY DRIFT DETECTED"]);
   Text "Integrity Gate";
   check (truthy_opt hash); Text "Result Manifest Hashed";
   check matched; Text "Simulation Device & DB Reconciled";
   check (truthy_opt signature); Text "Ed25519 Signed by Returning Officer"]
  ++ match hash with
     | Some h => when (truthy_str h) [Text "Manifest SHA-256 Digest:"; Text h]
     | None => []
     end.

(*@ dashboard/app/(officer)/election/counting/page.tsx 212 417 CountingCenterPage *)
Definition cumulative_tab (s : state) (e : ElectionResponse) : list (node ui) :=
  let total := totalCandidateVotes (results s) in
  let sorted := sortedCandidates (results s) in
  [Text "Candidate Vote Distribution"; Badge "neutral" (Z_to_string total ++s " Total Valid Votes")]
  ++ match candidates (results s) with
     | [] => [Text "No candidate tallies recorded for this election."]
     | _ => imap (candidate_card sorted total) sorted
     end
  ++ device_cards (results s) ++ reconciliation s e.

(*@ dashboard/app/(officer)/election/counting/page.tsx 511 552 CountingCenterPage *)
Definition round_row (currentRound total : Z) (idx : nat) (c : candidate_entry) : node ui :=
  let cumulative := cumulativeVotes currentRound (votes_of c) in
  let isLeading := (idx =? 0)%nat && positive cumulative in
  Box (if isLeading then "leading" else "row")
    [Text ("#" ++s Z_to_string (Z.of_nat idx + 1)); Text (name_of c); Text (opt_or (ce_party c) "IND");
     Text "+"; shown (roundIncrement (votes_of c)); shown cumulative;
     Text (to_fixed 1 (percent_of cumulative (cumulativeVotes currentRound total)) ++s "%");
     if isLeading then Badge "warning" "Leading" else Text "Trailing"].

(*@ dashboard/app/(officer)/election/counting/page.tsx 424 489 CountingCenterPage *)
Definition round_controls (s : state) : list (node ui) :=
  let final := currentRound s =? TOTAL_ROUNDS in
  [Text ("Round " ++s Z_to_string (currentRound s) ++s " of " ++s Z_to_string TOTAL_ROUNDS);
   Badge (if final then "success" else "neutral") (if final then "FINAL ROUND" else "IN PROGRESS");
   Text "Assembly Segment Table Rounds (14 Tables per Round)"]
  ++ LibButton "Reset to Round 1" false ((currentRound s =? 1) && negb (isAutoPlaying s)) Reset_
  ++ LibButton (if isAutoPlaying s then "Pause" else "Auto-Play Rounds") false final TogglePlay
  ++ LibButton "Next Round" false (final || isAutoPlaying s) Next
  ++ [Text "Progress: "; shown (math_round (num_mul (roundFraction (currentRound s)) (of_Z 100)));
      Text "% Counted";
      Text ("Tables: " ++s Z_to_string (currentRound s * 14) ++s " / " ++s Z_to_string (TOTAL_ROUNDS * 14))].

(*@ dashboard/app/(officer)/election/counting/page.tsx 420 558 CountingCenterPage *)
Definition rounds_tab (s : state) : list (node ui) :=
  round_controls s
  ++ [Text ("Round " ++s Z_to_string (currentRound s) ++s " Progressive Tallies")]
  ++ imap (round_row (currentRound s) (totalCandidateVotes (results s))) (sortedCandidates (results s)).

(*@ dashboard/app/(officer)/election/counting/page.tsx 609 641 CountingCenterPage *)
Definition station_row (sorted : list candidate_entry) (total : Z) (idx : nat) (ps : polling_station) : node ui :=
  Box "station"
    ([Count (Z.of_nat idx + 1); Text (ps_name ps); Text (ps_eevm ps)]
     ++ map (fun c => shown (station_share (votes_of c))) sorted
     ++ [shown (station_share total); Count 0; Count 0]).

(*@ dashboard/app/(officer)/election/counting/page.tsx 561 681 CountingCenterPage *)
Definition form20_tab (s : state) (e : ElectionResponse) : list (node ui) :=
  let total := totalCandidateVotes (results s) in
  let sorted := sortedCandidates (results s) in
  let hash := results s ≫= manifest_hash in
  [Text "FORM 20-STYLE SIMULATION RESULT SHEET";
   Text (opt_or (e_title_name e) (opt_or (e_title e) (e_id e)) ++s " (" ++s e_id e ++s ")");
   Button "Print Sheet" false Print_]
  ++ map (fun c => Text (name_of c)) sorted
  ++ imap (station_row sorted total) pollingStations
  ++ [Box "grand total"
        ([Text "GRAND TOTAL:"] ++ map (fun c => Count (votes_of c)) sorted
         ++ [Count total; Count 0; Count 0]);
      Text ("Manifest Hash: " ++s (if truthy_opt hash
             then take_str 16 (default EmptyString hash) ++s "..." else "UNCOMMITTED"));
      Text ("Ed25519 Sig: " ++s (if truthy_opt (results s ≫= digital_signature)
             then "VERIFIED VALID" else "PENDING POLL CLOSE"))].

(*@ dashboard/app/(officer)/election/counting/page.tsx 70 76 CountingCenterPage *)
Definition render (s : state) : list (node ui) :=
  if negb (mounted s) then []
  else
    match selectedElection s with
    | None => [Text "Select an election to view counting center."]
    | Some e =>
        page_head s e
        ++ match activeTab s with
           | CUMULATIVE => cumulative_tab s e
           | ROUNDS => rounds_tab s
           | FORM20 => form20_tab s e
           end
    end.

Definition counting : component state ui env := mk_component render on_ui on_surroundings.
End Page.
End Counting.
