(* ===== verification/CountingFacts.v ===== *)
(** * Correctness of the counting centre

    The controls, the refinement of an abstract count in rounds, the end of auto-play, the
    numbers of the rounds and of the Form 20 sheet, the ranking, and what an answer with the
    declared keys only shows. *)
From S2P Require Import Prelude JsValue JsNumber JsNumberFacts FormatError Types Tally ApiClient View Common React Timeouts Spinner Counting.
From Stdlib Require Import String Sorting.Sorted.
Import Counting.

#[export] Hint Unfold on_surroundings on_ui loadData handleExportCsv : prog.

(** ** Controls *)

(** When the page offers each control. *)
Definition enabled (u : ui) (s : state) : bool :=
  let final := currentRound s =? TOTAL_ROUNDS in
  mounted s && (match selectedElection s with Some _ => true | None => false end) &&
  match u with
  | Refresh => negb (loading s)
  | Export => match results s ≫= candidate_results with Some _ => true | None => false end
  | Tab _ => true
  | Reset_ => bool_decide (activeTab s = ROUNDS) && negb ((currentRound s =? 1) && negb (isAutoPlaying s))
  | TogglePlay => bool_decide (activeTab s = ROUNDS) && negb final
  | Next => bool_decide (activeTab s = ROUNDS) && negb (final || isAutoPlaying s)
  | Print_ => bool_decide (activeTab s = FORM20)
  end.

Lemma shown_silent (u : ui) v : fires u (shown v) = false.
Proof. by destruct v. Qed.

Lemma card_silent sorted total u i c : fires u (candidate_card sorted total i c) = false.
Proof.
  unfold candidate_card. rewrite fires_box, !allows_app.
  destruct (ce_party c) as [p|]; [destruct (truthy_str p)|];
    by destruct ((i =? 0)%nat && (0 <? votes_of c)).
Qed.

Lemma head_controls s e u :
  allows (page_head s e) u
  = match u with
    | Refresh => negb (loading s)
    | Export => match results s ≫= candidate_results with Some _ => true | None => false end
    | Tab _ => true
    | _ => false
    end.
Proof.
  unfold page_head, LibButton. rewrite !allows_app, allows_when.
  replace (allows (match error s with Some m => when (truthy_str m) [Text m] | None => [] end) u) with false
    by (destruct (error s) as [m|]; [by destruct (truthy_str m) | done]).
  destruct u as [| |[]| | | |]; cbn; decide_eqs; cbn; rewrite ?andb_false_r, ?orb_false_r, ?andb_true_r;
    destruct (results s ≫= candidate_results); try done; by rewrite ?andb_false_r.
Qed.

Lemma cumulative_controls s e u : allows (cumulative_tab s e) u = false.
Proof.
  unfold cumulative_tab, device_cards, reconciliation. rewrite !allows_app, !orb_false_iff. split_and!.
  - done.
  - destruct (candidates (results s)); [done |]. apply allows_imap. intros. apply card_silent.
  - done.
  - rewrite allows_flat_map. by induction (devices (results s)).
  - by destruct (devices (results s)).
  - by destruct (isReconciled e (results s)).
  - destruct (results s ≫= manifest_hash) as [h|]; [by destruct (truthy_str h) | done].
Qed.

Lemma rounds_controls s u :
  allows (rounds_tab s) u
  = match u with
    | Reset_ => negb ((currentRound s =? 1) && negb (isAutoPlaying s))
    | TogglePlay => negb (currentRound s =? TOTAL_ROUNDS)
    | Next => negb ((currentRound s =? TOTAL_ROUNDS) || isAutoPlaying s)
    | _ => false
    end.
Proof.
  unfold rounds_tab, round_controls, LibButton. rewrite !allows_app.
  rewrite (allows_imap (round_row _ _)).
  - rewrite !allows_cons, shown_silent. destruct u; cbn; decide_eqs; cbn;
      rewrite ?orb_false_r, ?andb_false_r, ?andb_true_r; cbn [orb]; by rewrite ?orb_false_r.
  - intros i c. unfold round_row. rewrite fires_box, !allows_cons, !shown_silent. by destruct (_ && _).
Qed.

Lemma form20_controls s e u : allows (form20_tab s e) u = bool_decide (u = Print_).
Proof.
  unfold form20_tab. rewrite !allows_app, (allows_map_none (fun c => Text (name_of c))) by done.
  rewrite (allows_imap (station_row _ _)).
  - rewrite (allows_cons (Box _ _)), fires_box, !allows_app, allows_map_none by done.
    cbn. by rewrite ?orb_false_r.
  - intros i ps. unfold station_row. rewrite fires_box, !allows_app.
    rewrite allows_map_none by (intros; apply shown_silent). rewrite !allows_cons, shown_silent. done.
Qed.

Lemma allows_counting s u : allows (render s) u = enabled u s.
Proof.
  unfold render, enabled. destruct (mounted s); [| done]. destruct (selectedElection s) as [e|]; [| done].
  cbn [negb andb]. rewrite allows_app, head_controls.
  destruct (activeTab s); rewrite ?cumulative_controls, ?rounds_controls, ?form20_controls;
    destruct u; cbn; decide_eqs; by rewrite ?orb_false_r.
Qed.

(** ** The rounds

    What the count does, without effects, timers and renders: an abstract machine on whether
    it plays and which round is shown. *)
Inductive count_step : bool * Z -> bool * Z -> Prop :=
| count_play r : r < TOTAL_ROUNDS -> count_step (false, r) (true, r)
| count_pause r : count_step (true, r) (false, r)
| count_reset b r : count_step (b, r) (false, 1)
| count_next r : r < TOTAL_ROUNDS -> count_step (false, r) (false, r + 1)
| count_advance r : r + 1 < TOTAL_ROUNDS -> count_step (true, r) (true, r + 1)
| count_finish r : r + 1 = TOTAL_ROUNDS -> count_step (true, r) (false, r + 1).

Inductive counts : bool * Z -> Prop :=
| counts_start : counts (false, 1)
| counts_step p p' : counts p -> count_step p p' -> counts p'.

(** What a piece of the page's code may do to the count. *)
Definition count_moves (s0 s : state) : Prop :=
  playing s = playing s0 \/ count_step (playing s0) (playing s).

Section Page.
Context (reading : VerificationResponse -> results_any).

Local Abbreviation page := (counting reading).

(** The timer auto-play starts, with [n] renders to come. *)
Definition next_round (n : nat) : prog state unit :=
  upd (fun prev => set_currentRound (currentRound prev + 1) prev);; autoplay n.

(** Whether auto-play has a next round to wait for. *)
Definition waiting (s : state) : bool :=
  mounted s && isAutoPlaying s && (currentRound s <? TOTAL_ROUNDS).

(** What holds between handlers: the round is one of the five, auto-play is off in the last,
    the effect has seen the last render, and the pending timer is auto-play's, with renders
    left for the remaining rounds. *)
Record in_rounds (T : list (Timeouts.timer (S:=state))) (s : state) : Prop := {
  ir_round : 1 <= currentRound s <= TOTAL_ROUNDS;
  ir_playing : isAutoPlaying s = true -> currentRound s < TOTAL_ROUNDS;
  ir_fresh : mounted s = false -> left s = false -> playing s = (false, 1);
  ir_effect : mounted s = true -> played s = Some (playing s);
  ir_timer :
    if waiting s
    then exists id n, T = [mk_timer id false (next_round n)] /\ Counting.timer s = Some id
           /\ TOTAL_ROUNDS - currentRound s + 2 <= Z.of_nat n
    else T = [] }.

(** The timers that the cleanup of the effect stops. *)
Definition stoppable (T : list (Timeouts.timer (S:=state))) (s : state) : Prop :=
  T = [] \/ exists id b, T = [mk_timer id false b] /\ Counting.timer s = Some id.

(** The count once the effect has run: auto-play is off in the last round. *)
Definition settled (s : state) : state :=
  if currentRound s <? TOTAL_ROUNDS then s else set_isAutoPlaying false s.

(** How many renders are to come from a state the effect has not seen. *)
Definition renders_needed (s : state) : Z :=
  if isAutoPlaying s then TOTAL_ROUNDS - currentRound s + 3 else 2.

Lemma in_rounds_stoppable T s : in_rounds T s -> stoppable T s.
Proof.
  intros [_ _ _ _ HT]. destruct (waiting s); [| by left].
  destruct HT as (id & n & -> & Ht & _). right. by exists id, (next_round n).
Qed.

Lemma disarm_stoppable id T s : stoppable T s -> Counting.timer s = Some id -> disarm id T = [].
Proof.
  intros [->|(i & b & -> & Ht)]; [done |]. rewrite Ht. intros [= ->]. cbn. by rewrite Nat.eqb_refl.
Qed.

Lemma settled_in_rounds T s : in_rounds T s -> settled s = s.
Proof.
  intros [_ Hp _ _ _]. unfold settled. destruct (Z.ltb_spec (currentRound s) TOTAL_ROUNDS); [done |].
  destruct (isAutoPlaying s) eqn:E; [specialize (Hp eq_refl); lia |]. destruct s. cbn in *. by subst.
Qed.

(** The effect, after any render of a piece of code that started in [s0]. *)
Lemma autoplay_timed n T s0 s :
  mounted s = true -> count_moves s0 (settled s) -> 1 <= currentRound s <= TOTAL_ROUNDS -> stoppable T s ->
  (played s = Some (playing s) -> in_rounds T s) -> renders_needed s <= Z.of_nat n ->
  timed in_rounds count_moves (autoplay n) T s0 s.
Proof.
  revert T s. induction n as [|n IH]; intros T s Hm HG Hr Ht Hp Hn.
  { unfold renders_needed, TOTAL_ROUNDS in *. destruct (isAutoPlaying s); lia. }
  cbn [autoplay timed]. case_bool_decide as E.
  { specialize (Hp E). split; [done |]. by rewrite <- (settled_in_rounds T). }
  clear Hp E. enough (forall tm, timed in_rounds count_moves
    (upd (set_played (Some (playing s)));;
     if isAutoPlaying s && (currentRound s <? TOTAL_ROUNDS) then
       Timer false 1500 (next_round n) (fun id => upd (set_timer (Some id)))
     else if TOTAL_ROUNDS <=? currentRound s then upd (set_isAutoPlaying false);; autoplay n
     else mret tt) [] s0 (set_timer tm s)) as H.
  { cbn -[disarm]. destruct (Counting.timer s) as [id|] eqn:Et; cbn -[disarm].
    - rewrite (disarm_stoppable id T s Ht Et). apply (H None).
    - destruct Ht as [-> | (i & b & _ & Ht)]; [| congruence].
      assert (set_timer None s = s) as Es by (destruct s; cbn in *; by subst).
      specialize (H None). rewrite Es in H. exact H. }
  assert (forall s', playing s' = playing (settled s) -> count_moves s0 s') as Hend
    by (intros s' E; unfold count_moves in *; by rewrite E). clear HG.
  intros tm. destruct s as [m l tk el rs ld er tb r a pl tm0 dl pr]. cbn in *. subst m.
  unfold renders_needed, settled, TOTAL_ROUNDS, playing in *. cbn in *.
  destruct (Z.ltb_spec r 5); cbn in Hend.
  - destruct a; cbn [andb].
    + intros id _. split; [| by apply Hend]. split; cbn; [done | done | done | done |].
      unfold waiting, TOTAL_ROUNDS. cbn.
      rewrite (proj2 (Z.ltb_lt r 5)) by done. exists id, n. split_and!; [done | done | lia].
    + rewrite (proj2 (Z.leb_gt 5 r)) by done. split; [by split | by apply Hend].
  - rewrite andb_false_r, (proj2 (Z.leb_le 5 r)) by done. destruct a.
    + apply IH; cbn; [done | | done | by left | done | lia].
      apply Hend. unfold settled, TOTAL_ROUNDS, playing. cbn. by rewrite (proj2 (Z.ltb_ge r 5)).
    + assert (forall tm, in_rounds [] (mk_state true l tk el rs ld er tb r false (Some (false, r)) tm dl pr)) as Hok
        by (intros; split; cbn; done).
      destruct n as [|n]; cbn; [split; [apply Hok | by apply Hend] |].
      rewrite bool_decide_eq_true_2 by done. split; [apply Hok | by apply Hend].
Qed.

(** Updates of other fields. *)
Lemma in_rounds_frame T s s' :
  in_rounds T s -> mounted s' = mounted s -> left s' = left s ->
  Counting.timer s' = Counting.timer s ->
  played s' = played s -> playing s' = playing s -> in_rounds T s'.
Proof.
  unfold playing. intros [H1 H2 H0 H3 H4] Em El Et Ep [= Ea Er]. unfold waiting, playing in *.
  split; unfold waiting, playing; by rewrite ?Em, ?El, ?Et, ?Ep, ?Ea, ?Er.
Qed.

(** A render after updates of the round or of auto-play. *)
Lemma render_timed T s s' :
  in_rounds T s -> mounted s = true -> mounted s' = true -> left s' = left s ->
  Counting.timer s' = Counting.timer s -> played s' = played s ->
  1 <= currentRound s' <= TOTAL_ROUNDS -> count_moves s (settled s') ->
  timed in_rounds count_moves (autoplay RENDERS) T s s'.
Proof.
  intros HT Hm Hm' El Et Ep Hr HG. apply autoplay_timed; [done | done | done | | |].
  - destruct (in_rounds_stoppable T s HT) as [-> | (id & b & -> & Hid)]; [by left |].
    right. exists id, b. by rewrite Et.
  - intros Hp. apply (in_rounds_frame T s); [done | congruence | done | done | done |].
    rewrite Ep, (ir_effect _ _ HT Hm) in Hp. congruence.
  - unfold renders_needed, RENDERS, TOTAL_ROUNDS in *. destruct (isAutoPlaying s'); lia.
Qed.

Ltac framed s := split; [eapply (in_rounds_frame _ s); [eassumption | reflexivity ..] | by left].

Lemma loadData_timed T s0 s el :
  in_rounds T s -> playing s = playing s0 ->
  timed in_rounds count_moves (loadData reading el) T s0 s.
Proof.
  intros HT Hp. unfold loadData. destruct (selectedElection el) as [e|]; [| split; [done | by left]].
  cbn. split; [framed s |]. intros [a|err] T' s' HT'; cbn; framed s'.
Qed.

Lemma toggle_timed T s :
  in_rounds T s -> enabled TogglePlay s = true ->
  timed in_rounds count_moves (on_ui reading TogglePlay s) T s s.
Proof.
  intros HT Hu. unfold enabled in Hu. reflect_bool. cbn -[autoplay RENDERS].
  pose proof (ir_round _ _ HT) as Hr. apply (render_timed T s); try done. right.
  unfold settled, playing. cbn. rewrite (proj2 (Z.ltb_lt _ _)) by lia. cbn.
  destruct (isAutoPlaying s); constructor. lia.
Qed.

Lemma reset_timed T s :
  in_rounds T s -> mounted s = true -> timed in_rounds count_moves (on_ui reading Reset_ s) T s s.
Proof.
  intros HT Hm. cbn -[autoplay RENDERS]. apply (render_timed T s); try done. right. constructor.
Qed.

Lemma next_timed T s :
  in_rounds T s -> enabled Next s = true -> timed in_rounds count_moves (on_ui reading Next s) T s s.
Proof.
  intros HT Hu. unfold enabled in Hu. reflect_bool. cbn -[autoplay RENDERS].
  pose proof (ir_round _ _ HT) as Hr. apply (render_timed T s); try done.
  - cbn. unfold TOTAL_ROUNDS in *. lia.
  - right. unfold settled, playing. cbn. rewrite Z.min_r by lia.
    assert (isAutoPlaying s = false) as Ha by done. rewrite Ha.
    destruct (currentRound s + 1 <? TOTAL_ROUNDS); cbn; rewrite ?Ha; constructor; lia.
Qed.

(** Firing the timer. *)
Lemma fire_timed T s t :
  in_rounds T s -> In t T -> tm_every t = false /\
  timed in_rounds count_moves (tm_body t) (disarm (tm_id t) T) s s.
Proof.
  intros HT Hin. pose proof (ir_timer _ _ HT) as Ht. destruct (waiting s) eqn:Ew; [| by subst].
  destruct Ht as (id & n & -> & Et & Hn). destruct Hin as [<-|[]]. split; [done |].
  cbn -[autoplay]. rewrite Nat.eqb_refl. unfold waiting in Ew. reflect_bool. cbn -[autoplay].
  assert (isAutoPlaying s = true) as Ha by done.
  pose proof (ir_round _ _ HT). apply autoplay_timed; cbn; [done | | | by left | |].
  - right. unfold settled, playing. cbn. destruct (Z.ltb_spec (currentRound s + 1) TOTAL_ROUNDS); cbn;
      rewrite Ha; constructor; lia.
  - unfold TOTAL_ROUNDS in *. lia.
  - rewrite (ir_effect _ _ HT) by done. unfold playing. cbn. intros [=]. lia.
  - unfold renders_needed, TOTAL_ROUNDS in *. cbn. destruct (isAutoPlaying s); lia.
Qed.

Lemma mount_timed T s :
  in_rounds T s -> mounted s = false -> left s = false ->
  timed in_rounds count_moves (upd (set_mounted true);; autoplay RENDERS;; loadData reading s) T s s.
Proof.
  intros HT Hm Hl.
  pose proof (ir_fresh _ _ HT Hm Hl) as Hf. unfold playing in Hf. injection Hf as Ea Er.
  pose proof (ir_timer _ _ HT) as Ht. unfold waiting in Ht. rewrite Hm in Ht. cbn in Ht. subst T.
  assert (forall tm, in_rounds [] (set_played (Some (false, 1)) (set_timer tm (set_mounted true s)))
      /\ playing (set_played (Some (false, 1)) (set_timer tm (set_mounted true s))) = playing s) as Hstart.
  { intros tm. destruct s. cbn in *. subst. by split. }
  destruct s. cbn in *. subst. unfold RENDERS. cbn -[loadData].
  case_bool_decide as E; cbn -[loadData].
  - unfold playing in E. cbn in E. subst. destruct (Hstart timer0) as [H1 H2].
    exact (loadData_timed _ _ _ _ H1 H2).
  - destruct (Hstart None) as [H1 H2]. destruct timer0; exact (loadData_timed _ _ _ _ H1 H2).
Qed.

Lemma leave_timed T s :
  in_rounds T s -> timed in_rounds count_moves (on_surroundings reading Leave s) T s s.
Proof.
  intros HT. unfold on_surroundings. destruct (mounted s) eqn:Hm; [| split; [done | by left]].
  assert (forall tm, in_rounds [] (set_left true (set_mounted false (set_timer tm s)))) as Hgone.
  { intros tm. split; cbn; [apply HT | apply HT | done | done | done]. }
  destruct (Counting.timer s) as [id|] eqn:Et; cbn -[disarm].
  - rewrite (disarm_stoppable id T s (in_rounds_stoppable T s HT) Et). split; [apply Hgone | by left].
  - destruct (in_rounds_stoppable T s HT) as [-> | (i & b & _ & Ht)]; [| congruence].
    specialize (Hgone None). destruct s. cbn in *. subst. split; [done | by left].
Qed.

Lemma counting_timed : timed_component page in_rounds count_moves (fun _ => True).
Proof.
  split.
  - intros u T s _ HT Hu. change (allows (render s) u = true) in Hu. rewrite allows_counting in Hu.
    assert (mounted s = true) as Hm by (unfold enabled in Hu; reflect_bool; done).
    destruct u; cbn -[autoplay RENDERS loadData on_ui].
    + by apply loadData_timed.
    + cbn. unfold handleExportCsv. destruct (results s ≫= candidate_results), (selectedElection s);
        cbn; try (split; [exact HT | by left]). framed s.
    + framed s.
    + by apply reset_timed.
    + by apply toggle_timed.
    + by apply next_timed.
    + framed s.
  - intros x T s _ HT. cbn [on_env counting].
    destruct x as [|e|t|]; [| | | by apply leave_timed]; cbn -[autoplay RENDERS loadData].
    + destruct (mounted s) eqn:Hm; [split; [exact HT | by left] |].
      destruct (left s) eqn:Hl; [split; [exact HT | by left] |]. by apply mount_timed.
    + destruct (mounted s); cbn -[loadData]; [| framed s].
      apply loadData_timed; [| done]. by apply (in_rounds_frame _ s).
    + framed s.
  - intros t T s HT Hin. by destruct (fire_timed T s t HT Hin) as [-> Hf].
Qed.

Lemma count_moves_refl s : count_moves s s.
Proof. by left. Qed.

Lemma in_rounds_initial t e : in_rounds [] (initial t e).
Proof. by split. Qed.

Lemma counting_in_rounds t e w :
  reachable page (fun _ => True) (initial t e) w -> in_rounds (timers_of (tasks w)) (st w).
Proof.
  intros Hw.
  exact (reachable_timed _ _ _ _ _ _ count_moves_refl counting_timed (in_rounds_initial t e) Hw).
Qed.

(** C7. The page refines the abstract count: with its effects, timers and renders it does, in
    every interleaving and at every single step, nothing to the round and to auto-play but
    what a count in five rounds does, so everything reachable is reachable for the count. *)
Theorem counting_refines t e w :
  reachable page (fun _ => True) (initial t e) w ->
  counts (playing (st w))
  /\ forall ev w', step page w ev = Some w' ->
       playing (st w') = playing (st w) \/ count_step (playing (st w)) (playing (st w')).
Proof.
  assert (forall w ev w', reachable page (fun _ => True) (initial t e) w -> step page w ev = Some w' ->
    count_moves (st w) (st w')) as Hstep.
  { intros w1 ev w' Hw Hs.
    by refine (step_guarantee _ _ _ _ _ _ ev _ count_moves_refl counting_timed (in_rounds_initial t e) Hw I Hs). }
  intros Hw. split; [| intros ev w' Hs; by apply (Hstep w ev)].
  induction Hw as [|w ev w' Hw IH _ Hs]; [apply counts_start |].
  destruct (Hstep w ev w' Hw Hs) as [E|Hmove]; [by rewrite E | by eapply counts_step].
Qed.

(** C9. In every interleaving the round shown is one of the five, auto-play is never on in the
    last one, the effect has run for what is shown, and one timer is pending while auto-play
    waits for a next round, none otherwise: pausing, resetting or leaving stops it. *)
Theorem counting_rounds_bounded t e w :
  reachable page (fun _ => True) (initial t e) w ->
  1 <= currentRound (st w) <= TOTAL_ROUNDS
  /\ (isAutoPlaying (st w) = true -> currentRound (st w) < TOTAL_ROUNDS)
  /\ (mounted (st w) = true -> played (st w) = Some (playing (st w)))
  /\ List.length (timers_of (tasks w)) = (if waiting (st w) then 1 else 0)%nat.
Proof.
  intros Hw. destruct (counting_in_rounds t e w Hw) as [H1 H2 _ H3 H4]. split_and!; try done; try lia.
  destruct (waiting (st w)); [| by rewrite H4]. destruct H4 as (id & n & -> & _). done.
Qed.

(** ** Auto-play ends *)

(** What the effect leaves alone: the round, the clock, and auto-play before the last round. *)
Record undisturbed (w w' : world state) : Prop := {
  un_round : currentRound (st w') = currentRound (st w);
  un_mounted : mounted (st w') = mounted (st w);
  un_now : now w' = now w;
  un_idle : idle w = true -> idle w' = true;
  un_playing : currentRound (st w) < TOTAL_ROUNDS -> isAutoPlaying (st w') = isAutoPlaying (st w) }.

Lemma undisturbed_trans w1 w2 w3 : undisturbed w1 w2 -> undisturbed w2 w3 -> undisturbed w1 w3.
Proof.
  intros [A1 A2 A3 A4 A5] [B1 B2 B3 B4 B5]. split; try congruence; [auto |].
  intros H. rewrite B5, A5; [done | done | congruence].
Qed.

Lemma undisturbed_clear id w :
  undisturbed w (with_st (set_timer None (st w))
    (with_tasks (filter (fun t => negb (Nat.eqb (task_id t) id) || suspended t) (tasks w)) w)).
Proof.
  split; cbn; try done. rewrite !idle_tasks. cbn. intros H t Hin. apply H.
  apply list_elem_of_In in Hin. apply list_elem_of_filter in Hin as [_ Hin]. by apply list_elem_of_In.
Qed.

Lemma exec_autoplay n w : undisturbed w (exec (autoplay n) w).
Proof.
  revert w. induction n as [|n IH]; intros w; cbn [autoplay exec]; [by split |].
  case_bool_decide; cbn [exec]; [by split |].
  enough (forall w1, undisturbed w w1 -> undisturbed w (exec
    (upd (set_played (Some (playing (st w))));;
     if isAutoPlaying (st w) && (currentRound (st w) <? TOTAL_ROUNDS) then
       Timer false 1500 (next_round n) (fun id => upd (set_timer (Some id)))
     else if TOTAL_ROUNDS <=? currentRound (st w) then upd (set_isAutoPlaying false);; autoplay n
     else mret tt) w1)) as Hk.
  { cbn. destruct (Counting.timer (st w)) as [id|].
    - exact (Hk _ (undisturbed_clear id w)).
    - apply (Hk w). by split. }
  intros w1 H1. cbn. destruct (isAutoPlaying (st w) && (currentRound (st w) <? TOTAL_ROUNDS)).
  - eapply undisturbed_trans; [exact H1 |]. split; cbn; try done.
    rewrite !idle_tasks. cbn. intros Hi t [Hin|[<-|[]]]%in_app_or; [by apply Hi | done].
  - destruct (TOTAL_ROUNDS <=? currentRound (st w)) eqn:E; reflect_bool.
    + eapply undisturbed_trans; [exact H1 |]. eapply undisturbed_trans; [| apply IH].
      split; cbn; try done. rewrite (un_round _ _ H1). lia.
    + eapply undisturbed_trans; [exact H1 |]. by split.
Qed.
(** The world of auto-play on its own: nothing is pending but its timer. *)
Lemma waiting_tasks t e w :
  reachable page (fun _ => True) (initial t e) w -> idle w = true -> waiting (st w) = true ->
  exists id d n, tasks w = [Timed id d None (next_round n)].
Proof.
  intros Hw Hidle Hwait. pose proof (counting_in_rounds t e w Hw) as [_ _ _ _ Ht].
  rewrite Hwait in Ht. destruct Ht as (id & n & Ht & _). rewrite idle_tasks in Hidle.
  destruct (tasks w) as [|[i q k|i d k|i d o b] ts] eqn:E; [done | | |].
  - by specialize (Hidle _ (or_introl eq_refl)).
  - by specialize (Hidle _ (or_introl eq_refl)).
  - cbn in Ht. injection Ht as -> Ho -> Hts. destruct o; [done |].
    destruct ts as [|[i q k|i d' k|i d' o b'] ts]; [by exists id, d, n | | | done].
    + by specialize (Hidle _ (or_intror (or_introl eq_refl))).
    + by specialize (Hidle _ (or_intror (or_introl eq_refl))).
Qed.

(** One round: the clock moves to the deadline, the timer fires. *)
Lemma next_round_steps t e w :
  reachable page (fun _ => True) (initial t e) w -> idle w = true -> waiting (st w) = true ->
  exists ms id w', run page w [Tick ms; Fire id] = Some w' /\ idle w' = true
    /\ currentRound (st w') = currentRound (st w) + 1 /\ mounted (st w') = true
    /\ (currentRound (st w') < TOTAL_ROUNDS -> waiting (st w') = true).
Proof.
  intros Hw Hidle Hwait. destruct (waiting_tasks t e w Hw Hidle Hwait) as (id & d & n & Ht).
  unfold waiting in Hwait. reflect_bool.
  exists (Z.max 0 (d - now w)), id. cbn [run]. rewrite step_tick by lia.
  set (w1 := mk_world (st w) (now w + Z.max 0 (d - now w)) (fresh w) (tasks w) (sent w) (uncaught w)).
  rewrite (step_timer_single page w1 id d (next_round n)) by (done || (unfold w1; cbn; lia)).
  eexists. split; [reflexivity |]. cbn.
  match goal with |- context [exec (autoplay n) ?w0] => set (w2 := w0) end.
  destruct (exec_autoplay n w2) as [E1 E2 E3 E4 E5]. cbn in *.
  split_and!; [by apply E4 | done | congruence |]. intros Hr. unfold waiting.
  rewrite (proj2 (Z.ltb_lt _ _) Hr), E2, E5 by congruence. cbn. by rewrite andb_true_r; apply andb_true_iff.
Qed.

(** C8. Auto-play ends, however often it is looked at: from any reachable world in which it
    waits and no request is pending, as many timers as there are rounds left bring the last
    round, with auto-play off and nothing pending. *)
Theorem counting_autoplay_ends t e w :
  reachable page (fun _ => True) (initial t e) w -> idle w = true -> waiting (st w) = true ->
  exists es w', run page w es = Some w'
    /\ List.length es = (2 * Z.to_nat (TOTAL_ROUNDS - currentRound (st w)))%nat
    /\ Forall (fun e => match e with Tick _ | Fire _ => True | _ => False end) es
    /\ currentRound (st w') = TOTAL_ROUNDS /\ isAutoPlaying (st w') = false /\ tasks w' = [].
Proof.
  remember (Z.to_nat (TOTAL_ROUNDS - currentRound (st w))) as k eqn:Hk. revert w Hk.
  induction k as [|k IH]; intros w Hk Hw Hidle Hwait; unfold waiting, TOTAL_ROUNDS in *.
  { reflect_bool. lia. }
  destruct (next_round_steps t e w Hw Hidle Hwait) as (ms & id & w1 & Hr & Hi1 & Hr1 & Hm1 & Hw1).
  assert (reachable page (fun _ => True) (initial t e) w1) as Hreach
    by (by eapply reachable_run; [exact Hw | | exact Hr]; apply Forall_true).
  destruct (Z.lt_ge_cases (currentRound (st w1)) 5) as [Hlt|Hge].
  - destruct (IH w1) as (es & w' & Hes & Hlen & Hev & Hend); [lia | done | done | by apply Hw1 |].
    exists ([Tick ms; Fire id] ++ es), w'. rewrite run_app, Hr. split_and!; try done; try tauto.
    + cbn [List.length app]. lia.
    + by do 2 constructor.
  - exists [Tick ms; Fire id], w1. destruct (counting_in_rounds t e w1 Hreach) as [R1 R2 _ _ R4].
    unfold TOTAL_ROUNDS in *.
    assert (isAutoPlaying (st w1) = false) as Ha by (destruct (isAutoPlaying (st w1)); [lia | done]).
    assert (k = 0%nat) as -> by lia. split_and!; try done; try lia; [by repeat constructor |].
    unfold waiting in R4. rewrite Ha, andb_false_r in R4. cbn in R4.
    rewrite idle_tasks in Hi1. destruct (tasks w1) as [|tk ts]; [done |].
    specialize (Hi1 tk (or_introl eq_refl)). by destruct tk.
Qed.
End Page.

(** ** Tallies *)

Lemma share_nearest v :
  0 <= v < 2 ^ 40 -> station_share v = Some (nearest v 1 4).
Proof.
  intros Hv. unfold station_share. change (Z.of_nat (List.length pollingStations)) with 4.
  destruct (Z.eq_dec v 0) as [->|]; [reflexivity |]. apply round_mul_quarter. lia.
Qed.

Lemma cumulative_nearest r v :
  0 <= v < 2 ^ 40 -> 1 <= r <= TOTAL_ROUNDS -> cumulativeVotes r v = Some (nearest v r 5).
Proof.
  intros Hv Hr. unfold cumulativeVotes, roundFraction, TOTAL_ROUNDS in *.
  destruct (Z.eq_dec v 0) as [->|]; [| apply round_of_fifths; lia].
  assert (r = 1 \/ r = 2 \/ r = 3 \/ r = 4 \/ r = 5) as H by lia.
  by destruct H as [->|[->|[->|[->| ->]]]].
Qed.

Lemma increment_nearest v : 0 <= v < 2 ^ 40 -> roundIncrement v = Some (nearest v 1 5).
Proof.
  intros Hv. unfold roundIncrement, TOTAL_ROUNDS. destruct (Z.eq_dec v 0) as [->|]; [reflexivity |].
  apply round_div_five. lia.
Qed.

(** C10. The floating-point arithmetic of the rounds is harmless: for tallies below 2^40 what a
    candidate has after a round is within half a vote of the exact fraction, never more than
    their tally nor than the count of all votes in that round, never less in a later
    round, and the tally itself in the last one. *)
Theorem counting_rounds_exact v total r r' :
  0 <= v <= total -> total < 2 ^ 40 -> 1 <= r <= r' -> r' <= TOTAL_ROUNDS ->
  exists c c' t,
    cumulativeVotes r v = Some c /\ cumulativeVotes r' v = Some c' /\ cumulativeVotes r total = Some t
    /\ -2 <= 5 * c - v * r <= 2 /\ 0 <= c <= v /\ c <= t <= total /\ c <= c'
    /\ (r = TOTAL_ROUNDS -> c = v /\ t = total).
Proof.
  unfold TOTAL_ROUNDS. intros Hv Ht Hr Hr'.
  exists (nearest v r 5), (nearest v r' 5), (nearest total r 5).
  pose proof (nearest_bounds v r 5 ltac:(lia)).
  pose proof (nearest_part v r 5 ltac:(lia) ltac:(lia) ltac:(lia)).
  pose proof (nearest_part total r 5 ltac:(lia) ltac:(lia) ltac:(lia)).
  rewrite !cumulative_nearest by (unfold TOTAL_ROUNDS; lia).
  split_and!; try done; try lia; [apply nearest_mono; nia | apply nearest_mono; nia |].
  intros ->. by rewrite !nearest_whole.
Qed.

(** C11. The Form 20 sheet gives every station the rounded quarter of a tally. Its column adds
    up to the grand total below it exactly when four divides the tally; otherwise it is off
    by one or two votes. *)
Theorem form20_columns v :
  0 <= v < 2 ^ 40 ->
  exists z, station_share v = Some z
    /\ let column := sumZ (map (fun _ => z) pollingStations) in
       (column = v <-> v mod 4 = 0) /\ -1 <= column - v <= 2.
Proof.
  intros Hv. exists (nearest v 1 4). split; [by apply share_nearest |].
  unfold sumZ, pollingStations. cbn [map fold_right]. unfold nearest.
  pose proof (Z.div_mod (2 * (v * 1) + 4) (2 * 4) ltac:(lia)).
  pose proof (Z.mod_pos_bound (2 * (v * 1) + 4) (2 * 4) ltac:(lia)).
  pose proof (Z.div_mod v 4 ltac:(lia)). pose proof (Z.mod_pos_bound v 4 ltac:(lia)).
  set (z := (2 * (v * 1) + 4) / (2 * 4)) in *. lia.
Qed.

(** The increments shown beside the rounds need not add up: two votes are none in each of the
    five rounds, yet two in the end. *)
Lemma increments_lose_votes :
  roundIncrement 2 = Some 0 /\ map (fun r => cumulativeVotes r 2) [1; 2; 3; 4; 5]
  = [Some 0; Some 1; Some 1; Some 2; Some 2].
Proof. by vm_compute. Qed.

(** A row need not add up either: two candidates with two votes each give every station one
    vote for each and a total of one. *)
Lemma form20_row_overflows : station_share 2 = Some 1 /\ station_share (2 + 2) = Some 1.
Proof. by vm_compute. Qed.

(** The ranking: every candidate exactly once, by votes; the first has a maximal tally, and
    the margin is how far the best of the others is behind. *)
Theorem counting_ranking r :
  Permutation (sortedCandidates r) (candidates r)
  /\ StronglySorted (fun a b => votes_of b <= votes_of a) (sortedCandidates r)
  /\ match sortedCandidates r with
     | first :: (second :: others) as rest =>
         0 <= margin (sortedCandidates r)
         /\ (forall c, In c rest -> votes_of c <= votes_of first - margin (sortedCandidates r))
         /\ votes_of second = votes_of first - margin (sortedCandidates r)
     | _ => margin (sortedCandidates r) = 0
     end.
Proof.
  assert (StronglySorted (fun a b => votes_of b <= votes_of a) (sortedCandidates r)) as Hs.
  { pose proof (sort_by_sorted (fun c => - votes_of c) (candidates r)) as H.
    unfold sortedCandidates. induction H as [|a l Hl IH Ha]; constructor; [done |].
    eapply Forall_impl; [exact Ha |]. cbn. lia. }
  split; [apply sort_by_perm |]. split; [done |].
  destruct (sortedCandidates r) as [|a [|b l]]; [done | done |]. cbn [margin].
  inversion Hs as [|? ? Hs' Ha]; subst. inversion Hs' as [|? ? _ Hb]; subst.
  inversion Ha as [|? ? Hab _]; subst. split_and!; try lia.
  intros c [<-|Hc]; [lia |]. pose proof (Forall_In _ _ _ Hb Hc). cbn in *. lia.
Qed.

(** ** Answers with the declared keys only *)

Definition keyless (s : state) : Prop :=
  match results s with
  | Some r => candidate_results r = None /\ device_results r = None
  | None => True
  end.

Lemma keyless_autoplay n : keeps keyless (fun _ _ => True) (autoplay n).
Proof. induction n as [|n IH]; cbn [autoplay]; [apply keeps_ret |]. keeps_auto; by apply IH. Qed.

Lemma keyless_safe :
  safe_component (counting declared_only) keyless (fun _ _ => True) (fun _ => True).
Proof.
  assert (forall s0, keeps keyless (fun _ _ => True) (loadData declared_only s0)) as Hload.
  { intros s0. unfold loadData. keeps_auto. }
  split.
  - intros u s _ Hs _. apply keeps_handles; [| done]. destruct u; cbn [on_user counting on_ui];
      [apply Hload | unfold handleExportCsv; keeps_auto | keeps_auto | unfold rendering .. | keeps_auto];
      (apply keeps_bind; [keeps_auto | intros; apply keyless_autoplay]).
  - intros x s _ Hs. apply keeps_handles; [| done]. destruct x; cbn [on_env counting on_surroundings].
    + destruct (mounted s || left s); [apply keeps_ret |].
      apply keeps_bind; [keeps_auto | intros]. apply keeps_bind; [apply keyless_autoplay | intros; apply Hload].
    + apply keeps_bind; [keeps_auto | intros]. destruct (mounted s); [apply Hload | apply keeps_ret].
    + keeps_auto.
    + keeps_auto.
Qed.

(** The answer of the results endpoint has its tallies inside [manifest], and the page
    looks for them beside it: whatever the server counted, no candidate and no device is
    listed, the election counts as reconciled only when no ballot was cast, and the export
    stays disabled. *)
Theorem counting_shows_no_tallies t e0 w e :
  reachable (counting declared_only) (fun _ => True) (initial t e0) w ->
  candidates (results (st w)) = [] /\ devices (results (st w)) = []
  /\ isReconciled e (results (st w)) = (e_ballot_count e =? 0)
  /\ allows (render (st w)) Export = false.
Proof.
  intros Hw.
  assert (keyless (st w)) as Hk
    by by refine (good_inv _ _ _ (reachable_good _ _ _ _ keyless_safe (initial t e0) w _ Hw)).
  assert (candidates (results (st w)) = [] /\ devices (results (st w)) = []
    /\ results (st w) ≫= candidate_results = None) as (Hc & Hd & Hn).
  { unfold keyless in Hk. destruct (results (st w)) as [r|]; [| done].
    destruct Hk as [E1 E2]. cbn. by rewrite E1, E2. }
  split; [done |]. split; [done |]. split.
  - unfold isReconciled, totalCandidateVotes, totalDeviceVotes, actualBallotCount. rewrite Hc, Hd.
    cbn [map]. change (sumZ []) with 0. by rewrite (Z.eqb_sym 0), andb_diag.
  - rewrite allows_counting. unfold enabled. rewrite Hn. by rewrite andb_false_r.
Qed.

(** ** Witnesses *)

Definition an_election : ElectionResponse :=
  {| e_id := "E1"; e_title_name := None; e_title := Some "General"%string; e_description := None;
     e_state := CLOSED; e_configuration_hash := None; e_device_count := 1; e_ballot_count := 4;
     e_created_at := "2026-01-01T00:00:00Z"; e_opened_at := None; e_closed_at := None;
     e_published_at := None; e_candidates := [] |}.

Definition empty_answer : VerificationResponse :=
  {| v_election_id := "E1"; v_config_hash_valid := true; v_audit_chain_intact := true;
     v_reconciliation_passed := true; v_tally_independently_verified := true;
     v_overall_status := "PASSED"; v_manifest := None; v_details := [] |}.

(** Opening the page, its answer, the tab of the rounds and auto-play. *)
Definition playing_events : list (event ui env) :=
  [Env Mount; Reply 0 (fun q => answers (fun _ => Err (plain_error "Error" "offline")) q);
   User (Tab ROUNDS); User TogglePlay].

Definition playing_world : world state :=
  default (boot (initial None None))
    (run (counting declared_only) (boot (initial (Some "token"%string) (Some an_election))) playing_events).

Lemma playing_reachable :
  reachable (counting declared_only) (fun _ => True) (initial (Some "token"%string) (Some an_election))
    playing_world.
Proof.
  eapply (reachable_run _ _ _ (boot _) playing_events); [constructor | by repeat constructor |].
  vm_compute. reflexivity.
Qed.

Lemma counting_rounds_bounded_witness :
  waiting (st playing_world) = true /\ List.length (timers_of (tasks playing_world)) = 1%nat.
Proof.
  split; [by vm_compute |].
  by destruct (counting_rounds_bounded declared_only _ _ playing_world playing_reachable) as (_ & _ & _ & H).
Defined.

Lemma counting_refines_witness :
  exists w', step (counting declared_only) playing_world (User Reset_) = Some w'
    /\ playing (st w') = (false, 1) /\ counts (playing (st playing_world))
    /\ (playing (st w') = playing (st playing_world)
        \/ count_step (playing (st playing_world)) (playing (st w'))).
Proof.
  destruct (counting_refines declared_only _ _ playing_world playing_reachable) as [H1 H2].
  destruct (step (counting declared_only) playing_world (User Reset_)) as [w'|] eqn:E;
    [| by vm_compute in E].
  exists w'. split; [done |]. split; [| split; [done | by apply (H2 _ _ E)]].
  vm_compute in E. by injection E as <-.
Defined.

Lemma counting_autoplay_ends_witness :
  idle playing_world = true /\ waiting (st playing_world) = true
  /\ exists es w', run (counting declared_only) playing_world es = Some w' /\ List.length es = 8%nat
       /\ currentRound (st w') = 5 /\ tasks w' = [].
Proof.
  assert (idle playing_world = true) as Hi by by vm_compute.
  assert (waiting (st playing_world) = true) as Hw by by vm_compute.
  split; [done |]. split; [done |].
  destruct (counting_autoplay_ends declared_only _ _ playing_world playing_reachable Hi Hw)
    as (es & w' & Hr & Hl & _ & Hc & _ & Ht).
  exists es, w'. split_and!; [done | | done | done]. rewrite Hl. by vm_compute.
Defined.

Lemma counting_rounds_exact_witness :
  0 <= 7 <= 20 /\ exists c, cumulativeVotes 3 7 = Some c /\ 0 <= c <= 7.
Proof.
  split; [lia |].
  destruct (counting_rounds_exact 7 20 3 4) as (c & c' & t & Hc & _ & _ & _ & Hb & _);
    [lia | lia | lia | unfold TOTAL_ROUNDS; lia |].
  exists c. split; [exact Hc | exact Hb].
Defined.

Lemma form20_columns_witness :
  0 <= 10 < 2 ^ 40 /\ exists z, station_share 10 = Some z /\ sumZ (map (fun _ => z) pollingStations) <> 10.
Proof.
  split; [lia |]. destruct (form20_columns 10) as (z & Hz & Hsum & _); [lia |].
  exists z. split; [done |]. rewrite Hsum. by vm_compute.
Defined.

Lemma counting_shows_no_tallies_witness :
  exists w, run (counting declared_only) (boot (initial (Some "token"%string) (Some an_election)))
      [Env Mount; Reply 0 (fun q => match q with One (getResults _ _) => Ok empty_answer | _ => Err (plain_error "Error" "offline") end)] = Some w
    /\ results (st w) <> None /\ isReconciled an_election (results (st w)) = false.
Proof.
  eexists. split; [vm_compute; reflexivity |]. split; [done |].
  eapply (counting_shows_no_tallies (Some "token"%string) (Some an_election)).
  eapply (reachable_run _ _ _ (boot _)
    [Env Mount; Reply 0 (fun q => match q with One (getResults _ _) => Ok empty_answer | _ => Err (plain_error "Error" "offline") end)]);
    [constructor | by repeat constructor | vm_compute; reflexivity].
Defined.
