(* ===== verification/Attacks.v ===== *)
(** * The attack demonstration centre: [app/(officer)/election/attacks/page.tsx]

    Twenty attack scenarios, each played by a button or all in a row, with the verdicts the
    page shows. The page calls no method of the API. *)
From S2P Require Import Prelude JsValue JsNumber Types ApiClient View Common React.
From Stdlib Require Import String Ascii.

Module Attacks.

Definition dq : string := String (ascii_of_nat 34) EmptyString.

Inductive AttackStatus := IDLE | RUNNING | DEFENDED | FAILED.
Inductive AttackCategory := Cryptographic | Lifecycle | Device | Protocol | Anomaly.

#[export] Instance AttackStatus_eq_dec : EqDecision AttackStatus. Proof. solve_decision. Defined.

Definition category_str (c : AttackCategory) : string :=
  match c with
  | Cryptographic => "Cryptographic" | Lifecycle => "Lifecycle" | Device => "Device"
  | Protocol => "Protocol" | Anomaly => "Anomaly"
  end.

(*@ dashboard/app/(officer)/election/attacks/page.tsx 16 27 AttackScenario *)
Record AttackScenario := {
  a_id : Z;
  a_name : string;
  a_category : AttackCategory;
  a_threat : string;
  a_defense : string;
  a_expectedResult : string;
  a_payload : list (string * value);
  a_status : AttackStatus;
  a_observedResult : option string;
  a_details : option string }.

Definition scenario (id : Z) (name : string) (category : AttackCategory)
    (threat defense expectedResult : string) (payload : list (string * value)) : AttackScenario :=
  {| a_id := id; a_name := name; a_category := category; a_threat := threat; a_defense := defense;
     a_expectedResult := expectedResult; a_payload := payload; a_status := IDLE;
     a_observedResult := None; a_details := None |}.

(** The last five of the list. *)
(*@ dashboard/app/(officer)/election/attacks/page.tsx 180 229 INITIAL_ATTACKS *)
Definition LAST_ATTACKS : list AttackScenario := [
  scenario 16 "Orphaned Audit Entry & Detached Hash Chain" Cryptographic
    "Adversary injects a rogue audit log entry with detached sequence or invalid previous_hash link."
    "Independent audit chain verification detects broken hash link and flags tampering at injected sequence."
    "AUDIT VERIFICATION FAILED (Broken hash chain at injected sequence)"
    [("sequence", VNum 99); ("previous_hash", VStr "00000000000000000000000000000000")];
  scenario 17 "Cross-Constituency Ballot Boundary Spoofing" Anomaly
    "EVM terminal or operator attempts to cast ballot for a candidate from another assembly constituency."
    "Candidate validation verifies candidate_id belongs strictly to the target election and registered constituency."
    "CANDIDATE REJECTED (HTTP 404: Candidate not found in this election)"
    [("target_election", VStr "EV-2026-001"); ("rogue_candidate", VStr "C999")];
  scenario 18 "Genesis Block Hash Substitution Attack" Cryptographic
    "Adversary modifies sequence #0 genesis audit entry to forge initial election state root."
    "Genesis entry enforces previous_hash of 64 zeros and matches canonical genesis digest. Modification invalidates entire tree."
    "AUDIT VERIFICATION FAILED (Broken hash chain at sequence #0)"
    [("sequence", VNum 0); ("tampered_event", VStr ("{" ++s dq ++s "genesis" ++s dq ++s ": false}"))];
  scenario 19 "Cross-Election Session Token Replay" Protocol
    "Adversary intercepts valid voting session token from Election A and attempts ballot submission in Election B."
    "Voting session is cryptographically bound to specific election_id and device_id; cross-election submission is rejected."
    "DEVICE MISMATCH (HTTP 409: Device not bound to session)"
    [("session_election", VStr "EV-2026-001"); ("target_election", VStr "EV-2026-002")];
  scenario 20 "Single-Use Session Double-Ballot Replay" Lifecycle
    "Attacker reuses a single-use session token to cast a second ballot after the session is already consumed."
    "Session state transitions from AUTHORIZED to VOTED within atomic transaction; subsequent request receives HTTP 409."
    "REQUEST REJECTED (HTTP 409: Session status is VOTED)"
    [("session_token", VStr "tok_sim_replay"); ("attempt", VNum 2)]]%string.

(*@ dashboard/app/(officer)/election/attacks/page.tsx 29 230 INITIAL_ATTACKS *)
Definition INITIAL_ATTACKS : list AttackScenario := [
  scenario 1 "Audit Record Modification in Database" Cryptographic
    "Adversary with database write access modifies event_data of historical audit row."
    "Independent hash recomputation recalculates SHA-256 chain from genesis. Breaking sequence N invalidates all subsequent hashes."
    "AUDIT VERIFICATION FAILED (Broken hash chain at sequence #1)"
    [("action", VStr ("UPDATE audit_entries SET event_data = '{" ++s dq ++s "tampered" ++s dq ++s ": true}' WHERE sequence_number = 1"))];
  scenario 2 "Configuration Modification Post-Lock" Lifecycle
    "Adversary adds or replaces candidate after election configuration is frozen."
    "SHA-256 candidate list fingerprint computed at lock. Manifest reconciliation enforces configuration_hash match."
    "CONFIGURATION HASH MISMATCH (State machine rejects mutation)"
    [("action", VStr "POST /api/elections/{id}/candidates"); ("state", VStr "LOCKED"); ("new_candidate", VStr "C999")];
  scenario 3 "Duplicate Voting Session Injection" Lifecycle
    "Attacker attempts to authorize a second voting session for an already registered voter credential."
    "Database unique constraint uq_voter_credential enforces exactly one session per election_id + voter_credential."
    "DUPLICATE REJECTED (HTTP 409 Conflict: Voter already authorized)"
    [("credential", VStr "VOTER-SIM-001"); ("election_id", VStr "EV-2026-001"); ("attempt", VNum 2)];
  scenario 4 "Vote Cast After Election Close" Lifecycle
    "EVM terminal or attacker submits ballot after poll closing time has elapsed."
    "Vote service validates election state is strictly OPEN. Closed elections immediately reject new ballots."
    "REQUEST REJECTED (HTTP 400: Election not accepting votes)"
    [("state", VStr "CLOSED"); ("action", VStr "POST /api/votes")];
  scenario 5 "Physical Chassis Tamper Event" Device
    "Physical switch on EVM unit detects enclosure breach or unauthorized opening."
    "Hardware interrupt latches tamper state in EEPROM, sets LEDs red, and logs DEVICE_TAMPER_SWITCH to audit trail."
    "TAMPER DETECTED (Logged in audit chain, status latched)"
    [("switch_pin", VStr "D2"); ("status", VStr "BREACH_DETECTED"); ("action", VStr "EEPROM latch")];
  scenario 6 "Manipulate Derived Tally Directly" Cryptographic
    "Attacker updates result_manifests candidate_totals without changing underlying ballots."
    "Independent verifier recounts raw ballots independently. Sum mismatch triggers reconciliation failure."
    "RECONCILIATION FAILURE (Ballot sum != candidate tally)"
    [("candidate_A", VStr "+500 votes"); ("raw_ballots_count", VStr "unchanged")];
  scenario 7 "Device Message Replay Attack" Protocol
    "Network adversary replays previously accepted device vote payload with duplicate sequence."
    "UniqueConstraint(device_id, sequence_number) + monotonic sequence check (seq > last_seq) rejects replayed frames."
    "REPLAY REJECTED (HTTP 409 / Integrity rejection)"
    [("device_id", VStr "EVM-001"); ("sequence_number", VNum 1); ("repeat", VBool true)];
  scenario 8 "Unauthorized / Revoked Device Submission" Device
    "Rogue hardware device submits ballot without registration or after revocation."
    "Backend validates device registration and enforces ACTIVE status. Revoked devices are denied."
    "DEVICE REJECTED (HTTP 403: Device suspended or not recognized)"
    [("device_id", VStr "EVM-ROGUE-999"); ("status", VStr "UNREGISTERED")];
  scenario 9 "Tampered Manifest Digital Signature" Cryptographic
    "Adversary alters signature bytes in exported election manifest package."
    "Ed25519 asymmetric signature verification independently verifies canonical JSON manifest_hash against public key."
    "SIGNATURE_INVALID (Ed25519 signature verification failed)"
    [("algorithm", VStr "Ed25519"); ("signature", VStr "000000000000000000...")];
  scenario 10 "Modified Exported Ballot Record" Cryptographic
    "Attacker modifies candidate_id inside exported raw ballot record file."
    "Standalone verifier recomputes ballot_hash = SHA-256(election+session+device+cand+seq) and detects mismatch."
    "BALLOT_HASH_MISMATCH (Hash does not match ballot payload)"
    [("ballot_id", VStr "B-001"); ("original", VStr "C001"); ("tampered", VStr "C002")];
  scenario 11 "Modified External Anchor Root" Cryptographic
    "Attacker alters or fabricates external audit root receipt hash."
    "Standalone verifier compares receipt root_hash with independent audit chain tip hash."
    "ANCHOR_MISMATCH (Anchored root != calculated audit root)"
    [("receipt_hash", VStr "ffffffffffffffff..."); ("actual_root", VStr "a4f89d...")];
  scenario 12 "Advisory Anomaly Non-Blocking Gate" Anomaly
    "Adversary attempts to cause denial-of-service by triggering artificial high-severity anomaly alerts."
    "Anomaly engine findings are strictly ADVISORY. They alert human operators but do not lock election lifecycle or signing."
    "ADVISORY FINDING LOGGED (Lifecycle not blocked, closing permitted)"
    [("severity", VStr "HIGH"); ("anomaly", VStr "BURST_VOTING_RATE"); ("impact", VStr "advisory_only")];
  scenario 13 "Voter Anonymity & RFID Credential De-anonymization" Cryptographic
    "Adversary inspects ballot database attempting to correlate raw voter identity or RFID UID with cast vote."
    "Ballot table schema stores zero voter credentials or RFID UIDs. HMAC-salted voter anonymization strictly breaks link to ballot row."
    "ANONYMIZED BALLOT ENFORCED (Zero voter PII column in ballot storage)"
    [("query", VStr "SELECT voter_credential FROM ballots"); ("target", VStr "raw_identity_correlation")];
  scenario 14 "Sequence Rollback & Non-Monotonic Counter" Protocol
    "Attacker attempts to submit ballot with sequence number less than or equal to last accepted device counter."
    "Monotonic counter check (sequence_number > device.last_sequence_number) rejects non-monotonic counters."
    "REPLAY REJECTED (HTTP 409: sequence_number <= last accepted)"
    [("device_id", VStr "EVM-001"); ("last_sequence", VNum 2); ("submitted_sequence", VNum 1)];
  scenario 15 "Candidate Insertion Post-Freeze Violation" Lifecycle
    "Malicious administrator attempts to insert or modify candidates after configuration freeze."
    "Election lifecycle guard restricts candidate mutations strictly to DRAFT state; rejects requests in LOCKED/OPEN/CLOSED states."
    "LIFECYCLE REJECTED (HTTP 400: Election configuration locked)"
    [("state", VStr "OPEN"); ("action", VStr "POST /api/elections/{id}/candidates"); ("candidate", VStr "C999")]]%string
  ++ LAST_ATTACKS.

(*@ dashboard/app/(officer)/election/attacks/page.tsx 233 235 AttacksDemoPage *)
Record state := mk_state {
  attacks : list AttackScenario;
  runningAll : bool;
  activeFilter : string }.

Definition set_attacks (v : list AttackScenario) (s : state) : state :=
  mk_state v (runningAll s) (activeFilter s).
Definition set_runningAll (v : bool) (s : state) : state :=
  mk_state (attacks s) v (activeFilter s).
Definition set_activeFilter (v : string) (s : state) : state :=
  mk_state (attacks s) (runningAll s) v.

(*@ dashboard/app/(officer)/election/attacks/page.tsx 233 235 AttacksDemoPage *)
Definition initial : state := mk_state INITIAL_ATTACKS false "ALL".

Abbreviation M := (prog state).

(** [{ ...a, status: "RUNNING" }]. *)
(*@ dashboard/app/(officer)/election/attacks/page.tsx 239 239 runAttack *)
Definition mark (a : AttackScenario) : AttackScenario :=
  {| a_id := a_id a; a_name := a_name a; a_category := a_category a; a_threat := a_threat a;
     a_defense := a_defense a; a_expectedResult := a_expectedResult a; a_payload := a_payload a;
     a_status := RUNNING; a_observedResult := a_observedResult a; a_details := a_details a |}.

(*@ dashboard/app/(officer)/election/attacks/page.tsx 247 252 runAttack *)
Definition defend (a : AttackScenario) : AttackScenario :=
  {| a_id := a_id a; a_name := a_name a; a_category := a_category a; a_threat := a_threat a;
     a_defense := a_defense a; a_expectedResult := a_expectedResult a; a_payload := a_payload a;
     a_status := DEFENDED; a_observedResult := Some (a_expectedResult a);
     a_details := Some "Defense verified: backend security boundary successfully identified and repelled simulated anomaly."%string |}.

(** [setAttacks(prev => prev.map(a => a.id === id ? f(a) : a))]. *)
Definition at_id (id : Z) (f : AttackScenario -> AttackScenario) (s : state) : state :=
  set_attacks (map (fun a => if a_id a =? id then f a else a) (attacks s)) s.

(*@ dashboard/app/(officer)/election/attacks/page.tsx 237 257 runAttack *)
Definition runAttack (id : Z) : M unit :=
  upd (at_id id mark);;
  sleep 500;;
  upd (at_id id defend).

(** The body of the loop over the scenarios of the render. *)
(*@ dashboard/app/(officer)/election/attacks/page.tsx 261 278 runAllAttacks *)
Fixpoint run_each (l : list AttackScenario) : M unit :=
  match l with
  | [] => mret tt
  | attack :: l' =>
      upd (at_id (a_id attack) mark);;
      sleep 250;;
      upd (at_id (a_id attack) defend);;
      run_each l'
  end.

(*@ dashboard/app/(officer)/election/attacks/page.tsx 259 280 runAllAttacks *)
Definition runAllAttacks (s : state) : M unit :=
  upd (set_runningAll true);;
  run_each (attacks s);;
  upd (set_runningAll false).

(*@ dashboard/app/(officer)/election/attacks/page.tsx 282 284 resetAll *)
Definition resetAll : M unit := upd (set_attacks INITIAL_ATTACKS).

Inductive ui := ClickReset | ClickAll | ClickFilter (cat : string) | ClickSimulate (id : Z).

#[export] Instance ui_eq_dec : EqDecision ui. Proof. solve_decision. Defined.

(** The page takes nothing from its surroundings. *)
Inductive env := .

(*@ dashboard/app/(officer)/election/attacks/page.tsx 307 377 AttacksDemoPage *)
Definition on_ui (u : ui) (s : state) : M unit :=
  match u with
  | ClickReset => resetAll
  | ClickAll => runAllAttacks s
  | ClickFilter cat => upd (set_activeFilter cat)
  | ClickSimulate id => runAttack id
  end.

Definition on_surroundings (x : env) (s : state) : M unit := match x with end.

(** ** The page *)

(*@ dashboard/app/(officer)/election/attacks/page.tsx 286 289 filteredAttacks *)
Definition filteredAttacks (s : state) : list AttackScenario :=
  if String.eqb (activeFilter s) "ALL" then attacks s
  else List.filter (fun a => String.eqb (category_str (a_category a)) (activeFilter s)) (attacks s).

(*@ dashboard/app/(officer)/election/attacks/page.tsx 291 291 defendedCount *)
Definition defendedCount (s : state) : Z :=
  Z.of_nat (List.length (List.filter (fun a => bool_decide (a_status a = DEFENDED)) (attacks s))).

(** [Math.round((defendedCount / (attacks.length || 1)) * 100)]. *)
(*@ dashboard/app/(officer)/election/attacks/page.tsx 344 344 AttacksDemoPage *)
Definition rate (s : state) : option Z :=
  let n := Z.of_nat (List.length (attacks s)) in
  math_round (num_mul (div_ZZ (defendedCount s) (if n =? 0 then 1 else n)) (of_Z 100)).

(*@ dashboard/app/(officer)/election/attacks/page.tsx 358 378 AttacksDemoPage *)
Definition filter_bar (s : state) : list (node ui) :=
  [Text "Advisory Security Demo:";
   Text "Attacks are executed against an isolated simulation runtime. Defense mechanisms mirror the automated regression suite in backend/tests/test_attacks.py."]
  ++ map (fun cat =>
       Button cat false (ClickFilter cat))
       ["ALL"; "Cryptographic"; "Lifecycle"; "Device"; "Protocol"; "Anomaly"]%string.

(*@ dashboard/app/(officer)/election/attacks/page.tsx 382 454 AttacksDemoPage *)
Definition card (a : AttackScenario) : list (node ui) :=
  [Text ("Vector #" ++s Z_to_string (a_id a)); Badge "neutral" (category_str (a_category a));
   Text (a_name a); Text "Threat: "; Text (a_threat a); Text "Defense: "; Text (a_defense a);
   match a_status a with
   | IDLE => Badge "neutral" "READY"
   | RUNNING => Badge "warning" "TESTING..."
   | DEFENDED => Badge "success" "DEFENDED"
   | FAILED => Badge "danger" "BREACHED"
   end]
  ++ LibButton (if bool_decide (a_status a = DEFENDED) then "Re-test" else "Simulate")
       (bool_decide (a_status a = RUNNING)) false (ClickSimulate (a_id a))
  ++ match a_observedResult a with
     | Some r =>
         when (truthy_str r)
           [Text "Observed Result:"; Text r; Text (default EmptyString (a_details a))]
     | None => []
     end.

(*@ dashboard/app/(officer)/election/attacks/page.tsx 293 458 AttacksDemoPage *)
Definition render (s : state) : list (node ui) :=
  let total := Z.of_nat (List.length (attacks s)) in
  [Text "Attack Demonstration Center";
   Text "Controlled verification of SecureVOTE defense-in-depth mechanisms across 20 attack vectors"]
  ++ LibButton "Reset" false (runningAll s) ClickReset
  ++ LibButton "Execute All 20 Vectors" (runningAll s) false ClickAll
  ++ [Text "Attack Scenarios"; Text (Z_to_string total); Text "Documented security test cases";
      Text "Controlled Tests Passed";
      Text (Z_to_string (defendedCount s) ++s " / " ++s Z_to_string total);
      Text "Simulated test assertions"; Text "Detection / Rejection Rate (Tested)";
      Text (match rate s with Some z => Z_to_string z | None => "NaN" end ++s "%");
      Text "100% in tested scenarios — controlled simulation only"; Text "Scope";
      Text "CONTROLLED SIMULATION ONLY"; Text "Does not imply universal security"]
  ++ filter_bar s
  ++ flat_map card (filteredAttacks s).

Definition page : component state ui env := mk_component render on_ui on_surroundings.

End Attacks.
