(* ===== verification/AttacksFacts.v ===== *)
(** * What the attack demonstration centre shows

    The page sends nothing, so its verdicts cannot depend on the system they are about: each
    scenario that is played ends as defended with the result it was written with. The
    demonstration itself works: however its buttons are pressed it comes to an end, and
    playing all scenarios shows a rate of 100%. *)
From S2P Require Import Prelude JsValue JsNumber Types ApiClient View Common React Spinner Attacks.
From Stdlib Require Import String.
Import Attacks.

#[export] Hint Unfold on_ui on_surroundings runAttack runAllAttacks resetAll : prog.

(** ** Invariant *)

(** A scenario as it was written. *)
Definition erase (a : AttackScenario) : AttackScenario :=
  scenario (a_id a) (a_name a) (a_category a) (a_threat a) (a_defense a) (a_expectedResult a) (a_payload a).

(** The verdicts a scenario can be shown with. *)
Definition verdict (a : AttackScenario) : Prop :=
  a_status a <> FAILED
  /\ (a_observedResult a = None \/ a_observedResult a = Some (a_expectedResult a))
  /\ (a_status a = DEFENDED -> a_observedResult a = Some (a_expectedResult a)).

Definition Inv (s : state) : Prop :=
  map erase (attacks s) = INITIAL_ATTACKS /\ Forall verdict (attacks s).

Definition NoRequest (s : state) (r : req) : Prop := False.

Lemma erase_at id f l :
  (forall a, erase (f a) = erase a) ->
  map erase (map (fun a => if a_id a =? id then f a else a) l) = map erase l.
Proof.
  intros Hf. rewrite map_map. apply map_ext. intros a. by destruct (a_id a =? id).
Qed.

Lemma verdict_mark a : verdict a -> verdict (mark a).
Proof. intros (_ & H & _). by split_and!. Qed.

Lemma verdict_defend a : verdict (defend a).
Proof. split_and!; [done | by right | done]. Qed.

Lemma Inv_at id f s :
  (forall a, erase (f a) = erase a) -> (forall a, verdict a -> verdict (f a)) -> Inv s -> Inv (at_id id f s).
Proof.
  intros He Hv [H1 H2]. split; cbn; [by rewrite erase_at |].
  apply Forall_fmap. eapply Forall_impl; [exact H2 |]. intros a Ha. cbn. destruct (a_id a =? id); auto.
Qed.

Lemma Inv_mark id s : Inv s -> Inv (at_id id mark s).
Proof. apply Inv_at; [done | exact verdict_mark]. Qed.

Lemma Inv_defend id s : Inv s -> Inv (at_id id defend s).
Proof. apply Inv_at; [done |]. intros a _. apply verdict_defend. Qed.

Lemma attacks_inv_initial : Inv initial.
Proof.
  split; [reflexivity |]. cbn. apply List.Forall_forall. intros a Ha.
  assert (existsb (fun b => bool_decide (a_status b <> IDLE)) INITIAL_ATTACKS = false) as Hs by reflexivity.
  assert (forall b, In b INITIAL_ATTACKS -> a_status b = IDLE /\ a_observedResult b = None) as H
    by (intros b Hb; cbn in Hb; repeat (destruct Hb as [<-|Hb]; [done |]); done).
  destruct (H a Ha) as [E1 E2]. unfold verdict. rewrite E1, E2. split_and!; [done | by left | done].
Qed.

Lemma run_each_keeps l : keeps Inv NoRequest (run_each l).
Proof.
  induction l as [|a l IH]; [apply keeps_ret |].
  apply keeps_bind; [apply keeps_upd, Inv_mark | intros _].
  apply keeps_bind; [apply keeps_sleep | intros _].
  apply keeps_bind; [apply keeps_upd, Inv_defend | intros _]. exact IH.
Qed.

Lemma page_safe : safe_component page Inv NoRequest (fun _ => True).
Proof.
  split; [| done]. intros u s _ HI _. unfold page. cbn [on_user].
  destruct u; cbn [on_ui]; (apply keeps_handles; [| done]).
  - apply keeps_upd. intros s' _. apply attacks_inv_initial.
  - unfold runAllAttacks. apply keeps_bind; [by apply keeps_upd | intros _].
    apply keeps_bind; [apply run_each_keeps | intros _]. by apply keeps_upd.
  - by apply keeps_upd.
  - unfold runAttack. keeps_auto; auto using Inv_mark, Inv_defend.
Qed.

(** C33. In every interleaving the page has sent nothing; its scenarios are the ones it was
    written with, none has ever failed, and whatever is shown as observed is the result that
    was expected. *)
Theorem attacks_never_tested w :
  reachable page (fun _ => True) initial w ->
  sent w = [] /\ map erase (attacks (st w)) = INITIAL_ATTACKS
  /\ forall a, In a (attacks (st w)) ->
       a_status a <> FAILED
       /\ (a_observedResult a = None \/ a_observedResult a = Some (a_expectedResult a)).
Proof.
  intros Hw. destruct (reachable_good _ _ _ _ page_safe initial w attacks_inv_initial Hw) as [[H1 H2] _ Hs].
  split_and!; [| done |].
  - destruct (sent w) as [|[s r] l]; [done |]. by inversion Hs.
  - intros a Ha. destruct (Forall_In _ _ _ H2 Ha) as (H3 & H4 & _). done.
Qed.

(** ** At rest *)

(** The flags of the page: one for the run of all scenarios, one for each scenario. *)
Definition running (id : Z) (s : state) : bool :=
  existsb (fun a => (a_id a =? id) && bool_decide (a_status a = RUNNING)) (attacks s).

Definition raised (o : option Z) (s : state) : bool :=
  match o with None => runningAll s | Some id => running id s end.

Lemma running_at id i f s :
  (forall a, a_id (f a) = a_id a) ->
  running id (at_id i f s)
  = existsb (fun a => (a_id a =? id) && (if a_id a =? i then bool_decide (a_status (f a) = RUNNING)
                                         else bool_decide (a_status a = RUNNING))) (attacks s).
Proof.
  intros Hf. unfold running, at_id. cbn. induction (attacks s) as [|a l IH]; [done |].
  cbn. rewrite IH. destruct (a_id a =? i); cbn; by rewrite ?Hf.
Qed.

(** Playing another scenario does not touch this one's flag. *)
Lemma running_other id i f s :
  i <> id -> (forall a, a_id (f a) = a_id a) -> running id (at_id i f s) = running id s.
Proof.
  intros Hne Hf. rewrite running_at by done. unfold running.
  induction (attacks s) as [|a l IH]; [done |]. cbn. rewrite IH. f_equal.
  destruct (Z.eqb_spec (a_id a) id), (Z.eqb_spec (a_id a) i); try done. congruence.
Qed.

Lemma running_defend id s : running id (at_id id defend s) = false.
Proof.
  rewrite running_at by done. apply not_true_is_false. intros (a & _ & Ha)%existsb_exists.
  destruct (a_id a =? id); [done |]. by rewrite andb_false_l in Ha.
Qed.

Lemma running_calm id i s : running id (at_id i defend s) = true -> running id s = true.
Proof.
  destruct (decide (i = id)) as [->|Hne]; [by rewrite running_defend | by rewrite running_other].
Qed.

(** A step of the loop: scenario [i] starts, and is defended when the function goes on. *)
Lemma low_play id i b (k : prog state unit) s0 s :
  (running id s = true -> b = false /\ running id s0 = true) ->
  (forall b s1 s2, (running id s2 = true -> b = false /\ running id s1 = true) ->
     lowers (fun _ => True) (running id) b k s1 s2) ->
  forall ms, lowers (fun _ => True) (running id) b
    (upd (at_id i mark);; sleep ms;; upd (at_id i defend);; k) s0 s.
Proof.
  intros H0 Hk ms. cbn. destruct (decide (i = id)) as [->|Hne].
  - exists true. split; [by left |]. intros s' _. apply Hk. by rewrite running_defend.
  - exists false. split.
    + right. unfold fine. rewrite running_other by done. exact H0.
    + intros s' _. apply Hk. rewrite running_other by done. auto.
Qed.

Lemma low_each id l k b s0 s :
  (forall b s1 s2, (running id s2 = true -> b = false /\ running id s1 = true) ->
     lowers (fun _ => True) (running id) b k s1 s2) ->
  (running id s = true -> b = false /\ running id s0 = true) ->
  lowers (fun _ => True) (running id) b (run_each l;; k) s0 s.
Proof.
  intros Hk. revert b s0 s. induction l as [|a l IH]; intros b s0 s H0; [by apply Hk |].
  pose (rest := (run_each l;; k) : prog state unit).
  refine (low_play id (a_id a) b rest s0 s H0 _ 250). intros b' s1 s2 H. by apply IH.
Qed.

(** The run of all scenarios always ends by lowering its flag. *)
Lemma low_run_all l b s0 s :
  lowers (fun _ => True) runningAll b (run_each l;; upd (set_runningAll false)) s0 s.
Proof.
  revert b s0 s. induction l as [|a l IH]; intros b s0 s; [by unfold lowers, fine |].
  unfold lowers. cbn. exists true. split; [by left |]. intros s' _. apply IH.
Qed.

Lemma page_lowers o : lowering_component page (fun _ => True) (fun _ => True) (raised o).
Proof.
  split; [| done]. intros u s _ _ _. unfold page. cbn [on_user].
  destruct o as [id|]; cbn [raised]; destruct u as [| |c|i]; cbn [on_ui]; try done.
  - unfold lowers, resetAll. cbn. unfold fine. intros H. exfalso. revert H. unfold running. cbn.
    by rewrite ?andb_false_r.
  - apply (low_each id (attacks s) (upd (set_runningAll false)) false s (set_runningAll true s)); [| done].
    intros b s1 s2 H. exact H.
  - refine (low_play id i false (mret tt) s s _ _ 500); [done |]. intros b s1 s2 H. exact H.
  - apply low_upd, low_run_all.
  - unfold lowers. cbn. exists false. split; [right; by intros H |]. intros s' _ H. by split.
Qed.

Lemma at_rest w :
  reachable page (fun _ => True) initial w -> idle w = true ->
  runningAll (st w) = false /\ forall a, In a (attacks (st w)) -> a_status a <> RUNNING.
Proof.
  intros Hw Hidle.
  assert (forall o, raised o (st w) = false) as H.
  { intros o. eapply never_left_busy; [apply page_lowers | | exact Hw | exact Hidle]. destruct o; [| done].
    unfold raised, running. cbn. by rewrite ?andb_false_r. }
  split; [apply (H None) |]. intros a Ha E. specialize (H (Some (a_id a))). cbn in H.
  assert (running (a_id a) (st w) = true); [| congruence].
  apply existsb_exists. exists a. by rewrite Z.eqb_refl, bool_decide_eq_true_2.
Qed.

(** ** Termination

    The handlers only update and sleep, so the wake-ups still to come can be counted. *)

Fixpoint plain (p : prog state unit) : bool :=
  match p with
  | Ret _ => true
  | Upd _ k | Sleep _ k => plain k
  | _ => false
  end.

Fixpoint sleeps (p : prog state unit) : nat :=
  match p with
  | Upd _ k => sleeps k
  | Sleep _ k => S (sleeps k)
  | _ => 0
  end.

Definition plain_task (t : task state) : Prop :=
  match t with Sleeping _ _ k => plain k = true | _ => False end.

Definition wakes (t : task state) : nat :=
  match t with Sleeping _ _ k => S (sleeps k) | _ => 0 end.

(** The wake-ups to come in a world. *)
Definition remaining (w : world state) : nat := list_sum (map wakes (tasks w)).

Lemma exec_plain p w :
  plain p = true -> Forall plain_task (tasks w) ->
  Forall plain_task (tasks (exec p w)) /\ remaining (exec p w) = (remaining w + sleeps p)%nat.
Proof.
  revert w. induction p as [[]|e|f k IH|k IH|q k|ms k|every ms body k IH|id k IH|k IH]
    using prog_unit_ind; intros w Hp Ht; cbn in Hp; try done; cbn [exec sleeps].
  - by apply (IH (with_st (f (st w)) w)).
  - unfold add_task, remaining. cbn. split; [by apply Forall_app_2; [| constructor] |].
    rewrite map_app, list_sum_app. cbn. lia.
Qed.

Lemma remaining_drop w t :
  wf w -> In t (tasks w) -> remaining w = (wakes t + remaining (drop_task (task_id t) w))%nat.
Proof.
  intros [Hn _]. unfold remaining, drop_task, with_tasks. cbn [tasks]. revert Hn. induction (tasks w) as [|x l IH]; [done |].
  cbn [map]. intros [Hx Hl]%NoDup_cons [->|Hin].
  - rewrite filter_cons_False by (rewrite Nat.eqb_refl; auto). cbn. do 2 f_equal.
    assert (forall y, In y l -> task_id y <> task_id t) as Hne.
    { intros y Hy E. apply Hx. rewrite <- E. by apply list_elem_of_In, in_map. }
    clear -Hne. induction l as [|y l IH]; [done |].
    rewrite filter_cons_True by (by rewrite (proj2 (Nat.eqb_neq _ _) (Hne y (or_introl eq_refl)))).
    cbn [map]. f_equal. apply IH. intros z Hz. apply Hne. by right.
  - rewrite filter_cons_True.
    + specialize (IH Hl Hin). unfold list_sum in *. cbn in *. lia.
    + rewrite (proj2 (Nat.eqb_neq _ _)); [done |]. intros E. apply Hx. rewrite E.
      by apply list_elem_of_In, in_map.
Qed.

Lemma plain_each l k : plain k = true -> plain (run_each l;; k) = true.
Proof. intros Hk. induction l as [|a l IH]; [done | exact IH]. Qed.

Lemma on_ui_plain u s : plain (on_ui u s) = true.
Proof. destruct u; try done. by apply plain_each. Qed.

Definition is_fire (e : event ui env) : bool := match e with Fire _ => true | _ => false end.
Definition is_click (e : event ui env) : bool := match e with User _ => true | _ => false end.

Definition sleeping_world (w : world state) : Prop := wf w /\ Forall plain_task (tasks w).

Lemma step_remaining w e w' :
  sleeping_world w -> step page w e = Some w' ->
  sleeping_world w'
  /\ (is_click e = false -> remaining w = ((if is_fire e then 1 else 0) + remaining w')%nat).
Proof.
  intros [Hw Ht] Hstep. assert (wf w') as Hw' by (by eapply wf_step). unfold sleeping_world.
  destruct e as [u|[]|id answer|ms|id]; cbn [step] in Hstep.
  - destruct (allows _ u); [| done]. injection Hstep as <-.
    by destruct (exec_plain (on_ui u (st w)) w (on_ui_plain u (st w)) Ht).
  - destruct (get_task id w) as [t|] eqn:Hg; [| done]. apply get_task_In in Hg as [Hin _].
    specialize (Forall_In _ _ _ Ht Hin). by destruct t.
  - destruct (0 <=? ms); [| done]. by injection Hstep as <-.
  - destruct (get_task id w) as [t|] eqn:Hg; [| done]. apply get_task_In in Hg as [Hin <-].
    pose proof (Forall_In _ _ _ Ht Hin) as Hp. pose proof (remaining_drop w t Hw Hin) as Hr.
    destruct t as [|i d k|]; try done. destruct (may_fire _ d w); [| done]. injection Hstep as <-.
    destruct (exec_plain k (drop_task i w) Hp) as [H1 H2]; [by apply Forall_sub_filter |].
    split; [done |]. intros _. cbn in Hr. cbn [is_fire]. rewrite H2. cbn [task_id] in *. lia.
Qed.

Lemma run_remaining es w w' :
  sleeping_world w -> run page w es = Some w' -> forallb (fun e => negb (is_click e)) es = true ->
  sleeping_world w' /\ remaining w = (List.length (List.filter is_fire es) + remaining w')%nat.
Proof.
  revert w. induction es as [|e es IH]; intros w Hw; cbn [run]; [by intros [= <-] |].
  destruct (step page w e) as [w1|] eqn:E; [| done]. intros Hr [He Hes]%andb_true_iff.
  destruct (step_remaining w e w1 Hw E) as [Hw1 H1].
  destruct (IH w1 Hw1 Hr Hes) as [H2 H3]. split; [done |]. rewrite (H1 (proj1 (negb_true_iff _) He)).
  cbn. destruct (is_fire e); cbn; lia.
Qed.

Lemma reachable_sleeping w : reachable page (fun _ => True) initial w -> sleeping_world w.
Proof.
  induction 1 as [|w e w' _ IH _ Hstep]; [by repeat constructor |]. by apply (step_remaining w e w').
Qed.

(** C34. The demonstration always ends: from every reachable world, whatever the order of the
    events, exactly [remaining w] wake-ups happen as long as nothing is clicked; when none
    remains nothing is pending, no scenario is running and all controls are enabled. *)
Theorem attacks_always_end w es w' :
  reachable page (fun _ => True) initial w ->
  run page w es = Some w' -> forallb (fun e => negb (is_click e)) es = true ->
  remaining w = (List.length (List.filter is_fire es) + remaining w')%nat
  /\ (remaining w' = 0%nat <-> tasks w' = [])
  /\ (remaining w' = 0%nat ->
      runningAll (st w') = false /\ forall a, In a (attacks (st w')) -> a_status a <> RUNNING).
Proof.
  intros Hw Hr Hes. destruct (run_remaining es w w' (reachable_sleeping w Hw) Hr Hes) as [[_ Ht] Hn].
  assert (remaining w' = 0%nat <-> tasks w' = []) as Hz.
  { unfold remaining. split; [| by intros ->]. destruct (tasks w') as [|t l]; [done |].
    apply Forall_cons in Ht as [H _]. by destruct t. }
  split_and!; [done | done |]. intros H0%Hz. apply at_rest.
  - eapply reachable_run; [exact Hw | by apply Forall_true | exact Hr].
  - unfold idle. by rewrite H0.
Qed.

(** ** Playing all scenarios *)

(** What a run over [l] leaves. *)
Definition played (l : list AttackScenario) (s : state) : state :=
  fold_left (fun s a => at_id (a_id a) defend (at_id (a_id a) mark s)) l s.

(** The wake-ups of a run of [n] scenarios whose first is task [f]. *)
Fixpoint wake_ups (f n : nat) : list (event ui env) :=
  match n with
  | O => []
  | S n' => [Tick 250; Fire f] ++ wake_ups (S f) n'
  end.

Lemma run_loop l : forall s n f snt unc,
  run page (exec (run_each l;; upd (set_runningAll false)) (mk_world s n f [] snt unc))
    (wake_ups f (List.length l))
  = Some (mk_world (set_runningAll false (played l s)) (n + 250 * Z.of_nat (List.length l))
            (f + List.length l)%nat [] snt unc).
Proof.
  induction l as [|a l IH]; intros s n f snt unc.
  - cbn. by rewrite Z.add_0_r, Nat.add_0_r.
  - cbn [List.length wake_ups app run_each]. rewrite run_cons, step_tick by lia.
    cbn -[run step run_each wake_ups]. unfold add_task, with_st. cbn -[run step run_each wake_ups].
    rewrite app_nil_r, run_cons. erewrite step_sleep_single by (first [reflexivity | cbn; lia]).
    cbn -[run step run_each wake_ups].
    rewrite IH. cbn [played fold_left]. do 2 f_equal; lia.
Qed.

Lemma defend_mark a : defend (mark a) = defend a.
Proof. done. Qed.

Lemma played_attacks l s :
  attacks (played l s)
  = map (fun a => if existsb (fun b => a_id a =? a_id b) l then defend a else a) (attacks s).
Proof.
  revert s. induction l as [|b l IH]; intros s; cbn [played fold_left].
  - cbn. by rewrite map_id.
  - fold (played l (at_id (a_id b) defend (at_id (a_id b) mark s))). rewrite IH. unfold at_id. cbn.
    rewrite !map_map. apply map_ext. intros a. destruct (Z.eqb_spec (a_id a) (a_id b)) as [E|E]; cbn.
    + rewrite E, Z.eqb_refl. cbn. by destruct (existsb _ l).
    + by rewrite (proj2 (Z.eqb_neq _ _) E).
Qed.

Lemma played_all s s' : attacks s' = attacks s -> attacks (played (attacks s) s') = map defend (attacks s).
Proof.
  intros E. rewrite played_attacks, E. apply map_ext_in. intros a Ha.
  rewrite (proj2 (existsb_exists _ _)); [done |]. exists a. by rewrite Z.eqb_refl.
Qed.

Lemma allows_all s : allows (render s) ClickAll = negb (runningAll s).
Proof.
  assert (forall l, allows (flat_map card l) ClickAll = false) as H.
  { intros l. rewrite allows_flat_map. induction l as [|a l IH]; [done |]. cbn [existsb]. rewrite IH.
    unfold card, LibButton. rewrite !allows_app.
    destruct (a_observedResult a) as [r|], (a_status a); rewrite ?allows_when; cbn; decide_eqs; by tidy_bool. }
  unfold render, filter_bar. rewrite !allows_app, H. unfold LibButton. cbn. decide_eqs. by tidy_bool.
Qed.

(** From every reachable world at rest, executing all scenarios takes twenty wake-ups and
    five seconds, after which every scenario is defended with its expected result, the rate
    shown is 100%, nothing is pending and nothing was sent. *)
Theorem attacks_run_all w :
  reachable page (fun _ => True) initial w -> tasks w = [] ->
  exists w', run page w (User ClickAll :: wake_ups (fresh w) 20) = Some w'
    /\ tasks w' = [] /\ runningAll (st w') = false /\ sent w' = sent w /\ now w' = now w + 5000
    /\ (forall a, In a (attacks (st w')) ->
          a_status a = DEFENDED /\ a_observedResult a = Some (a_expectedResult a))
    /\ rate (st w') = Some 100.
Proof.
  intros Hw Ht. destruct (reachable_good _ _ _ _ page_safe initial w attacks_inv_initial Hw) as [[He _] _ _].
  assert (List.length (attacks (st w)) = 20%nat) as Hlen.
  { rewrite <- (length_map erase), He. reflexivity. }
  destruct (at_rest w Hw) as [Hr _]; [unfold idle; by rewrite Ht |].
  destruct w as [s n f ts snt unc]. cbn [st tasks sent now fresh] in *. subst ts.
  rewrite run_cons. unfold step. cbn [st].
  change (allows (React.render page s) ClickAll) with (allows (render s) ClickAll).
  rewrite allows_all, Hr. cbn [negb]. rewrite <- Hlen.
  pose proof (run_loop (attacks s) (set_runningAll true s) n f snt unc) as Hrun.
  eexists. split; [exact Hrun |]. cbn [tasks st sent now]. rewrite Hlen.
  assert (attacks (played (attacks s) (set_runningAll true s)) = map defend (attacks s)) as Hp by by apply played_all.
  split_and!; try done; cbn [attacks set_runningAll].
  - rewrite Hp. by intros a (b & <- & _)%in_map_iff.
  - unfold rate, defendedCount. cbn [attacks set_runningAll]. rewrite Hp, filter_all.
    + rewrite length_map, Hlen. vm_compute. reflexivity.
    + by intros a (b & <- & _)%in_map_iff.
Qed.

(** A reset does not stop a scenario that is running: it comes back as defended. *)
Theorem attacks_reset_undone :
  exists w, run page (boot initial) [User (ClickSimulate 7); User ClickReset] = Some w
    /\ defendedCount (st w) = 0
    /\ exists w', run page w [Tick 500; Fire 0] = Some w' /\ defendedCount (st w') = 1.
Proof.
  apply run_witness. vm_compute. split; [done |]. eexists. by split.
Qed.

(** ** Concrete runs *)

(** One scenario is being played while another has ended. *)
Definition two_played : list (event ui env) :=
  [User (ClickSimulate 3); Tick 500; Fire 0; User (ClickSimulate 4)].

Definition playing : world state := default (boot initial) (run page (boot initial) two_played).

Lemma reachable_playing : reachable page (fun _ => True) initial playing.
Proof.
  eapply (reachable_run page (fun _ => True) initial (boot initial) two_played);
    [constructor | by repeat constructor | vm_compute; reflexivity].
Qed.

Lemma attacks_never_tested_witness : defendedCount (st playing) = 1 /\ sent playing = [].
Proof. split; [vm_compute; reflexivity | apply (attacks_never_tested playing reachable_playing)]. Defined.

Lemma attacks_always_end_witness :
  remaining playing = 1%nat
  /\ exists w', run page playing [Tick 500; Fire 1] = Some w' /\ remaining w' = 0%nat
       /\ runningAll (st w') = false.
Proof.
  split; [vm_compute; reflexivity |]. eexists. split; [vm_compute; reflexivity |]. split; [reflexivity |].
  eapply (attacks_always_end playing [Tick 500; Fire 1]);
    [exact reachable_playing | vm_compute; reflexivity | reflexivity | reflexivity].
Defined.

Lemma attacks_run_all_witness :
  exists w', run page (boot initial) (User ClickAll :: wake_ups 0 20) = Some w' /\ rate (st w') = Some 100.
Proof.
  destruct (attacks_run_all (boot initial)) as (w' & H1 & _ & _ & _ & _ & _ & H2);
    [constructor | reflexivity |].
  exists w'. split; [exact H1 | exact H2].
Defined.
