(* ===== verification/Security.v ===== *)
(** * The security centre: [app/(officer)/security/page.tsx]

    Health of the API, suspended devices, advisory anomalies, the RFID simulator and the table
    of security controls, all for the demonstration election. *)
From S2P Require Import Prelude JsValue JsNumber Types ApiClient View Common React.
From Stdlib Require Import String Ascii.

Module Security.

Inductive Category := PREVENTION | DETECTION | AUDITABILITY | VERIFICATION.

(*@ dashboard/app/(officer)/security/page.tsx 31 31 SecurityCategory *)
Inductive SecurityCategory := ALL | Only (c : Category).

#[export] Instance Category_eq_dec : EqDecision Category. Proof. solve_decision. Defined.
#[export] Instance SecurityCategory_eq_dec : EqDecision SecurityCategory. Proof. solve_decision. Defined.

Definition category_str (c : Category) : string :=
  match c with
  | PREVENTION => "PREVENTION" | DETECTION => "DETECTION" | AUDITABILITY => "AUDITABILITY"
  | VERIFICATION => "VERIFICATION"
  end.

Definition selection_str (c : SecurityCategory) : string :=
  match c with ALL => "ALL" | Only c => category_str c end.

(*@ dashboard/app/(officer)/security/page.tsx 33 40 SecurityControl *)
Record SecurityControl := {
  sc_id : Z; sc_category : Category; sc_name : string; sc_mechanism : string;
  sc_detection : string; sc_status : string }.

Definition control (id : Z) (category : Category) (name mechanism detection : string) : SecurityControl :=
  {| sc_id := id; sc_category := category; sc_name := name; sc_mechanism := mechanism;
     sc_detection := detection; sc_status := "ACTIVE" |}.

(*@ dashboard/app/(officer)/security/page.tsx 42 178 SECURITY_CONTROLS *)
Definition SECURITY_CONTROLS : list SecurityControl := [
  control 1 PREVENTION "Duplicate Session & Double Voting Prevention"
    "Unique DB Constraint on (election_id, voter_credential)"
    "REQUEST REJECTED (HTTP 409) on repeated token presentation";
  control 2 PREVENTION "Closed-Election Ingestion Guard"
    "FSM State Enforcement in Ballot Ingestion Pipeline"
    "REQUEST REJECTED (HTTP 409) unless election is in OPEN state";
  control 3 PREVENTION "Message Replay Prevention"
    "Strict Monotonic Sequence Counter per Hardware Unit in EEPROM"
    "REPLAY REJECTED (HTTP 409) if packet sequence <= last_seen";
  control 4 PREVENTION "Hardware Device Whitelisting"
    "Pre-registered Device Authentication & Revocation Check"
    "ACCESS REJECTED (HTTP 403) for unknown or revoked hardware units";
  control 5 PREVENTION "Voter Identity-to-Ballot Linkability Prevention"
    "Keyed HMAC-SHA256 Pseudonymization (Zero Raw Biometric/UID Persistence)"
    "RFID AUTHENTICATION != VOTER ELIGIBILITY enforcement";
  control 6 DETECTION "Physical Enclosure Tamper Detection"
    "Hardware Microswitch + Non-Volatile EEPROM Latch"
    "TAMPER_DETECTED event logged and device placed in SUSPENDED state";
  control 7 DETECTION "Advisory Anomaly Detection Engine"
    "6 Deterministic Heuristics (Rate bursts, sequence gaps, repeated rejections)"
    "ADVISORY FINDING  -  REQUIRES HUMAN REVIEW (Non-blocking)";
  control 8 DETECTION "Hardware Telemetry & Heartbeat Liveness"
    "Periodic Status Ping with Sequence Tracking"
    "STATION_DESYNC or OFFLINE alert surfaced in dashboard";
  control 9 AUDITABILITY "Append-Only Audit Log Hash Chain"
    "Cryptographic SHA-256 Chaining (Tamper-Evident Historical Record)"
    "AUDIT VERIFICATION FAILED on any historical record deletion or mutation";
  control 10 AUDITABILITY "Audit-Root External Anchoring"
    "Cryptographic Root Hash Commitments (External Immutable Proofs)"
    "ANCHOR_MISMATCH on historical tree divergence or fork";
  control 11 AUDITABILITY "Presiding Officer Chronological Diary"
    "System & Operational Event Trail (Statutory Rule 49V Analogue)"
    "EVENT_SEQUENCE_GAP alert if expected milestones missing";
  control 12 VERIFICATION "Configuration Freezing & Roster Verification"
    "Frozen Candidate Slate SHA-256 Fingerprint in DB & EEPROM"
    "CONFIGURATION HASH MISMATCH on candidate order/name alteration";
  control 13 VERIFICATION "Zero-Drift Mathematical Reconciliation"
    "Exact Equation Proof: sum(candidate_votes) == total_ballots == sum(device_votes)"
    "RECONCILIATION FAILURE if delta != 0 across counting tables";
  control 14 VERIFICATION "Result Manifest Asymmetric Digital Signing"
    "Ed25519 Elliptic Curve Signatures over Certified Result Manifest"
    "SIGNATURE_INVALID on tampered tallies or untrusted key presentation";
  control 15 VERIFICATION "Machine-Verifiable Independent Verifier"
    "Pure Python Verifier on Export Envelope (Database-Disconnected)"
    "Typed 12-point failure codes if mathematical invariants fail";
  control 16 VERIFICATION "VVPAT Paper Slip Sample Reconciliation"
    "Mandatory Random 5-Station Paper Slip Audit (Rule 56D Analogue)"
    "SLIP_COUNT_DISCREPANCY flags physical-to-electronic mismatch"]%string.

(*@ dashboard/app/(officer)/security/page.tsx 181 192 SecurityCenterPage *)
Record state := mk_state {
  token : option string;
  mounted : bool;
  health : option HealthCheckResponse;
  devices : list DeviceResponse;
  tamperEvents : list AuditEntryResponse;
  anomalies : list AdvisoryFinding;
  selectedCategory : SecurityCategory;
  rfidCard : string;
  rfidDeviceId : string;
  rfidResult : option RFIDTapResponse;
  rfidLoading : bool;
  loading : bool;
  error : option string }.

Definition set_token (v : option string) (s : state) : state :=
  mk_state v (mounted s) (health s) (devices s) (tamperEvents s) (anomalies s)
    (selectedCategory s) (rfidCard s) (rfidDeviceId s) (rfidResult s) (rfidLoading s)
    (loading s) (error s).
Definition set_mounted (v : bool) (s : state) : state :=
  mk_state (token s) v (health s) (devices s) (tamperEvents s) (anomalies s)
    (selectedCategory s) (rfidCard s) (rfidDeviceId s) (rfidResult s) (rfidLoading s)
    (loading s) (error s).
Definition set_health (v : option HealthCheckResponse) (s : state) : state :=
  mk_state (token s) (mounted s) v (devices s) (tamperEvents s) (anomalies s)
    (selectedCategory s) (rfidCard s) (rfidDeviceId s) (rfidResult s) (rfidLoading s)
    (loading s) (error s).
Definition set_devices (v : list DeviceResponse) (s : state) : state :=
  mk_state (token s) (mounted s) (health s) v (tamperEvents s) (anomalies s)
    (selectedCategory s) (rfidCard s) (rfidDeviceId s) (rfidResult s) (rfidLoading s)
    (loading s) (error s).
Definition set_tamperEvents (v : list AuditEntryResponse) (s : state) : state :=
  mk_state (token s) (mounted s) (health s) (devices s) v (anomalies s) (selectedCategory s)
    (rfidCard s) (rfidDeviceId s) (rfidResult s) (rfidLoading s) (loading s) (error s).
Definition set_anomalies (v : list AdvisoryFinding) (s : state) : state :=
  mk_state (token s) (mounted s) (health s) (devices s) (tamperEvents s) v (selectedCategory s)
    (rfidCard s) (rfidDeviceId s) (rfidResult s) (rfidLoading s) (loading s) (error s).
Definition set_selectedCategory (v : SecurityCategory) (s : state) : state :=
  mk_state (token s) (mounted s) (health s) (devices s) (tamperEvents s) (anomalies s) v
    (rfidCard s) (rfidDeviceId s) (rfidResult s) (rfidLoading s) (loading s) (error s).
Definition set_rfidCard (v : string) (s : state) : state :=
  mk_state (token s) (mounted s) (health s) (devices s) (tamperEvents s) (anomalies s)
    (selectedCategory s) v (rfidDeviceId s) (rfidResult s) (rfidLoading s) (loading s)
    (error s).
Definition set_rfidDeviceId (v : string) (s : state) : state :=
  mk_state (token s) (mounted s) (health s) (devices s) (tamperEvents s) (anomalies s)
    (selectedCategory s) (rfidCard s) v (rfidResult s) (rfidLoading s) (loading s) (error s).
Definition set_rfidResult (v : option RFIDTapResponse) (s : state) : state :=
  mk_state (token s) (mounted s) (health s) (devices s) (tamperEvents s) (anomalies s)
    (selectedCategory s) (rfidCard s) (rfidDeviceId s) v (rfidLoading s) (loading s) (error s).
Definition set_rfidLoading (v : bool) (s : state) : state :=
  mk_state (token s) (mounted s) (health s) (devices s) (tamperEvents s) (anomalies s)
    (selectedCategory s) (rfidCard s) (rfidDeviceId s) (rfidResult s) v (loading s) (error s).
Definition set_loading (v : bool) (s : state) : state :=
  mk_state (token s) (mounted s) (health s) (devices s) (tamperEvents s) (anomalies s)
    (selectedCategory s) (rfidCard s) (rfidDeviceId s) (rfidResult s) (rfidLoading s) v
    (error s).
Definition set_error (v : option string) (s : state) : state :=
  mk_state (token s) (mounted s) (health s) (devices s) (tamperEvents s) (anomalies s)
    (selectedCategory s) (rfidCard s) (rfidDeviceId s) (rfidResult s) (rfidLoading s)
    (loading s) v.

(*@ dashboard/app/(officer)/security/page.tsx 181 192 SecurityCenterPage *)
Definition initial (t : option string) : state :=
  mk_state t false None [] [] [] ALL "CARD-VALID-01" "EVM-001" None false true None.

Abbreviation M := (prog state).

Definition fail_with (text : string) (err : error_obj) : M unit :=
  upd (set_error (Some (str_or (e_message err) text))).

(*@ dashboard/app/(officer)/security/page.tsx 210 214 tampers *)
Definition tampers (entries : list AuditEntryResponse) : list AuditEntryResponse :=
  List.filter (fun e => String.eqb (a_event_type e) "TAMPER_DETECTED"
                        || match a_event_data e with
                           | Some d => truthy_str d && includes "SUSPENDED" d
                           | None => false
                           end) entries.

(** [p.catch(() => d)]. *)
Definition or_else {A} (d : A) (o : outcome A) : A := match o with Ok a => a | Err _ => d end.

(*@ dashboard/app/(officer)/security/page.tsx 202 222 fetchSecurityData *)
Definition load_all (t : option string) : M unit :=
  all ← await_each [getHealth; getDevices "EV-2026-001" t; getAuditLog "EV-2026-001" t];
  let '(healthData, (devList, (auditEntries, _))) := all in
  match healthData with Ok h => upd (set_health (Some h)) | Err _ => mret tt end;;
  upd (set_devices (or_else [] devList));;
  upd (set_tamperEvents (tampers (or_else [] auditEntries)));;
  try_catch
    (anoData ← await (getElectionAnomalies "EV-2026-001" t);
     upd (set_anomalies (af_findings anoData)))
    (fun _ => upd (set_anomalies [])).

(*@ dashboard/app/(officer)/security/page.tsx 194 228 fetchSecurityData *)
Definition fetchSecurityData (s : state) : M unit :=
  if negb (truthy_opt (token s)) then upd (set_loading false)
  else
    upd (set_loading true);;
    upd (set_error None);;
    finally
      (try_catch (load_all (token s)) (fail_with "Failed to load security center metrics"))
      (upd (set_loading false)).

(*@ dashboard/app/(officer)/security/page.tsx 230 246 handleTapRFID *)
Definition handleTapRFID (cardUidToTap : option string) (s : state) : M unit :=
  let card := opt_or cardUidToTap (rfidCard s) in
  upd (set_rfidLoading true);;
  upd (set_error None);;
  finally
    (try_catch
       (res ← await (tapRFID {| rf_raw_uid := card; rf_device_id := rfidDeviceId s;
                                rf_election_id := "EV-2026-001" |});
        upd (set_rfidResult (Some res)))
       (fail_with "RFID tap simulation failed"))
    (upd (set_rfidLoading false)).

Inductive ui :=
| Refresh | DismissError | ClickProfile (id : string) | TypeCard (v : string) | Tap
| ClickCategory (c : SecurityCategory).

#[export] Instance ui_eq_dec : EqDecision ui. Proof. solve_decision. Defined.

Inductive env := Mount | TokenChanged (t : option string).

(*@ dashboard/app/(officer)/security/page.tsx 499 532 onClick/onChange *)
Definition on_ui (u : ui) (s : state) : M unit :=
  match u with
  | Refresh => fetchSecurityData s
  | DismissError => upd (set_error None)
  | ClickProfile id => upd (set_rfidCard id);; handleTapRFID (Some id) s
  | TypeCard v => upd (set_rfidCard v)
  | Tap => handleTapRFID None s
  | ClickCategory c => upd (set_selectedCategory c)
  end.

(*@ dashboard/app/(officer)/security/page.tsx 248 254 useEffect *)
Definition on_surroundings (x : env) (s : state) : M unit :=
  match x with
  | Mount =>
      if mounted s then mret tt
      else upd (set_mounted true);;
           if truthy_opt (token s) then fetchSecurityData s else upd (set_loading false)
  | TokenChanged t =>
      if bool_decide (token s = t) then mret tt
      else upd (set_token t);;
           if mounted s
           then if truthy_opt t then fetchSecurityData (set_token t s) else upd (set_loading false)
           else mret tt
  end.

(** ** The page *)

(*@ dashboard/app/(officer)/security/page.tsx 256 256 suspendedDevices *)
Definition suspendedDevices (s : state) : list DeviceResponse :=
  List.filter (fun d => bool_decide (d_status d = D_SUSPENDED)) (devices s).

Definition healthy (s : state) : bool :=
  match health s with Some h => String.eqb (h_status h) "healthy" | None => false end.

(*@ dashboard/app/(officer)/security/page.tsx 262 347 SecurityCenterPage *)
Definition overview (s : state) : list (node ui) :=
  let suspended := Z.of_nat (List.length (suspendedDevices s)) in
  let controls := Z_to_string (Z.of_nat (List.length SECURITY_CONTROLS)) in
  [Text "Security Center & Tamper Monitor";
   Text "Real-time defense-in-depth monitoring and physical breach anomaly detection";
   Button "Refresh security center" (loading s) Refresh]
  ++ match error s with
     | Some e => when (truthy_str e) (AlertBanner "error" "Security Monitoring Notice" e (Some DismissError))
     | None => []
     end
  ++ [Text "API Service Health"; Text (if healthy s then "ONLINE / HEALTHY" else "CHECKING...");
      Text ("Backend API: " ++s match health s with Some h => str_or (h_app h) "SecureVOTE" | None => "SecureVOTE" end
            ++s " v" ++s match health s with Some h => str_or (h_version h) "0.1.0" | None => "0.1.0" end);
      Text "Active Tamper Alerts";
      Box (if 0 <? suspended then "rose" else "white") [Text (Z_to_string suspended ++s " Unit(s) Suspended")];
      Text (if 0 <? suspended then "Hardware breach or admin hold latch active"
            else "Zero hardware enclosures breached");
      Text "Security Controls"; Text (controls ++s " of " ++s controls ++s " Active");
      Text "Full defense-in-depth matrix operational"].

(*@ dashboard/app/(officer)/security/page.tsx 350 394 SecurityCenterPage *)
Definition tamper_alerts (s : state) : list (node ui) :=
  when (0 <? Z.of_nat (List.length (suspendedDevices s)))
    ([Text "Hardware Tamper Alert: Device Suspended";
      Text "The following hardware polling units detected an enclosure lid breach or security exception. Ballots from suspended units are rejected by the backend until authorized physical admin recovery."]
     ++ flat_map (fun d =>
          [Text (d_name d ++s " (" ++s d_id d ++s ")");
           Text "Enclosure latch trip recorded in EEPROM & backend audit chain"]
          ++ StatusBadge "SUSPENDED" false ++ [Link "/devices" "Manage Unit"]) (suspendedDevices s)).

Definition severity_str (v : Severity) : string :=
  match v with LOW => "LOW" | MEDIUM => "MEDIUM" | HIGH => "HIGH" end.

(*@ dashboard/app/(officer)/security/page.tsx 397 467 SecurityCenterPage *)
Definition anomaly_panel (s : state) : list (node ui) :=
  [Text "Advisory Anomaly Detection Engine (6 Deterministic Rules)";
   Text "Heuristic rate bursts, sequence gaps, and tamper correlation monitoring";
   Text "ADVISORY ONLY  -  REQUIRES HUMAN REVIEW"; Text "Hard Architectural Boundary: "]
  ++ match anomalies s with
     | [] => [Text "No anomalous rate bursts, sequence gaps, or uncommanded device events detected in active election window."]
     | l => flat_map (fun ano =>
              [Box (match f_severity ano with HIGH => "rose" | MEDIUM => "amber" | LOW => "blue" end)
                 [Text (severity_str (f_severity ano) ++s " SEVERITY")];
               Text (f_rule_id ano); Text ("(" ++s f_category ano ++s ")"); Date (f_timestamp ano);
               Text (f_advisory_explanation ano); Text "View Evidence";
               Text (stringify_pretty EmptyString (f_evidence ano))]) l
     end.

(*@ dashboard/app/(officer)/security/page.tsx 493 514 SecurityCenterPage *)
Definition profiles (s : state) : list (node ui) :=
  map (fun card => Box (if String.eqb (rfidCard s) (fst card) then "selected" else "card")
                     [Button (snd card) false (ClickProfile (fst card))])
    [("CARD-VALID-01", "Eligible Card 1 (VALID)"); ("CARD-VALID-02", "Eligible Card 2 (VALID)");
     ("CARD-REVOKED-01", "Lost Card (REVOKED)"); ("CARD-INVALID-99", "Malformed Card (INVALID)")]%string.

Definition card_status_str (c : CardStatus) : string :=
  match c with
  | CS_VALID => "VALID" | CS_INVALID => "INVALID" | CS_REVOKED => "REVOKED"
  | CS_REPEATED_USE => "REPEATED_USE"
  end.

(*@ dashboard/app/(officer)/security/page.tsx 470 567 SecurityCenterPage *)
Definition rfid_panel (s : state) : list (node ui) :=
  [Text "RFID / Contactless Identity Abstraction Simulator";
   Text "Keyed HMAC-SHA256 pseudonymization with zero raw UID storage";
   Text "RFID AUTHENTICATION != VOTER ELIGIBILITY"; Text "Select Simulated Smartcard Profile:"]
  ++ profiles s
  ++ [Field "Or enter custom raw chip UID..." (rfidCard s) false
        (fun u => match u with TypeCard _ => true | _ => false end);
      Button (if rfidLoading s then "Reading Card..." else "Tap Smartcard") (rfidLoading s) Tap]
  ++ match rfidResult s with
     | Some r =>
         [Text "Tap Result:";
          Box (match rt_card_status r with CS_VALID => "emerald" | CS_REPEATED_USE => "amber" | _ => "rose" end)
            [Text (card_status_str (rt_card_status r))];
          Text "Keyed Pseudonym: "; Text (str_or (rt_pseudonym r) "None (Format Rejected)");
          Text "Voting Session: ";
          Text (match rt_session_id r with
                | Some i => if truthy_str i then "Granted (token: " ++s take_str 16 i ++s "...)" else "None"
                | None => "None"
                end);
          Text "Architectural Notice: "; Text (rt_notice r)]
     | None => []
     end.

(*@ dashboard/app/(officer)/security/page.tsx 613 613 SecurityCenterPage *)
Definition shown_controls (c : SecurityCategory) : list SecurityControl :=
  List.filter (fun k => bool_decide (c = ALL) || bool_decide (Only (sc_category k) = c)) SECURITY_CONTROLS.

(*@ dashboard/app/(officer)/security/page.tsx 582 582 count *)
Definition count (c : SecurityCategory) : Z :=
  match c with
  | ALL => Z.of_nat (List.length SECURITY_CONTROLS)
  | Only k => Z.of_nat (List.length (List.filter (fun x => bool_decide (sc_category x = k)) SECURITY_CONTROLS))
  end.

Definition categories : list SecurityCategory :=
  [ALL; Only PREVENTION; Only DETECTION; Only AUDITABILITY; Only VERIFICATION].

(*@ dashboard/app/(officer)/security/page.tsx 570 653 SecurityCenterPage *)
Definition control_matrix (s : state) : list (node ui) :=
  [Text "Security Controls & Anomaly Detection Matrix";
   Text "Partitioned defense-in-depth controls categorized by enforcement layer"]
  ++ map (fun cat => Box (if bool_decide (selectedCategory s = cat) then "selected" else "category")
            [Button (selection_str cat ++s " (" ++s Z_to_string (count cat) ++s ")") false (ClickCategory cat)]) categories
  ++ flat_map (fun k =>
       [Text (pad_start 2 "0" (Z_to_string (sc_id k)));
        Box (match sc_category k with PREVENTION => "blue" | DETECTION => "amber" | AUDITABILITY => "purple"
             | VERIFICATION => "emerald" end) [Text (category_str (sc_category k))];
        Text (sc_name k); Text (sc_mechanism k); Text (sc_detection k); Text (sc_status k)])
       (shown_controls (selectedCategory s)).

(*@ dashboard/app/(officer)/security/page.tsx 259 260 SecurityCenterPage *)
Definition render (s : state) : list (node ui) :=
  overview s ++ tamper_alerts s ++ anomaly_panel s ++ rfid_panel s ++ control_matrix s.

Definition center : component state ui env := mk_component render on_ui on_surroundings.

End Security.
