(* ===== verification/SecurityFacts.v ===== *)
(** * Correctness of the security centre

    What the page asks for, its loading flags, the table of controls; and what its catches
    hide: a backend that cannot be reached looks like one without incidents. *)
From S2P Require Import Prelude JsValue JsNumber Types ApiClient View Common React Spinner Security.
From Stdlib Require Import Ascii String.
Import Security.

#[export] Hint Unfold on_ui on_surroundings load_all fetchSecurityData handleTapRFID fail_with : prog.

(** ** Requests *)

(** All the page asks for is about the demonstration election; the officers' parts with a
    token only. *)
Definition Sends (s : state) (r : req) : Prop :=
  match r with
  | getHealth => True
  | getDevices e t | getAuditLog e t | getElectionAnomalies e t =>
      e = "EV-2026-001"%string /\ truthy_opt t = true
  | tapRFID d => rf_election_id d = "EV-2026-001"%string /\ rf_device_id d = rfidDeviceId s
  | _ => False
  end.

Definition Inv (s : state) : Prop := rfidDeviceId s = "EVM-001"%string.

Lemma load_all_keeps t : truthy_opt t = true -> keeps Inv Sends (load_all t).
Proof.
  intros Ht. unfold load_all. apply keeps_bind; [apply keeps_await_each; by repeat constructor |].
  intros (h & d & a & []). apply keeps_bind; [destruct h; [by apply keeps_upd | apply keeps_ret] | intros _].
  do 2 (apply keeps_bind; [by apply keeps_upd | intros _]).
  apply keeps_try; [| intros; by apply keeps_upd].
  apply keeps_bind; [by apply keeps_await | intros ano]. by apply keeps_upd.
Qed.

Lemma fetch_security_keeps s : keeps Inv Sends (fetchSecurityData s).
Proof.
  unfold fetchSecurityData. destruct (truthy_opt (token s)) eqn:Et; [| by apply keeps_upd].
  cbn [negb]. do 2 (apply keeps_bind; [by apply keeps_upd | intros _]).
  apply keeps_finally; [| by apply keeps_upd]. apply keeps_try; [by apply load_all_keeps |].
  intros e. by apply keeps_upd.
Qed.

Lemma tap_keeps c s : Inv s -> keeps Inv Sends (handleTapRFID c s).
Proof.
  intros Hs. unfold handleTapRFID. do 2 (apply keeps_bind; [by apply keeps_upd | intros _]).
  apply keeps_finally; [| by apply keeps_upd]. apply keeps_try; [| intros; by apply keeps_upd].
  apply keeps_bind; [| intros; by apply keeps_upd]. apply keeps_await. intros s' Hs'. cbn. unfold Inv in *. by split; [| congruence].
Qed.

Lemma center_safe : safe_component center Inv Sends (fun _ => True).
Proof.
  split.
  - intros u s _ HI _. unfold center. cbn [on_user]. destruct u; cbn [on_ui]; try done.
    + apply keeps_handles; [apply fetch_security_keeps | done].
    + apply keeps_handles; [| done]. apply keeps_bind; [by apply keeps_upd | intros _]. by apply tap_keeps.
    + apply keeps_handles; [by apply tap_keeps | done].
  - intros x s _ HI. unfold center. cbn [on_env]. apply keeps_handles; [| done].
    destruct x; cbn [on_surroundings].
    + destruct (mounted s); [apply keeps_ret |]. apply keeps_bind; [by apply keeps_upd | intros _].
      destruct (truthy_opt (token s)); [apply fetch_security_keeps | by apply keeps_upd].
    + destruct (bool_decide _); [apply keeps_ret |]. apply keeps_bind; [by apply keeps_upd | intros _].
      destruct (mounted s); [| apply keeps_ret].
      destruct (truthy_opt t); [apply fetch_security_keeps | by apply keeps_upd].
Qed.

(** In every interleaving the page asks only about the demonstration election, whichever
    election the officers have selected, and reads devices, audit log and anomalies only with
    a token; it changes nothing but the simulator's card. *)
Theorem security_requests t w s r :
  reachable center (fun _ => True) (initial t) w -> In (s, r) (sent w) -> Sends s r.
Proof.
  intros Hw Hin. assert (Inv (initial t)) as H0 by done.
  destruct (reachable_good _ _ _ _ center_safe (initial t) w H0 Hw) as [_ _ Hs].
  exact (Forall_In _ _ _ Hs Hin).
Qed.

(** ** The error banner *)

(** The events of the monitoring part: everything but the card simulator. *)
Definition monitoring (e : event ui env) : Prop :=
  match e with User (ClickProfile _) | User Tap => False | _ => True end.

Definition NoError (s : state) : Prop := error s = None.

(** What runs before the load cannot throw, so its catch is never reached. *)
Lemma load_all_no_throw t b s :
  NoError s ->
  wpf NoError (fun _ _ => True) b (load_all t) (fun _ _ => NoError) (fun _ _ _ => False) s.
Proof.
  intros Hs. unfold load_all. cbn. split_and!; [done | by repeat constructor |].
  intros [[h [d [a []]]]|e] s' Hs'; cbn; [destruct h; cbn |];
    (split_and!; [exact Hs' | by repeat constructor |]; intros [ano|e'] s2 Hs2; exact Hs2).
Qed.

Lemma fetch_no_error s s1 : NoError s1 -> handles NoError (fun _ _ => True) (fetchSecurityData s) s1.
Proof.
  intros Hs. unfold fetchSecurityData. destruct (negb _); [exact Hs |].
  apply (wp_wpf NoError (fun _ _ => True) false). do 2 apply wpf_upd.
  apply wpf_finally, wpf_try. eapply wpf_mono; [by apply load_all_no_throw | | done].
  intros b [] s2 Hs2. exact Hs2.
Qed.

Lemma center_silent : safe_component center NoError (fun _ _ => True) monitoring.
Proof.
  split.
  - intros u s HP HI _. unfold center. cbn [on_user]. destruct u; cbn [on_ui]; try done.
    by apply fetch_no_error.
  - intros x s _ HI. unfold center. cbn [on_env]. destruct x; cbn [on_surroundings].
    + destruct (mounted s); [done |].
      change (handles NoError (fun _ _ => True) (if truthy_opt (token s) then fetchSecurityData s else upd (set_loading false)) (set_mounted true s)).
      destruct (truthy_opt (token s)); [by apply fetch_no_error | done].
    + destruct (bool_decide _); [done |].
      change (handles NoError (fun _ _ => True) (if mounted s then (if truthy_opt t then fetchSecurityData (set_token t s) else upd (set_loading false)) else mret tt) (set_token t s)).
      destruct (mounted s); [| done]. destruct (truthy_opt t); [by apply fetch_no_error | done].
Qed.

(** Monitoring never reports an error, whatever the backend answers and in every
    interleaving: each call has a catch of its own, so the page's own catch is dead code. *)
Theorem security_never_reports_failure t w :
  reachable center monitoring (initial t) w -> error (st w) = None.
Proof.
  intros Hw. by destruct (reachable_good _ _ _ _ center_silent (initial t) w eq_refl Hw).
Qed.

(** Everything fails. *)
Definition offline (e : error_obj) (q : query) : outcome (qresp q) := answers (fun _ => Err e) q.

(** What the page shows when it knows of no incident. *)
Definition all_clear (s : state) : Prop :=
  Forall (fun t => shows (render s) t = true)
    ["0 Unit(s) Suspended"; "Zero hardware enclosures breached"; "16 of 16 Active";
     "No anomalous rate bursts, sequence gaps, or uncommanded device events detected in active election window."]%string.

(** With a backend that answers no call the page shows that nothing is wrong: no unit
    suspended, no enclosure breached, no anomaly detected. *)
Theorem security_failure_shown_as_all_clear tok e :
  truthy_str tok = true ->
  exists w, run center (boot (initial (Some tok))) [Env Mount; Reply 0 (offline e); Reply 1 (offline e)] = Some w
    /\ idle w = true /\ loading (st w) = false /\ error (st w) = None /\ all_clear (st w).
Proof.
  intros Ht. unfold boot, initial. rewrite run_cons, step_env. cbn -[run step all_clear].
  unfold fetchSecurityData. cbn -[run step all_clear]. rewrite Ht. cbn -[run step all_clear].
  do 2 (rewrite run_cons; erewrite step_reply_single by reflexivity; cbn -[run step all_clear]).
  eexists. split; [reflexivity |]. do 3 (split; [reflexivity |]). unfold all_clear.
  rewrite !Forall_cons. repeat (split; [vm_compute; reflexivity |]). constructor.
Qed.

(** The tamper events found in the audit log are shown nowhere. *)
Theorem security_tamper_events_not_shown v s : render (set_tamperEvents v s) = render s.
Proof. done. Qed.

(** ** Loading *)

Definition raised (card : bool) (s : state) : bool :=
  if card then rfidLoading s else mounted s && loading s.

Lemma load_all_timerless t : timerless (load_all t).
Proof.
  intros [[h [d [a []]]]|e]; cbn; [destruct h; cbn |]; intros [|]; exact I.
Qed.

Lemma load_all_calm card t : calm (raised card) (load_all t).
Proof.
  assert (forall (f : state -> state), (forall s, raised card (f s) = raised card s) ->
    calm (raised card) (upd f)) as Hu by (intros f Hf; split; [intros s; by rewrite Hf | exact I]).
  unfold load_all. apply calm_bind; [by intros [?|?] |]. intros (h & d & a & []).
  apply calm_bind; [destruct h; [by apply Hu; intros s; destruct card | exact I] | intros _].
  do 2 (apply calm_bind; [by apply Hu; intros s; destruct card | intros _]).
  apply calm_try; [| by intros; apply Hu; intros s; destruct card].
  apply calm_bind; [by intros [?|?] |]. intros ano. by apply Hu; intros s; destruct card.
Qed.

Lemma fetch_security_lowers card s s0 s1 :
  (card = true -> raised card s1 = true -> raised card s0 = true) ->
  low (fun _ => True) (raised card) false (fetchSecurityData s) (fun b _ => fine (raised card) b)
    (fun b _ => fine (raised card) b) s0 s1.
Proof.
  intros H1. unfold fetchSecurityData. destruct (negb _).
  { destruct card; cbn; unfold fine; cbn; [intros H; auto | by rewrite andb_false_r]. }
  destruct card.
  - apply low_calm; [| by apply H1]. do 2 (apply calm_bind; [by split | intros _]).
    apply calm_finally; [| by split]. apply calm_try; [apply (load_all_calm true) |]. by intros e; split.
  - do 2 apply low_upd.
    apply lowers_at_end; [intros; apply andb_false_r |].
    apply timerless_try; [apply load_all_timerless | by intros].
Qed.

Lemma tap_lowers card c s s0 s1 :
  (card = false -> raised card s1 = true -> raised card s0 = true) ->
  low (fun _ => True) (raised card) false (handleTapRFID c s) (fun b _ => fine (raised card) b)
    (fun b _ => fine (raised card) b) s0 s1.
Proof.
  intros H1. unfold handleTapRFID. destruct card.
  - do 2 apply low_upd.
    apply lowers_at_end; [done | timerless_auto].
  - apply low_calm; [| by apply H1]. calm_auto.
Qed.

Lemma center_lowers card : lowering_component center (fun _ => True) (fun _ => True) (raised card).
Proof.
  split.
  - intros u s _ _ _. unfold lowers, center. cbn [on_user]. destruct u; cbn [on_ui]; try (by destruct card).
    + apply fetch_security_lowers. by intros ->.
    + apply low_upd, tap_lowers. by intros ->.
    + apply tap_lowers. by intros ->.
  - intros x s _ _. unfold lowers, center. cbn [on_env]. destruct x; cbn [on_surroundings].
    + destruct (mounted s); [by destruct card |]. apply low_upd.
      destruct (truthy_opt (token s)); [apply fetch_security_lowers; by intros -> |].
      destruct card; cbn; unfold fine; cbn; [by intros H | done].
    + destruct (bool_decide _); [by destruct card |]. apply low_upd. destruct (mounted s) eqn:Em; [| by destruct card].
      destruct (truthy_opt t); [apply fetch_security_lowers; by intros -> |].
      destruct card; cbn; unfold fine; cbn; [by intros H | by rewrite andb_false_r].
Qed.

(** When nothing is pending neither the refresh nor the card button is left disabled. *)
Theorem security_not_left_loading t w :
  reachable center (fun _ => True) (initial t) w -> idle w = true ->
  rfidLoading (st w) = false /\ (mounted (st w) = true -> loading (st w) = false).
Proof.
  intros Hw Hidle.
  assert (forall card, raised card (st w) = false) as H.
  { intros card. eapply never_left_busy; [apply center_lowers | | exact Hw | exact Hidle]. by destruct card. }
  split; [apply (H true) |]. intros Hm. specialize (H false). cbn in H. by rewrite Hm in H.
Qed.

(** ** The card simulator *)

Definition tapped (card : string) (status : CardStatus) : RFIDTapResponse :=
  {| rt_authenticated := true; rt_pseudonym := "p-" ++s card; rt_card_status := status;
     rt_device_id := "EVM-001"; rt_session_id := None; rt_notice := EmptyString |}.

Definition reader (r : req) : outcome (resp r) :=
  match r with
  | tapRFID d =>
      Ok (tapped (rf_raw_uid d) (if String.eqb (rf_raw_uid d) "CARD-REVOKED-01" then CS_REVOKED else CS_VALID))
  | _ => Err (plain_error "Error" "offline")
  end.

(** The buttons of the demonstration cards stay enabled while a card is read: of two taps
    the one answered last is shown, under the other card. *)
Theorem security_result_of_another_card :
  exists w, run center (boot (initial None))
      [User (ClickProfile "CARD-VALID-01"); User (ClickProfile "CARD-REVOKED-01");
       Reply 1 (answers reader); Reply 0 (answers reader)] = Some w
    /\ rfidCard (st w) = "CARD-REVOKED-01"%string
    /\ option_map rt_card_status (rfidResult (st w)) = Some CS_VALID.
Proof. apply run_witness. vm_compute. by split_and!. Qed.

(** ** The table of controls *)

(** Each category button counts the rows it shows, and the four categories partition the
    table. *)
Theorem security_control_counts c :
  count c = Z.of_nat (List.length (shown_controls c))
  /\ count ALL = count (Only PREVENTION) + count (Only DETECTION)
                 + count (Only AUDITABILITY) + count (Only VERIFICATION).
Proof. split; [by destruct c as [|[]] | reflexivity]. Qed.

(** ** Concrete runs *)

Definition loaded : list (event ui env) :=
  [Env Mount; Reply 0 (offline (plain_error "Error" "offline")); Reply 1 (offline (plain_error "Error" "offline"))].

Definition monitored : world state :=
  default (boot (initial None)) (run center (boot (initial (Some "token"%string))) loaded).

Lemma reachable_monitored P :
  (forall e, In e loaded -> P e) -> reachable center P (initial (Some "token"%string)) monitored.
Proof.
  intros HP. eapply (reachable_run center P _ (boot (initial (Some "token"%string))) loaded);
    [constructor | by apply List.Forall_forall | vm_compute; reflexivity].
Qed.

Lemma security_requests_witness :
  exists s, Sends s (getElectionAnomalies "EV-2026-001" (Some "token"%string)).
Proof.
  eexists. eapply (security_requests (Some "token"%string) monitored); [by apply reachable_monitored |].
  vm_compute. do 3 right. left. reflexivity.
Defined.

Lemma security_never_reports_failure_witness : error (st monitored) = None.
Proof.
  apply (security_never_reports_failure (Some "token"%string)), reachable_monitored.
  intros e He. vm_compute in He. destruct He as [<-|[<-|[<-|[]]]]; exact I.
Defined.

Lemma security_failure_shown_as_all_clear_witness :
  exists w, run center (boot (initial (Some "token"%string))) loaded = Some w /\ all_clear (st w).
Proof.
  destruct (security_failure_shown_as_all_clear "token" (plain_error "Error" "offline") eq_refl)
    as (w & H1 & _ & _ & _ & H2).
  exists w. split; [exact H1 | exact H2].
Defined.

Lemma security_not_left_loading_witness : idle monitored = true /\ rfidLoading (st monitored) = false.
Proof.
  assert (idle monitored = true) as Hi by (vm_compute; reflexivity). split; [exact Hi |].
  refine (proj1 (security_not_left_loading (Some "token"%string) monitored _ Hi)). by apply reachable_monitored.
Defined.
