(* ===== verification/Setup.v ===== *)
(** * Election setup: [app/(officer)/election/setup/page.tsx]

    The life cycle of the selected election, its details, and the buttons that move it on;
    then their correctness against the backend's table of transitions. *)
From S2P Require Import Prelude JsValue JsNumber FormatError Types ApiClient View React Spinner Command Officer.
From Stdlib Require Import String.

Module Setup.

(*@ dashboard/app/(officer)/election/setup/page.tsx 10 13 ElectionSetupPage *)
Record state := mk_state {
  token : option string;
  selectedElection : option ElectionResponse;
  loading : bool;
  error : option string }.

Definition set_token (v : option string) (s : state) : state :=
  mk_state v (selectedElection s) (loading s) (error s).
Definition set_selectedElection (v : option ElectionResponse) (s : state) : state :=
  mk_state (token s) v (loading s) (error s).
Definition set_loading (v : bool) (s : state) : state :=
  mk_state (token s) (selectedElection s) v (error s).
Definition set_error (v : option string) (s : state) : state :=
  mk_state (token s) (selectedElection s) (loading s) v.

Definition initial (t : option string) (e : option ElectionResponse) : state := mk_state t e false None.

Abbreviation M := (prog state).

(*@ dashboard/app/(officer)/election/setup/page.tsx 19 30 handleStateTransition *)
Definition handleStateTransition (newState : ElectionState) (s : state) : M unit :=
  match selectedElection s with
  | None => mret tt
  | Some e =>
      upd (set_loading true);;
      upd (set_error None);;
      finally
        (try_catch
           (await (updateElectionState (e_id e) newState (token s));;
            refreshElections (token s) (selectedElection s))
           (report set_error))
        (upd (set_loading false))
  end.

Inductive ui := Transition (newState : ElectionState).

#[export] Instance ui_eq_dec : EqDecision ui. Proof. solve_decision. Defined.

(** What the contexts give the page. *)
Inductive env := Selected (e : option ElectionResponse) | TokenChanged (t : option string).

Definition on_ui (u : ui) (s : state) : M unit :=
  match u with Transition st => handleStateTransition st s end.

(*@ dashboard/app/(officer)/election/setup/page.tsx 10 11 ElectionSetupPage *)
Definition on_surroundings (x : env) (s : state) : M unit :=
  match x with
  | Selected e => upd (set_selectedElection e)
  | TokenChanged t => upd (set_token t)
  end.

(*@ dashboard/app/(officer)/election/setup/page.tsx 32 32 steps *)
Definition steps : list ElectionState := [CREATED; CONFIGURED; LOCKED; OPEN; SUSPENDED; CLOSED; PUBLISHED].

(** [steps.indexOf(state)]. *)
Fixpoint index_of (st : ElectionState) (l : list ElectionState) : Z :=
  match l with
  | [] => -1
  | x :: l' => if bool_decide (x = st) then 0
               else let i := index_of st l' in if i =? -1 then -1 else i + 1
  end.

(*@ dashboard/app/(officer)/election/setup/page.tsx 48 60 ElectionSetupPage *)
Definition stepper (e : ElectionResponse) : list (node ui) :=
  let current := index_of (e_state e) steps in
  flat_map (fun '(i, step) =>
    [Box (if i <? current then "emerald" else if i =? current then "blue" else "slate")
       [Text (Z_to_string (i + 1))];
     Box (if i <=? current then "done" else "to come") [Text (election_state_str step)]])
    (imap (fun i step => (Z.of_nat i, step)) steps).

(*@ dashboard/app/(officer)/election/setup/page.tsx 63 92 ElectionSetupPage *)
Definition transitions (s : state) (e : ElectionResponse) : list (node ui) :=
  let state_is st := bool_decide (e_state e = st) in
  [Button "Configure" (loading s || negb (state_is CREATED)) (Transition CONFIGURED);
   Button "Lock Configuration" (loading s || negb (state_is CONFIGURED)) (Transition LOCKED);
   Button "Open Polls" (loading s || (negb (state_is LOCKED) && negb (state_is SUSPENDED))) (Transition OPEN);
   Button "Close Polls" (loading s || negb (state_is OPEN)) (Transition CLOSED)].

(*@ dashboard/app/(officer)/election/setup/page.tsx 35 134 ElectionSetupPage *)
Definition render (s : state) : list (node ui) :=
  match selectedElection s with
  | None => [Text "Select an election to view setup."]
  | Some e =>
      [Text "Election Setup"] ++ error_box (error s) ++ [Text "Lifecycle State"] ++ stepper e
      ++ transitions s e
      ++ [Text "Election Details"; Text "Title"; Text (default EmptyString (e_title e));
          Text "Description"; Text (opt_or (e_description e) "N/A");
          Text "Configuration Hash"; Text (opt_or (e_configuration_hash e) "Not generated yet");
          Text "Statistics"; Text "Candidates"; Text (Z_to_string (Z.of_nat (List.length (e_candidates e))));
          Text "Devices"; Text (Z_to_string (e_device_count e));
          Text "Ballots Cast"; Text (Z_to_string (e_ballot_count e))]
  end.

Definition page : component state ui env := mk_component render on_ui on_surroundings.

End Setup.

Import Setup.

#[export] Hint Unfold on_ui on_surroundings handleStateTransition : prog.

(** The moves the page has a button for. *)
Definition offered (from to_ : ElectionState) : bool :=
  match from, to_ with
  | CREATED, CONFIGURED | CONFIGURED, LOCKED | LOCKED, OPEN | SUSPENDED, OPEN | OPEN, CLOSED => true
  | _, _ => false
  end.

Lemma allows_setup s st :
  allows (render s) (Transition st)
  = match selectedElection s with Some e => negb (loading s) && offered (e_state e) st | None => false end.
Proof.
  unfold render. destruct (selectedElection s) as [e|]; [| done]. rewrite !allows_app, allows_error_box.
  replace (allows (stepper e) (Transition st)) with false.
  2: { unfold stepper, steps. destruct (e_state e); reflexivity. }
  unfold transitions. cbn. destruct (loading s), (e_state e), st; reflexivity.
Qed.

(** What may be sent. *)
Definition Sends (s : state) (r : req) : Prop :=
  match r with
  | updateElectionState i st t =>
      t = token s /\ exists e, selectedElection s = Some e /\ i = e_id e
        /\ st ∈ Command.VALID_TRANSITIONS (e_state e)
  | getElections _ | getElection _ _ => True
  | _ => False
  end.

Lemma offered_legal from to_ : offered from to_ = true -> to_ ∈ Command.VALID_TRANSITIONS from.
Proof. by destruct from, to_; try done; intros _; apply list_elem_of_In; simpl; tauto. Qed.

Lemma setup_safe : safe_component page (fun _ => True) Sends (fun _ => True).
Proof.
  split; [| by intros [e|t] s _ _]. intros [st] s _ _ Hu. change (allows (render s) (Transition st) = true) in Hu.
  rewrite allows_setup in Hu. unfold page. cbn [on_user on_ui]. unfold handleStateTransition.
  destruct (selectedElection s) as [e|] eqn:Es; [| done]. reflect_bool.
  apply (wp_wpf (fun _ => True) Sends false). do 2 apply wpf_upd.
  apply wpf_finally, wpf_try, wpf_bind. cbn -[refreshElections]. split_and!; [done | |].
  - constructor; [| done]. split; [done |]. exists e. split_and!; [done | done | by apply offered_legal].
  - intros [a|err] s' _; cbn -[refreshElections]; [| done].
    eapply wpf_mono; [by apply refresh_keeps | by intros | by intros].
Qed.

(** C32. In every interleaving the page asks only for transitions the backend's table allows from
    the state of the election shown, for that election and with its own token. *)
Theorem setup_requests_legal t e w s i st tok :
  reachable page (fun _ => True) (initial t e) w -> In (s, updateElectionState i st tok) (sent w) ->
  tok = token s /\ exists e, selectedElection s = Some e /\ i = e_id e /\ st ∈ Command.VALID_TRANSITIONS (e_state e).
Proof.
  intros Hw Hin. destruct (reachable_good _ _ _ _ setup_safe (initial t e) w I Hw) as [_ _ Hs].
  exact (Forall_In _ _ _ Hs Hin).
Qed.

(** Which of the table's transitions the page offers: all but suspending, publishing, and
    closing a suspended election. *)
Theorem setup_offers s e st :
  selectedElection s = Some e -> loading s = false ->
  allows (render s) (Transition st) = true
  <-> st ∈ Command.VALID_TRANSITIONS (e_state e) /\ st <> SUSPENDED /\ st <> PUBLISHED
      /\ ~ (e_state e = SUSPENDED /\ st = CLOSED).
Proof.
  intros Es El. rewrite allows_setup, Es, El. cbn [negb andb]. split.
  - intros H. split; [by apply offered_legal |]. destruct (e_state e), st; try done; split_and!; naive_solver.
  - intros (H1 & H2 & H3 & H4). destruct (e_state e), st; try done; try (by destruct H4);
      exfalso; apply list_elem_of_In in H1; simpl in H1; intuition discriminate.
Qed.

Lemma setup_lowers : lowering_component page (fun _ => True) (fun _ => True) loading.
Proof.
  split; [| by intros [e|t] s _ _]. intros [st] s _ _ _. unfold lowers, page. cbn [on_user on_ui]. unfold handleStateTransition.
  destruct (selectedElection s) as [e|]; [| done]. do 2 apply low_upd.
  apply lowers_at_end; [done |].
  apply timerless_try; [| by intros]. apply timerless_bind; [by intros [?|?] |].
  intros _. apply refresh_timerless.
Qed.

(** The buttons come back when nothing is pending. *)
Theorem setup_not_left_loading t e w :
  reachable page (fun _ => True) (initial t e) w -> idle w = true -> loading (st w) = false.
Proof. intros Hw Hidle. by eapply never_left_busy; [apply setup_lowers | | exact Hw | exact Hidle]. Qed.

(** ** A concrete run *)

Definition some_election (st : ElectionState) : ElectionResponse :=
  {| e_id := "E1"; e_title_name := None; e_title := Some "Poll"%string; e_description := None;
     e_state := st; e_configuration_hash := None; e_device_count := 1; e_ballot_count := 7;
     e_created_at := "2026-01-01T00:00:00Z"; e_opened_at := None; e_closed_at := None;
     e_published_at := None; e_candidates := [] |}.

Definition shown : state := initial (Some "token"%string) (Some (some_election LOCKED)).

Definition opening : world state :=
  default (boot shown) (run page (boot shown) [User (Transition OPEN)]).

Lemma reachable_opening : reachable page (fun _ => True) shown opening.
Proof. apply reachable_default; [constructor | by repeat constructor]. Qed.

Lemma setup_requests_legal_witness : OPEN ∈ Command.VALID_TRANSITIONS LOCKED.
Proof.
  destruct (setup_requests_legal (Some "token"%string) (Some (some_election LOCKED)) opening
              (set_error None (set_loading true shown)) "E1" OPEN (Some "token"%string)) as (_ & e & He & _ & H).
  - exact reachable_opening.
  - vm_compute. left. reflexivity.
  - injection He as <-. exact H.
Defined.

Lemma setup_offers_witness : allows (render shown) (Transition OPEN) = true.
Proof.
  apply (setup_offers shown (some_election LOCKED) OPEN); [reflexivity | reflexivity |].
  split; [apply list_elem_of_In; simpl; tauto | by split_and!; [| | intros [? ?]]].
Defined.

Definition opened : world state :=
  default opening (run page opening [Reply 0 (answers (fun _ => Err (plain_error "Error" "offline")))]).

Lemma setup_not_left_loading_witness : loading (st opened) = false.
Proof.
  apply (setup_not_left_loading (Some "token"%string) (Some (some_election LOCKED)) opened);
    [| vm_compute; reflexivity].
  apply reachable_default; [exact reachable_opening | by repeat constructor].
Defined.
