(* ===== verification/Polling.v ===== *)
(** * Polling operations: [app/(officer)/election/polling/page.tsx]

    The sessions of the selected election, fetched again every ten seconds by an interval
    whose callback keeps the closure it was set with, and the authorisation of a voter at a
    terminal. *)
From S2P Require Import Prelude JsValue JsNumber FormatError Types ApiClient View React Officer.
From Stdlib Require Import String.

Module Polling.

(** [interval] is what the cleanup of the effect captured, [clipboard] what was copied. *)
(*@ dashboard/app/(officer)/election/polling/page.tsx 10 18 PollingPage *)
Record state := mk_state {
  token : option string;
  selectedElection : option ElectionResponse;
  mounted : bool;
  sessions : list SessionResponse;
  loading : bool;
  error : option string;
  voterCredential : string;
  deviceId : string;
  sessionToken : option string;
  interval : option nat;
  clipboard : list string }.

Definition set_token (v : option string) (s : state) : state :=
  mk_state v (selectedElection s) (mounted s) (sessions s) (loading s) (error s)
    (voterCredential s) (deviceId s) (sessionToken s) (interval s) (clipboard s).
Definition set_selectedElection (v : option ElectionResponse) (s : state) : state :=
  mk_state (token s) v (mounted s) (sessions s) (loading s) (error s) (voterCredential s)
    (deviceId s) (sessionToken s) (interval s) (clipboard s).
Definition set_mounted (v : bool) (s : state) : state :=
  mk_state (token s) (selectedElection s) v (sessions s) (loading s) (error s)
    (voterCredential s) (deviceId s) (sessionToken s) (interval s) (clipboard s).
Definition set_sessions (v : list SessionResponse) (s : state) : state :=
  mk_state (token s) (selectedElection s) (mounted s) v (loading s) (error s)
    (voterCredential s) (deviceId s) (sessionToken s) (interval s) (clipboard s).
Definition set_loading (v : bool) (s : state) : state :=
  mk_state (token s) (selectedElection s) (mounted s) (sessions s) v (error s)
    (voterCredential s) (deviceId s) (sessionToken s) (interval s) (clipboard s).
Definition set_error (v : option string) (s : state) : state :=
  mk_state (token s) (selectedElection s) (mounted s) (sessions s) (loading s) v
    (voterCredential s) (deviceId s) (sessionToken s) (interval s) (clipboard s).
Definition set_voterCredential (v : string) (s : state) : state :=
  mk_state (token s) (selectedElection s) (mounted s) (sessions s) (loading s) (error s) v
    (deviceId s) (sessionToken s) (interval s) (clipboard s).
Definition set_deviceId (v : string) (s : state) : state :=
  mk_state (token s) (selectedElection s) (mounted s) (sessions s) (loading s) (error s)
    (voterCredential s) v (sessionToken s) (interval s) (clipboard s).
Definition set_sessionToken (v : option string) (s : state) : state :=
  mk_state (token s) (selectedElection s) (mounted s) (sessions s) (loading s) (error s)
    (voterCredential s) (deviceId s) v (interval s) (clipboard s).
Definition set_interval (v : option nat) (s : state) : state :=
  mk_state (token s) (selectedElection s) (mounted s) (sessions s) (loading s) (error s)
    (voterCredential s) (deviceId s) (sessionToken s) v (clipboard s).
Definition set_clipboard (v : list string) (s : state) : state :=
  mk_state (token s) (selectedElection s) (mounted s) (sessions s) (loading s) (error s)
    (voterCredential s) (deviceId s) (sessionToken s) (interval s) v.

Definition initial (t : option string) (e : option ElectionResponse) : state :=
  mk_state t e false [] false None "" "" None None [].

Abbreviation M := (prog state).

(*@ dashboard/app/(officer)/election/polling/page.tsx 20 31 loadData *)
Definition loadData (s : state) : M unit :=
  match selectedElection s with
  | None => mret tt
  | Some e =>
      upd (set_loading true);;
      finally
        (try_catch
           (sess ← await (getSessions (e_id e) (token s));
            upd (set_sessions sess))
           (report set_error))
        (upd (set_loading false))
  end.

(** The effect of [selectedElection]: the cleanup of the previous run, the interval and the
    first load, which is not awaited; the interval is set in the same run of the loop. *)
(*@ dashboard/app/(officer)/election/polling/page.tsx 36 36 useEffect *)
Definition cleanup (s : state) : M unit :=
  match interval s with
  | Some id => Clear id (upd (set_interval None))
  | None => mret tt
  end.

(*@ dashboard/app/(officer)/election/polling/page.tsx 33 37 useEffect *)
Definition effect (s : state) : M unit :=
  Timer true 10000 (loadData s) (fun id => upd (set_interval (Some id)));;
  loadData s.

(*@ dashboard/app/(officer)/election/polling/page.tsx 39 55 handleAuthorize *)
Definition handleAuthorize (s : state) : M unit :=
  match selectedElection s with
  | None => mret tt
  | Some e =>
      upd (set_loading true);;
      upd (set_error None);;
      upd (set_sessionToken None);;
      finally
        (try_catch
           (res ← await (authorizeSession (e_id e) (voterCredential s) (deviceId s) (token s));
            upd (set_sessionToken (Some (s_session_token res)));;
            upd (set_voterCredential "");;
            loadData s)
           (report set_error))
        (upd (set_loading false))
  end.

Inductive ui := ClickReload | ClickCopy (t : string) | TypeCredential (v : string) | TypeDevice (v : string) | SubmitAuthorize.

#[export] Instance ui_eq_dec : EqDecision ui. Proof. solve_decision. Defined.

Inductive env := Mount | Unmount | Selected (e : option ElectionResponse) | TokenChanged (t : option string).

(*@ dashboard/app/(officer)/election/polling/page.tsx 67 133 onClick/onSubmit *)
Definition on_ui (u : ui) (s : state) : M unit :=
  match u with
  | ClickReload => loadData s
  | ClickCopy t => upd (fun prev => set_clipboard (clipboard prev ++ [t]) prev)
  | TypeCredential v => upd (set_voterCredential v)
  | TypeDevice v => upd (set_deviceId v)
  | SubmitAuthorize => handleAuthorize s
  end.

(*@ dashboard/app/(officer)/election/polling/page.tsx 10 37 PollingPage *)
Definition on_surroundings (x : env) (s : state) : M unit :=
  match x with
  | Mount => if mounted s then mret tt else upd (set_mounted true);; effect s
  | Unmount => if mounted s then upd (set_mounted false);; cleanup s else mret tt
  | Selected e =>
      if mounted s then upd (set_selectedElection e);; cleanup s;; effect (set_selectedElection e s)
      else upd (set_selectedElection e)
  | TokenChanged t => upd (set_token t)
  end.

Section Page.

(** What the server's answer has under a key its declared type does not have. *)
Context (undeclared : SessionResponse -> string -> value).

(*@ dashboard/app/(officer)/election/polling/page.tsx 61 61 isOpen *)
Definition isOpen (e : ElectionResponse) : bool := bool_decide (e_state e = OPEN).

(*@ dashboard/app/(officer)/election/polling/page.tsx 66 116 PollingPage *)
Definition overview (s : state) (e : ElectionResponse) : list (node ui) :=
  [Text "Polling Operations"; Button "Reload" (loading s) ClickReload;
   Box (if isOpen e then "emerald" else "amber")
     [Text ("Polling Status: " ++s election_state_str (e_state e));
      Text (if isOpen e then "Voters can currently cast ballots." else "Voting is currently paused or closed.")];
   Text "Active Sessions";
   Text (Z_to_string (Z.of_nat (List.length (List.filter (fun x => String.eqb (s_status x) "ACTIVE") (sessions s)))));
   Text "Total Votes"; Text (Z_to_string (e_ballot_count e))]
  ++ error_box (error s)
  ++ match sessionToken s with
     | Some t => when (truthy_str t)
         [Text "Session Authorized"; Text "Provide this token to the voter. It is valid for one use only.";
          Text t; Button "Copy token" false (ClickCopy t);
          Text "WARNING: SESSION TOKEN - DO NOT LOG. DO NOT RECORD."]
     | None => []
     end.

(** [required] fields of a form that is submitted by its button. *)
Definition form_valid (s : state) : bool := truthy_str (voterCredential s) && truthy_str (deviceId s).

(*@ dashboard/app/(officer)/election/polling/page.tsx 120 138 PollingPage *)
Definition authorize_form (s : state) (e : ElectionResponse) : list (node ui) :=
  let off := negb (isOpen e) || loading s in
  [Text "Authorize Voter";
   Field "Voter Credential (ID/Hash)" (voterCredential s) off (fun u => match u with TypeCredential _ => true | _ => false end);
   Field "Device ID" (deviceId s) off (fun u => match u with TypeDevice _ => true | _ => false end);
   Button "Authorize Session" (off || negb (form_valid s)) SubmitAuthorize].

(** [new Date(s.created_at || Date.now())]: [now] stands for the time of the render. *)
(*@ dashboard/app/(officer)/election/polling/page.tsx 157 167 PollingPage *)
Definition session_row (x : SessionResponse) : list (node ui) :=
  [Text (s_device_id x);
   Box (if String.eqb (s_status x) "ACTIVE" then "blue"
        else if String.eqb (s_status x) "USED" then "emerald" else "slate") [Text (s_status x)];
   Date (let created := undeclared x "created_at" in if truthy created then to_string created else "now")].

(*@ dashboard/app/(officer)/election/polling/page.tsx 57 181 PollingPage *)
Definition render (s : state) : list (node ui) :=
  match selectedElection s with
  | None => [Text "Select an election to view polling."]
  | Some e =>
      overview s e ++ authorize_form s e
      ++ [Text "Recent Sessions"; Text "Device ID"; Text "Status"; Text "Created At"]
      ++ match sessions s with
         | [] => [Text "No active sessions."]
         | l => flat_map session_row l
         end
  end.

Definition page : component state ui env := mk_component render on_ui on_surroundings.
End Page.

End Polling.
