(* ===== verification/PollingFacts.v ===== *)
(** * Correctness of the polling page

    Who is authorised, the interval, the loading flag, and what the captured closures of the
    interval do to both. *)
From S2P Require Import Prelude JsValue JsNumber FormatError Types ApiClient View React Spinner Timeouts Intervals Officer Polling.
From Stdlib Require Import String.
Import Polling.

#[export] Hint Unfold on_ui on_surroundings loadData effect cleanup handleAuthorize : prog.

Section Facts.
Context (undeclared : SessionResponse -> string -> value).

Abbreviation app := (page undeclared).

(** ** Controls *)

Lemma polling_rows_silent l u : allows (flat_map (session_row undeclared) l) u = false.
Proof. rewrite allows_flat_map. induction l as [|x l IH]; [done |]. cbn [existsb]. by rewrite IH. Qed.

Lemma overview_authorize s e : allows (overview s e) SubmitAuthorize = false.
Proof.
  unfold overview. rewrite !allows_app, allows_error_box.
  destruct (sessionToken s) as [t|]; [rewrite allows_when |]; read_page; by rewrite ?andb_false_r.
Qed.

Lemma allows_authorize s :
  allows (render undeclared s) SubmitAuthorize
  = match selectedElection s with
    | Some e => isOpen e && (negb (loading s) && form_valid s)
    | None => false
    end.
Proof.
  unfold render. destruct (selectedElection s) as [e|]; [| done].
  rewrite !allows_app, overview_authorize.
  replace (allows match sessions s with [] => _ | l => _ end SubmitAuthorize) with false
    by (destruct (sessions s); [done | by rewrite polling_rows_silent]).
  unfold authorize_form. read_page. by rewrite andb_assoc.
Qed.

(** ** Authorisations *)

Definition Sends (s : state) (r : req) : Prop :=
  match r with
  | authorizeSession i c d t =>
      t = token s /\ c = voterCredential s /\ d = deviceId s /\ sessionToken s = None
      /\ truthy_str c = true /\ truthy_str d = true
      /\ exists e, selectedElection s = Some e /\ i = e_id e /\ e_state e = OPEN
  | getSessions _ _ => True
  | _ => False
  end.

Lemma polling_load_keeps s : keeps (fun _ => True) Sends (loadData s).
Proof. keeps_auto. Qed.

Lemma polling_effect_keeps s : keeps (fun _ => True) Sends (effect s).
Proof.
  unfold effect. apply keeps_bind; [| intros; apply polling_load_keeps].
  apply keeps_timer; [apply polling_load_keeps | intros; by apply keeps_upd].
Qed.

Lemma cleanup_keeps s : keeps (fun _ => True) Sends (cleanup s).
Proof. keeps_auto. Qed.

Lemma polling_safe : safe_component app (fun _ => True) Sends (fun _ => True).
Proof.
  split.
  - intros u s _ _ Hu. change (allows (render undeclared s) u = true) in Hu. unfold page. cbn [on_user].
    destruct u as [|t|v|v|]; cbn [on_ui]; try done; [by apply keeps_handles; [apply polling_load_keeps |] |].
    rewrite allows_authorize in Hu. unfold handleAuthorize.
    destruct (selectedElection s) as [e|] eqn:Es; [| done]. unfold isOpen, form_valid in Hu. reflect_bool.
    apply (wp_wpf (fun _ => True) Sends false). do 3 apply wpf_upd.
    apply wpf_finally, wpf_try, wpf_bind. cbn -[loadData]. split_and!; [done | |].
    + constructor; [| done]. cbn. eauto 12.
    + intros [res|err] s' _; cbn -[loadData]; [| done].
      eapply wpf_mono; [by apply polling_load_keeps | by intros | by intros].
  - intros x s _ _. unfold page. cbn [on_env].
    destruct x; cbn [on_surroundings]; try (destruct (mounted s)); try done;
      apply keeps_handles; try done;
      repeat first [apply polling_effect_keeps | apply cleanup_keeps | by apply keeps_upd | apply keeps_bind; [| intros ?]].
Qed.

(** C17. In every interleaving a voter is authorised only while the election shown is OPEN, with
    the page's own token, for a credential and a device that are not empty and are those
    typed, and with no earlier session token on display. *)
Theorem polling_authorisations_justified t e w s q :
  reachable app (fun _ => True) (initial t e) w -> In (s, q) (sent w) -> Sends s q.
Proof.
  intros Hw Hin. destruct (reachable_good _ _ _ _ polling_safe (initial t e) w I Hw) as [_ _ Hs].
  exact (Forall_In _ _ _ Hs Hin).
Qed.

(** ** The interval *)

Definition polled (T : list nat) (s : state) : Prop :=
  if mounted s then exists id, interval s = Some id /\ T = [id] else interval s = None /\ T = [].

Definition frame (s s' : state) : Prop := mounted s' = mounted s /\ interval s' = interval s.

Lemma load_ticks s T s' : polled T s' -> ticks polled (loadData s) T s'.
Proof.
  intros H. unfold loadData. destruct (selectedElection s) as [e|]; [| done].
  cbn. split; [done |]. by intros [a|err] T' s2 H2.
Qed.

Lemma effect_ticks s T s' :
  mounted s' = true -> interval s' = None -> T = [] -> ticks polled (effect s) T s'.
Proof.
  intros Hm Hi ->. unfold effect. split; [intros T' s2 H2; by apply load_ticks |].
  intros id _. cbn [ticks upd mbind prog_bind]. apply load_ticks. unfold polled. cbn. rewrite Hm. by exists id.
Qed.

Lemma polling_ticking : ticking_component app polled (fun _ => True).
Proof.
  split.
  - intros u T s _ HT. unfold page. cbn [on_user]. destruct u; cbn [on_ui]; [by apply load_ticks | done | done | done |].
    unfold handleAuthorize. destruct (selectedElection s) as [e|]; [| done].
    cbn -[loadData]. split; [done |]. intros [res|err] T' s' H'; [| done].
    cbn -[loadData]. unfold loadData. destruct (selectedElection s) as [e'|]; [| done].
    cbn. split; [done |]. by intros [a|err] T2 s2 H2.
  - intros x T s _ HT. unfold page. cbn [on_env]. destruct x; cbn [on_surroundings]; try done.
    + unfold polled in HT. destruct (mounted s) eqn:Em; [cbn; unfold polled; by rewrite Em |].
      destruct HT as [Hi ->]. by apply effect_ticks.
    + unfold polled in HT. destruct (mounted s) eqn:Em; [| cbn; unfold polled; by rewrite Em].
      destruct HT as (id & Hi & ->). unfold cleanup. rewrite Hi. cbn. by rewrite Nat.eqb_refl.
    + unfold polled in HT. destruct (mounted s) eqn:Em; [| cbn; unfold polled; cbn; by rewrite Em].
      destruct HT as (id & Hi & ->). unfold cleanup. rewrite Hi.
      cbn -[effect]. rewrite Nat.eqb_refl. by apply effect_ticks.
Qed.

(** Exactly one interval runs while the page is mounted, the one it keeps, and none
    otherwise, whatever elections are chosen. *)
Theorem polling_one_interval t e w :
  reachable app (fun _ => True) (initial t e) w ->
  intervals_of (tasks w) = match interval (st w) with Some id => [id] | None => [] end
  /\ (mounted (st w) = true <-> interval (st w) <> None).
Proof.
  intros Hw.
  assert (polled (intervals_of (tasks w)) (st w)) as H
    by by apply (reachable_related app polled (fun _ => True) (initial t e) w polling_ticking).
  unfold polled in H. destruct (mounted (st w)).
  - destruct H as (id & -> & ->). by split.
  - by destruct H as [-> ->].
Qed.

(** ** The loading flag *)

Lemma polling_load_timerless s : timerless (loadData s).
Proof. timerless_auto. Qed.

Lemma polling_load_lowers s s0 s1 :
  fine loading false s0 s1 ->
  low (fun _ => True) loading false (loadData s) (fun b _ => fine loading b) (fun b _ => fine loading b) s0 s1.
Proof.
  intros Hf. unfold loadData. destruct (selectedElection s) as [e|]; [| done]. apply low_upd.
  apply lowers_at_end; [done | timerless_auto].
Qed.

Lemma effect_lowers s s0 s1 :
  fine loading false s0 s1 ->
  low (fun _ => True) loading false (effect s) (fun b _ => fine loading b) (fun b _ => fine loading b) s0 s1.
Proof.
  intros Hf. unfold effect. split; [intros s' _; apply polling_load_lowers; by split |].
  intros id. cbn [low upd mbind prog_bind]. by apply polling_load_lowers.
Qed.

Lemma polling_lowers : lowering_component app (fun _ => True) (fun _ => True) loading.
Proof.
  assert (forall s : state, fine loading false s s) as Hr by by split.
  split.
  - intros u s _ _ _. unfold lowers, page. cbn [on_user]. destruct u; cbn [on_ui]; try by split.
    + by apply polling_load_lowers.
    + unfold handleAuthorize. destruct (selectedElection s) as [e|]; [| by split]. do 3 apply low_upd.
      apply lowers_at_end; [done |].
      apply timerless_try; [| by intros]. apply timerless_bind; [by intros [?|?] |]. intros res.
      apply polling_load_timerless.
  - intros x s _ _. unfold lowers, page. cbn [on_env].
    destruct x; cbn [on_surroundings]; try (destruct (mounted s)); try by split.
    + by apply low_upd, effect_lowers.
    + unfold cleanup. by destruct (interval s).
    + unfold cleanup. apply low_upd. destruct (interval s); by apply effect_lowers.
Qed.

(** When no request is pending the page is not loading. *)
Theorem polling_not_left_loading t e w :
  reachable app (fun _ => True) (initial t e) w -> idle w = true -> loading (st w) = false.
Proof. intros Hw Hidle. by eapply never_left_busy; [apply polling_lowers | | exact Hw | exact Hidle]. Qed.

(** Without a [created_at] in the answer every session is shown as created now. *)
Theorem polling_shows_render_time x :
  undeclared x "created_at" = VUndef -> exists a b, session_row undeclared x = [a; b; Date "now"].
Proof. intros H. unfold session_row. rewrite H. cbn. eauto. Qed.
End Facts.

(** ** Concrete runs *)

Definition no_more : SessionResponse -> string -> value := fun _ _ => VUndef.

Definition an_election (id : string) : ElectionResponse :=
  {| e_id := id; e_title_name := None; e_title := Some id; e_description := None; e_state := OPEN;
     e_configuration_hash := None; e_device_count := 1; e_ballot_count := 0;
     e_created_at := "2026-01-01T00:00:00Z"; e_opened_at := None; e_closed_at := None;
     e_published_at := None; e_candidates := [] |}.

Definition a_session : SessionResponse :=
  {| s_id := "S1"; s_election_id := "E1"; s_device_id := "EVM-001"; s_session_token := "secret";
     s_voter_credential := "V1"; s_status := "ACTIVE"; s_authorized_at := "2026-01-01T08:00:00Z";
     s_voted_at := None |}.

Definition backend : forall r, outcome (resp r) :=
  fun r => match r as r return outcome (resp r) with
           | getSessions _ _ => Ok [a_session]
           | authorizeSession _ _ _ _ => Ok a_session
           | _ => Err (plain_error "Error" "offline")
           end.

Definition start : state := initial (Some "token"%string) (Some (an_election "E1")).

Definition typed : list (event ui env) :=
  [Env Mount; Reply 1 (answers backend); User (TypeCredential "V1"); User (TypeDevice "EVM-001");
   User SubmitAuthorize].

Definition authorisations (w : world state) : list req :=
  List.filter (fun q => match q with authorizeSession _ _ _ _ => true | _ => false end) (map snd (sent w)).

(** An interval's answer lowers the flag of an authorisation under way: the button comes back
    and the same voter is authorised again. *)
Theorem polling_authorises_twice :
  exists w, run (page no_more) (boot start)
      (typed ++ [Tick 10000; Fire 0; Reply 3 (answers backend); User SubmitAuthorize]) = Some w
    /\ authorisations w = [authorizeSession "E1" "V1" "EVM-001" (Some "token"%string);
                           authorizeSession "E1" "V1" "EVM-001" (Some "token"%string)].
Proof. apply run_witness. vm_compute. reflexivity. Qed.

(** The interval goes on asking with the token of the render that set it, after logging out. *)
Theorem polling_keeps_old_token :
  exists w, run (page no_more) (boot start)
      [Env Mount; Reply 1 (answers backend); Env (TokenChanged None); Tick 10000; Fire 0] = Some w
    /\ token (st w) = None
    /\ map snd (sent w) = [getSessions "E1" (Some "token"%string); getSessions "E1" (Some "token"%string)].
Proof. apply run_witness. vm_compute. by split_and!. Qed.

(** A session token stays on display after another election was chosen. *)
Theorem polling_token_outlives_election :
  exists w, run (page no_more) (boot start)
      (typed ++ [Reply 2 (answers backend); Reply 3 (answers backend); Env (Selected (Some (an_election "E2")))]) = Some w
    /\ selectedElection (st w) = Some (an_election "E2")
    /\ shows (render no_more (st w)) "secret" = true.
Proof. apply run_witness. vm_compute. by split_and!. Qed.

Definition asked : world state := default (boot start) (run (page no_more) (boot start) typed).

Lemma reachable_asked : reachable (page no_more) (fun _ => True) start asked.
Proof. apply reachable_default; [constructor | by repeat constructor]. Qed.

Lemma polling_authorisations_justified_witness :
  exists s, Sends s (authorizeSession "E1" "V1" "EVM-001" (Some "token"%string)).
Proof.
  eexists. eapply (polling_authorisations_justified no_more (Some "token"%string) (Some (an_election "E1")) asked);
    [exact reachable_asked |]. vm_compute. right. left. reflexivity.
Defined.

Lemma polling_one_interval_witness : intervals_of (tasks asked) = [0%nat].
Proof.
  refine (eq_trans (proj1 (polling_one_interval no_more (Some "token"%string) (Some (an_election "E1")) asked reachable_asked)) _).
  vm_compute. reflexivity.
Defined.

Definition answered : world state :=
  default asked (run (page no_more) asked [Reply 2 (answers backend); Reply 3 (answers backend)]).

Lemma polling_not_left_loading_witness : loading (st answered) = false.
Proof.
  apply (polling_not_left_loading no_more (Some "token"%string) (Some (an_election "E1")) answered).
  - apply reachable_default; [exact reachable_asked | by repeat constructor].
  - vm_compute. reflexivity.
Defined.

Lemma polling_shows_render_time_witness : exists a b, session_row no_more a_session = [a; b; Date "now"].
Proof. apply polling_shows_render_time. reflexivity. Defined.
