(* ===== verification/Candidates.v ===== *)
(** * Candidate management: [app/(officer)/election/candidates/page.tsx]

    The candidates of the selected election, adding and deleting them until the
    configuration is locked; then who may be added, what becomes of the form, and that the
    typed position is what is sent. *)
From S2P Require Import Prelude JsValue JsNumber FormatError Types ApiClient View React Alone Spinner Officer.
From Stdlib Require Import Ascii String DecimalString DecimalZ.

Module Candidates.

(*@ dashboard/app/(officer)/election/candidates/page.tsx 10 17 CandidatesPage *)
Record state := mk_state {
  token : option string;
  selectedElection : option ElectionResponse;
  loading : bool;
  error : option string;
  name : string;
  party : string;
  position : string }.

Definition set_token (v : option string) (s : state) : state :=
  mk_state v (selectedElection s) (loading s) (error s) (name s) (party s) (position s).
Definition set_selectedElection (v : option ElectionResponse) (s : state) : state :=
  mk_state (token s) v (loading s) (error s) (name s) (party s) (position s).
Definition set_loading (v : bool) (s : state) : state :=
  mk_state (token s) (selectedElection s) v (error s) (name s) (party s) (position s).
Definition set_error (v : option string) (s : state) : state :=
  mk_state (token s) (selectedElection s) (loading s) v (name s) (party s) (position s).
Definition set_name (v : string) (s : state) : state :=
  mk_state (token s) (selectedElection s) (loading s) (error s) v (party s) (position s).
Definition set_party (v : string) (s : state) : state :=
  mk_state (token s) (selectedElection s) (loading s) (error s) (name s) v (position s).
Definition set_position (v : string) (s : state) : state :=
  mk_state (token s) (selectedElection s) (loading s) (error s) (name s) (party s) v.

Definition initial (t : option string) (e : option ElectionResponse) : state :=
  mk_state t e false None "" "" "1".

Abbreviation M := (prog state).

(** ** [parseInt]

    On ASCII text: leading white space, a sign, the prefix of hexadecimals, then the longest
    run of digits; [None] is NaN. *)
Definition digit (radix : Z) (c : ascii) : option Z :=
  let n := Z.of_nat (nat_of_ascii c) in
  let d := if (48 <=? n) && (n <=? 57) then n - 48
           else if (97 <=? n) && (n <=? 122) then n - 87
           else if (65 <=? n) && (n <=? 90) then n - 55 else 36 in
  if d <? radix then Some d else None.

Fixpoint digits (radix : Z) (s : string) (acc : option Z) : option Z :=
  match s with
  | String c s' =>
      match digit radix c with
      | Some d => digits radix s' (Some (default 0 acc * radix + d))
      | None => acc
      end
  | EmptyString => acc
  end.

Definition unsigned_int (s : string) : option Z :=
  if starts_with "0x" s || starts_with "0X" s
  then digits 16 (String.substring 2 (String.length s - 2) s) None
  else digits 10 s None.

Definition parse_int (s : string) : option Z :=
  match trim_start s with
  | String "-" s' => option_map Z.opp (unsigned_int s')
  | String "+" s' => unsigned_int s'
  | s' => unsigned_int s'
  end.

(** ** Handlers *)

(** [parseInt(position) || 1]. *)
(*@ dashboard/app/(officer)/election/candidates/page.tsx 30 30 handleAddCandidate *)
Definition position_or_1 (position : string) : Z :=
  match parse_int position with
  | Some z => if z =? 0 then 1 else z
  | None => 1
  end.

(*@ dashboard/app/(officer)/election/candidates/page.tsx 25 39 handleAddCandidate *)
Definition handleAddCandidate (s : state) : M unit :=
  match selectedElection s with
  | None => mret tt
  | Some e =>
      upd (set_loading true);;
      upd (set_error None);;
      finally
        (try_catch
           (await (addCandidate (e_id e)
                     {| cc_name := name s; cc_party := Some (party s); cc_symbol := None;
                        cc_position := position_or_1 (position s) |} (token s));;
            refreshElections (token s) (selectedElection s);;
            upd (set_name "");;
            upd (set_party ""))
           (report set_error))
        (upd (set_loading false))
  end.

(*@ dashboard/app/(officer)/election/candidates/page.tsx 41 51 handleDelete *)
Definition handleDelete (candidateId : string) (s : state) : M unit :=
  match selectedElection s with
  | None => mret tt
  | Some e =>
      upd (set_loading true);;
      finally
        (try_catch
           (await (deleteCandidate (e_id e) candidateId (token s));;
            refreshElections (token s) (selectedElection s))
           (report set_error))
        (upd (set_loading false))
  end.

Inductive ui :=
| TypeName (v : string) | TypeParty (v : string) | TypePosition (v : string) | SubmitAdd
| ClickDelete (id : string).

#[export] Instance ui_eq_dec : EqDecision ui. Proof. solve_decision. Defined.

(** What the contexts give the page. *)
Inductive env := Selected (e : option ElectionResponse) | TokenChanged (t : option string).

(*@ dashboard/app/(officer)/election/candidates/page.tsx 74 138 onChange/onSubmit/onClick *)
Definition on_ui (u : ui) (s : state) : M unit :=
  match u with
  | TypeName v => upd (set_name v)
  | TypeParty v => upd (set_party v)
  | TypePosition v => upd (set_position v)
  | SubmitAdd => handleAddCandidate s
  | ClickDelete id => handleDelete id s
  end.

(*@ dashboard/app/(officer)/election/candidates/page.tsx 10 11 CandidatesPage *)
Definition on_surroundings (x : env) (s : state) : M unit :=
  match x with
  | Selected e => upd (set_selectedElection e)
  | TokenChanged t => upd (set_token t)
  end.

(** ** The page *)

(*@ dashboard/app/(officer)/election/candidates/page.tsx 23 23 isLocked *)
Definition isLocked (e : ElectionResponse) : bool :=
  negb (bool_decide (e_state e = CREATED)) && negb (bool_decide (e_state e = CONFIGURED)).

(** The three fields are [required]. *)
Definition form_valid (s : state) : bool :=
  truthy_str (name s) && truthy_str (party s) && truthy_str (position s).

(*@ dashboard/app/(officer)/election/candidates/page.tsx 71 114 CandidatesPage *)
Definition add_form (s : state) : list (node ui) :=
  [Text "Add Candidate";
   Field "Name" (name s) false (fun u => match u with TypeName _ => true | _ => false end);
   Field "Party" (party s) false (fun u => match u with TypeParty _ => true | _ => false end);
   Field "Position" (position s) false (fun u => match u with TypePosition _ => true | _ => false end);
   Button "Add" (loading s || negb (form_valid s)) SubmitAdd].

(*@ dashboard/app/(officer)/election/candidates/page.tsx 129 147 CandidatesPage *)
Definition candidate_row (s : state) (locked : bool) (c : CandidateResponse) : list (node ui) :=
  [Text (Z_to_string (c_position c)); Text (c_id c); Text (c_name c); Text (default EmptyString (c_party c))]
  ++ when (negb locked) [Button "Delete" (loading s) (ClickDelete (c_id c))].

(*@ dashboard/app/(officer)/election/candidates/page.tsx 53 160 CandidatesPage *)
Definition render (s : state) : list (node ui) :=
  match selectedElection s with
  | None => [Text "Select an election to view candidates."]
  | Some e =>
      [Text "Candidate Management"] ++ when (isLocked e) [Text "Configuration Locked"]
      ++ error_box (error s)
      ++ when (negb (isLocked e)) (add_form s)
      ++ [Text "Position"; Text "ID"; Text "Name"; Text "Party"]
      ++ when (negb (isLocked e)) [Text "Actions"]
      ++ match e_candidates e with
         | [] => [Text "No candidates registered yet."]
         | l => flat_map (candidate_row s (isLocked e)) l
         end
  end.

Definition page : component state ui env := mk_component render on_ui on_surroundings.

End Candidates.

Import Candidates.

#[export] Hint Unfold on_ui on_surroundings handleAddCandidate handleDelete : prog.

(** ** The typed position *)

Ltac read_digit :=
  match goal with
  | |- context [digit 10 ?c] => let d := eval vm_compute in (digit 10 c) in change (digit 10 c) with d
  end; cbn iota.

Lemma digits_acc u : forall p,
  digits 10 (NilEmpty.string_of_uint u) (Some (Zpos p)) = Some (Zpos (Pos.of_uint_acc u p)).
Proof.
  induction u as [|u IH|u IH|u IH|u IH|u IH|u IH|u IH|u IH|u IH|u IH]; intros p; [done | ..];
    cbn [NilEmpty.string_of_uint Pos.of_uint_acc digits]; rewrite <- IH; read_digit; f_equal; f_equal; cbn [from_option id]; lia.
Qed.

Lemma digits_uint u :
  digits 10 (NilEmpty.string_of_uint u) (Some 0) = Some (Z.of_uint u).
Proof.
  induction u as [|u IH|u IH|u IH|u IH|u IH|u IH|u IH|u IH|u IH|u IH]; [done | exact IH | ..];
    cbn [NilEmpty.string_of_uint digits]; read_digit; exact (digits_acc u _).
Qed.

Lemma unsigned_uint u : unsigned_int (NilZero.string_of_uint u) = Some (Z.of_uint u).
Proof.
  assert (forall v, v <> Decimal.Nil -> unsigned_int (NilEmpty.string_of_uint v) = Some (Z.of_uint v)) as H.
  { intros v Hv. rewrite <- digits_uint. unfold unsigned_int.
    destruct v as [|v|v|v|v|v|v|v|v|v|v]; [done | ..]; try (by destruct v). }
  destruct u; [reflexivity | ..]; by apply H.
Qed.

(** The position typed as a decimal numeral is the position sent, unless it is 0. *)
Theorem candidate_position_roundtrip z :
  parse_int (Z_to_string z) = Some z /\ position_or_1 (Z_to_string z) = if z =? 0 then 1 else z.
Proof.
  assert (parse_int (Z_to_string z) = Some z) as H.
  { rewrite <- (DecimalZ.of_to z) at 2. unfold parse_int, Z_to_string, NilZero.string_of_int.
    destruct (Z.to_int z) as [u|u].
    - transitivity (unsigned_int (NilZero.string_of_uint u)); [| by rewrite unsigned_uint].
      destruct u; reflexivity.
    - transitivity (option_map Z.opp (unsigned_int (NilZero.string_of_uint u))); [reflexivity |].
      by rewrite unsigned_uint. }
  split; [done |]. unfold position_or_1. by rewrite H.
Qed.

(** ** Controls *)

Lemma rows_controls s e u :
  allows (flat_map (candidate_row s (isLocked e)) (e_candidates e)) u
  = match u with
    | ClickDelete id => negb (isLocked e) && (negb (loading s) && existsb (fun c => String.eqb id (c_id c)) (e_candidates e))
    | _ => false
    end.
Proof.
  rewrite allows_flat_map. unfold candidate_row.
  induction (e_candidates e) as [|c l IH]; cbn [existsb]; [destruct u; by tidy_bool |].
  rewrite IH, allows_app, allows_when. destruct u as [v|v|v| |id]; read_page; try (by destruct (isLocked e)).
  destruct (isLocked e), (loading s); cbn; try done. f_equal.
  destruct (String.eqb_spec id (c_id c)) as [->|Hne];
    [by rewrite bool_decide_eq_true_2 | rewrite bool_decide_eq_false_2; [done | congruence]].
Qed.

(** What the page lets its user do. *)
Lemma allows_candidate_page s u :
  allows (render s) u
  = match selectedElection s with
    | None => false
    | Some e =>
        negb (isLocked e)
        && match u with
           | TypeName _ | TypeParty _ | TypePosition _ => true
           | SubmitAdd => negb (loading s) && form_valid s
           | ClickDelete id => negb (loading s) && existsb (fun c => String.eqb id (c_id c)) (e_candidates e)
           end
    end.
Proof.
  unfold render. destruct (selectedElection s) as [e|]; [| done].
  rewrite !allows_app, !allows_when, allows_error_box.
  replace (allows match e_candidates e with [] => _ | l => _ end u)
    with (allows (flat_map (candidate_row s (isLocked e)) (e_candidates e)) u)
    by (destruct (e_candidates e); [by destruct u | done]).
  rewrite rows_controls. unfold add_form.
  destruct u; read_page; by destruct (isLocked e).
Qed.

(** ** Requests *)

Definition Sends (s : state) (r : req) : Prop :=
  match r with
  | addCandidate i data t =>
      t = token s /\ exists e, selectedElection s = Some e /\ i = e_id e /\ (e_state e = CREATED \/ e_state e = CONFIGURED)
      /\ truthy_str (cc_name data) = true /\ truthy_opt (cc_party data) = true /\ cc_position data <> 0
  | deleteCandidate i c t =>
      t = token s /\ exists e, selectedElection s = Some e /\ i = e_id e /\ (e_state e = CREATED \/ e_state e = CONFIGURED)
      /\ In c (map c_id (e_candidates e))
  | getElections _ | getElection _ _ => True
  | _ => False
  end.

Lemma unlocked e : isLocked e = false -> e_state e = CREATED \/ e_state e = CONFIGURED.
Proof. unfold isLocked. destruct (e_state e); cbn; auto; discriminate. Qed.

Lemma position_nonzero p : position_or_1 p <> 0.
Proof. unfold position_or_1. destruct (parse_int p) as [z|]; [| done]. by destruct (Z.eqb_spec z 0). Qed.

Lemma refresh_safe b t e s :
  wpf (fun _ => True) Sends b (refreshElections t e) (fun _ _ _ => True) (fun _ _ _ => True) s.
Proof. by apply (refresh_keeps (fun _ => True) Sends t e). Qed.

Lemma candidates_safe : safe_component page (fun _ => True) Sends (fun _ => True).
Proof.
  split; [| by intros [e|t] s _ _]. intros u s _ _ Hu. change (allows (render s) u = true) in Hu.
  rewrite allows_candidate_page in Hu. unfold page. cbn [on_user].
  destruct (selectedElection s) as [e|] eqn:Es; [| done].
  apply andb_true_iff in Hu as [Hl%negb_true_iff%unlocked Hu].
  destruct u as [v|v|v| |id]; cbn [on_ui]; try done; apply (wp_wpf (fun _ => True) Sends false).
  - unfold handleAddCandidate. rewrite Es. do 2 apply wpf_upd. unfold form_valid in Hu. reflect_bool.
    apply wpf_finally, wpf_try, wpf_bind. cbn -[refreshElections]. split_and!; [done | |].
    + constructor; [| done]. split; [done |]. exists e. split_and!; try done. apply position_nonzero.
    + intros [a|err] s' _; cbn -[refreshElections]; [| done]. apply wpf_bind.
      eapply wpf_mono; [apply refresh_safe | by intros | by intros].
  - unfold handleDelete. rewrite Es. apply wpf_upd. reflect_bool.
    apply wpf_finally, wpf_try, wpf_bind. cbn -[refreshElections]. split_and!; [done | |].
    + constructor; [| done]. split; [done |]. exists e. split_and!; try done.
      match goal with H : existsb _ _ = true |- _ => apply existsb_exists in H as (c & Hin & Hc) end.
      apply String.eqb_eq in Hc as ->. by apply in_map.
    + intros [a|err] s' _; cbn -[refreshElections]; [| done].
      eapply wpf_mono; [apply refresh_safe | by intros | by intros].
Qed.

(** In every interleaving a candidate is added or deleted only in the election shown, while
    its configuration is open, with the page's own token; an added one has a name, a party
    and a position that is not 0, a deleted one is a candidate of that election. *)
Theorem candidates_requests_legal t e w s q :
  reachable page (fun _ => True) (initial t e) w -> In (s, q) (sent w) -> Sends s q.
Proof.
  intros Hw Hin. destruct (reachable_good _ _ _ _ candidates_safe (initial t e) w I Hw) as [_ _ Hs].
  exact (Forall_In _ _ _ Hs Hin).
Qed.

(** ** What becomes of the form *)

(** The candidate the form stands for. *)
Definition form_candidate (s : state) : CandidateCreate :=
  {| cc_name := name s; cc_party := Some (party s); cc_symbol := None;
     cc_position := position_or_1 (position s) |}.

(** Whatever the backend answers: an accepted candidate is followed by a refresh of the
    elections and empties the name and the party, but not the position, which the next
    candidate is sent with; a rejected one leaves the form and shows why. *)
Theorem candidate_submitted w e (f : forall r, outcome (resp r)) :
  let s := st w in
  tasks w = [] -> selectedElection s = Some e -> allows (render s) SubmitAdd = true ->
  exists k w', run page w (User SubmitAdd :: replies f (fresh w) k) = Some w'
    /\ tasks w' = []
    /\ match f (addCandidate (e_id e) (form_candidate s) (token s)) with
       | Ok _ => st w' = set_party "" (set_name "" (set_error None s))
                 /\ map snd (sent w') = map snd (sent w)
                    ++ addCandidate (e_id e) (form_candidate s) (token s) :: refreshing f (token s) (selectedElection s)
       | Err err => st w' = set_error (Some (FormatError.format_error err)) s
                    /\ map snd (sent w') = map snd (sent w) ++ [addCandidate (e_id e) (form_candidate s) (token s)]
       end.
Proof.
  intros s Ht Es Hu. subst s.
  assert (loading (st w) = false) as Hl.
  { rewrite allows_candidate_page, Es in Hu. by reflect_bool. }
  destruct (f (addCandidate (e_id e) (form_candidate (st w)) (token (st w)))) as [c|err] eqn:Ef.
  all: edestruct (click_alone f page w SubmitAdd) as (k & w' & H1 & H2 & H3 & H4 & _); [done | done | |];
    [unfold page; cbn [on_user on_ui]; unfold handleAddCandidate, report; rewrite Es; fold (form_candidate (st w));
     alone_auto; rewrite ?refresh_alone; cbn [after]; alone_auto; reflexivity |].
  all: exists k, w'; split; [exact H1 |]; split; [exact H2 |]; rewrite H3, H4, map_app; cbn;
    rewrite ?app_nil_r, ?map_app, ?map_map, ?map_id; split; [| by rewrite ?Es].
  all: destruct (st w); cbn in *; by subst.
Qed.

(** When nothing is pending the buttons are back. *)
Lemma candidates_lowers : lowering_component page (fun _ => True) (fun _ => True) loading.
Proof.
  split; [| by intros [e|t] s _ _]. intros u s _ _ _. unfold lowers, page. cbn [on_user].
  destruct u as [v|v|v| |id]; cbn [on_ui]; try done; unfold handleAddCandidate, handleDelete;
    (destruct (selectedElection s) as [e|]; [| done]); repeat apply low_upd;
    (apply lowers_at_end; [done |]);
    (apply timerless_try; [| by intros]); (apply timerless_bind; [by intros [?|?] |]); intros _;
    [| apply refresh_timerless].
  apply timerless_bind; [apply refresh_timerless | by intros].
Qed.

Theorem candidates_not_left_loading t e w :
  reachable page (fun _ => True) (initial t e) w -> idle w = true -> loading (st w) = false.
Proof. intros Hw Hidle. by eapply never_left_busy; [apply candidates_lowers | | exact Hw | exact Hidle]. Qed.

(** The request has no identifier for the new candidate. *)
Theorem added_candidate_has_no_id e data t :
  prop "id" (candidate_value data) = VUndef
  /\ call_init (http_addCandidate e data t)
     = with_body "POST" (json_body [("candidates"%string, VArr [candidate_value data])]).
Proof. by split. Qed.

(** ** Concrete runs *)

Definition an_election : ElectionResponse :=
  {| e_id := "E1"; e_title_name := None; e_title := Some "Poll"%string; e_description := None;
     e_state := CREATED; e_configuration_hash := None; e_device_count := 0; e_ballot_count := 0;
     e_created_at := "2026-01-01T00:00:00Z"; e_opened_at := None; e_closed_at := None;
     e_published_at := None; e_candidates := [] |}.

Definition start : state := initial (Some "token"%string) (Some an_election).

Definition filled : list (event ui env) :=
  [User (TypeName "A. Kumar"); User (TypeParty "Independent"); User (TypePosition " 07th")].

Definition filling : world state := default (boot start) (run page (boot start) filled).

Definition adding : world state := default filling (run page filling [User SubmitAdd]).

Lemma candidates_reachable_adding : reachable page (fun _ => True) start adding.
Proof.
  apply reachable_default; [| by repeat constructor].
  apply reachable_default; [constructor | by repeat constructor].
Qed.

Lemma candidates_requests_legal_witness :
  exists s, Sends s (addCandidate "E1" {| cc_name := "A. Kumar"; cc_party := Some "Independent"%string;
                                          cc_symbol := None; cc_position := 7 |} (Some "token"%string)).
Proof.
  eexists. eapply (candidates_requests_legal (Some "token"%string) (Some an_election) adding);
    [exact candidates_reachable_adding |]. vm_compute. left. reflexivity.
Defined.

Definition accepting : forall r, outcome (resp r) :=
  fun r => match r as r return outcome (resp r) with
           | addCandidate _ _ _ => Ok None
           | _ => Err (plain_error "Error" "offline")
           end.

Lemma candidate_submitted_witness :
  exists k w', run page filling (User SubmitAdd :: replies accepting 0 k) = Some w' /\ name (st w') = ""%string.
Proof.
  destruct (candidate_submitted filling an_election accepting) as (k & w' & H1 & _ & H2);
    [reflexivity | reflexivity | vm_compute; reflexivity |].
  cbn [accepting] in H2. destruct H2 as [H2 _]. exists k, w'. split; [exact H1 | by rewrite H2].
Defined.

Definition added : world state := default adding (run page adding (replies accepting 0 2)).

Lemma candidates_not_left_loading_witness : loading (st added) = false.
Proof.
  apply (candidates_not_left_loading (Some "token"%string) (Some an_election) added); [| vm_compute; reflexivity].
  apply reachable_default; [exact candidates_reachable_adding | by repeat constructor].
Defined.
