(* ===== verification/ElectionDevices.v ===== *)
(** * Device management of an election: [app/(officer)/election/devices/page.tsx]

    A second page for the devices of the selected election, beside [Devices]; then what it
    asks for, which changes of status it offers against the backend's table, and its form. *)
From S2P Require Import Prelude JsValue JsNumber FormatError Types ApiClient View React Alone Spinner Officer Devices.
From Stdlib Require Import String.

Module ElectionDevices.

(*@ dashboard/app/(officer)/election/devices/page.tsx 11 18 DevicesPage *)
Record state := mk_state {
  token : option string;
  selectedElection : option ElectionResponse;
  mounted : bool;
  devices : list DeviceResponse;
  loading : bool;
  error : option string;
  id : string;
  name : string }.

Definition set_token (v : option string) (s : state) : state :=
  mk_state v (selectedElection s) (mounted s) (devices s) (loading s) (error s) (id s) (name s).
Definition set_selectedElection (v : option ElectionResponse) (s : state) : state :=
  mk_state (token s) v (mounted s) (devices s) (loading s) (error s) (id s) (name s).
Definition set_mounted (v : bool) (s : state) : state :=
  mk_state (token s) (selectedElection s) v (devices s) (loading s) (error s) (id s) (name s).
Definition set_devices (v : list DeviceResponse) (s : state) : state :=
  mk_state (token s) (selectedElection s) (mounted s) v (loading s) (error s) (id s) (name s).
Definition set_loading (v : bool) (s : state) : state :=
  mk_state (token s) (selectedElection s) (mounted s) (devices s) v (error s) (id s) (name s).
Definition set_error (v : option string) (s : state) : state :=
  mk_state (token s) (selectedElection s) (mounted s) (devices s) (loading s) v (id s) (name s).
Definition set_id (v : string) (s : state) : state :=
  mk_state (token s) (selectedElection s) (mounted s) (devices s) (loading s) (error s) v
    (name s).
Definition set_name (v : string) (s : state) : state :=
  mk_state (token s) (selectedElection s) (mounted s) (devices s) (loading s) (error s) (id s)
    v.

Definition initial (t : option string) (e : option ElectionResponse) : state :=
  mk_state t e false [] false None "" "".

Abbreviation M := (prog state).

(*@ dashboard/app/(officer)/election/devices/page.tsx 20 31 loadDevices *)
Definition loadDevices (s : state) : M unit :=
  match selectedElection s with
  | None => mret tt
  | Some e =>
      upd (set_loading true);;
      finally
        (try_catch
           (data ← await (getDevices (e_id e) (token s));
            upd (set_devices data))
           (report set_error))
        (upd (set_loading false))
  end.

(*@ dashboard/app/(officer)/election/devices/page.tsx 37 50 handleRegister *)
Definition handleRegister (s : state) : M unit :=
  match selectedElection s with
  | None => mret tt
  | Some e =>
      upd (set_loading true);;
      finally
        (try_catch
           (await (registerDevice (e_id e) {| dr_id := id s; dr_name := name s; dr_device_hash := None |} (token s));;
            loadDevices s;;
            upd (set_id "");;
            upd (set_name ""))
           (report set_error))
        (upd (set_loading false))
  end.

(*@ dashboard/app/(officer)/election/devices/page.tsx 52 62 handleStatusUpdate *)
Definition handleStatusUpdate (deviceId : string) (status : DeviceStatus) (s : state) : M unit :=
  upd (set_loading true);;
  finally
    (try_catch
       (match selectedElection s with
        | Some e =>
            await (updateDeviceStatus (e_id e) deviceId status (token s));;
            loadDevices s
        | None => Throw (plain_error "TypeError" "Cannot read properties of null (reading 'id')")
        end)
       (report set_error))
    (upd (set_loading false)).

Inductive ui :=
| ClickReload | TypeId (v : string) | TypeName (v : string) | SubmitRegister
| ClickStatus (deviceId : string) (status : DeviceStatus).

#[export] Instance ui_eq_dec : EqDecision ui. Proof. solve_decision. Defined.

Inductive env := Mount | Selected (e : option ElectionResponse) | TokenChanged (t : option string).

(*@ dashboard/app/(officer)/election/devices/page.tsx 72 141 onClick/onSubmit *)
Definition on_ui (u : ui) (s : state) : M unit :=
  match u with
  | ClickReload => loadDevices s
  | TypeId v => upd (set_id v)
  | TypeName v => upd (set_name v)
  | SubmitRegister => handleRegister s
  | ClickStatus d status => handleStatusUpdate d status s
  end.

(*@ dashboard/app/(officer)/election/devices/page.tsx 33 35 useEffect *)
Definition on_surroundings (x : env) (s : state) : M unit :=
  match x with
  | Mount => if mounted s then mret tt else upd (set_mounted true);; loadDevices s
  | Selected e =>
      upd (set_selectedElection e);;
      (if mounted s then loadDevices (set_selectedElection e s) else mret tt)
  | TokenChanged t => upd (set_token t)
  end.

(** ** The page *)

Definition form_valid (s : state) : bool := truthy_str (id s) && truthy_str (name s).

Section Page.

(** What the server's answer has under a key its declared type does not have. *)
Context (undeclared : DeviceResponse -> string -> value).

(** The change of status a button of a device's row asks for. *)
(*@ dashboard/app/(officer)/election/devices/page.tsx 134 142 DevicesPage *)
Definition status_buttons (d : DeviceResponse) : list (node ui) :=
  let active := bool_decide (d_status d = D_ACTIVE) in
  when (negb active) [Button "Activate" false (ClickStatus (d_id d) D_ACTIVE)]
  ++ when active [Button "Suspend" false (ClickStatus (d_id d) D_SUSPENDED)]
  ++ when (negb (bool_decide (d_status d = D_REVOKED))) [Button "Revoke" false (ClickStatus (d_id d) D_REVOKED)].

(*@ dashboard/app/(officer)/election/devices/page.tsx 116 145 DevicesPage *)
Definition device_row (d : DeviceResponse) : list (node ui) :=
  let active := bool_decide (d_status d = D_ACTIVE) in
  [Text (str_or (d_name d) (d_id d)); Text (d_id d);
   Icon (if active then "ShieldCheck" else "ShieldAlert");
   Box (if active then "emerald" else if bool_decide (d_status d = D_SUSPENDED) then "amber" else "rose")
     [Text (device_status_str (d_status d))];
   Text (let votes := undeclared d "votes_cast" in if truthy votes then to_string votes else "0");
   (let seen := undeclared d "last_seen" in if truthy seen then Date (to_string seen) else Text "Never")]
  ++ status_buttons d.

(*@ dashboard/app/(officer)/election/devices/page.tsx 64 157 DevicesPage *)
Definition render (s : state) : list (node ui) :=
  match selectedElection s with
  | None => [Text "Select an election to view devices."]
  | Some e =>
      [Text "Device Management"; Button "Reload" (loading s) ClickReload]
      ++ error_box (error s)
      ++ [Text "Register New Device";
          Field "Device ID" (id s) false (fun u => match u with TypeId _ => true | _ => false end);
          Field "Device Name" (name s) false (fun u => match u with TypeName _ => true | _ => false end);
          Button "Register" (loading s || negb (form_valid s)) SubmitRegister;
          Text "Device Info"; Text "Status"; Text "Votes Cast"; Text "Last Seen"; Text "Actions"]
      ++ match devices s with
         | [] => [Text "No devices registered."]
         | l => flat_map device_row l
         end
  end.

Definition page : component state ui env := mk_component render on_ui on_surroundings.
End Page.

End ElectionDevices.

Import ElectionDevices.

#[export] Hint Unfold on_ui on_surroundings loadDevices handleRegister handleStatusUpdate report : prog.

Section Facts.
Context (undeclared : DeviceResponse -> string -> value).

Abbreviation app := (page undeclared).

(** ** Controls *)

(** The changes of status the page offers. *)
Definition offered (from to_ : DeviceStatus) : bool :=
  match to_ with
  | D_ACTIVE => negb (bool_decide (from = D_ACTIVE))
  | D_SUSPENDED => bool_decide (from = D_ACTIVE)
  | D_REVOKED => negb (bool_decide (from = D_REVOKED))
  | D_REGISTERED => false
  end.

Lemma allows_buttons d u :
  allows (status_buttons d) u
  = match u with ClickStatus i st => String.eqb i (d_id d) && offered (d_status d) st | _ => false end.
Proof.
  unfold status_buttons. rewrite !allows_app, !allows_when.
  destruct u as [|v|v| |i st]; read_page; rewrite ?andb_false_r; try done.
  destruct (String.eqb_spec i (d_id d)) as [->|Hne], (d_status d), st; cbn; decide_eqs; tidy_bool; try done;
    reflect_bool; congruence.
Qed.

Lemma allows_devices l u :
  allows (flat_map (device_row undeclared) l) u
  = match u with
    | ClickStatus i st => existsb (fun d => String.eqb i (d_id d) && offered (d_status d) st) l
    | _ => false
    end.
Proof.
  rewrite allows_flat_map. induction l as [|d l IH]; cbn [existsb]; [by destruct u |].
  rewrite IH. unfold device_row. rewrite allows_app, allows_buttons.
  replace (allows [Text _; Text _; Icon _; Box _ _; Text _; _] u) with false
    by (cbn; by destruct (truthy (undeclared d "last_seen"))).
  by destruct u.
Qed.

Lemma allows_page s u :
  allows (render undeclared s) u
  = bool_decide (selectedElection s <> None)
    && match u with
       | ClickReload => negb (loading s)
       | TypeId _ | TypeName _ => true
       | SubmitRegister => negb (loading s) && form_valid s
       | ClickStatus i st => existsb (fun d => String.eqb i (d_id d) && offered (d_status d) st) (devices s)
       end.
Proof.
  unfold render. destruct (selectedElection s) as [e|]; [| done].
  rewrite bool_decide_eq_true_2, !allows_app, allows_error_box by done.
  replace (allows match devices s with [] => _ | l => _ end u) with (allows (flat_map (device_row undeclared) (devices s)) u)
    by (destruct (devices s); [by destruct u | done]).
  rewrite allows_devices. destruct u; by read_page.
Qed.

(** The page offers every change the backend's table allows, and two it does not: revoking
    a unit that was never activated, and activating a revoked one. *)
Theorem election_devices_offers s d st :
  selectedElection s <> None -> devices s = [d] ->
  allows (render undeclared s) (ClickStatus (d_id d) st) = true
  <-> st ∈ Devices.VALID_STATUS_TRANSITIONS (d_status d)
      \/ (d_status d = D_REGISTERED /\ st = D_REVOKED) \/ (d_status d = D_REVOKED /\ st = D_ACTIVE).
Proof.
  intros He Hd. rewrite allows_page, Hd, bool_decide_eq_true_2 by done. cbn [existsb andb].
  rewrite String.eqb_refl, orb_false_r. cbn [andb]. rewrite list_elem_of_In.
  destruct (d_status d), st; cbn; intuition discriminate.
Qed.

(** ** Requests *)

Definition Sends (s : state) (r : req) : Prop :=
  match r with
  | updateDeviceStatus i d st t =>
      t = token s /\ (exists e, selectedElection s = Some e /\ i = e_id e)
      /\ exists dev, In dev (devices s) /\ d = d_id dev /\ st <> d_status dev
  | registerDevice i data t =>
      t = token s /\ (exists e, selectedElection s = Some e /\ i = e_id e)
      /\ truthy_str (dr_id data) = true /\ truthy_str (dr_name data) = true
  | getDevices _ _ => True
  | _ => False
  end.

Lemma edevices_load_keeps s : keeps (fun _ => True) Sends (loadDevices s).
Proof. keeps_auto. Qed.

Lemma offered_moves from to_ : offered from to_ = true -> to_ <> from.
Proof. by destruct from, to_. Qed.

Lemma election_devices_safe : safe_component app (fun _ => True) Sends (fun _ => True).
Proof.
  split.
  - intros u s _ _ Hu. change (allows (render undeclared s) u = true) in Hu. rewrite allows_page in Hu.
    apply andb_true_iff in Hu as [He%bool_decide_eq_true Hu]. unfold page. cbn [on_user].
    destruct (selectedElection s) as [e|] eqn:Es; [| done].
    destruct u as [|v|v| |i st]; cbn [on_ui]; try done; [by apply keeps_handles; [apply edevices_load_keeps |] | |];
      apply (wp_wpf (fun _ => True) Sends false).
    + unfold handleRegister. rewrite Es. apply wpf_upd. unfold form_valid in Hu. reflect_bool.
      apply wpf_finally, wpf_try, wpf_bind. cbn -[loadDevices]. split_and!; [done | |].
      * constructor; [| done]. cbn. eauto 10.
      * intros [a|err] s' _; cbn -[loadDevices]; [| done]. apply wpf_bind.
        eapply wpf_mono; [by apply edevices_load_keeps | by intros | by intros].
    + unfold handleStatusUpdate. rewrite Es. apply wpf_upd.
      apply existsb_exists in Hu as (dev & Hin & [->%String.eqb_eq Ho%offered_moves]%andb_true_iff).
      apply wpf_finally, wpf_try, wpf_bind. cbn -[loadDevices]. split_and!; [done | |].
      * constructor; [| done]. cbn. eauto 10.
      * intros [a|err] s' _; cbn -[loadDevices]; [| done].
        eapply wpf_mono; [by apply edevices_load_keeps | by intros | by intros].
  - intros x s _ _. unfold page. cbn [on_env]. destruct x; cbn [on_surroundings]; try (destruct (mounted s)); try done;
      apply keeps_handles; try done; (apply keeps_bind; [by apply keeps_upd | intros _]); apply edevices_load_keeps.
Qed.

(** In every interleaving a status is changed only for a device on display, away from the
    status shown, and a unit registered only with an identifier and a name; both in the
    election shown and with the page's own token. *)
Theorem election_devices_requests t e w s q :
  reachable app (fun _ => True) (initial t e) w -> In (s, q) (sent w) -> Sends s q.
Proof.
  intros Hw Hin. destruct (reachable_good _ _ _ _ election_devices_safe (initial t e) w I Hw) as [_ _ Hs].
  exact (Forall_In _ _ _ Hs Hin).
Qed.

(** ** Registering *)

Lemma edevices_load_alone f s e s' :
  selectedElection s = Some e ->
  alone f (loadDevices s) s'
  = Some (mk_ending (inl tt)
       match f (getDevices (e_id e) (token s)) with
       | Ok data => set_loading false (set_devices data (set_loading true s'))
       | Err err => set_loading false (set_error (Some (FormatError.format_error err)) (set_loading true s'))
       end [(set_loading true s', getDevices (e_id e) (token s))]).
Proof.
  intros Es. unfold loadDevices, report. rewrite Es. alone_auto.
  destruct (f (getDevices _ _)); alone_auto; reflexivity.
Qed.

(** A registered unit empties the form, whether or not the list can be loaded again; a
    rejected one leaves it and shows why. *)
Theorem device_registered w e (f : forall r, outcome (resp r)) :
  let s := st w in
  let data := {| dr_id := id s; dr_name := name s; dr_device_hash := None |} in
  tasks w = [] -> selectedElection s = Some e -> allows (render undeclared s) SubmitRegister = true ->
  exists k w', run app w (User SubmitRegister :: replies f (fresh w) k) = Some w'
    /\ tasks w' = [] /\ loading (st w') = false
    /\ match f (registerDevice (e_id e) data (token s)), f (getDevices (e_id e) (token s)) with
       | Ok _, Ok l => devices (st w') = l /\ id (st w') = "" /\ name (st w') = "" /\ error (st w') = error s
       | Ok _, Err err => devices (st w') = devices s /\ id (st w') = "" /\ name (st w') = ""
                          /\ error (st w') = Some (FormatError.format_error err)
       | Err err, _ => devices (st w') = devices s /\ id (st w') = id s /\ name (st w') = name s
                       /\ error (st w') = Some (FormatError.format_error err)
       end%string.
Proof.
  intros s data Ht Es Hu. subst s.
  destruct (f (registerDevice (e_id e) data (token (st w)))) as [d|err] eqn:Ef.
  all: edestruct (click_alone f app w SubmitRegister) as (k & w' & H1 & H2 & H3 & _); [done | done | |];
    [unfold page; cbn [on_user on_ui]; unfold handleRegister, report; rewrite Es; fold data;
     alone_auto; rewrite ?(edevices_load_alone f _ e) by done; cbn [after]; alone_auto; reflexivity |].
  all: exists k, w'; split; [exact H1 |]; split; [exact H2 |]; rewrite H3; cbn.
  - by destruct (f (getDevices _ _)).
  - by split.
Qed.

(** ** The loading flag *)

Lemma edevices_load_timerless s : timerless (loadDevices s).
Proof. timerless_auto. Qed.

Lemma edevices_load_lowers s s0 s1 :
  fine loading false s0 s1 ->
  low (fun _ => True) loading false (loadDevices s) (fun b _ => fine loading b) (fun b _ => fine loading b) s0 s1.
Proof.
  intros Hf. unfold loadDevices. destruct (selectedElection s) as [e|]; [| done]. apply low_upd.
  apply lowers_at_end; [done | timerless_auto].
Qed.

Lemma election_devices_lowers : lowering_component app (fun _ => True) (fun _ => True) loading.
Proof.
  assert (forall s : state, fine loading false s s) as Hr by by split.
  split.
  - intros u s _ _ _. unfold lowers, page. cbn [on_user].
    destruct u as [|v|v| |i st]; cbn [on_ui]; try (by split); [by apply edevices_load_lowers | |].
    + unfold handleRegister. destruct (selectedElection s) as [e|]; [| by split]. apply low_upd.
      apply lowers_at_end; [done | timerless_auto].
    + apply low_upd.
      apply lowers_at_end; [done | timerless_auto].
  - intros x s _ _. unfold lowers, page. cbn [on_env].
    destruct x; cbn [on_surroundings]; try (destruct (mounted s)); try (by split); by apply low_upd, edevices_load_lowers.
Qed.

Theorem election_devices_not_left_loading t e w :
  reachable app (fun _ => True) (initial t e) w -> idle w = true -> loading (st w) = false.
Proof. intros Hw Hidle. by eapply never_left_busy; [apply election_devices_lowers | | exact Hw | exact Hidle]. Qed.
End Facts.

(** ** Concrete runs *)

Definition a_unit : DeviceResponse :=
  {| d_id := "EVM-001"; d_election_id := "E1"; d_name := "Unit"; d_status := D_ACTIVE;
     d_device_hash := None; d_last_sequence_number := 0; d_total_votes_cast := 0;
     d_registered_at := "2026-01-01T00:00:00Z"; d_activated_at := None; d_last_seen_at := None |}.

Definition the_election : ElectionResponse :=
  {| e_id := "E1"; e_title_name := None; e_title := Some "Poll"%string; e_description := None;
     e_state := OPEN; e_configuration_hash := None; e_device_count := 1; e_ballot_count := 0;
     e_created_at := "2026-01-01T00:00:00Z"; e_opened_at := None; e_closed_at := None;
     e_published_at := None; e_candidates := [] |}.

Definition units : forall r, outcome (resp r) :=
  fun r => match r as r return outcome (resp r) with
           | getDevices _ _ => Ok [a_unit]
           | registerDevice _ _ _ => Ok a_unit
           | _ => Err (plain_error "Error" "offline")
           end.

Definition declared_only : DeviceResponse -> string -> value := fun _ _ => VUndef.

Definition opened : state := initial (Some "token"%string) (Some the_election).

Definition listing : world state :=
  default (boot opened) (run (page declared_only) (boot opened) [Env Mount; Reply 0 (answers units)]).

Lemma reachable_listing : reachable (page declared_only) (fun _ => True) opened listing.
Proof. apply reachable_default; [constructor | by repeat constructor]. Qed.

(** The buttons of a device are not disabled while a change is on its way: pressed twice,
    the change is asked for twice. *)
Theorem election_devices_changed_twice :
  exists w, run (page declared_only) listing
      [User (ClickStatus "EVM-001" D_REVOKED); User (ClickStatus "EVM-001" D_REVOKED)] = Some w
    /\ map snd (sent w) = [getDevices "E1" (Some "token"%string);
                           updateDeviceStatus "E1" "EVM-001" D_REVOKED (Some "token"%string);
                           updateDeviceStatus "E1" "EVM-001" D_REVOKED (Some "token"%string)].
Proof. apply run_witness. vm_compute. reflexivity. Qed.

Definition revoking : world state :=
  default listing (run (page declared_only) listing [User (ClickStatus "EVM-001" D_REVOKED)]).

Lemma election_devices_requests_witness :
  exists s, Sends s (updateDeviceStatus "E1" "EVM-001" D_REVOKED (Some "token"%string)).
Proof.
  eexists. eapply (election_devices_requests declared_only (Some "token"%string) (Some the_election) revoking).
  - apply reachable_default; [exact reachable_listing | by repeat constructor].
  - vm_compute. right. left. reflexivity.
Defined.

Lemma election_devices_offers_witness : allows (render declared_only (st listing)) (ClickStatus "EVM-001" D_REVOKED) = true.
Proof.
  apply (election_devices_offers declared_only (st listing) a_unit D_REVOKED); [discriminate | reflexivity |].
  left. apply list_elem_of_In. cbn. auto.
Defined.

Definition typed : world state :=
  default listing (run (page declared_only) listing [User (TypeId "EVM-002"); User (TypeName "Unit 2")]).

Lemma device_registered_witness :
  exists k w', run (page declared_only) typed (User SubmitRegister :: replies units 1 k) = Some w' /\ id (st w') = ""%string.
Proof.
  destruct (device_registered declared_only typed the_election units) as (k & w' & H1 & _ & _ & H2);
    [reflexivity | reflexivity | vm_compute; reflexivity |].
  cbn in H2. destruct H2 as (_ & H2 & _). exists k, w'. split; [exact H1 | exact H2].
Defined.

Lemma election_devices_not_left_loading_witness : loading (st listing) = false.
Proof.
  apply (election_devices_not_left_loading declared_only (Some "token"%string) (Some the_election) listing);
    [exact reachable_listing | vm_compute; reflexivity].
Defined.
