(* ===== verification/Stations.v ===== *)
(** * Polling stations of an election: [app/(officer)/election/polling-stations/page.tsx]

    The stations of the selected election and the form that adds one; then what the form
    sends, which is never what the backend accepts. *)
From S2P Require Import Prelude JsValue JsNumber FormatError Types ApiClient View React Alone Spinner Officer.
From Stdlib Require Import Ascii String.

Module Stations.

(** The backend's pattern for a station's code. *)
(*@ backend/app/schemas.py 522 522 PollingStationCreate *)
Definition ps_pattern (s : string) : bool :=
  match s with
  | String "P" (String "S" (String "-" (String a (String b (String c EmptyString))))) =>
      forallb (fun x => let n := nat_of_ascii x in ((48 <=? n) && (n <=? 57))%nat) [a; b; c]
  | _ => false
  end.

(** What the backend accepts as a new station. *)
(*@ backend/app/schemas.py 521 526 PollingStationCreate *)
Definition acceptable_station (v : value) : bool :=
  let text k P := match prop k v with VStr s => P s | _ => false end in
  let long lo hi s := let n := Z.of_nat (String.length s) in (lo <=? n) && (n <=? hi) in
  text "station_code" ps_pattern && text "name" (long 3 255) && text "constituency" (long 2 100)
  && text "location" (long 3 255)
  && (is_nullish (prop "officer_name" v) || text "officer_name" (fun _ => true)).

(*@ dashboard/app/(officer)/election/polling-stations/page.tsx 10 20 PollingStationsPage *)
Record state := mk_state {
  token : option string;
  selectedElection : option ElectionResponse;
  mounted : bool;
  stations : list PollingStationResponse;
  loading : bool;
  error : option string;
  code : string;
  name : string;
  constituency : string;
  location : string;
  officer : string }.

Definition set_token (v : option string) (s : state) : state :=
  mk_state v (selectedElection s) (mounted s) (stations s) (loading s) (error s) (code s)
    (name s) (constituency s) (location s) (officer s).
Definition set_selectedElection (v : option ElectionResponse) (s : state) : state :=
  mk_state (token s) v (mounted s) (stations s) (loading s) (error s) (code s) (name s)
    (constituency s) (location s) (officer s).
Definition set_mounted (v : bool) (s : state) : state :=
  mk_state (token s) (selectedElection s) v (stations s) (loading s) (error s) (code s)
    (name s) (constituency s) (location s) (officer s).
Definition set_stations (v : list PollingStationResponse) (s : state) : state :=
  mk_state (token s) (selectedElection s) (mounted s) v (loading s) (error s) (code s) (name s)
    (constituency s) (location s) (officer s).
Definition set_loading (v : bool) (s : state) : state :=
  mk_state (token s) (selectedElection s) (mounted s) (stations s) v (error s) (code s)
    (name s) (constituency s) (location s) (officer s).
Definition set_error (v : option string) (s : state) : state :=
  mk_state (token s) (selectedElection s) (mounted s) (stations s) (loading s) v (code s)
    (name s) (constituency s) (location s) (officer s).
Definition set_code (v : string) (s : state) : state :=
  mk_state (token s) (selectedElection s) (mounted s) (stations s) (loading s) (error s) v
    (name s) (constituency s) (location s) (officer s).
Definition set_name (v : string) (s : state) : state :=
  mk_state (token s) (selectedElection s) (mounted s) (stations s) (loading s) (error s)
    (code s) v (constituency s) (location s) (officer s).
Definition set_constituency (v : string) (s : state) : state :=
  mk_state (token s) (selectedElection s) (mounted s) (stations s) (loading s) (error s)
    (code s) (name s) v (location s) (officer s).
Definition set_location (v : string) (s : state) : state :=
  mk_state (token s) (selectedElection s) (mounted s) (stations s) (loading s) (error s)
    (code s) (name s) (constituency s) v (officer s).
Definition set_officer (v : string) (s : state) : state :=
  mk_state (token s) (selectedElection s) (mounted s) (stations s) (loading s) (error s)
    (code s) (name s) (constituency s) (location s) v.

Definition initial (t : option string) (e : option ElectionResponse) : state :=
  mk_state t e false [] false None "" "" "" "" "".

Abbreviation M := (prog state).

(*@ dashboard/app/(officer)/election/polling-stations/page.tsx 22 33 loadStations *)
Definition loadStations (s : state) : M unit :=
  match selectedElection s with
  | None => mret tt
  | Some e =>
      busy set_loading set_error
        (data ← await (getPollingStations (e_id e) (token s));
         upd (set_stations data))
  end.

(*@ dashboard/app/(officer)/election/polling-stations/page.tsx 44 50 handleCreate *)
Definition new_station (s : state) : value :=
  VObj [("station_code", VStr (code s)); ("name", VStr (name s)); ("constituency", VStr (constituency s));
        ("location", VStr (location s));
        ("officer_name", if truthy_str (officer s) then VStr (officer s) else VUndef)]%string.

(*@ dashboard/app/(officer)/election/polling-stations/page.tsx 39 58 handleCreate *)
Definition handleCreate (s : state) : M unit :=
  match selectedElection s with
  | None => mret tt
  | Some e =>
      busy set_loading set_error
        (await (createPollingStation (e_id e) (new_station s) (token s));;
         loadStations s;;
         upd (set_code "");; upd (set_name "");; upd (set_constituency "");; upd (set_location "");;
         upd (set_officer ""))
  end.

Inductive ui :=
| ClickReload | TypeCode (v : string) | TypeName (v : string) | TypeConstituency (v : string)
| TypeOfficer (v : string) | SubmitCreate.

#[export] Instance ui_eq_dec : EqDecision ui. Proof. solve_decision. Defined.

Inductive env := Mount | Selected (e : option ElectionResponse) | TokenChanged (t : option string).

(*@ dashboard/app/(officer)/election/polling-stations/page.tsx 68 102 onClick/onSubmit *)
Definition on_ui (u : ui) (s : state) : M unit :=
  match u with
  | ClickReload => loadStations s
  | TypeCode v => upd (set_code v)
  | TypeName v => upd (set_name v)
  | TypeConstituency v => upd (set_constituency v)
  | TypeOfficer v => upd (set_officer v)
  | SubmitCreate => handleCreate s
  end.

(*@ dashboard/app/(officer)/election/polling-stations/page.tsx 35 37 useEffect *)
Definition on_surroundings (x : env) (s : state) : M unit :=
  match x with
  | Mount => if mounted s then mret tt else upd (set_mounted true);; loadStations s
  | Selected e =>
      upd (set_selectedElection e);;
      (if mounted s then loadStations (set_selectedElection e s) else mret tt)
  | TokenChanged t => upd (set_token t)
  end.

(** ** The page *)

(** The [required] fields. *)
Definition form_valid (s : state) : bool :=
  truthy_str (code s) && truthy_str (name s) && truthy_str (constituency s).

Section Page.

(** What the server's answer has under a key its declared type does not have. *)
Context (undeclared : PollingStationResponse -> string -> value).

(*@ dashboard/app/(officer)/election/polling-stations/page.tsx 122 134 PollingStationsPage *)
Definition station_row (x : PollingStationResponse) : list (node ui) :=
  [Text (let v := undeclared x "code" in if is_nullish v then EmptyString else to_string v);
   Text (ps_name x); Text (ps_constituency x);
   Box (if String.eqb (ps_status x) "ACTIVE" then "emerald" else "slate") [Text (ps_status x)];
   Text (let v := undeclared x "officer_in_charge" in if truthy v then to_string v else "-")].

(*@ dashboard/app/(officer)/election/polling-stations/page.tsx 60 145 PollingStationsPage *)
Definition render (s : state) : list (node ui) :=
  match selectedElection s with
  | None => [Text "Select an election to view polling stations."]
  | Some e =>
      [Text "Polling Stations"; Button "Reload" (loading s) ClickReload]
      ++ error_box (error s)
      ++ [Text "Register Station";
          Field "Code" (code s) false (fun u => match u with TypeCode _ => true | _ => false end);
          Field "Name" (name s) false (fun u => match u with TypeName _ => true | _ => false end);
          Field "Constituency" (constituency s) false (fun u => match u with TypeConstituency _ => true | _ => false end);
          Field "Officer" (officer s) false (fun u => match u with TypeOfficer _ => true | _ => false end);
          Button "Add" (loading s || negb (form_valid s)) SubmitCreate;
          Text "Code"; Text "Name"; Text "Constituency"; Text "Status"; Text "Officer"]
      ++ match stations s with
         | [] => [Text "No polling stations configured."]
         | l => flat_map station_row l
         end
  end.

Definition page : component state ui env := mk_component render on_ui on_surroundings.
End Page.

End Stations.

Import Stations.

#[export] Hint Unfold on_ui on_surroundings loadStations handleCreate : prog.

Section Facts.
Context (undeclared : PollingStationResponse -> string -> value).

Abbreviation app := (page undeclared).

Lemma stations_rows_silent l u : allows (flat_map (station_row undeclared) l) u = false.
Proof. rewrite allows_flat_map. induction l as [|x l IH]; [done |]. cbn [existsb]. by rewrite IH. Qed.

Lemma allows_stations s u :
  allows (render undeclared s) u
  = bool_decide (selectedElection s <> None)
    && match u with
       | ClickReload => negb (loading s)
       | SubmitCreate => negb (loading s) && form_valid s
       | _ => true
       end.
Proof.
  unfold render. destruct (selectedElection s) as [e|]; [| done].
  rewrite bool_decide_eq_true_2, !allows_app, allows_error_box by done.
  replace (allows match stations s with [] => _ | l => _ end u) with false
    by (destruct (stations s); [done | by rewrite stations_rows_silent]).
  destruct u; by read_page.
Qed.

(** ** What is sent *)

(** No control sets the location. *)
Definition nowhere (s : state) : Prop := location s = EmptyString.

Definition Sends (s : state) (r : req) : Prop :=
  match r with
  | createPollingStation i v t =>
      t = token s /\ v = new_station s /\ location s = EmptyString /\ form_valid s = true
      /\ exists e, selectedElection s = Some e /\ i = e_id e
  | getPollingStations _ _ => True
  | _ => False
  end.

Lemma stations_load_keeps s : keeps nowhere Sends (loadStations s).
Proof.
  unfold loadStations. destruct (selectedElection s) as [e|]; [| apply keeps_ret].
  apply busy_keeps; [done | done |]. by keeps_auto.
Qed.

Lemma stations_safe : safe_component app nowhere Sends (fun _ => True).
Proof.
  split.
  - intros u s _ Hs Hu. change (allows (render undeclared s) u = true) in Hu. rewrite allows_stations in Hu.
    apply andb_true_iff in Hu as [He%bool_decide_eq_true Hu]. unfold page. cbn [on_user].
    destruct u as [|v|v|v|v|]; cbn [on_ui]; try done; [by apply keeps_handles; [apply stations_load_keeps |] |].
    unfold handleCreate. destruct (selectedElection s) as [e|] eqn:Es; [| done]. reflect_bool.
    apply (wp_wpf nowhere Sends false). unfold busy. apply wpf_upd, wpf_finally, wpf_try, wpf_bind.
    cbn -[loadStations new_station]. split_and!; [done | constructor; [cbn; eauto 10 | done] |].
    intros [a|err] s' Hs'; cbn -[loadStations]; [| done]. apply wpf_bind.
    eapply wpf_mono; [by apply stations_load_keeps | by intros | by intros].
  - intros x s _ Hs. unfold page. cbn [on_env]. destruct x; cbn [on_surroundings]; try (destruct (mounted s)); try done;
      apply keeps_handles; try done; (apply keeps_bind; [by apply keeps_upd | intros _]); apply stations_load_keeps.
Qed.

(** In every interleaving each new station is sent with an empty location, which the backend
    never accepts; nothing else that changes state is sent. *)
Theorem stations_never_acceptable t e w s q :
  reachable app (fun _ => True) (initial t e) w -> In (s, q) (sent w) ->
  match q with
  | createPollingStation _ v _ => prop "location" v = VStr "" /\ acceptable_station v = false
  | getPollingStations _ _ => True
  | _ => False
  end.
Proof.
  intros Hw Hin. destruct (reachable_good _ _ _ _ stations_safe (initial t e) w eq_refl Hw) as [_ _ Hs].
  pose proof (Forall_In _ _ _ Hs Hin) as H. destruct q; try exact H. destruct H as (_ & -> & Hl & _).
  unfold acceptable_station, new_station. rewrite Hl. split; [done |]. cbn. by rewrite andb_false_r.
Qed.

(** With the declared answer the columns for code and officer are empty. *)
Theorem station_row_without_code x :
  undeclared x "code" = VUndef -> undeclared x "officer_in_charge" = VUndef ->
  exists status, station_row undeclared x = [Text ""; Text (ps_name x); Text (ps_constituency x); status; Text "-"].
Proof. intros H1 H2. unfold station_row. rewrite H1, H2. cbn. eauto. Qed.

(** ** The loading flag *)

Lemma stations_load_timerless s : timerless (loadStations s).
Proof. unfold loadStations. destruct (selectedElection s); [| done]. apply busy_timerless. timerless_auto. Qed.

Lemma stations_load_lowers s s0 s1 :
  fine loading false s0 s1 ->
  low (fun _ => True) loading false (loadStations s) (fun b _ => fine loading b) (fun b _ => fine loading b) s0 s1.
Proof.
  intros Hf. unfold loadStations. destruct (selectedElection s) as [e|]; [| done].
  apply busy_lowers; [done | timerless_auto].
Qed.

Lemma stations_lowers : lowering_component app (fun _ => True) (fun _ => True) loading.
Proof.
  assert (forall s : state, fine loading false s s) as Hr by by split.
  split.
  - intros u s _ _ _. unfold lowers, page. cbn [on_user].
    destruct u as [|v|v|v|v|]; cbn [on_ui]; try (by split); [by apply stations_load_lowers |].
    unfold handleCreate. destruct (selectedElection s) as [e|]; [| by split].
    apply busy_lowers; [done |]. apply timerless_bind; [by intros [?|?] |]. intros _.
    apply timerless_bind; [apply stations_load_timerless | by intros].
  - intros x s _ _. unfold lowers, page. cbn [on_env].
    destruct x; cbn [on_surroundings]; try (destruct (mounted s)); try (by split); by apply low_upd, stations_load_lowers.
Qed.

Theorem stations_not_left_loading t e w :
  reachable app (fun _ => True) (initial t e) w -> idle w = true -> loading (st w) = false.
Proof. intros Hw Hidle. by eapply never_left_busy; [apply stations_lowers | | exact Hw | exact Hidle]. Qed.
End Facts.

(** ** A concrete run *)

Definition the_election : ElectionResponse :=
  {| e_id := "E1"; e_title_name := None; e_title := Some "Poll"%string; e_description := None;
     e_state := CONFIGURED; e_configuration_hash := None; e_device_count := 1; e_ballot_count := 0;
     e_created_at := "2026-01-01T00:00:00Z"; e_opened_at := None; e_closed_at := None;
     e_published_at := None; e_candidates := [] |}.

Definition opened : state := initial (Some "token"%string) (Some the_election).

Definition declared_only : PollingStationResponse -> string -> value := fun _ _ => VUndef.

Definition adding : world state :=
  default (boot opened) (run (page declared_only) (boot opened)
    [User (TypeCode "PS-001"); User (TypeName "School"); User (TypeConstituency "North"); User SubmitCreate]).

Lemma stations_reachable_adding : reachable (page declared_only) (fun _ => True) opened adding.
Proof. apply reachable_default; [constructor | by repeat constructor]. Qed.

Lemma stations_never_acceptable_witness :
  acceptable_station (new_station (set_constituency "North" (set_name "School" (set_code "PS-001" opened)))) = false.
Proof.
  refine (proj2 (stations_never_acceptable declared_only (Some "token"%string) (Some the_election) adding _
                   (createPollingStation "E1" _ (Some "token"%string)) stations_reachable_adding _)).
  vm_compute. left. reflexivity.
Defined.

Definition refused : world state :=
  default adding (run (page declared_only) adding [Reply 0 (answers (fun _ => Err (plain_error "Error" "422")))]).

Lemma stations_not_left_loading_witness : loading (st refused) = false.
Proof.
  apply (stations_not_left_loading declared_only (Some "token"%string) (Some the_election) refused);
    [| vm_compute; reflexivity].
  apply reachable_default; [exact stations_reachable_adding | by repeat constructor].
Defined.
