(* ===== verification/Complaints.v ===== *)
(** * Complaint management: [app/(officer)/election/complaints/page.tsx]

    The complaints about the selected election, their filter, and the form that changes the
    status of one; then what is shown, what is sent, and which of the offered statuses the
    backend knows. *)
From S2P Require Import Prelude JsValue JsNumber FormatError Types ApiClient View React Alone Spinner Officer.
From Stdlib Require Import String.

Module Complaints.

(** The statuses the backend accepts. *)
(*@ backend/app/schemas.py 570 570 ComplaintStatusUpdate *)
Definition ACCEPTED_STATUSES : list string := ["RECEIVED"; "ASSIGNED"; "UNDER_REVIEW"; "RESOLVED"; "CLOSED"]%string.

(*@ dashboard/app/(officer)/election/complaints/page.tsx 10 21 ComplaintsPage *)
Record state := mk_state {
  token : option string;
  selectedElection : option ElectionResponse;
  mounted : bool;
  complaints : list ComplaintResponse;
  loading : bool;
  error : option string;
  selectedComplaint : option ComplaintResponse;
  updateStatus : string;
  assignee : string;
  notes : string;
  filterStatus : string }.

Definition set_token (v : option string) (s : state) : state :=
  mk_state v (selectedElection s) (mounted s) (complaints s) (loading s) (error s)
    (selectedComplaint s) (updateStatus s) (assignee s) (notes s) (filterStatus s).
Definition set_selectedElection (v : option ElectionResponse) (s : state) : state :=
  mk_state (token s) v (mounted s) (complaints s) (loading s) (error s) (selectedComplaint s)
    (updateStatus s) (assignee s) (notes s) (filterStatus s).
Definition set_mounted (v : bool) (s : state) : state :=
  mk_state (token s) (selectedElection s) v (complaints s) (loading s) (error s)
    (selectedComplaint s) (updateStatus s) (assignee s) (notes s) (filterStatus s).
Definition set_complaints (v : list ComplaintResponse) (s : state) : state :=
  mk_state (token s) (selectedElection s) (mounted s) v (loading s) (error s)
    (selectedComplaint s) (updateStatus s) (assignee s) (notes s) (filterStatus s).
Definition set_loading (v : bool) (s : state) : state :=
  mk_state (token s) (selectedElection s) (mounted s) (complaints s) v (error s)
    (selectedComplaint s) (updateStatus s) (assignee s) (notes s) (filterStatus s).
Definition set_error (v : option string) (s : state) : state :=
  mk_state (token s) (selectedElection s) (mounted s) (complaints s) (loading s) v
    (selectedComplaint s) (updateStatus s) (assignee s) (notes s) (filterStatus s).
Definition set_selectedComplaint (v : option ComplaintResponse) (s : state) : state :=
  mk_state (token s) (selectedElection s) (mounted s) (complaints s) (loading s) (error s) v
    (updateStatus s) (assignee s) (notes s) (filterStatus s).
Definition set_updateStatus (v : string) (s : state) : state :=
  mk_state (token s) (selectedElection s) (mounted s) (complaints s) (loading s) (error s)
    (selectedComplaint s) v (assignee s) (notes s) (filterStatus s).
Definition set_assignee (v : string) (s : state) : state :=
  mk_state (token s) (selectedElection s) (mounted s) (complaints s) (loading s) (error s)
    (selectedComplaint s) (updateStatus s) v (notes s) (filterStatus s).
Definition set_notes (v : string) (s : state) : state :=
  mk_state (token s) (selectedElection s) (mounted s) (complaints s) (loading s) (error s)
    (selectedComplaint s) (updateStatus s) (assignee s) v (filterStatus s).
Definition set_filterStatus (v : string) (s : state) : state :=
  mk_state (token s) (selectedElection s) (mounted s) (complaints s) (loading s) (error s)
    (selectedComplaint s) (updateStatus s) (assignee s) (notes s) v.

Definition initial (t : option string) (e : option ElectionResponse) : state :=
  mk_state t e false [] false None None "" "" "" "".

Abbreviation M := (prog state).

(*@ dashboard/app/(officer)/election/complaints/page.tsx 28 28 filtered *)
Definition of_election (e : option ElectionResponse) (data : list ComplaintResponse) : list ComplaintResponse :=
  match e with
  | Some e => List.filter (fun c => bool_decide (co_election_id c = Some (e_id e))) data
  | None => data
  end.

(*@ dashboard/app/(officer)/election/complaints/page.tsx 23 35 loadData *)
Definition loadData (s : state) : M unit :=
  busy set_loading set_error
    (data ← await (getComplaints (token s));
     upd (set_complaints (of_election (selectedElection s) data))).

(** [s || undefined]. *)
Definition or_undefined (s : string) : option string := if truthy_str s then Some s else None.

(*@ dashboard/app/(officer)/election/complaints/page.tsx 41 58 handleUpdate *)
Definition handleUpdate (s : state) : M unit :=
  match selectedComplaint s with
  | None => mret tt
  | Some c =>
      busy set_loading set_error
        (await (updateComplaintStatus (co_id c) (updateStatus s) (or_undefined (assignee s))
                  (or_undefined (notes s)) (token s));;
         upd (set_selectedComplaint None);;
         loadData s)
  end.

Inductive ui :=
| ClickReload | SelectStatus (v : string) | TypeAssignee (v : string) | TypeNotes (v : string) | ClickCancel
| SubmitUpdate | SelectFilter (v : string) | ClickUpdate (c : ComplaintResponse).

#[export] Instance complaint_eq_dec : EqDecision ComplaintResponse. Proof. solve_decision. Defined.

#[export] Instance ui_eq_dec : EqDecision ui. Proof. solve_decision. Defined.

Inductive env := Mount | Selected (e : option ElectionResponse) | TokenChanged (t : option string).

(*@ dashboard/app/(officer)/election/complaints/page.tsx 155 160 onClick *)
Definition choose (c : ComplaintResponse) : M unit :=
  upd (set_selectedComplaint (Some c));;
  upd (set_updateStatus (co_status c));;
  upd (set_assignee (opt_or (co_assigned_officer c) ""));;
  upd (set_notes (opt_or (co_resolution_notes c) "")).

(*@ dashboard/app/(officer)/election/complaints/page.tsx 73 119 onClick/onChange *)
Definition on_ui (u : ui) (s : state) : M unit :=
  match u with
  | ClickReload => loadData s
  | SelectStatus v => upd (set_updateStatus v)
  | TypeAssignee v => upd (set_assignee v)
  | TypeNotes v => upd (set_notes v)
  | ClickCancel => upd (set_selectedComplaint None)
  | SubmitUpdate => handleUpdate s
  | SelectFilter v => upd (set_filterStatus v)
  | ClickUpdate c => choose c
  end.

(*@ dashboard/app/(officer)/election/complaints/page.tsx 37 39 useEffect *)
Definition on_surroundings (x : env) (s : state) : M unit :=
  match x with
  | Mount => if mounted s then mret tt else upd (set_mounted true);; loadData s
  | Selected e =>
      upd (set_selectedElection e);;
      (if mounted s then loadData (set_selectedElection e s) else mret tt)
  | TokenChanged t => upd (set_token t)
  end.

(** ** The page *)

(*@ dashboard/app/(officer)/election/complaints/page.tsx 91 95 option *)
Definition STATUS_OPTIONS : list (string * string) :=
  [("SUBMITTED", "SUBMITTED"); ("UNDER_REVIEW", "UNDER REVIEW"); ("INVESTIGATING", "INVESTIGATING");
   ("RESOLVED", "RESOLVED"); ("DISMISSED", "DISMISSED")]%string.

(*@ dashboard/app/(officer)/election/complaints/page.tsx 120 124 option *)
Definition FILTER_OPTIONS : list (string * string) :=
  [("", "All"); ("SUBMITTED", "SUBMITTED"); ("UNDER_REVIEW", "UNDER REVIEW");
   ("INVESTIGATING", "INVESTIGATING"); ("RESOLVED", "RESOLVED")]%string.

(*@ dashboard/app/(officer)/election/complaints/page.tsx 64 64 filteredComplaints *)
Definition filteredComplaints (s : state) : list ComplaintResponse :=
  if truthy_str (filterStatus s)
  then List.filter (fun c => String.eqb (co_status c) (filterStatus s)) (complaints s)
  else complaints s.

(*@ dashboard/app/(officer)/election/complaints/page.tsx 84 112 ComplaintsPage *)
Definition update_form (s : state) : list (node ui) :=
  match selectedComplaint s with
  | None => []
  | Some c =>
      [Text ("Update Complaint: " ++s co_reference_number c);
       Select (updateStatus s) STATUS_OPTIONS false SelectStatus;
       Field "Assignee" (assignee s) false (fun u => match u with TypeAssignee _ => true | _ => false end);
       Field "Resolution Notes" (notes s) false (fun u => match u with TypeNotes _ => true | _ => false end);
       Button "Cancel" false ClickCancel;
       Button "Update Complaint" (loading s) SubmitUpdate]
  end.

(*@ dashboard/app/(officer)/election/complaints/page.tsx 141 167 ComplaintsPage *)
Definition complaint_row (c : ComplaintResponse) : list (node ui) :=
  [Text (co_reference_number c); Text (co_category c); Text (co_description c); Text (co_status c);
   Text (opt_or (co_assigned_officer c) "-"); Date (co_created_at c); Button "Update" false (ClickUpdate c)].

(*@ dashboard/app/(officer)/election/complaints/page.tsx 60 178 ComplaintsPage *)
Definition render (s : state) : list (node ui) :=
  match selectedElection s with
  | None => [Text "Select an election to view complaints."]
  | Some e =>
      [Text "Complaint Management"; Button "Reload" (loading s) ClickReload]
      ++ error_box (error s)
      ++ update_form s
      ++ [Text "Filter by Status:"; Select (filterStatus s) FILTER_OPTIONS false SelectFilter;
          Text "Reference"; Text "Category"; Text "Description"; Text "Status"; Text "Assigned To";
          Text "Created"; Text "Actions"]
      ++ match filteredComplaints s with
         | [] => [Text "No complaints found."]
         | l => flat_map complaint_row l
         end
  end.

Definition page : component state ui env := mk_component render on_ui on_surroundings.

End Complaints.

Import Complaints.

#[export] Hint Unfold on_ui on_surroundings loadData handleUpdate choose : prog.

(** ** Controls *)

Lemma allows_complaint_rows l u :
  allows (flat_map complaint_row l) u
  = match u with ClickUpdate c => bool_decide (c ∈ l) | _ => false end.
Proof.
  rewrite allows_flat_map. induction l as [|c l IH]; cbn [existsb]; [by destruct u |].
  rewrite IH. unfold complaint_row. destruct u as [|v|v|v| | |v|c']; read_page; try done.
  destruct (decide (c' = c)) as [->|Hne].
  - rewrite (bool_decide_eq_true_2 (ClickUpdate c = ClickUpdate c)) by done. symmetry.
    apply bool_decide_eq_true_2, list_elem_of_In. by left.
  - rewrite (bool_decide_eq_false_2 (ClickUpdate c' = ClickUpdate c)) by congruence. cbn [orb].
    apply bool_decide_ext. rewrite !list_elem_of_In. cbn. intuition congruence.
Qed.

Definition offered (v : string) (opts : list (string * string)) : bool := str_in v (map fst opts).

Lemma select_offered (opts : list (string * string)) (on : string -> ui) v :
  (forall a b, on a = on b -> a = b) ->
  existsb (fun o => bool_decide (on v = on (fst o))) opts = offered v opts.
Proof.
  intros Hinj. unfold offered. rewrite <- (select_options fst snd opts on v Hinj).
  by rewrite (map_ext (fun x : string * string => (x.1, x.2)) id), map_id by by intros [? ?].
Qed.

Lemma allows_complaints s u :
  allows (render s) u
  = bool_decide (selectedElection s <> None)
    && match u with
       | ClickReload => negb (loading s)
       | SelectFilter v => offered v FILTER_OPTIONS
       | ClickUpdate c => bool_decide (c ∈ filteredComplaints s)
       | SubmitUpdate => bool_decide (selectedComplaint s <> None) && negb (loading s)
       | SelectStatus v => bool_decide (selectedComplaint s <> None) && offered v STATUS_OPTIONS
       | TypeAssignee _ | TypeNotes _ | ClickCancel => bool_decide (selectedComplaint s <> None)
       end.
Proof.
  unfold render. destruct (selectedElection s) as [e|]; [| done].
  rewrite bool_decide_eq_true_2, !allows_app, allows_error_box by done.
  replace (allows match filteredComplaints s with [] => _ | l => _ end u)
    with (allows (flat_map complaint_row (filteredComplaints s)) u)
    by (destruct (filteredComplaints s); [by destruct u | done]).
  rewrite allows_complaint_rows. unfold update_form.
  destruct (selectedComplaint s) as [c|]; [rewrite (bool_decide_eq_true_2 (Some c <> None)) by done
                                          | rewrite (bool_decide_eq_false_2 (_ <> None)) by naive_solver].
  all: destruct u as [|v|v|v| | |v|c']; cbn [orb andb]; rewrite ?allows_cons, ?allows_nil; cbn [fires];
    rewrite ?select_offered by congruence; decide_eqs; tidy_bool;
    rewrite ?select_other by (intros; discriminate); by tidy_bool.
Qed.

(** ** Requests *)

(** The status to be sent was offered, or is that of the complaint chosen. *)
Definition settled_status (s : state) : Prop :=
  match selectedComplaint s with
  | Some c => updateStatus s = co_status c \/ offered (updateStatus s) STATUS_OPTIONS = true
  | None => True
  end.

Definition Sends (s : state) (r : req) : Prop :=
  match r with
  | updateComplaintStatus i status officer notes t =>
      t = token s /\ status = updateStatus s
      /\ (exists c, selectedComplaint s = Some c /\ i = co_id c
          /\ (status = co_status c \/ offered status STATUS_OPTIONS = true))
      /\ officer <> Some EmptyString /\ notes <> Some EmptyString
  | getComplaints _ => True
  | _ => False
  end.

Lemma complaints_load_keeps s : keeps settled_status Sends (loadData s).
Proof. unfold loadData. apply busy_keeps; [done | done |]. by keeps_auto. Qed.

Lemma or_undefined_not_empty v : or_undefined v <> Some EmptyString.
Proof. unfold or_undefined. destruct (truthy_str v) eqn:E; [| done]. by intros [= ->]. Qed.

Lemma complaints_safe : safe_component page settled_status Sends (fun _ => True).
Proof.
  split.
  - intros u s _ Hs Hu. change (allows (render s) u = true) in Hu. rewrite allows_complaints in Hu.
    apply andb_true_iff in Hu as [He%bool_decide_eq_true Hu]. unfold page. cbn [on_user].
    destruct u as [|v|v|v| | |v|c']; cbn [on_ui]; try done.
    + by apply keeps_handles; [apply complaints_load_keeps |].
    + apply andb_true_iff in Hu as [_ Hu]. cbn. unfold settled_status in *. cbn. destruct (selectedComplaint s); auto.
    + unfold handleUpdate. destruct (selectedComplaint s) as [c|] eqn:Ec; [| done].
      apply (wp_wpf settled_status Sends false). unfold busy. apply wpf_upd, wpf_finally, wpf_try, wpf_bind.
      assert (settled_status (set_loading true s)) as Hs' by exact Hs.
      cbn -[loadData]. split_and!; [done | |].
      * constructor; [| done]. split_and!; try done; [| apply or_undefined_not_empty ..].
        exists c. split_and!; [done | done |]. unfold settled_status in Hs. by rewrite Ec in Hs.
      * intros [a|err] s2 Hs2; cbn -[loadData]; [| done].
        eapply wpf_mono; [by apply complaints_load_keeps | by intros | by intros].
    + cbn. by left.
  - intros x s _ Hs. unfold page. cbn [on_env]. destruct x; cbn [on_surroundings]; try (destruct (mounted s)); try done;
      apply keeps_handles; try done; (apply keeps_bind; [by apply keeps_upd | intros _]); apply complaints_load_keeps.
Qed.

(** In every interleaving a status is changed only for the complaint in the form, to the
    status in the form, which was offered or is the complaint's own; an empty assignee or
    note is never sent, so neither can be cleared. *)
Theorem complaints_requests t e w s q :
  reachable page (fun _ => True) (initial t e) w -> In (s, q) (sent w) -> Sends s q.
Proof.
  intros Hw Hin. destruct (reachable_good _ _ _ _ complaints_safe (initial t e) w I Hw) as [_ _ Hs].
  exact (Forall_In _ _ _ Hs Hin).
Qed.

(** Of the five statuses offered the backend accepts two, and of its five the page cannot
    set three. *)
Theorem complaint_statuses_accepted v :
  offered v STATUS_OPTIONS = true /\ str_in v ACCEPTED_STATUSES = true <-> v = "UNDER_REVIEW"%string \/ v = "RESOLVED"%string.
Proof.
  unfold offered. rewrite !str_in_In. split.
  - cbn. intros [H1 H2]. naive_solver.
  - intros [-> | ->]; cbn; auto 10.
Qed.

(** ** What is shown *)

(** Loading leaves exactly the complaints about the election of the render that asked. *)
Lemma complaints_load_alone f s s' :
  alone f (loadData s) s'
  = Some (mk_ending (inl tt)
       match f (getComplaints (token s)) with
       | Ok data => set_loading false (set_complaints (of_election (selectedElection s) data) (set_loading true s'))
       | Err err => set_loading false (set_error (Some (FormatError.format_error err)) (set_loading true s'))
       end [(set_loading true s', getComplaints (token s))]).
Proof.
  unfold loadData. destruct (f (getComplaints (token s))) eqn:E;
    (erewrite busy_alone; [| alone_auto; reflexivity]); reflexivity.
Qed.

(** The table shows the loaded complaints with the chosen status, in their order, each of
    them about the election. *)
Theorem complaints_shown e data s c :
  complaints s = of_election (Some e) data ->
  In c (filteredComplaints s)
  <-> In c data /\ co_election_id c = Some (e_id e) /\ (filterStatus s = "" \/ co_status c = filterStatus s)%string.
Proof.
  intros Hc. unfold filteredComplaints. rewrite Hc. unfold of_election.
  destruct (truthy_str (filterStatus s)) eqn:Ef.
  - apply truthy_str_true in Ef. rewrite !filter_In, String.eqb_eq, bool_decide_eq_true. tauto.
  - assert (filterStatus s = "")%string as E by by destruct (filterStatus s).
    rewrite filter_In, bool_decide_eq_true, E. tauto.
Qed.

(** An accepted update closes the form and reloads the list; a rejected one leaves the form
    as it is and shows why. *)
Theorem complaint_updated w c (f : forall r, outcome (resp r)) :
  let s := st w in
  let request := updateComplaintStatus (co_id c) (updateStatus s) (or_undefined (assignee s))
                   (or_undefined (notes s)) (token s) in
  tasks w = [] -> selectedComplaint s = Some c -> allows (render s) SubmitUpdate = true ->
  exists k w', run page w (User SubmitUpdate :: replies f (fresh w) k) = Some w'
    /\ tasks w' = []
    /\ match f request, f (getComplaints (token s)) with
       | Ok _, Ok data => st w' = set_selectedComplaint None (set_complaints (of_election (selectedElection s) data) s)
       | Ok _, Err err => st w' = set_selectedComplaint None (set_error (Some (FormatError.format_error err)) s)
       | Err err, _ => st w' = set_error (Some (FormatError.format_error err)) s
       end.
Proof.
  intros s request Ht Ec Hu. subst s.
  assert (loading (st w) = false) as Hl.
  { rewrite allows_complaints in Hu. by reflect_bool. }
  destruct (f request) as [c'|err] eqn:Ef.
  all: edestruct (click_alone f page w SubmitUpdate) as (k & w' & H1 & H2 & H3 & _); [done | done | |];
    [unfold page; cbn [on_user on_ui]; unfold handleUpdate; rewrite Ec; fold request;
     eapply busy_alone; alone_auto; rewrite ?complaints_load_alone; cbn [after]; reflexivity |].
  all: exists k, w'; split; [exact H1 |]; split; [exact H2 |]; rewrite H3; cbn.
  - destruct (f (getComplaints (token (st w)))); destruct (st w); cbn in *; by subst.
  - destruct (st w); cbn in *; by subst.
Qed.

(** ** The loading flag *)

Lemma complaints_load_timerless s : timerless (loadData s).
Proof. apply busy_timerless. timerless_auto. Qed.

Lemma complaints_load_lowers s s0 s1 :
  low (fun _ => True) loading false (loadData s) (fun b _ => fine loading b) (fun b _ => fine loading b) s0 s1.
Proof. apply busy_lowers; [done | timerless_auto]. Qed.

Lemma complaints_lowers : lowering_component page (fun _ => True) (fun _ => True) loading.
Proof.
  split.
  - intros u s _ _ _. unfold lowers, page. cbn [on_user].
    destruct u as [|v|v|v| | |v|c']; cbn [on_ui]; try (by split); [by apply complaints_load_lowers |].
    unfold handleUpdate. destruct (selectedComplaint s) as [c|]; [| by split].
    apply busy_lowers; [done |]. apply timerless_bind; [by intros [?|?] |]. intros _. apply complaints_load_timerless.
  - intros x s _ _. unfold lowers, page. cbn [on_env].
    destruct x; cbn [on_surroundings]; try (destruct (mounted s)); try (by split); by apply low_upd, complaints_load_lowers.
Qed.

Theorem complaints_not_left_loading t e w :
  reachable page (fun _ => True) (initial t e) w -> idle w = true -> loading (st w) = false.
Proof. intros Hw Hidle. by eapply never_left_busy; [apply complaints_lowers | | exact Hw | exact Hidle]. Qed.

(** ** Concrete runs *)

Definition the_election : ElectionResponse :=
  {| e_id := "E1"; e_title_name := None; e_title := Some "Poll"%string; e_description := None;
     e_state := OPEN; e_configuration_hash := None; e_device_count := 1; e_ballot_count := 0;
     e_created_at := "2026-01-01T00:00:00Z"; e_opened_at := None; e_closed_at := None;
     e_published_at := None; e_candidates := [] |}.

Definition a_complaint (i : string) (e : option string) : ComplaintResponse :=
  {| co_id := i; co_election_id := e; co_reference_number := i; co_category := "OTHER";
     co_description := "Queue"; co_complainant_name := "A"; co_complainant_contact := None;
     co_status := "SUBMITTED"; co_assigned_officer := None; co_resolution_notes := None;
     co_created_at := "2026-01-01T00:00:00Z"; co_updated_at := "2026-01-01T00:00:00Z" |}.

Definition desk : forall r, outcome (resp r) :=
  fun r => match r as r return outcome (resp r) with
           | getComplaints _ => Ok [a_complaint "K1" (Some "E1"%string); a_complaint "K2" None]
           | updateComplaintStatus _ _ _ _ _ => Ok (a_complaint "K1" (Some "E1"%string))
           | _ => Err (plain_error "Error" "offline")
           end.

Definition opened : state := initial (Some "token"%string) (Some the_election).

Definition editing : world state :=
  default (boot opened) (run page (boot opened)
    [Env Mount; Reply 0 (answers desk); User (ClickUpdate (a_complaint "K1" (Some "E1"%string)));
     User (SelectStatus "RESOLVED")]).

Lemma reachable_editing : reachable page (fun _ => True) opened editing.
Proof. apply reachable_default; [constructor | by repeat constructor]. Qed.

Definition updating : world state := default editing (run page editing [User SubmitUpdate]).

Lemma complaints_requests_witness :
  exists s, Sends s (updateComplaintStatus "K1" "RESOLVED" None None (Some "token"%string)).
Proof.
  eexists. eapply (complaints_requests (Some "token"%string) (Some the_election) updating).
  - apply reachable_default; [exact reachable_editing | by repeat constructor].
  - vm_compute. right. left. reflexivity.
Defined.

Lemma complaints_shown_witness : In (a_complaint "K1" (Some "E1"%string)) (filteredComplaints (st editing)).
Proof.
  apply (complaints_shown the_election [a_complaint "K1" (Some "E1"%string); a_complaint "K2" None] (st editing));
    [vm_compute; reflexivity |].
  split_and!; [by left | reflexivity | by left].
Defined.

Lemma complaint_updated_witness :
  exists k w', run page editing (User SubmitUpdate :: replies desk 1 k) = Some w' /\ selectedComplaint (st w') = None.
Proof.
  destruct (complaint_updated editing (a_complaint "K1" (Some "E1"%string)) desk) as (k & w' & H1 & _ & H2);
    [reflexivity | vm_compute; reflexivity | vm_compute; reflexivity |].
  cbn [desk] in H2. exists k, w'. split; [exact H1 | by rewrite H2].
Defined.

Definition refreshed : world state := default editing (run page editing (User SubmitUpdate :: replies desk 1 2)).

Lemma complaints_not_left_loading_witness : loading (st refreshed) = false.
Proof.
  apply (complaints_not_left_loading (Some "token"%string) (Some the_election) refreshed); [| vm_compute; reflexivity].
  apply reachable_default; [exact reachable_editing | by repeat constructor].
Defined.
