(* ===== verification/ElectionVerification.v ===== *)
(** * Independent verification of an election: [app/(officer)/election/verification/page.tsx]

    The officers' second verifier, which has the backend verify and signs what passed; then
    what it makes of the declared answer: a failure, always. *)
From S2P Require Import Prelude JsValue JsNumber FormatError Types ApiClient View React Alone Spinner Officer.
From Stdlib Require Import String.

Module ElectionVerification.

(*@ dashboard/app/(officer)/election/verification/page.tsx 10 14 VerificationPage *)
Record state := mk_state {
  token : option string;
  selectedElection : option ElectionResponse;
  loading : bool;
  error : option string;
  result : option VerificationResponse }.

Definition set_token (v : option string) (s : state) : state :=
  mk_state v (selectedElection s) (loading s) (error s) (result s).
Definition set_selectedElection (v : option ElectionResponse) (s : state) : state :=
  mk_state (token s) v (loading s) (error s) (result s).
Definition set_loading (v : bool) (s : state) : state :=
  mk_state (token s) (selectedElection s) v (error s) (result s).
Definition set_error (v : option string) (s : state) : state :=
  mk_state (token s) (selectedElection s) (loading s) v (result s).
Definition set_result (v : option VerificationResponse) (s : state) : state :=
  mk_state (token s) (selectedElection s) (loading s) (error s) v.

Definition initial (t : option string) (e : option ElectionResponse) : state := mk_state t e false None None.

Abbreviation M := (prog state).

(*@ dashboard/app/(officer)/election/verification/page.tsx 16 28 handleVerify *)
Definition handleVerify (s : state) : M unit :=
  match selectedElection s with
  | None => mret tt
  | Some e =>
      upd (set_loading true);;
      upd (set_error None);;
      finally
        (try_catch
           (data ← await (runVerification (e_id e) (token s));
            upd (set_result (Some data)))
           (report set_error))
        (upd (set_loading false))
  end.

(*@ dashboard/app/(officer)/election/verification/page.tsx 30 41 handleSign *)
Definition handleSign (s : state) : M unit :=
  match selectedElection s with
  | None => mret tt
  | Some e =>
      busy set_loading set_error
        (await (signElectionManifest (e_id e) (token s));;
         handleVerify s)
  end.

Inductive ui := ClickVerify | ClickSign.

#[export] Instance ui_eq_dec : EqDecision ui. Proof. solve_decision. Defined.

Inductive env := Selected (e : option ElectionResponse) | TokenChanged (t : option string).

(*@ dashboard/app/(officer)/election/verification/page.tsx 56 116 onClick *)
Definition on_ui (u : ui) (s : state) : M unit :=
  match u with ClickVerify => handleVerify s | ClickSign => handleSign s end.

(*@ dashboard/app/(officer)/election/verification/page.tsx 10 11 VerificationPage *)
Definition on_surroundings (x : env) (s : state) : M unit :=
  match x with
  | Selected e => upd (set_selectedElection e)
  | TokenChanged t => upd (set_token t)
  end.

Section Page.

(** What the server's answer has under a key its declared type does not have. *)
Context (undeclared : VerificationResponse -> string -> value).

(*@ dashboard/app/(officer)/election/verification/page.tsx 47 47 overallPassed *)
Definition overallPassed (s : state) : bool :=
  match result s with Some r => truthy (undeclared r "is_valid") | None => false end.

(*@ dashboard/app/(officer)/election/verification/page.tsx 91 96 VerificationPage *)
Definition checkpoints (r : VerificationResponse) : list (string * value) :=
  let check k := prop k (undeclared r "checks") in
  [("Configuration Hash Match", check "config_hash_valid"); ("Audit Chain Integrity", check "audit_chain_valid");
   ("Ballot Reconciliation", check "reconciliation_valid"); ("Tally Verification", check "tally_valid")]%string.

(*@ dashboard/app/(officer)/election/verification/page.tsx 97 106 VerificationPage *)
Definition checkpoint_row (c : string * value) : list (node ui) :=
  [Text (fst c);
   match snd c with VUndef => Text "N/A" | v => if truthy v then Text "PASS" else Text "FAIL" end].

(*@ dashboard/app/(officer)/election/verification/page.tsx 75 146 VerificationPage *)
Definition outcome_of (s : state) (r : VerificationResponse) : list (node ui) :=
  let passed := overallPassed s in
  [Box (if passed then "emerald" else "rose")
     [Icon (if passed then "CheckCircle" else "ShieldAlert");
      Text ("Verification " ++s if passed then "PASSED" else "FAILED");
      Text (if passed then "All cryptographic properties hold. The election result is mathematically proven."
            else "One or more cryptographic properties failed verification. The election result cannot be trusted.")];
   Text "Verification Checkpoints"]
  ++ flat_map checkpoint_row (checkpoints r)
  ++ [Text "Digital Signatures"; Button "Sign Manifest" (loading s || negb passed) ClickSign;
      Text "Manifest Hash";
      Text (let v := undeclared r "manifest_hash" in if truthy v then to_string v else "N/A");
      Text "Officer Signature";
      Text (let v := undeclared r "signature" in if truthy v then to_string v else "No signature found");
      Text "Blockchain Anchors";
      Text "Blockchain anchoring feature is configured but no anchors have been published for this election yet."].

(*@ dashboard/app/(officer)/election/verification/page.tsx 43 149 VerificationPage *)
Definition render (s : state) : list (node ui) :=
  match selectedElection s with
  | None => [Text "Select an election to view verification."]
  | Some e =>
      [Text "Independent Verification"; Button "Run Verifier" (loading s) ClickVerify;
       Text "This tool recalculates all election cryptographic proofs from the raw immutable storage. It does not rely on cached database state."]
      ++ error_box (error s)
      ++ match result s with Some r => outcome_of s r | None => [] end
  end.

Definition page : component state ui env := mk_component render on_ui on_surroundings.
End Page.

End ElectionVerification.

Import ElectionVerification.

#[export] Hint Unfold on_ui on_surroundings handleVerify handleSign : prog.

Section Facts.
Context (undeclared : VerificationResponse -> string -> value).

Abbreviation app := (page undeclared).

Lemma checkpoints_silent l u : allows (flat_map checkpoint_row l) u = false.
Proof.
  rewrite allows_flat_map. induction l as [|c l IH]; [done |]. cbn [existsb]. rewrite IH, orb_false_r.
  unfold checkpoint_row. destruct (snd c); cbn [allows existsb fires orb]; try done; by destruct (truthy _).
Qed.

Lemma allows_verification s u :
  allows (render undeclared s) u
  = bool_decide (selectedElection s <> None)
    && match u with ClickVerify => negb (loading s) | ClickSign => negb (loading s) && overallPassed undeclared s end.
Proof.
  unfold render. destruct (selectedElection s) as [e|]; [| done].
  rewrite bool_decide_eq_true_2, !allows_app, allows_error_box by done.
  unfold outcome_of, overallPassed. destruct (result s) as [r|].
  - rewrite !allows_app, checkpoints_silent. destruct u; by read_page.
  - destruct u; read_page; by rewrite ?andb_false_r.
Qed.

(** ** Requests *)

Definition Sends (s : state) (r : req) : Prop :=
  match r with
  | signElectionManifest i t =>
      t = token s /\ overallPassed undeclared s = true /\ exists e, selectedElection s = Some e /\ i = e_id e
  | runVerification _ _ => True
  | _ => False
  end.

Lemma verify_keeps s : keeps (fun _ => True) Sends (handleVerify s).
Proof. keeps_auto. Qed.

Lemma verification_safe : safe_component app (fun _ => True) Sends (fun _ => True).
Proof.
  split; [| by intros [e|t] s _ _]. intros u s _ _ Hu. change (allows (render undeclared s) u = true) in Hu.
  rewrite allows_verification in Hu. apply andb_true_iff in Hu as [He%bool_decide_eq_true Hu].
  unfold page. cbn [on_user]. destruct u; cbn [on_ui]; [by apply keeps_handles; [apply verify_keeps |] |].
  unfold handleSign. destruct (selectedElection s) as [e|] eqn:Es; [| done]. reflect_bool.
  apply (wp_wpf (fun _ => True) Sends false). unfold busy. apply wpf_upd, wpf_finally, wpf_try, wpf_bind.
  cbn -[handleVerify]. split_and!; [done | constructor; [cbn; eauto | done] |].
  intros [a|err] s' _; cbn -[handleVerify]; [| done].
  eapply wpf_mono; [by apply verify_keeps | by intros | by intros].
Qed.

(** In every interleaving the page signs only an election shown, with its own token, and
    only while the answer on display says it is valid. *)
Theorem verification_requests t e w s q :
  reachable app (fun _ => True) (initial t e) w -> In (s, q) (sent w) -> Sends s q.
Proof.
  intros Hw Hin. destruct (reachable_good _ _ _ _ verification_safe (initial t e) w I Hw) as [_ _ Hs].
  exact (Forall_In _ _ _ Hs Hin).
Qed.

(** With the declared answer, which has no [is_valid], nothing is ever signed. *)
Theorem verification_never_signs t e w s i tok :
  (forall r, undeclared r "is_valid" = VUndef) ->
  reachable app (fun _ => True) (initial t e) w -> ~ In (s, signElectionManifest i tok) (sent w).
Proof.
  intros Hu Hw Hin. destruct (reachable_good _ _ _ _ verification_safe (initial t e) w I Hw) as [_ _ Hs].
  pose proof (Forall_In _ _ _ Hs Hin) as (_ & Hp & _). unfold overallPassed in Hp.
  destruct (result s) as [r|]; [| done]. by rewrite Hu in Hp.
Qed.

(** With the declared answer, whatever it says, running the verifier ends with the
    announcement that the election cannot be trusted, and with no checkpoint evaluated. *)
Theorem verification_always_failed w e r (f : forall r, outcome (resp r)) :
  (forall r, undeclared r "is_valid" = VUndef) -> (forall r, undeclared r "checks" = VUndef) ->
  tasks w = [] -> loading (st w) = false -> selectedElection (st w) = Some e ->
  f (runVerification (e_id e) (token (st w))) = Ok r ->
  exists w', run app w (User ClickVerify :: replies f (fresh w) 1) = Some w'
    /\ tasks w' = [] /\ result (st w') = Some r
    /\ shows (render undeclared (st w')) "Verification FAILED" = true
    /\ forall c, In c (checkpoints undeclared r) -> checkpoint_row c = [Text (fst c); Text "N/A"].
Proof.
  intros Hv Hc Ht Hl Es Hf.
  assert (allows (render undeclared (st w)) ClickVerify = true) as Hu.
  { rewrite allows_verification, Es, Hl. done. }
  destruct w as [s n fr ts snt unc]. cbn [tasks st fresh] in *. subst ts.
  cbn [replies List.seq map]. eexists. split.
  { rewrite run_cons. unfold step at 1. cbn [st React.render page on_user]. rewrite Hu.
    cbn [on_ui]. unfold handleVerify. rewrite Es. cbn -[run step].
    rewrite run_cons. erewrite step_reply_single by reflexivity. cbn -[run step]. rewrite Hf. cbn -[run step]. reflexivity. }
  cbn -[render shows checkpoints]. split_and!; [done | done | |].
  - destruct s as [tok sel ld er res]. cbn in *. subst sel. cbn. unfold outcome_of, overallPassed. cbn. rewrite Hv.
    reflexivity.
  - unfold checkpoints. rewrite Hc. cbn. intros c. by intros [<-|[<-|[<-|[<-|[]]]]].
Qed.

(** ** The loading flag *)

Lemma verify_timerless s : timerless (handleVerify s).
Proof. timerless_auto. Qed.

Lemma verification_lowers : lowering_component app (fun _ => True) (fun _ => True) loading.
Proof.
  split; [| by intros [e|t] s _ _]. intros u s _ _ _. unfold lowers, page. cbn [on_user].
  destruct u; cbn [on_ui]; unfold handleVerify, handleSign; (destruct (selectedElection s) as [e|] eqn:Es; [| by split]).
  - do 2 apply low_upd. apply lowers_at_end; [done | timerless_auto].
  - apply busy_lowers; [done |]. apply timerless_bind; [by intros [?|?] |]. intros _. apply (verify_timerless s).
Qed.

Theorem verification_not_left_loading t e w :
  reachable app (fun _ => True) (initial t e) w -> idle w = true -> loading (st w) = false.
Proof. intros Hw Hidle. by eapply never_left_busy; [apply verification_lowers | | exact Hw | exact Hidle]. Qed.
End Facts.

(** ** Concrete runs *)

Definition declared_only : VerificationResponse -> string -> value := fun _ _ => VUndef.

(** A backend whose answers have the keys the page reads. *)
Definition obliging : VerificationResponse -> string -> value :=
  fun r k => if String.eqb k "is_valid" then VBool (v_reconciliation_passed r) else VUndef.

Definition an_election (i : string) : ElectionResponse :=
  {| e_id := i; e_title_name := None; e_title := Some "Poll"%string; e_description := None;
     e_state := CLOSED; e_configuration_hash := None; e_device_count := 1; e_ballot_count := 0;
     e_created_at := "2026-01-01T00:00:00Z"; e_opened_at := None; e_closed_at := None;
     e_published_at := None; e_candidates := [] |}.

Definition passed_for (i : string) : VerificationResponse :=
  {| v_election_id := i; v_config_hash_valid := true; v_audit_chain_intact := true;
     v_reconciliation_passed := String.eqb i "E1"; v_tally_independently_verified := true;
     v_overall_status := "PASSED"; v_manifest := None; v_details := [] |}.

Definition service : forall r, outcome (resp r) :=
  fun r => match r as r return outcome (resp r) with
           | runVerification i _ => Ok (passed_for i)
           | _ => Err (plain_error "Error" "offline")
           end.

Definition opened : state := initial (Some "token"%string) (Some (an_election "E1")).

(** Even with the keys it reads, the page signs by the answer for the election shown before:
    it is kept when another one is chosen. *)
Theorem verification_signs_other_election :
  exists w, run (page obliging) (boot opened)
      [User ClickVerify; Reply 0 (answers service); Env (Selected (Some (an_election "E2"))); User ClickSign] = Some w
    /\ map snd (sent w) = [runVerification "E1" (Some "token"%string); signElectionManifest "E2" (Some "token"%string)].
Proof. apply run_witness. vm_compute. reflexivity. Qed.

Definition signing : world state :=
  default (boot opened) (run (page obliging) (boot opened) [User ClickVerify; Reply 0 (answers service); User ClickSign]).

Lemma reachable_signing : reachable (page obliging) (fun _ => True) opened signing.
Proof. apply reachable_default; [constructor | by repeat constructor]. Qed.

Lemma verification_requests_witness :
  exists s, Sends obliging s (signElectionManifest "E1" (Some "token"%string)).
Proof.
  eexists. eapply (verification_requests obliging (Some "token"%string) (Some (an_election "E1")) signing);
    [exact reachable_signing |]. vm_compute. right. left. reflexivity.
Defined.

Lemma verification_never_signs_witness :
  ~ In (opened, signElectionManifest "E1" (Some "token"%string)) (sent (boot opened)).
Proof.
  apply (verification_never_signs declared_only (Some "token"%string) (Some (an_election "E1")) (boot opened));
    [reflexivity | constructor].
Defined.

Lemma verification_always_failed_witness :
  exists w', run (page declared_only) (boot opened) (User ClickVerify :: replies service 0 1) = Some w'
    /\ shows (render declared_only (st w')) "Verification FAILED" = true.
Proof.
  destruct (verification_always_failed declared_only (boot opened) (an_election "E1") (passed_for "E1") service)
    as (w' & H1 & _ & _ & H2 & _); try reflexivity.
  exists w'. split; [exact H1 | exact H2].
Defined.

Definition verified : world state :=
  default (boot opened) (run (page obliging) (boot opened) [User ClickVerify; Reply 0 (answers service)]).

Lemma verification_not_left_loading_witness : loading (st verified) = false.
Proof.
  apply (verification_not_left_loading obliging (Some "token"%string) (Some (an_election "E1")) verified);
    [| vm_compute; reflexivity].
  apply reachable_default; [constructor | by repeat constructor].
Defined.
