(* ===== verification/ElectionAudit.v ===== *)
(** * Audit log of an election: [app/(officer)/election/audit/page.tsx]

    The log of the selected election and the backend's verdict on its chain; then what the
    page makes of the declared answers: a broken chain, always. *)
From S2P Require Import Prelude JsValue JsNumber FormatError Types ApiClient View React Alone Spinner Officer.
From Stdlib Require Import String.

Module ElectionAudit.

(*@ dashboard/app/(officer)/election/audit/page.tsx 10 15 AuditPage *)
Record state := mk_state {
  token : option string;
  selectedElection : option ElectionResponse;
  mounted : bool;
  events : list AuditEntryResponse;
  loading : bool;
  error : option string;
  verifyStatus : option AuditVerificationResponse }.

Definition set_token (v : option string) (s : state) : state :=
  mk_state v (selectedElection s) (mounted s) (events s) (loading s) (error s) (verifyStatus s).
Definition set_selectedElection (v : option ElectionResponse) (s : state) : state :=
  mk_state (token s) v (mounted s) (events s) (loading s) (error s) (verifyStatus s).
Definition set_mounted (v : bool) (s : state) : state :=
  mk_state (token s) (selectedElection s) v (events s) (loading s) (error s) (verifyStatus s).
Definition set_events (v : list AuditEntryResponse) (s : state) : state :=
  mk_state (token s) (selectedElection s) (mounted s) v (loading s) (error s) (verifyStatus s).
Definition set_loading (v : bool) (s : state) : state :=
  mk_state (token s) (selectedElection s) (mounted s) (events s) v (error s) (verifyStatus s).
Definition set_error (v : option string) (s : state) : state :=
  mk_state (token s) (selectedElection s) (mounted s) (events s) (loading s) v (verifyStatus s).
Definition set_verifyStatus (v : option AuditVerificationResponse) (s : state) : state :=
  mk_state (token s) (selectedElection s) (mounted s) (events s) (loading s) (error s) v.

Definition initial (t : option string) (e : option ElectionResponse) : state :=
  mk_state t e false [] false None None.

Abbreviation M := (prog state).

(*@ dashboard/app/(officer)/election/audit/page.tsx 17 28 loadData *)
Definition loadData (s : state) : M unit :=
  match selectedElection s with
  | None => mret tt
  | Some e =>
      busy set_loading set_error
        (data ← await (getAuditLog (e_id e) (token s));
         upd (set_events data))
  end.

(*@ dashboard/app/(officer)/election/audit/page.tsx 34 46 handleVerifyChain *)
Definition handleVerifyChain (s : state) : M unit :=
  match selectedElection s with
  | None => mret tt
  | Some e =>
      upd (set_loading true);;
      upd (set_verifyStatus None);;
      finally
        (try_catch
           (data ← await (verifyAuditChain (e_id e) (token s));
            upd (set_verifyStatus (Some data)))
           (report set_error))
        (upd (set_loading false))
  end.

Inductive ui := ClickVerify | ClickReload.

#[export] Instance ui_eq_dec : EqDecision ui. Proof. solve_decision. Defined.

Inductive env := Mount | Selected (e : option ElectionResponse) | TokenChanged (t : option string).

(*@ dashboard/app/(officer)/election/audit/page.tsx 67 70 onClick *)
Definition on_ui (u : ui) (s : state) : M unit :=
  match u with ClickVerify => handleVerifyChain s | ClickReload => loadData s end.

(*@ dashboard/app/(officer)/election/audit/page.tsx 30 32 useEffect *)
Definition on_surroundings (x : env) (s : state) : M unit :=
  match x with
  | Mount => if mounted s then mret tt else upd (set_mounted true);; loadData s
  | Selected e =>
      upd (set_selectedElection e);;
      (if mounted s then loadData (set_selectedElection e s) else mret tt)
  | TokenChanged t => upd (set_token t)
  end.

Section Page.

(** What the server's answers have under keys their declared types do not have. *)
Context (undeclared_status : AuditVerificationResponse -> string -> value).
Context (undeclared_event : AuditEntryResponse -> string -> value).

(*@ dashboard/app/(officer)/election/audit/page.tsx 82 93 AuditPage *)
Definition verdict (v : AuditVerificationResponse) : list (node ui) :=
  let valid := truthy (undeclared_status v "is_valid") in
  let broken_at := undeclared_status v "broken_at_seq" in
  [Box (if valid then "emerald" else "rose")
     ([Icon (if valid then "ShieldCheck" else "AlertTriangle");
       Text (if valid then "Audit Chain Verified" else "Audit Chain Broken");
       Text ("Checked " ++s child (undeclared_status v "events_checked") ++s " events.")]
      ++ when (negb valid)
           (if truthy broken_at then [Text ("Broken at sequence " ++s child broken_at)]
            else [Text (child broken_at)]))].

(** The select has no handler: choosing an event type changes nothing. *)
(*@ dashboard/app/(officer)/election/audit/page.tsx 122 136 AuditPage *)
Definition event_row (e : AuditEntryResponse) : list (node ui) :=
  let actor := undeclared_event e "actor_id" in
  [Text (Z_to_string (a_sequence_number e)); Text (a_event_type e);
   Text (if truthy actor then child actor else "-"); Text (opt_or (a_device_id e) "-"); Date (a_timestamp e);
   Text (match undeclared_event e "hash" with
         | VStr h => take_str 8 h ++s "..."
         | _ => "..."
         end);
   Text (match a_previous_hash e with
         | Some h => if truthy_str h then take_str 8 h ++s "..." else "GENESIS"
         | None => "GENESIS"
         end)].

(*@ dashboard/app/(officer)/election/audit/page.tsx 48 148 AuditPage *)
Definition render (s : state) : list (node ui) :=
  match selectedElection s with
  | None => [Text "Select an election to view audit logs."]
  | Some e =>
      [Text "Audit Explorer"; Text "TAMPER-EVIDENT AUDIT TRAIL";
       Button "Verify Chain" (loading s) ClickVerify; Button "Reload" (loading s) ClickReload]
      ++ error_box (error s)
      ++ match verifyStatus s with Some v => verdict v | None => [] end
      ++ [Text "Filters:"; Text "Seq"; Text "Type"; Text "Actor"; Text "Device"; Text "Timestamp"; Text "Hash"; Text "Prev Hash"]
      ++ match events s with
         | [] => [Text "No audit events found."]
         | l => flat_map event_row l
         end
  end.

Definition page : component state ui env := mk_component render on_ui on_surroundings.
End Page.

End ElectionAudit.

Import ElectionAudit.

#[export] Hint Unfold on_ui on_surroundings loadData handleVerifyChain : prog.

Section Facts.
Context (undeclared_status : AuditVerificationResponse -> string -> value).
Context (undeclared_event : AuditEntryResponse -> string -> value).

Abbreviation app := (page undeclared_status undeclared_event).

Lemma allows_audit s u :
  allows (render undeclared_status undeclared_event s) u = bool_decide (selectedElection s <> None) && negb (loading s).
Proof.
  unfold render. destruct (selectedElection s) as [e|]; [| done].
  rewrite bool_decide_eq_true_2, !allows_app, allows_error_box by done.
  replace (allows match events s with [] => _ | l => _ end u) with false.
  2: { destruct (events s) as [|x l]; [done |]. symmetry. apply allows_flat_map_none. by intros y. }
  replace (allows match verifyStatus s with Some v => _ | None => _ end u) with false.
  2: { destruct (verifyStatus s) as [v|]; [| done]. unfold verdict.
       by destruct (truthy (undeclared_status v "is_valid")); [| destruct (truthy (undeclared_status v "broken_at_seq"))]. }
  destruct u; by read_page.
Qed.

(** ** What the verdict says *)

(** With the declared answer, which has no [is_valid], the page announces a broken chain
    whatever the backend found, and counts no events. *)
Theorem audit_always_broken w e v (f : forall r, outcome (resp r)) :
  (forall v k, undeclared_status v k = VUndef) ->
  tasks w = [] -> loading (st w) = false -> selectedElection (st w) = Some e ->
  f (verifyAuditChain (e_id e) (token (st w))) = Ok v ->
  exists k w', run app w (User ClickVerify :: replies f (fresh w) k) = Some w'
    /\ tasks w' = [] /\ st w' = set_verifyStatus (Some v) (st w)
    /\ let shown := render undeclared_status undeclared_event (st w') in
       shows shown "Audit Chain Broken" = true /\ shows shown "Checked  events." = true.
Proof.
  intros Hv Ht Hl Es Hf.
  edestruct (click_alone f app w ClickVerify) as (k & w' & H1 & H2 & H3 & _); [done | | |].
  - unfold page. cbn [React.render]. rewrite allows_audit, Es, Hl. done.
  - unfold page. cbn [on_user on_ui]. unfold handleVerifyChain, report. rewrite Es. alone_auto. reflexivity.
  - exists k, w'. split; [exact H1 |]. split; [exact H2 |]. cbn [left_in] in H3.
    assert (st w' = set_verifyStatus (Some v) (st w)) as Hs by (rewrite H3; destruct (st w); cbn in *; by subst).
    split; [exact Hs |]. rewrite Hs. unfold render. cbn [selectedElection set_verifyStatus verifyStatus]. rewrite Es.
    rewrite !shows_app. unfold verdict. rewrite !Hv. cbn. by rewrite !orb_true_r.
Qed.

(** No row shows who acted or the entry's own hash. *)
Theorem audit_row_without_hash x :
  (forall e k, undeclared_event e k = VUndef) ->
  exists prev, event_row undeclared_event x
    = [Text (Z_to_string (a_sequence_number x)); Text (a_event_type x); Text "-"; Text (opt_or (a_device_id x) "-");
       Date (a_timestamp x); Text "..."; Text prev].
Proof. intros H. unfold event_row. rewrite !H. eauto. Qed.

(** ** The loading flag *)

Lemma election_audit_load_lowers s s0 s1 :
  fine loading false s0 s1 ->
  low (fun _ => True) loading false (loadData s) (fun b _ => fine loading b) (fun b _ => fine loading b) s0 s1.
Proof.
  intros Hf. unfold loadData. destruct (selectedElection s) as [e|]; [| done].
  apply busy_lowers; [done | timerless_auto].
Qed.

Lemma election_audit_lowers : lowering_component app (fun _ => True) (fun _ => True) loading.
Proof.
  assert (forall s : state, fine loading false s s) as Hr by by split.
  split.
  - intros u s _ _ _. unfold lowers, page. cbn [on_user]. destruct u; cbn [on_ui]; [| by apply election_audit_load_lowers].
    unfold handleVerifyChain. destruct (selectedElection s) as [e|]; [| by split]. do 2 apply low_upd.
    apply lowers_at_end; [done | timerless_auto].
  - intros x s _ _. unfold lowers, page. cbn [on_env].
    destruct x; cbn [on_surroundings]; try (destruct (mounted s)); try (by split); by apply low_upd, election_audit_load_lowers.
Qed.

Theorem election_audit_not_left_loading t e w :
  reachable app (fun _ => True) (initial t e) w -> idle w = true -> loading (st w) = false.
Proof. intros Hw Hidle. by eapply never_left_busy; [apply election_audit_lowers | | exact Hw | exact Hidle]. Qed.
End Facts.

(** ** A concrete run *)

Definition an_election : ElectionResponse :=
  {| e_id := "E1"; e_title_name := None; e_title := Some "Poll"%string; e_description := None;
     e_state := CLOSED; e_configuration_hash := None; e_device_count := 1; e_ballot_count := 0;
     e_created_at := "2026-01-01T00:00:00Z"; e_opened_at := None; e_closed_at := None;
     e_published_at := None; e_candidates := [] |}.

Definition intact : AuditVerificationResponse :=
  {| av_election_id := "E1"; av_total_entries := 12; av_is_intact := true;
     av_first_broken_sequence := None; av_details := "intact" |}.

Definition auditor : forall r, outcome (resp r) :=
  fun r => match r as r return outcome (resp r) with
           | verifyAuditChain _ _ => Ok intact
           | _ => Err (plain_error "Error" "offline")
           end.

Definition opened : state := initial (Some "token"%string) (Some an_election).

Lemma audit_always_broken_witness :
  exists k w', run (page (fun _ _ => VUndef) (fun _ _ => VUndef)) (boot opened) (User ClickVerify :: replies auditor 0 k) = Some w'
    /\ verifyStatus (st w') = Some intact
    /\ shows (render (fun _ _ => VUndef) (fun _ _ => VUndef) (st w')) "Audit Chain Broken" = true.
Proof.
  destruct (audit_always_broken (fun _ _ => VUndef) (fun _ _ => VUndef) (boot opened) an_election intact auditor)
    as (k & w' & H1 & _ & H2 & H3 & _); try reflexivity.
  exists k, w'. split; [exact H1 |]. split; [by rewrite H2 | exact H3].
Defined.

Definition refused : world state :=
  default (boot opened) (run (page (fun _ _ => VUndef) (fun _ _ => VUndef)) (boot opened) [Env Mount; Reply 0 (answers auditor)]).

Lemma election_audit_not_left_loading_witness : loading (st refused) = false.
Proof.
  apply (election_audit_not_left_loading (fun _ _ => VUndef) (fun _ _ => VUndef) (Some "token"%string) (Some an_election) refused);
    [| vm_compute; reflexivity].
  apply reachable_default; [constructor | by repeat constructor].
Defined.
