(* ===== verification/ElectionResults.v ===== *)
(** * Results of an election: [app/(officer)/election/results/page.tsx]

    The tallies and the winner of a published election and the export of its archive; then
    who may export, who is announced as the winner, and what the declared answer leaves of
    the page. *)
From S2P Require Import Prelude Tally JsValue JsNumber FormatError Types ApiClient View React Alone Spinner Officer.
From Stdlib Require Import String Sorting.Sorted.

Module ElectionResults.

(** What the page reads of an entry of [results.candidate_results]. *)
Record result_row := { row_id : string; row_name : string; row_votes : Z }.

(** [downloads] are the files saved through a link: the name and the object whose
    [JSON.stringify] with an indentation of two they hold. *)
(*@ dashboard/app/(officer)/election/results/page.tsx 10 14 ResultsPage *)
Record state := mk_state {
  token : option string;
  selectedElection : option ElectionResponse;
  mounted : bool;
  results : option VerificationResponse;
  loading : bool;
  error : option string;
  downloads : list (string * ElectionExportResponse) }.

Definition set_token (v : option string) (s : state) : state :=
  mk_state v (selectedElection s) (mounted s) (results s) (loading s) (error s) (downloads s).
Definition set_selectedElection (v : option ElectionResponse) (s : state) : state :=
  mk_state (token s) v (mounted s) (results s) (loading s) (error s) (downloads s).
Definition set_mounted (v : bool) (s : state) : state :=
  mk_state (token s) (selectedElection s) v (results s) (loading s) (error s) (downloads s).
Definition set_results (v : option VerificationResponse) (s : state) : state :=
  mk_state (token s) (selectedElection s) (mounted s) v (loading s) (error s) (downloads s).
Definition set_loading (v : bool) (s : state) : state :=
  mk_state (token s) (selectedElection s) (mounted s) (results s) v (error s) (downloads s).
Definition set_error (v : option string) (s : state) : state :=
  mk_state (token s) (selectedElection s) (mounted s) (results s) (loading s) v (downloads s).
Definition set_downloads (v : list (string * ElectionExportResponse)) (s : state) : state :=
  mk_state (token s) (selectedElection s) (mounted s) (results s) (loading s) (error s) v.

Definition initial (t : option string) (e : option ElectionResponse) : state :=
  mk_state t e false None false None [].

Abbreviation M := (prog state).

(*@ dashboard/app/(officer)/election/results/page.tsx 16 27 loadData *)
Definition loadData (s : state) : M unit :=
  match selectedElection s with
  | None => mret tt
  | Some e =>
      busy set_loading set_error
        (data ← await (getResults (e_id e) (token s));
         upd (set_results (Some data)))
  end.

(*@ dashboard/app/(officer)/election/results/page.tsx 33 49 handleExport *)
Definition handleExport (s : state) : M unit :=
  match selectedElection s with
  | None => mret tt
  | Some e =>
      try_catch
        (data ← await (exportElection (e_id e) (token s));
         upd (fun prev => set_downloads (downloads prev ++ [("election-" ++s e_id e ++s "-export.json", data)]) prev))
        (report set_error)
  end.

Inductive ui := ClickExport.

#[export] Instance ui_eq_dec : EqDecision ui. Proof. solve_decision. Defined.

Inductive env := Mount | Selected (e : option ElectionResponse) | TokenChanged (t : option string).

(*@ dashboard/app/(officer)/election/results/page.tsx 71 71 onClick *)
Definition on_ui (u : ui) (s : state) : M unit := match u with ClickExport => handleExport s end.

(*@ dashboard/app/(officer)/election/results/page.tsx 29 31 useEffect *)
Definition on_surroundings (x : env) (s : state) : M unit :=
  match x with
  | Mount => if mounted s then mret tt else upd (set_mounted true);; loadData s
  | Selected e =>
      upd (set_selectedElection e);;
      (if mounted s then loadData (set_selectedElection e s) else mret tt)
  | TokenChanged t => upd (set_token t)
  end.

Section Page.

(** What the server's answer has under the keys [candidate_results] and [manifest_hash],
    which its declared type does not have. *)
Context (candidate_results : VerificationResponse -> option (list result_row)).
Context (manifest_hash : VerificationResponse -> value).

Definition rows (s : state) : list result_row :=
  match results s with Some r => default [] (candidate_results r) | None => [] end.

(*@ dashboard/app/(officer)/election/results/page.tsx 55 55 isPublished *)
Definition isPublished (e : ElectionResponse) : bool := bool_decide (e_state e = PUBLISHED).

(*@ dashboard/app/(officer)/election/results/page.tsx 56 56 totalVotes *)
Definition totalVotes (s : state) : Z := fold_left (fun acc c => acc + row_votes c) (rows s) 0.

(*@ dashboard/app/(officer)/election/results/page.tsx 59 62 winner *)
Definition winner (s : state) (e : ElectionResponse) : option result_row :=
  if isPublished e then head (sort_by (fun c => - row_votes c) (rows s)) else None.

(*@ dashboard/app/(officer)/election/results/page.tsx 116 116 percent *)
Definition percent (total votes : Z) : number :=
  if 0 <? total then num_mul (div_ZZ votes total) (of_Z 100) else of_Z 0.

(*@ dashboard/app/(officer)/election/results/page.tsx 82 100 ResultsPage *)
Definition conclusion (s : state) (e : ElectionResponse) : list (node ui) :=
  if isPublished e then
    [Text "Election Concluded"; Text "These results are final and cryptographically verified."]
    ++ match winner s e with
       | Some c =>
           [Text "Projected Winner"; Text (str_or (row_name c) (row_id c));
            Text (Z_to_string (row_votes c) ++s " votes (" ++s to_fixed 1 (percent (totalVotes s) (row_votes c)) ++s "%)")]
       | None => []
       end
  else [Text "Results are not yet published. The election must be in the PUBLISHED state."].

(*@ dashboard/app/(officer)/election/results/page.tsx 115 131 ResultsPage *)
Definition result_line (total : Z) (c : result_row) : list (node ui) :=
  [Text (str_or (row_name c) (row_id c)); Text (Z_to_string (row_votes c));
   Text (to_fixed 1 (percent total (row_votes c)) ++s "%")].

(*@ dashboard/app/(officer)/election/results/page.tsx 64 168 ResultsPage *)
Definition render (s : state) : list (node ui) :=
  match selectedElection s with
  | None => [Text "Select an election to view results."]
  | Some e =>
      let hash := match results s with Some r => manifest_hash r | None => VUndef end in
      [Text "Election Results Record"; Button "Export Data" (negb (isPublished e)) ClickExport]
      ++ error_box (error s) ++ conclusion s e
      ++ [Text "Candidate"; Text "Votes"; Text "Percentage"]
      ++ match rows s with
         | [] => [Text "No results available."]
         | l => flat_map (result_line (totalVotes s)) l
         end
      ++ [Text "Election Manifest"; Text "Manifest Hash";
          Text (if truthy hash then child hash else "Not generated");
          Text "Total Valid Ballots"; Text (Z_to_string (e_ballot_count e));
          Text "Signature Status"; Text (if truthy hash then "Signed" else "Pending")]
  end.

Definition page : component state ui env := mk_component render on_ui on_surroundings.
End Page.

End ElectionResults.

Import ElectionResults.

#[export] Hint Unfold on_ui on_surroundings loadData handleExport : prog.

Section Facts.
Context (candidate_results : VerificationResponse -> option (list result_row)).
Context (manifest_hash : VerificationResponse -> value).

Abbreviation app := (page candidate_results manifest_hash).

Lemma allows_export s :
  allows (render candidate_results manifest_hash s) ClickExport
  = match selectedElection s with Some e => isPublished e | None => false end.
Proof.
  unfold render. destruct (selectedElection s) as [e|]; [| done]. rewrite !allows_app, allows_error_box.
  replace (allows (conclusion _ _ _) ClickExport) with false
    by (unfold conclusion; destruct (isPublished e); [by destruct (winner _ s e) | done]).
  replace (allows match rows _ s with [] => _ | l => _ end ClickExport) with false.
  2: { destruct (rows _ s) as [|x l]; [done |]. symmetry. by apply allows_flat_map_none. }
  by read_page.
Qed.

(** ** Requests *)

Definition Sends (s : state) (r : req) : Prop :=
  match r with
  | exportElection i t => t = token s /\ exists e, selectedElection s = Some e /\ i = e_id e /\ e_state e = PUBLISHED
  | getResults _ _ => True
  | _ => False
  end.

Lemma results_load_keeps s : keeps (fun _ => True) Sends (loadData s).
Proof.
  unfold loadData. destruct (selectedElection s) as [e|]; [| apply keeps_ret].
  apply busy_keeps; [done | done |]. by keeps_auto.
Qed.

Lemma election_results_safe : safe_component app (fun _ => True) Sends (fun _ => True).
Proof.
  split.
  - intros [] s _ _ Hu. change (allows (render candidate_results manifest_hash s) ClickExport = true) in Hu.
    rewrite allows_export in Hu. unfold page. cbn [on_user on_ui]. unfold handleExport.
    destruct (selectedElection s) as [e|] eqn:Es; [| done]. unfold isPublished in Hu. reflect_bool.
    wp_auto. eauto.
  - intros x s _ _. unfold page. cbn [on_env]. destruct x; cbn [on_surroundings]; try (destruct (mounted s)); try done;
      apply keeps_handles; try done; (apply keeps_bind; [by apply keeps_upd | intros _]); apply results_load_keeps.
Qed.

(** In every interleaving an archive is exported only of the election shown, when it is
    PUBLISHED, with the page's own token. *)
Theorem election_results_requests t e w s q :
  reachable app (fun _ => True) (initial t e) w -> In (s, q) (sent w) -> Sends s q.
Proof.
  intros Hw Hin. destruct (reachable_good _ _ _ _ election_results_safe (initial t e) w I Hw) as [_ _ Hs].
  exact (Forall_In _ _ _ Hs Hin).
Qed.

(** ** The winner *)

(** A winner is announced exactly when the election is PUBLISHED and has entries; it is one
    of them and no entry has more votes, but another may have as many. *)
Theorem election_winner s e :
  (winner candidate_results s e = None <-> e_state e <> PUBLISHED \/ rows candidate_results s = [])
  /\ forall c, winner candidate_results s e = Some c ->
       In c (rows candidate_results s) /\ forall d, In d (rows candidate_results s) -> row_votes d <= row_votes c.
Proof.
  unfold winner, isPublished. set (l := rows candidate_results s).
  pose proof (sort_by_perm (fun c => - row_votes c) l) as Hp.
  pose proof (sort_by_sorted (fun c => - row_votes c) l) as Hs.
  destruct (bool_decide (e_state e = PUBLISHED)) eqn:Ep; reflect_bool.
  - split.
    + destruct (sort_by _ l) as [|x r] eqn:E; cbn; [| split; [done | intros [?|El]; [done |]]].
      * split; [| done]. right. by apply Permutation_nil in Hp.
      * rewrite El in Hp. symmetry in Hp. by apply Permutation_nil in Hp.
    + intros c. destruct (sort_by _ l) as [|x r] eqn:E; cbn; [done |]. intros [= ->]. split.
      * apply (Permutation_in _ Hp). by left.
      * intros d Hd. apply (Permutation_in _ (Permutation_sym Hp)) in Hd as [->|Hd]; [done |].
        apply StronglySorted_inv in Hs as [_ Hs]. pose proof (Forall_In _ _ _ Hs Hd). cbn in *. lia.
  - split; [| done]. split; [by left | done].
Qed.

(** With the declared answer a published election has neither tallies nor a winner, and its
    signature is pending for ever. *)
Theorem election_results_empty s e :
  (forall r, candidate_results r = None) -> (forall r, manifest_hash r = VUndef) ->
  selectedElection s = Some e -> e_state e = PUBLISHED ->
  let shown := render candidate_results manifest_hash s in
  totalVotes candidate_results s = 0 /\ winner candidate_results s e = None
  /\ shows shown "No results available." = true /\ shows shown "Pending" = true.
Proof.
  intros Hc Hm Es Ep. assert (rows candidate_results s = []) as Hr.
  { unfold rows. destruct (results s) as [r|]; [by rewrite Hc | done]. }
  split_and!.
  - unfold totalVotes. by rewrite Hr.
  - apply election_winner. by right.
  - unfold render. rewrite Es, Hr, !shows_app. cbn. by rewrite !orb_true_r.
  - unfold render. rewrite Es, Hr, !shows_app.
    replace (match results s with Some r => manifest_hash r | None => VUndef end) with VUndef
      by (destruct (results s); by rewrite ?Hm).
    cbn. by rewrite !orb_true_r.
Qed.

(** ** The loading flag *)

Lemma election_results_load_lowers s s0 s1 :
  fine loading false s0 s1 ->
  low (fun _ => True) loading false (loadData s) (fun b _ => fine loading b) (fun b _ => fine loading b) s0 s1.
Proof.
  intros Hf. unfold loadData. destruct (selectedElection s) as [e|]; [| done].
  apply busy_lowers; [done | timerless_auto].
Qed.

Lemma election_results_lowers : lowering_component app (fun _ => True) (fun _ => True) loading.
Proof.
  assert (forall s : state, fine loading false s s) as Hr by by split.
  split.
  - intros [] s _ _ _. unfold lowers, page. cbn [on_user on_ui]. unfold handleExport.
    destruct (selectedElection s) as [e|]; [| by split]. apply low_calm; [calm_auto | done].
  - intros x s _ _. unfold lowers, page. cbn [on_env].
    destruct x; cbn [on_surroundings]; try (destruct (mounted s)); try (by split); by apply low_upd, election_results_load_lowers.
Qed.

Theorem election_results_not_left_loading t e w :
  reachable app (fun _ => True) (initial t e) w -> idle w = true -> loading (st w) = false.
Proof. intros Hw Hidle. by eapply never_left_busy; [apply election_results_lowers | | exact Hw | exact Hidle]. Qed.
End Facts.

(** ** Concrete runs *)

Definition counted : VerificationResponse -> option (list result_row) :=
  fun r => Some [{| row_id := "C001"; row_name := "A"; row_votes := 4 |};
                 {| row_id := "C002"; row_name := "B"; row_votes := 4 |}].

Definition an_election : ElectionResponse :=
  {| e_id := "E1"; e_title_name := None; e_title := Some "Poll"%string; e_description := None;
     e_state := PUBLISHED; e_configuration_hash := None; e_device_count := 1; e_ballot_count := 8;
     e_created_at := "2026-01-01T00:00:00Z"; e_opened_at := None; e_closed_at := None;
     e_published_at := None; e_candidates := [] |}.

Definition an_answer : VerificationResponse :=
  {| v_election_id := "E1"; v_config_hash_valid := true; v_audit_chain_intact := true;
     v_reconciliation_passed := true; v_tally_independently_verified := true;
     v_overall_status := "PASSED"; v_manifest := None; v_details := [] |}.

Definition service : forall r, outcome (resp r) :=
  fun r => match r as r return outcome (resp r) with
           | getResults _ _ => Ok an_answer
           | _ => Err (plain_error "Error" "offline")
           end.

Definition opened : state := initial (Some "token"%string) (Some an_election).

Definition loaded : world state :=
  default (boot opened) (run (page counted (fun _ => VUndef)) (boot opened) [Env Mount; Reply 0 (answers service)]).

Lemma reachable_results : reachable (page counted (fun _ => VUndef)) (fun _ => True) opened loaded.
Proof. apply reachable_default; [constructor | by repeat constructor]. Qed.

(** A tie is announced as the victory of the candidate listed first. *)
Theorem election_tie_has_winner :
  option_map row_id (winner counted (st loaded) an_election) = Some "C001"%string
  /\ shows (render counted (fun _ => VUndef) (st loaded)) "Projected Winner" = true
  /\ shows (render counted (fun _ => VUndef) (st loaded)) "4 votes (50.0%)" = true.
Proof. vm_compute. by split_and!. Qed.

Definition exporting : world state :=
  default loaded (run (page counted (fun _ => VUndef)) loaded [User ClickExport]).

Lemma election_results_requests_witness :
  exists s, Sends s (exportElection "E1" (Some "token"%string)).
Proof.
  eexists. eapply (election_results_requests counted (fun _ => VUndef) (Some "token"%string) (Some an_election) exporting).
  - apply reachable_default; [exact reachable_results | by repeat constructor].
  - vm_compute. right. left. reflexivity.
Defined.

Lemma election_results_empty_witness :
  shows (render (fun _ => None) (fun _ => VUndef) (st loaded)) "No results available." = true.
Proof.
  refine (proj1 (proj2 (proj2 (election_results_empty (fun _ => None) (fun _ => VUndef) (st loaded) an_election
                                 (fun _ => eq_refl) (fun _ => eq_refl) _ _)))); reflexivity.
Defined.

Lemma election_results_not_left_loading_witness : loading (st loaded) = false.
Proof.
  apply (election_results_not_left_loading counted (fun _ => VUndef) (Some "token"%string) (Some an_election) loaded);
    [exact reachable_results | vm_compute; reflexivity].
Defined.
