(* ===== verification/Reports.v ===== *)
(** * Reports of an election: [app/(officer)/election/reports/page.tsx]

    The export of the archive and two certificates; then how an export ends, and what the
    certificates certify. *)
From S2P Require Import Prelude JsValue JsNumber FormatError Types ApiClient View Common React Alone Spinner Officer.
From Stdlib Require Import String.

Module Reports.

(** [downloads] are the files saved, with the object whose JSON they hold, [alerts] what
    [alert] showed. *)
(*@ dashboard/app/(officer)/election/reports/page.tsx 21 22 ElectionReportsPage *)
Record state := mk_state {
  selectedElection : option ElectionResponse;
  exporting : bool;
  downloads : list (string * ElectionExportResponse);
  alerts : list string }.

Definition set_selectedElection (v : option ElectionResponse) (s : state) : state :=
  mk_state v (exporting s) (downloads s) (alerts s).
Definition set_exporting (v : bool) (s : state) : state :=
  mk_state (selectedElection s) v (downloads s) (alerts s).
Definition set_downloads (v : list (string * ElectionExportResponse)) (s : state) : state :=
  mk_state (selectedElection s) (exporting s) v (alerts s).
Definition set_alerts (v : list string) (s : state) : state :=
  mk_state (selectedElection s) (exporting s) (downloads s) v.

Definition initial (e : option ElectionResponse) : state := mk_state e false [] [].

Abbreviation M := (prog state).

(*@ dashboard/app/(officer)/election/reports/page.tsx 24 44 handleExportArchive *)
Definition handleExportArchive (s : state) : M unit :=
  match selectedElection s with
  | None => mret tt
  | Some e =>
      upd (set_exporting true);;
      finally
        (try_catch
           (data ← await (exportElection (e_id e) None);
            upd (fun prev => set_downloads (downloads prev ++ [("export_" ++s e_id e ++s ".json", data)]) prev))
           (fun err => upd (fun prev => set_alerts (alerts prev
              ++ ["Failed to export: " ++s str_or (e_message err) "Unknown error"]) prev)))
        (upd (set_exporting false))
  end.

Inductive ui := ClickExport.

#[export] Instance ui_eq_dec : EqDecision ui. Proof. solve_decision. Defined.

Inductive env := Selected (e : option ElectionResponse).

(*@ dashboard/app/(officer)/election/reports/page.tsx 63 63 onClick *)
Definition on_ui (u : ui) (s : state) : M unit := match u with ClickExport => handleExportArchive s end.

(*@ dashboard/app/(officer)/election/reports/page.tsx 21 21 selectedElection *)
Definition on_surroundings (x : env) (s : state) : M unit :=
  match x with Selected e => upd (set_selectedElection e) end.

(*@ dashboard/app/(officer)/election/reports/page.tsx 76 99 ElectionReportsPage *)
Definition reconciliation_certificate (e : ElectionResponse) : list (node ui) :=
  [Text "Reconciliation Certificate"; Text "Operational multi-point balance summary";
   Text "Election Identifier"; Text (e_id e); Text "Total Ballots Cast"; Text (Z_to_string (e_ballot_count e));
   Text "Reporting Hardware Units"; Text (Z_to_string (e_device_count e) ++s " EVM Units");
   Text "Reconciliation Status"; Badge "success" "EXACT_MATCH"].

(*@ dashboard/app/(officer)/election/reports/page.tsx 101 126 ElectionReportsPage *)
Definition manifest_record (e : ElectionResponse) : list (node ui) :=
  [Text "Cryptographic Manifest Record"; Text "Canonical signature & hash fingerprint"; Text "Configuration Hash";
   Text (match e_configuration_hash e with Some h => str_or (take_str 16 h) "Pending" | None => "Pending" end ++s "...");
   Text "Audit Trail Integrity"; Text "Continuous SHA-256 Intact";
   Text "Signature Standard"; Text "Ed25519 (RFC 8032)"; Text "External Audit Anchor"; Text "Local Commitment Record"].

(*@ dashboard/app/(officer)/election/reports/page.tsx 46 132 ElectionReportsPage *)
Definition render (s : state) : list (node ui) :=
  [Text "Election Officer Reports & Documentation";
   Text "Cryptographic export packages, reconciliation certificates, and compliance transcripts"]
  ++ LibButton "Download Verifiable Archive (.json)" (exporting s)
       (match selectedElection s with Some _ => false | None => true end) ClickExport
  ++ match selectedElection s with
     | Some e => reconciliation_certificate e ++ manifest_record e
     | None => []
     end.

Definition page : component state ui env := mk_component render on_ui on_surroundings.

End Reports.

Import Reports.

#[export] Hint Unfold on_ui on_surroundings handleExportArchive : prog.

Lemma allows_report s :
  allows (render s) ClickExport = bool_decide (selectedElection s <> None) && negb (exporting s).
Proof.
  unfold render, LibButton. rewrite !allows_app.
  destruct (selectedElection s) as [e|]; [rewrite bool_decide_eq_true_2 by done | rewrite bool_decide_eq_false_2 by naive_solver];
    read_page; by destruct (exporting s).
Qed.

(** The two certificates say the same of every election: that it reconciled and that its
    audit trail is intact. *)
Theorem reports_certify_everything s e :
  selectedElection s = Some e ->
  shows (render s) "EXACT_MATCH" = true /\ shows (render s) "Continuous SHA-256 Intact" = true.
Proof.
  intros Es. unfold render. rewrite Es, !shows_app. cbn. by rewrite !orb_true_r.
Qed.

(** An export ends with one file named after the election or with one alert, and with the
    button enabled; it is asked for without a token, although the officer has one. *)
Theorem report_exported w e (f : forall r, outcome (resp r)) :
  tasks w = [] -> selectedElection (st w) = Some e -> exporting (st w) = false ->
  exists k w', run page w (User ClickExport :: replies f (fresh w) k) = Some w'
    /\ tasks w' = [] /\ exporting (st w') = false
    /\ map snd (sent w') = map snd (sent w) ++ [exportElection (e_id e) None]
    /\ match f (exportElection (e_id e) None) with
       | Ok data => downloads (st w') = downloads (st w) ++ [("export_" ++s e_id e ++s ".json", data)]
                    /\ alerts (st w') = alerts (st w)
       | Err err => downloads (st w') = downloads (st w)
                    /\ alerts (st w') = alerts (st w) ++ ["Failed to export: " ++s str_or (e_message err) "Unknown error"]
       end.
Proof.
  intros Ht Es Hx.
  destruct (f (exportElection (e_id e) None)) as [data|err] eqn:Ef.
  all: edestruct (click_alone f page w ClickExport) as (k & w' & H1 & H2 & H3 & H4 & _);
    [done | unfold page; cbn [React.render]; by rewrite allows_report, Es, Hx, bool_decide_eq_true_2
    | unfold page; cbn [on_user on_ui]; unfold handleExportArchive; rewrite Es; alone_auto; reflexivity |].
  all: exists k, w'; split; [exact H1 |]; split; [exact H2 |]; rewrite H3, H4, map_app; by cbn.
Qed.

Lemma reports_lowers : lowering_component page (fun _ => True) (fun _ => True) exporting.
Proof.
  split; [| by intros [e] s _ _]. intros [] s _ _ _. unfold lowers, page. cbn [on_user on_ui].
  unfold handleExportArchive. destruct (selectedElection s) as [e|]; [| by split].
  apply low_upd, lowers_at_end; [done | timerless_auto].
Qed.

Theorem reports_not_left_exporting e w :
  reachable page (fun _ => True) (initial e) w -> idle w = true -> exporting (st w) = false.
Proof. intros Hw Hidle. by eapply never_left_busy; [apply reports_lowers | | exact Hw | exact Hidle]. Qed.

(** ** A concrete run *)

Definition an_election : ElectionResponse :=
  {| e_id := "E1"; e_title_name := None; e_title := Some "Poll"%string; e_description := None;
     e_state := OPEN; e_configuration_hash := None; e_device_count := 1; e_ballot_count := 8;
     e_created_at := "2026-01-01T00:00:00Z"; e_opened_at := None; e_closed_at := None;
     e_published_at := None; e_candidates := [] |}.

Definition no_service : forall r, outcome (resp r) := fun _ => Err (plain_error "Error" "401").

Definition opened : state := initial (Some an_election).

Lemma reports_certify_everything_witness : shows (render opened) "EXACT_MATCH" = true.
Proof. exact (proj1 (reports_certify_everything opened an_election eq_refl)). Defined.

Lemma report_exported_witness :
  exists k w', run page (boot opened) (User ClickExport :: replies no_service 0 k) = Some w'
    /\ alerts (st w') = ["Failed to export: 401"%string].
Proof.
  destruct (report_exported (boot opened) an_election no_service eq_refl eq_refl eq_refl)
    as (k & w' & H1 & _ & _ & _ & H2).
  destruct H2 as [_ H2]. exists k, w'. split; [exact H1 | exact H2].
Defined.

Definition refused : world state :=
  default (boot opened) (run page (boot opened) [User ClickExport; Reply 0 (answers no_service)]).

Lemma reports_not_left_exporting_witness : exporting (st refused) = false.
Proof.
  apply (reports_not_left_exporting (Some an_election) refused); [| vm_compute; reflexivity].
  apply reachable_default; [constructor | by repeat constructor].
Defined.
