(* ===== verification/Observers.v ===== *)
(** * The observers' page: [app/(officer)/election/observers/page.tsx]

    The backend's verdict on the audit chain and the number of devices of the selected
    election; then what loading leaves, and what it leaves of the election before. *)
From S2P Require Import Prelude JsValue JsNumber FormatError Types ApiClient View React Alone Officer.
From Stdlib Require Import String.

Module Observers.

(*@ dashboard/app/(officer)/election/observers/page.tsx 22 24 ObserverDashboardPage *)
Record state := mk_state {
  selectedElection : option ElectionResponse;
  mounted : bool;
  auditStatus : string;
  deviceCount : Z }.

Definition set_selectedElection (v : option ElectionResponse) (s : state) : state :=
  mk_state v (mounted s) (auditStatus s) (deviceCount s).
Definition set_mounted (v : bool) (s : state) : state :=
  mk_state (selectedElection s) v (auditStatus s) (deviceCount s).
Definition set_auditStatus (v : string) (s : state) : state :=
  mk_state (selectedElection s) (mounted s) v (deviceCount s).
Definition set_deviceCount (v : Z) (s : state) : state :=
  mk_state (selectedElection s) (mounted s) (auditStatus s) v.

Definition initial (e : option ElectionResponse) : state := mk_state e false "Verifying..." 0.

Abbreviation M := (prog state).

(*@ dashboard/app/(officer)/election/observers/page.tsx 27 41 loadObserverTelemetry *)
Definition loadObserverTelemetry (s : state) : M unit :=
  match selectedElection s with
  | None => mret tt
  | Some e =>
      try_catch
        ('(auditRes, (devRes, _)) ← await_each [verifyAuditChain (e_id e) None; getDevices (e_id e) None];
         match auditRes with
         | Ok r => upd (set_auditStatus (if av_is_intact r then "INTACT (Verified)" else "CHAIN FAILURE DETECTED"))
         | Err _ => mret tt
         end;;
         upd (set_deviceCount (Z.of_nat (List.length (match devRes with Ok l => l | Err _ => [] end)))))
        (fun _ => mret tt)
  end.

(** The page has no controls. *)
Inductive ui := .

#[export] Instance ui_eq_dec : EqDecision ui. Proof. intros []. Defined.

Inductive env := Mount | Selected (e : option ElectionResponse).

Definition on_ui (u : ui) (s : state) : M unit := match u with end.

(*@ dashboard/app/(officer)/election/observers/page.tsx 26 43 useEffect *)
Definition on_surroundings (x : env) (s : state) : M unit :=
  match x with
  | Mount => if mounted s then mret tt else upd (set_mounted true);; loadObserverTelemetry s
  | Selected e =>
      upd (set_selectedElection e);;
      (if mounted s then loadObserverTelemetry (set_selectedElection e s) else mret tt)
  end.

(*@ dashboard/app/(officer)/election/observers/page.tsx 117 143 ObserverDashboardPage *)
Definition compliance : list (node ui) :=
  [Text "Observer Compliance Verification"; Text "System invariants monitored continuously during the election lifecycle";
   Text "Candidate Roster Frozen Post-Lock"; Badge "success" "CONFIRMED";
   Text "Physical EVM Serial Bridge Active"; Badge "success" "MONITORED";
   Text "Monotonic Sequence Monitored (Zero Replays)"; Badge "success" "ENFORCED";
   Text "Voter PII Segregated from Ballot Records"; Badge "success" "COMPLIANT"].

(*@ dashboard/app/(officer)/election/observers/page.tsx 45 148 ObserverDashboardPage *)
Definition render (s : state) : list (node ui) :=
  [Text "Independent Election Observer Portal";
   Text "Restricted operational view for designated non-partisan observers, media delegates, and audit monitors";
   Badge "neutral" "READ-ONLY ACCESS";
   Text "Observers have non-mutating visibility over aggregate election metrics, device statuses, and cryptographic integrity proofs. System configuration, private voter sessions, and encryption keys are strictly restricted."]
  ++ match selectedElection s with
     | None => []
     | Some e =>
         [Text "Recorded Ballots"; Text (Z_to_string (e_ballot_count e)); Text "Live tally count";
          Text "Active EVM Units";
          Text (Z_to_string (if deviceCount s =? 0 then e_device_count e else deviceCount s));
          Text "Hardware reporting"; Text "Audit Integrity"; Text (auditStatus s);
          Text "SHA-256 continuous chain"; Text "Election State"; Text (election_state_str (e_state e)); Text (e_id e)]
         ++ compliance
     end.

Definition page : component state ui env := mk_component render on_ui on_surroundings.

End Observers.

Import Observers.

(** What loading leaves for every pair of answers. *)
Definition telemetry (f : forall r, outcome (resp r)) (e : ElectionResponse) (s : state) : state :=
  set_deviceCount (match f (getDevices (e_id e) None) with Ok l => Z.of_nat (List.length l) | Err _ => 0 end)
    (match f (verifyAuditChain (e_id e) None) with
     | Ok r => set_auditStatus (if av_is_intact r then "INTACT (Verified)" else "CHAIN FAILURE DETECTED") s
     | Err _ => s
     end).

Lemma telemetry_alone f e s :
  mounted s = true ->
  alone f (on_surroundings (Selected (Some e)) s) s
  = let s' := set_selectedElection (Some e) s in
    Some (mk_ending (inl tt) (telemetry f e s')
            [(s', verifyAuditChain (e_id e) None); (s', getDevices (e_id e) None)]).
Proof.
  intros Hm. cbn [on_surroundings]. rewrite alone_upd, Hm. unfold loadObserverTelemetry, telemetry.
  cbn [selectedElection set_selectedElection]. alone_auto. cbn [settle].
  destruct (f (verifyAuditChain (e_id e) None)), (f (getDevices (e_id e) None)); alone_auto; reflexivity.
Qed.

(** Choosing an election asks the backend twice, without a token, and ends with what it
    answered. *)
Theorem observer_telemetry w e (f : forall r, outcome (resp r)) :
  tasks w = [] -> mounted (st w) = true ->
  exists k w', run page w (Env (Selected (Some e)) :: replies f (fresh w) k) = Some w'
    /\ tasks w' = [] /\ st w' = telemetry f e (set_selectedElection (Some e) (st w))
    /\ map snd (sent w') = map snd (sent w) ++ [verifyAuditChain (e_id e) None; getDevices (e_id e) None].
Proof.
  intros Ht Hm.
  destruct (env_alone f page w (Selected (Some e)) _ Ht (telemetry_alone f e _ Hm)) as (k & w' & H1 & H2 & H3 & H4 & _).
  exists k, w'. split; [exact H1 |]. split; [exact H2 |]. by rewrite H3, H4, map_app.
Qed.

(** The verdict on the election shown before stays on display when the backend refuses to
    verify the one chosen now. *)
Theorem observer_verdict_survives w e (f : forall r, outcome (resp r)) err :
  tasks w = [] -> mounted (st w) = true -> f (verifyAuditChain (e_id e) None) = Err err ->
  exists k w', run page w (Env (Selected (Some e)) :: replies f (fresh w) k) = Some w'
    /\ selectedElection (st w') = Some e /\ auditStatus (st w') = auditStatus (st w).
Proof.
  intros Ht Hm Hf.
  destruct (env_alone f page w (Selected (Some e)) _ Ht (telemetry_alone f e _ Hm)) as (k & w' & H1 & _ & H3 & _).
  exists k, w'. split; [exact H1 |]. rewrite H3. cbn. unfold telemetry. by rewrite Hf.
Qed.

(** ** A concrete run *)

Definition an_election (i : string) : ElectionResponse :=
  {| e_id := i; e_title_name := None; e_title := Some "Poll"%string; e_description := None;
     e_state := OPEN; e_configuration_hash := None; e_device_count := 1; e_ballot_count := 8;
     e_created_at := "2026-01-01T00:00:00Z"; e_opened_at := None; e_closed_at := None;
     e_published_at := None; e_candidates := [] |}.

Definition first_only : forall r, outcome (resp r) :=
  fun r => match r as r return outcome (resp r) with
           | verifyAuditChain i _ =>
               if String.eqb i "E1"
               then Ok {| av_election_id := i; av_total_entries := 12; av_is_intact := true;
                          av_first_broken_sequence := None; av_details := "intact" |}
               else Err (plain_error "Error" "401")
           | _ => Err (plain_error "Error" "offline")
           end.

Definition watching : world state :=
  default (boot (initial None)) (run page (boot (initial (Some (an_election "E1")))) [Env Mount; Reply 0 (answers first_only)]).

Lemma observer_telemetry_witness :
  exists k w', run page watching (Env (Selected (Some (an_election "E1"))) :: replies first_only 1 k) = Some w'
    /\ auditStatus (st w') = "INTACT (Verified)"%string.
Proof.
  destruct (observer_telemetry watching (an_election "E1") first_only) as (k & w' & H1 & _ & H2 & _);
    [reflexivity | reflexivity |].
  exists k, w'. split; [exact H1 | by rewrite H2].
Defined.

Lemma observer_verdict_survives_witness :
  exists k w', run page watching (Env (Selected (Some (an_election "E2"))) :: replies first_only 1 k) = Some w'
    /\ auditStatus (st w') = "INTACT (Verified)"%string.
Proof.
  destruct (observer_verdict_survives watching (an_election "E2") first_only (plain_error "Error" "401"))
    as (k & w' & H1 & _ & H2); [reflexivity | reflexivity | reflexivity |].
  exists k, w'. split; [exact H1 | by rewrite H2].
Defined.
