(* ===== verification/SimulationPage.v ===== *)
(** * The simulation page: [app/(officer)/election/simulation/page.tsx]

    Generating a synthetic election of a chosen scale and seeding the demonstration election;
    then what is asked for and how both end. *)
From S2P Require Import Prelude JsValue JsNumber FormatError Types ApiClient View Common React Alone Spinner Officer.
From Stdlib Require Import String.

Module SimulationPage.

(** The scales the backend accepts. *)
(*@ backend/app/schemas.py 579 579 SimulationRequest *)
Definition ACCEPTED_PRESETS : list string := ["DEMO_1000"; "DEMO_10000"; "DEMO_100000"]%string.

(*@ dashboard/app/(officer)/election/simulation/page.tsx 26 33 SimulationPage *)
Record state := mk_state {
  token : option string;
  loading : bool;
  seedLoading : bool;
  error : option string;
  successMsg : option string;
  preset : string;
  result : option SimulationResponse }.

Definition set_token (v : option string) (s : state) : state :=
  mk_state v (loading s) (seedLoading s) (error s) (successMsg s) (preset s) (result s).
Definition set_loading (v : bool) (s : state) : state :=
  mk_state (token s) v (seedLoading s) (error s) (successMsg s) (preset s) (result s).
Definition set_seedLoading (v : bool) (s : state) : state :=
  mk_state (token s) (loading s) v (error s) (successMsg s) (preset s) (result s).
Definition set_error (v : option string) (s : state) : state :=
  mk_state (token s) (loading s) (seedLoading s) v (successMsg s) (preset s) (result s).
Definition set_successMsg (v : option string) (s : state) : state :=
  mk_state (token s) (loading s) (seedLoading s) (error s) v (preset s) (result s).
Definition set_preset (v : string) (s : state) : state :=
  mk_state (token s) (loading s) (seedLoading s) (error s) (successMsg s) v (result s).
Definition set_result (v : option SimulationResponse) (s : state) : state :=
  mk_state (token s) (loading s) (seedLoading s) (error s) (successMsg s) (preset s) v.

Definition initial (t : option string) : state := mk_state t false false None None "DEMO_1000" None.

Abbreviation M := (prog state).

(** The page takes only [refreshElections] from the election context; the provider's own
    election is [selected]. *)
Section Handlers.
Context (selected : option ElectionResponse).

(*@ dashboard/app/(officer)/election/simulation/page.tsx 41 41 handleRunSimulation *)
Definition simulation_name (preset : string) : string := "Simulated Election (" ++s preset ++s ")".

(*@ dashboard/app/(officer)/election/simulation/page.tsx 35 52 handleRunSimulation *)
Definition handleRunSimulation (s : state) : M unit :=
  upd (set_loading true);;
  upd (set_error None);;
  upd (set_successMsg None);;
  finally
    (try_catch
       (data ← await (runSimulation (preset s) (Some (simulation_name (preset s))) (token s));
        upd (set_result (Some data));;
        upd (set_successMsg (Some ("Successfully generated simulated election: "
               ++s str_or (si_election_id data) "EV-2026-SIM")));;
        refreshElections (token s) selected)
       (report set_error))
    (upd (set_loading false)).

(*@ dashboard/app/(officer)/election/simulation/page.tsx 54 67 handleSeedGoldenDemo *)
Definition handleSeedGoldenDemo (s : state) : M unit :=
  upd (set_seedLoading true);;
  upd (set_error None);;
  upd (set_successMsg None);;
  finally
    (try_catch
       (await (seedDemoElection (token s) false);;
        upd (set_successMsg (Some "Golden Demo Election (EV-2026-001) seeded successfully with 4 candidates and 20 eligible voters!"));;
        refreshElections (token s) selected)
       (report set_error))
    (upd (set_seedLoading false)).

Inductive ui := ClickSeed | ClickRun | ClickPreset (id : string).

#[export] Instance ui_eq_dec : EqDecision ui. Proof. solve_decision. Defined.

Inductive env := TokenChanged (t : option string).

(*@ dashboard/app/(officer)/election/simulation/page.tsx 120 205 onClick *)
Definition on_ui (u : ui) (s : state) : M unit :=
  match u with
  | ClickSeed => handleSeedGoldenDemo s
  | ClickRun => handleRunSimulation s
  | ClickPreset id => upd (set_preset id)
  end.

(*@ dashboard/app/(officer)/election/simulation/page.tsx 27 27 token *)
Definition on_surroundings (x : env) (s : state) : M unit :=
  match x with TokenChanged t => upd (set_token t) end.
End Handlers.

(** ** The page *)

(*@ dashboard/app/(officer)/election/simulation/page.tsx 69 100 presets *)
Record preset_info := {
  p_id : string; p_name : string; p_voters : string; p_stations : string; p_devices : string;
  p_candidates : string; p_turnout : string; p_desc : string }.

(*@ dashboard/app/(officer)/election/simulation/page.tsx 69 100 presets *)
Definition presets : list preset_info :=
  [{| p_id := "DEMO_1000"; p_name := "Small Scale (DEMO_1000)"; p_voters := "1,000 Voters";
      p_stations := "2 Stations"; p_devices := "4 EVM Units"; p_candidates := "4 Candidates";
      p_turnout := "~700 Ballots";
      p_desc := "Fast in-memory load test ideal for UI smoke testing and verifier benchmarks." |};
   {| p_id := "DEMO_10000"; p_name := "Constituency Segment (DEMO_10000)"; p_voters := "10,000 Voters";
      p_stations := "10 Stations"; p_devices := "20 EVM Units"; p_candidates := "6 Candidates";
      p_turnout := "~7,000 Ballots";
      p_desc := "Comprehensive multi-polling-station dataset for round-by-round counting verification." |};
   {| p_id := "DEMO_100000"; p_name := "India Assembly Scale (DEMO_100000)"; p_voters := "100,000 Voters";
      p_stations := "50 Stations"; p_devices := "100 EVM Units"; p_candidates := "8 Candidates";
      p_turnout := "~70,000 Ballots";
      p_desc := "High-density stress test verifying cryptographic hash chain scalability." |}].

Section Page.
Context (selected : option ElectionResponse).

(** What the answer has under [duration_ms], which its declared type does not have. *)
Context (duration_ms : SimulationResponse -> option Z).

(*@ dashboard/app/(officer)/election/simulation/page.tsx 152 196 SimulationPage *)
Definition preset_card (s : state) (p : preset_info) : list (node ui) :=
  let isSelected := String.eqb (preset s) (p_id p) in
  [Button (p_name p) false (ClickPreset (p_id p));
   Badge (if isSelected then "info" else "neutral") (p_turnout p); Text (p_desc p); Text (p_voters p);
   Text (p_stations p); Text (p_devices p); Text (p_candidates p)].

(*@ dashboard/app/(officer)/election/simulation/page.tsx 262 262 SimulationPage *)
Definition execution_time (r : SimulationResponse) : string :=
  match duration_ms r with
  | Some ms => if ms =? 0 then "N/A" else to_fixed 2 (div_ZZ ms 1000) ++s "s"
  | None => "N/A"
  end.

(*@ dashboard/app/(officer)/election/simulation/page.tsx 222 291 SimulationPage *)
Definition output (s : state) : list (node ui) :=
  match result s with
  | Some r =>
      [Text "Simulation Run Complete"; Text "Ballots Cast"; Count (si_ballots_generated r);
       Text "Voters Enrolled"; Count (si_voters_registered r);
       Text "Active EVMs"; Text (Z_to_string (si_devices_created r));
       Text "Execution Time"; Text (execution_time r);
       Link "/election/counting" "Inspect Counting Center"; Link "/evm" "Launch Digital EVM Terminal"]
  | None =>
      [Text "Run a simulation or seed the golden demo election to inspect synthetic ballots and cryptographic audit trails."]
  end.

(*@ dashboard/app/(officer)/election/simulation/page.tsx 102 300 SimulationPage *)
Definition render (s : state) : list (node ui) :=
  [Text "Ecosystem Simulation & Load Engine"]
  ++ LibButton "Seed Golden Demo (EV-2026-001)" (seedLoading s) false ClickSeed
  ++ error_box (successMsg s) ++ error_box (error s)
  ++ [Text "Select Synthetic Scale Preset"] ++ flat_map (preset_card s) presets
  ++ LibButton (if loading s then "Generating Full Cryptographic State..." else "Run " ++s preset s ++s " Simulation")
       (loading s) false ClickRun
  ++ when (loading s) [Text "Calculating canonical SHA-256 hash chains and deterministic digital Twin registers..."]
  ++ [Text "Simulation Output"] ++ output s
  ++ [Text "All simulated electoral runs generate deterministic pseudorandom datasets using seed keys derived from the election ID."].

Definition page : component state ui env := mk_component render (on_ui selected) on_surroundings.
End Page.

End SimulationPage.

Import SimulationPage.

#[export] Hint Unfold on_ui on_surroundings handleRunSimulation handleSeedGoldenDemo : prog.

Section Facts.
Context (selected : option ElectionResponse) (duration_ms : SimulationResponse -> option Z).

Abbreviation app := (page selected duration_ms).

Lemma allows_simulation s u :
  allows (render duration_ms s) u
  = match u with
    | ClickSeed => negb (seedLoading s)
    | ClickRun => negb (loading s)
    | ClickPreset id => str_in id (map p_id presets)
    end.
Proof.
  unfold render, LibButton. rewrite !allows_app, allows_when, !allows_error_box.
  replace (allows (output duration_ms s) u) with false by (unfold output; by destruct (result s), u).
  replace (allows (flat_map (preset_card s) presets) u)
    with (match u with ClickPreset id => str_in id (map p_id presets) | _ => false end).
  2: { destruct u as [| |id]; [done | done |]. rewrite allows_flat_map. cbn -[presets]. unfold presets.
       cbn. rewrite !orb_false_r. unfold str_in. cbn.
       f_equal; [| f_equal; [| rewrite ?orb_false_r]];
         (match goal with |- String.eqb ?a ?b = bool_decide _ =>
            destruct (String.eqb_spec a b) as [->|Hne];
            [by rewrite bool_decide_eq_true_2 | rewrite bool_decide_eq_false_2; [done | congruence]]
          end). }
  destruct u; read_page; by rewrite ?andb_false_r, ?orb_false_r.
Qed.

(** ** Requests *)

Definition Inv (s : state) : Prop := In (preset s) ACCEPTED_PRESETS.

Definition Sends (s : state) (r : req) : Prop :=
  match r with
  | runSimulation p n t => t = token s /\ In p ACCEPTED_PRESETS /\ n = Some (simulation_name p)
  | seedDemoElection t reset => t = token s /\ reset = false
  | getElections _ | getElection _ _ => True
  | _ => False
  end.

Lemma simulation_safe : safe_component app Inv Sends (fun _ => True).
Proof.
  split; [| by intros [t] s _ Hs]. intros u s _ Hs Hu. change (allows (render duration_ms s) u = true) in Hu.
  rewrite allows_simulation in Hu. unfold page. cbn [on_user]. destruct u as [| |id]; cbn [on_ui].
  - apply (wp_wpf Inv Sends false). unfold handleSeedGoldenDemo. do 3 apply wpf_upd. apply wpf_finally, wpf_try, wpf_bind.
    cbn -[refreshElections]. split_and!; [done | by constructor |].
    intros [a|err] s' Hs'; cbn -[refreshElections]; [| done].
    eapply wpf_mono; [by apply (refresh_keeps Inv Sends) | by intros | by intros].
  - apply (wp_wpf Inv Sends false). unfold handleRunSimulation. do 3 apply wpf_upd. apply wpf_finally, wpf_try, wpf_bind.
    cbn -[refreshElections]. split_and!; [done | by constructor |].
    intros [a|err] s' Hs'; cbn -[refreshElections]; [| done].
    eapply wpf_mono; [by apply (refresh_keeps Inv Sends) | by intros | by intros].
  - cbn. unfold Inv. cbn. by apply str_in_In in Hu.
Qed.

(** In every interleaving a simulation is asked for only of a scale the backend accepts,
    named after it, and the demonstration is seeded without a reset; both with the page's
    own token. *)
Theorem simulation_requests t w s q :
  reachable app (fun _ => True) (initial t) w -> In (s, q) (sent w) -> Sends s q.
Proof.
  intros Hw Hin. assert (Inv (initial t)) as H0 by by left.
  destruct (reachable_good _ _ _ _ simulation_safe (initial t) w H0 Hw) as [_ _ Hs].
  exact (Forall_In _ _ _ Hs Hin).
Qed.

(** ** How a simulation ends *)

(** An accepted simulation is announced and shown, and the elections are refreshed; a
    rejected one is reported beside the result of the last. *)
Theorem simulation_run w (f : forall r, outcome (resp r)) :
  let s := st w in
  let request := runSimulation (preset s) (Some (simulation_name (preset s))) (token s) in
  tasks w = [] -> loading s = false ->
  exists k w', run app w (User ClickRun :: replies f (fresh w) k) = Some w'
    /\ tasks w' = [] /\ loading (st w') = false
    /\ match f request with
       | Ok data =>
           result (st w') = Some data /\ error (st w') = None
           /\ successMsg (st w') = Some ("Successfully generated simulated election: "
                ++s str_or (si_election_id data) "EV-2026-SIM")
           /\ map snd (sent w') = map snd (sent w) ++ request :: refreshing f (token s) selected
       | Err err =>
           result (st w') = result s /\ error (st w') = Some (FormatError.format_error err)
           /\ successMsg (st w') = None /\ map snd (sent w') = map snd (sent w) ++ [request]
       end.
Proof.
  intros s request Ht Hl. subst s. destruct (f request) as [data|err] eqn:Ef.
  all: edestruct (click_alone f app w ClickRun) as (k & w' & H1 & H2 & H3 & H4 & _);
    [done | unfold page; cbn [React.render]; by rewrite allows_simulation, Hl
    | unfold page; cbn [on_user on_ui]; unfold handleRunSimulation, report; fold request;
      alone_auto; rewrite ?refresh_alone; cbn [after]; alone_auto; reflexivity |].
  all: exists k, w'; split; [exact H1 |]; split; [exact H2 |]; rewrite H3, H4, map_app; cbn;
    rewrite ?app_nil_r, ?map_map, ?map_id; by split_and!.
Qed.

(** ** The flags *)

Definition raised (seeding : bool) (s : state) : bool := if seeding then seedLoading s else loading s.

Lemma simulation_lowers b : lowering_component app (fun _ => True) (fun _ => True) (raised b).
Proof.
  split; [| by intros [t] s _ _]. intros u s _ _ _. unfold lowers, page. cbn [on_user].
  assert (forall (A : Type) (r : req), timerless (await r : prog state (resp r))) as Ha by by intros ? ? [?|?].
  destruct u as [| |id]; cbn [on_ui]; [| | by split]; unfold handleSeedGoldenDemo, handleRunSimulation.
  - destruct b.
    + do 3 apply low_upd. apply lowers_at_end; [done |]. apply timerless_try; [| by intros].
      apply timerless_bind; [by intros [?|?] |]. intros _. cbn. apply refresh_timerless.
    + apply low_calm; [| done]. repeat (apply calm_bind; [by split | intros _]).
      apply calm_finally; [| by split]. apply calm_try; [| by intros; split].
      apply calm_bind; [by intros [?|?] |]. intros _. apply calm_bind; [by split | intros _]. apply refresh_calm.
  - destruct b.
    + apply low_calm; [| done]. repeat (apply calm_bind; [by split | intros _]).
      apply calm_finally; [| by split]. apply calm_try; [| by intros; split].
      apply calm_bind; [by intros [?|?] |]. intros data. repeat (apply calm_bind; [by split | intros _]). apply refresh_calm.
    + do 3 apply low_upd. apply lowers_at_end; [done |]. apply timerless_try; [| by intros].
      apply timerless_bind; [by intros [?|?] |]. intros data. cbn. apply refresh_timerless.
Qed.

Theorem simulation_not_left_loading t w :
  reachable app (fun _ => True) (initial t) w -> idle w = true ->
  loading (st w) = false /\ seedLoading (st w) = false.
Proof.
  intros Hw Hidle. assert (forall b, raised b (st w) = false) as H.
  { intros b. eapply never_left_busy; [apply simulation_lowers | | exact Hw | exact Hidle]. by destruct b. }
  exact (conj (H false) (H true)).
Qed.

(** Without [duration_ms] in the answer the time is never shown, though the answer has it. *)
Theorem simulation_time_unknown r : duration_ms r = None -> execution_time duration_ms r = "N/A"%string.
Proof. intros H. unfold execution_time. by rewrite H. Qed.
End Facts.

(** ** A concrete run *)

Definition simulator : forall r, outcome (resp r) :=
  fun r => match r as r return outcome (resp r) with
           | runSimulation p _ _ =>
               Ok {| si_election_id := "EV-SIM"; si_preset := p; si_ballots_generated := 700;
                     si_devices_created := 4; si_polling_stations_created := 2; si_voters_registered := 1000;
                     si_candidates_created := 4; si_audit_entries := 710; si_duration_seconds := of_Z 2;
                     si_status := "COMPLETED" |}
           | _ => Err (plain_error "Error" "offline")
           end.

Definition lab : component state ui env := page None (fun _ => None).

Definition opened : state := initial (Some "token"%string).

Definition simulating : world state :=
  default (boot opened) (run lab (boot opened) [User (ClickPreset "DEMO_10000"); User ClickRun]).

Lemma reachable_simulating : reachable lab (fun _ => True) opened simulating.
Proof. apply reachable_default; [constructor | by repeat constructor]. Qed.

Lemma simulation_requests_witness : In "DEMO_10000"%string ACCEPTED_PRESETS.
Proof.
  refine (proj1 (proj2 (simulation_requests None (fun _ => None) (Some "token"%string) simulating _
            (runSimulation "DEMO_10000" _ (Some "token"%string)) reachable_simulating _))).
  vm_compute. left. reflexivity.
Defined.

Lemma simulation_run_witness :
  exists k w', run lab (boot opened) (User ClickRun :: replies simulator 0 k) = Some w' /\ error (st w') = None.
Proof.
  destruct (simulation_run None (fun _ => None) (boot opened) simulator eq_refl eq_refl)
    as (k & w' & H1 & _ & _ & H2).
  destruct H2 as (_ & H2 & _). exists k, w'. split; [exact H1 | exact H2].
Defined.

Definition simulated : world state :=
  default simulating (run lab simulating [Reply 0 (answers simulator); Reply 1 (answers simulator)]).

Lemma simulation_not_left_loading_witness : loading (st simulated) = false.
Proof.
  refine (proj1 (simulation_not_left_loading None (fun _ => None) (Some "token"%string) simulated _ _));
    [| vm_compute; reflexivity].
  apply reachable_default; [exact reachable_simulating | by repeat constructor].
Defined.
