(* ===== verification/Preview.v ===== *)
(** * Preview of the public page: [app/(officer)/election/transparency/page.tsx]

    What the public is said to see of the selected election; then what loading leaves, and
    that the overview of another election can be shown. *)
From S2P Require Import Prelude JsValue JsNumber FormatError Types ApiClient View React Alone Spinner Officer.
From Stdlib Require Import String.

Module Preview.

(*@ dashboard/app/(officer)/election/transparency/page.tsx 11 15 TransparencyPreviewPage *)
Record state := mk_state {
  selectedElection : option ElectionResponse;
  mounted : bool;
  data : option TransparencyOverview;
  loading : bool;
  error : option string }.

Definition set_selectedElection (v : option ElectionResponse) (s : state) : state :=
  mk_state v (mounted s) (data s) (loading s) (error s).
Definition set_mounted (v : bool) (s : state) : state :=
  mk_state (selectedElection s) v (data s) (loading s) (error s).
Definition set_data (v : option TransparencyOverview) (s : state) : state :=
  mk_state (selectedElection s) (mounted s) v (loading s) (error s).
Definition set_loading (v : bool) (s : state) : state :=
  mk_state (selectedElection s) (mounted s) (data s) v (error s).
Definition set_error (v : option string) (s : state) : state :=
  mk_state (selectedElection s) (mounted s) (data s) (loading s) v.

Definition initial (e : option ElectionResponse) : state := mk_state e false None false None.

Abbreviation M := (prog state).

(*@ dashboard/app/(officer)/election/transparency/page.tsx 18 29 loadData *)
Definition loadData (s : state) : M unit :=
  match selectedElection s with
  | None => mret tt
  | Some e =>
      busy set_loading set_error
        (overview ← await (getTransparencyOverview (e_id e));
         upd (set_data (Some overview)))
  end.

(** The page has no controls, only a link. *)
Inductive ui := .

#[export] Instance ui_eq_dec : EqDecision ui. Proof. intros []. Defined.

Inductive env := Mount | Selected (e : option ElectionResponse).

Definition on_ui (u : ui) (s : state) : M unit := match u with end.

(*@ dashboard/app/(officer)/election/transparency/page.tsx 17 31 useEffect *)
Definition on_surroundings (x : env) (s : state) : M unit :=
  match x with
  | Mount => if mounted s then mret tt else upd (set_mounted true);; loadData s
  | Selected e =>
      upd (set_selectedElection e);;
      (if mounted s then loadData (set_selectedElection e s) else mret tt)
  end.

Section Page.

(** What the server's answer has under [title], which its declared type does not have. *)
Context (undeclared_title : TransparencyOverview -> option string).

(*@ dashboard/app/(officer)/election/transparency/page.tsx 73 88 TransparencyPreviewPage *)
Definition shown_state (s : state) (e : ElectionResponse) : string :=
  match data s with Some d => str_or (t_state d) (election_state_str (e_state e)) | None => election_state_str (e_state e) end.

(*@ dashboard/app/(officer)/election/transparency/page.tsx 33 99 TransparencyPreviewPage *)
Definition render (s : state) : list (node ui) :=
  match selectedElection s with
  | None => [Text "Select an election to view transparency preview."]
  | Some e =>
      [Text "Transparency Preview"; Link ("/transparency/" ++s e_id e) "View Public Portal";
       Text "This page shows a preview of the data available to the public on the transparency portal."]
      ++ error_box (error s)
      ++ [Text "Public View Preview";
          Text (match data s with
                | Some d => opt_or (undeclared_title d) (default EmptyString (e_title e))
                | None => default EmptyString (e_title e)
                end);
          Text ("Status: " ++s shown_state s e);
          Text "Total Ballots";
          Text (Z_to_string (match data s with Some d => t_total_ballots d | None => e_ballot_count e end));
          Text "Config Hash";
          Text (match e_configuration_hash e with Some h => take_str 16 h | None => EmptyString end ++s "...");
          Text "Result Published"; Text (if String.eqb (shown_state s e) "PUBLISHED" then "Yes" else "No");
          Text "Citizens can use the public portal to verify their individual vote inclusion and audit the mathematical proofs without viewing individual choices."]
  end.

Definition page : component state ui env := mk_component render on_ui on_surroundings.
End Page.

End Preview.

Import Preview.

Section Facts.
Context (undeclared_title : TransparencyOverview -> option string).

Abbreviation app := (page undeclared_title).

Lemma preview_alone f e s :
  mounted s = true ->
  alone f (on_surroundings (Selected (Some e)) s) s
  = let s1 := set_loading true (set_selectedElection (Some e) s) in
    Some (mk_ending (inl tt)
            (set_loading false
               match f (getTransparencyOverview (e_id e)) with
               | Ok d => set_data (Some d) s1
               | Err err => set_error (Some (FormatError.format_error err)) s1
               end) [(s1, getTransparencyOverview (e_id e))]).
Proof.
  intros Hm. cbn [on_surroundings]. rewrite alone_upd, Hm. unfold loadData. cbn [selectedElection set_selectedElection].
  destruct (f (getTransparencyOverview (e_id e))) eqn:E; (erewrite busy_alone; [| alone_auto; reflexivity]); reflexivity.
Qed.

(** Choosing an election ends with its overview, or with the reason it cannot be had; in the
    latter case the overview of the election before stays on display under the title of
    this one. *)
Theorem preview_loaded w e (f : forall r, outcome (resp r)) :
  tasks w = [] -> mounted (st w) = true ->
  exists k w', run app w (Env (Selected (Some e)) :: replies f (fresh w) k) = Some w'
    /\ tasks w' = [] /\ loading (st w') = false /\ selectedElection (st w') = Some e
    /\ match f (getTransparencyOverview (e_id e)) with
       | Ok d => data (st w') = Some d
       | Err err => data (st w') = data (st w) /\ error (st w') = Some (FormatError.format_error err)
       end.
Proof.
  intros Ht Hm.
  destruct (env_alone f app w (Selected (Some e)) _ Ht (preview_alone f e _ Hm)) as (k & w' & H1 & H2 & H3 & _).
  exists k, w'. split; [exact H1 |]. split; [exact H2 |]. rewrite H3. cbn.
  by destruct (f (getTransparencyOverview (e_id e))).
Qed.
End Facts.

(** ** A concrete run *)

Definition an_election (i : string) : ElectionResponse :=
  {| e_id := i; e_title_name := None; e_title := Some i; e_description := None;
     e_state := OPEN; e_configuration_hash := None; e_device_count := 1; e_ballot_count := 8;
     e_created_at := "2026-01-01T00:00:00Z"; e_opened_at := None; e_closed_at := None;
     e_published_at := None; e_candidates := [] |}.

Definition portal : forall r, outcome (resp r) :=
  fun r => match r as r return outcome (resp r) with
           | getTransparencyOverview i =>
               if String.eqb i "E1"
               then Ok {| t_election_id := i; t_election_name := i; t_state := "PUBLISHED"; t_total_ballots := 100;
                          t_device_count := 1; t_polling_station_count := 1; t_candidate_count := 2;
                          t_registered_voters := 200; t_turnout_percentage := of_Z 50;
                          t_audit_chain_status := "INTACT"; t_reconciliation_status := "EXACT_MATCH";
                          t_manifest_status := "SIGNED"; t_notice := "" |}
               else Err (plain_error "Error" "404")
           | _ => Err (plain_error "Error" "offline")
           end.

Definition previewing : world state :=
  default (boot (initial None)) (run (page (fun _ => None)) (boot (initial (Some (an_election "E1")))) [Env Mount; Reply 0 (answers portal)]).

Lemma preview_loaded_witness :
  exists k w', run (page (fun _ => None)) previewing (Env (Selected (Some (an_election "E2"))) :: replies portal 1 k) = Some w'
    /\ data (st w') = data (st previewing).
Proof.
  destruct (preview_loaded (fun _ => None) previewing (an_election "E2") portal) as (k & w' & H1 & _ & _ & _ & H2);
    [reflexivity | reflexivity |].
  destruct H2 as [H2 _]. exists k, w'. split; [exact H1 | exact H2].
Defined.

(** An open election shown as published, with another's ballots. *)
Theorem preview_of_another_election :
  exists w, run (page (fun _ => None)) previewing [Env (Selected (Some (an_election "E2"))); Reply 1 (answers portal)] = Some w
    /\ shows (render (fun _ => None) (st w)) "E2" = true
    /\ shows (render (fun _ => None) (st w)) "Status: PUBLISHED" = true
    /\ shows (render (fun _ => None) (st w)) "100" = true.
Proof. apply run_witness. vm_compute. by split_and!. Qed.
