(* ===== verification/Portal.v ===== *)
(** * What the pages of the voter portal share

    The public pages under app/(public)/voter ask one question at a time: the flag is raised,
    the last error and answer are cleared, and the flag is lowered whatever happens
    ([asking]). Their forms have required fields and drop-down lists, about which the
    browser has its own rules. *)
From S2P Require Import Prelude JsValue JsNumber FormatError Types ApiClient View React Alone Spinner Officer.
From Stdlib Require Import String.

(** ** Forms

    A required field must not be empty for its form to be submitted. A drop-down list whose
    value is none of its options displays, and submits for validation, its first option. *)
Definition filled (v : string) : bool := truthy_str v.

Definition offers (options : list (string * string)) (v : string) : bool := str_in v (map fst options).

Definition displayed (options : list (string * string)) (v : string) : string :=
  if offers options v then v else match options with o :: _ => fst o | [] => EmptyString end.

Lemma select_offers {U} `{EqDecision U} (opts : list (string * string)) (on : string -> U) v :
  (forall a b, on a = on b -> a = b) ->
  existsb (fun o => bool_decide (on v = on (fst o))) opts = offers opts v.
Proof.
  intros Hinj. unfold offers. rewrite <- (select_options fst snd opts on v Hinj).
  by rewrite (map_ext (fun x : string * string => (x.1, x.2)) id), map_id by by intros [? ?].
Qed.

(** [s.slice(-n)]. *)
Definition last_str (n : nat) (s : string) : string := String.substring (String.length s - n) n s.

(** ** What a page shows *)

Lemma shows_cons {U} (n : node U) p t : shows (n :: p) t = shows_in t n || shows p t.
Proof. done. Qed.

Lemma shows_box {U} tone (p : list (node U)) t : shows_in t (Box tone p) = shows p t.
Proof. done. Qed.

Lemma shows_texts {U} (l : list string) t : In t l -> shows (U := U) (map Text l) t = true.
Proof.
  intros Hin. apply existsb_exists. exists (Text t). split; [by apply in_map |]. apply String.eqb_refl.
Qed.

Section Portal.
Context {S : Type}.

(** [setLoading(true); setError(null); ...; try { ... } catch (err) {
    setError(formatApiError(err)); } finally { setLoading(false); }]. *)
Definition asking (set_loading : bool -> S -> S) (set_error : option string -> S -> S) (clear : S -> S)
    (body : prog S unit) : prog S unit :=
  upd (set_loading true);;
  upd (set_error None);;
  upd clear;;
  finally (try_catch body (report set_error)) (upd (set_loading false)).

Lemma asking_keeps (Inv : S -> Prop) (Sends : S -> req -> Prop) sl se clear body :
  (forall v s, Inv s -> Inv (sl v s)) -> (forall v s, Inv s -> Inv (se v s)) -> (forall s, Inv s -> Inv (clear s)) ->
  keeps Inv Sends body -> keeps Inv Sends (asking sl se clear body).
Proof.
  intros Hl He Hc Hb. unfold asking.
  do 3 (apply keeps_bind; [by apply keeps_upd; auto | intros _]).
  apply keeps_finally; [| by apply keeps_upd; auto]. apply keeps_try; [done |].
  intros err. apply keeps_upd; auto.
Qed.

(** A question whose request depends on the form of the render it was asked in. *)
Lemma asking_handles (Inv : S -> Prop) (Sends : S -> req -> Prop) sl se clear body s :
  (forall v s, Inv s -> Inv (sl v s)) -> (forall v s, Inv s -> Inv (se v s)) ->
  Inv (clear (se None (sl true s))) ->
  wpf Inv Sends true body (fun _ _ => Inv) (fun _ _ => Inv) (clear (se None (sl true s))) ->
  handles Inv Sends (asking sl se clear body) s.
Proof.
  intros Hl He Hc Hb. apply (wp_wpf Inv Sends true). unfold asking.
  do 3 apply wpf_upd. apply wpf_finally, wpf_try. unfold report. cbn.
  eapply wpf_mono; [exact Hb | |]; cbn; intros; by auto.
Qed.

Lemma asking_timerless sl se clear body : timerless body -> timerless (asking sl se clear body).
Proof. intros Hb. apply timerless_finally; [by apply timerless_try | done]. Qed.

Lemma asking_lowers (loading : S -> bool) sl se clear body b s0 s :
  (forall s, loading (sl false s) = false) -> timerless body ->
  low (fun _ => True) loading b (asking sl se clear body) (fun b _ => fine loading b) (fun b _ => fine loading b) s0 s.
Proof.
  intros Hl Hb. unfold asking. do 3 apply low_upd. apply lowers_at_end; [done |]. by apply timerless_try.
Qed.

Lemma asking_alone f sl se clear body s r :
  alone f body (clear (se None (sl true s))) = Some r ->
  alone f (asking sl se clear body) s
  = Some (mk_ending (inl tt)
       (match ended r with
        | inl _ => sl false (left_in r)
        | inr err => sl false (se (Some (FormatError.format_error err)) (left_in r))
        end) (asked r)).
Proof.
  intros Hr. unfold asking, report. do 3 rewrite alone_upd. rewrite alone_finally, alone_try, Hr.
  destruct r as [[[]|err] s' l]; cbn; by rewrite !app_nil_r.
Qed.
End Portal.
