(* ===== verification/Eligibility.v ===== *)
(** * The eligibility check: [app/(public)/voter/eligibility/page.tsx]

    A form whose three fields are required, and the answer. First what is asked and what is
    shown of an answer; then what becomes of a form whose drop-down list was not touched. *)
From S2P Require Import Prelude JsValue JsNumber FormatError Types ApiClient View React Alone Spinner Common Officer Portal.
From Stdlib Require Import String Ascii.

Module Eligibility.

(*@ dashboard/app/(public)/voter/eligibility/page.tsx 14 20 CONSTITUENCIES *)
Definition CONSTITUENCIES : list (string * string) :=
  [("North District", "North District"); ("South District", "South District");
   ("East District", "East District"); ("West District", "West District");
   ("Central District", "Central District")]%string.

(*@ dashboard/app/(public)/voter/eligibility/page.tsx 22 30 EligibilityCheckerPage *)
Record state := mk_state {
  fullName : string;
  dateOfBirth : string;
  constituency : string;
  loading : bool;
  error : option string;
  result : option EligibilityCheckResponse }.

Definition set_fullName (v : string) (s : state) : state :=
  mk_state v (dateOfBirth s) (constituency s) (loading s) (error s) (result s).
Definition set_dateOfBirth (v : string) (s : state) : state :=
  mk_state (fullName s) v (constituency s) (loading s) (error s) (result s).
Definition set_constituency (v : string) (s : state) : state :=
  mk_state (fullName s) (dateOfBirth s) v (loading s) (error s) (result s).
Definition set_loading (v : bool) (s : state) : state :=
  mk_state (fullName s) (dateOfBirth s) (constituency s) v (error s) (result s).
Definition set_error (v : option string) (s : state) : state :=
  mk_state (fullName s) (dateOfBirth s) (constituency s) (loading s) v (result s).
Definition set_result (v : option EligibilityCheckResponse) (s : state) : state :=
  mk_state (fullName s) (dateOfBirth s) (constituency s) (loading s) (error s) v.

(*@ dashboard/app/(public)/voter/eligibility/page.tsx 22 30 EligibilityCheckerPage *)
Definition initial : state := mk_state "" "" "" false None None.

Abbreviation M := (prog state).

(*@ dashboard/app/(public)/voter/eligibility/page.tsx 39 39 payload *)
Definition payload (s : state) : voter_form :=
  {| vf_name := fullName s; vf_date_of_birth := dateOfBirth s; vf_constituency := constituency s |}.

(*@ dashboard/app/(public)/voter/eligibility/page.tsx 32 47 handleSubmit *)
Definition handleSubmit (s : state) : M unit :=
  asking set_loading set_error (set_result None)
    (response ← await (checkEligibility "mock-election" (payload s));
     upd (set_result (Some response))).

Inductive ui := TypeName (v : string) | TypeDate (v : string) | SelectConstituency (v : string) | Submit | ClickRetry.

#[export] Instance ui_eq_dec : EqDecision ui. Proof. solve_decision. Defined.

(*@ dashboard/app/(public)/voter/eligibility/page.tsx 96 138 onChange/onSubmit/onRetry *)
Definition on_ui (u : ui) (s : state) : M unit :=
  match u with
  | TypeName v => upd (set_fullName v)
  | TypeDate v => upd (set_dateOfBirth v)
  | SelectConstituency v => upd (set_constituency v)
  | Submit => handleSubmit s
  | ClickRetry => upd (set_error None)
  end.

(** The page does not depend on its surroundings. *)
Inductive env := .

Definition on_surroundings (x : env) (s : state) : M unit := match x with end.

(*@ dashboard/app/(public)/voter/eligibility/page.tsx 49 56 getStatusIcon *)
Definition getStatusIcon (status : EligibilityStatus) : string :=
  match status with
  | ELIGIBLE => "CheckCircle"
  | NOT_ELIGIBLE => "XCircle"
  | NEEDS_REVIEW => "HelpCircle"
  end.

(*@ dashboard/app/(public)/voter/eligibility/page.tsx 58 65 getStatusColor *)
Definition getStatusColor (status : EligibilityStatus) : string :=
  match status with
  | ELIGIBLE => "success"
  | NOT_ELIGIBLE => "danger"
  | NEEDS_REVIEW => "warning"
  end.

Definition status_str (status : EligibilityStatus) : string :=
  match status with
  | ELIGIBLE => "ELIGIBLE"
  | NOT_ELIGIBLE => "NOT_ELIGIBLE"
  | NEEDS_REVIEW => "NEEDS_REVIEW"
  end.

(** The three fields are [required]; the list is validated by what it displays. *)
(*@ dashboard/app/(public)/voter/eligibility/page.tsx 106 141 required *)
Definition form_valid (s : state) : bool :=
  filled (fullName s) && filled (dateOfBirth s) && filled (displayed CONSTITUENCIES (constituency s)).

(*@ dashboard/app/(public)/voter/eligibility/page.tsx 101 152 form *)
Definition eligibility_form (s : state) : list (node ui) :=
  LibInput None None "Full Name" (fullName s) (loading s) (fun u => match u with TypeName _ => true | _ => false end)
  ++ LibInput None None "Date of Birth" (dateOfBirth s) (loading s) (fun u => match u with TypeDate _ => true | _ => false end)
  ++ LibSelect None None (displayed CONSTITUENCIES (constituency s)) CONSTITUENCIES (loading s) SelectConstituency
  ++ [Link "/voter" "Back"]
  ++ LibButton "Check Eligibility" (loading s) (loading s || negb (form_valid s)) Submit.

(*@ dashboard/app/(public)/voter/eligibility/page.tsx 155 178 result *)
Definition result_card (r : EligibilityCheckResponse) : list (node ui) :=
  [Box (getStatusColor (el_status r))
     ([Icon (getStatusIcon (el_status r)); Text "Eligibility Status";
       Badge (getStatusColor (el_status r)) (replace_first "_"%char " " (status_str (el_status r)))]
      ++ match el_reasons r with
         | [] => []
         | l => Text "Details:" :: map Text l
         end)].

(*@ dashboard/app/(public)/voter/eligibility/page.tsx 67 182 EligibilityCheckerPage *)
Definition render (s : state) : list (node ui) :=
  [Text "Eligibility Checker"; Text "Verify if you are eligible to vote in the upcoming elections.";
   Text "SIMULATED ELIGIBILITY CHECK"; Text "This tool simulates eligibility logic for educational purposes.";
   Text "Check Status"; Text "Enter your details to verify eligibility."]
  ++ match error s with
     | Some e => when (truthy_str e) (ErrorState "Check Failed" e (Some ClickRetry))
     | None => []
     end
  ++ eligibility_form s
  ++ match result s with Some r => result_card r | None => [] end.

Definition page : component state ui env := mk_component render on_ui on_surroundings.

End Eligibility.

Import Eligibility.

#[export] Hint Unfold on_ui on_surroundings handleSubmit : prog.

(** ** Controls *)

Lemma allows_result_card r u : allows (result_card r) u = false.
Proof.
  unfold result_card. rewrite allows_cons, allows_nil, fires_box, allows_app.
  destruct (el_reasons r) as [|x l]; [done |]. by rewrite (allows_cons (Text _)), allows_map_none by done.
Qed.

Lemma allows_eligibility s u :
  allows (render s) u
  = match u with
    | TypeName _ | TypeDate _ => negb (loading s)
    | SelectConstituency v => negb (loading s) && offers CONSTITUENCIES v
    | Submit => negb (loading s) && form_valid s
    | ClickRetry => truthy_opt (error s)
    end.
Proof.
  unfold render, eligibility_form, LibInput, LibSelect, labelled, LibButton. rewrite !allows_app.
  replace (allows match result s with Some r => _ | None => _ end u) with false
    by (destruct (result s); [by rewrite allows_result_card | done]).
  unfold ErrorState. destruct (error s) as [e|]; cbn [truthy_opt]; destruct u as [v|v|v| |];
    rewrite ?allows_when, ?allows_app, ?allows_cons, ?allows_nil; cbn [fires];
    rewrite ?select_offers by congruence; decide_eqs; tidy_bool;
    rewrite ?select_other by (intros; discriminate); tidy_bool; try done;
    by destruct (loading s); destruct (form_valid s).
Qed.

(** ** Requests *)

Definition Sends (s : state) (r : req) : Prop :=
  r = checkEligibility "mock-election" (payload s)
  /\ filled (fullName s) = true /\ filled (dateOfBirth s) = true.

Lemma eligibility_safe (Inv : state -> Prop) (P : event ui env -> Prop) :
  (forall s f, Inv s -> Inv (set_loading f s)) -> (forall s e, Inv s -> Inv (set_error e s)) ->
  (forall s r, Inv s -> Inv (set_result r s)) ->
  (forall u s, P (User u) -> Inv s -> allows (render s) u = true -> u <> Submit -> handles Inv Sends (on_ui u s) s) ->
  safe_component page Inv (fun s r => Sends s r /\ Inv s) P.
Proof.
  intros Hl He Hr Hu. split; [| by intros []].
  intros u s HP Hs Ha. change (allows (render s) u = true) in Ha. unfold page. cbn [on_user].
  destruct (decide (u = Submit)) as [->|Hne].
  - cbn [on_ui]. unfold handleSubmit. rewrite allows_eligibility in Ha. unfold form_valid in Ha. reflect_bool.
    apply asking_handles; [by auto | by auto | by auto |]. cbn.
    split_and!; [by auto | by repeat constructor; auto |]. intros [a|e] s' Hs'; cbn; auto.
  - specialize (Hu u s HP Hs Ha Hne). destruct u; cbn in *; auto; done.
Qed.

(** In every interleaving only the form of the page is asked about, with a name and a date. *)
Theorem eligibility_requests w s q :
  reachable page (fun _ => True) initial w -> In (s, q) (sent w) -> Sends s q.
Proof.
  intros Hw Hin.
  assert (safe_component page (fun _ => True) (fun s r => Sends s r /\ True) (fun _ => True)) as HC.
  { apply eligibility_safe; [done | done | done |]. by intros [] s' _ _ _. }
  destruct (reachable_good _ _ _ _ HC initial w I Hw) as [_ _ Hs]. by destruct (Forall_In _ _ _ Hs Hin).
Qed.

(** ** A list that was not touched *)

Definition untouched (x : event ui env) : Prop := forall v, x <> User (SelectConstituency v).

(** As long as the list is not touched, it displays North District, and every request has an
    empty constituency, which the backend does not accept. *)
Theorem eligibility_untouched_list w :
  reachable page untouched initial w ->
  displayed CONSTITUENCIES (constituency (st w)) = "North District"%string
  /\ forall s q, In (s, q) (sent w) ->
     exists name date, q = checkEligibility "mock-election"
       {| vf_name := name; vf_date_of_birth := date; vf_constituency := EmptyString |}.
Proof.
  intros Hw.
  assert (safe_component page (fun s => constituency s = EmptyString)
            (fun s r => Sends s r /\ constituency s = EmptyString) untouched) as HC.
  { apply eligibility_safe; [done | done | done |]. intros [v|v|v| |] s HP Hs Ha Hne; cbn; try done. by destruct (HP v). }
  destruct (reachable_good _ _ _ _ HC initial w eq_refl Hw) as [Hi _ Hs]. split; [by rewrite Hi |].
  intros s q Hin. destruct (Forall_In _ _ _ Hs Hin) as [(-> & _) Hc]. unfold payload. rewrite Hc. eauto.
Qed.

(** ** What is shown *)

(** A submitted form ends with the answer or with the reason there is none, never with the
    answer to an earlier question. *)
Theorem eligibility_checked w (f : forall r, outcome (resp r)) :
  tasks w = [] -> loading (st w) = false -> form_valid (st w) = true ->
  exists k w', run page w (User Submit :: replies f (fresh w) k) = Some w'
    /\ tasks w' = [] /\ loading (st w') = false
    /\ map snd (sent w') = map snd (sent w) ++ [checkEligibility "mock-election" (payload (st w))]
    /\ match f (checkEligibility "mock-election" (payload (st w))) with
       | Ok r => result (st w') = Some r /\ error (st w') = None
       | Err e => result (st w') = None /\ error (st w') = Some (FormatError.format_error e)
       end.
Proof.
  intros Ht Hl Hv.
  assert (allows (render (st w)) Submit = true) as Hu by (by rewrite allows_eligibility, Hl, Hv).
  destruct (f (checkEligibility "mock-election" (payload (st w)))) as [r|e] eqn:E;
    (edestruct (click_alone f page w Submit) as (k & w' & H1 & H2 & H3 & H4 & _);
      [done | exact Hu | unfold page; cbn [on_user on_ui]; unfold handleSubmit;
       erewrite asking_alone by (alone_auto; reflexivity); reflexivity |]);
    exists k, w'; rewrite H3, H4, map_app; by split_and!.
Qed.

(** A shown answer has the colour and the icon of its status, and all its reasons. *)
Theorem eligibility_reasons_shown s r x :
  result s = Some r -> In x (el_reasons r) -> shows (render s) x = true.
Proof.
  intros Hr Hx. unfold render. rewrite Hr, !shows_app. replace (shows (result_card r) x) with true; [by rewrite !orb_true_r |].
  unfold result_card. rewrite shows_cons, shows_box, shows_app. destruct (el_reasons r) as [|y l]; [done |].
  assert (shows (U := ui) (map Text (y :: l)) x = true) as Hl by by apply shows_texts.
  rewrite (shows_cons (Text "Details:"%string)), Hl. by rewrite !orb_true_r.
Qed.

(** ** The loading flag *)

Lemma eligibility_lowers : lowering_component page (fun _ => True) (fun _ => True) loading.
Proof.
  split; [| by intros []]. intros u s _ _ _. unfold lowers, page. cbn [on_user].
  destruct u; cbn [on_ui]; try (by split). unfold handleSubmit.
  apply asking_lowers; [done | timerless_auto].
Qed.

Theorem eligibility_not_left_loading w :
  reachable page (fun _ => True) initial w -> idle w = true -> loading (st w) = false.
Proof. intros Hw Hi. by eapply never_left_busy; [apply eligibility_lowers | | exact Hw | exact Hi]. Qed.

(** ** Concrete runs *)

Definition answering : forall r, outcome (resp r) :=
  fun r => match r as r return outcome (resp r) with
           | checkEligibility _ data =>
               if String.eqb (vf_constituency data) ""
               then Err (plain_error "ApiError" "constituency: String should have at least 2 characters")
               else Ok {| el_status := NOT_ELIGIBLE; el_reasons := ["Underage"]; el_voter_id := None; el_notice := "" |}
           | _ => Err (plain_error "Error" "offline")
           end.

Definition typing : list (event ui env) := [User (TypeName "Jane Doe"); User (TypeDate "2015-01-01")].

Definition typed : world state := default (boot initial) (run page (boot initial) typing).

Lemma typed_reachable : reachable page untouched initial typed.
Proof. apply reachable_default; [apply reach_boot | by repeat constructor]. Qed.

Definition submitted : world state := default typed (run page typed [User Submit]).

Lemma submitted_reachable : reachable page untouched initial submitted.
Proof. apply reachable_default; [apply typed_reachable | by repeat constructor]. Qed.

Lemma reachable_weaken P w : reachable page P initial w -> reachable page (fun _ => True) initial w.
Proof. induction 1; [apply reach_boot | by eapply reach_step]. Qed.

Lemma eligibility_requests_witness :
  Forall (fun '(s, q) => Sends s q) (sent submitted) /\ List.length (sent submitted) = 1%nat.
Proof.
  split; [| by vm_compute]. apply Forall_forall. intros [s q] Hin%list_elem_of_In.
  exact (eligibility_requests submitted s q (reachable_weaken _ _ submitted_reachable) Hin).
Defined.

Lemma eligibility_untouched_list_witness :
  displayed CONSTITUENCIES (constituency (st submitted)) = "North District"%string.
Proof. exact (proj1 (eligibility_untouched_list submitted submitted_reachable)). Defined.

Lemma eligibility_checked_witness :
  exists k w', run page typed (User Submit :: replies answering (fresh typed) k) = Some w'
    /\ error (st w') = Some (FormatError.format_error (plain_error "ApiError" "constituency: String should have at least 2 characters")).
Proof.
  destruct (eligibility_checked typed answering) as (k & w' & H1 & _ & _ & _ & _ & H2);
    [reflexivity | reflexivity | reflexivity |]. by exists k, w'.
Defined.

Lemma eligibility_reasons_shown_witness :
  shows (render (set_result (Some {| el_status := NOT_ELIGIBLE; el_reasons := ["Underage"]; el_voter_id := None;
                                     el_notice := "" |}) initial)) "Underage" = true.
Proof. eapply eligibility_reasons_shown; [reflexivity | by left]. Defined.

Lemma eligibility_not_left_loading_witness : loading (st typed) = false.
Proof.
  apply eligibility_not_left_loading; [apply (reachable_weaken _ _ typed_reachable) | by vm_compute].
Defined.
