(* ===== verification/Registration.v ===== *)
(** * Registration of a voter: [app/(public)/voter/register/page.tsx]

    The form of the eligibility check, sent to another endpoint, and the page that gives the
    number. What is sent has no credentials, although registering is the administrators'. *)
From S2P Require Import Prelude JsValue JsNumber FormatError Types ApiClient View React Alone Spinner Common Officer Portal.
From Stdlib Require Import String.

Module Registration.

(*@ dashboard/app/(public)/voter/register/page.tsx 13 19 CONSTITUENCIES *)
Definition CONSTITUENCIES : list (string * string) :=
  [("North District", "North District"); ("South District", "South District");
   ("East District", "East District"); ("West District", "West District");
   ("Central District", "Central District")]%string.

(** [location] is where the page has sent the browser. *)
(*@ dashboard/app/(public)/voter/register/page.tsx 21 29 RegisterVoterPage *)
Record state := mk_state {
  fullName : string;
  dateOfBirth : string;
  constituency : string;
  loading : bool;
  error : option string;
  successData : option string;
  location : option string }.

Definition set_fullName (v : string) (s : state) : state :=
  mk_state v (dateOfBirth s) (constituency s) (loading s) (error s) (successData s)
    (location s).
Definition set_dateOfBirth (v : string) (s : state) : state :=
  mk_state (fullName s) v (constituency s) (loading s) (error s) (successData s) (location s).
Definition set_constituency (v : string) (s : state) : state :=
  mk_state (fullName s) (dateOfBirth s) v (loading s) (error s) (successData s) (location s).
Definition set_loading (v : bool) (s : state) : state :=
  mk_state (fullName s) (dateOfBirth s) (constituency s) v (error s) (successData s)
    (location s).
Definition set_error (v : option string) (s : state) : state :=
  mk_state (fullName s) (dateOfBirth s) (constituency s) (loading s) v (successData s)
    (location s).
Definition set_successData (v : option string) (s : state) : state :=
  mk_state (fullName s) (dateOfBirth s) (constituency s) (loading s) (error s) v (location s).
Definition set_location (v : option string) (s : state) : state :=
  mk_state (fullName s) (dateOfBirth s) (constituency s) (loading s) (error s) (successData s)
    v.

(*@ dashboard/app/(public)/voter/register/page.tsx 21 29 RegisterVoterPage *)
Definition initial : state := mk_state "" "" "" false None None None.

Abbreviation M := (prog state).

(*@ dashboard/app/(public)/voter/register/page.tsx 37 37 payload *)
Definition payload (s : state) : voter_form :=
  {| vf_name := fullName s; vf_date_of_birth := dateOfBirth s; vf_constituency := constituency s |}.

(*@ dashboard/app/(public)/voter/register/page.tsx 31 45 handleSubmit *)
Definition handleSubmit (s : state) : M unit :=
  asking set_loading set_error id
    (response ← await (registerVoter "mock-election" (payload s) (Some ""%string));
     upd (set_successData (Some (vr_voter_id_number response)))).

(*@ dashboard/app/(public)/voter/register/page.tsx 47 51 resetForm *)
Definition resetForm : M unit :=
  upd (fun s => set_fullName "" (set_dateOfBirth "" (set_constituency "" s)));;
  upd (set_successData None);;
  upd (set_error None).

Inductive ui :=
| TypeName (v : string) | TypeDate (v : string) | SelectConstituency (v : string) | Submit | ClickRetry
| ClickAnother | ClickReturn.

#[export] Instance ui_eq_dec : EqDecision ui. Proof. solve_decision. Defined.

(*@ dashboard/app/(public)/voter/register/page.tsx 74 153 onClick/onChange/onSubmit/onRetry *)
Definition on_ui (u : ui) (s : state) : M unit :=
  match u with
  | TypeName v => upd (set_fullName v)
  | TypeDate v => upd (set_dateOfBirth v)
  | SelectConstituency v => upd (set_constituency v)
  | Submit => handleSubmit s
  | ClickRetry => upd (set_error None)
  | ClickAnother => resetForm
  | ClickReturn => upd (set_location (Some "/voter"%string))
  end.

(** The page does not depend on its surroundings. *)
Inductive env := .

Definition on_surroundings (x : env) (s : state) : M unit := match x with end.

(** The three fields are [required]; the list is validated by what it displays. *)
(*@ dashboard/app/(public)/voter/register/page.tsx 120 155 required *)
Definition form_valid (s : state) : bool :=
  filled (fullName s) && filled (dateOfBirth s) && filled (displayed CONSTITUENCIES (constituency s)).

(*@ dashboard/app/(public)/voter/register/page.tsx 115 166 form *)
Definition registration_form (s : state) : list (node ui) :=
  LibInput None None "Full Name" (fullName s) (loading s) (fun u => match u with TypeName _ => true | _ => false end)
  ++ LibInput None None "Date of Birth" (dateOfBirth s) (loading s) (fun u => match u with TypeDate _ => true | _ => false end)
  ++ LibSelect None None (displayed CONSTITUENCIES (constituency s)) CONSTITUENCIES (loading s) SelectConstituency
  ++ [Link "/voter" "Cancel"]
  ++ LibButton "Submit Registration" (loading s) (loading s || negb (form_valid s)) Submit.

(*@ dashboard/app/(public)/voter/register/page.tsx 53 80 successData *)
Definition success_page (voterId : string) : list (node ui) :=
  [Text "Registration Successful"; Text "Your synthetic voter registration is complete.";
   Text "Your Voter ID Number"; Text voterId; Text "Please save this ID for tracking and voting."]
  ++ LibButton "Register Another" false false ClickAnother
  ++ LibButton "Return to Portal" false false ClickReturn.

(*@ dashboard/app/(public)/voter/register/page.tsx 53 170 RegisterVoterPage *)
Definition render (s : state) : list (node ui) :=
  match successData s with
  | Some voterId => success_page voterId
  | None =>
      [Text "Voter Registration"; Text "Register as a synthetic voter for the SecureVOTE prototype.";
       Text "SIMULATED REGISTRATION";
       Text "This form generates a mock Voter ID for educational purposes. Do not enter real PII.";
       Text "Registration Form"; Text "Enter details to generate your voter profile."]
      ++ match error s with
         | Some e => when (truthy_str e) (ErrorState "Registration Failed" e (Some ClickRetry))
         | None => []
         end
      ++ registration_form s
  end.

Definition page : component state ui env := mk_component render on_ui on_surroundings.

End Registration.

Import Registration.

#[export] Hint Unfold on_ui on_surroundings handleSubmit resetForm : prog.

(** ** Controls *)

Lemma allows_registration s u :
  allows (render s) u
  = match successData s with
    | Some _ => match u with ClickAnother | ClickReturn => true | _ => false end
    | None => match u with
              | TypeName _ | TypeDate _ => negb (loading s)
              | SelectConstituency v => negb (loading s) && offers CONSTITUENCIES v
              | Submit => negb (loading s) && form_valid s
              | ClickRetry => truthy_opt (error s)
              | ClickAnother | ClickReturn => false
              end
    end.
Proof.
  unfold render. destruct (successData s) as [n|].
  - unfold success_page, LibButton. destruct u; read_page; done.
  - unfold registration_form, LibInput, LibSelect, labelled, LibButton, ErrorState.
    destruct (error s) as [e|]; cbn [truthy_opt]; destruct u as [v|v|v| | | |];
    rewrite !allows_app, ?allows_when, ?allows_app, ?allows_cons, ?allows_nil; cbn [fires];
    rewrite ?select_offers by congruence; decide_eqs; tidy_bool;
    rewrite ?select_other by (intros; discriminate); tidy_bool; try done;
    by destruct (loading s); destruct (form_valid s).
Qed.

(** ** Requests *)

Definition Sends (s : state) (r : req) : Prop :=
  r = registerVoter "mock-election" (payload s) (Some ""%string)
  /\ filled (fullName s) = true /\ filled (dateOfBirth s) = true.

Lemma registration_safe : safe_component page (fun _ => True) Sends (fun _ => True).
Proof.
  split; [| by intros []].
  intros u s _ _ Ha. change (allows (render s) u = true) in Ha. unfold page. cbn [on_user].
  destruct u; try done. cbn [on_ui]. unfold handleSubmit. rewrite allows_registration in Ha.
  destruct (successData s); [done |]. unfold form_valid in Ha. reflect_bool.
  apply asking_handles; [done | done | done |]. cbn.
  split_and!; [done | by repeat constructor; auto |]. by intros [a|e] s' Hs'.
Qed.

(** In every interleaving only the form of the page is sent, with a name and a date, and
    without credentials, although registering a voter needs an administrator's. *)
Theorem registration_requests w s q base :
  reachable page (fun _ => True) initial w -> In (s, q) (sent w) ->
  Sends s q /\ hr_headers (http_request_of base q) !! "Authorization"%string = None.
Proof.
  intros Hw Hin. destruct (reachable_good _ _ _ _ registration_safe initial w I Hw) as [_ _ Hs].
  pose proof (Forall_In _ _ _ Hs Hin) as Hq. split; [exact Hq |].
  destruct Hq as [-> _]. by destruct (authorization_header base (registerVoter "mock-election" (payload s) (Some ""%string))) as [-> _].
Qed.

(** ** What is shown *)

(** A submitted form ends with the number the backend gave, or with the reason there is none
    and the form as it was. *)
Theorem registered w (f : forall r, outcome (resp r)) :
  tasks w = [] -> allows (render (st w)) Submit = true ->
  let q := registerVoter "mock-election" (payload (st w)) (Some ""%string) in
  exists k w', run page w (User Submit :: replies f (fresh w) k) = Some w'
    /\ tasks w' = [] /\ loading (st w') = false /\ payload (st w') = payload (st w)
    /\ match f q with
       | Ok r => render (st w') = success_page (vr_voter_id_number r)
       | Err e => successData (st w') = None /\ error (st w') = Some (FormatError.format_error e)
       end.
Proof.
  intros Ht Hu q.
  assert (successData (st w) = None) as Hn by (rewrite allows_registration in Hu; by destruct (successData (st w))).
  unfold q. destruct (f (registerVoter "mock-election" (payload (st w)) (Some ""%string))) as [r|e] eqn:E;
    (edestruct (click_alone f page w Submit) as (k & w' & H1 & H2 & H3 & H4 & _);
      [done | exact Hu | unfold page; cbn [on_user on_ui]; unfold handleSubmit;
       erewrite asking_alone by (alone_auto; reflexivity); reflexivity |]);
    exists k, w'; rewrite H3; by split_and!.
Qed.

(** Registering another voter starts from an empty form. *)
Theorem registration_reset w :
  tasks w = [] -> allows (render (st w)) ClickAnother = true ->
  exists w', run page w [User ClickAnother] = Some w' /\ tasks w' = []
    /\ st w' = set_location (location (st w)) (set_loading (loading (st w)) initial).
Proof.
  intros Ht Hu. eexists. split; [cbn [run step]; unfold step; cbn [React.render page]; rewrite Hu; reflexivity |].
  destruct w as [s n fr ts snt unc]. by destruct s.
Qed.

(** ** The loading flag *)

Lemma registration_lowers : lowering_component page (fun _ => True) (fun _ => True) loading.
Proof.
  split; [| by intros []]. intros u s _ _ _. unfold lowers, page. cbn [on_user].
  destruct u; cbn [on_ui]; try (by split). unfold handleSubmit.
  apply asking_lowers; [done | timerless_auto].
Qed.

Theorem registration_not_left_loading w :
  reachable page (fun _ => True) initial w -> idle w = true -> loading (st w) = false.
Proof. intros Hw Hi. by eapply never_left_busy; [apply registration_lowers | | exact Hw | exact Hi]. Qed.

(** ** Concrete runs *)

(** A backend that registers whoever has a constituency. *)
Definition registrar : forall r, outcome (resp r) :=
  fun r => match r as r return outcome (resp r) with
           | registerVoter e data _ =>
               if String.eqb (vf_constituency data) ""
               then Err (plain_error "ApiError" "Not authenticated")
               else Ok {| vr_id := "1"; vr_election_id := e; vr_voter_id_number := "VTR-1"; vr_name := vf_name data;
                          vr_date_of_birth := vf_date_of_birth data; vr_constituency := vf_constituency data;
                          vr_polling_station_id := None; vr_eligibility_status := "PENDING";
                          vr_registration_status := "REGISTERED"; vr_has_voted := false;
                          vr_registered_at := "2026-01-01T00:00:00Z" |}
           | _ => Err (plain_error "Error" "offline")
           end.

Definition typed : world state :=
  default (boot initial) (run page (boot initial)
    [User (TypeName "Jane Doe"); User (TypeDate "1990-01-01"); User (SelectConstituency "South District")]).

Lemma registration_typed_reachable : reachable page (fun _ => True) initial typed.
Proof. apply reachable_default; [apply reach_boot | by repeat constructor]. Qed.

Definition submitted : world state := default typed (run page typed [User Submit]).

Lemma registration_requests_witness :
  Forall (fun '(s, q) => hr_headers (http_request_of "" q) !! "Authorization"%string = None) (sent submitted)
  /\ List.length (sent submitted) = 1%nat.
Proof.
  split; [| by vm_compute]. apply Forall_forall. intros [s q] Hin%list_elem_of_In.
  refine (proj2 (registration_requests submitted s q "" _ Hin)).
  apply reachable_default; [apply registration_typed_reachable | by repeat constructor].
Defined.

Lemma registered_witness :
  exists k w', run page typed (User Submit :: replies registrar (fresh typed) k) = Some w'
    /\ render (st w') = success_page "VTR-1".
Proof.
  destruct (registered typed registrar) as (k & w' & H1 & _ & _ & _ & H2); [reflexivity | by vm_compute |].
  exists k, w'. split; [exact H1 |]. exact H2.
Defined.

Definition done_world : world state :=
  default typed (run page typed [User Submit; Reply 0 (answers registrar)]).

Lemma registration_reset_witness :
  exists w', run page done_world [User ClickAnother] = Some w' /\ st w' = initial.
Proof.
  destruct (registration_reset done_world) as (w' & H1 & _ & H2); [reflexivity | by vm_compute |].
  exists w'. split; [exact H1 |]. rewrite H2. by vm_compute.
Defined.

Lemma registration_not_left_loading_witness : loading (st typed) = false.
Proof. apply registration_not_left_loading; [apply registration_typed_reachable | by vm_compute]. Defined.
