(* ===== verification/VoterStatus.v ===== *)
(** * Voting status: [app/(public)/voter/status/page.tsx]

    Looking up a voter by number. What is asked and what is left by an answer; and that,
    with the keys a voter's record declares, nobody has ever voted. *)
From S2P Require Import Prelude JsValue JsNumber FormatError Types ApiClient View React Alone Spinner Common Officer Portal.
From Stdlib Require Import String.

Module VoterStatus.

(*@ dashboard/app/(public)/voter/status/page.tsx 13 17 VotingStatusPage *)
Record state := mk_state {
  voterId : string;
  loading : bool;
  error : option string;
  voterData : option VoterResponse }.

Definition set_voterId (v : string) (s : state) : state :=
  mk_state v (loading s) (error s) (voterData s).
Definition set_loading (v : bool) (s : state) : state :=
  mk_state (voterId s) v (error s) (voterData s).
Definition set_error (v : option string) (s : state) : state :=
  mk_state (voterId s) (loading s) v (voterData s).
Definition set_voterData (v : option VoterResponse) (s : state) : state :=
  mk_state (voterId s) (loading s) (error s) v.

(*@ dashboard/app/(public)/voter/status/page.tsx 13 17 VotingStatusPage *)
Definition initial : state := mk_state "" false None None.

Abbreviation M := (prog state).

(*@ dashboard/app/(public)/voter/status/page.tsx 19 36 handleSearch *)
Definition handleSearch (s : state) : M unit :=
  if negb (truthy_str (trim (voterId s))) then mret tt
  else asking set_loading set_error (set_voterData None)
         (response ← await (lookupVoter "mock-election" (voterId s));
          upd (set_voterData (Some response))).

Inductive ui := TypeVoterId (v : string) | Submit | ClickRetry.

#[export] Instance ui_eq_dec : EqDecision ui. Proof. solve_decision. Defined.

(*@ dashboard/app/(public)/voter/status/page.tsx 47 69 onChange/onSubmit/onRetry *)
Definition on_ui (u : ui) (s : state) : M unit :=
  match u with
  | TypeVoterId v => upd (set_voterId v)
  | Submit => handleSearch s
  | ClickRetry => upd (set_error None)
  end.

(** The page does not depend on its surroundings. *)
Inductive env := .

Definition on_surroundings (x : env) (s : state) : M unit := match x with end.

Section Page.

(** What the answer has under the keys its declared type does not have: registrationStatus,
    eligibility, hasVoted and voteReference. *)
Context (undeclared : VoterResponse -> string -> value).

(** [v || d] as the child of an element. *)
Definition child_or (v : value) (d : string) : string := if truthy v then child v else d.

Definition is_string (v : value) (s : string) : bool :=
  match v with VStr t => String.eqb t s | _ => false end.

(*@ dashboard/app/(public)/voter/status/page.tsx 74 106 voterData *)
Definition profile_card (v : VoterResponse) : list (node ui) :=
  [Text "Voter Profile"; Text "Name"; Text (str_or (vr_name v) "Unknown");
   Text "Constituency"; Text (str_or (vr_constituency v) "Unknown"); Text "Registration";
   Badge (if is_string (undeclared v "registrationStatus") "ACTIVE" then "success" else "neutral")
     (child_or (undeclared v "registrationStatus") "PENDING");
   Text "Eligibility";
   Badge (if is_string (undeclared v "eligibility") "ELIGIBLE" then "success" else "warning")
     (child_or (undeclared v "eligibility") "UNKNOWN")].

(*@ dashboard/app/(public)/voter/status/page.tsx 108 140 voterData *)
Definition voting_record (v : VoterResponse) : list (node ui) :=
  [Box (if truthy (undeclared v "hasVoted") then "emerald" else "slate")
     (Text "Voting Record"
      :: (if truthy (undeclared v "hasVoted")
          then [Text "VOTE RECORDED"; Text "Your vote has been securely logged.";
                Text "Transaction Reference (Tamper-evident log)"; Text (child_or (undeclared v "voteReference") "N/A");
                Text "* Selection details remain strictly private."]
          else [Text "NO VOTE RECORDED YET"; Text "You have not cast a vote in the active election."]))].

(*@ dashboard/app/(public)/voter/status/page.tsx 38 145 VotingStatusPage *)
Definition render (s : state) : list (node ui) :=
  [Text "Voting Status"; Text "Track your registration and check your voting record."]
  ++ LibInput None None "Enter Voter ID (e.g., VTR-12345)" (voterId s) (loading s)
       (fun u => match u with TypeVoterId _ => true | _ => false end)
  ++ LibButton "Lookup" (loading s) (loading s || negb (truthy_str (trim (voterId s)))) Submit
  ++ match error s with
     | Some e => when (truthy_str e) (ErrorState "Lookup Failed" e (Some ClickRetry))
     | None => []
     end
  ++ match voterData s with Some v => profile_card v ++ voting_record v | None => [] end.

Definition page : component state ui env := mk_component render on_ui on_surroundings.
End Page.

End VoterStatus.

Import VoterStatus.

#[export] Hint Unfold on_ui on_surroundings handleSearch : prog.

Section Facts.
Context (undeclared : VoterResponse -> string -> value).

Abbreviation app := (page undeclared).

(** ** Controls *)

Lemma allows_voter_status s u :
  allows (render undeclared s) u
  = match u with
    | TypeVoterId _ => negb (loading s)
    | Submit => negb (loading s) && truthy_str (trim (voterId s))
    | ClickRetry => truthy_opt (error s)
    end.
Proof.
  unfold render, LibInput, labelled, LibButton, ErrorState.
  replace (allows _ u) with
    (allows ([Text "Voting Status"; Text "Track your registration and check your voting record.";
       Field "Enter Voter ID (e.g., VTR-12345)" (voterId s) (loading s)
         (fun u => match u with TypeVoterId _ => true | _ => false end);
       Button "Lookup" ((loading s || negb (truthy_str (trim (voterId s)))) || loading s) Submit]
      ++ match error s with
         | Some e => when (truthy_str e) ([Icon "AlertTriangle"; Text "Lookup Failed"; Text e] ++ [Button "Try Again" false ClickRetry])
         | None => [] end) u).
  - destruct (error s) as [e|]; cbn [truthy_opt]; destruct u; rewrite ?allows_app, ?allows_when, ?allows_app, ?allows_cons, ?allows_nil;
      cbn [fires]; decide_eqs; tidy_bool; try done; by destruct (loading s), (truthy_str (trim (voterId s))).
  - rewrite !allows_app. unfold profile_card, voting_record.
    destruct (voterData s) as [v|]; [| by rewrite !allows_cons, !allows_nil, !orb_false_r, !orb_assoc].
    rewrite allows_app, !allows_cons, !allows_nil, fires_box, allows_cons. cbn [fires orb].
    destruct (truthy (undeclared v "hasVoted")); cbn; by rewrite !orb_false_r, ?orb_assoc.
Qed.

(** ** Requests *)

Lemma voter_status_safe :
  safe_component app (fun _ => True)
    (fun s q => q = lookupVoter "mock-election" (voterId s) /\ trim (voterId s) <> EmptyString) (fun _ => True).
Proof.
  split; [| by intros []].
  intros u s _ _ Ha. unfold page. cbn [on_user]. destruct u; try done. cbn [on_ui]. unfold handleSearch.
  destruct (truthy_str (trim (voterId s))) eqn:E; [| done]. cbn [negb].
  apply asking_handles; [done | done | done |]. cbn. split_and!; [done | | by intros [a|e] s' Hs'].
  repeat constructor. intros Hn. change (trim (voterId s) = EmptyString) in Hn. by rewrite Hn in E.
Qed.

(** ** What is shown *)

(** A lookup ends with the record or with the reason there is none, never with the record of
    an earlier lookup. *)
Theorem voter_status_looked_up w (f : forall r, outcome (resp r)) :
  tasks w = [] -> allows (render undeclared (st w)) Submit = true ->
  exists k w', run app w (User Submit :: replies f (fresh w) k) = Some w'
    /\ tasks w' = [] /\ loading (st w') = false
    /\ match f (lookupVoter "mock-election" (voterId (st w))) with
       | Ok r => voterData (st w') = Some r /\ error (st w') = None
       | Err e => voterData (st w') = None /\ error (st w') = Some (FormatError.format_error e)
       end.
Proof.
  intros Ht Hu. assert (truthy_str (trim (voterId (st w))) = true) as Hid.
  { rewrite allows_voter_status in Hu. by apply andb_true_iff in Hu as [_ Hu]. }
  destruct (f (lookupVoter "mock-election" (voterId (st w)))) as [r|e] eqn:E;
    (edestruct (click_alone f app w Submit) as (k & w' & H1 & H2 & H3 & H4 & _);
      [done | exact Hu | unfold page; cbn [on_user on_ui]; unfold handleSearch; rewrite Hid; cbn [negb];
       erewrite asking_alone by (alone_auto; reflexivity); reflexivity |]);
    exists k, w'; rewrite H3; by split_and!.
Qed.

(** Whoever is looked up: without the undeclared keys the registration is pending, the
    eligibility unknown, and no vote was recorded, also of a voter whose record says they
    have voted. *)
Theorem voter_status_never_voted s v :
  voterData s = Some v ->
  (forall k, In k ["registrationStatus"; "eligibility"; "hasVoted"]%string -> undeclared v k = VUndef) ->
  shows (render undeclared s) "NO VOTE RECORDED YET" = true
  /\ shows (render undeclared s) "PENDING" = true /\ shows (render undeclared s) "UNKNOWN" = true.
Proof.
  intros Hv Hk. unfold render. rewrite Hv, !shows_app. unfold profile_card, voting_record.
  rewrite !Hk by (cbn; auto). cbn. by rewrite !orb_true_r.
Qed.

(** ** The loading flag *)

Lemma voter_status_lowers : lowering_component app (fun _ => True) (fun _ => True) loading.
Proof.
  split; [| by intros []]. intros u s _ _ _. unfold lowers, page. cbn [on_user].
  destruct u; cbn [on_ui]; try (by split). unfold handleSearch. destruct (negb _); [by split |].
  apply asking_lowers; [done | timerless_auto].
Qed.

Theorem voter_status_not_left_loading w :
  reachable app (fun _ => True) initial w -> idle w = true -> loading (st w) = false.
Proof. intros Hw Hi. by eapply never_left_busy; [apply voter_status_lowers | | exact Hw | exact Hi]. Qed.
End Facts.

(** In every interleaving only the typed number is asked for, and never a blank one; the
    white space around it is sent too. *)
Theorem voter_status_requests undeclared w s q :
  reachable (page undeclared) (fun _ => True) initial w -> In (s, q) (sent w) ->
  q = lookupVoter "mock-election" (voterId s) /\ trim (voterId s) <> EmptyString.
Proof.
  intros Hw Hin. destruct (reachable_good _ _ _ _ (voter_status_safe undeclared) initial w I Hw) as [_ _ Hs].
  exact (Forall_In _ _ _ Hs Hin).
Qed.

(** ** Concrete runs *)

Definition declared_only : VoterResponse -> string -> value := fun _ _ => VUndef.

(** A voter who has voted. *)
Definition a_voter : VoterResponse :=
  {| vr_id := "1"; vr_election_id := "E1"; vr_voter_id_number := "VTR-1"; vr_name := "Jane Doe";
     vr_date_of_birth := "1990-01-01"; vr_constituency := "North"; vr_polling_station_id := None;
     vr_eligibility_status := "ELIGIBLE"; vr_registration_status := "VERIFIED"; vr_has_voted := true;
     vr_registered_at := "2026-01-01T00:00:00Z" |}.

Definition register_of : forall r, outcome (resp r) :=
  fun r => match r as r return outcome (resp r) with
           | lookupVoter _ i =>
               if String.eqb i "VTR-1" then Ok a_voter else Err (plain_error "ApiError" "Voter not found")
           | _ => Err (plain_error "Error" "offline")
           end.

Definition status_typed (v : string) : world state :=
  default (boot initial) (run (page declared_only) (boot initial) [User (TypeVoterId v)]).

Lemma status_typed_reachable v : reachable (page declared_only) (fun _ => True) initial (status_typed v).
Proof. apply reachable_default; [apply reach_boot | by repeat constructor]. Qed.

Lemma voter_status_requests_witness :
  let w := default (status_typed " VTR-1") (run (page declared_only) (status_typed " VTR-1") [User Submit]) in
  Forall (fun '(s, q) => q = lookupVoter "mock-election" (voterId s)) (sent w) /\ List.length (sent w) = 1%nat.
Proof.
  intros w. split; [| by vm_compute]. apply Forall_forall. intros [s q] Hin%list_elem_of_In.
  refine (proj1 (voter_status_requests declared_only w s q _ Hin)).
  apply reachable_default; [apply status_typed_reachable | by repeat constructor].
Defined.

(** A number with a space before it is not found. *)
Lemma voter_status_looked_up_witness :
  exists k w', run (page declared_only) (status_typed " VTR-1") (User Submit :: replies register_of (fresh (status_typed " VTR-1")) k) = Some w'
    /\ voterData (st w') = None
    /\ error (st w') = Some (FormatError.format_error (plain_error "ApiError" "Voter not found")).
Proof.
  destruct (voter_status_looked_up declared_only (status_typed " VTR-1") register_of) as (k & w' & H1 & _ & _ & H2);
    [reflexivity | by vm_compute |]. exists k, w'. split; [exact H1 |]. exact H2.
Defined.

Lemma voter_status_never_voted_witness :
  vr_has_voted a_voter = true
  /\ shows (render declared_only (set_voterData (Some a_voter) initial)) "NO VOTE RECORDED YET" = true.
Proof.
  split; [done |].
  refine (proj1 (voter_status_never_voted declared_only (set_voterData (Some a_voter) initial) a_voter _ _));
    [reflexivity | by intros k _].
Defined.

Lemma voter_status_not_left_loading_witness : loading (st (status_typed "VTR-1")) = false.
Proof.
  apply (voter_status_not_left_loading declared_only); [apply status_typed_reachable | by vm_compute].
Defined.
