(* ===== verification/VoterRoll.v ===== *)
(** * The electoral roll: [app/(public)/voter/roll/page.tsx]

    Five made-up voters, to which lookups of real ones are added, and a filter. The roll has
    no number twice, whatever is looked up and in whatever order the answers come; what a
    lookup leaves; and two ways in which a record that was found is not shown. *)
From S2P Require Import Prelude JsValue JsNumber FormatError Types ApiClient View React Alone Spinner Common ActiveElection Officer Portal.
From Stdlib Require Import String.

Module VoterRoll.

Definition demo_voter (loaded_at i number name born constituency station : string) (voted : bool) : VoterResponse :=
  {| vr_id := i; vr_election_id := "EV-2026-001"; vr_voter_id_number := number; vr_name := name;
     vr_date_of_birth := born; vr_constituency := constituency; vr_polling_station_id := Some station;
     vr_eligibility_status := "ELIGIBLE"; vr_registration_status := "VERIFIED"; vr_has_voted := voted;
     vr_registered_at := loaded_at |}.

(** [loaded_at] is the time at which the module was loaded. *)
(*@ dashboard/app/(public)/voter/roll/page.tsx 23 89 DEMO_VOTERS *)
Definition DEMO_VOTERS (loaded_at : string) : list VoterResponse :=
  [demo_voter loaded_at "1" "VTR-00101" "Aarav Sharma" "1994-05-12" "Bengaluru Central (Karnataka)" "PS-001" true;
   demo_voter loaded_at "2" "VTR-00102" "Meera Patel" "1988-11-23" "Mumbai South (Maharashtra)" "PS-002" false;
   demo_voter loaded_at "3" "VTR-00103" "Rohan Iyer" "2001-02-17" "New Delhi (NCT)" "PS-003" false;
   demo_voter loaded_at "4" "VTR-00104" "Pooja Verma" "1997-09-30" "Varanasi (Uttar Pradesh)" "PS-001" true;
   demo_voter loaded_at "5" "VTR-00105" "Debashis Banerjee" "1985-07-14" "Kolkata Dakshin (West Bengal)" "PS-004" false].

(*@ dashboard/app/(public)/voter/roll/page.tsx 91 97 ElectoralRollPage *)
Record state := mk_state {
  election : option ActiveElection.ActiveElection;
  voters : list VoterResponse;
  searchQuery : string;
  selectedConstituency : string;
  loading : bool;
  lookupNotice : option string }.

Definition set_election (v : option ActiveElection.ActiveElection) (s : state) : state :=
  mk_state v (voters s) (searchQuery s) (selectedConstituency s) (loading s) (lookupNotice s).
Definition set_voters (v : list VoterResponse) (s : state) : state :=
  mk_state (election s) v (searchQuery s) (selectedConstituency s) (loading s) (lookupNotice s).
Definition set_searchQuery (v : string) (s : state) : state :=
  mk_state (election s) (voters s) v (selectedConstituency s) (loading s) (lookupNotice s).
Definition set_selectedConstituency (v : string) (s : state) : state :=
  mk_state (election s) (voters s) (searchQuery s) v (loading s) (lookupNotice s).
Definition set_loading (v : bool) (s : state) : state :=
  mk_state (election s) (voters s) (searchQuery s) (selectedConstituency s) v (lookupNotice s).
Definition set_lookupNotice (v : option string) (s : state) : state :=
  mk_state (election s) (voters s) (searchQuery s) (selectedConstituency s) (loading s) v.

(*@ dashboard/app/(public)/voter/roll/page.tsx 91 97 ElectoralRollPage *)
Definition initial (loaded_at : string) : state :=
  mk_state None (DEMO_VOTERS loaded_at) "" "ALL" false None.

Abbreviation M := (prog state).

(*@ dashboard/app/(public)/voter/roll/page.tsx 111 111 elId *)
Definition elId (s : state) : string :=
  opt_or (option_map ActiveElection.ae_id (election s)) "EV-2026-001".

(*@ dashboard/app/(public)/voter/roll/page.tsx 114 117 setVoters *)
Definition add_live (result : VoterResponse) (prev : list VoterResponse) : list VoterResponse :=
  if existsb (fun v => String.eqb (vr_voter_id_number v) (vr_voter_id_number result)) prev
  then prev else result :: prev.

(** The answer is a voter, never null, so that [if (result)] holds. *)
(*@ dashboard/app/(public)/voter/roll/page.tsx 102 125 handleLookup *)
Definition handleLookup (s : state) : M unit :=
  let q := trim (searchQuery s) in
  if negb (truthy_str q) then upd (set_lookupNotice None)
  else
    upd (set_loading true);;
    upd (set_lookupNotice None);;
    finally
      (try_catch
         (result ← await (lookupVoter (elId s) q);
          upd (fun s => set_voters (add_live result (voters s)) s);;
          upd (set_lookupNotice (Some ("Live record found for " ++s vr_name result ++s " ("
                                       ++s vr_voter_id_number result ++s ")"))))
         (fun _ => upd (set_lookupNotice (Some ("No backend database record found for " ++s quote ++s q ++s quote
                                                ++s ". Filtered local demonstrator roll.")))))
      (upd (set_loading false)).

Inductive ui := TypeQuery (v : string) | PressEnter | ClickLookup | SelectConstituency (v : string) | ClickDismiss.

#[export] Instance ui_eq_dec : EqDecision ui. Proof. solve_decision. Defined.

(*@ dashboard/app/(public)/voter/roll/page.tsx 165 203 onChange/onKeyDown/onClick *)
Definition on_ui (u : ui) (s : state) : M unit :=
  match u with
  | TypeQuery v => upd (set_searchQuery v)
  | PressEnter | ClickLookup => handleLookup s
  | SelectConstituency v => upd (set_selectedConstituency v)
  | ClickDismiss => upd (set_lookupNotice None)
  end.

(** The election of the hook. *)
Inductive env := Election (e : option ActiveElection.ActiveElection).

(*@ dashboard/app/(public)/voter/roll/page.tsx 92 92 useActiveElection *)
Definition on_surroundings (x : env) (s : state) : M unit :=
  match x with Election e => upd (set_election e) end.

(*@ dashboard/app/(public)/voter/roll/page.tsx 127 134 filteredVoters *)
Definition matches (s : state) (v : VoterResponse) : bool :=
  (includes (to_lower (searchQuery s)) (to_lower (vr_name v))
   || includes (to_lower (searchQuery s)) (to_lower (vr_voter_id_number v)))
  && (String.eqb (selectedConstituency s) "ALL" || String.eqb (vr_constituency v) (selectedConstituency s)).

(*@ dashboard/app/(public)/voter/roll/page.tsx 127 134 filteredVoters *)
Definition filteredVoters (s : state) : list VoterResponse := List.filter (matches s) (voters s).

(*@ dashboard/app/(public)/voter/roll/page.tsx 185 192 options *)
Definition CONSTITUENCY_OPTIONS : list (string * string) :=
  [("ALL", "All Constituencies");
   ("Bengaluru Central (Karnataka)", "Bengaluru Central (Karnataka)");
   ("Mumbai South (Maharashtra)", "Mumbai South (Maharashtra)");
   ("New Delhi (NCT)", "New Delhi (NCT)");
   ("Varanasi (Uttar Pradesh)", "Varanasi (Uttar Pradesh)");
   ("Kolkata Dakshin (West Bengal)", "Kolkata Dakshin (West Bengal)")]%string.

(*@ dashboard/app/(public)/voter/roll/page.tsx 223 258 filteredVoters.map *)
Definition voter_row (v : VoterResponse) : list (node ui) :=
  [Text (vr_voter_id_number v);
   Badge (if String.eqb (vr_registration_status v) "VERIFIED" then "success" else "neutral") (vr_registration_status v);
   Text (vr_name v);
   Text ("Constituency: " ++s vr_constituency v ++s " • Polling Station: "
         ++s opt_or (vr_polling_station_id v) "Unassigned");
   Text (if vr_has_voted v then "Vote Recorded" else "Not Yet Voted");
   Link ("/voter/profile?voterId=" ++s vr_voter_id_number v) "View Profile"].

(*@ dashboard/app/(public)/voter/roll/page.tsx 136 264 ElectoralRollPage *)
Definition render (s : state) : list (node ui) :=
  [Link "/voter" "Back to Voter Portal"; Text "Simulated Electoral Roll";
   Text "Search the constituency electoral register to verify registration status and polling assignments."]
  ++ LibInput None None "Search by Name or Voter ID (e.g., VTR-00101)..." (searchQuery s) false
       (fun u => match u with TypeQuery _ | PressEnter => true | _ => false end)
  ++ LibButton (if loading s then "Searching..." else "Lookup") false (loading s) ClickLookup
  ++ LibSelect None None (selectedConstituency s) CONSTITUENCY_OPTIONS false SelectConstituency
  ++ match lookupNotice s with
     | Some n => when (truthy_str n) [Text n; Button "×" false ClickDismiss]
     | None => []
     end
  ++ [Text ("Showing " ++s Z_to_string (Z.of_nat (List.length (filteredVoters s))) ++s " Registered Voter(s)");
      Text ("Constituency: " ++s selectedConstituency s)]
  ++ match filteredVoters s with
     | [] => [Text "No matching simulated voter records found."]
     | l => flat_map voter_row l
     end.

Definition page : component state ui env := mk_component render on_ui on_surroundings.

End VoterRoll.

Import VoterRoll.

#[export] Hint Unfold on_ui on_surroundings handleLookup : prog.

(** ** Controls *)

Lemma allows_roll s u :
  allows (render s) u
  = match u with
    | TypeQuery _ | PressEnter => true
    | ClickLookup => negb (loading s)
    | SelectConstituency v => offers CONSTITUENCY_OPTIONS v
    | ClickDismiss => truthy_opt (lookupNotice s)
    end.
Proof.
  unfold render, LibInput, LibSelect, labelled, LibButton. rewrite !allows_app.
  replace (allows match filteredVoters s with [] => _ | _ => _ end u) with false.
  2: { destruct (filteredVoters s) as [|v l]; [done |]. symmetry. by apply allows_flat_map_none. }
  destruct (lookupNotice s) as [e|]; cbn [truthy_opt]; destruct u as [v| | |v|];
    rewrite ?allows_when, ?allows_cons, ?allows_nil; cbn [fires];
    rewrite ?select_offers by congruence; decide_eqs; tidy_bool;
    rewrite ?select_other by (intros; discriminate); by tidy_bool.
Qed.

(** ** The roll *)

Definition numbers (s : state) : list string := map vr_voter_id_number (voters s).

(** Every number is on the roll once, and the demonstration's voters are at its end. *)
Definition roll_ok (loaded_at : string) (s : state) : Prop :=
  NoDup (numbers s) /\ exists live, voters s = live ++ DEMO_VOTERS loaded_at.

Lemma add_live_ok t r s : roll_ok t s -> roll_ok t (set_voters (add_live r (voters s)) s).
Proof.
  intros [Hn [live Hv]]. unfold add_live. destruct (existsb _ (voters s)) eqn:E; [split; [exact Hn | by exists live] |].
  split; [| exists (r :: live); cbn; by rewrite Hv].
  unfold numbers. cbn. apply NoDup_cons. split; [| exact Hn].
  intros (v & Hv' & Hin)%list_elem_of_fmap. apply not_true_iff_false in E. apply E, existsb_exists.
  exists v. rewrite Hv', String.eqb_refl. split; [by apply list_elem_of_In | done].
Qed.

Definition Sends (s : state) (q : req) : Prop :=
  q = lookupVoter (elId s) (trim (searchQuery s)) /\ trim (searchQuery s) <> EmptyString.

Lemma roll_lookup_handles t s : roll_ok t s -> handles (roll_ok t) Sends (handleLookup s) s.
Proof.
  intros Hs. unfold handleLookup. destruct (truthy_str (trim (searchQuery s))) eqn:E; [| exact Hs]. cbn [negb].
  apply (wp_wpf (roll_ok t) Sends false). do 2 apply wpf_upd. apply wpf_finally, wpf_try. cbn -[trim].
  split_and!; [exact Hs | |].
  - repeat constructor. intros Hn. change (trim (searchQuery s) = EmptyString) in Hn. by rewrite Hn in E.
  - intros [r|e] s' Hs'; cbn -[trim]; [| exact Hs']. exact (add_live_ok t r s' Hs').
Qed.

Lemma roll_safe t : safe_component page (roll_ok t) Sends (fun _ => True).
Proof.
  split.
  - intros u s _ Hs Hu. unfold page. cbn [on_user]. destruct u; cbn [on_ui]; try exact Hs; by apply roll_lookup_handles.
  - intros [e] s _ Hs. exact Hs.
Qed.

(** C25. In every interleaving of lookups and answers the roll has no number twice and ends with
    the demonstration's voters; and what is looked up is what was typed, trimmed and not
    empty, in the election of the page. *)
Theorem roll_no_number_twice t w :
  reachable page (fun _ => True) (initial t) w ->
  NoDup (numbers (st w)) /\ (exists live, voters (st w) = live ++ DEMO_VOTERS t)
  /\ forall s q, In (s, q) (sent w) -> Sends s q.
Proof.
  intros Hw.
  assert (roll_ok t (initial t)) as H0.
  { split; [| by exists []]. apply (bool_decide_eq_true_1 (NoDup _)). by vm_compute. }
  destruct (reachable_good _ _ _ _ (roll_safe t) (initial t) w H0 Hw) as [[H1 H2] _ H3].
  split_and!; [exact H1 | exact H2 |]. intros s q Hin. exact (Forall_In _ _ _ H3 Hin).
Qed.

(** ** A lookup *)

Definition found_notice (r : VoterResponse) : string :=
  "Live record found for " ++s vr_name r ++s " (" ++s vr_voter_id_number r ++s ")".

(** A record is added at the top unless its number is on the roll already; then the record
    that was there stays, whatever the backend answered. Both are announced as live. *)
Theorem roll_looked_up w u (f : forall r, outcome (resp r)) :
  tasks w = [] -> u = PressEnter \/ u = ClickLookup /\ loading (st w) = false ->
  trim (searchQuery (st w)) <> EmptyString ->
  exists k w', run page w (User u :: replies f (fresh w) k) = Some w'
    /\ tasks w' = [] /\ loading (st w') = false
    /\ match f (lookupVoter (elId (st w)) (trim (searchQuery (st w)))) with
       | Ok r => lookupNotice (st w') = Some (found_notice r)
                 /\ voters (st w') = if bool_decide (vr_voter_id_number r ∈ numbers (st w))
                                     then voters (st w) else r :: voters (st w)
       | Err _ => voters (st w') = voters (st w)
       end.
Proof.
  intros Ht Hu Hq.
  assert (allows (render (st w)) u = true) as Ha by (rewrite allows_roll; by destruct Hu as [->|[-> ->]]).
  assert (on_ui u (st w) = handleLookup (st w)) as Hon by (by destruct Hu as [->|[-> _]]).
  assert (truthy_str (trim (searchQuery (st w))) = true) as Hq' by (by destruct (trim (searchQuery (st w)))).
  assert (forall r, existsb (fun v => String.eqb (vr_voter_id_number v) (vr_voter_id_number r)) (voters (st w))
                    = bool_decide (vr_voter_id_number r ∈ numbers (st w))) as He.
  { intros r. apply eq_true_iff_eq. rewrite existsb_exists, bool_decide_eq_true. unfold numbers.
    rewrite list_elem_of_fmap. split.
    - intros (v & Hin & Hv%String.eqb_eq). exists v. by rewrite list_elem_of_In.
    - intros (v & Hv & Hin%list_elem_of_In). exists v. by rewrite Hv, String.eqb_refl. }
  destruct (f (lookupVoter (elId (st w)) (trim (searchQuery (st w))))) as [r|e] eqn:E;
    (edestruct (click_alone f page w u) as (k & w' & H1 & H2 & H3 & H4 & _);
      [done | exact Ha | unfold page; cbn [on_user]; rewrite Hon; unfold handleLookup; rewrite Hq'; cbn [negb];
       alone_auto; reflexivity |]);
    exists k, w'; rewrite H3; (split; [exact H1 |]); (split; [exact H2 |]); (split; [done |]); [| done].
  split; [done |]. cbn. unfold add_live. rewrite He. by destruct (bool_decide _).
Qed.

(** ** The loading flag *)

Lemma roll_lowers : lowering_component page (fun _ => True) (fun _ => True) loading.
Proof.
  split; [| by intros [e] s _ _]. intros u s _ _ _. unfold lowers, page. cbn [on_user].
  destruct u; cbn [on_ui]; try (by split); unfold handleLookup; (destruct (negb _); [by split |]);
    do 2 apply low_upd; (apply lowers_at_end; [done | timerless_auto]).
Qed.

Theorem roll_not_left_loading t w :
  reachable page (fun _ => True) (initial t) w -> idle w = true -> loading (st w) = false.
Proof. intros Hw Hi. by eapply never_left_busy; [apply roll_lowers | | exact Hw | exact Hi]. Qed.

(** ** Concrete runs *)

(** The backend's register: the voter 00103 has voted since, and there is one more. *)
Definition registered_voter (number name : string) : VoterResponse :=
  {| vr_id := number; vr_election_id := "EV-2026-001"; vr_voter_id_number := number; vr_name := name;
     vr_date_of_birth := "1990-01-01"; vr_constituency := "North"; vr_polling_station_id := None;
     vr_eligibility_status := "ELIGIBLE"; vr_registration_status := "VERIFIED"; vr_has_voted := true;
     vr_registered_at := "2026-01-01T00:00:00Z" |}.

Definition the_register : forall r, outcome (resp r) :=
  fun r => match r as r return outcome (resp r) with
           | lookupVoter _ i =>
               if String.eqb i "VTR-00103" then Ok (registered_voter i "Rohan Iyer")
               else if String.eqb i "VTR-9" then Ok (registered_voter i "Jane Doe")
               else Err (plain_error "ApiError" "Voter not found")
           | _ => Err (plain_error "Error" "offline")
           end.

Definition roll_typed (q : string) : world state :=
  default (boot (initial "")) (run page (boot (initial "")) [User (TypeQuery q)]).

Lemma roll_typed_reachable q : reachable page (fun _ => True) (initial "") (roll_typed q).
Proof. apply reachable_default; [apply reach_boot | by repeat constructor]. Qed.

(** Enter works while a lookup is on its way: the same voter is looked up twice. *)
Definition twice : world state :=
  default (roll_typed "VTR-9")
    (run page (roll_typed "VTR-9")
       [User PressEnter; User PressEnter; Reply 1 (answers the_register); Reply 0 (answers the_register)]).

Lemma roll_no_number_twice_witness :
  NoDup (numbers (st twice)) /\ List.length (voters (st twice)) = 6%nat /\ List.length (sent twice) = 2%nat.
Proof.
  split; [| by vm_compute]. eapply roll_no_number_twice.
  apply reachable_default; [apply roll_typed_reachable | by repeat constructor].
Defined.

Lemma roll_looked_up_witness :
  exists k w', run page (roll_typed "VTR-9") (User PressEnter :: replies the_register (fresh (roll_typed "VTR-9")) k) = Some w'
    /\ List.length (voters (st w')) = 6%nat.
Proof.
  destruct (roll_looked_up (roll_typed "VTR-9") PressEnter the_register) as (k & w' & H1 & _ & _ & H2);
    [reflexivity | by left | by vm_compute |].
  change (match the_register (lookupVoter "EV-2026-001" "VTR-9") with
          | Ok r => lookupNotice (st w') = Some (found_notice r)
                    /\ voters (st w') = if bool_decide (vr_voter_id_number r ∈ numbers (st (roll_typed "VTR-9")))
                                        then voters (st (roll_typed "VTR-9")) else r :: voters (st (roll_typed "VTR-9"))
          | Err _ => voters (st w') = voters (st (roll_typed "VTR-9"))
          end) in H2.
  cbn [the_register] in H2. exists k, w'. split; [exact H1 |]. destruct H2 as [_ H2]. rewrite H2. by vm_compute.
Defined.

Lemma roll_not_left_loading_witness : loading (st twice) = false.
Proof.
  apply (roll_not_left_loading ""); [| by vm_compute].
  apply reachable_default; [apply roll_typed_reachable | by repeat constructor].
Defined.

(** A record that was found and announced is not shown when its number was typed with a
    space: the lookup trims what the filter does not. *)
Theorem roll_live_record_hidden :
  exists w, run page (boot (initial "")) [User (TypeQuery "VTR-9 "); User PressEnter; Reply 0 (answers the_register)] = Some w
    /\ shows (render (st w)) "Live record found for Jane Doe (VTR-9)" = true
    /\ shows (render (st w)) "No matching simulated voter records found." = true.
Proof. apply run_witness. vm_compute. by split_and!. Qed.

(** The record of a demonstration voter is announced as live, and the made-up one is shown:
    as not having voted, although they have. *)
Theorem roll_live_record_dropped :
  exists w, run page (boot (initial "")) [User (TypeQuery "VTR-00103"); User ClickLookup; Reply 0 (answers the_register)] = Some w
    /\ shows (render (st w)) "Live record found for Rohan Iyer (VTR-00103)" = true
    /\ shows (render (st w)) "Not Yet Voted" = true /\ shows (render (st w)) "Vote Recorded" = false.
Proof. apply run_witness. vm_compute. by split_and!. Qed.
