(* ===== verification/VoterProfile.v ===== *)
(** * The voter's profile: [app/(public)/voter/profile/page.tsx]

    The profile of the number in the address, or typed. What is asked; what a lookup leaves;
    and whose profile is shown when there is none. *)
From S2P Require Import Prelude JsValue JsNumber FormatError Types ApiClient View React Alone Spinner Common Officer Portal.
From Stdlib Require Import String.

Module VoterProfile.

(*@ dashboard/app/(public)/voter/profile/page.tsx 20 26 VoterProfileContent *)
Record state := mk_state {
  initialVoterId : string;
  mounted : bool;
  voterIdInput : string;
  profile : option VoterResponse;
  loading : bool }.

Definition set_initialVoterId (v : string) (s : state) : state :=
  mk_state v (mounted s) (voterIdInput s) (profile s) (loading s).
Definition set_mounted (v : bool) (s : state) : state :=
  mk_state (initialVoterId s) v (voterIdInput s) (profile s) (loading s).
Definition set_voterIdInput (v : string) (s : state) : state :=
  mk_state (initialVoterId s) (mounted s) v (profile s) (loading s).
Definition set_profile (v : option VoterResponse) (s : state) : state :=
  mk_state (initialVoterId s) (mounted s) (voterIdInput s) v (loading s).
Definition set_loading (v : bool) (s : state) : state :=
  mk_state (initialVoterId s) (mounted s) (voterIdInput s) (profile s) v.

(** The address's voterId, or the first of the demonstration's voters. *)
(*@ dashboard/app/(public)/voter/profile/page.tsx 21 22 initialVoterId *)
Definition addressed (voterId : option string) : string := opt_or voterId "VTR-00101".

(*@ dashboard/app/(public)/voter/profile/page.tsx 20 26 VoterProfileContent *)
Definition initial (voterId : option string) : state :=
  mk_state (addressed voterId) false (addressed voterId) None false.

Abbreviation M := (prog state).

(*@ dashboard/app/(public)/voter/profile/page.tsx 36 48 setProfile *)
Definition fallback_profile (id : string) : VoterResponse :=
  {| vr_id := "vtr-demo-1"; vr_election_id := "EV-2026-001"; vr_voter_id_number := trim id;
     vr_name := "Aarav Sharma"; vr_date_of_birth := "1994-05-12"; vr_constituency := "North District";
     vr_polling_station_id := Some "PS-001"%string; vr_eligibility_status := "ELIGIBLE";
     vr_registration_status := "VERIFIED"; vr_has_voted := true; vr_registered_at := "2026-03-01T10:00:00Z" |}.

(*@ dashboard/app/(public)/voter/profile/page.tsx 28 52 lookupProfile *)
Definition lookupProfile (id : string) : M unit :=
  if negb (truthy_str (trim id)) then mret tt
  else
    upd (set_loading true);;
    finally
      (try_catch
         (data ← await (lookupVoter "EV-2026-001" (trim id));
          upd (set_profile (Some data)))
         (fun _ => upd (set_profile (Some (fallback_profile id)))))
      (upd (set_loading false)).

Inductive ui := TypeVoterId (v : string) | ClickLookup.

#[export] Instance ui_eq_dec : EqDecision ui. Proof. solve_decision. Defined.

(*@ dashboard/app/(public)/voter/profile/page.tsx 89 100 onChange/onClick *)
Definition on_ui (u : ui) (s : state) : M unit :=
  match u with
  | TypeVoterId v => upd (set_voterIdInput v)
  | ClickLookup => lookupProfile (voterIdInput s)
  end.

Inductive env := Mount | Address (voterId : option string).

(*@ dashboard/app/(public)/voter/profile/page.tsx 54 58 useEffect *)
Definition effect (id : string) : M unit := if truthy_str id then lookupProfile id else mret tt.

(** The effect runs when the page is mounted and when the address has another number. *)
(*@ dashboard/app/(public)/voter/profile/page.tsx 54 58 useEffect *)
Definition on_surroundings (x : env) (s : state) : M unit :=
  match x with
  | Mount => if mounted s then mret tt else upd (set_mounted true);; effect (initialVoterId s)
  | Address v =>
      upd (set_initialVoterId (addressed v));;
      (if mounted s && negb (String.eqb (addressed v) (initialVoterId s)) then effect (addressed v) else mret tt)
  end.

(*@ dashboard/app/(public)/voter/profile/page.tsx 158 200 profile.has_voted *)
Definition voting_status (p : VoterResponse) : list (node ui) :=
  Text "Voting Status"
  :: (if vr_has_voted p
      then [Text "VOTE RECORDED"; Text ("Ballot Ref: #VOTE-" ++s last_str 3 (vr_voter_id_number p));
            Text "Polling Device:"; Text "EVM-001"; Text "Election:"; Text (vr_election_id p);
            Text "Note: In compliance with ballot secrecy, your candidate selection is never recorded or displayed on this receipt."]
      else [Text "No ballot recorded for this session."; Text "You may cast your vote when the polling station opens.";
            Link "/evm" "Open EVM"]).

(*@ dashboard/app/(public)/voter/profile/page.tsx 105 202 profile *)
Definition profile_card (p : VoterResponse) : list (node ui) :=
  [Text "DEMO VOTER ID"; Text (vr_name p); Text (vr_voter_id_number p);
   Badge (if String.eqb (vr_registration_status p) "VERIFIED" then "success" else "neutral") (vr_registration_status p);
   Text ("Election: " ++s vr_election_id p); Text "Date of Birth"; Text (vr_date_of_birth p);
   Text "Constituency"; Text (vr_constituency p); Text "Assigned Polling Station";
   Text (opt_or (vr_polling_station_id p) "Polling Station PS-001");
   Text "Eligibility Simulation"; Text (vr_eligibility_status p)]
  ++ voting_status p.

(*@ dashboard/app/(public)/voter/profile/page.tsx 60 205 VoterProfileContent *)
Definition render (s : state) : list (node ui) :=
  [Link "/voter" "Back to Voter Portal"; Text "Simulated Voter Card & Profile";
   Text "Digital verification slip and registration summary for simulated citizen profile.";
   Text "Simulated Identity:";
   Text "Prototype research model only. This voter profile does not correspond to any actual government election document."]
  ++ LibInput None None "Enter Voter ID (e.g. VTR-00101)..." (voterIdInput s) false
       (fun u => match u with TypeVoterId _ => true | _ => false end)
  ++ LibButton "Lookup Profile" (loading s) false ClickLookup
  ++ match profile s with Some p => profile_card p | None => [] end.

Definition page : component state ui env := mk_component render on_ui on_surroundings.

End VoterProfile.

Import VoterProfile.

#[export] Hint Unfold on_ui on_surroundings lookupProfile effect : prog.

(** ** Controls *)

Lemma allows_profile s u :
  allows (render s) u = match u with TypeVoterId _ => true | ClickLookup => negb (loading s) end.
Proof.
  unfold render, LibInput, labelled, LibButton. rewrite !allows_app.
  replace (allows match profile s with Some p => _ | None => _ end u) with false.
  - destruct u; by read_page.
  - destruct (profile s) as [p|]; [| done]. unfold profile_card, voting_status. destruct (vr_has_voted p); by destruct u.
Qed.

(** ** Requests *)

Definition asks (q : req) : Prop := exists i, q = lookupVoter "EV-2026-001" i /\ i <> EmptyString.

Lemma lookupProfile_keeps id : keeps (fun _ => True) (fun _ => asks) (lookupProfile id).
Proof.
  unfold lookupProfile. destruct (truthy_str (trim id)) eqn:E; [| by apply keeps_ret]. cbn [negb].
  keeps_auto. intros _ _. exists (trim id). split; [done |]. intros Hn. by rewrite Hn in E.
Qed.

Lemma effect_keeps id : keeps (fun _ => True) (fun _ => asks) (effect id).
Proof. unfold effect. destruct (truthy_str id); [apply lookupProfile_keeps | by apply keeps_ret]. Qed.

Lemma profile_safe : safe_component page (fun _ => True) (fun _ => asks) (fun _ => True).
Proof.
  split.
  - intros u s _ _ _. unfold page. cbn [on_user]. destruct u; cbn [on_ui]; [done |].
    by apply keeps_handles; [apply lookupProfile_keeps |].
  - intros x s _ _. unfold page. cbn [on_env]. destruct x as [|v]; cbn [on_surroundings].
    + destruct (mounted s); [done |]. apply keeps_handles; [| done].
      apply keeps_bind; [by apply keeps_upd | intros _; apply effect_keeps].
    + apply keeps_handles; [| done]. apply keeps_bind; [by apply keeps_upd | intros _].
      destruct (mounted s && _); [apply effect_keeps | by apply keeps_ret].
Qed.

(** Only lookups are sent, of one fixed election, and never of an empty number. *)
Theorem profile_requests v w s q :
  reachable page (fun _ => True) (initial v) w -> In (s, q) (sent w) -> asks q.
Proof.
  intros Hw Hin. destruct (reachable_good _ _ _ _ profile_safe (initial v) w I Hw) as [_ _ Hs].
  exact (Forall_In _ _ _ Hs Hin).
Qed.

(** ** What is shown *)

Lemma lookupProfile_alone f id s :
  truthy_str (trim id) = true ->
  alone f (lookupProfile id) s
  = Some (mk_ending (inl tt)
       (set_loading false (set_profile (Some match f (lookupVoter "EV-2026-001" (trim id)) with
                                             | Ok p => p | Err _ => fallback_profile id end) (set_loading true s)))
       [(set_loading true s, lookupVoter "EV-2026-001" (trim id))]).
Proof.
  intros Hid. unfold lookupProfile. rewrite Hid. cbn [negb].
  destruct (f (lookupVoter "EV-2026-001" (trim id))) eqn:E; alone_auto; reflexivity.
Qed.

(** C22. A lookup always ends with a profile: the backend's, or, when it has none or cannot be
    reached, the profile of Aarav Sharma under the number typed, verified and with a vote
    recorded. No error is ever shown. *)
Theorem profile_looked_up w (f : forall r, outcome (resp r)) :
  tasks w = [] -> loading (st w) = false -> truthy_str (trim (voterIdInput (st w))) = true ->
  exists k w', run page w (User ClickLookup :: replies f (fresh w) k) = Some w'
    /\ tasks w' = [] /\ loading (st w') = false
    /\ match f (lookupVoter "EV-2026-001" (trim (voterIdInput (st w)))) with
       | Ok p => profile (st w') = Some p
       | Err _ => profile (st w') = Some (fallback_profile (voterIdInput (st w)))
                  /\ shows (render (st w')) "Aarav Sharma" = true
                  /\ shows (render (st w')) (trim (voterIdInput (st w))) = true
                  /\ shows (render (st w')) "VERIFIED" = true
                  /\ shows (render (st w')) "VOTE RECORDED" = true
       end.
Proof.
  intros Ht Hl Hid.
  edestruct (click_alone f page w ClickLookup) as (k & w' & H1 & H2 & H3 & _);
    [done | by rewrite allows_profile, Hl | exact (lookupProfile_alone f _ _ Hid) |].
  exists k, w'. split; [exact H1 |]. split; [exact H2 |]. rewrite H3. split; [done |]. cbn [left_in].
  destruct (f _) as [p|e]; [done |]. split; [done |].
  unfold render. cbn [profile set_loading set_profile]. rewrite !shows_app, !orb_true_iff.
  split_and!; right; right; right; unfold profile_card, voting_status; rewrite !shows_app; cbn [fallback_profile vr_has_voted].
  - done.
  - rewrite !shows_cons. cbn [shows_in vr_voter_id_number fallback_profile]. by rewrite String.eqb_refl, !orb_true_r.
  - by rewrite !shows_cons; cbn; rewrite !orb_true_r.
  - by rewrite !shows_cons; cbn; rewrite !orb_true_r.
Qed.

(** ** The loading flag *)

Lemma lookupProfile_lowers id b s0 s :
  fine loading b s0 s ->
  low (fun _ => True) loading b (lookupProfile id) (fun b _ => fine loading b) (fun b _ => fine loading b) s0 s.
Proof.
  intros Hf. unfold lookupProfile. destruct (negb _); [exact Hf |].
  apply low_upd, lowers_at_end; [done | timerless_auto].
Qed.

Lemma profile_effect_lowers id b s0 s :
  fine loading b s0 s ->
  low (fun _ => True) loading b (effect id) (fun b _ => fine loading b) (fun b _ => fine loading b) s0 s.
Proof. intros Hf. unfold effect. destruct (truthy_str id); [by apply lookupProfile_lowers | exact Hf]. Qed.

Lemma profile_lowers : lowering_component page (fun _ => True) (fun _ => True) loading.
Proof.
  split.
  - intros u s _ _ _. unfold lowers, page. cbn [on_user]. destruct u; cbn [on_ui]; [by split |]. by apply lookupProfile_lowers; split.
  - intros x s _ _. unfold lowers, page. cbn [on_env]. destruct x as [|v]; cbn [on_surroundings].
    + destruct (mounted s); [by split |]. apply low_upd. by apply profile_effect_lowers; split.
    + apply low_upd. destruct (mounted s && _); [by apply profile_effect_lowers; split | by split].
Qed.

Theorem profile_not_left_loading v w :
  reachable page (fun _ => True) (initial v) w -> idle w = true -> loading (st w) = false.
Proof. intros Hw Hi. by eapply never_left_busy; [apply profile_lowers | | exact Hw | exact Hi]. Qed.

(** ** Concrete runs *)

Definition offline : forall r, outcome (resp r) := fun r => Err (plain_error "Error" "offline").

Definition unknown_voter : world state :=
  default (boot (initial None)) (run page (boot (initial None)) [User (TypeVoterId " nobody ")]).

Lemma profile_requests_witness :
  let w := default unknown_voter (run page unknown_voter [User ClickLookup]) in
  Forall (fun '(_, q) => asks q) (sent w) /\ List.length (sent w) = 1%nat.
Proof.
  intros w. split; [| by vm_compute]. apply Forall_forall. intros [s q] Hin%list_elem_of_In.
  refine (profile_requests None w s q _ Hin).
  apply reachable_default; [| by repeat constructor].
  apply reachable_default; [apply reach_boot | by repeat constructor].
Defined.

Lemma profile_looked_up_witness :
  exists k w', run page unknown_voter (User ClickLookup :: replies offline (fresh unknown_voter) k) = Some w'
    /\ shows (render (st w')) "Aarav Sharma" = true /\ shows (render (st w')) "nobody" = true.
Proof.
  destruct (profile_looked_up unknown_voter offline) as (k & w' & H1 & _ & _ & H2);
    [reflexivity | reflexivity | by vm_compute |].
  exists k, w'. split; [exact H1 |]. destruct H2 as (_ & H2 & H3 & _). by split.
Defined.

Lemma profile_not_left_loading_witness : loading (st unknown_voter) = false.
Proof.
  apply (profile_not_left_loading None); [| by vm_compute].
  apply reachable_default; [apply reach_boot | by repeat constructor].
Defined.

(** The last answer wins: the profile of the number that was in the address before. *)
Theorem profile_late_answer :
  exists w, run page (boot (initial (Some "VTR-1"%string)))
      [Env Mount; Env (Address (Some "VTR-2"%string)); Reply 1 (answers offline); Reply 0 (answers offline)] = Some w
    /\ initialVoterId (st w) = "VTR-2"%string
    /\ option_map vr_voter_id_number (profile (st w)) = Some "VTR-1"%string.
Proof. apply run_witness. vm_compute. by split_and!. Qed.
