(* ===== verification/VoterComplaints.v ===== *)
(** * Complaints of the public: [app/(public)/voter/complaints/page.tsx]

    Filing a complaint and tracking one. What is sent; which categories the backend accepts,
    and the one it is sent when the list was not touched; what filing and tracking leave. *)
From S2P Require Import Prelude JsValue JsNumber FormatError Types ApiClient View React Alone Spinner Common Officer Portal.
From Stdlib Require Import String Ascii.

Module VoterComplaints.

(** The categories the backend accepts. *)
(*@ backend/app/schemas.py 549 549 ComplaintCreate *)
Definition ACCEPTED_CATEGORIES : list string :=
  ["VOTER_REGISTRATION"; "POLLING_STATION"; "EVM"; "VOTING_ISSUE"; "ACCESSIBILITY"; "ELECTION_PROCESS";
   "CANDIDATE_PARTY"; "TECHNICAL"; "OTHER"]%string.

(*@ dashboard/app/(public)/voter/complaints/page.tsx 14 24 CATEGORIES *)
Definition CATEGORIES : list (string * string) :=
  [("VOTER_REGISTRATION", "Voter Registration"); ("POLLING_STATION", "Polling Station"); ("EVM", "EVM Issue");
   ("VOTING_ISSUE", "Voting Issue"); ("ACCESSIBILITY", "Accessibility"); ("ELECTION_PROCESS", "Election Process");
   ("CANDIDATE_PARTY", "Candidate or Party"); ("TECHNICAL", "Technical Issue"); ("OTHER", "Other")]%string.

(*@ dashboard/app/(public)/voter/complaints/page.tsx 27 27 activeTab *)
Inductive tab := file | track.

#[export] Instance tab_eq_dec : EqDecision tab. Proof. solve_decision. Defined.

(*@ dashboard/app/(public)/voter/complaints/page.tsx 77 84 setTrackData *)
Record tracked := mk_tracked {
  td_reference : string; td_category : string; td_status : string; td_description : string;
  td_resolutionNotes : string; td_createdAt : string }.

(*@ dashboard/app/(public)/voter/complaints/page.tsx 26 44 ComplaintsPage *)
Record state := mk_state {
  activeTab : tab;
  category : string;
  description : string;
  name : string;
  contact : string;
  fileLoading : bool;
  fileError : option string;
  fileSuccess : option string;
  trackId : string;
  trackLoading : bool;
  trackError : option string;
  trackData : option tracked }.

Definition set_activeTab (v : tab) (s : state) : state :=
  mk_state v (category s) (description s) (name s) (contact s) (fileLoading s) (fileError s)
    (fileSuccess s) (trackId s) (trackLoading s) (trackError s) (trackData s).
Definition set_category (v : string) (s : state) : state :=
  mk_state (activeTab s) v (description s) (name s) (contact s) (fileLoading s) (fileError s)
    (fileSuccess s) (trackId s) (trackLoading s) (trackError s) (trackData s).
Definition set_description (v : string) (s : state) : state :=
  mk_state (activeTab s) (category s) v (name s) (contact s) (fileLoading s) (fileError s)
    (fileSuccess s) (trackId s) (trackLoading s) (trackError s) (trackData s).
Definition set_name (v : string) (s : state) : state :=
  mk_state (activeTab s) (category s) (description s) v (contact s) (fileLoading s)
    (fileError s) (fileSuccess s) (trackId s) (trackLoading s) (trackError s) (trackData s).
Definition set_contact (v : string) (s : state) : state :=
  mk_state (activeTab s) (category s) (description s) (name s) v (fileLoading s) (fileError s)
    (fileSuccess s) (trackId s) (trackLoading s) (trackError s) (trackData s).
Definition set_fileLoading (v : bool) (s : state) : state :=
  mk_state (activeTab s) (category s) (description s) (name s) (contact s) v (fileError s)
    (fileSuccess s) (trackId s) (trackLoading s) (trackError s) (trackData s).
Definition set_fileError (v : option string) (s : state) : state :=
  mk_state (activeTab s) (category s) (description s) (name s) (contact s) (fileLoading s) v
    (fileSuccess s) (trackId s) (trackLoading s) (trackError s) (trackData s).
Definition set_fileSuccess (v : option string) (s : state) : state :=
  mk_state (activeTab s) (category s) (description s) (name s) (contact s) (fileLoading s)
    (fileError s) v (trackId s) (trackLoading s) (trackError s) (trackData s).
Definition set_trackId (v : string) (s : state) : state :=
  mk_state (activeTab s) (category s) (description s) (name s) (contact s) (fileLoading s)
    (fileError s) (fileSuccess s) v (trackLoading s) (trackError s) (trackData s).
Definition set_trackLoading (v : bool) (s : state) : state :=
  mk_state (activeTab s) (category s) (description s) (name s) (contact s) (fileLoading s)
    (fileError s) (fileSuccess s) (trackId s) v (trackError s) (trackData s).
Definition set_trackError (v : option string) (s : state) : state :=
  mk_state (activeTab s) (category s) (description s) (name s) (contact s) (fileLoading s)
    (fileError s) (fileSuccess s) (trackId s) (trackLoading s) v (trackData s).
Definition set_trackData (v : option tracked) (s : state) : state :=
  mk_state (activeTab s) (category s) (description s) (name s) (contact s) (fileLoading s)
    (fileError s) (fileSuccess s) (trackId s) (trackLoading s) (trackError s) v.

(*@ dashboard/app/(public)/voter/complaints/page.tsx 26 44 ComplaintsPage *)
Definition initial : state := mk_state file "" "" "" "" false None None "" false None None.

Abbreviation M := (prog state).

(*@ dashboard/app/(public)/voter/complaints/page.tsx 52 58 submitComplaint *)
Definition complaint (s : state) : req :=
  submitComplaint (Some "EV-2026-001"%string) (category s) (description s) (name s) (Some (contact s)).

(*@ dashboard/app/(public)/voter/complaints/page.tsx 46 65 handleFileSubmit *)
Definition handleFileSubmit (s : state) : M unit :=
  asking set_fileLoading set_fileError id
    (res ← await (complaint s);
     upd (set_fileSuccess (Some (co_reference_number res)))).

(*@ dashboard/app/(public)/voter/complaints/page.tsx 77 84 setTrackData *)
Definition track_data (res : ComplaintResponse) : tracked :=
  {| td_reference := co_reference_number res; td_category := co_category res; td_status := co_status res;
     td_description := co_description res;
     td_resolutionNotes := opt_or (co_resolution_notes res)
       "Your complaint has been received and is being processed by election officers.";
     td_createdAt := co_created_at res |}.

(*@ dashboard/app/(public)/voter/complaints/page.tsx 67 90 handleTrackSubmit *)
Definition handleTrackSubmit (s : state) : M unit :=
  if negb (truthy_str (trim (trackId s))) then mret tt
  else asking set_trackLoading set_trackError (set_trackData None)
         (res ← await (trackComplaint (trim (trackId s)));
          upd (set_trackData (Some (track_data res)))).

Inductive ui :=
| ClickTab (t : tab) | SelectCategory (v : string) | TypeDescription (v : string) | TypeName (v : string)
| TypeContact (v : string) | SubmitFile | RetryFile | ClickAnother | TypeTrackId (v : string) | SubmitTrack | RetryTrack.

#[export] Instance ui_eq_dec : EqDecision ui. Proof. solve_decision. Defined.

(*@ dashboard/app/(public)/voter/complaints/page.tsx 112 232 onClick/onChange/onSubmit/onRetry *)
Definition on_ui (u : ui) (s : state) : M unit :=
  match u with
  | ClickTab t => upd (set_activeTab t)
  | SelectCategory v => upd (set_category v)
  | TypeDescription v => upd (set_description v)
  | TypeName v => upd (set_name v)
  | TypeContact v => upd (set_contact v)
  | SubmitFile => handleFileSubmit s
  | RetryFile => upd (set_fileError None)
  | ClickAnother => upd (set_fileSuccess None)
  | TypeTrackId v => upd (set_trackId v)
  | SubmitTrack => handleTrackSubmit s
  | RetryTrack => upd (set_trackError None)
  end.

(** The page does not depend on its surroundings. *)
Inductive env := .

Definition on_surroundings (x : env) (s : state) : M unit := match x with end.

(*@ dashboard/app/(public)/voter/complaints/page.tsx 92 102 getStatusBadge *)
Definition getStatusBadge (status : string) : node ui :=
  Badge (match find_first (fun p => String.eqb (fst p) status)
                 [("SUBMITTED", "neutral"); ("RECEIVED", "neutral"); ("ASSIGNED", "warning"); ("UNDER_REVIEW", "warning");
                  ("RESOLVED", "success"); ("CLOSED", "success")]%string with
         | Some p => snd p
         | None => "neutral"%string
         end) (replace_first "_"%char " " status).

(** The four fields are [required]; the list is validated by what it displays. *)
(*@ dashboard/app/(public)/voter/complaints/page.tsx 159 196 required *)
Definition form_valid (s : state) : bool :=
  filled (displayed CATEGORIES (category s)) && filled (description s) && filled (name s) && filled (contact s).

(*@ dashboard/app/(public)/voter/complaints/page.tsx 148 206 form *)
Definition complaint_form (s : state) : list (node ui) :=
  [Text "Complaint Details"; Text "Please provide details about your issue."]
  ++ match fileError s with
     | Some e => when (truthy_str e) (ErrorState "Error" e (Some RetryFile))
     | None => []
     end
  ++ LibSelect None None (displayed CATEGORIES (category s)) CATEGORIES (fileLoading s) SelectCategory
  ++ [Field "Description" (description s) (fileLoading s) (fun u => match u with TypeDescription _ => true | _ => false end)]
  ++ LibInput None None "Your Name" (name s) (fileLoading s) (fun u => match u with TypeName _ => true | _ => false end)
  ++ LibInput None None "Contact Info" (contact s) (fileLoading s) (fun u => match u with TypeContact _ => true | _ => false end)
  ++ LibButton "Submit Complaint" (fileLoading s) (fileLoading s || negb (form_valid s)) SubmitFile.

(*@ dashboard/app/(public)/voter/complaints/page.tsx 126 209 ComplaintsPage *)
Definition file_tab (s : state) : list (node ui) :=
  if truthy_opt (fileSuccess s)
  then [Text "Complaint Submitted"; Text "Your grievance has been recorded successfully."; Text "Reference Number";
        Text (default EmptyString (fileSuccess s))]
       ++ LibButton "File Another Complaint" false false ClickAnother
  else complaint_form s.

(*@ dashboard/app/(public)/voter/complaints/page.tsx 234 266 trackData *)
Definition tracked_card (d : tracked) : list (node ui) :=
  [Text "Complaint Reference"; Text (td_reference d); getStatusBadge (td_status d);
   Text "Category"; Text (td_category d); Text "Description"; Text (td_description d)]
  ++ when (truthy_str (td_resolutionNotes d)) [Text "Resolution Notes"; Text (td_resolutionNotes d)].

(*@ dashboard/app/(public)/voter/complaints/page.tsx 211 268 ComplaintsPage *)
Definition track_tab (s : state) : list (node ui) :=
  LibInput None None "Reference Number (e.g., GRV-2023-12345)" (trackId s) (trackLoading s)
    (fun u => match u with TypeTrackId _ => true | _ => false end)
  ++ LibButton "Track" (trackLoading s) (trackLoading s || negb (truthy_str (trim (trackId s)))) SubmitTrack
  ++ match trackError s with
     | Some e => when (truthy_str e) (ErrorState "Tracking Failed" e (Some RetryTrack))
     | None => []
     end
  ++ match trackData s with Some d => tracked_card d | None => [] end.

(*@ dashboard/app/(public)/voter/complaints/page.tsx 104 271 ComplaintsPage *)
Definition render (s : state) : list (node ui) :=
  [Text "Grievance Redressal"; Text "File a new complaint or track an existing one.";
   Button "File New Complaint" false (ClickTab file); Button "Track Complaint" false (ClickTab track)]
  ++ match activeTab s with file => file_tab s | track => track_tab s end.

Definition page : component state ui env := mk_component render on_ui on_surroundings.

End VoterComplaints.

Import VoterComplaints.

#[export] Hint Unfold on_ui on_surroundings handleFileSubmit handleTrackSubmit : prog.

(** ** Controls *)

Lemma allows_file_tab s u :
  allows (file_tab s) u
  = if truthy_opt (fileSuccess s)
    then match u with ClickAnother => true | _ => false end
    else match u with
         | SelectCategory v => negb (fileLoading s) && offers CATEGORIES v
         | TypeDescription _ | TypeName _ | TypeContact _ => negb (fileLoading s)
         | SubmitFile => negb (fileLoading s) && form_valid s
         | RetryFile => truthy_opt (fileError s)
         | _ => false
         end.
Proof.
  unfold file_tab. destruct (truthy_opt (fileSuccess s)).
  - unfold LibButton. destruct u; by read_page.
  - unfold complaint_form, LibInput, LibSelect, labelled, LibButton, ErrorState. rewrite !allows_app.
    destruct (fileError s) as [e|]; cbn [truthy_opt]; destruct u;
      rewrite ?allows_when, ?allows_app, ?allows_cons, ?allows_nil; cbn [fires];
      rewrite ?select_offers by congruence; decide_eqs; tidy_bool;
      rewrite ?select_other by (intros; discriminate); tidy_bool; try done;
      by destruct (fileLoading s), (form_valid s).
Qed.

Lemma allows_track_tab s u :
  allows (track_tab s) u
  = match u with
    | TypeTrackId _ => negb (trackLoading s)
    | SubmitTrack => negb (trackLoading s) && truthy_str (trim (trackId s))
    | RetryTrack => truthy_opt (trackError s)
    | _ => false
    end.
Proof.
  unfold track_tab, LibInput, labelled, LibButton, ErrorState. rewrite !allows_app.
  replace (allows match trackData s with Some d => _ | None => _ end u) with false
    by (destruct (trackData s) as [d|]; [unfold tracked_card; by destruct (truthy_str (td_resolutionNotes d)) | done]).
  destruct (trackError s) as [e|]; cbn [truthy_opt]; destruct u;
    rewrite ?allows_when, ?allows_app, ?allows_cons, ?allows_nil; cbn [fires]; decide_eqs; tidy_bool; try done;
    by destruct (trackLoading s), (truthy_str (trim (trackId s))).
Qed.

Lemma allows_complaints_page s u :
  allows (render s) u
  = match u with
    | ClickTab _ => true
    | _ => match activeTab s with file => allows (file_tab s) u | track => allows (track_tab s) u end
    end.
Proof.
  unfold render. rewrite allows_app. destruct (activeTab s) eqn:E; rewrite ?allows_file_tab, ?allows_track_tab;
    destruct u as [[|]| | | | | | | | | | ]; read_page; try done; by destruct (truthy_opt (fileSuccess s)).
Qed.

(** ** Requests *)

Definition Sends (s : state) (q : req) : Prop :=
  (q = complaint s /\ filled (description s) = true /\ filled (name s) = true /\ filled (contact s) = true)
  \/ (q = trackComplaint (trim (trackId s)) /\ trim (trackId s) <> EmptyString).

Lemma voter_complaints_safe (Inv : state -> Prop) (P : event ui env -> Prop) :
  (forall s f, Inv s -> Inv (set_fileLoading f s)) -> (forall s e, Inv s -> Inv (set_fileError e s)) ->
  (forall s e, Inv s -> Inv (set_fileSuccess e s)) -> (forall s f, Inv s -> Inv (set_trackLoading f s)) ->
  (forall s e, Inv s -> Inv (set_trackError e s)) -> (forall s d, Inv s -> Inv (set_trackData d s)) ->
  (forall u s, P (User u) -> Inv s -> u <> SubmitFile -> u <> SubmitTrack -> handles Inv Sends (on_ui u s) s) ->
  safe_component page Inv (fun s q => Sends s q /\ Inv s) P.
Proof.
  intros H1 H2 H3 H4 H5 H6 Hu. split; [| by intros []].
  intros u s HP Hs Ha. change (allows (render s) u = true) in Ha. unfold page. cbn [on_user].
  destruct (decide (u = SubmitFile)) as [->|Hf]; [| destruct (decide (u = SubmitTrack)) as [->|Ht]].
  - cbn [on_ui]. unfold handleFileSubmit. rewrite allows_complaints_page, allows_file_tab, allows_track_tab in Ha.
    destruct (activeTab s); [| done]. destruct (truthy_opt _); [done |]. unfold form_valid in Ha. reflect_bool.
    apply asking_handles; [by auto | by auto | by unfold id; auto |]. cbn. split_and!; [by auto | |].
    + apply Forall_singleton. split; [left; auto | auto].
    + intros [a|e] s' Hs'; cbn; auto.
  - cbn [on_ui]. unfold handleTrackSubmit. destruct (truthy_str (trim (trackId s))) eqn:E; [| done]. cbn [negb].
    apply asking_handles; [by auto | by auto | by auto |]. cbn -[trim]. split_and!; [by auto | |].
    + apply Forall_singleton. split; [right | by auto]. split; [done |]. intros Hn.
      change (trim (trackId s) = EmptyString) in Hn. by rewrite Hn in E.
    + intros [a|e] s' Hs'; cbn; auto.
  - specialize (Hu u s HP Hs Hf Ht). destruct u; cbn in *; auto; done.
Qed.

(** In every interleaving what is sent is the complaint in the form, with its text, a name
    and a contact, or the trimmed reference to track. *)
Theorem voter_complaint_requests w s q :
  reachable page (fun _ => True) initial w -> In (s, q) (sent w) -> Sends s q.
Proof.
  intros Hw Hin.
  assert (safe_component page (fun _ => True) (fun s q => Sends s q /\ True) (fun _ => True)) as HC.
  { apply voter_complaints_safe; try done. by intros [] s' _ _. }
  destruct (reachable_good _ _ _ _ HC initial w I Hw) as [_ _ Hs]. by destruct (Forall_In _ _ _ Hs Hin).
Qed.

(** The backend accepts every category the list offers, and no others. *)
Theorem complaint_categories_accepted v : offers CATEGORIES v = str_in v ACCEPTED_CATEGORIES.
Proof. done. Qed.

Definition untouched (x : event ui env) : Prop := forall v, x <> User (SelectCategory v).

(** As long as the list of categories is not touched it displays the first, and complaints
    are sent with none, which the backend does not accept. *)
Theorem complaint_category_untouched w :
  reachable page untouched initial w ->
  displayed CATEGORIES (category (st w)) = "VOTER_REGISTRATION"%string
  /\ forall s e c d n k, In (s, submitComplaint e c d n k) (sent w) -> str_in c ACCEPTED_CATEGORIES = false.
Proof.
  intros Hw.
  assert (safe_component page (fun s => category s = EmptyString)
            (fun s q => Sends s q /\ category s = EmptyString) untouched) as HC.
  { apply voter_complaints_safe; try done. intros [] s HP Hs Hf Ht; cbn; try done. by destruct (HP v). }
  destruct (reachable_good _ _ _ _ HC initial w eq_refl Hw) as [Hi _ Hs]. split; [by rewrite Hi |].
  intros s e c d n k Hin. destruct (Forall_In _ _ _ Hs Hin) as [[([= -> -> -> -> ->] & _)|[[=] _]] Hc]. by rewrite Hc.
Qed.

(** ** What is shown *)

(** Filing ends with the reference number the backend gave, or with the reason there is
    none; the form keeps its text either way. *)
Theorem complaint_filed w (f : forall r, outcome (resp r)) :
  tasks w = [] -> activeTab (st w) = file -> truthy_opt (fileSuccess (st w)) = false -> fileLoading (st w) = false ->
  form_valid (st w) = true ->
  exists k w', run page w (User SubmitFile :: replies f (fresh w) k) = Some w'
    /\ tasks w' = [] /\ fileLoading (st w') = false /\ complaint (st w') = complaint (st w)
    /\ match f (complaint (st w)) with
       | Ok r => fileSuccess (st w') = Some (co_reference_number r) /\ fileError (st w') = None
       | Err e => fileSuccess (st w') = fileSuccess (st w) /\ fileError (st w') = Some (FormatError.format_error e)
       end.
Proof.
  intros Ht Htab Hsuc Hl Hv.
  assert (allows (render (st w)) SubmitFile = true) as Hu
    by (by rewrite allows_complaints_page, allows_file_tab, Htab, Hsuc, Hl, Hv).
  unfold complaint. destruct (f (submitComplaint _ _ _ _ _)) as [r|e] eqn:E;
    (edestruct (click_alone f page w SubmitFile) as (k & w' & H1 & H2 & H3 & H4 & _);
      [done | exact Hu | unfold page; cbn [on_user on_ui]; unfold handleFileSubmit, complaint;
       erewrite asking_alone by (alone_auto; reflexivity); reflexivity |]);
    exists k, w'; rewrite H3; by split_and!.
Qed.

(** Tracking ends with the complaint's category, status and description and with the notes
    of the officers, or the sentence that stands for them; or with the reason there is none,
    and never with the complaint tracked before. *)
Theorem complaint_tracked w (f : forall r, outcome (resp r)) :
  tasks w = [] -> activeTab (st w) = track -> trackLoading (st w) = false ->
  truthy_str (trim (trackId (st w))) = true ->
  exists k w', run page w (User SubmitTrack :: replies f (fresh w) k) = Some w'
    /\ tasks w' = [] /\ trackLoading (st w') = false
    /\ match f (trackComplaint (trim (trackId (st w)))) with
       | Ok r => trackData (st w') = Some (track_data r) /\ trackError (st w') = None
                 /\ truthy_str (td_resolutionNotes (track_data r)) = true
       | Err e => trackData (st w') = None /\ trackError (st w') = Some (FormatError.format_error e)
       end.
Proof.
  intros Ht Htab Hl Hid.
  assert (allows (render (st w)) SubmitTrack = true) as Hu
    by (by rewrite allows_complaints_page, allows_track_tab, Htab, Hl, Hid).
  destruct (f (trackComplaint (trim (trackId (st w))))) as [r|e] eqn:E;
    (edestruct (click_alone f page w SubmitTrack) as (k & w' & H1 & H2 & H3 & H4 & _);
      [done | exact Hu | unfold page; cbn [on_user on_ui]; unfold handleTrackSubmit; rewrite Hid; cbn [negb];
       erewrite asking_alone by (alone_auto; reflexivity); reflexivity |]);
    exists k, w'; rewrite H3; split_and!; try done. by apply opt_or_truthy.
Qed.

(** ** The loading flags *)

Definition raised (t : tab) (s : state) : bool := match t with file => fileLoading s | track => trackLoading s end.

Lemma voter_complaints_lowers t : lowering_component page (fun _ => True) (fun _ => True) (raised t).
Proof.
  split; [| by intros []]. intros u s _ _ _. unfold lowers, page. cbn [on_user].
  destruct u; cbn [on_ui]; try (by destruct t); unfold handleFileSubmit, handleTrackSubmit; try (destruct (negb _); [by destruct t |]);
    destruct t; first [ apply asking_lowers; [done | timerless_auto] | apply low_calm; [unfold asking; calm_auto | done] ].
Qed.

Theorem voter_complaints_not_left_loading t w :
  reachable page (fun _ => True) initial w -> idle w = true -> raised t (st w) = false.
Proof. intros Hw Hi. destruct t; (by eapply never_left_busy; [apply (voter_complaints_lowers _) | | exact Hw | exact Hi]). Qed.

(** ** Concrete runs *)

Definition a_complaint (c : string) : ComplaintResponse :=
  {| co_id := "1"; co_election_id := Some "EV-2026-001"%string; co_reference_number := "GRV-1"; co_category := c;
     co_description := "The queue did not move."; co_complainant_name := "Jane Doe"; co_complainant_contact := None;
     co_status := "CLOSED"; co_assigned_officer := None; co_resolution_notes := None;
     co_created_at := "2026-01-01T00:00:00Z"; co_updated_at := "2026-01-01T00:00:00Z" |}.

Definition grievances : forall r, outcome (resp r) :=
  fun r => match r as r return outcome (resp r) with
           | submitComplaint _ c _ _ _ =>
               if str_in c ACCEPTED_CATEGORIES then Ok (a_complaint c) else Err (plain_error "ApiError" "category")
           | trackComplaint _ => Ok (a_complaint "EVM")
           | _ => Err (plain_error "Error" "offline")
           end.

Definition filling : list (event ui env) :=
  [User (TypeDescription "The queue did not move."); User (TypeName "Jane Doe"); User (TypeContact "jane@example.org")].

Definition filled_in : world state := default (boot initial) (run page (boot initial) filling).

Definition filed_untouched : world state := default filled_in (run page filled_in [User SubmitFile]).

Lemma complaint_category_untouched_witness :
  displayed CATEGORIES (category (st filed_untouched)) = "VOTER_REGISTRATION"%string
  /\ List.length (sent filed_untouched) = 1%nat.
Proof.
  split; [| by vm_compute]. refine (proj1 (complaint_category_untouched filed_untouched _)).
  apply reachable_default; [apply reachable_default; [apply reach_boot |] |]; by repeat constructor.
Defined.

Lemma voter_complaint_requests_witness :
  Forall (fun '(s, q) => Sends s q) (sent filed_untouched) /\ List.length (sent filed_untouched) = 1%nat.
Proof.
  split; [| by vm_compute]. apply Forall_forall. intros [s q] Hin%list_elem_of_In.
  refine (voter_complaint_requests filed_untouched s q _ Hin).
  apply reachable_default; [apply reachable_default; [apply reach_boot |] |]; by repeat constructor.
Defined.

Definition chosen : world state := default filled_in (run page filled_in [User (SelectCategory "EVM")]).

Lemma complaint_filed_witness :
  exists k w', run page chosen (User SubmitFile :: replies grievances (fresh chosen) k) = Some w'
    /\ fileSuccess (st w') = Some "GRV-1"%string.
Proof.
  destruct (complaint_filed chosen grievances) as (k & w' & H1 & _ & _ & _ & H2); [reflexivity .. |].
  exists k, w'. split; [exact H1 |]. by destruct H2.
Defined.

Definition tracking : world state :=
  default (boot initial) (run page (boot initial) [User (ClickTab track); User (TypeTrackId " GRV-1 ")]).

(** A closed complaint without notes is said to be in process. *)
Lemma complaint_tracked_witness :
  exists k w', run page tracking (User SubmitTrack :: replies grievances (fresh tracking) k) = Some w'
    /\ option_map td_status (trackData (st w')) = Some "CLOSED"%string
    /\ option_map td_resolutionNotes (trackData (st w'))
       = Some "Your complaint has been received and is being processed by election officers."%string.
Proof.
  destruct (complaint_tracked tracking grievances) as (k & w' & H1 & _ & _ & H2 & _); [reflexivity .. |].
  exists k, w'. split; [exact H1 |]. by rewrite H2.
Defined.

Lemma voter_complaints_not_left_loading_witness : raised file (st filled_in) = false.
Proof.
  apply voter_complaints_not_left_loading; [| by vm_compute].
  apply reachable_default; [apply reach_boot | by repeat constructor].
Defined.
