(* ===== verification/StationFinder.v ===== *)
(** * Finding a polling station: [app/(public)/voter/polling-station/page.tsx]

    The stations of a constituency. What a search leaves in each case, that no search ever
    fails or finds nothing, and what is shown instead. *)
From S2P Require Import Prelude JsValue JsNumber FormatError Types ApiClient View React Alone Spinner Common Officer Portal.
From Stdlib Require Import String.

Module StationFinder.

(*@ dashboard/app/(public)/voter/polling-station/page.tsx 13 23 PollingStationItem *)
Record PollingStationItem := mk_item {
  si_id : string; si_station_code : string; si_name : string; si_constituency : string; si_location : string;
  si_status : string; si_officer_name : string; si_assigned_devices : Z; si_registered_voters : Z }.

(*@ dashboard/app/(public)/voter/polling-station/page.tsx 25 34 REFERENCE_CONSTITUENCIES *)
Definition REFERENCE_CONSTITUENCIES : list (string * string) :=
  [("Bengaluru Central", "Bengaluru Central (PC-25, Karnataka)");
   ("Bengaluru South", "Bengaluru South (PC-26, Karnataka)");
   ("Bengaluru North", "Bengaluru North (PC-24, Karnataka)");
   ("Mumbai South", "Mumbai South (PC-31, Maharashtra)");
   ("New Delhi", "New Delhi (PC-04, NCT of Delhi)");
   ("Varanasi", "Varanasi (PC-77, Uttar Pradesh)");
   ("Kolkata Uttar", "Kolkata Uttar (PC-24, West Bengal)");
   ("Chennai Central", "Chennai Central (PC-04, Tamil Nadu)")]%string.

(*@ dashboard/app/(public)/voter/polling-station/page.tsx 36 40 PollingStationPage *)
Record state := mk_state {
  mounted : bool;
  constituency : string;
  loading : bool;
  error : option string;
  results : option (list PollingStationItem) }.

Definition set_mounted (v : bool) (s : state) : state :=
  mk_state v (constituency s) (loading s) (error s) (results s).
Definition set_constituency (v : string) (s : state) : state :=
  mk_state (mounted s) v (loading s) (error s) (results s).
Definition set_loading (v : bool) (s : state) : state :=
  mk_state (mounted s) (constituency s) v (error s) (results s).
Definition set_error (v : option string) (s : state) : state :=
  mk_state (mounted s) (constituency s) (loading s) v (results s).
Definition set_results (v : option (list PollingStationItem)) (s : state) : state :=
  mk_state (mounted s) (constituency s) (loading s) (error s) v.

(*@ dashboard/app/(public)/voter/polling-station/page.tsx 36 40 PollingStationPage *)
Definition initial : state := mk_state false "Bengaluru Central" false None None.

Abbreviation M := (prog state).

(*@ dashboard/app/(public)/voter/polling-station/page.tsx 47 51 matched *)
Definition matches (selectedConst : string) (s : PollingStationResponse) : bool :=
  includes (to_lower selectedConst) (to_lower (ps_constituency s))
  || includes (to_lower (ps_constituency s)) (to_lower selectedConst).

(** [z || d] on numbers. *)
Definition num_or (z d : Z) : Z := if z =? 0 then d else z.

(*@ dashboard/app/(public)/voter/polling-station/page.tsx 54 66 matched.map *)
Definition item_of (s : PollingStationResponse) : PollingStationItem :=
  {| si_id := ps_id s; si_station_code := str_or (ps_station_code s) ("PS-" ++s last_str 3 (ps_id s));
     si_name := ps_name s; si_constituency := ps_constituency s; si_location := ps_location s;
     si_status := str_or (ps_status s) "ACTIVE"; si_officer_name := opt_or (ps_officer_name s) "Presiding Officer";
     si_assigned_devices := num_or (ps_assigned_devices s) 2;
     si_registered_voters := num_or (ps_registered_voters s) 850 |}.

(*@ dashboard/app/(public)/voter/polling-station/page.tsx 68 91 syntheticStations *)
Definition syntheticStations (selectedConst : string) : list PollingStationItem :=
  [mk_item (selectedConst ++s "-PS01") "PS-001" "Govt Higher Secondary School, Room No. 1" selectedConst
     ("Main Civic Center, Sector 4, " ++s selectedConst) "ACTIVE" "R. K. Sharma, Sector Officer" 2 920;
   mk_item (selectedConst ++s "-PS02") "PS-002" "Community Welfare Center, Ground Floor" selectedConst
     ("Near Town Hall, " ++s selectedConst) "ACTIVE" "Priya V., Presiding Officer" 2 845].

(*@ dashboard/app/(public)/voter/polling-station/page.tsx 95 118 setResults *)
Definition OFFLINE_STATIONS : list PollingStationItem :=
  [mk_item "PS-001" "PS-001" "Govt Higher Primary School, MG Road" "Bengaluru Central" "Shivajinagar, Bengaluru"
     "ACTIVE" "Rajesh Sharma" 2 500;
   mk_item "PS-002" "PS-002" "Community Center, Indiranagar 100ft Rd" "Bengaluru Central" "Indiranagar, Bengaluru"
     "ACTIVE" "Priya Sundaram" 2 500].

(*@ dashboard/app/(public)/voter/polling-station/page.tsx 47 93 setResults *)
Definition stations_of (selectedConst : string) (demoStations : list PollingStationResponse) : list PollingStationItem :=
  match List.filter (matches selectedConst) demoStations with
  | [] => syntheticStations selectedConst
  | matched => map item_of matched
  end.

(*@ dashboard/app/(public)/voter/polling-station/page.tsx 42 122 fetchStations *)
Definition fetchStations (selectedConst : string) : M unit :=
  upd (set_loading true);;
  upd (set_error None);;
  finally
    (try_catch
       (demoStations ← await (getPollingStations "EV-2026-001" None);
        upd (set_results (Some (stations_of selectedConst demoStations))))
       (fun _ => upd (set_results (Some OFFLINE_STATIONS))))
    (upd (set_loading false)).

(*@ dashboard/app/(public)/voter/polling-station/page.tsx 128 132 handleSearch *)
Definition handleSearch (s : state) : M unit :=
  if truthy_str (constituency s) then fetchStations (constituency s) else mret tt.

Inductive ui := SelectConstituency (v : string) | Submit | ClickRetry.

#[export] Instance ui_eq_dec : EqDecision ui. Proof. solve_decision. Defined.

(*@ dashboard/app/(public)/voter/polling-station/page.tsx 154 182 onChange/onSubmit/onRetry *)
Definition on_ui (u : ui) (s : state) : M unit :=
  match u with
  | SelectConstituency v => upd (set_constituency v)
  | Submit => handleSearch s
  | ClickRetry => fetchStations (constituency s)
  end.

Inductive env := Mount.

(*@ dashboard/app/(public)/voter/polling-station/page.tsx 124 126 useEffect *)
Definition on_surroundings (x : env) (s : state) : M unit :=
  match x with Mount => if mounted s then mret tt else upd (set_mounted true);; fetchStations (constituency s) end.

(*@ dashboard/app/(public)/voter/polling-station/page.tsx 204 246 results.map *)
Definition station_card (station : PollingStationItem) : list (node ui) :=
  [Text (si_station_code station);
   Badge (if String.eqb (si_status station) "ACTIVE" then "success" else "warning") (si_status station);
   Text (si_name station); Text (si_location station); Text "Officer in Charge:";
   Text (str_or (si_officer_name station) "Presiding Officer"); Text "Deployed EVMs:";
   Text (Z_to_string (num_or (si_assigned_devices station) 2) ++s " Units (CU + BU + VVPAT)")].

(*@ dashboard/app/(public)/voter/polling-station/page.tsx 185 250 results *)
Definition results_list (s : state) (l : list PollingStationItem) : list (node ui) :=
  [Text ("Polling Stations in " ++s constituency s ++s " (" ++s Z_to_string (Z.of_nat (List.length l)) ++s ")");
   Text "EVM DIGITAL TWIN COMPATIBLE"]
  ++ match l with
     | [] => [Text "No polling stations found for this constituency in the reference dataset."]
     | l => flat_map station_card l
     end.

(*@ dashboard/app/(public)/voter/polling-station/page.tsx 134 253 PollingStationPage *)
Definition render (s : state) : list (node ui) :=
  [Text "Find Polling Station";
   Text "Search your Parliamentary Constituency (PC) to view designated Polling Stations and Booth Level Officer (BLO) details.";
   Text "Electoral Hierarchy Reference (Simulation):"]
  ++ LibSelect None None (displayed REFERENCE_CONSTITUENCIES (constituency s)) REFERENCE_CONSTITUENCIES (loading s)
       SelectConstituency
  ++ LibButton "Find Stations" (loading s) (loading s || negb (truthy_str (constituency s))) Submit
  ++ match error s with
     | Some e => when (truthy_str e) (ErrorState "Search Failed" e (Some ClickRetry))
     | None => []
     end
  ++ match results s with Some l => results_list s l | None => [] end.

Definition page : component state ui env := mk_component render on_ui on_surroundings.

End StationFinder.

Import StationFinder.

#[export] Hint Unfold on_ui on_surroundings fetchStations handleSearch : prog.

(** ** Controls *)

Lemma allows_station_finder s u :
  allows (render s) u
  = match u with
    | SelectConstituency v => negb (loading s) && offers REFERENCE_CONSTITUENCIES v
    | Submit => negb (loading s) && truthy_str (constituency s)
    | ClickRetry => truthy_opt (error s)
    end.
Proof.
  unfold render, LibSelect, labelled, LibButton, ErrorState. rewrite !allows_app.
  replace (allows match results s with Some l => _ | None => _ end u) with false.
  2: { destruct (results s) as [[|x l]|]; [done | | done]. unfold results_list. rewrite allows_app, allows_flat_map_none by done. done. }
  destruct (error s) as [e|]; cbn [truthy_opt]; destruct u;
    rewrite ?allows_when, ?allows_app, ?allows_cons, ?allows_nil; cbn [fires];
    rewrite ?select_offers by congruence; decide_eqs; tidy_bool;
    rewrite ?select_other by (intros; discriminate); tidy_bool; try done;
    by destruct (loading s), (truthy_str (constituency s)).
Qed.

(** ** What a search leaves *)

(** What a search can end with: stations, never none of them, and no error. *)
Definition settled (s : state) : Prop := error s = None /\ results s <> Some [].

Lemma stations_of_some c l : stations_of c l <> [].
Proof. unfold stations_of. by destruct (List.filter (matches c) l). Qed.

Lemma fetchStations_keeps c :
  keeps settled (fun _ q => q = getPollingStations "EV-2026-001" None) (fetchStations c).
Proof.
  unfold fetchStations. keeps_auto; unfold settled; intros ? [? ?]; try done; split; try done; cbn.
  intros [= E]. by eapply stations_of_some.
Qed.

Lemma station_finder_safe :
  safe_component page settled (fun _ q => q = getPollingStations "EV-2026-001" None) (fun _ => True).
Proof.
  split.
  - intros u s _ Hs _. unfold page. cbn [on_user]. destruct u; cbn [on_ui]; [exact Hs | |].
    + unfold handleSearch. destruct (truthy_str _); [| exact Hs]. by apply keeps_handles; [apply fetchStations_keeps |].
    + by apply keeps_handles; [apply fetchStations_keeps |].
  - intros [] s _ Hs. unfold page. cbn [on_env on_surroundings]. destruct (mounted s); [exact Hs |].
    apply keeps_handles; [| exact Hs]. apply keeps_bind; [by apply keeps_upd | intros _; apply fetchStations_keeps].
Qed.

(** C23. In every interleaving, whatever is answered: no search finds nothing, no error is shown,
    and its retry button is never there; only the stations of one fixed election are asked
    for, without credentials. *)
Theorem station_finder_never_fails w :
  reachable page (fun _ => True) initial w ->
  error (st w) = None /\ results (st w) <> Some [] /\ allows (render (st w)) ClickRetry = false
  /\ forall s q, In (s, q) (sent w) -> q = getPollingStations "EV-2026-001" None.
Proof.
  intros Hw. assert (settled initial) as H0 by (by split).
  destruct (reachable_good _ _ _ _ station_finder_safe initial w H0 Hw) as [[H1 H2] _ Hs].
  split_and!; [done | done | by rewrite allows_station_finder, H1 |].
  intros s q Hin. exact (Forall_In _ _ _ Hs Hin).
Qed.

Lemma fetchStations_alone f c s :
  alone f (fetchStations c) s
  = Some (mk_ending (inl tt)
       (set_loading false (set_results (Some match f (getPollingStations "EV-2026-001" None) with
                                             | Ok l => stations_of c l | Err _ => OFFLINE_STATIONS end)
                             (set_error None (set_loading true s))))
       [(set_error None (set_loading true s), getPollingStations "EV-2026-001" None)]).
Proof.
  unfold fetchStations. destruct (f (getPollingStations "EV-2026-001" None)) eqn:E; alone_auto; reflexivity.
Qed.

(** A search ends with the backend's stations whose constituency matches the one chosen, in
    their order; with two made-up ones under its name if none does; and with two of
    Bengaluru Central, whatever was chosen, if the backend cannot be reached. *)
Theorem stations_found w (f : forall r, outcome (resp r)) :
  tasks w = [] -> loading (st w) = false -> truthy_str (constituency (st w)) = true ->
  exists k w', run page w (User Submit :: replies f (fresh w) k) = Some w'
    /\ tasks w' = [] /\ loading (st w') = false /\ constituency (st w') = constituency (st w)
    /\ results (st w')
       = Some match f (getPollingStations "EV-2026-001" None) with
              | Ok l => if existsb (matches (constituency (st w))) l
                        then map item_of (List.filter (matches (constituency (st w))) l)
                        else syntheticStations (constituency (st w))
              | Err _ => OFFLINE_STATIONS
              end.
Proof.
  intros Ht Hl Hc.
  edestruct (click_alone f page w Submit) as (k & w' & H1 & H2 & H3 & _);
    [done | by rewrite allows_station_finder, Hl, Hc
    | unfold page; cbn [on_user on_ui]; unfold handleSearch; rewrite Hc; apply fetchStations_alone |].
  exists k, w'. rewrite H3. split_and!; try done. cbn. f_equal.
  destruct (f (getPollingStations "EV-2026-001" None)) as [l|e]; [| done]. unfold stations_of.
  destruct (existsb _ l) eqn:E.
  - destruct (List.filter (matches (constituency (st w))) l) eqn:El; [| done].
    apply existsb_exists in E as (x & Hx & Hm).
    assert (In x (List.filter (matches (constituency (st w))) l)) as Hin by (by apply filter_In). by rewrite El in Hin.
  - destruct (List.filter (matches (constituency (st w))) l) as [|x l'] eqn:El; [done |].
    assert (In x (List.filter (matches (constituency (st w))) l)) as [Hx Hm]%filter_In by (rewrite El; by left).
    apply not_true_iff_false in E. exfalso. apply E, existsb_exists. eauto.
Qed.

(** A station without devices or voters is shown with two units, and one without a
    constituency is found for every constituency. *)
Theorem empty_station_shown c s :
  ps_assigned_devices s = 0 -> ps_registered_voters s = 0 -> ps_constituency s = EmptyString ->
  matches c s = true /\ si_registered_voters (item_of s) = 850
  /\ In (Text "2 Units (CU + BU + VVPAT)") (station_card (item_of s)).
Proof.
  intros Hd Hv Hc. unfold matches. rewrite Hc. split_and!.
  - apply orb_true_iff. right. by destruct (to_lower c).
  - cbn. by rewrite Hv.
  - unfold station_card. cbn [si_assigned_devices item_of]. rewrite Hd. cbn -[Z_to_string String.append]. auto 10.
Qed.

(** ** The loading flag *)

Lemma fetchStations_lowers c b s0 s :
  low (fun _ => True) loading b (fetchStations c) (fun b _ => fine loading b) (fun b _ => fine loading b) s0 s.
Proof. unfold fetchStations. do 2 apply low_upd. apply lowers_at_end; [done | timerless_auto]. Qed.

Lemma station_finder_lowers : lowering_component page (fun _ => True) (fun _ => True) loading.
Proof.
  split.
  - intros u s _ _ _. unfold lowers, page. cbn [on_user]. destruct u; cbn [on_ui]; [by split | | apply fetchStations_lowers].
    unfold handleSearch. destruct (truthy_str _); [apply fetchStations_lowers | by split].
  - intros [] s _ _. unfold lowers, page. cbn [on_env on_surroundings]. destruct (mounted s); [by split |].
    apply low_upd, fetchStations_lowers.
Qed.

Theorem station_finder_not_left_loading w :
  reachable page (fun _ => True) initial w -> idle w = true -> loading (st w) = false.
Proof. intros Hw Hi. by eapply never_left_busy; [apply station_finder_lowers | | exact Hw | exact Hi]. Qed.

(** ** Concrete runs *)

Definition a_station (c : string) : PollingStationResponse :=
  {| ps_id := "7f3"; ps_election_id := "EV-2026-001"; ps_station_code := ""; ps_name := "School"; ps_constituency := c;
     ps_location := "Main Road"; ps_assigned_devices := 0; ps_registered_voters := 0; ps_votes_cast := 0;
     ps_status := "SETUP"; ps_officer_name := None; ps_created_at := "2026-01-01T00:00:00Z" |}.

Definition stations_answer (l : list PollingStationResponse) : forall r, outcome (resp r) :=
  fun r => match r as r return outcome (resp r) with
           | getPollingStations _ _ => Ok l
           | _ => Err (plain_error "Error" "offline")
           end.

Definition no_answer : forall r, outcome (resp r) := fun r => Err (plain_error "Error" "offline").

Definition found_world : world state :=
  default (boot initial) (run page (boot initial)
    [Env Mount; Reply 0 (answers (stations_answer [a_station "Mumbai South"])); User (SelectConstituency "Mumbai South")]).

Lemma station_finder_never_fails_witness : error (st found_world) = None /\ results (st found_world) <> Some [].
Proof.
  destruct (station_finder_never_fails found_world) as (H1 & H2 & _); [| by split].
  apply reachable_default; [apply reach_boot | by repeat constructor].
Defined.

Lemma stations_found_witness :
  exists k w', run page found_world
      (User Submit :: replies (stations_answer [a_station "Mumbai South"]) (fresh found_world) k) = Some w'
    /\ results (st w') = Some [item_of (a_station "Mumbai South")].
Proof.
  destruct (stations_found found_world (stations_answer [a_station "Mumbai South"])) as (k & w' & H1 & _ & _ & _ & H2);
    [reflexivity .. |]. exists k, w'. split; [exact H1 |]. rewrite H2. by vm_compute.
Defined.

Lemma empty_station_shown_witness : matches "Varanasi" (a_station "") = true.
Proof. refine (proj1 (empty_station_shown "Varanasi" (a_station "") _ _ _)); reflexivity. Defined.

Lemma station_finder_not_left_loading_witness : loading (st found_world) = false.
Proof.
  apply station_finder_not_left_loading; [| by vm_compute].
  apply reachable_default; [apply reach_boot | by repeat constructor].
Defined.

(** Choosing another constituency puts its name over the stations of the one before; and
    without a backend the search then shows the stations of Bengaluru Central. *)
Theorem stations_under_another_name :
  exists w, run page found_world [User Submit; Reply 1 (answers no_answer)] = Some w
    /\ results (st found_world) = Some (syntheticStations "Bengaluru Central")
    /\ shows (render (st found_world)) "Polling Stations in Mumbai South (2)" = true
    /\ shows (render (st w)) "Polling Stations in Mumbai South (2)" = true
    /\ results (st w) = Some OFFLINE_STATIONS.
Proof. apply run_witness. vm_compute. by split_and!. Qed.
