(* ===== verification/Overseas.v ===== *)
(** * Overseas electors: [app/(public)/voter/overseas/page.tsx]

    The enrolment form and the consular simulation. What is sent and what it ends with; that
    the dual control of the consulate is not asked for; and what loading the framework is
    for. *)
From S2P Require Import Prelude JsValue JsNumber FormatError Types ApiClient View React Alone Spinner Officer Portal.
From Stdlib Require Import String.

Module Overseas.

(*@ dashboard/app/(public)/voter/overseas/page.tsx 21 21 activeTab *)
Inductive tab := mode_a | mode_b.

#[export] Instance tab_eq_dec : EqDecision tab. Proof. solve_decision. Defined.

(** [alerts] is what [alert] showed. *)
(*@ dashboard/app/(public)/voter/overseas/page.tsx 20 37 OverseasVotingPage *)
Record state := mk_state {
  mounted : bool;
  activeTab : tab;
  framework : value;
  fullName : string;
  passportNumber : string;
  country : string;
  visaType : string;
  constituency : string;
  dob : string;
  form6aResult : value;
  submitting6A : bool;
  consulateCity : string;
  consularResult : value;
  simulatingConsular : bool;
  alerts : list string }.

Definition set_mounted (v : bool) (s : state) : state :=
  mk_state v (activeTab s) (framework s) (fullName s) (passportNumber s) (country s)
    (visaType s) (constituency s) (dob s) (form6aResult s) (submitting6A s) (consulateCity s)
    (consularResult s) (simulatingConsular s) (alerts s).
Definition set_activeTab (v : tab) (s : state) : state :=
  mk_state (mounted s) v (framework s) (fullName s) (passportNumber s) (country s) (visaType s)
    (constituency s) (dob s) (form6aResult s) (submitting6A s) (consulateCity s)
    (consularResult s) (simulatingConsular s) (alerts s).
Definition set_framework (v : value) (s : state) : state :=
  mk_state (mounted s) (activeTab s) v (fullName s) (passportNumber s) (country s) (visaType s)
    (constituency s) (dob s) (form6aResult s) (submitting6A s) (consulateCity s)
    (consularResult s) (simulatingConsular s) (alerts s).
Definition set_fullName (v : string) (s : state) : state :=
  mk_state (mounted s) (activeTab s) (framework s) v (passportNumber s) (country s)
    (visaType s) (constituency s) (dob s) (form6aResult s) (submitting6A s) (consulateCity s)
    (consularResult s) (simulatingConsular s) (alerts s).
Definition set_passportNumber (v : string) (s : state) : state :=
  mk_state (mounted s) (activeTab s) (framework s) (fullName s) v (country s) (visaType s)
    (constituency s) (dob s) (form6aResult s) (submitting6A s) (consulateCity s)
    (consularResult s) (simulatingConsular s) (alerts s).
Definition set_country (v : string) (s : state) : state :=
  mk_state (mounted s) (activeTab s) (framework s) (fullName s) (passportNumber s) v
    (visaType s) (constituency s) (dob s) (form6aResult s) (submitting6A s) (consulateCity s)
    (consularResult s) (simulatingConsular s) (alerts s).
Definition set_visaType (v : string) (s : state) : state :=
  mk_state (mounted s) (activeTab s) (framework s) (fullName s) (passportNumber s) (country s)
    v (constituency s) (dob s) (form6aResult s) (submitting6A s) (consulateCity s)
    (consularResult s) (simulatingConsular s) (alerts s).
Definition set_constituency (v : string) (s : state) : state :=
  mk_state (mounted s) (activeTab s) (framework s) (fullName s) (passportNumber s) (country s)
    (visaType s) v (dob s) (form6aResult s) (submitting6A s) (consulateCity s)
    (consularResult s) (simulatingConsular s) (alerts s).
Definition set_dob (v : string) (s : state) : state :=
  mk_state (mounted s) (activeTab s) (framework s) (fullName s) (passportNumber s) (country s)
    (visaType s) (constituency s) v (form6aResult s) (submitting6A s) (consulateCity s)
    (consularResult s) (simulatingConsular s) (alerts s).
Definition set_form6aResult (v : value) (s : state) : state :=
  mk_state (mounted s) (activeTab s) (framework s) (fullName s) (passportNumber s) (country s)
    (visaType s) (constituency s) (dob s) v (submitting6A s) (consulateCity s)
    (consularResult s) (simulatingConsular s) (alerts s).
Definition set_submitting6A (v : bool) (s : state) : state :=
  mk_state (mounted s) (activeTab s) (framework s) (fullName s) (passportNumber s) (country s)
    (visaType s) (constituency s) (dob s) (form6aResult s) v (consulateCity s)
    (consularResult s) (simulatingConsular s) (alerts s).
Definition set_consulateCity (v : string) (s : state) : state :=
  mk_state (mounted s) (activeTab s) (framework s) (fullName s) (passportNumber s) (country s)
    (visaType s) (constituency s) (dob s) (form6aResult s) (submitting6A s) v
    (consularResult s) (simulatingConsular s) (alerts s).
Definition set_consularResult (v : value) (s : state) : state :=
  mk_state (mounted s) (activeTab s) (framework s) (fullName s) (passportNumber s) (country s)
    (visaType s) (constituency s) (dob s) (form6aResult s) (submitting6A s) (consulateCity s) v
    (simulatingConsular s) (alerts s).
Definition set_simulatingConsular (v : bool) (s : state) : state :=
  mk_state (mounted s) (activeTab s) (framework s) (fullName s) (passportNumber s) (country s)
    (visaType s) (constituency s) (dob s) (form6aResult s) (submitting6A s) (consulateCity s)
    (consularResult s) v (alerts s).
Definition set_alerts (v : list string) (s : state) : state :=
  mk_state (mounted s) (activeTab s) (framework s) (fullName s) (passportNumber s) (country s)
    (visaType s) (constituency s) (dob s) (form6aResult s) (submitting6A s) (consulateCity s)
    (consularResult s) (simulatingConsular s) v.

(*@ dashboard/app/(public)/voter/overseas/page.tsx 20 37 OverseasVotingPage *)
Definition initial : state :=
  mk_state false mode_a VNull "Rohit Verma" "Z8941275" "United States" "H-1B Specialty Occupation" "Bengaluru Central"
    "1989-08-14" VNull false "San Francisco" VNull false [].

Abbreviation M := (prog state).

(*@ dashboard/app/(public)/voter/overseas/page.tsx 40 47 loadFramework *)
Definition loadFramework : M unit :=
  try_catch (data ← await getOverseasFramework; upd (set_framework data)) (fun _ => mret tt).

(*@ dashboard/app/(public)/voter/overseas/page.tsx 55 62 submitForm6A *)
Definition form6A (s : state) : req :=
  submitForm6A (VObj [("full_name", VStr (fullName s)); ("passport_number", VStr (passportNumber s));
    ("country_of_residence", VStr (country s)); ("visa_type", VStr (visaType s));
    ("home_constituency", VStr (constituency s)); ("date_of_birth", VStr (dob s))]%string).

(** [alert(`... ${err.message}`)]. *)
Definition alert (prefix : string) (err : error_obj) : M unit :=
  upd (fun prev => set_alerts (alerts prev ++ [prefix ++s e_message err]) prev).

(*@ dashboard/app/(public)/voter/overseas/page.tsx 51 69 handleForm6ASubmit *)
Definition handleForm6ASubmit (s : state) : M unit :=
  finally
    (try_catch
       (upd (set_submitting6A true);;
        res ← await (form6A s);
        upd (set_form6aResult res))
       (alert "Submission failed: "))
    (upd (set_submitting6A false)).

(*@ dashboard/app/(public)/voter/overseas/page.tsx 74 79 simulateConsularSession *)
Definition consular (s : state) : req :=
  simulateConsularSession (VObj [("passport_number", VStr (passportNumber s)); ("country", VStr (country s));
    ("consulate_city", VStr (consulateCity s)); ("election_id", VStr "EV-2026-001")]%string).

(*@ dashboard/app/(public)/voter/overseas/page.tsx 71 86 handleConsularSimulate *)
Definition handleConsularSimulate (s : state) : M unit :=
  finally
    (try_catch
       (upd (set_simulatingConsular true);;
        res ← await (consular s);
        upd (set_consularResult res))
       (alert "Simulation failed: "))
    (upd (set_simulatingConsular false)).

Inductive ui :=
| ClickTab (t : tab) | TypeName (v : string) | TypePassport (v : string) | TypeCountry (v : string) | TypeVisa (v : string)
| TypeConstituency (v : string) | TypeDob (v : string) | Submit | SelectConsulate (v : string) | ClickSimulate.

#[export] Instance ui_eq_dec : EqDecision ui. Proof. solve_decision. Defined.

(*@ dashboard/app/(public)/voter/overseas/page.tsx 105 363 onClick/onChange/onSubmit *)
Definition on_ui (u : ui) (s : state) : M unit :=
  match u with
  | ClickTab t => upd (set_activeTab t)
  | TypeName v => upd (set_fullName v)
  | TypePassport v => upd (set_passportNumber v)
  | TypeCountry v => upd (set_country v)
  | TypeVisa v => upd (set_visaType v)
  | TypeConstituency v => upd (set_constituency v)
  | TypeDob v => upd (set_dob v)
  | Submit => handleForm6ASubmit s
  | SelectConsulate v => upd (set_consulateCity v)
  | ClickSimulate => handleConsularSimulate s
  end.

Inductive env := Mount.

(*@ dashboard/app/(public)/voter/overseas/page.tsx 39 49 useEffect *)
Definition on_surroundings (x : env) (s : state) : M unit :=
  match x with Mount => if mounted s then mret tt else upd (set_mounted true);; loadFramework end.

(** The six fields are [required]. *)
(*@ dashboard/app/(public)/voter/overseas/page.tsx 162 224 required *)
Definition form_valid (s : state) : bool :=
  filled (fullName s) && filled (passportNumber s) && filled (country s) && filled (visaType s)
  && filled (constituency s) && filled (dob s).

(*@ dashboard/app/(public)/voter/overseas/page.tsx 158 235 form *)
Definition enrollment_form (s : state) : list (node ui) :=
  [Field "Full Legal Name (as in Passport)" (fullName s) false (fun u => match u with TypeName _ => true | _ => false end);
   Field "Passport Number (Indian Passport)" (passportNumber s) false (fun u => match u with TypePassport _ => true | _ => false end);
   Field "Current Country of Residence" (country s) false (fun u => match u with TypeCountry _ => true | _ => false end);
   Field "Overseas Visa / Residence Category" (visaType s) false (fun u => match u with TypeVisa _ => true | _ => false end);
   Field "Home Constituency in India" (constituency s) false (fun u => match u with TypeConstituency _ => true | _ => false end);
   Field "Date of Birth" (dob s) false (fun u => match u with TypeDob _ => true | _ => false end);
   Button (if submitting6A s then "Processing Application..." else "Submit Simulated Form 6A Application")
     (submitting6A s || negb (form_valid s)) Submit].

(** The text of a key of an answer. *)
Definition at_key (k : string) (v : value) : string := child (prop k v).

(*@ dashboard/app/(public)/voter/overseas/page.tsx 239 292 form6aResult *)
Definition form6a_receipt (s : state) : list (node ui) :=
  if truthy (form6aResult s)
  then [Text "Form 6A Enrollment Simulated"; Text "Ref Number:"; Text (at_key "reference_number" (form6aResult s));
        Text "Applicant:"; Text (at_key "applicant_name" (form6aResult s)); Text "Passport Pseudonym:";
        Text (at_key "passport_pseudonym" (form6aResult s)); Text "Allocated Station:";
        Text (at_key "assigned_polling_station" (form6aResult s)); Text "Constituency:";
        Text (at_key "registered_constituency" (form6aResult s)); Text "In-Person Polling Requirement:";
        Text (at_key "voting_requirement" (form6aResult s)); Link "/map" "View Constituency on Map"]
  else [Text "Form 6A Status Preview";
        Text "Submit the simulated enrollment form on the left to inspect the generated reference number, pseudonymized identifier, and home polling station allocation."].

(*@ dashboard/app/(public)/voter/overseas/page.tsx 129 295 OverseasVotingPage *)
Definition statutory_mode (s : state) : list (node ui) :=
  [Text "Current Law Under Representation of the People Act, 1950 (§20A):";
   Text "Simulate Form 6A Overseas Enrollment"; Text "Form 6A (Sec 20A)"; Text "⚠ SYNTHETIC DATA ONLY:"]
  ++ enrollment_form s ++ form6a_receipt s.

(*@ dashboard/app/(public)/voter/overseas/page.tsx 333 337 option *)
Definition CONSULATES : list (string * string) :=
  [("San Francisco", "Consulate General of India, San Francisco (USA)");
   ("New York", "Consulate General of India, New York (USA)");
   ("London", "High Commission of India, London (UK)");
   ("Dubai", "Consulate General of India, Dubai (UAE)");
   ("Singapore", "High Commission of India, Singapore")]%string.

(** [v?.map], for an array. *)
Definition elements (v : value) : list value := match v with VArr l => l | _ => [] end.

(*@ dashboard/app/(public)/voter/overseas/page.tsx 372 424 consularResult *)
Definition consular_receipt (s : state) : list (node ui) :=
  if truthy (consularResult s)
  then [Text "RESEARCH PROPOSAL RECEIPT"; Text (at_key "tamper_evident_seal_id" (consularResult s));
        Text "Mission Location:"; Text (at_key "consulate" (consularResult s));
        Text "Session Authorization Token:"; Text (at_key "session_token" (consularResult s));
        Text "Diplomatic Custody Hash:"; Text (at_key "diplomatic_custody_hash" (consularResult s));
        Text "Dual Custody Witnesses:"]
       ++ map (fun o => Text ("• " ++s child o)) (elements (prop "dual_custody_officers" (consularResult s)))
       ++ [Text (at_key "advisory_notice" (consularResult s)); Link "/evm" "Proceed to Simulated Ballot Terminal"]
  else [Text "Consular Session Pending";
        Text "Select a diplomatic mission and simulate the dual-control sign-off protocol to generate the cryptographic session authorization token."].

(*@ dashboard/app/(public)/voter/overseas/page.tsx 298 428 OverseasVotingPage *)
Definition research_mode (s : state) : list (node ui) :=
  [Text "SecureVOTE Academic Research Prototype — Consular Polling Protocol:";
   Text "RESEARCH PROPOSAL — NOT CURRENT INDIAN ELECTION PROCEDURE"; Text "Consular Booth Dual-Control Simulator";
   Select (displayed CONSULATES (consulateCity s)) CONSULATES false SelectConsulate;
   Text "Dual-Control Custody Key Protocol"; Text "Officer 1: KEY-DIP-AUTH-88A"; Text "Officer 2: KEY-DIP-OBSV-42C";
   Button (if simulatingConsular s then "Simulating Protocol..." else "Generate Consular Authorization Token")
     (simulatingConsular s) ClickSimulate]
  ++ consular_receipt s.

(*@ dashboard/app/(public)/voter/overseas/page.tsx 88 431 OverseasVotingPage *)
Definition render (s : state) : list (node ui) :=
  [Text "DUAL-MODE OVERSEAS (NRI) CITIZEN ELECTOR SIMULATION"; Text "Overseas / NRI Elector Portal";
   Button "Mode A: Current Statutory Rule" false (ClickTab mode_a);
   Button "Mode B: Consular Research Lab" false (ClickTab mode_b)]
  ++ match activeTab s with mode_a => statutory_mode s | mode_b => research_mode s end.

Definition page : component state ui env := mk_component render on_ui on_surroundings.

End Overseas.

Import Overseas.

#[export] Hint Unfold on_ui on_surroundings loadFramework handleForm6ASubmit handleConsularSimulate alert : prog.

(** ** Controls *)

Lemma allows_overseas s u :
  allows (render s) u
  = match u with
    | ClickTab _ => true
    | TypeName _ | TypePassport _ | TypeCountry _ | TypeVisa _ | TypeConstituency _ | TypeDob _ =>
        bool_decide (activeTab s = mode_a)
    | Submit => bool_decide (activeTab s = mode_a) && negb (submitting6A s) && form_valid s
    | SelectConsulate v => bool_decide (activeTab s = mode_b) && offers CONSULATES v
    | ClickSimulate => bool_decide (activeTab s = mode_b) && negb (simulatingConsular s)
    end.
Proof.
  unfold render. rewrite allows_app. destruct (activeTab s).
  - rewrite (bool_decide_eq_true_2 (mode_a = mode_a)), (bool_decide_eq_false_2 (mode_a = mode_b)) by done.
    unfold statutory_mode. rewrite !allows_app.
    replace (allows (form6a_receipt s) u) with false by (unfold form6a_receipt; by destruct (truthy (form6aResult s))).
    unfold enrollment_form. destruct u as [[|]| | | | | | | | |]; read_page; done.
  - rewrite (bool_decide_eq_true_2 (mode_b = mode_b)), (bool_decide_eq_false_2 (mode_b = mode_a)) by done.
    unfold research_mode. rewrite !allows_app.
    replace (allows (consular_receipt s) u) with false.
    2: { unfold consular_receipt. destruct (truthy (consularResult s)); [| done].
         by rewrite !allows_app, allows_map_none by done. }
    destruct u as [[|]| | | | | | | | |]; rewrite ?allows_cons, ?allows_nil; cbn [fires];
      rewrite ?select_offers by congruence; decide_eqs; tidy_bool;
      rewrite ?select_other by (intros; discriminate); by tidy_bool.
Qed.

(** ** Requests *)

Definition Sends (s : state) (q : req) : Prop :=
  q = getOverseasFramework \/ q = form6A s /\ form_valid s = true \/ q = consular s.

Lemma overseas_safe : safe_component page (fun _ => True) Sends (fun _ => True).
Proof.
  split.
  - intros u s _ _ Ha. change (allows (render s) u = true) in Ha. rewrite allows_overseas in Ha.
    unfold page. cbn [on_user]. destruct u; try done; cbn [on_ui]; unfold handleForm6ASubmit, handleConsularSimulate;
      apply (wp_wpf (fun _ => True) Sends false), wpf_finally, wpf_try, wpf_upd; cbn.
    + apply andb_true_iff in Ha as [_ Hv]. split_and!; [done | | by intros [?|?]].
      apply Forall_singleton. right. left. by split.
    + split_and!; [done | | by intros [?|?]]. apply Forall_singleton. by right; right.
  - intros [] s _ _. unfold page. cbn [on_env on_surroundings]. destruct (mounted s); [done |].
    apply keeps_handles; [| done]. unfold loadFramework. keeps_auto. intros s' _. by left.
Qed.

(** In every interleaving the form is only sent with its six fields filled, and a consular
    session is asked for with the passport, the country, the city and one fixed election and
    nothing else: neither officer's key, though the page says both must be entered. *)
Theorem overseas_requests w s q :
  reachable page (fun _ => True) initial w -> In (s, q) (sent w) -> Sends s q.
Proof.
  intros Hw Hin. destruct (reachable_good _ _ _ _ overseas_safe initial w I Hw) as [_ _ Hs].
  exact (Forall_In _ _ _ Hs Hin).
Qed.

(** ** What is shown *)

(** An enrolment ends with the backend's receipt, or with one alert and the receipt that was
    there before. *)
Theorem form6a_submitted w (f : forall r, outcome (resp r)) :
  tasks w = [] -> allows (render (st w)) Submit = true ->
  exists k w', run page w (User Submit :: replies f (fresh w) k) = Some w'
    /\ tasks w' = [] /\ submitting6A (st w') = false /\ form6A (st w') = form6A (st w)
    /\ match f (form6A (st w)) with
       | Ok r => form6aResult (st w') = r /\ alerts (st w') = alerts (st w)
       | Err e => form6aResult (st w') = form6aResult (st w)
                  /\ alerts (st w') = alerts (st w) ++ ["Submission failed: " ++s e_message e]
       end.
Proof.
  intros Ht Hu. unfold form6A. destruct (f (submitForm6A _)) as [r|e] eqn:E;
    (edestruct (click_alone f page w Submit) as (k & w' & H1 & H2 & H3 & _);
      [done | exact Hu | unfold page; cbn [on_user on_ui]; unfold handleForm6ASubmit, alert, form6A; alone_auto; reflexivity |]);
    exists k, w'; rewrite H3; by split_and!.
Qed.

(** The same for the consular session. *)
Theorem consular_simulated w (f : forall r, outcome (resp r)) :
  tasks w = [] -> allows (render (st w)) ClickSimulate = true ->
  exists k w', run page w (User ClickSimulate :: replies f (fresh w) k) = Some w'
    /\ tasks w' = [] /\ simulatingConsular (st w') = false
    /\ match f (consular (st w)) with
       | Ok r => consularResult (st w') = r /\ alerts (st w') = alerts (st w)
       | Err e => consularResult (st w') = consularResult (st w)
                  /\ alerts (st w') = alerts (st w) ++ ["Simulation failed: " ++s e_message e]
       end.
Proof.
  intros Ht Hu. unfold consular. destruct (f (simulateConsularSession _)) as [r|e] eqn:E;
    (edestruct (click_alone f page w ClickSimulate) as (k & w' & H1 & H2 & H3 & _);
      [done | exact Hu | unfold page; cbn [on_user on_ui]; unfold handleConsularSimulate, alert, consular; alone_auto; reflexivity |]);
    exists k, w'; rewrite H3; by split_and!.
Qed.

(** The framework that is loaded is never shown. *)
Theorem framework_never_shown s v : render (set_framework v s) = render s.
Proof. done. Qed.

(** ** The loading flags *)

Definition raised (t : tab) (s : state) : bool :=
  match t with mode_a => submitting6A s | mode_b => simulatingConsular s end.

Lemma overseas_lowers t : lowering_component page (fun _ => True) (fun _ => True) (raised t).
Proof.
  split.
  - intros u s _ _ _. unfold lowers, page. cbn [on_user].
    destruct u; cbn [on_ui]; try (by destruct t); unfold handleForm6ASubmit, handleConsularSimulate;
      destruct t; first [ apply lowers_at_end; [done | timerless_auto] | apply low_calm; [calm_auto | done] ].
  - intros [] s _ _. unfold lowers, page. cbn [on_env on_surroundings]. destruct (mounted s); [by destruct t |].
    apply low_upd. apply low_calm; [unfold loadFramework; calm_auto | by destruct t].
Qed.

Theorem overseas_not_left_loading t w :
  reachable page (fun _ => True) initial w -> idle w = true -> raised t (st w) = false.
Proof. intros Hw Hi. destruct t; (by eapply never_left_busy; [apply (overseas_lowers _) | | exact Hw | exact Hi]). Qed.

(** ** Concrete runs *)

Definition consulate : forall r, outcome (resp r) :=
  fun r => match r as r return outcome (resp r) with
           | submitForm6A _ => Ok (VObj [("reference_number", VStr "NRI-6A-1")]%string)
           | simulateConsularSession _ => Err (plain_error "ApiError" "Election not found")
           | _ => Err (plain_error "Error" "offline")
           end.

Definition in_lab : world state := default (boot initial) (run page (boot initial) [User (ClickTab mode_b)]).

Lemma overseas_requests_witness :
  let w := default in_lab (run page in_lab [User ClickSimulate]) in
  Forall (fun '(s, q) => Sends s q) (sent w) /\ List.length (sent w) = 1%nat.
Proof.
  intros w. split; [| by vm_compute]. apply Forall_forall. intros [s q] Hin%list_elem_of_In.
  refine (overseas_requests w s q _ Hin).
  apply reachable_default; [apply reachable_default; [apply reach_boot |] |]; by repeat constructor.
Defined.

Lemma form6a_submitted_witness :
  exists k w', run page (boot initial) (User Submit :: replies consulate 0 k) = Some w'
    /\ shows (render (st w')) "NRI-6A-1" = true.
Proof.
  destruct (form6a_submitted (boot initial) consulate) as (k & w' & H1 & _ & _ & _ & H2 & _);
    [reflexivity | by vm_compute |].
  exists k, w'. split; [exact H1 |]. unfold render. rewrite !shows_app. apply orb_true_iff. right.
  destruct (activeTab (st w')) eqn:Et.
  - unfold statutory_mode, form6a_receipt. rewrite H2, !shows_app. by cbn; rewrite !orb_true_r.
  - exfalso. revert H1 Et. destruct k as [|[|k]]; cbn; [by intros [= <-] | by intros [= <-] | done].
Defined.

Lemma consular_simulated_witness :
  exists k w', run page in_lab (User ClickSimulate :: replies consulate (fresh in_lab) k) = Some w'
    /\ alerts (st w') = ["Simulation failed: Election not found"%string].
Proof.
  destruct (consular_simulated in_lab consulate) as (k & w' & H1 & _ & _ & _ & H2);
    [reflexivity | by vm_compute |].
  exists k, w'. split; [exact H1 |]. exact H2.
Defined.

Lemma overseas_not_left_loading_witness : raised mode_b (st in_lab) = false.
Proof.
  apply overseas_not_left_loading; [| by vm_compute].
  apply reachable_default; [apply reach_boot | by repeat constructor].
Defined.
