(* ===== verification/PublicCandidates.v ===== *)
(** * The candidates' page of the public: [app/(public)/voter/candidates/page.tsx]

    The page and its hook, run together: the hook's program on the hook's part of the page's
    state, then the page's effect on the election the hook chose. What mounting the page
    ends with for every backend, what it asks for, and that it is not left loading. *)
From S2P Require Import Prelude JsValue JsNumber FormatError Types ApiClient View React Alone Spinner Common ActiveElection Officer.
From Stdlib Require Import String.

(** ** Programs on a part of the state *)

Section Zoom.
Context {S T : Type} (get : S -> T) (set : T -> S -> S).
Context (get_set : forall t s, get (set t s) = t) (set_set : forall t t' s, set t (set t' s) = set t s)
        (set_get : forall s, set (get s) s = s).

(** What a program on a part ends with, when nothing else happens: what it ends with there. *)
Lemma alone_zoom f {A} (p : prog T A) s :
  alone f (zoom get set p) s
  = match alone f p (get s) with
    | Some r => Some (mk_ending (ended r) (set (left_in r) s) (map (fun '(t, q) => (set t s, q)) (asked r)))
    | None => None
    end.
Proof.
  revert s. induction p as [A a|A e|A g k IH|A k IH|A q k IH|A ms k IH|A every ms body _ k IH|A id k IH|A k IH];
    intros s; cbn [zoom alone]; try done.
  - cbn. by rewrite set_get.
  - cbn. by rewrite set_get.
  - rewrite IH, get_set. destruct (alone f k (g (get s))) as [[r t l]|]; [| done]. cbn. rewrite set_set. do 2 f_equal.
    apply map_ext. intros [t' q]. by rewrite set_set.
  - rewrite IH. destruct (alone f (k _) (get s)) as [[r t l]|]; [| done]. cbn. do 2 f_equal. rewrite map_app, map_map.
    f_equal. apply map_ext. intros q'. by rewrite set_get.
Qed.
End Zoom.

Lemma timerless_zoom {S T A} (get : S -> T) (set : T -> S -> S) (p : prog T A) :
  timerless p -> timerless (zoom get set p).
Proof.
  induction p as [A a|A e|A g k IH|A k IH|A q k IH|A ms k IH|A every ms body _ k IH|A id k IH|A k IH];
    cbn; try done; eauto.
Qed.

#[local] Arguments ActiveElection.choose : simpl never.

(** What the hook asks: the public list only when the officer's is refused or empty. *)
Definition hook_requests (f : forall r, outcome (resp r)) : list req :=
  getElections None
  :: match f (getElections None) with Ok (_ :: _) => [] | _ => [getTransparencyElections] end.

(** The hook alone: it ends with its choice among the available elections. *)
Lemma fetch_alone f s :
  alone f ActiveElection.fetch s
  = Some (mk_ending (inl tt)
       (ActiveElection.set_loading false
          match ActiveElection.choose (available f) with
          | Some e => ActiveElection.set_election (Some (ActiveElection.named e)) s
          | None => s
          end) (map (fun q => (s, q)) (hook_requests f))).
Proof.
  unfold available, hook_requests, ActiveElection.fetch, ActiveElection.candidates_for_choice. cbn.
  destruct (f (getElections None)) as [[|e l]|err]; cbn;
    [destruct (f getTransparencyElections) as [l|err']; cbn | | destruct (f getTransparencyElections) as [l|err']; cbn];
    try destruct (ActiveElection.choose _); cbn; reflexivity.
Qed.

Module PublicCandidates.

(** [hook] is what [useActiveElection] keeps. *)
(*@ dashboard/app/(public)/voter/candidates/page.tsx 13 17 CandidatesPage *)
Record state := mk_state {
  hook : ActiveElection.state;
  candidates : list CandidateResponse;
  loading : bool;
  error : option string }.

Definition set_hook (v : ActiveElection.state) (s : state) : state :=
  mk_state v (candidates s) (loading s) (error s).
Definition set_candidates (v : list CandidateResponse) (s : state) : state :=
  mk_state (hook s) v (loading s) (error s).
Definition set_loading (v : bool) (s : state) : state :=
  mk_state (hook s) (candidates s) v (error s).
Definition set_error (v : option string) (s : state) : state :=
  mk_state (hook s) (candidates s) (loading s) v.

(*@ dashboard/app/(public)/voter/candidates/page.tsx 13 17 CandidatesPage *)
Definition initial : state := mk_state ActiveElection.initial [] false None.

Abbreviation M := (prog state).

(*@ dashboard/app/(public)/voter/candidates/page.tsx 22 32 fetchCandidates *)
Definition fetchCandidates (e : ActiveElection.ActiveElection) : M unit :=
  busy set_loading set_error
    (response ← await (getTransparencyCandidates (ActiveElection.ae_id e));
     upd (set_candidates response)).

(** The page has no controls. *)
Inductive ui := .

#[export] Instance ui_eq_dec : EqDecision ui. Proof. intros []. Defined.

Definition on_ui (u : ui) (s : state) : M unit := match u with end.

Inductive env := Mount.

(** The hook's effect, then, once it has set an election, the page's. *)
(*@ dashboard/app/(public)/voter/candidates/page.tsx 19 35 useEffect *)
Definition on_surroundings (x : env) (s : state) : M unit :=
  match x with
  | Mount =>
      if ActiveElection.mounted (hook s) then mret tt
      else
        zoom hook set_hook (upd (ActiveElection.set_mounted true);; ActiveElection.fetch);;
        Peek (fun s => match ActiveElection.election (hook s) with
                       | Some e => fetchCandidates e
                       | None => mret tt
                       end)
  end.

(*@ dashboard/app/(public)/voter/candidates/page.tsx 98 123 candidates.map *)
Definition candidate_card (c : CandidateResponse) : list (node ui) :=
  [Text (c_name c); Text (default EmptyString (c_party c)); Text "Position:"; Text (Z_to_string (c_position c))]
  ++ when (truthy_opt (c_symbol c)) [Text "Symbol:"; Text (default EmptyString (c_symbol c))].

(*@ dashboard/app/(public)/voter/candidates/page.tsx 73 128 CandidatesPage *)
Definition candidates_of (s : state) (e : ActiveElection.ActiveElection) : list (node ui) :=
  [Text "Candidates"; Text "Viewing candidates for: "; Text (default EmptyString (ActiveElection.ae_title e))]
  ++ (if loading s then repeat (Skeleton) 6
      else if truthy_opt (error s) then ErrorState "Error Loading Candidates" (default EmptyString (error s)) None
      else match candidates s with
           | [] => EmptyState "Users" "No Candidates Found" "No candidates have been registered for this election yet." []
           | l => flat_map candidate_card l
           end).

(*@ dashboard/app/(public)/voter/candidates/page.tsx 37 128 CandidatesPage *)
Definition render (s : state) : list (node ui) :=
  if ActiveElection.loading (hook s) then repeat (Skeleton) 8
  else if truthy_opt (ActiveElection.error (hook s))
  then ErrorState "Error Loading Election" (default EmptyString (ActiveElection.error (hook s))) None
  else match ActiveElection.election (hook s) with
       | None => EmptyState "Users" "No Active Elections"
                   "There are currently no active elections to view candidates for." []
       | Some e => candidates_of s e
       end.

Definition page : component state ui env := mk_component render on_ui on_surroundings.

End PublicCandidates.

Import PublicCandidates.

#[export] Hint Unfold on_ui on_surroundings fetchCandidates : prog.

(** ** What the page ends with *)

Lemma fetchCandidates_alone f e s :
  alone f (fetchCandidates e) s
  = Some (mk_ending (inl tt)
      (set_loading false match f (getTransparencyCandidates (ActiveElection.ae_id e)) with
                         | Ok l => set_candidates l (set_loading true s)
                         | Err err => set_error (Some (FormatError.format_error err)) (set_loading true s)
                         end) [(set_loading true s, getTransparencyCandidates (ActiveElection.ae_id e))]).
Proof.
  unfold fetchCandidates. destruct (f (getTransparencyCandidates _)) eqn:E;
    (erewrite busy_alone; [| alone_auto; reflexivity]); reflexivity.
Qed.

(** The state the hook leaves. *)
Definition after_hook (f : forall r, outcome (resp r)) : state :=
  set_hook (ActiveElection.mk_state true
    (option_map ActiveElection.named (ActiveElection.choose (available f))) false None) initial.

Lemma hook_alone f :
  alone f (zoom hook set_hook (upd (ActiveElection.set_mounted true);; ActiveElection.fetch)) initial
  = Some (mk_ending (inl tt) (after_hook f)
      (map (fun q => (set_hook (ActiveElection.set_mounted true ActiveElection.initial) initial, q)) (hook_requests f))).
Proof.
  rewrite (alone_zoom hook set_hook) by (try done; by intros []). cbn [hook initial]. rewrite alone_upd, fetch_alone.
  cbn [ended left_in asked]. rewrite map_map. unfold after_hook. by destruct (ActiveElection.choose (available f)).
Qed.

Lemma mount_alone f :
  exists l, alone f (on_env page Mount initial) initial
  = Some (mk_ending (inl tt)
      match ActiveElection.choose (available f) with
      | Some e => set_loading false
          match f (getTransparencyCandidates (ActiveElection.ae_id e)) with
          | Ok l => set_candidates l (set_loading true (after_hook f))
          | Err err => set_error (Some (FormatError.format_error err)) (set_loading true (after_hook f))
          end
      | None => after_hook f
      end l)
  /\ map snd l = hook_requests f ++ match ActiveElection.choose (available f) with
                                    | Some e => [getTransparencyCandidates (ActiveElection.ae_id e)] | None => [] end.
Proof.
  cbn [on_env page on_surroundings ActiveElection.mounted hook initial ActiveElection.initial].
  change (PublicCandidates.mk_state _ _ _ _) with initial.
  rewrite alone_bind, hook_alone. cbn [after alone]. unfold after_hook at 1. cbn [hook set_hook ActiveElection.election].
  destruct (ActiveElection.choose (available f)) as [e|] eqn:Ec; cbn [option_map].
  - replace (ActiveElection.ae_id (ActiveElection.named e)) with (ActiveElection.ae_id e) by done.
    rewrite fetchCandidates_alone. eexists. split; [reflexivity |]. by rewrite map_app, map_map, map_id.
  - eexists. split; [reflexivity |]. by rewrite map_app, map_map, map_id.
Qed.

(** C26. Mounted, the page asks for the elections and then for the candidates of the election the
    hook prefers, and ends with them or with the reason they cannot be had; without an
    election it asks for no candidates. It is an open election whenever one is available. *)
Theorem public_candidates_shown (f : forall r, outcome (resp r)) :
  exists k w, run page (boot initial) (Env Mount :: replies f 0 k) = Some w
    /\ tasks w = [] /\ loading (st w) = false /\ ActiveElection.loading (hook (st w)) = false
    /\ ActiveElection.election (hook (st w)) = option_map ActiveElection.named (ActiveElection.choose (available f))
    /\ match ActiveElection.choose (available f) with
       | None => map snd (sent w) = hook_requests f /\ candidates (st w) = []
       | Some e =>
           map snd (sent w) = hook_requests f ++ [getTransparencyCandidates (ActiveElection.ae_id e)]
           /\ (ActiveElection.ae_state e = "OPEN"%string
               \/ forall e', In e' (available f) -> ActiveElection.ae_state e' <> "OPEN"%string)
           /\ match f (getTransparencyCandidates (ActiveElection.ae_id e)) with
              | Ok l => candidates (st w) = l /\ error (st w) = None
              | Err err => candidates (st w) = [] /\ error (st w) = Some (FormatError.format_error err)
              end
       end.
Proof.
  pose proof (choose_spec (available f)) as Hc.
  destruct (mount_alone f) as (l & Hl & Hask).
  destruct (env_alone f page (boot initial) Mount _ eq_refl Hl) as (k & w & H1 & H2 & H3 & H4 & _).
  exists k, w. split; [exact H1 |]. split; [exact H2 |]. rewrite H3, H4. cbn [sent boot app asked left_in]. rewrite Hask.
  unfold after_hook. destruct (ActiveElection.choose (available f)) as [e|]; cbn; [| by rewrite app_nil_r].
  destruct Hc as [_ Hc].
  destruct (f (getTransparencyCandidates (ActiveElection.ae_id e))); cbn; by split_and!.
Qed.

(** ** The loading flag *)

Lemma public_candidates_lowers : lowering_component page (fun _ => True) (fun _ => True) loading.
Proof.
  split; [by intros [] |]. intros [] s _ _. unfold lowers, page. cbn [on_env on_surroundings].
  destruct (ActiveElection.mounted (hook s)); [by split |]. low_auto.
Qed.

Theorem public_candidates_not_left_loading w :
  reachable page (fun _ => True) initial w -> idle w = true -> loading (st w) = false.
Proof. intros Hw Hi. by eapply never_left_busy; [apply public_candidates_lowers | | exact Hw | exact Hi]. Qed.

(** ** A concrete run *)

(** A visitor is refused the officers' list; of the public elections the open one is shown,
    with its candidates. *)
Definition public_backend : forall r, outcome (resp r) :=
  fun r => match r as r return outcome (resp r) with
           | getTransparencyElections =>
               let overview i state := {| t_election_id := i; t_election_name := i; t_state := state; t_total_ballots := 0;
                   t_device_count := 0; t_polling_station_count := 0; t_candidate_count := 1; t_registered_voters := 0;
                   t_turnout_percentage := of_Z 0; t_audit_chain_status := ""; t_reconciliation_status := "";
                   t_manifest_status := ""; t_notice := "" |} in
               Ok [overview "E1" "PUBLISHED"; overview "E2" "OPEN"]%string
           | getTransparencyCandidates i => Ok [Build_CandidateResponse "C1" ("Candidate of " ++s i) None None 1]
           | _ => Err (plain_error "ApiError" "Not authenticated")
           end.

Definition visited : world state :=
  default (boot initial) (run page (boot initial) (Env Mount :: replies public_backend 0 3)).

Example public_candidates_of_open_election :
  shows (render (st visited)) "Candidate of E2" = true /\ List.length (sent visited) = 3%nat.
Proof. by vm_compute. Qed.

Lemma public_candidates_not_left_loading_witness : loading (st visited) = false.
Proof.
  apply public_candidates_not_left_loading; [| by vm_compute].
  apply reachable_default; [apply reach_boot | by repeat constructor].
Defined.
