(* ===== verification/MapExplorer.v ===== *)
(** * The map of the constituencies: [app/(public)/map/page.tsx]

    Three effects: the map once, the chosen state's details, the chosen constituency's. A
    state's answer chooses its first constituency, whose effect then asks for it. What is
    asked; what choosing a state ends with; and what late answers leave. *)
From S2P Require Import Prelude JsValue JsNumber FormatError Types ApiClient View React Alone Spinner Officer Portal Overseas.
From Stdlib Require Import String SpecFloat.

Module MapExplorer.

(** [mountedMap], [mountedState] and [mountedPC]: the three effects have run once. *)
(*@ dashboard/app/(public)/map/page.tsx 19 26 IndiaMapExplorerPage *)
Record state := mk_state {
  mountedMap : bool;
  mountedState : bool;
  mountedPC : bool;
  mapData : value;
  selectedStateCode : string;
  stateDetails : value;
  selectedPCId : string;
  pcDetails : value;
  loading : bool;
  loadingPC : bool }.

Definition set_mountedMap (v : bool) (s : state) : state :=
  mk_state v (mountedState s) (mountedPC s) (mapData s) (selectedStateCode s) (stateDetails s)
    (selectedPCId s) (pcDetails s) (loading s) (loadingPC s).
Definition set_mountedState (v : bool) (s : state) : state :=
  mk_state (mountedMap s) v (mountedPC s) (mapData s) (selectedStateCode s) (stateDetails s)
    (selectedPCId s) (pcDetails s) (loading s) (loadingPC s).
Definition set_mountedPC (v : bool) (s : state) : state :=
  mk_state (mountedMap s) (mountedState s) v (mapData s) (selectedStateCode s) (stateDetails s)
    (selectedPCId s) (pcDetails s) (loading s) (loadingPC s).
Definition set_mapData (v : value) (s : state) : state :=
  mk_state (mountedMap s) (mountedState s) (mountedPC s) v (selectedStateCode s)
    (stateDetails s) (selectedPCId s) (pcDetails s) (loading s) (loadingPC s).
Definition set_selectedStateCode (v : string) (s : state) : state :=
  mk_state (mountedMap s) (mountedState s) (mountedPC s) (mapData s) v (stateDetails s)
    (selectedPCId s) (pcDetails s) (loading s) (loadingPC s).
Definition set_stateDetails (v : value) (s : state) : state :=
  mk_state (mountedMap s) (mountedState s) (mountedPC s) (mapData s) (selectedStateCode s) v
    (selectedPCId s) (pcDetails s) (loading s) (loadingPC s).
Definition set_selectedPCId (v : string) (s : state) : state :=
  mk_state (mountedMap s) (mountedState s) (mountedPC s) (mapData s) (selectedStateCode s)
    (stateDetails s) v (pcDetails s) (loading s) (loadingPC s).
Definition set_pcDetails (v : value) (s : state) : state :=
  mk_state (mountedMap s) (mountedState s) (mountedPC s) (mapData s) (selectedStateCode s)
    (stateDetails s) (selectedPCId s) v (loading s) (loadingPC s).
Definition set_loading (v : bool) (s : state) : state :=
  mk_state (mountedMap s) (mountedState s) (mountedPC s) (mapData s) (selectedStateCode s)
    (stateDetails s) (selectedPCId s) (pcDetails s) v (loadingPC s).
Definition set_loadingPC (v : bool) (s : state) : state :=
  mk_state (mountedMap s) (mountedState s) (mountedPC s) (mapData s) (selectedStateCode s)
    (stateDetails s) (selectedPCId s) (pcDetails s) (loading s) v.

(*@ dashboard/app/(public)/map/page.tsx 19 26 IndiaMapExplorerPage *)
Definition initial : state := mk_state false false false VNull "KA" VNull "KA-PC-24" VNull true false.

Abbreviation M := (prog state).

(** The codes and identifiers of the geography are strings (backend/app/geography.py); a key
    that is missing counts as the empty one, which is not asked for either. *)
Definition as_string (v : value) : string := match v with VStr s => s | _ => EmptyString end.

Definition code_of (feature : value) : string := as_string (prop "code" feature).
Definition pcs_of (data : value) : list value := Overseas.elements (prop "parliamentary_constituencies" data).
Definition id_of (pc : value) : string := as_string (prop "id" pc).
Definition features (s : state) : list value := Overseas.elements (prop "features" (mapData s)).

(*@ dashboard/app/(public)/map/page.tsx 29 39 fetchMap *)
Definition fetchMap : M unit :=
  finally
    (try_catch
       (upd (set_loading true);; data ← await getGeographyMapData; upd (set_mapData data))
       (fun _ => mret tt))
    (upd (set_loading false)).

(*@ dashboard/app/(public)/map/page.tsx 63 75 fetchPC *)
Definition fetchPC (id : string) : M unit :=
  if negb (truthy_str id) then mret tt
  else
    finally
      (try_catch
         (upd (set_loadingPC true);; data ← await (getGeographyPC id); upd (set_pcDetails data))
         (fun _ => mret tt))
      (upd (set_loadingPC false)).

(** [setSelectedPCId], with the effect of a constituency that has changed. *)
(*@ dashboard/app/(public)/map/page.tsx 62 76 useEffect *)
Definition setSelectedPCId (id : string) : M unit :=
  Peek (fun s =>
    upd (set_selectedPCId id);;
    (if mountedPC s && negb (String.eqb id (selectedPCId s)) then fetchPC id else mret tt)).

(*@ dashboard/app/(public)/map/page.tsx 45 58 fetchState *)
Definition fetchState (code : string) : M unit :=
  if negb (truthy_str code) then mret tt
  else
    try_catch
      (data ← await (getGeographyState code);
       upd (set_stateDetails data);;
       (if is_nullish data then mret tt
        else match pcs_of data with
             | pc :: _ => setSelectedPCId (id_of pc)
             | [] => upd (set_selectedPCId "");; upd (set_pcDetails VNull)
             end))
      (fun _ => mret tt).

(** [setSelectedStateCode], with the effect of a state that has changed. *)
(*@ dashboard/app/(public)/map/page.tsx 43 60 useEffect *)
Definition setSelectedStateCode (code : string) (s : state) : M unit :=
  upd (set_selectedStateCode code);;
  (if mountedState s && negb (String.eqb code (selectedStateCode s)) then fetchState code else mret tt).

Inductive ui := ClickState (code : string) | ClickPC (id : string).

#[export] Instance ui_eq_dec : EqDecision ui. Proof. solve_decision. Defined.

(*@ dashboard/app/(public)/map/page.tsx 144 252 onClick *)
Definition on_ui (u : ui) (s : state) : M unit :=
  match u with
  | ClickState code => setSelectedStateCode code s
  | ClickPC id => setSelectedPCId id
  end.

(** The three effects that run when the page is mounted. *)
Inductive env := MountMap | MountState | MountPC.

(*@ dashboard/app/(public)/map/page.tsx 28 76 useEffect *)
Definition on_surroundings (x : env) (s : state) : M unit :=
  match x with
  | MountMap => if mountedMap s then mret tt else upd (set_mountedMap true);; fetchMap
  | MountState => if mountedState s then mret tt else upd (set_mountedState true);; fetchState (selectedStateCode s)
  | MountPC => if mountedPC s then mret tt else upd (set_mountedPC true);; fetchPC (selectedPCId s)
  end.

(** ** The page *)

(** [x.toFixed(0)]. *)
Definition to_fixed_0 (x : number) : string :=
  match x with
  | S754_zero _ => "0"
  | S754_finite s m e => (if s then "-" else EmptyString) ++s Z_to_string (fixed_digits 0 m e)
  | _ => to_fixed 1 x
  end.

(** A numeric key divided by [d]; undefined gives NaN. *)
Definition divided (v : value) (d : Z) : number := match v with VNum z => div_ZZ z d | VNull => of_Z 0 | _ => S754_nan end.

(*@ dashboard/app/(public)/map/page.tsx 141 165 mapData.features.map *)
Definition map_feature (s : state) (feat : value) : list (node ui) :=
  [Box (if String.eqb (code_of feat) (selectedStateCode s) then "emerald"
        else if truthy (prop "has_active_simulation" feat) then "amber" else "slate")
     [Button (child (prop "code" feat)) false (ClickState (code_of feat))]].

(*@ dashboard/app/(public)/map/page.tsx 193 206 mapData.features.map *)
Definition state_chip (s : state) (feat : value) : list (node ui) :=
  [Box (if String.eqb (code_of feat) (selectedStateCode s) then "emerald" else "slate")
     [Button (child (prop "name" feat) ++s " " ++s child (prop "total_pcs" feat) ++s " PCs | "
              ++s child (prop "total_acs" feat) ++s " ACs") false (ClickState (code_of feat))]].

(*@ dashboard/app/(public)/map/page.tsx 249 261 stateDetails.parliamentary_constituencies.map *)
Definition pc_button (s : state) (pc : value) : list (node ui) :=
  [Box (if String.eqb (id_of pc) (selectedPCId s) then "amber" else "slate")
     [Button ("PC-" ++s child (prop "pc_number" pc) ++s ": " ++s child (prop "name" pc)) false (ClickPC (id_of pc))]].

(*@ dashboard/app/(public)/map/page.tsx 214 265 stateDetails *)
Definition state_card (s : state) : list (node ui) :=
  let d := stateDetails s in
  if truthy d
  then [Text (child (prop "region" d) ++s " Region"); Text (child (prop "name" d))]
       ++ when (truthy (prop "active_simulation" d)) [Text "LIVE SIMULATION ACTIVE"]
       ++ [Text "Parliamentary (PC)"; Text (child (prop "total_pcs" d)); Text "Assembly (AC)";
           Text (child (prop "total_acs" d)); Text "Electors";
           Text (to_fixed 1 (divided (prop "registered_electors" d) 1000000) ++s "M");
           Text "Parliamentary Constituencies (PC)"]
       ++ flat_map (pc_button s) (pcs_of d)
  else [].

(*@ dashboard/app/(public)/map/page.tsx 285 293 pcDetails.assembly_constituencies.map *)
Definition ac_row (ac : value) : list (node ui) :=
  [Text ("AC-" ++s child (prop "ac_number" ac) ++s ": " ++s child (prop "name" ac));
   Text (child (prop "reservation" ac) ++s " Category");
   Text (to_fixed_0 (divided (prop "registered_voters" ac) 1000) ++s "k")].

(*@ dashboard/app/(public)/map/page.tsx 305 327 pcDetails.live_polling_stations.map *)
Definition live_station (ps : value) : list (node ui) :=
  [Text (child (prop "station_code" ps)); Text (child (prop "name" ps)); Text (child (prop "location" ps));
   Text (child (prop "status" ps)); Link "/evm" "Launch Unit"].

(*@ dashboard/app/(public)/map/page.tsx 268 336 pcDetails *)
Definition pc_card (s : state) : list (node ui) :=
  let d := pcDetails s in
  if truthy d
  then [Text ("PARLIAMENTARY CONSTITUENCY #" ++s child (prop "pc_number" d)); Text (child (prop "name" d));
        Text ("Reservation: " ++s child (prop "reservation" d)); Text "Assembly Constituencies (AC Segment)"]
       ++ flat_map ac_row (Overseas.elements (prop "assembly_constituencies" d))
       ++ [Text "Live Polling Stations in Simulation"]
       ++ match Overseas.elements (prop "live_polling_stations" d) with
          | [] => [Text "No active polling stations provisioned in this constituency for the current simulation."]
          | l => flat_map live_station l
          end
  else [].

(*@ dashboard/app/(public)/map/page.tsx 80 341 IndiaMapExplorerPage *)
Definition render (s : state) : list (node ui) :=
  [Text "INDIA ELECTORAL HIERARCHY EXPLORER"; Text "National, State & Constituency Map";
   Link "/evm" "Launch EVM Terminal"; Text "REFERENCE / SIMULATION DATA:"; Text "Interactive Electoral Map";
   Text "Select a state"]
  ++ (if loading s then [Text "Loading geography..."] else flat_map (map_feature s) (features s))
  ++ [Text "Selected State"; Text "Active Simulation (Karnataka)"; Text "Reference State"; Text "States & Union Territories"]
  ++ flat_map (state_chip s) (features s)
  ++ state_card s ++ pc_card s.

Definition page : component state ui env := mk_component render on_ui on_surroundings.

End MapExplorer.

Import MapExplorer.

#[export] Hint Unfold on_ui on_surroundings fetchMap fetchPC fetchState setSelectedPCId setSelectedStateCode : prog.

(** ** Controls *)

Lemma allows_boxes (tone label code : value -> string) (mk : string -> ui) l u :
  allows (flat_map (fun x => [Box (tone x) [Button (label x) false (mk (code x))]]) l) u
  = existsb (fun x => bool_decide (u = mk (code x))) l.
Proof.
  rewrite allows_flat_map. induction l as [|x l IH]; [done |]. cbn [existsb]. rewrite IH.
  rewrite allows_cons, allows_nil, fires_box, allows_cons, allows_nil. cbn [fires negb]. by rewrite !orb_false_r.
Qed.

Lemma existsb_same (code : value -> string) (mk : string -> ui) c l :
  (forall a b, mk a = mk b -> a = b) ->
  existsb (fun x => bool_decide (mk c = mk (code x))) l = existsb (fun x => String.eqb c (code x)) l.
Proof.
  intros Hinj. induction l as [|x l IH]; [done |]. cbn [existsb]. rewrite IH. f_equal.
  destruct (String.eqb_spec c (code x)) as [->|Hn]; [by apply bool_decide_eq_true_2 |].
  apply bool_decide_eq_false_2. intros E. by apply Hn, Hinj.
Qed.

Lemma existsb_other (code : value -> string) (mk : string -> ui) u l :
  (forall a, u <> mk a) -> existsb (fun x => bool_decide (u = mk (code x))) l = false.
Proof.
  intros Hne. induction l as [|x l IH]; [done |]. cbn [existsb]. rewrite IH, orb_false_r. by apply bool_decide_eq_false_2.
Qed.

Lemma allows_state_card s u :
  allows (state_card s) u
  = truthy (stateDetails s) && existsb (fun x => bool_decide (u = ClickPC (id_of x))) (pcs_of (stateDetails s)).
Proof.
  unfold state_card. destruct (truthy (stateDetails s)); [| done]. rewrite !allows_app, allows_when.
  unfold pc_button. rewrite (allows_boxes _ _ id_of ClickPC). cbn. by rewrite andb_false_r.
Qed.

Lemma allows_pc_card s u : allows (pc_card s) u = false.
Proof.
  unfold pc_card. destruct (truthy (pcDetails s)); [| done]. rewrite !allows_app, allows_flat_map_none by done.
  destruct (Overseas.elements (prop "live_polling_stations" (pcDetails s))) as [|y l]; [done |].
  by rewrite allows_flat_map_none.
Qed.

(** The states and constituencies that can be chosen are those of the answers shown. *)
Lemma allows_map_page s u :
  allows (render s) u
  = match u with
    | ClickState code => existsb (fun x => String.eqb code (code_of x)) (features s)
    | ClickPC id => truthy (stateDetails s) && existsb (fun x => String.eqb id (id_of x)) (pcs_of (stateDetails s))
    end.
Proof.
  unfold render. rewrite !allows_app, allows_state_card, allows_pc_card.
  unfold state_chip. rewrite (allows_boxes _ _ code_of ClickState).
  replace (allows (if loading s then _ else _) u)
    with (negb (loading s) && existsb (fun x => bool_decide (u = ClickState (code_of x))) (features s))
    by (destruct (loading s); [done | unfold map_feature; by rewrite (allows_boxes _ _ code_of ClickState)]).
  destruct u as [c|i].
  - rewrite (existsb_other id_of ClickPC), (existsb_same code_of ClickState) by (intros; congruence).
    rewrite andb_false_r, !orb_false_r. cbn.
    destruct (existsb _ (features s)); [by rewrite orb_true_r | by rewrite andb_false_r].
  - rewrite (existsb_other code_of ClickState), (existsb_same id_of ClickPC) by (intros; congruence).
    rewrite andb_false_r. cbn. by rewrite orb_false_r.
Qed.

(** ** Requests *)

(** A request is for what is selected at that moment, and never for nothing. *)
Definition Sends (s : state) (q : req) : Prop :=
  q = getGeographyMapData
  \/ (exists c, q = getGeographyState c /\ c = selectedStateCode s /\ c <> EmptyString)
  \/ (exists i, q = getGeographyPC i /\ i = selectedPCId s /\ i <> EmptyString).

Abbreviation safe := (wpf (fun _ => True) Sends).

Lemma fetchPC_safe b s : safe b (fetchPC (selectedPCId s)) (fun _ _ _ => True) (fun _ _ _ => False) s.
Proof.
  unfold fetchPC. destruct (truthy_str (selectedPCId s)) eqn:E; [| done]. cbn [negb].
  apply wpf_finally, wpf_try, wpf_upd. cbn. split_and!; [done | | by intros [?|?]].
  apply Forall_singleton. right. right. exists (selectedPCId s). split_and!; [done | done |].
  intros Hn. by rewrite Hn in E.
Qed.

Lemma setSelectedPCId_safe b id s : safe b (setSelectedPCId id) (fun _ _ _ => True) (fun _ _ _ => False) s.
Proof.
  unfold setSelectedPCId. cbn [wpf]. apply wpf_upd. destruct (mountedPC s && _); [| done].
  apply (fetchPC_safe b (set_selectedPCId id s)).
Qed.

Lemma fetchState_safe b s : safe b (fetchState (selectedStateCode s)) (fun _ _ _ => True) (fun _ _ _ => False) s.
Proof.
  unfold fetchState. destruct (truthy_str (selectedStateCode s)) eqn:E; [| done]. cbn [negb].
  apply wpf_try, wpf_bind. cbn [await wpf reqs]. split_and!; [done | |].
  - apply Forall_singleton. right. left. exists (selectedStateCode s). split_and!; [done | done |].
    intros Hn. by rewrite Hn in E.
  - intros [data|e] s' _; cbn -[setSelectedPCId]; [| done]. destruct (is_nullish data); [done |].
    destruct (pcs_of data) as [|pc l]; [done |].
    eapply wpf_mono; [apply setSelectedPCId_safe | by intros | by intros].
Qed.

Lemma map_safe : safe_component page (fun _ => True) Sends (fun _ => True).
Proof.
  split.
  - intros u s _ _ _. unfold page. cbn [on_user]. apply (wp_wpf (fun _ => True) Sends false). destruct u as [c|i]; cbn [on_ui].
    + unfold setSelectedStateCode. apply wpf_upd. destruct (mountedState s && _); [| done].
      eapply wpf_mono; [apply (fetchState_safe false (set_selectedStateCode c s)) | by intros | by intros].
    + eapply wpf_mono; [apply setSelectedPCId_safe | by intros | by intros].
  - intros x s _ _. unfold page. cbn [on_env]. apply (wp_wpf (fun _ => True) Sends false). destruct x; cbn [on_surroundings].
    + destruct (mountedMap s); [done |]. apply wpf_upd, wpf_finally, wpf_try, wpf_upd. cbn. split_and!; [done | | by intros [?|?]].
      apply Forall_singleton. by left.
    + destruct (mountedState s); [done |]. apply wpf_upd.
      eapply wpf_mono; [apply (fetchState_safe false (set_mountedState true s)) | by intros | by intros].
    + destruct (mountedPC s); [done |]. apply wpf_upd.
      eapply wpf_mono; [apply (fetchPC_safe false (set_mountedPC true s)) | by intros | by intros].
Qed.

(** In every interleaving of clicks and answers the map is asked for, or the state selected
    at that moment, or the constituency selected at that moment; never an empty code. *)
Theorem map_requests w s q :
  reachable page (fun _ => True) initial w -> In (s, q) (sent w) -> Sends s q.
Proof.
  intros Hw Hin. destruct (reachable_good _ _ _ _ map_safe initial w I Hw) as [_ _ Hs].
  exact (Forall_In _ _ _ Hs Hin).
Qed.

(** ** Choosing a state *)

(** What asking for a constituency leaves. *)
Definition with_pc (f : forall r, outcome (resp r)) (id : string) (s : state) : state :=
  if truthy_str id
  then set_loadingPC false
         match f (getGeographyPC id) with
         | Ok d => set_pcDetails d (set_loadingPC true s)
         | Err _ => set_loadingPC true s
         end
  else s.

Lemma fetchPC_alone f id s :
  exists l, alone f (fetchPC id) s = Some (mk_ending (inl tt) (with_pc f id s) l)
    /\ map snd l = if truthy_str id then [getGeographyPC id] else [].
Proof.
  unfold fetchPC, with_pc. destruct (truthy_str id); cbn [negb]; [| by eexists].
  destruct (f (getGeographyPC id)) eqn:E; alone_auto; by eexists.
Qed.

(** What choosing a constituency leaves: only one that has changed is asked for. *)
Definition with_selected_pc (f : forall r, outcome (resp r)) (id : string) (s : state) : state :=
  if mountedPC s && negb (String.eqb id (selectedPCId s))
  then with_pc f id (set_selectedPCId id s) else set_selectedPCId id s.

Lemma setSelectedPCId_alone f id s :
  exists l, alone f (setSelectedPCId id) s = Some (mk_ending (inl tt) (with_selected_pc f id s) l)
    /\ map snd l = if mountedPC s && negb (String.eqb id (selectedPCId s)) && truthy_str id
                   then [getGeographyPC id] else [].
Proof.
  unfold setSelectedPCId, with_selected_pc. cbn [alone]. rewrite alone_upd.
  destruct (mountedPC s && _); [apply fetchPC_alone | by eexists].
Qed.

(** What the answer about a state leaves. *)
Definition with_state (f : forall r, outcome (resp r)) (code : string) (s : state) : state :=
  match f (getGeographyState code) with
  | Err _ => s
  | Ok data =>
      let s1 := set_stateDetails data s in
      if is_nullish data then s1
      else match pcs_of data with
           | pc :: _ => with_selected_pc f (id_of pc) s1
           | [] => set_pcDetails VNull (set_selectedPCId "" s1)
           end
  end.

Lemma fetchState_alone f code s :
  truthy_str code = true ->
  exists l, alone f (fetchState code) s = Some (mk_ending (inl tt) (with_state f code s) l)
    /\ map snd l = getGeographyState code ::
         match f (getGeographyState code) with
         | Ok data =>
             if is_nullish data then []
             else match pcs_of data with
                  | pc :: _ =>
                      if mountedPC s && negb (String.eqb (id_of pc) (selectedPCId s)) && truthy_str (id_of pc)
                      then [getGeographyPC (id_of pc)] else []
                  | [] => []
                  end
         | Err _ => []
         end.
Proof.
  intros Hc. unfold fetchState, with_state. rewrite Hc. cbn [negb].
  destruct (f (getGeographyState code)) as [data|e] eqn:E; alone_auto; [| by eexists].
  destruct (is_nullish data); [by eexists |]. destruct (pcs_of data) as [|pc l]; [by eexists |].
  destruct (setSelectedPCId_alone f (id_of pc) (set_stateDetails data s)) as (l' & -> & Hl').
  eexists. split; [reflexivity |]. cbn. by rewrite app_nil_r, Hl'.
Qed.

(** C27. Choosing another state asks for its details, and ends with them and with its first
    constituency selected; that constituency is asked for exactly when it is not the one
    selected before, and its details replace those shown if they can be had. A state without
    constituencies leaves none selected and no details of one. An answer without content
    changes the details only; and if the state cannot be had nothing but the selected code
    changes. *)
Theorem map_state_chosen w c (f : forall r, outcome (resp r)) :
  tasks w = [] -> mountedState (st w) = true -> mountedPC (st w) = true ->
  c <> selectedStateCode (st w) -> c <> EmptyString ->
  allows (render (st w)) (ClickState c) = true ->
  exists k w' asked_pc,
    run page w (User (ClickState c) :: replies f (fresh w) k) = Some w'
    /\ tasks w' = [] /\ uncaught w' = uncaught w
    /\ map snd (sent w') = map snd (sent w) ++ getGeographyState c :: asked_pc
    /\ match f (getGeographyState c) with
       | Err _ => st w' = set_selectedStateCode c (st w) /\ asked_pc = []
       | Ok data =>
           selectedStateCode (st w') = c /\ stateDetails (st w') = data
           /\ mapData (st w') = mapData (st w) /\ loading (st w') = loading (st w)
           /\ if is_nullish data
              then selectedPCId (st w') = selectedPCId (st w) /\ pcDetails (st w') = pcDetails (st w)
                   /\ asked_pc = []
              else match pcs_of data with
                   | [] => selectedPCId (st w') = EmptyString /\ pcDetails (st w') = VNull /\ asked_pc = []
                   | pc :: _ =>
                       selectedPCId (st w') = id_of pc
                       /\ if bool_decide (id_of pc = selectedPCId (st w) \/ id_of pc = EmptyString)
                          then pcDetails (st w') = pcDetails (st w) /\ asked_pc = []
                          else pcDetails (st w') = match f (getGeographyPC (id_of pc)) with
                                                   | Ok d => d
                                                   | Err _ => pcDetails (st w)
                                                   end
                               /\ loadingPC (st w') = false /\ asked_pc = [getGeographyPC (id_of pc)]
                   end
       end.
Proof.
  intros Ht Hm Hmp Hne Hc Hu.
  assert (truthy_str c = true) as Htc by (by destruct c).
  destruct (fetchState_alone f c (set_selectedStateCode c (st w)) Htc) as (l & Hl & Hreq).
  edestruct (click_alone f page w (ClickState c)) as (k & w' & H1 & H2 & H3 & H4 & _ & H5); [done | exact Hu | |].
  { unfold page. cbn [on_user on_ui]. unfold setSelectedStateCode. rewrite alone_upd, Hm.
    rewrite (proj2 (String.eqb_neq _ _) Hne). exact Hl. }
  eexists k, w', _. split; [exact H1 |]. split; [exact H2 |]. split; [by rewrite H5, app_nil_r |].
  split; [rewrite H4, map_app; f_equal; exact Hreq |].
  rewrite H3. cbn [left_in]. unfold with_state.
  destruct (f (getGeographyState c)) as [data|e]; [| done].
  destruct (st w) as [mm ms mp md sc sd sp pd ld lp]. cbn in *. subst mp.
  destruct (is_nullish data) eqn:En; [done |]. destruct (pcs_of data) as [|pc pcs]; [done |].
  unfold with_selected_pc, with_pc. cbn.
  destruct (String.eqb_spec (id_of pc) sp) as [->|Hid]; cbn.
  { rewrite bool_decide_eq_true_2 by (by left). by split_and!. }
  destruct (String.eqb_spec (id_of pc) EmptyString) as [E|E].
  { rewrite E, bool_decide_eq_true_2 by (by right). by split_and!. }
  rewrite bool_decide_eq_false_2 by (by intros [?|?]).
  replace (truthy_str (id_of pc)) with true by (by destruct (id_of pc)). cbn.
  destruct (f (getGeographyPC (id_of pc))); by split_and!.
Qed.

(** ** The loading flags *)

(** The map's flag is raised before the page is mounted. *)
Inductive flag := of_map | of_pc.

Definition raised (a : flag) (s : state) : bool :=
  match a with of_map => mountedMap s && loading s | of_pc => loadingPC s end.

Lemma fetchPC_lowers id b s0 s :
  fine (raised of_pc) b s0 s ->
  low (fun _ => True) (raised of_pc) b (fetchPC id) (fun b _ => fine (raised of_pc) b) (fun b _ => fine (raised of_pc) b) s0 s.
Proof. intros Hf. unfold fetchPC. destruct (negb _); [exact Hf |]. apply lowers_at_end; [done | timerless_auto]. Qed.

Lemma setSelectedPCId_lowers id b s0 s :
  fine (raised of_pc) b s0 s ->
  low (fun _ => True) (raised of_pc) b (setSelectedPCId id)
    (fun b _ => fine (raised of_pc) b) (fun b _ => fine (raised of_pc) b) s0 s.
Proof.
  intros Hf. unfold setSelectedPCId. cbn [low]. apply low_upd.
  destruct (mountedPC s && _); [by apply fetchPC_lowers | exact Hf].
Qed.

Lemma fetchState_lowers code b s0 s :
  fine (raised of_pc) b s0 s ->
  low (fun _ => True) (raised of_pc) b (fetchState code)
    (fun b _ => fine (raised of_pc) b) (fun b _ => fine (raised of_pc) b) s0 s.
Proof.
  intros Hf. unfold fetchState. destruct (negb _); [exact Hf |]. apply low_try, low_bind. cbn -[setSelectedPCId].
  exists false. split; [by right |]. intros [data|e] s' _; cbn -[setSelectedPCId]; [| by split].
  destruct (is_nullish data); [by split |]. destruct (pcs_of data) as [|pc l]; [by split |].
  eapply low_mono; [apply setSelectedPCId_lowers; by split | by intros | by intros].
Qed.

Lemma map_lowers a : lowering_component page (fun _ => True) (fun _ => True) (raised a).
Proof.
  split.
  - intros u s _ _ _. unfold lowers, page. cbn [on_user]. destruct a.
    + apply low_calm; [| done]. destruct u; cbn [on_ui]; calm_auto.
    + destruct u; cbn [on_ui]; [| by apply setSelectedPCId_lowers; split].
      unfold setSelectedStateCode. apply low_upd. destruct (mountedState s && _); [by apply fetchState_lowers; split | by split].
  - intros x s _ _. unfold lowers, page. cbn [on_env]. destruct a.
    + destruct x; cbn [on_surroundings].
      * destruct (mountedMap s); [by split |]. apply low_upd, lowers_at_end; [| timerless_auto].
        intros s'. cbn. by rewrite andb_false_r.
      * apply low_calm; [| done]. destruct (mountedState s); calm_auto.
      * apply low_calm; [| done]. destruct (mountedPC s); calm_auto.
    + destruct x; cbn [on_surroundings].
      * destruct (mountedMap s); [by split |]. apply low_calm; [| done]. calm_auto.
      * destruct (mountedState s); [by split |]. apply low_upd. by apply fetchState_lowers; split.
      * destruct (mountedPC s); [by split |]. apply low_upd. by apply fetchPC_lowers; split.
Qed.

Theorem map_not_left_loading a w :
  reachable page (fun _ => True) initial w -> idle w = true -> raised a (st w) = false.
Proof. intros Hw Hi. destruct a; (by eapply never_left_busy; [apply (map_lowers _) | | exact Hw | exact Hi]). Qed.

(** ** Concrete runs *)

Definition feature (c : string) : value := VObj [("code", VStr c)]%string.
Definition with_pcs (name : string) (ids : list string) : value :=
  VObj [("name", VStr name); ("parliamentary_constituencies", VArr (map (fun i => VObj [("id", VStr i)]%string) ids))]%string.

(** Karnataka and Kerala with one constituency each, and a territory with none. *)
Definition geography : forall r, outcome (resp r) :=
  fun r => match r as r return outcome (resp r) with
           | getGeographyMapData => Ok (VObj [("features", VArr (map feature ["KA"; "KL"; "XX"]))]%string)
           | getGeographyState c =>
               Ok (if String.eqb c "KA" then with_pcs "Karnataka" ["KA-PC-24"]
                   else if String.eqb c "KL" then with_pcs "Kerala" ["KL-PC-1"] else with_pcs "Territory" [])%string
           | getGeographyPC i => Ok (VObj [("name", VStr i)]%string)
           | _ => Err (plain_error "Error" "offline")
           end.

Definition opened : world state :=
  default (boot initial) (run page (boot initial)
    [Env MountMap; Env MountState; Env MountPC; Reply 0 (answers geography); Reply 1 (answers geography);
     Reply 2 (answers geography)]).

Lemma opened_reachable : reachable page (fun _ => True) initial opened.
Proof. apply reachable_default; [apply reach_boot | by repeat constructor]. Qed.

Lemma map_requests_witness : Forall (fun '(s, q) => Sends s q) (sent opened) /\ List.length (sent opened) = 3%nat.
Proof.
  split; [| by vm_compute]. apply Forall_forall. intros [s q] Hin%list_elem_of_In.
  exact (map_requests opened s q opened_reachable Hin).
Defined.

Lemma map_state_chosen_witness :
  exists k w', run page opened (User (ClickState "KL") :: replies geography (fresh opened) k) = Some w'
    /\ selectedPCId (st w') = "KL-PC-1"%string /\ pcDetails (st w') = VObj [("name", VStr "KL-PC-1")]%string.
Proof.
  destruct (map_state_chosen opened "KL" geography) as (k & w' & l & H1 & _ & _ & _ & H2);
    [reflexivity | reflexivity | reflexivity | done | done | by vm_compute |].
  destruct H2 as (_ & _ & _ & _ & H3 & H4). exists k, w'. split; [exact H1 |]. split; [exact H3 |]. exact (proj1 H4).
Defined.

Lemma map_not_left_loading_witness : raised of_map (st opened) = false.
Proof. apply map_not_left_loading; [apply opened_reachable | by vm_compute]. Defined.

(** The last answer wins: Karnataka's details and constituency under the selection of
    Kerala. *)
Theorem map_late_answer :
  exists w, run page opened [User (ClickState "KL"); User (ClickState "KA"); Reply 4 (answers geography);
                             Reply 3 (answers geography); Reply 5 (answers geography)] = Some w
    /\ selectedStateCode (st w) = "KA"%string /\ shows (render (st w)) "Kerala" = true
    /\ selectedPCId (st w) = "KL-PC-1"%string.
Proof. apply run_witness. vm_compute. by split_and!. Qed.

(** The details of a constituency appear under a state that has none. *)
Theorem map_constituency_of_no_state :
  exists w, run page opened [User (ClickState "KL"); Reply 3 (answers geography); User (ClickState "XX");
                             Reply 5 (answers geography); Reply 4 (answers geography)] = Some w
    /\ selectedPCId (st w) = EmptyString /\ shows (render (st w)) "Territory" = true
    /\ shows (render (st w)) "KL-PC-1" = true.
Proof. apply run_witness. vm_compute. by split_and!. Qed.
