(* ===== verification/TransparencyCenter.v ===== *)
(** * The transparency centre: [app/(public)/transparency/page.tsx]

    The list of public elections. What mounting the page ends with, and what is shown of an
    election whose statuses are empty. *)
From S2P Require Import Prelude JsValue JsNumber FormatError Types ApiClient View React Alone Spinner Common Officer Portal.
From Stdlib Require Import String.

Module TransparencyCenter.

(** [reloading]: the page asked the browser to load it again. *)
(*@ dashboard/app/(public)/transparency/page.tsx 22 25 TransparencyLandingPage *)
Record state := mk_state {
  mounted : bool;
  elections : list TransparencyOverview;
  loading : bool;
  error : option string;
  reloading : bool }.

Definition set_mounted (v : bool) (s : state) : state :=
  mk_state v (elections s) (loading s) (error s) (reloading s).
Definition set_elections (v : list TransparencyOverview) (s : state) : state :=
  mk_state (mounted s) v (loading s) (error s) (reloading s).
Definition set_loading (v : bool) (s : state) : state :=
  mk_state (mounted s) (elections s) v (error s) (reloading s).
Definition set_error (v : option string) (s : state) : state :=
  mk_state (mounted s) (elections s) (loading s) v (reloading s).
Definition set_reloading (v : bool) (s : state) : state :=
  mk_state (mounted s) (elections s) (loading s) (error s) v.

(*@ dashboard/app/(public)/transparency/page.tsx 22 25 TransparencyLandingPage *)
Definition initial : state := mk_state false [] true None false.

Abbreviation M := (prog state).

(*@ dashboard/app/(public)/transparency/page.tsx 28 37 loadData *)
Definition loadData : M unit :=
  finally
    (try_catch
       (data ← await getTransparencyElections; upd (set_elections data))
       (fun _ => upd (set_error (Some "Unable to connect to transparency service"%string))))
    (upd (set_loading false)).

Inductive ui := ClickRetry.

#[export] Instance ui_eq_dec : EqDecision ui. Proof. solve_decision. Defined.

(*@ dashboard/app/(public)/transparency/page.tsx 80 80 onClick *)
Definition on_ui (u : ui) (s : state) : M unit := match u with ClickRetry => upd (set_reloading true) end.

Inductive env := Mount.

(*@ dashboard/app/(public)/transparency/page.tsx 27 39 useEffect *)
Definition on_surroundings (x : env) (s : state) : M unit :=
  match x with Mount => if mounted s then mret tt else upd (set_mounted true);; loadData end.

(*@ dashboard/app/(public)/transparency/page.tsx 100 171 elections.map *)
Definition election_card (election : TransparencyOverview) : list (node ui) :=
  [Text (t_election_id election); Text (t_election_name election);
   Badge (if String.eqb (t_state election) "OPEN" then "success" else "neutral") (t_state election);
   Text "Ballots"; Text (Z_to_string (t_total_ballots election)); Text "EVMs"; Text (Z_to_string (t_device_count election));
   Text "Stations"; Text (Z_to_string (t_polling_station_count election));
   Text "Audit Trail:"; Text (str_or (t_audit_chain_status election) "INTACT");
   Text "Reconciliation:"; Text (str_or (t_reconciliation_status election) "EXACT_MATCH");
   Link ("/transparency/elections/" ++s t_election_id election) "View Transparency Audit"].

(*@ dashboard/app/(public)/transparency/page.tsx 41 178 TransparencyLandingPage *)
Definition render (s : state) : list (node ui) :=
  [Text "Public Transparency Center"; Text "Open Election Transparency"; Text "Civic Privacy & Integrity Guarantee"]
  ++ when (loading s) [Skeleton; Skeleton]
  ++ when (truthy_opt (error s) && negb (loading s))
       (Text (default EmptyString (error s)) :: LibButton "Retry Connection" false false ClickRetry)
  ++ when (negb (loading s) && negb (truthy_opt (error s)))
       ([Text "Active & Published Elections";
         Text (Z_to_string (Z.of_nat (List.length (elections s))) ++s " Record(s)")]
        ++ match elections s with
           | [] => [Text "No public election records currently published."]
           | l => flat_map election_card l
           end).

Definition page : component state ui env := mk_component render on_ui on_surroundings.

End TransparencyCenter.

Import TransparencyCenter.

#[export] Hint Unfold on_ui on_surroundings loadData : prog.

Lemma allows_center s : allows (render s) ClickRetry = truthy_opt (error s) && negb (loading s).
Proof.
  unfold render. rewrite !allows_app, !allows_when, !allows_app.
  replace (allows match elections s with [] => _ | _ => _ end ClickRetry) with false
    by (destruct (elections s); [done | by rewrite allows_flat_map_none]).
  unfold LibButton. rewrite !allows_cons, !allows_nil. cbn [fires]. decide_eqs. by tidy_bool.
Qed.

(** Mounted, the page asks for the public elections, without credentials, and ends with all
    of them, each with a link to its page, or with one error and a button that reloads. *)
Theorem transparency_listed (f : forall r, outcome (resp r)) :
  exists k w, run page (boot initial) (Env Mount :: replies f 0 k) = Some w
    /\ tasks w = [] /\ map snd (sent w) = [getTransparencyElections] /\ loading (st w) = false
    /\ match f getTransparencyElections with
       | Ok l => elections (st w) = l /\ error (st w) = None /\ allows (render (st w)) ClickRetry = false
                 /\ forall e, In e l ->
                    In (Link ("/transparency/elections/" ++s t_election_id e) "View Transparency Audit") (render (st w))
       | Err _ => elections (st w) = [] /\ allows (render (st w)) ClickRetry = true
       end.
Proof.
  destruct (f getTransparencyElections) as [l|e] eqn:E;
    (edestruct (env_alone f page (boot initial) Mount) as (k & w & H1 & H2 & H3 & H4 & _);
      [done | cbn [on_env page on_surroundings boot st initial mounted]; rewrite alone_upd; unfold loadData; alone_auto; reflexivity |]);
    exists k, w; rewrite H3, H4; split_and!; try done.
  - by rewrite allows_center.
  - intros e He. unfold render. cbn -[flat_map]. destruct l as [|x l]; [by destruct He |].
    do 5 right.
    apply in_flat_map. exists e. split; [exact He |]. cbn. auto 20.
Qed.

(** An election whose statuses are empty is shown as intact and reconciled. *)
Theorem transparency_empty_status e :
  t_audit_chain_status e = EmptyString -> t_reconciliation_status e = EmptyString ->
  In (Text "INTACT") (election_card e) /\ In (Text "EXACT_MATCH") (election_card e).
Proof. intros H1 H2. unfold election_card. rewrite H1, H2. cbn. split; auto 20. Qed.

Lemma transparency_lowers : lowering_component page (fun _ => True) (fun _ => True) (fun s => mounted s && loading s).
Proof.
  split.
  - intros [] s _ _ _. unfold lowers, page. cbn. by split.
  - intros [] s _ _. unfold lowers, page. cbn [on_env on_surroundings]. destruct (mounted s); [by split |].
    apply low_upd, lowers_at_end; [| timerless_auto]. intros s'. cbn. by rewrite andb_false_r.
Qed.

Theorem transparency_not_left_loading w :
  reachable page (fun _ => True) initial w -> idle w = true -> mounted (st w) && loading (st w) = false.
Proof.
  intros Hw Hi.
  by apply (never_left_busy page (fun _ => True) (fun s => mounted s && loading s) initial w transparency_lowers).
Qed.

(** ** Witnesses *)

Definition pending_election : TransparencyOverview :=
  {| t_election_id := "E1"; t_election_name := "Poll"; t_state := "OPEN"; t_total_ballots := 0; t_device_count := 0;
     t_polling_station_count := 0; t_candidate_count := 0; t_registered_voters := 0; t_turnout_percentage := of_Z 0;
     t_audit_chain_status := ""; t_reconciliation_status := ""; t_manifest_status := ""; t_notice := "" |}.

Lemma transparency_empty_status_witness : In (Text "INTACT") (election_card pending_election).
Proof. refine (proj1 (transparency_empty_status pending_election _ _)); reflexivity. Defined.

Lemma transparency_not_left_loading_witness :
  let w := default (boot initial) (run page (boot initial)
             [Env Mount; Reply 0 (answers (fun r => Err (plain_error "Error" "offline")))]) in
  mounted (st w) && loading (st w) = false /\ mounted (st w) = true.
Proof.
  intros w. split; [| by vm_compute]. apply transparency_not_left_loading; [| by vm_compute].
  apply reachable_default; [apply reach_boot | by repeat constructor].
Defined.
