(* ===== verification/TransparencyDetail.v ===== *)
(** * An election's public page: [app/(public)/transparency/elections/[id]/page.tsx]

    Its overview, candidates and, once it is closed, its results. What loading ends with,
    that results are asked for only of a closed election, and that they are never shown. *)
From S2P Require Import Prelude JsValue JsNumber FormatError Types ApiClient View Common React Alone Spinner Officer Portal Overseas.
From Stdlib Require Import String.

Module TransparencyDetail.

(** [electionId] is the address's. *)
(*@ dashboard/app/(public)/transparency/elections/[id]/page.tsx 27 35 ElectionTransparencyDetailPage *)
Record state := mk_state {
  electionId : option string;
  mounted : bool;
  overview : option TransparencyOverview;
  candidates : list CandidateResponse;
  resultsData : value;
  loading : bool;
  error : option string }.

Definition set_electionId (v : option string) (s : state) : state :=
  mk_state v (mounted s) (overview s) (candidates s) (resultsData s) (loading s) (error s).
Definition set_mounted (v : bool) (s : state) : state :=
  mk_state (electionId s) v (overview s) (candidates s) (resultsData s) (loading s) (error s).
Definition set_overview (v : option TransparencyOverview) (s : state) : state :=
  mk_state (electionId s) (mounted s) v (candidates s) (resultsData s) (loading s) (error s).
Definition set_candidates (v : list CandidateResponse) (s : state) : state :=
  mk_state (electionId s) (mounted s) (overview s) v (resultsData s) (loading s) (error s).
Definition set_resultsData (v : value) (s : state) : state :=
  mk_state (electionId s) (mounted s) (overview s) (candidates s) v (loading s) (error s).
Definition set_loading (v : bool) (s : state) : state :=
  mk_state (electionId s) (mounted s) (overview s) (candidates s) (resultsData s) v (error s).
Definition set_error (v : option string) (s : state) : state :=
  mk_state (electionId s) (mounted s) (overview s) (candidates s) (resultsData s) (loading s) v.

(*@ dashboard/app/(public)/transparency/elections/[id]/page.tsx 27 35 ElectionTransparencyDetailPage *)
Definition initial (id : option string) : state := mk_state id false None [] VNull true None.

Abbreviation M := (prog state).

(*@ dashboard/app/(public)/transparency/elections/[id]/page.tsx 48 48 loadElectionDetails *)
Definition has_results (o : TransparencyOverview) : bool :=
  String.eqb (t_state o) "CLOSED" || String.eqb (t_state o) "PUBLISHED".

(*@ dashboard/app/(public)/transparency/elections/[id]/page.tsx 46 54 loadElectionDetails *)
Definition take_overview (electionId : string) (overviewRes : outcome TransparencyOverview) : M unit :=
  match overviewRes with
  | Ok o =>
      upd (set_overview (Some o));;
      (if has_results o
       then res ← try_catch (await (getTransparencyResults electionId)) (fun _ => mret VNull);
            upd (set_resultsData res)
       else mret tt)
  | Err _ => upd (set_error (Some ("Election " ++s electionId ++s " not found or unavailable.")))
  end.

(** Both requests have a catch of their own, so that neither rejects. *)
(*@ dashboard/app/(public)/transparency/elections/[id]/page.tsx 38 61 loadElectionDetails *)
Definition loadElectionDetails (id : option string) : M unit :=
  if negb (truthy_opt id) then mret tt
  else
    let electionId := default EmptyString id in
    finally
      (try_catch
         (both ← await_each [getTransparencyOverview electionId; getTransparencyCandidates electionId];
          let '(overviewRes, (candidatesRes, _)) := both in
          take_overview electionId overviewRes;;
          upd (set_candidates match candidatesRes with Ok l => l | Err _ => [] end))
         (fun _ => upd (set_error (Some "Error loading transparency data."%string))))
      (upd (set_loading false)).

(** The page has no controls but links. *)
Inductive ui := .

#[export] Instance ui_eq_dec : EqDecision ui. Proof. intros []. Defined.

Definition on_ui (u : ui) (s : state) : M unit := match u with end.

Inductive env := Mount | Address (id : option string).

(** The effect runs when the page is mounted and when the address has another identifier. *)
(*@ dashboard/app/(public)/transparency/elections/[id]/page.tsx 37 63 useEffect *)
Definition on_surroundings (x : env) (s : state) : M unit :=
  match x with
  | Mount => if mounted s then mret tt else upd (set_mounted true);; loadElectionDetails (electionId s)
  | Address id =>
      upd (set_electionId id);;
      (if mounted s && negb (bool_decide (id = electionId s)) then loadElectionDetails id else mret tt)
  end.

(*@ dashboard/app/(public)/transparency/elections/[id]/page.tsx 166 199 ElectionTransparencyDetailPage *)
Definition checkpoints (o : TransparencyOverview) : list (node ui) :=
  [Text "Integrity Checkpoints"; Text "Audit Hash Chain"; Text (str_or (t_audit_chain_status o) "TAMPER-EVIDENT INTACT");
   Text "Continuous SHA-256 genesis tip"; Text "Reconciliation"; Text (str_or (t_reconciliation_status o) "EXACT_MATCH");
   Text "Sum(Ballots) == Sum(Candidate Totals)"; Text "Digital Manifest"; Text (str_or (t_manifest_status o) "VERIFIED");
   Text "Ed25519 signature verified"].

(*@ dashboard/app/(public)/transparency/elections/[id]/page.tsx 213 229 candidates.map *)
Definition candidate_row (c : CandidateResponse) : list (node ui) :=
  [Text ("#" ++s Z_to_string (c_position c)); Text (opt_or (c_symbol c) "â˜…"); Text (c_name c);
   Text (opt_or (c_party c) "Independent"); Text ("ID: " ++s c_id c)].

(*@ dashboard/app/(public)/transparency/elections/[id]/page.tsx 243 256 candidate_results.map *)
Definition tally_row (res : value) : list (node ui) :=
  [Text (child (prop "candidate_name" res) ++s " (" ++s child (prop "party" res) ++s ")");
   Text (child (prop "vote_count" res) ++s " votes (" ++s child (prop "percentage" res) ++s "%)")].

(*@ dashboard/app/(public)/transparency/elections/[id]/page.tsx 234 259 resultsData *)
Definition tallies (data : value) : list (node ui) :=
  if truthy data
  then [Text "Published Vote Tallies"; Text "Simulation aggregate tallies verified by the Result Manifest"]
       ++ flat_map tally_row (Overseas.elements (prop "candidate_results" (prop "manifest" data)))
  else [].

(*@ dashboard/app/(public)/transparency/elections/[id]/page.tsx 90 262 ElectionTransparencyDetailPage *)
Definition details (s : state) (o : TransparencyOverview) : list (node ui) :=
  [Link "/transparency" "Back to Public Transparency Center"; Text (t_election_id o);
   Badge (if String.eqb (t_state o) "OPEN" then "success" else "neutral") (t_state o); Text (t_election_name o);
   Text "Cryptographic Transparency & Independent Verifiability Dashboard"; Link "/verify" "Verify Archive";
   Text "Ballots Cast"; Text (Z_to_string (t_total_ballots o)); Text "Reporting Units"; Text (Z_to_string (t_device_count o));
   Text "Polling Stations"; Text (Z_to_string (t_polling_station_count o)); Text "Candidates";
   Text (Z_to_string (t_candidate_count o))]
  ++ checkpoints o
  ++ [Text ("Published Candidate Roster (" ++s Z_to_string (Z.of_nat (List.length (candidates s))) ++s ")")]
  ++ flat_map candidate_row (candidates s)
  ++ tallies (resultsData s).

(*@ dashboard/app/(public)/transparency/elections/[id]/page.tsx 65 88 ElectionTransparencyDetailPage *)
Definition render (s : state) : list (node ui) :=
  if loading s then repeat (Skeleton) 3
  else match overview s, truthy_opt (error s) with
       | Some o, false => details s o
       | _, _ => [Icon "AlertCircle"; Text (opt_or (error s) "Election not found");
                  Link "/transparency" "Back to Transparency Center"]
       end.

Definition page : component state ui env := mk_component render on_ui on_surroundings.

End TransparencyDetail.

Import TransparencyDetail.

#[export] Hint Unfold on_ui on_surroundings loadElectionDetails take_overview : prog.

(** ** Requests *)

(** Results are only asked for of an election whose overview says it is closed or published. *)
Definition Sends (s : state) (q : req) : Prop :=
  match q with
  | getTransparencyOverview _ | getTransparencyCandidates _ => True
  | getTransparencyResults _ => exists o, overview s = Some o /\ has_results o = true
  | _ => False
  end.

Lemma loadElectionDetails_keeps id : keeps (fun _ => True) Sends (loadElectionDetails id).
Proof.
  unfold loadElectionDetails. destruct (negb (truthy_opt id)); [by apply keeps_ret |].
  apply keeps_finally; [| by apply keeps_upd]. apply keeps_try; [| by intros; apply keeps_upd].
  apply keeps_bind; [by apply keeps_await_each; intros; repeat constructor |]. intros [o [c []]].
  apply keeps_bind; [| by intros _; apply keeps_upd]. destruct o as [o|e]; cbn [take_overview]; [| by apply keeps_upd].
  intros b s _. apply wpf_upd. destruct (has_results o) eqn:Eh; [| done]. cbn. split_and!; [done | |].
  - apply Forall_singleton. by exists o.
  - by intros [v|e] s' _.
Qed.

Lemma transparency_detail_safe : safe_component page (fun _ => True) Sends (fun _ => True).
Proof.
  split; [by intros [] |]. intros x s _ _. unfold page. cbn [on_env]. destruct x as [|id]; cbn [on_surroundings].
  - destruct (mounted s); [done |]. apply keeps_handles; [| done].
    apply keeps_bind; [by apply keeps_upd | intros _; apply loadElectionDetails_keeps].
  - apply keeps_handles; [| done]. apply keeps_bind; [by apply keeps_upd | intros _].
    destruct (mounted s && _); [apply loadElectionDetails_keeps | by apply keeps_ret].
Qed.

(** In every interleaving only public requests are sent, and the results are asked for only
    while the overview shown is of an election that is closed or published. *)
Theorem transparency_detail_requests id w s q :
  reachable page (fun _ => True) (initial id) w -> In (s, q) (sent w) -> Sends s q /\ public_req q = true.
Proof.
  intros Hw Hin. destruct (reachable_good _ _ _ _ transparency_detail_safe (initial id) w I Hw) as [_ _ Hs].
  pose proof (Forall_In _ _ _ Hs Hin) as Hq. split; [exact Hq |]. by destruct q.
Qed.

(** ** What loading ends with *)

Definition loaded_overview (f : forall r, outcome (resp r)) (i : string) (s : state) : state :=
  match f (getTransparencyOverview i) with
  | Ok o =>
      if has_results o
      then set_resultsData (match f (getTransparencyResults i) with Ok v => v | Err _ => VNull end) (set_overview (Some o) s)
      else set_overview (Some o) s
  | Err _ => set_error (Some ("Election " ++s i ++s " not found or unavailable.")) s
  end.

Lemma take_overview_alone f i s :
  exists l, alone f (take_overview i (f (getTransparencyOverview i))) s = Some (mk_ending (inl tt) (loaded_overview f i s) l).
Proof.
  unfold loaded_overview. destruct (f (getTransparencyOverview i)) as [o|e]; cbn [take_overview]; [| eexists; reflexivity].
  rewrite alone_upd. destruct (has_results o); [| eexists; reflexivity].
  destruct (f (getTransparencyResults i)) eqn:E; eexists; alone_auto; reflexivity.
Qed.

Lemma loadElectionDetails_alone f i s :
  truthy_str i = true ->
  exists l, alone f (loadElectionDetails (Some i)) s
  = Some (mk_ending (inl tt)
      (set_loading false (set_candidates match f (getTransparencyCandidates i) with Ok l => l | Err _ => [] end
                            (loaded_overview f i s))) l).
Proof.
  intros Hi. unfold loadElectionDetails. cbn [truthy_opt default]. rewrite Hi. cbn [negb].
  rewrite alone_finally, alone_try, alone_bind.
  alone_step.
  cbn [after settle]. rewrite alone_bind. destruct (take_overview_alone f i s) as [l Hl].
  match goal with |- context [@alone ?S ?g ?A (take_overview ?x ?o) ?t] =>
    replace (@alone S g A (take_overview x o) t) with (Some (mk_ending (S := state) (inl tt : unit + error_obj) (loaded_overview f i s) l))
      by (symmetry; exact Hl) end.
  eexists. cbn. reflexivity.
Qed.

(** Opened at an address, the page ends with the election's overview, its candidates (none
    if they cannot be had) and, if it is closed, its results; or with an error that says it
    was not found, also when the backend could not be reached. *)
Theorem transparency_detail_loaded i (f : forall r, outcome (resp r)) :
  i <> EmptyString ->
  exists k w, run page (boot (initial (Some i))) (Env Mount :: replies f 0 k) = Some w
    /\ tasks w = [] /\ loading (st w) = false
    /\ candidates (st w) = match f (getTransparencyCandidates i) with Ok l => l | Err _ => [] end
    /\ match f (getTransparencyOverview i) with
       | Ok o => overview (st w) = Some o /\ error (st w) = None
                 /\ render (st w) = details (st w) o
                 /\ resultsData (st w) = if has_results o
                                         then match f (getTransparencyResults i) with Ok v => v | Err _ => VNull end
                                         else VNull
       | Err _ => overview (st w) = None
                  /\ render (st w) = [Icon "AlertCircle"; Text ("Election " ++s i ++s " not found or unavailable.");
                                      Link "/transparency" "Back to Transparency Center"]
       end.
Proof.
  intros Hi. assert (truthy_str i = true) as Ht by (by destruct i).
  destruct (loadElectionDetails_alone f i (set_mounted true (initial (Some i))) Ht) as [l Hl].
  destruct (env_alone f page (boot (initial (Some i))) Mount _ eq_refl
              (Hl : alone f (on_env page Mount (initial (Some i))) (initial (Some i)) = _)) as (k & w & H1 & H2 & H3 & _).
  exists k, w. split; [exact H1 |]. split; [exact H2 |]. rewrite H3. unfold loaded_overview.
  destruct (f (getTransparencyOverview i)) as [o|e]; cbn; [| by split_and!].
  destruct (has_results o); cbn; by split_and!.
Qed.

(** An address of another election, while the page is open. *)
Theorem transparency_detail_stays_not_found w i (f : forall r, outcome (resp r)) :
  tasks w = [] -> mounted (st w) = true -> i <> EmptyString -> electionId (st w) <> Some i ->
  truthy_opt (error (st w)) = true ->
  exists k w', run page w (Env (Address (Some i)) :: replies f (fresh w) k) = Some w'
    /\ tasks w' = [] /\ loading (st w') = false /\ exists m,
       render (st w') = [Icon "AlertCircle"; Text m; Link "/transparency" "Back to Transparency Center"].
Proof.
  intros Ht Hm Hi Hne He. assert (truthy_str i = true) as Hti by (by destruct i).
  destruct (loadElectionDetails_alone f i (set_electionId (Some i) (st w)) Hti) as [l Hl].
  edestruct (env_alone f page w (Address (Some i))) as (k & w' & H1 & H2 & H3 & _); [done | |].
  { cbn [on_env page on_surroundings]. rewrite alone_upd, Hm, bool_decide_eq_false_2 by congruence. exact Hl. }
  exists k, w'. split; [exact H1 |]. split; [exact H2 |]. rewrite H3. split; [done |]. cbn [left_in].
  assert (truthy_opt (error (loaded_overview f i (set_electionId (Some i) (st w)))) = true) as He'.
  { unfold loaded_overview. destruct (f (getTransparencyOverview i)) as [o|e]; [by destruct (has_results o) |].
    cbn. by destruct i. }
  unfold render. cbn [loading set_loading error overview set_candidates]. rewrite He'. eexists.
  by destruct (overview (loaded_overview f i (set_electionId (Some i) (st w)))).
Qed.

(** ** What is shown *)

(** Every election's manifest is said to have a verified signature, and the published
    tallies are empty whatever they are: the answer has no key manifest, where the page
    looks for them. *)
Theorem transparency_tallies_never_shown s o :
  loading s = false -> overview s = Some o -> truthy_opt (error s) = false ->
  shows (render s) "Ed25519 signature verified" = true
  /\ (prop "manifest" (resultsData s) = VUndef -> truthy (resultsData s) = true ->
      tallies (resultsData s)
      = [Text "Published Vote Tallies"; Text "Simulation aggregate tallies verified by the Result Manifest"]).
Proof.
  intros Hl Ho He. split.
  - unfold render, details, checkpoints. rewrite Hl, Ho, He, !shows_app, !shows_cons. cbn. by rewrite !orb_true_r.
  - intros Hm Ht. unfold tallies. rewrite Ht, Hm. done.
Qed.

(** ** The loading flag *)

(** Without an identifier the page loads for ever; with one it is busy from the start. *)
Definition busy_detail (s : state) : bool := mounted s && truthy_opt (electionId s) && loading s.

Lemma transparency_detail_lowers : lowering_component page (fun _ => True) (fun _ => True) busy_detail.
Proof.
  assert (forall id b s0 s, truthy_opt id = true ->
    low (fun _ => True) busy_detail b (loadElectionDetails id) (fun b _ => fine busy_detail b) (fun b _ => fine busy_detail b) s0 s) as Hl.
  { intros id b s0 s Hid. unfold loadElectionDetails. rewrite Hid. cbn [negb]. apply lowers_at_end.
    - intros s'. unfold busy_detail. cbn. by rewrite andb_false_r.
    - apply timerless_try; [| by intros]. apply timerless_bind; [by intros [?|?] |]. intros [o [c []]].
      apply timerless_bind; [| by intros]. destruct o as [o|e]; cbn [take_overview]; [| done]. cbn.
      destruct (has_results o); [| done]. by intros [?|?]. }
  assert (forall id b s0 s, truthy_opt id = false ->
    (busy_detail s = true -> b = false /\ busy_detail s0 = true) ->
    low (fun _ => True) busy_detail b (loadElectionDetails id) (fun b _ => fine busy_detail b) (fun b _ => fine busy_detail b) s0 s) as Hn.
  { intros id b s0 s Hid Hb. unfold loadElectionDetails. by rewrite Hid. }
  split; [by intros [] |]. intros x s _ _. unfold lowers, page. cbn [on_env]. destruct x as [|id]; cbn [on_surroundings].
  - destruct (mounted s) eqn:Em; [by split |]. apply low_upd.
    destruct (truthy_opt (electionId s)) eqn:Ei; [by apply Hl | apply Hn; [done |]].
    unfold busy_detail. cbn. by rewrite Ei.
  - apply low_upd. destruct (mounted s) eqn:Em; cbn [andb].
    + case_bool_decide as Hid; cbn [negb].
      * subst id. unfold fine, busy_detail. cbn. by split.
      * destruct (truthy_opt id) eqn:Ei; [by apply Hl | apply Hn; [done |]]. unfold busy_detail. cbn. by rewrite Ei, andb_false_r.
    + cbn. unfold fine, busy_detail. cbn. by rewrite Em.
Qed.

Theorem transparency_detail_not_left_loading id w :
  reachable page (fun _ => True) (initial id) w -> idle w = true -> busy_detail (st w) = false.
Proof.
  intros Hw Hi. by apply (never_left_busy page (fun _ => True) busy_detail (initial id) w transparency_detail_lowers).
Qed.

(** ** Concrete runs *)

(** A closed election, with the results as the backend gives them. *)
Definition public_answers : forall r, outcome (resp r) :=
  fun r => match r as r return outcome (resp r) with
           | getTransparencyOverview i =>
               if String.eqb i "E1"
               then Ok {| t_election_id := "E1"; t_election_name := "Poll"; t_state := "CLOSED"; t_total_ballots := 3; t_device_count := 1;
                          t_polling_station_count := 1; t_candidate_count := 2; t_registered_voters := 9;
                          t_turnout_percentage := of_Z 33; t_audit_chain_status := "PENDING";
                          t_reconciliation_status := "PENDING"; t_manifest_status := "PENDING"; t_notice := "" |}
               else Err (plain_error "ApiError" "Election not found")
           | getTransparencyResults _ =>
               Ok (VObj [("total_ballots", VNum 3); ("candidate_totals", VObj [("C001", VNum 2); ("C002", VNum 1)])]%string)
           | _ => Err (plain_error "Error" "offline")
           end.

Definition at_closed : world state :=
  default (boot (initial (Some "E1"%string)))
    (run page (boot (initial (Some "E1"%string))) (Env Mount :: replies public_answers 0 2)).

Definition at_unknown : world state :=
  default (boot (initial (Some "E9"%string)))
    (run page (boot (initial (Some "E9"%string))) (Env Mount :: replies public_answers 0 1)).

Lemma at_closed_reachable : reachable page (fun _ => True) (initial (Some "E1"%string)) at_closed.
Proof. apply reachable_default; [apply reach_boot | by repeat constructor]. Qed.

Lemma transparency_detail_requests_witness :
  Forall (fun '(s, q) => Sends s q) (sent at_closed) /\ List.length (sent at_closed) = 3%nat.
Proof.
  split; [| by vm_compute]. apply Forall_forall. intros [s q] Hin%list_elem_of_In.
  exact (proj1 (transparency_detail_requests _ at_closed s q at_closed_reachable Hin)).
Defined.

Lemma transparency_detail_loaded_witness :
  exists k w, run page (boot (initial (Some "E1"%string))) (Env Mount :: replies public_answers 0 k) = Some w
    /\ truthy (resultsData (st w)) = true.
Proof.
  destruct (transparency_detail_loaded "E1" public_answers) as (k & w & H1 & _ & _ & _ & _ & _ & _ & H2); [done |].
  exists k, w. split; [exact H1 |]. rewrite H2. by vm_compute.
Defined.

Lemma transparency_detail_stays_not_found_witness :
  exists k w', run page at_unknown (Env (Address (Some "E1"%string)) :: replies public_answers (fresh at_unknown) k) = Some w'
    /\ loading (st w') = false.
Proof.
  destruct (transparency_detail_stays_not_found at_unknown "E1" public_answers) as (k & w' & H1 & _ & H2 & _);
    [reflexivity | reflexivity | done | done | reflexivity |]. by exists k, w'.
Defined.

Lemma transparency_tallies_never_shown_witness :
  shows (render (st at_closed)) "Ed25519 signature verified" = true
  /\ tallies (resultsData (st at_closed))
     = [Text "Published Vote Tallies"; Text "Simulation aggregate tallies verified by the Result Manifest"].
Proof.
  destruct (overview (st at_closed)) as [o|] eqn:Eo; [| exfalso; vm_compute in Eo; discriminate Eo].
  destruct (transparency_tallies_never_shown (st at_closed) o) as [H1 H2]; [reflexivity | exact Eo | reflexivity |].
  split; [exact H1 |]. by apply H2.
Defined.

Lemma transparency_detail_not_left_loading_witness : busy_detail (st at_closed) = false.
Proof. eapply transparency_detail_not_left_loading; [apply at_closed_reachable | by vm_compute]. Defined.
