(* ===== verification/Navigation.v ===== *)
(** * Navigation: the links of the dashboard

    The pages the router serves (the files page.tsx under app/), the navigation elements
    (components/layout/Sidebar.tsx, components/shared, app/page.tsx and the menus of the
    voter portal), and the links of the modelled pages. Which entry of the side bar is
    marked, that every link leads to a page, and the one that does not. *)
From S2P Require Import Prelude JsValue JsNumber Types ApiClient View React Common ActiveElection Command Officer Portal.
From S2P Require Import VoterRoll VoterProfile TransparencyCenter TransparencyDetail SimulationPage Preview.
From Stdlib Require Import String Ascii.

Module Navigation.

(** ** The router *)

(** A segment of an address: fixed, or a parameter in brackets. *)
Inductive segment := Lit (s : string) | Param.

(** [s.split(c)]. *)
Fixpoint split_on (c : ascii) (s : string) : list string :=
  match s with
  | EmptyString => [EmptyString]
  | String d s' =>
      match split_on c s' with
      | hd :: tl => if Ascii.eqb d c then EmptyString :: hd :: tl else String d hd :: tl
      | [] => []
      end
  end.

(** An address without its query and fragment. *)
Fixpoint path_of (s : string) : string :=
  match s with
  | EmptyString => EmptyString
  | String c s' => if Ascii.eqb c "?" || Ascii.eqb c "#" then EmptyString else String c (path_of s')
  end.

Definition segments (href : string) : list string :=
  match split_on "/" (path_of href) with
  | [EmptyString; EmptyString] => []
  | EmptyString :: l => l
  | l => l
  end.

Fixpoint matches (p : list segment) (l : list string) : bool :=
  match p, l with
  | [], [] => true
  | Lit a :: p', s :: l' => String.eqb a s && matches p' l'
  | Param :: p', s :: l' => truthy_str s && matches p' l'
  | _, _ => false
  end.

Definition fixed (path : string) : list segment := map Lit (segments path).

(** The directories under app/ that have a page.tsx, without their groups in parentheses. *)
Definition PAGES : list (list segment) :=
  map fixed
    ["/"; "/login"; "/evm"; "/audit"; "/command"; "/devices"; "/results"; "/security"; "/election/attacks";
     "/election/audit"; "/election/candidates"; "/election/complaints"; "/election/counting"; "/election/devices";
     "/election/observers"; "/election/parties"; "/election/polling"; "/election/polling-stations"; "/election/reports";
     "/election/results"; "/election/security"; "/election/setup"; "/election/simulation"; "/election/transparency";
     "/election/verification"; "/map"; "/transparency"; "/verify"; "/voter"; "/voter/candidates"; "/voter/complaints";
     "/voter/eligibility"; "/voter/help"; "/voter/overseas"; "/voter/polling-station"; "/voter/profile";
     "/voter/register"; "/voter/roll"; "/voter/status"; "/voter/vote"]%string
  ++ [[Lit "evm"; Param]; [Lit "transparency"; Lit "elections"; Param]]%string.

Definition serves (href : string) : bool := existsb (fun p => matches p (segments href)) PAGES.

(** The addresses of all links of a page. *)
Section Links.
Context {U : Type}.

Fixpoint links_in (n : node U) : list string :=
  match n with
  | Link href _ => [href]
  | Box _ children => flat_map links_in children
  | _ => []
  end.

Definition links (page : list (node U)) : list string := flat_map links_in page.

Lemma links_app p1 p2 : links (p1 ++ p2) = links p1 ++ links p2.
Proof. apply flat_map_app. Qed.

Lemma links_flat_map {A} (f : A -> list (node U)) l : links (flat_map f l) = flat_map (fun x => links (f x)) l.
Proof. induction l as [|x l IH]; [done |]. cbn [flat_map]. by rewrite links_app, IH. Qed.
End Links.

(** ** The side bar *)

(*@ dashboard/components/layout/Sidebar.tsx 26 67 NAV_SECTIONS *)
Definition NAV_SECTIONS : list (string * list (string * string)) :=
  [("Overview", [("Dashboard", "/command")]);
   ("Election Operations",
     [("Election Setup", "/election/setup"); ("Candidates", "/election/candidates");
      ("Polling Stations", "/election/polling-stations"); ("Devices", "/election/devices");
      ("Polling", "/election/polling")]);
   ("Results & Verification",
     [("Counting Center", "/election/counting"); ("Results", "/election/results");
      ("Verification", "/election/verification")]);
   ("Integrity & Security",
     [("Audit Explorer", "/election/audit"); ("Security Center", "/election/security");
      ("Attack Demo", "/election/attacks")]);
   ("Administration",
     [("Complaints", "/election/complaints"); ("Simulation", "/election/simulation");
      ("Transparency", "/election/transparency")])]%string.

(*@ dashboard/components/layout/Sidebar.tsx 82 82 isActive *)
Definition isActive (pathname href : string) : bool :=
  String.eqb pathname href || starts_with (href ++s "/") pathname.

(** The navigation elements have links only. *)
Inductive ui := .

(*@ dashboard/components/layout/Sidebar.tsx 69 128 Sidebar *)
Definition Sidebar (pathname : string) : list (node ui) :=
  flat_map (fun section =>
      Text (fst section)
      :: map (fun item => Box (if isActive pathname (snd item) then "active" else "inactive") [Link (snd item) (fst item)])
           (snd section))
    NAV_SECTIONS
  ++ [Text "SIMULATION PROTOTYPE"; Text "NOT ECI"; Text "Trust Boundary Notice";
      Text "Dashboard is presentation-only. All verification properties are recalculated from raw records by the independent verifier."].

(** ** The public navigation *)

(*@ dashboard/components/shared/CivicHeader.tsx 5 31 CivicHeader *)
Definition CivicHeader : list (node ui) :=
  [Link "/" "SecureVOTE"; Link "/" "Home"; Link "/voter" "Voter Services"; Link "/transparency" "Transparency";
   Link "/verify" "Verify Election"; Link "/login" "Officer Login"].

(*@ dashboard/components/shared/CivicFooter.tsx 4 21 CivicFooter *)
Definition CivicFooter : list (node ui) :=
  [Text "SecureVOTE 2.0";
   Text "Independent educational/research prototype. Not affiliated with the Election Commission of India and not intended for production elections.";
   Link "/transparency" "Transparency"; Link "https://github.com/example/securevote" "Documentation"].

(*@ dashboard/app/(public)/layout.tsx 5 13 PublicLayout *)
Definition PublicLayout (children : list (node ui)) : list (node ui) := CivicHeader ++ children ++ CivicFooter.

(*@ dashboard/app/page.tsx 8 135 LandingPage *)
Definition LandingPage : list (node ui) :=
  [Text "SECUREVOTE"; Text "Election Integrity, From Ballot to Verification";
   Text "Independent educational/research prototype. Not affiliated with the Election Commission of India and not intended for production elections.";
   Link "/voter" "ENTER VOTER PORTAL"; Link "/evm" "OPEN EVM SIMULATOR"; Link "/login" "OPEN OFFICER CONSOLE";
   Link "/verify" "VERIFY ELECTION"; Link "/transparency" "VIEW TRANSPARENCY"; Link "/verify" "INDEPENDENT VERIFIER";
   Text "System Architecture & Research Prototype"; Text "Microcontroller Terminal";
   Text "Embedded ATmega328P/Arduino Uno prototype recording monotonic sequence-tracked voting events with hardware tamper-latch flags.";
   Text "Digital EVM Twin";
   Text "Browser digital twin replicating Control Unit / Ballot Unit interactions, 1000Hz confirmation tone, Rule 49B NOTA, and the 7-second VVPAT viewing window.";
   Text "SecureVOTE Core Backend";
   Text "FastAPI + SQLAlchemy engine managing election state machines, keyed HMAC-SHA256 pseudonymization, and append-only SHA-256 audit chains.";
   Text "Command & Lifecycle Center";
   Text "Officer dashboard modeling the 12-stage Indian statutory election lifecycle (Form 7A, mock poll Rule 49E, Form 17C account of votes, counting Rule 56D).";
   Text "Independent Verifier";
   Text "Pure Python standalone verifier executing 12 deterministic invariant checks over exported election archives (hash chain, Ed25519 signatures, zero-drift).";
   Text "Public Transparency Portal";
   Text "Open public portal publishing aggregate turnout, polling station operational status, and cryptographic audit root verification proofs."].

(** A service of the portal. *)
(*@ dashboard/app/(public)/voter/page.tsx 22 29 services *)
Record service := mk_service { sv_title : string; sv_description : string; sv_icon : string; sv_href : string; sv_badge : string }.

(*@ dashboard/app/(public)/voter/page.tsx 22 93 services *)
Definition services : list service :=
  [mk_service "Cast Vote (Digital EVM)" "Experience the EVM digital twin simulation (CU, BU, and 7-second VVPAT slip)."
     "Vote" "/voter/vote" "SIMULATION";
   mk_service "Search Electoral Roll" "Search your name in the electoral roll and generate simulated e-EPIC / voter slip."
     "FileSpreadsheet" "/voter/roll" "ELECTORAL ROLL";
   mk_service "Check Eligibility" "Verify age, citizenship, and residency qualifications for the current electoral revision."
     "CheckCircle" "/voter/eligibility" "REPRESENTATION OF THE PEOPLE ACT";
   mk_service "Voter Registration (Form 6)" "Simulate Form 6 enrollment for new electors or Form 8 for shift/correction."
     "UserPlus" "/voter/register" "FORM 6 / 8";
   mk_service "Check Application Status" "Track Form 6 reference number or verify voter card issuance status."
     "Search" "/voter/status" "TRACK STATUS";
   mk_service "Find Polling Station" "Locate your designated Polling Station, Assembly Constituency (AC), and PC details."
     "MapPin" "/voter/polling-station" "STATION & BLO";
   mk_service "Contesting Candidates" "Explore candidates, party symbols, and disclosures in your constituency."
     "Users" "/voter/candidates" "FORM 7A";
   mk_service "Overseas Elector (Form 6A)" "Dual-mode simulator for Non-Resident Indian (NRI) electors and consular sessions."
     "Globe" "/voter/overseas" "NRI / SECTION 20A";
   mk_service "Grievance Redressal" "Submit simulated election complaints or report polling-station issues."
     "MessageSquare" "/voter/complaints" "NGSP / COMPLAINTS";
   mk_service "EVM & VVPAT Guide" "Learn how the Control Unit, Ballot Unit, 7s VVPAT slip, and NOTA operate."
     "HelpCircle" "/voter/help" "VOTER EDUCATION"].

(*@ dashboard/app/(public)/voter/page.tsx 113 139 services.map *)
Definition service_card (s : service) : list (node ui) :=
  [Icon (sv_icon s); Text (sv_title s)]
  ++ when (truthy_str (sv_badge s)) [Text (sv_badge s)]
  ++ [Text (sv_description s); Link (sv_href s) "Access Service"].

(*@ dashboard/app/(public)/voter/page.tsx 95 174 VoterPortalPage *)
Definition VoterPortalPage : list (node ui) :=
  [Text "Voter Services Portal"; Text "Access all citizen services for SecureVOTE.";
   Text "DEMO DATA - SIMULATED IDENTITY"; Text "This is an educational prototype. Do not enter real personal information."]
  ++ flat_map service_card services
  ++ [Text "Reference Information: Electoral Accessibility & Facilities"; Text "Braille EVM Keypad Reference";
      Text "Ground Floor Ramp Standards"; Text "Rule 49N Companion Provision"; Text "Voter Assistance Booth (VAB) Norms"].

(*@ dashboard/app/(public)/voter/vote/page.tsx 19 102 VoterVoteGatewayPage *)
Definition VoterVoteGatewayPage : list (node ui) :=
  [Link "/voter" "Back to Voter Portal"; Text "Digital EVM Voting Terminal";
   Text "Experience the SecureVOTE electronic voting machine digital twin."; Text "Simulated Polling Environment:";
   Text "Voting Steps on the EVM Terminal"; Text "Follow this standard sequence inside the digital twin terminal";
   Text "1"; Text "Initialize Polling Session"; Text "The officer authorizes a single-use session credential for your voter profile.";
   Text "2"; Text "Select Your Candidate"; Text "Touch the candidate button on the physical-style EVM faceplate.";
   Text "3"; Text "Confirm and Cast Vote";
   Text "Press the green Confirm button. The backend validates sequence numbers and writes an immutable audit record.";
   Text "4"; Text "VVPAT Slip Verification";
   Text "A visual verification slip confirms your vote was committed before resetting to READY.";
   Text "Ready to launch the digital twin terminal?"; Link "/evm" "Launch EVM Terminal"].

End Navigation.

Import Navigation.

(** ** The side bar marks one entry *)

Definition nav_items : list (string * string) := flat_map snd NAV_SECTIONS.

Lemma prefix_empty s : String.prefix "" s = true.
Proof. by destruct s. Qed.

Lemma prefix_step c d a b :
  String.prefix (String c a) (String d b) = Ascii.eqb c d && String.prefix a b.
Proof.
  change (String.prefix (String c a) (String d b)) with (if ascii_dec c d then String.prefix a b else false).
  destruct (ascii_dec c d) as [->|Hn]; [by rewrite Ascii.eqb_refl | by rewrite (proj2 (Ascii.eqb_neq _ _) Hn)].
Qed.

Lemma prefix_refl a : String.prefix a a = true.
Proof. induction a as [|c a IH]; [done |]. by rewrite prefix_step, Ascii.eqb_refl. Qed.

Lemma prefix_trans_app a s b : String.prefix a s = true -> String.prefix a (s ++s b) = true.
Proof.
  revert s. induction a as [|c a IH]; intros s Hp; [apply prefix_empty |].
  destruct s as [|d s]; [done |]. change (String d s ++s b) with (String d (s ++s b)).
  rewrite prefix_step in *. apply andb_true_iff in Hp as [-> Hp]. by apply IH.
Qed.

(** Two prefixes of a string are prefixes of one another. *)
Lemma prefixes_comparable a b s :
  String.prefix a s = true -> String.prefix b s = true -> String.prefix a b = true \/ String.prefix b a = true.
Proof.
  revert b s. induction a as [|c a IH]; intros b s Ha Hb; [left; apply prefix_empty |].
  destruct b as [|d b]; [right; apply prefix_empty |]. destruct s as [|x s]; [done |].
  rewrite prefix_step in *. apply andb_true_iff in Ha as [->%Ascii.eqb_eq Ha], Hb as [->%Ascii.eqb_eq Hb].
  rewrite prefix_step, Ascii.eqb_refl. by eapply IH.
Qed.

Lemma active_prefix pathname href :
  isActive pathname href = true -> String.prefix (href ++s "/") (pathname ++s "/") = true.
Proof.
  unfold isActive, starts_with. intros [->%String.eqb_eq|Hp]%orb_true_iff; [| by apply prefix_trans_app].
  apply prefix_refl.
Qed.

(** No entry's address continues another's. *)
Lemma nav_items_apart :
  forallb (fun a => forallb (fun b => String.eqb (snd a) (snd b)
                                      || negb (String.prefix (snd a ++s "/") (snd b ++s "/"))) nav_items) nav_items = true.
Proof. by vm_compute. Qed.

(** Whatever the address, at most one entry of the side bar is marked. *)
Theorem sidebar_marks_one pathname a b :
  In a nav_items -> In b nav_items -> isActive pathname (snd a) = true -> isActive pathname (snd b) = true ->
  snd a = snd b.
Proof.
  intros Ha Hb Aa%active_prefix Ab%active_prefix.
  pose proof (proj1 (forallb_forall _ _) nav_items_apart) as Hall.
  assert (forall x y, In x nav_items -> In y nav_items -> String.prefix (snd x ++s "/") (snd y ++s "/") = true ->
            snd x = snd y) as Hap.
  { intros x y Hx Hy Hp. specialize (Hall x Hx). cbv beta in Hall. rewrite forallb_forall in Hall. specialize (Hall y Hy). cbv beta in Hall.
    rewrite Hp, orb_false_r in Hall. by apply String.eqb_eq. }
  destruct (prefixes_comparable _ _ _ Aa Ab) as [H|H]; [by apply Hap | symmetry; by apply Hap].
Qed.

Lemma sidebar_marks_one_witness : "/election/polling"%string = "/election/polling"%string.
Proof.
  refine (sidebar_marks_one "/election/polling/x" ("Polling", "/election/polling")%string ("Polling", "/election/polling")%string
            _ _ _ _); by vm_compute; auto 10.
Defined.

(** ** Links lead to pages *)

Definition served (page_links : list string) : Prop := Forall (fun href => serves href = true) page_links.

Lemma served_all l : forallb serves l = true -> served l.
Proof. intros H. apply Forall_forall. intros x Hx%list_elem_of_In. by apply (proj1 (forallb_forall _ _) H). Qed.

(** An identifier that is one segment of an address. *)
Fixpoint plain (s : string) : bool :=
  match s with
  | EmptyString => true
  | String c s' => negb (Ascii.eqb c "/" || Ascii.eqb c "?" || Ascii.eqb c "#") && plain s'
  end.

Lemma plain_path s : plain s = true -> path_of s = s.
Proof.
  induction s as [|c s IH]; [done |]. cbn. rewrite !negb_orb. intros [[[_ ->%negb_true_iff]%andb_true_iff ->%negb_true_iff]%andb_true_iff Hs]%andb_true_iff.
  cbn. by rewrite IH.
Qed.

Lemma plain_split s : plain s = true -> split_on "/" s = [s].
Proof.
  induction s as [|c s IH]; [done |]. cbn. rewrite !negb_orb. intros [[[->%negb_true_iff _]%andb_true_iff _]%andb_true_iff Hs]%andb_true_iff.
  by rewrite IH.
Qed.

Lemma split_on_cons c d s :
  split_on c (String d s)
  = match split_on c s with
    | hd :: tl => if Ascii.eqb d c then EmptyString :: hd :: tl else String d hd :: tl
    | [] => []
    end.
Proof. done. Qed.

Lemma split_on_some c s : split_on c s <> [].
Proof.
  induction s as [|d s IH]; [done |]. rewrite split_on_cons. destruct (split_on c s); [done |]. by destruct (Ascii.eqb d c).
Qed.

(** Splitting after a prefix: the pieces of the prefix, the last joined to what follows. *)
Lemma split_on_app c a s :
  forallb (fun x => negb (Ascii.eqb x c)) (list_ascii_of_string a) = true ->
  split_on c (a ++s String c s) = a :: split_on c s.
Proof.
  induction a as [|d a IH]; intros Ha.
  - change (EmptyString ++s String c s) with (String c s). rewrite split_on_cons.
    destruct (split_on c s) eqn:E; [by destruct (split_on_some c s) |]. by rewrite Ascii.eqb_refl.
  - cbn in Ha. apply andb_true_iff in Ha as [Hd%negb_true_iff Ha].
    change (String d a ++s String c s) with (String d (a ++s String c s)).
    rewrite split_on_cons, (IH Ha), Hd. done.
Qed.

Lemma detail_split i :
  split_on "/" ("/transparency/elections/" ++s i) = ""%string :: "transparency"%string :: "elections"%string :: split_on "/" i.
Proof.
  pose proof (split_on_app "/" "" ("transparency" ++s String "/" ("elections" ++s String "/" i)) eq_refl) as H.
  rewrite (split_on_app "/" "transparency"), (split_on_app "/" "elections") in H by done. exact H.
Qed.

Lemma detail_segments i :
  plain i = true -> segments ("/transparency/elections/" ++s i) = ["transparency"; "elections"; i]%string.
Proof.
  intros Hi. unfold segments.
  replace (path_of ("/transparency/elections/" ++s i)) with ("/transparency/elections/" ++s path_of i) by done.
  rewrite (plain_path _ Hi).
  rewrite detail_split. by rewrite (plain_split _ Hi).
Qed.

Lemma detail_served i : plain i = true -> i <> EmptyString -> serves ("/transparency/elections/" ++s i) = true.
Proof.
  intros Hi Hne. unfold serves. rewrite (detail_segments _ Hi). apply existsb_exists.
  exists [Lit "transparency"; Lit "elections"; Param]%string. split; [unfold PAGES; apply in_app_iff; right; right; by left |].
  cbn. by destruct i.
Qed.

Lemma profile_served n : serves ("/voter/profile?voterId=" ++s n) = true.
Proof. done. Qed.

Lemma sidebar_links pathname : links (Sidebar pathname) = map snd nav_items.
Proof. done. Qed.

(** Every link of the side bar, of the public header, the landing page, the portal and its
    gateway leads to a page of the dashboard, as do the twelve stages of the command
    centre. *)
Theorem navigation_links_served pathname :
  served (links (Sidebar pathname)) /\ served (links CivicHeader) /\ served (links LandingPage)
  /\ served (links VoterPortalPage) /\ served (links VoterVoteGatewayPage)
  /\ forall st, served (links (flat_map (Command.stage_card st) Command.LIFECYCLE_STAGES)).
Proof.
  rewrite sidebar_links. split_and!; try (apply served_all; by vm_compute).
  intros st. apply served_all. rewrite links_flat_map. unfold Command.stage_card. by vm_compute.
Qed.

Lemma served_app a b : served (a ++ b) <-> served a /\ served b.
Proof. apply Forall_app. Qed.

Lemma served_flat_map {A} (f : A -> list string) l : (forall x, In x l -> served (f x)) -> served (flat_map f l).
Proof.
  intros Hf. induction l as [|x l IH]; [constructor |]. cbn [flat_map]. apply served_app. split; [apply Hf; by left |].
  apply IH. intros y Hy. apply Hf. by right.
Qed.

(** Whatever the roll shows, its links lead to the portal or to the profile of a number. *)
Theorem roll_links_served s : served (links (VoterRoll.render s)).
Proof.
  unfold VoterRoll.render. rewrite !links_app. rewrite !served_app. split_and!; try (apply served_all; by vm_compute).
  - destruct (VoterRoll.lookupNotice s) as [n|]; [| constructor]. unfold when. destruct (truthy_str n); constructor.
  - assert (forall l, served (links (flat_map VoterRoll.voter_row l))) as Hl.
    { intros l. rewrite links_flat_map. apply served_flat_map. intros v _. cbn. constructor; [done | constructor]. }
    destruct (VoterRoll.filteredVoters s) as [|v l]; [constructor | apply Hl].
Qed.

(** The transparency centre links to the pages of its elections, provided their identifiers
    are plain segments. *)
Theorem transparency_links_served s :
  Forall (fun e => plain (t_election_id e) = true /\ t_election_id e <> EmptyString) (TransparencyCenter.elections s) ->
  served (links (TransparencyCenter.render s)).
Proof.
  intros Hall. unfold TransparencyCenter.render. rewrite !links_app. rewrite !served_app.
  split_and!; try (apply served_all; by vm_compute); unfold when.
  - destruct (TransparencyCenter.loading s); constructor.
  - destruct (truthy_opt _ && _); constructor.
  - destruct (negb _ && _); [| constructor]. rewrite links_app. apply served_app. split; [constructor |].
    destruct (TransparencyCenter.elections s) as [|e l] eqn:E; [constructor |].
    rewrite links_flat_map. apply served_flat_map. intros x Hx. cbn.
    constructor; [| constructor]. destruct (Forall_In _ _ _ Hall Hx) as [Hp Hn]. by apply detail_served.
Qed.

(** The officers' preview links to a page that does not exist. *)
Theorem preview_link_dead undeclared s e :
  Preview.selectedElection s = Some e -> plain (e_id e) = true ->
  exists href, In href (links (Preview.render undeclared s)) /\ serves href = false.
Proof.
  intros Hs Hp. exists ("/transparency/" ++s e_id e). split; [unfold Preview.render; rewrite Hs; by left |].
  assert (segments ("/transparency/" ++s e_id e) = ["transparency"%string; e_id e]) as Hseg.
  { unfold segments.
    replace (path_of ("/transparency/" ++s e_id e)) with ("/transparency/" ++s path_of (e_id e)) by done.
    rewrite (plain_path _ Hp).
    pose proof (split_on_app "/" "" ("transparency" ++s String "/" (e_id e)) eq_refl) as H.
    rewrite (split_on_app "/" "transparency"), (plain_split _ Hp) in H by done.
    change (""%string ++s String "/" ("transparency" ++s String "/" (e_id e))) with ("/transparency/" ++s e_id e) in H.
    by rewrite H. }
  unfold serves, PAGES. rewrite Hseg, existsb_app. apply orb_false_iff. split; [by vm_compute |].
  cbn [existsb matches]. by rewrite !andb_false_r.
Qed.

(** The pages no link of the navigation, of the command centre or of a modelled page leads
    to: an officer can only type their addresses. *)
Definition linked : list string :=
  map snd nav_items ++ links CivicHeader ++ links LandingPage ++ links VoterPortalPage ++ links VoterVoteGatewayPage
  ++ map Command.href Command.LIFECYCLE_STAGES
  ++ ["/devices"; "/map"; "/voter/profile?voterId="; "/transparency/elections/x"; "/evm/x"]%string.

Example unlinked_pages :
  List.filter (fun p => negb (existsb (fun href => matches p (segments href)) linked)) PAGES
  = map fixed ["/audit"; "/results"; "/security"; "/election/observers"; "/election/parties"; "/election/reports"]%string.
Proof. by vm_compute. Qed.

(** ** Witnesses *)

Lemma transparency_links_served_witness :
  served (links (TransparencyCenter.render
    (TransparencyCenter.set_elections [TransparencyCenter.pending_election] (TransparencyCenter.set_loading false TransparencyCenter.initial)))).
Proof. apply transparency_links_served. repeat constructor; done. Defined.

Lemma preview_link_dead_witness :
  exists href, In href (links (Preview.render (fun _ => None) (Preview.initial (Some (Preview.an_election "E1")))))
               /\ serves href = false.
Proof. by apply (preview_link_dead _ _ (Preview.an_election "E1")). Defined.
