(* ===== verification/Parties.v ===== *)
(** * Party services and the voter guide

    [app/(officer)/election/parties/page.tsx], a made-up register of parties, shown whatever
    the election, and [app/(public)/voter/help/page.tsx], the guide for voters. *)
From S2P Require Import Prelude JsValue JsNumber Types ApiClient View React.
From Stdlib Require Import String.

Module Parties.

Inductive compliance := VERIFIED | PENDING | REVIEW.

Definition compliance_str (c : compliance) : string :=
  match c with VERIFIED => "VERIFIED" | PENDING => "PENDING" | REVIEW => "REVIEW" end.

(*@ dashboard/app/(officer)/election/parties/page.tsx 19 27 PartyProfile *)
Record PartyProfile := {
  id : string;
  name : string;
  shortName : string;
  symbol : string;
  nationalRegistrationId : string;
  candidatesCount : Z;
  complianceStatus : compliance }.

(*@ dashboard/app/(officer)/election/parties/page.tsx 29 66 DEMO_PARTIES *)
Definition DEMO_PARTIES : list PartyProfile :=
  [{| id := "P01"; name := "Democratic Reform Party"; shortName := "DRP"; symbol := "ðŸ˜";
      nationalRegistrationId := "PR-2026-DRP"; candidatesCount := 1; complianceStatus := VERIFIED |};
   {| id := "P02"; name := "People's Progress Alliance"; shortName := "PPA"; symbol := "ðŸŒ¾";
      nationalRegistrationId := "PR-2026-PPA"; candidatesCount := 1; complianceStatus := VERIFIED |};
   {| id := "P03"; name := "National Development Front"; shortName := "NDF"; symbol := "â˜€ï¸";
      nationalRegistrationId := "PR-2026-NDF"; candidatesCount := 1; complianceStatus := VERIFIED |};
   {| id := "P04"; name := "Citizens United Movement"; shortName := "CUM"; symbol := "âš–ï¸";
      nationalRegistrationId := "PR-2026-CUM"; candidatesCount := 1; complianceStatus := VERIFIED |}].

(** The page has no controls; its list of parties is a state that nothing changes. *)
Inductive ui := .

#[export] Instance ui_eq_dec : EqDecision ui. Proof. intros []. Defined.

(*@ dashboard/app/(officer)/election/parties/page.tsx 68 70 CandidatePartyServicesPage *)
Record state := mk_state { selectedElection : option ElectionResponse; parties : list PartyProfile }.

(*@ dashboard/app/(officer)/election/parties/page.tsx 105 157 parties.map *)
Definition party_card (party : PartyProfile) : list (node ui) :=
  [Text (symbol party); Text (name party);
   Text (shortName party ++s " â€¢ " ++s nationalRegistrationId party);
   Badge (if bool_decide (compliance_str (complianceStatus party) = "VERIFIED"%string) then "success" else "warning")
     (compliance_str (complianceStatus party));
   Text "Nominees Fielded"; Text (Z_to_string (candidatesCount party) ++s " Candidate");
   Text "Nomination Scrutiny"; Text "Approved";
   Text "Compliance Checklist:";
   Text "Affidavit on Criminal Antecedents Filed";
   Text "Financial Asset Disclosures Verified";
   Text "EVM Symbol Assignment Frozen"].

(*@ dashboard/app/(officer)/election/parties/page.tsx 72 161 CandidatePartyServicesPage *)
Definition render (s : state) : list (node ui) :=
  [Text "Candidate & Party Services";
   Text "Party registrations, candidate nominations, symbol allocations, and compliance checklists";
   Badge "neutral" "PROTOTYPE SERVICE";
   Text "Simulated Party Registry:";
   Text "Synthetic party profiles and nomination data for educational prototype validation. Does not represent actual legal political party registration.";
   Text "Registered Political Parties";
   Text (Z_to_string (Z.of_nat (List.length (parties s))) ++s " Registered")]
  ++ flat_map party_card (parties s).

Definition on_ui (u : ui) (s : state) : prog state unit := match u with end.

(** Its surroundings: the context with another election. *)
Inductive env := Elect (e : option ElectionResponse).

(*@ dashboard/app/(officer)/election/parties/page.tsx 69 69 useElection *)
Definition on_surroundings (x : env) (s : state) : prog state unit :=
  match x with Elect e => upd (fun s => mk_state e (parties s)) end.

(*@ dashboard/app/(officer)/election/parties/page.tsx 70 70 useState *)
Definition initial (e : option ElectionResponse) : state := mk_state e DEMO_PARTIES.

Definition party_page : component state ui env := mk_component render on_ui on_surroundings.

End Parties.
Import Parties.

(** In every world the page shows the register it was written with, whichever election is
    chosen; it asks the backend for nothing. *)
Theorem parties_page_constant e w :
  reachable party_page (fun _ => True) (initial e) w ->
  parties (st w) = DEMO_PARTIES /\ render (st w) = render (initial None) /\ sent w = [] /\ tasks w = [].
Proof.
  intros Hw.
  assert (safe_component party_page (fun s => parties s = DEMO_PARTIES) (fun _ _ => False) (fun _ => True)) as Hsafe.
  { split; [intros [] |]. intros [e'] s _ Hs. exact Hs. }
  destruct (reachable_good _ _ _ _ Hsafe (initial e) w eq_refl Hw) as [Hi _ Hs].
  split; [exact Hi |]. split; [unfold render; by rewrite Hi |]. split.
  - destruct (sent w) as [|[s r] l]; [done |]. by inversion Hs.
  - clear Hi Hs Hsafe. induction Hw as [|w ev w' _ IH _ Hs]; [done |].
    destruct ev as [[]|[e']|i a|ms|i]; cbn [step get_task] in Hs; unfold get_task in Hs; rewrite ?IH in Hs; cbn in Hs;
      try done.
    + by injection Hs as <-.
    + destruct (0 <=? ms); [| done]. by injection Hs as <-.
Qed.

(** The scrutiny of a party's nominations is announced as approved, and its affidavits as
    filed, whatever its compliance status: also beside a badge that says it is under review. *)
Theorem party_scrutiny_always_approved (p : PartyProfile) :
  shows (party_card p) "Approved" = true
  /\ shows (party_card p) "Affidavit on Criminal Antecedents Filed" = true
  /\ shows (party_card p) (compliance_str (complianceStatus p)) = true.
Proof.
  unfold party_card, shows. cbn. rewrite String.eqb_refl, ?orb_true_r. by split_and!.
Qed.

Lemma parties_page_constant_witness :
  parties (st (default (boot (initial None)) (run party_page (boot (initial None)) [Env (Elect None); Tick 1000]))) = DEMO_PARTIES.
Proof.
  apply (parties_page_constant None). apply reachable_default; [constructor | by repeat constructor].
Defined.

(** ** The voter guide: prose, without controls, links or requests *)

Module VoterGuide.

Section Guide.
Context {U : Type}.

(*@ dashboard/app/(public)/voter/help/page.tsx 15 41 HelpPage *)
Definition how_to_vote : list (node U) :=
  [Text "How to Vote";
   Text "Check Eligibility:";
   Text "Verify your registration status and assigned polling station before election day.";
   Text "Authentication:";
   Text "Present your valid Voter ID or accepted alternative identification to the polling officer.";
   Text "Verification:";
   Text "The officer will verify your details against the electoral roll and mark your finger with indelible ink.";
   Text "Cast Your Vote:";
   Text "Proceed to the voting compartment. Press the blue button next to your chosen candidate on the EVM.";
   Text "Confirmation:";
   Text "Verify your vote on the VVPAT machine. A slip will print, be visible for 7 seconds, and then drop into the sealed box."].

(*@ dashboard/app/(public)/voter/help/page.tsx 43 60 HelpPage *)
Definition what_to_bring : list (node U) :=
  [Text "What to Bring";
   Text "In statutory elections, voters present an official Voter ID (EPIC). In this prototype, the following simulated documents are accepted:";
   Text "Aadhaar Card";
   Text "Passport";
   Text "Driving License";
   Text "PAN Card";
   Text "Government employee service ID card"].

(*@ dashboard/app/(public)/voter/help/page.tsx 62 78 HelpPage *)
Definition evm_guide : list (node U) :=
  [Text "EVM Operation Guide";
   Text "The Electronic Voting Machine (EVM) is simple to use:";
   Text "The machine lists candidate names, photos, and party symbols.";
   Text "Press the";
   Text "BLUE BUTTON";
   Text "adjacent to the symbol of your preferred candidate.";
   Text "A red light will glow next to the candidate's name, accompanied by a long beep sound.";
   Text "This confirms that your vote has been securely recorded."].

(*@ dashboard/app/(public)/voter/help/page.tsx 80 96 HelpPage *)
Definition accessibility : list (node U) :=
  [Text "Accessibility Options";
   Text "SecureVOTE ensures elections are accessible to all citizens:";
   Text "All polling stations are equipped with ramps for wheelchair access.";
   Text "Braille signage is available on EVMs for visually impaired voters.";
   Text "Voters with disabilities or seniors (80+) can request assistance or use the postal ballot facility.";
   Text "Special queues are designated for senior citizens and persons with disabilities."].

(*@ dashboard/app/(public)/voter/help/page.tsx 98 119 HelpPage *)
Definition questions : list (node U) :=
  [Text "Frequently Asked Questions";
   Text "What if my name is not on the voter list?";
   Text "You cannot vote if your name is absent from the electoral roll, even if you possess a Voter ID. Please verify your registration status well before election day.";
   Text "Are mobile phones allowed inside?";
   Text "No, mobile phones, cameras, and other electronic devices are strictly prohibited inside the voting compartment to ensure ballot secrecy.";
   Text "What is NOTA?";
   Text ("NOTA stands for " ++s quote ++s "None of the Above" ++s quote ++s ". It is an option on the EVM that allows you to officially register your rejection of all contesting candidates.")].

(*@ dashboard/app/(public)/voter/help/page.tsx 6 13 HelpPage *)
Definition guide : list (node U) :=
  [Text "Voting Guide"; Text "Information to help you participate in the democratic process."]
  ++ how_to_vote ++ what_to_bring ++ evm_guide ++ accessibility ++ questions.
End Guide.

End VoterGuide.

(** The guide offers nothing to do. *)
Lemma guide_without_controls {U} `{EqDecision U} (u : U) : allows VoterGuide.guide u = false.
Proof. done. Qed.
