(* ===== verification/Conformance.v ===== *)
(** * The repository's own tests: [dashboard/test/]

    Each test of the dashboard's suite, as an evaluation of the model: what the test mounts,
    the answers its mocked client gives, what it clicks and what it expects of the page.
    They all hold of the model; [dashboard_tests_pass] evaluates them. *)
From S2P Require Import Prelude JsValue JsNumber FormatError Types ApiClient View Common React.
From S2P Require Import AuthContext Devices Results AuditExplorer Security Eligibility.
From Stdlib Require Import String.

(** ** What tests are written with *)

Section Page.
Context {U : Type}.

(** The texts of a page's elements. *)
Fixpoint texts_in (n : node U) : list string :=
  match n with
  | Text s | Badge _ s => [trim s]
  | Link _ s | Button s _ _ => [trim s]
  | Banner _ title message _ => [title; message]
  | Box _ children => flat_map texts_in children
  | _ => []
  end.

Definition texts (page : list (node U)) : list string := flat_map texts_in page.

Definition matching (p : string -> bool) (page : list (node U)) : list string := filter p (texts page).

(** [screen.getByText(t)] fails unless exactly one element has the text; [getAllByText]
    unless one has. *)
Definition getByText (page : list (node U)) (t : string) : bool :=
  Nat.eqb (List.length (matching (String.eqb t) page)) 1.
Definition getAllByText (page : list (node U)) (t : string) : bool :=
  negb (Nat.eqb (List.length (matching (String.eqb t) page)) 0).

(** With a pattern /.../i, of one or of two texts in a row. *)
Definition like (t s : string) : bool := includes (to_upper t) (to_upper s).
Definition getByPattern (page : list (node U)) (t : string) : bool :=
  Nat.eqb (List.length (matching (like t) page)) 1.
Definition getAllByPattern (page : list (node U)) (t : string) : bool :=
  negb (Nat.eqb (List.length (matching (like t) page)) 0).

(** The button with a text, when it is enabled. *)
Fixpoint button_in (t : string) (n : node U) : option U :=
  match n with
  | Button s false ev => if String.eqb s t then Some ev else None
  | Box _ children =>
      (fix first (l : list (node U)) : option U :=
         match l with
         | [] => None
         | n :: l' => match button_in t n with Some u => Some u | None => first l' end
         end) children
  | _ => None
  end.

Fixpoint button (t : string) (page : list (node U)) : option U :=
  match page with
  | [] => None
  | n :: l => match button_in t n with Some u => Some u | None => button t l end
  end.

(** [screen.getByLabelText(t)] for a field. *)
Definition getByLabelText (page : list (node U)) (t : string) : bool :=
  existsb (fun n => match n with Field l _ _ _ => String.eqb l t | _ => false end) page.
End Page.

Section Screen.
Context {S U X : Type} `{EqDecision U} (C : component S U X) (f : forall r, outcome (resp r)).

(** [await waitFor(...)]: whatever is on its way is answered. *)
Fixpoint waitFor (fuel : nat) (w : world S) : world S :=
  match fuel with
  | O => w
  | Datatypes.S n =>
      match find_first (fun t => match t with Waiting _ _ _ => true | _ => false end) (tasks w) with
      | Some t => waitFor n (default w (step C w (Reply (task_id t) (answers f))))
      | None => w
      end
  end.

Definition screen_after (w : world S) (e : event U X) : world S := waitFor 12 (default w (step C w e)).

(** [fireEvent.click(screen.getByText(t))]; [None] when there is nothing to click. *)
Definition click (t : string) (w : world S) : option (world S) :=
  match button t (render C (st w)) with
  | Some u => Some (screen_after w (User u))
  | None => None
  end.

(** [fireEvent.change(...)], when the control is enabled. *)
Definition change (u : U) (w : world S) : world S := default w (step C w (User u)).
End Screen.

(** A method the test's mock does not have. *)
Definition not_mocked {A} : outcome A := Err (plain_error "TypeError" "is not a function").

(** ** format-error.test.ts *)
Module FormatErrorTests.
Import FormatError.

Definition toBe (t : thrown) (expected : string) : bool :=
  match formatApiError t with
  | Some (VStr s) => String.eqb s expected && negb (includes "[object Object]" s)
  | _ => false
  end.

Definition toContain (t : thrown) (parts : list string) : bool :=
  match formatApiError t with
  | Some (VStr s) => forallb (fun p => includes p s) parts && negb (includes "[object Object]" s)
  | _ => false
  end.

Definition detail (status : Z) (message : string) (d : value) : thrown :=
  TError (ApiError status message (VObj [("detail"%string, d)])).

Definition fastapi (field msg : string) : value :=
  VObj [("loc", VArr [VStr "body"; VStr field]); ("msg", VStr msg); ("type", VStr "value_error")]%string.

(*@ dashboard/test/format-error.test.ts 5 10 formats_string_detail_correctly *)
Definition formats_string_detail : bool :=
  toBe (detail 400 "Bad Request" (VStr "Invalid candidate selection")) "Invalid candidate selection".

(*@ dashboard/test/format-error.test.ts 12 17 formats_array_of_string_details *)
Definition formats_array_of_strings : bool :=
  toBe (detail 422 "Unprocessable" (VArr [VStr "Missing field A"; VStr "Invalid field B"]))
    "Missing field A. Invalid field B".

(*@ dashboard/test/format-error.test.ts 19 29 formats_array_of_object_validation_details *)
Definition formats_array_of_objects : bool :=
  toBe (detail 422 "Validation Error"
          (VArr [fastapi "dob" "Date of birth required"; fastapi "name" "Name too short"]))
    "Date of birth required. Name too short".

(*@ dashboard/test/format-error.test.ts 31 38 formats_dictionary_detail_with_message_field *)
Definition formats_message_field : bool :=
  toBe (detail 403 "Forbidden" (VObj [("message"%string, VStr "Access denied to polling unit")]))
    "Access denied to polling unit".

(*@ dashboard/test/format-error.test.ts 40 47 formats_dictionary_detail_with_msg_field *)
Definition formats_msg_field : bool :=
  toBe (detail 400 "Bad Request" (VObj [("msg"%string, VStr "Device already registered")]))
    "Device already registered".

(*@ dashboard/test/format-error.test.ts 49 57 safely_serializes_arbitrary_dictionary_detail *)
Definition serializes_dictionary : bool :=
  toContain (detail 409 "Conflict"
    (VObj [("code", VStr "DEVICE_REVOKED"); ("device_id", VStr "EVM-001"); ("active", VBool false)]%string))
    ["DEVICE_REVOKED"; "EVM-001"]%string.

(*@ dashboard/test/format-error.test.ts 59 64 formats_fallback_to_error_data_message *)
Definition falls_back_to_message : bool :=
  toBe (TError (ApiError 500 "Internal Server Error" (VObj [("message"%string, VStr "Database connection failed")])))
    "Database connection failed".

(*@ dashboard/test/format-error.test.ts 66 71 formats_standard_JavaScript_Error *)
Definition formats_standard_error : bool :=
  toBe (TError (plain_error "Error" "Network timeout while contacting backend"))
    "Network timeout while contacting backend".

(*@ dashboard/test/format-error.test.ts 73 77 formats_plain_string_error *)
Definition formats_plain_string : bool :=
  toBe (TValue (VStr "Custom string error occurred")) "Custom string error occurred".

(*@ dashboard/test/format-error.test.ts 79 83 formats_plain_object *)
Definition formats_plain_object : bool :=
  toContain (TValue (VObj [("custom_code", VNum 503); ("reason", VStr "Service unavailable")]%string))
    ["Service unavailable"%string].

(*@ dashboard/test/format-error.test.ts 85 88 handles_null_and_undefined *)
Definition handles_null_and_undefined : bool :=
  toBe (TValue VNull) "An unexpected error occurred. Please try again."
  && toBe (TValue VUndef) "An unexpected error occurred. Please try again.".

Definition suite : list bool :=
  [formats_string_detail; formats_array_of_strings; formats_array_of_objects; formats_message_field;
   formats_msg_field; serializes_dictionary; falls_back_to_message; formats_standard_error;
   formats_plain_string; formats_plain_object; handles_null_and_undefined].
End FormatErrorTests.

(** ** auth-flow.test.tsx *)
Module AuthFlowTests.
Import AuthContext.

(** The page [TestConsumer] and [usePathname] of the test. *)
(*@ dashboard/test/auth-flow.test.tsx 9 28 TestConsumer *)
Definition consumer (w : world state) : list (node AuthContext.ui) :=
  [Text (match user (st w) with Some u => str_or (u_username u) "anonymous" | None => "anonymous" end);
   Text (match role (st w) with Some r => role_str r | None => "no-role" end);
   Text (opt_or (token (st w)) "no-token")].

Definition started (stored : string) (f : forall r, outcome (resp r)) : world state :=
  screen_after session f (boot (initial "/command" (Some stored) working)) (Env Mount).

(*@ dashboard/test/auth-flow.test.tsx 39 45 mockResolvedValue *)
Definition me_answers : forall r, outcome (resp r) :=
  fun r => match r as r return outcome (resp r) with
           | getMe _ => Ok {| u_id := "u-123"; u_username := "admin"; u_role := ADMIN; u_is_active := true;
                              u_created_at := "2026-09-16T10:00:00Z" |}
           | _ => not_mocked
           end.

(*@ dashboard/test/auth-flow.test.tsx 36 58 restores_user_session *)
Definition restores_user_session : bool :=
  let page := consumer (started "existing-valid-jwt" me_answers) in
  getByText page "admin" && getByText page "ADMIN" && getByText page "existing-valid-jwt".

(*@ dashboard/test/auth-flow.test.tsx 60 79 handles_401_Unauthorized *)
Definition handles_401 : bool :=
  let w := started "expired-token" (fun r => Err (plain_error "Error" "401 Unauthorized")) in
  getByText (consumer w) "anonymous" && getByText (consumer w) "no-token"
  && bool_decide (storage (st w) = None) && str_in "/login" (pushed (st w)).

Definition suite : list bool := [restores_user_session; handles_401].
End AuthFlowTests.

(** What a test gives of an election, a mock with three keys. *)
Definition mock_election (id title : string) (s : ElectionState) : ElectionResponse :=
  {| e_id := id; e_title_name := None; e_title := Some title; e_description := None; e_state := s;
     e_configuration_hash := None; e_device_count := 0; e_ballot_count := 0; e_created_at := EmptyString;
     e_opened_at := None; e_closed_at := None; e_published_at := None; e_candidates := [] |}.

(** ** voter-eligibility.test.tsx *)
Module EligibilityTests.
Import Eligibility.

(*@ dashboard/test/voter-eligibility.test.tsx 19 28 renders_the_eligibility_form *)
Definition renders_the_form : bool :=
  let screen := render initial in
  getByText screen "Eligibility Checker" && getByText screen "SIMULATED ELIGIBILITY CHECK"
  && getByLabelText screen "Full Name" && getByLabelText screen "Date of Birth"
  && getByText screen "Check Eligibility".

(** The form filled in and sent to a client that answers with [o]. *)
Definition submitted (name date : string) (o : outcome EligibilityCheckResponse) : option (world state) :=
  let f : forall r, outcome (resp r) :=
    fun r => match r as r return outcome (resp r) with checkEligibility _ _ => o | _ => not_mocked end in
  click page f "Check Eligibility"
    (change page (SelectConstituency "North District")
       (change page (TypeDate date) (change page (TypeName name) (boot initial)))).

(*@ dashboard/test/voter-eligibility.test.tsx 30 56 submits_the_form *)
Definition submits_the_form : bool :=
  match submitted "Aarav Sharma" "1995-05-15"
          (Ok {| el_status := ELIGIBLE; el_reasons := ["All checks passed. Age >= 18 and registration verified."%string];
                 el_voter_id := None; el_notice := "SIMULATED STATUS" |}) with
  | Some w =>
      let screen := render (st w) in
      getByText screen "Eligibility Status" && getByText screen "ELIGIBLE" && getByPattern screen "All checks passed"
  | None => false
  end.

(*@ dashboard/test/voter-eligibility.test.tsx 58 78 handles_structured_API_error *)
Definition handles_structured_error : bool :=
  match submitted "Invalid User" "1990-01-01"
          (Err (FormatError.ApiError 400 "Bad Request"
             (VObj [("detail", VObj [("message", VStr "Constituency is not part of active election zone")])]%string))) with
  | Some w =>
      getByText (render (st w)) "Check Failed"
      && getByText (render (st w)) "Constituency is not part of active election zone"
  | None => false
  end.

Definition suite : list bool := [renders_the_form; submits_the_form; handles_structured_error].
End EligibilityTests.

(** ** device-status.test.tsx *)
Module DeviceTests.
Import Devices.

(*@ dashboard/test/device-status.test.tsx 29 54 mockDevices *)
Definition mockDevices : list DeviceResponse :=
  [{| d_id := "EVM-001"; d_election_id := "EV-2026-001"; d_name := "Precinct 1 Polling Station"; d_status := D_ACTIVE;
      d_device_hash := None; d_last_sequence_number := 42; d_total_votes_cast := 42;
      d_registered_at := "2026-09-16T10:00:00Z"; d_activated_at := Some "2026-09-16T10:05:00Z";
      d_last_seen_at := Some "2026-09-16T10:30:00Z" |};
   {| d_id := "EVM-002"; d_election_id := "EV-2026-001"; d_name := "Precinct 2 Polling Station"; d_status := D_SUSPENDED;
      d_device_hash := None; d_last_sequence_number := 10; d_total_votes_cast := 10;
      d_registered_at := "2026-09-16T10:00:00Z"; d_activated_at := Some "2026-09-16T10:05:00Z";
      d_last_seen_at := Some "2026-09-16T10:15:00Z" |}]%string.

(*@ dashboard/test/device-status.test.tsx 57 63 beforeEach *)
Definition registry_client : forall r, outcome (resp r) :=
  fun r => match r as r return outcome (resp r) with
           | getElections _ => Ok [mock_election "EV-2026-001" "General Election 2026" OPEN]
           | getDevices _ _ => Ok mockDevices
           | _ => not_mocked
           end.

(*@ dashboard/test/device-status.test.tsx 65 78 renders_status_badges *)
Definition renders_status_badges : bool :=
  let badge status demo := StatusBadge (U := ui) status demo in
  getByText (badge "ACTIVE"%string false) "ACTIVE" && getByText (badge "SUSPENDED"%string false) "SUSPENDED"
  && getByText (badge "REVOKED"%string false) "REVOKED" && getByText (badge "OPEN"%string true) "OPEN"
  && getByText (badge "OPEN"%string true) "[DEMO-MODE]".

(*@ dashboard/test/device-status.test.tsx 80 95 renders_devices_list *)
Definition renders_devices_list : bool :=
  let w := screen_after registry registry_client (boot (initial (Some "mock-token"%string) (Some ADMIN))) (Env Mount) in
  let screen := render (st w) in
  forallb (getByText screen)
    ["EVM-001"; "Precinct 1 Polling Station"; "#42"; "EVM-002"; "#10"; "Suspend"; "Re-activate"]%string.

Definition suite : list bool := [renders_status_badges; renders_devices_list].
End DeviceTests.

(** ** audit-explorer.test.tsx *)
Module AuditTests.
Import AuditExplorer.

(** The fields of an [event_data] text. *)
Definition session_data (credential device : string) : string :=
  value_body (VObj [("voter_credential", VStr credential); ("device_id", VStr device)]%string).

(*@ dashboard/test/audit-explorer.test.tsx 36 73 mockAuditEntries *)
Definition mockAuditEntries : list AuditEntryResponse :=
  [{| a_id := 1; a_election_id := "EV-2026-001"; a_event_type := "ELECTION_CONFIGURED";
      a_event_data := Some (value_body (VObj [("title", VStr "General Election")])); a_actor := Some "admin";
      a_device_id := None; a_sequence_number := 1; a_timestamp := "2026-09-16T10:00:00Z"; a_previous_hash := None;
      a_entry_hash := "11111111aaaaaaaa11111111aaaaaaaa11111111aaaaaaaa11111111aaaaaaaa" |};
   {| a_id := 2; a_election_id := "EV-2026-001"; a_event_type := "SESSION_AUTHORIZED";
      a_event_data := Some (session_data "VOTER-SERIAL-EVM-001-1" "EVM-001"); a_actor := Some "system";
      a_device_id := Some "EVM-001"; a_sequence_number := 2; a_timestamp := "2026-09-16T10:05:00Z";
      a_previous_hash := Some "11111111aaaaaaaa11111111aaaaaaaa11111111aaaaaaaa11111111aaaaaaaa";
      a_entry_hash := "22222222bbbbbbbb22222222bbbbbbbb22222222bbbbbbbb22222222bbbbbbbb" |};
   {| a_id := 3; a_election_id := "EV-2026-001"; a_event_type := "SESSION_AUTHORIZED";
      a_event_data := Some (session_data "REAL-VOTER-CRED-999" "EVM-002"); a_actor := Some "system";
      a_device_id := Some "EVM-002"; a_sequence_number := 3; a_timestamp := "2026-09-16T10:10:00Z";
      a_previous_hash := Some "22222222bbbbbbbb22222222bbbbbbbb22222222bbbbbbbb22222222bbbbbbbb";
      a_entry_hash := "33333333cccccccc33333333cccccccc33333333cccccccc33333333cccccccc" |}]%string.

(*@ dashboard/test/audit-explorer.test.tsx 75 81 mockAuditVerification *)
Definition mockAuditVerification : AuditVerificationResponse :=
  {| av_election_id := "EV-2026-001"; av_total_entries := 3; av_is_intact := true; av_first_broken_sequence := None;
     av_details := "Audit chain intact across 3 verified records." |}.

(*@ dashboard/test/audit-explorer.test.tsx 84 91 beforeEach *)
Definition log_client : forall r, outcome (resp r) :=
  fun r => match r as r return outcome (resp r) with
           | getElections _ => Ok [mock_election "EV-2026-001" "General Election 2026" OPEN]
           | getAuditLog _ _ => Ok mockAuditEntries
           | verifyAuditChain _ _ => Ok mockAuditVerification
           | _ => not_mocked
           end.

Definition opened : world state := screen_after explorer log_client (boot (initial (Some "mock-token"%string))) (Env Mount).

(*@ dashboard/test/audit-explorer.test.tsx 93 102 renders_audit_log *)
Definition renders_audit_log : bool :=
  let screen := render (st opened) in
  getByText screen "Cryptographic Chain Intact" && getAllByText screen "ELECTION_CONFIGURED"
  && getByText screen "Total Verified Entries:".

(*@ dashboard/test/audit-explorer.test.tsx 104 115 surfaces_DEMO_MODE_badge *)
Definition surfaces_demo_badge : bool :=
  let screen := render (st opened) in
  getAllByText screen "ELECTION_CONFIGURED" && getByText screen "[DEMO-MODE]".

(*@ dashboard/test/audit-explorer.test.tsx 117 133 filters_audit_log *)
Definition filters_audit_log : bool :=
  let screen := render (st (change explorer (ToggleDemoOnly true) opened)) in
  getByLabelText (render (st opened)) "Only [DEMO-MODE]"
  && negb (getAllByText screen "ELECTION_CONFIGURED") && getByText screen "[DEMO-MODE]".

Definition suite : list bool := [renders_audit_log; surfaces_demo_badge; filters_audit_log].
End AuditTests.

(** ** results-view.test.tsx *)
Module ResultsTests.
Import Results.

Definition tally (id name party symbol : string) (votes percentage : Z) : CandidateResult :=
  {| cr_candidate_id := id; cr_candidate_name := name; cr_party := Some party; cr_symbol := Some symbol;
     cr_vote_count := votes; cr_percentage := of_Z percentage |}.

Definition counter (id name : string) : DeviceResult :=
  {| dres_device_id := id; dres_device_name := name; dres_ballot_count := 250 |}.

(*@ dashboard/test/results-view.test.tsx 35 96 mockVerificationData *)
Definition mock_manifest : ResultManifestResponse :=
  {| m_id := "man-001"; m_election_id := "EV-2026-001"; m_total_ballots := 1000;
     m_candidate_totals := value_body (VObj [("C001", VNum 300); ("C002", VNum 250); ("C003", VNum 250); ("C004", VNum 200)]);
     m_device_totals :=
       value_body (VObj [("EVM-001", VNum 250); ("EVM-002", VNum 250); ("EVM-003", VNum 250); ("EVM-004", VNum 250)]);
     m_reconciliation_status := "PASSED"; m_audit_chain_status := "INTACT";
     m_configuration_hash := "34d70b0c609559c403328e1215b3e6c0c5980e07cb185b3db5c088c445a49f87";
     m_manifest_hash := "abcd1234ef567890abcd1234ef567890abcd1234ef567890abcd1234ef567890";
     m_digital_signature := None; m_generated_at := "2026-09-16T12:00:00Z";
     m_verified_at := Some "2026-09-16T12:00:00Z"; m_verified_by := Some "auditor";
     m_candidate_results :=
       [tally "C001" "Alice Vance" "Forward Alliance" "A" 300 30; tally "C002" "Bob Jenkins" "Civic Liberty" "B" 250 25;
        tally "C003" "Carol Danvers" "Reform Union" "C" 250 25;
        tally "C004" "David Miller" "Independent Coalition" "D" 200 20];
     m_device_results := [counter "EVM-001" "Precinct 1"; counter "EVM-002" "Precinct 2";
                          counter "EVM-003" "Precinct 3"; counter "EVM-004" "Precinct 4"];
     m_reconciliation := {| rr_total_ballots := 1000; rr_sum_candidate_totals := 1000; rr_sum_device_totals := 1000;
                            rr_is_exact_match := true; rr_status := "PASSED" |} |}%string.

(*@ dashboard/test/results-view.test.tsx 27 35 mockVerificationData *)
Definition mockVerificationData : VerificationResponse :=
  {| v_election_id := "EV-2026-001"; v_config_hash_valid := true; v_audit_chain_intact := true;
     v_reconciliation_passed := true; v_tally_independently_verified := true; v_overall_status := "PASSED";
     v_manifest := Some mock_manifest; v_details := ["Reconciliation passed. 1000 ballots across 4 candidates."%string] |}.

(*@ dashboard/test/results-view.test.tsx 100 106 beforeEach *)
Definition results_client : forall r, outcome (resp r) :=
  fun r => match r as r return outcome (resp r) with
           | getElections _ => Ok [mock_election "EV-2026-001" "General Election 2026" CLOSED]
           | getResults _ _ => Ok mockVerificationData
           | _ => not_mocked
           end.

Definition opened : world state :=
  screen_after page results_client (boot (initial (Some "mock-token"%string) (Some AUDITOR))) (Env Mount).

(*@ dashboard/test/results-view.test.tsx 108 119 renders_overall_status *)
Definition renders_overall_status : bool :=
  let screen := render (st opened) in
  getByPattern screen "Independent Verification: PASSED"
  && forallb (getByText screen) ["FROZEN & VALID"; "CHAIN INTACT"; "EXACT ZERO-DRIFT"; "RECOUNT MATCHES"]%string.

(*@ dashboard/test/results-view.test.tsx 121 132 renders_candidate_tallies *)
Definition renders_candidate_tallies : bool :=
  forallb (getByText (render (st opened))) ["Alice Vance"; "300 votes"; "(30.00%)"; "Bob Jenkins"; "David Miller"]%string.

(*@ dashboard/test/results-view.test.tsx 134 143 displays_exact_zero_drift *)
Definition displays_zero_drift : bool :=
  getByPattern (render (st opened)) "Reconciliation Breakdown" && getByText (render (st opened)) "0 (Exact match)".

(*@ dashboard/test/results-view.test.tsx 145 157 toggles_the_manifest *)
Definition toggles_manifest : bool :=
  match click page results_client "View Signed Manifest" opened with
  | Some w =>
      getByPattern (render (st w)) "Signed Result Manifest Document" && getAllByPattern (render (st w)) "abcd1234ef567890"
  | None => false
  end.

Definition suite : list bool :=
  [renders_overall_status; renders_candidate_tallies; displays_zero_drift; toggles_manifest].
End ResultsTests.

(** ** phase5-integration.test.tsx *)
Module IntegrationTests.
#[local] Existing Instance Results.ui_eq_dec.
#[local] Existing Instance AuditExplorer.ui_eq_dec.
#[local] Existing Instance Security.ui_eq_dec.

(** A manifest of the test's mock has no reconciliation; the page reads it through [?.]. *)
(*@ dashboard/test/phase5-integration.test.tsx 57 77 getResults *)
Definition signed_manifest : ResultManifestResponse :=
  let share id name votes percentage :=
    {| cr_candidate_id := id; cr_candidate_name := name; cr_party := None; cr_symbol := None; cr_vote_count := votes;
       cr_percentage := of_Z percentage |} in
  {| m_id := "m-1"; m_election_id := "EV-2026-001"; m_total_ballots := 10;
     m_candidate_totals := value_body (VObj [("C001", VNum 6); ("C002", VNum 4)]);
     m_device_totals := value_body (VObj [("EVM-001", VNum 10)]);
     m_reconciliation_status := "PASSED"; m_audit_chain_status := "INTACT"; m_configuration_hash := "hash123";
     m_manifest_hash := "manifesthash456";
     m_digital_signature :=
       Some (value_body (VObj [("algorithm", VStr "Ed25519"); ("key_id", VStr "ed25519-active-key");
                               ("signature", VStr "deadbeef010203")]));
     m_generated_at := EmptyString; m_verified_at := None; m_verified_by := Some "admin";
     m_candidate_results := [share "C001" "Alice" 6 60; share "C002" "Bob" 4 40]; m_device_results := [];
     m_reconciliation := {| rr_total_ballots := 0; rr_sum_candidate_totals := 0; rr_sum_device_totals := 0;
                            rr_is_exact_match := false; rr_status := EmptyString |} |}%string.

(*@ dashboard/test/phase5-integration.test.tsx 46 88 mockResolvedValue *)
Definition signing_client : forall r, outcome (resp r) :=
  fun r => match r as r return outcome (resp r) with
           | getElections _ => Ok [mock_election "EV-2026-001" "General Election 2026" CLOSED]
           | getResults _ _ =>
               Ok {| v_election_id := "EV-2026-001"; v_config_hash_valid := true; v_audit_chain_intact := true;
                     v_reconciliation_passed := true; v_tally_independently_verified := true;
                     v_overall_status := "PASSED"; v_manifest := Some signed_manifest;
                     v_details := ["Reconciliation passed."%string] |}
           | getElectionAnchors _ _ =>
               Ok [{| an_anchor_id := "anc-001"; an_election_id := "EV-2026-001"; an_provider := "LOCAL ANCHOR";
                      an_root_hash := "root9999"; an_anchored_at := "2026-09-16T12:00:00Z"; an_actor := None;
                      an_receipt_status := "COMMITTED"; an_receipt_provider := None; an_receipt_timestamp := None;
                      an_receipt_id := Some "rcpt-001"%string; an_receipt_extra := VObj [] |}]
           | _ => not_mocked
           end.

(*@ dashboard/test/phase5-integration.test.tsx 90 98 renders_signature_and_anchoring *)
Definition renders_signature : bool :=
  let w := screen_after Results.page signing_client
             (boot (Results.initial (Some "mock-token"%string) (Some ADMIN))) (Env Results.Mount) in
  forallb (getByText (Results.render (st w)))
    ["Cryptographic Signing & External Anchoring"; "DIGITALLY SIGNED"; "LOCAL ANCHOR"; "root9999"]%string.

(** The archive of the mock: of each record the keys the test gives it, of the others none. *)
(*@ dashboard/test/phase5-integration.test.tsx 112 121 exportElection *)
Definition archive : ElectionExportResponse :=
  {| x_export_version := Some "1.0.0"; x_exported_at := None;
     x_election := Some {| em_id := "EV-2026-001"; em_name := EmptyString; em_description := None; em_state := EmptyString;
                           em_configuration_hash := Some "confighash"; em_total_ballots := 0; em_created_at := EmptyString;
                           em_locked_at := None; em_opened_at := None; em_closed_at := None; em_published_at := None |};
     x_candidates := Some [{| cx_id := "C001"; cx_name := EmptyString; cx_party := None; cx_symbol := None; cx_position := 0 |}];
     x_devices := Some [{| dx_id := "EVM-001"; dx_name := EmptyString; dx_status := EmptyString; dx_last_sequence_number := 0;
                           dx_total_votes_cast := 0; dx_registered_at := EmptyString; dx_activated_at := None;
                           dx_last_seen_at := None |}];
     x_ballots := Some [{| b_id := EmptyString; b_session_id := EmptyString; b_device_id := "EVM-001"; b_candidate_id := "C001";
                           b_sequence_number := 1; b_ballot_hash := EmptyString; b_recorded_at := EmptyString |}];
     x_audit_log := Some [{| ax_id := EmptyString; ax_sequence_number := 1; ax_event_type := EmptyString; ax_event_data := None;
                             ax_actor := None; ax_device_id := None; ax_timestamp := EmptyString; ax_previous_hash := None;
                             ax_entry_hash := "h1" |}];
     x_manifest := Some {| xm_total_ballots := 1; xm_digital_signature := Some "sig" |};
     x_export_hash := Some "exphash" |}%string.

(*@ dashboard/test/phase5-integration.test.tsx 101 121 mockResolvedValue *)
Definition audit_client : forall r, outcome (resp r) :=
  fun r => match r as r return outcome (resp r) with
           | getElections _ => Ok [mock_election "EV-2026-001" "General Election 2026" CLOSED]
           | getAuditLog _ _ =>
               Ok [{| a_id := 1; a_election_id := EmptyString; a_event_type := "SYSTEM_INIT"; a_event_data := None;
                      a_actor := None; a_device_id := None; a_sequence_number := 1; a_timestamp := EmptyString;
                      a_previous_hash := None; a_entry_hash := "h1" |}]
           | verifyAuditChain _ _ =>
               Ok {| av_election_id := EmptyString; av_total_entries := 1; av_is_intact := true;
                     av_first_broken_sequence := None; av_details := "Audit chain intact." |}
           | exportElection _ _ => Ok archive
           | _ => not_mocked
           end.

(*@ dashboard/test/phase5-integration.test.tsx 123 137 renders_12_point_checks *)
Definition renders_12_points : bool :=
  let w := screen_after AuditExplorer.explorer audit_client
             (boot (AuditExplorer.initial (Some "mock-token"%string))) (Env AuditExplorer.Mount) in
  getByText (AuditExplorer.render (st w)) "Run 12-Point Verifier"
  && match click AuditExplorer.explorer audit_client "Run 12-Point Verifier" w with
     | Some w =>
         forallb (getByText (AuditExplorer.render (st w)))
           ["OVERALL PASSED (12/12)"; "1. Export Envelope Integrity"; "7. Zero-Drift Reconciliation";
            "11. Ed25519 Digital Signature"]%string
     | None => false
     end.

Definition pseudonym : string := "6b86b273ff34fce19d6b804eff5a3f5747ada4eaa22f1d49c01e52ddb7875b4b".
Definition notice : string := "RFID AUTHENTICATION != VOTER ELIGIBILITY: Authenticated and session granted.".

(*@ dashboard/test/phase5-integration.test.tsx 140 168 mockResolvedValue *)
Definition security_client : forall r, outcome (resp r) :=
  fun r => match r as r return outcome (resp r) with
           | getHealth => Ok {| h_status := "healthy"; h_app := EmptyString; h_version := EmptyString |}
           | getDevices _ _ => Ok []
           | getAuditLog _ _ => Ok []
           | getElectionAnomalies _ _ =>
               Ok {| af_election_id := "EV-2026-001"; af_findings_count := 1;
                     af_findings :=
                       [{| f_finding_id := "ano-001"; f_election_id := "EV-2026-001"; f_device_id := None;
                           f_rule_id := "TAMPER_CORRELATION"; f_category := "SECURITY"; f_severity := HIGH;
                           f_evidence := VObj [("switch"%string, VStr "chassis")]; f_timestamp := "2026-09-16T12:00:00Z";
                           f_advisory_explanation := "Chassis breach event occurred during election window.";
                           f_requires_human_review := true |}];
                     af_status := "ADVISORY_ONLY_DOES_NOT_BLOCK_LIFECYCLE" |}
           | tapRFID _ =>
               Ok {| rt_authenticated := true; rt_pseudonym := pseudonym; rt_card_status := CS_VALID;
                     rt_device_id := "EVM-001"; rt_session_id := Some "session-token-123"%string; rt_notice := notice |}
           | _ => not_mocked
           end.

(*@ dashboard/test/phase5-integration.test.tsx 170 185 renders_anomaly_engine_and_RFID *)
Definition renders_anomalies_and_rfid : bool :=
  let w := screen_after Security.center security_client
             (boot (Security.initial (Some "mock-token"%string))) (Env Security.Mount) in
  let screen := Security.render (st w) in
  Nat.eqb (List.length (matching (fun s => like "ADVISORY ONLY" s && like "REQUIRES HUMAN REVIEW" s) screen)) 1
  && getByText screen "TAMPER_CORRELATION" && getByText screen "RFID / Contactless Identity Abstraction Simulator"
  && match click Security.center security_client "Tap Smartcard" w with
     | Some w => getByText (Security.render (st w)) pseudonym && getByText (Security.render (st w)) notice
     | None => false
     end.

Definition suite : list bool := [renders_signature; renders_12_points; renders_anomalies_and_rfid].
End IntegrationTests.

(** Every test of the suite holds of the model. *)
Definition dashboard_tests : list bool :=
  FormatErrorTests.suite ++ AuthFlowTests.suite ++ EligibilityTests.suite ++ DeviceTests.suite
  ++ AuditTests.suite ++ ResultsTests.suite ++ IntegrationTests.suite.

Theorem dashboard_tests_pass : dashboard_tests = repeat true 28.
Proof. vm_compute. reflexivity. Qed.
