(* ===== verification/Compose.v ===== *)
(** * Two components in one page

    Components that live on one page share the event loop. [pair] runs two of them: each
    keeps its part of the state, the surroundings of the page say what each is told, and a
    call of the second part whose answer [cuts] runs a callback of the first before its own
    continuation. [pair_simulated]: whatever the pair does, each part does what it does
    alone, so what is proved of a component alone holds of it on the page. *)
From S2P Require Import Prelude JsValue JsNumber Types ApiClient View React Alone Spinner ElectionContext Officer.

(** ** Pages made of parts *)

Section NodeInd.
Context {U : Type} (P : node U -> Prop).
Context (HBox : forall tone ns, Forall P ns -> P (Box tone ns))
        (HLeaf : forall n, match n with Box _ _ => False | _ => True end -> P n).

(** Induction on an element with its children. *)
Fixpoint node_tree_ind (n : node U) : P n :=
  match n return P n with
  | Box tone ns =>
      HBox tone ns ((fix all (l : list (node U)) : Forall P l :=
                       match l with
                       | [] => Forall_nil_2 P
                       | n :: l' => Forall_cons_2 P n l' (node_tree_ind n) (all l')
                       end) ns)
  | n => HLeaf n I
  end.
End NodeInd.

Section Relabel.
Context {U V : Type} `{EqDecision U, EqDecision V} (f : U -> V) (g : V -> option U).

(** The elements of a part, on a page whose user has more to do. *)
Fixpoint relabel (n : node U) : node V :=
  match n with
  | Text s => Text s
  | Count z => Count z
  | Date d => Date d
  | Icon i => Icon i
  | View.Badge v l => View.Badge v l
  | Link h l => Link h l
  | Button l d ev => Button l d (f ev)
  | Field l v d on => Field l v d (fun e => match g e with Some u => on u | None => false end)
  | Select v os d on => Select v os d (fun s => f (on s))
  | Banner k t m dismiss => Banner k t m (option_map f dismiss)
  | Box tone ns => Box tone (map relabel ns)
  end.

Context (gf : forall u, g (f u) = Some u) (fg : forall v u, g v = Some u -> v = f u).

Lemma relabel_event v u :
  bool_decide (v = f u) = match g v with Some u' => bool_decide (u' = u) | None => false end.
Proof.
  destruct (g v) as [u'|] eqn:E.
  - apply fg in E as ->. apply bool_decide_ext. split; [| by intros ->].
    intros Hf. apply (f_equal g) in Hf. rewrite !gf in Hf. congruence.
  - apply bool_decide_eq_false_2. intros ->. by rewrite gf in E.
Qed.

Lemma fires_relabel n v :
  fires v (relabel n) = match g v with Some u => fires u n | None => false end.
Proof.
  induction n as [tone ns IH|n Hn] using node_tree_ind.
  - cbn [relabel fires]. induction IH as [|n l Hn _ IHl]; cbn [existsb map]; [by destruct (g v) |].
    rewrite Hn, IHl. by destruct (g v).
  - destruct n as [| | | | | |l d ev|l val d on|val os d on|k t m [ev|]|]; try done; cbn;
      rewrite ?relabel_event; try (by destruct (g v)).
    + destruct (g v); [done | by rewrite andb_false_r].
    + destruct (g v); [done | by rewrite andb_false_r].
    + transitivity (negb d && existsb (fun o : string * string =>
        match g v with Some u' => bool_decide (u' = on o.1) | None => false end) os).
      { f_equal. induction os as [|o os IH]; [done |]. cbn. by rewrite IH, relabel_event. }
      destruct (g v); [done |]. induction os; cbn; [by rewrite andb_false_r | done].
Qed.

Lemma allows_relabel (page : list (node U)) v :
  allows (map relabel page) v = match g v with Some u => allows page u | None => false end.
Proof.
  unfold allows. induction page as [|n l IH]; cbn [existsb map]; [by destruct (g v) |].
  rewrite fires_relabel, IH. by destruct (g v).
Qed.
End Relabel.

(** ** Programs of the parts *)

(** Handlers that only set state and call the backend. *)
Fixpoint plain {S A : Type} (p : prog S A) : Prop :=
  match p with
  | Ret _ | Throw _ => True
  | Upd _ k => plain k
  | Peek k => forall s, plain (k s)
  | Call _ k => forall o, plain (k o)
  | _ => False
  end.

(** Handlers that end without waiting. *)
Fixpoint immediate {S A : Type} (p : prog S A) : Prop :=
  match p with
  | Ret _ => True
  | Upd _ k => immediate k
  | Peek k => forall s, immediate (k s)
  | _ => False
  end.

Lemma plain_bind {S A B} (p : prog S A) (f : A -> prog S B) :
  plain p -> (forall a, plain (f a)) -> plain (p ≫= f).
Proof.
  intros Hp Hf. induction p as [A a|A e|A g k IH|A k IH|A c k IH|A ms k IH|A every ms body _ k IH|A id k IH|A k IH];
    cbn in *; eauto.
Qed.

Lemma plain_try {S A} (p : prog S A) (h : error_obj -> prog S A) :
  plain p -> (forall e, plain (h e)) -> plain (try_catch p h).
Proof.
  intros Hp Hh. induction p as [A a|A e|A g k IH|A k IH|A c k IH|A ms k IH|A every ms body _ k IH|A id k IH|A k IH];
    cbn in *; eauto.
Qed.

Lemma plain_finally {S A} (p : prog S A) (q : prog S unit) : plain p -> plain q -> plain (finally p q).
Proof.
  intros Hp Hq. induction p as [A a|A e|A g k IH|A k IH|A c k IH|A ms k IH|A every ms body _ k IH|A id k IH|A k IH];
    cbn in *; eauto using @plain_bind.
Qed.

(** Proves [plain] by the structure of a handler. *)
Ltac plain_auto :=
  repeat (intros;
    lazymatch goal with
    | |- plain ?p =>
        lazymatch p with
        | mbind _ _ => apply plain_bind
        | try_catch _ _ => apply plain_try
        | finally _ _ => apply plain_finally
        | match ?x with _ => _ end => destruct x eqn:?
        | Peek _ => cbn [plain]
        | await _ => by intros []
        | upd _ => exact I
        | Ret _ => exact I
        | mret _ => exact I
        | Throw _ => exact I
        | _ => progress autounfold with prog
        end
    end).

(** A callback that ends at once runs before what follows it. *)
Lemma exec_immediate {S} (p : prog S unit) (q : unit -> prog S unit) w :
  immediate p -> exec (p ≫= q) w = exec (q tt) (exec p w).
Proof.
  revert w. induction p as [[]|e|f k IH|k IH|c k|ms k|every ms body k IH|id k IH|k IH] using prog_unit_ind;
    intros w Hp; cbn in *; try done; by apply IH.
Qed.

Section Parts.
Context {S1 S2 : Type} (cuts : forall q, outcome (qresp q) -> bool) (callback : S1 -> prog S1 unit).

Definition on_first {A : Type} (p : prog S1 A) : prog (S1 * S2) A := zoom fst (fun t s => (t, snd s)) p.

(** A program of the second part, with the callback in each answer that cuts. *)
Fixpoint on_second {A : Type} (p : prog S2 A) : prog (S1 * S2) A :=
  match p with
  | Ret a => Ret a
  | Throw e => Throw e
  | Upd f k => Upd (fun s => (fst s, f (snd s))) (on_second k)
  | Peek k => Peek (fun s => on_second (k (snd s)))
  | Call q k =>
      Call q (fun o =>
        (if cuts q o then Peek (fun s => on_first (callback (fst s))) else mret tt);; on_second (k o))
  | Sleep ms k => Sleep ms (on_second k)
  | Timer b ms body k => Timer b ms (on_second body) (fun i => on_second (k i))
  | Clear i k => Clear i (on_second k)
  | Now k => Now (fun t => on_second (k t))
  end.

(** ** The simulation *)

(** The tasks of the pair are those of its parts, in some order and under other identifiers. *)
Inductive weaves : list (task (S1 * S2)) -> list (task S1) -> list (task S2) -> Prop :=
| weaves_nil : weaves [] [] []
| weaves_first i j q k ts ts1 ts2 :
    (forall o, plain (k o)) -> weaves ts ts1 ts2 ->
    weaves (Waiting i q (fun o => on_first (k o)) :: ts) (Waiting j q k :: ts1) ts2
| weaves_second i j q k ts ts1 ts2 :
    (forall o, plain (k o)) -> weaves ts ts1 ts2 ->
    weaves (Waiting i q (fun o =>
              (if cuts q o then Peek (fun s => on_first (callback (fst s))) else mret tt);; on_second (k o)) :: ts)
      ts1 (Waiting j q k :: ts2).

Record simulated (w : world (S1 * S2)) (v1 : world S1) (v2 : world S2) : Prop := {
  sim_state : st w = (st v1, st v2);
  sim_tasks : weaves (tasks w) (tasks v1) (tasks v2);
  sim_sent : forall s r, In (s, r) (sent w) -> In (fst s, r) (sent v1) \/ In (snd s, r) (sent v2);
  sim_asked : map snd (sent w) ≡ₚ map snd (sent v1) ++ map snd (sent v2) }.

Lemma asked_map {S} (s : S) (l : list req) : map snd (map (fun r => (s, r)) l) = l.
Proof. rewrite map_map. apply map_id. Qed.

Lemma weaves_app ts ts1 ts2 us us1 us2 :
  weaves ts ts1 ts2 -> weaves us us1 us2 -> weaves (ts ++ us) (ts1 ++ us1) (ts2 ++ us2).
Proof. intros H Hu. induction H; cbn; [done | by constructor | by constructor]. Qed.

Lemma simulated_add_first w v1 v2 q k :
  simulated w v1 v2 -> (forall o, plain (k o)) ->
  simulated (add_task (fun i => Waiting i q (fun o => on_first (k o))) (reqs q) w)
    (add_task (fun i => Waiting i q k) (reqs q) v1) v2.
Proof.
  intros [Hs Ht Hr Ha] Hk. unfold add_task. split; cbn; [done | | |].
  - rewrite <- (app_nil_r (tasks v2)). apply weaves_app; [done |]. constructor; [done | constructor].
  - intros s r [Hin|Hin]%in_app_iff; rewrite in_app_iff.
    + destruct (Hr s r Hin); auto.
    + left. right. apply in_map_iff in Hin as (r' & [= <- <-] & Hin). rewrite Hs. cbn.
      apply in_map_iff. by exists r'.
  - rewrite !map_app, !asked_map. etrans; [by apply Permutation_app_tail, Ha | solve_Permutation].
Qed.

Lemma simulated_add_second w v1 v2 q k :
  simulated w v1 v2 -> (forall o, plain (k o)) ->
  simulated (exec (on_second (Call q k)) w) v1 (add_task (fun i => Waiting i q k) (reqs q) v2).
Proof.
  intros [Hs Ht Hr Ha] Hk. unfold add_task. split; cbn; [done | | |].
  - rewrite <- (app_nil_r (tasks v1)). apply weaves_app; [done |]. constructor; [done | constructor].
  - intros s r [Hin|Hin]%in_app_iff; rewrite in_app_iff.
    + destruct (Hr s r Hin); auto.
    + right. right. apply in_map_iff in Hin as (r' & [= <- <-] & Hin). rewrite Hs. cbn.
      apply in_map_iff. by exists r'.
  - unfold add_task; cbn. rewrite !map_app, !asked_map. etrans; [by apply Permutation_app_tail, Ha | solve_Permutation].
Qed.

Lemma exec_on_first p w v1 v2 :
  plain p -> simulated w v1 v2 -> simulated (exec (on_first p) w) (exec p v1) v2.
Proof.
  revert w v1. induction p as [[]|e|f k IH|k IH|q k|ms k|every ms body k IH|id k IH|k IH] using prog_unit_ind;
    intros w v1 Hp Hw; cbn [on_first zoom exec] in *; try done.
  - destruct Hw. by split.
  - apply IH; [done |]. destruct Hw as [Hs Ht Hr Ha]. split; cbn; [by rewrite Hs | done..].
  - rewrite (sim_state _ _ _ Hw). by apply IH.
  - by apply simulated_add_first.
Qed.

Lemma exec_on_second p w v1 v2 :
  plain p -> simulated w v1 v2 -> simulated (exec (on_second p) w) v1 (exec p v2).
Proof.
  revert w v2. induction p as [[]|e|f k IH|k IH|q k|ms k|every ms body k IH|id k IH|k IH] using prog_unit_ind;
    intros w v2 Hp Hw; cbn [exec] in *; try done.
  - destruct Hw. by split.
  - cbn [on_second exec]. apply IH; [done |]. destruct Hw as [Hs Ht Hr Ha]. split; cbn; [by rewrite Hs | done..].
  - cbn [on_second exec]. rewrite (sim_state _ _ _ Hw). by apply IH.
  - by apply simulated_add_second.
Qed.

Lemma immediate_on_first (p : prog S1 unit) : immediate p -> immediate (on_first p).
Proof.
  induction p as [[]|e|f k IH|k IH|q k|ms k|every ms body k IH|id k IH|k IH] using prog_unit_ind;
    cbn; auto.
Qed.

Lemma immediate_plain {S A} (p : prog S A) : immediate p -> plain p.
Proof.
  induction p as [A a|A e|A g k IH|A k IH|A c k IH|A ms k IH|A every ms body _ k IH|A id k IH|A k IH]; cbn; auto; done.
Qed.

(** An answer to the second part, with the callback it may run. *)
Lemma exec_answer q (o : outcome (qresp q)) k w v1 v2 :
  (forall s, immediate (callback s)) -> (forall o, plain (k o)) -> simulated w v1 v2 ->
  simulated
    (exec ((if cuts q o then Peek (fun s => on_first (callback (fst s))) else mret tt);; on_second (k o)) w)
    (if cuts q o then exec (callback (st v1)) v1 else v1) (exec (k o) v2).
Proof.
  intros Hc Hk Hw. destruct (cuts q o).
  - change (simulated (exec (on_first (callback (fst (st w))) ≫= fun _ => on_second (k o)) w)
              (exec (callback (st v1)) v1) (exec (k o) v2)).
    rewrite exec_immediate by (by apply immediate_on_first). rewrite (sim_state _ _ _ Hw). cbn [fst].
    apply exec_on_second; [done |]. apply exec_on_first; [by apply immediate_plain | done].
  - by apply exec_on_second.
Qed.

(** What a program of a part does to the first part of the state, whatever else is there. *)
Definition first_alone (w : world (S1 * S2)) : world S1 := mk_world (fst (st w)) (now w) (fresh w) [] [] [].

Lemma exec_on_first_from (p : prog S1 unit) w v :
  st v = fst (st w) -> now v = now w -> fresh v = fresh w -> fst (st (exec (on_first p) w)) = st (exec p v).
Proof.
  revert w v. induction p as [[]|e|f k IH|k IH|q k|ms k|every ms body k IH|id k IH|k IH] using prog_unit_ind;
    intros [[s t] n g ts snt un] [s' n' g' ts' snt' un'] Hs Hn Hf; cbn in Hs, Hn, Hf; subst; cbn [on_first zoom exec];
    try done; by apply IH.
Qed.

Lemma exec_on_first_state (p : prog S1 unit) w : fst (st (exec (on_first p) w)) = st (exec p (first_alone w)).
Proof. by apply exec_on_first_from. Qed.

Lemma exec_on_second_state (p : prog S2 unit) w : fst (st (exec (on_second p) w)) = fst (st w).
Proof.
  revert w. induction p as [[]|e|f k IH|k IH|q k|ms k|every ms body k IH|id k IH|k IH] using prog_unit_ind;
    intros w; cbn [on_second exec]; try done; by rewrite IH.
Qed.

(** An invariant of the first part's handlers is one of the pair's. *)
Lemma wp_on_first Inv Sends (p : prog S1 unit) (t : S2) s :
  wp Inv Sends p Inv s ->
  wp (fun s => Inv (fst s)) (fun s => Sends (fst s)) (on_first p) (fun s => Inv (fst s)) (s, t).
Proof.
  revert s t. induction p as [[]|e|f k IH|k IH|q k IH|ms k IH|every ms body IHb k IH|id k IH|k IH] using prog_unit_full_ind;
    intros s t; cbn [on_first zoom wp fst]; try done; try (by apply IH).
  - intros (Hi & Hr & Hk). split_and!; [done | done |]. intros o [s' t'] Hs'. by apply IH, Hk.
  - intros (Hi & Hk). split; [done |]. intros [s' t'] Hs'. by apply IH, Hk.
  - intros (Hb & Hk). split; [intros [s' t'] Hs'; by apply IHb, Hb | intros id; by apply IH].
  - intros Hk now. by apply IH.
Qed.

Lemma wp_immediate {S} (Inv : S -> Prop) Sends (p : prog S unit) (q : unit -> prog S unit) s :
  immediate p -> wp Inv Sends p Inv s -> (forall s', Inv s' -> wp Inv Sends (q tt) Inv s') ->
  wp Inv Sends (p ≫= q) Inv s.
Proof.
  revert s. induction p as [[]|e|f k IH|k IH|c k|ms k|every ms body k IH|id k IH|k IH] using prog_unit_ind;
    intros s Hp; cbn in *; try done; eauto.
Qed.

(** The second part leaves the first's invariant alone, but for the callback. *)
Lemma wp_on_second Inv (p : prog S2 unit) s :
  (forall s, immediate (callback s)) -> (forall s, Inv s -> wp Inv (fun _ _ => True) (callback s) Inv s) ->
  Inv (fst s) ->
  wp (fun s => Inv (fst s)) (fun _ _ => True) (on_second p) (fun s => Inv (fst s)) s.
Proof.
  intros Hc Hi. revert s. induction p as [[]|e|f k IH|k IH|q k IH|ms k IH|every ms body IHb k IH|id k IH|k IH] using prog_unit_full_ind;
    intros s Hs; cbn [on_second wp]; try done; try (by apply IH).
  - split_and!; [done | by apply Forall_true |]. intros o [s' t'] Hs'. destruct (cuts q o); [| by apply IH].
    apply (wp_immediate _ _ (Peek (fun s => on_first (callback (fst s))))).
    + intros s2. by apply immediate_on_first.
    + cbn [wp fst]. by apply (wp_on_first Inv (fun _ _ => True)), Hi.
    + intros s2 Hs2. by apply IH.
  - split; [intros s' Hs'; by apply IHb | intros id; by apply IH].
  - intros now. by apply IH.
Qed.
End Parts.

(** ** Taking one task out *)

Definition other {S} (i : nat) (t : task S) : bool := negb (Nat.eqb (task_id t) i).
Definition named {S} (i : nat) (t : task S) : bool := Nat.eqb (task_id t) i.

Lemma drop_other {S} i (w : world S) : tasks (drop_task i w) = filter (other i) (tasks w).
Proof. done. Qed.

Lemma filter_absent {S} i (ts : list (task S)) : i ∉ map task_id ts -> filter (other i) ts = ts.
Proof.
  induction ts as [|t ts IH]; cbn [map]; [done |]. intros [Hne Hi]%not_elem_of_cons.
  rewrite filter_cons_True; [by rewrite IH |]. unfold other.
  by rewrite (proj2 (Nat.eqb_neq (task_id t) i)).
Qed.

Lemma filter_this {S} i (t : task S) ts :
  task_id t = i -> i ∉ map task_id ts -> filter (other i) (t :: ts) = ts.
Proof.
  intros <- Hi. rewrite filter_cons_False, filter_absent; [done | done |].
  unfold other. rewrite Nat.eqb_refl. auto.
Qed.

Lemma filter_that {S} i (t : task S) ts : task_id t <> i -> filter (other i) (t :: ts) = t :: filter (other i) ts.
Proof. intros Hi. rewrite filter_cons_True; [done |]. unfold other. by rewrite (proj2 (Nat.eqb_neq _ _) Hi). Qed.

Lemma found_listed {S} i (ts : list (task S)) t : find_first (named i) ts = Some t -> i ∈ map task_id ts.
Proof.
  intros [Hin Hi%Nat.eqb_eq]%find_first_Some. apply list_elem_of_fmap. exists t.
  split; [by rewrite Hi | by apply list_elem_of_In].
Qed.

Section Pick.
Context {S1 S2 : Type} (cuts : forall q, outcome (qresp q) -> bool) (callback : S1 -> prog S1 unit).
Abbreviation weaves := (weaves (S2 := S2) cuts callback).
Abbreviation after cuts callback q k :=
  (fun o => (if cuts q o then Peek (fun s => on_first (callback (fst s))) else mret tt);; on_second cuts callback (k o)).

(** The part a task belongs to, and what remains of both when it is taken out. *)
Lemma weaves_pick i t ts ts1 ts2 :
  weaves ts ts1 ts2 -> NoDup (map task_id ts) -> NoDup (map task_id ts1) -> NoDup (map task_id ts2) ->
  find_first (named i) ts = Some t ->
  (exists j q k, t = Waiting i q (fun o => on_first (k o)) /\ (forall o, plain (k o))
     /\ find_first (named j) ts1 = Some (Waiting j q k)
     /\ weaves (filter (other i) ts) (filter (other j) ts1) ts2)
  \/ (exists j q k, t = Waiting i q (after cuts callback q k) /\ (forall o, plain (k o))
     /\ find_first (named j) ts2 = Some (Waiting j q k)
     /\ weaves (filter (other i) ts) ts1 (filter (other j) ts2)).
Proof.
  intros H. induction H as [|i0 j q k ts ts1 ts2 Hk Hw IH|i0 j q k ts ts1 ts2 Hk Hw IH];
    cbn [map find_first]; [done | |]; intros [Hi Hn]%NoDup_cons H1 H2.
  - apply NoDup_cons in H1 as [Hj H1]. unfold named at 1. cbn [task_id].
    destruct (Nat.eqb_spec i0 i) as [->|Hne].
    + intros [= <-]. left. exists j, q, k. split; [done |]. split; [done |].
      cbn [find_first]. unfold named. cbn [task_id]. rewrite Nat.eqb_refl. split; [done |].
      by rewrite !filter_this.
    + intros Ht. rewrite (filter_that i) by done.
      destruct (IH Hn H1 H2 Ht) as [(j' & q' & k' & E & Hk' & Hf & Hr)|(j' & q' & k' & E & Hk' & Hf & Hr)].
      * left. exists j', q', k'. split; [done |]. split; [done |].
        assert (j <> j') as Hjj by (intros ->; by apply Hj, (found_listed _ _ _ Hf)).
        cbn [find_first]. unfold named at 1. cbn [task_id]. rewrite (proj2 (Nat.eqb_neq _ _) Hjj).
        rewrite filter_that by done. split; [done |]. by constructor.
      * right. exists j', q', k'. do 3 (split; [done |]). by constructor.
  - apply NoDup_cons in H2 as [Hj H2]. unfold named at 1. cbn [task_id].
    destruct (Nat.eqb_spec i0 i) as [->|Hne].
    + intros [= <-]. right. exists j, q, k. split; [done |]. split; [done |].
      cbn [find_first]. unfold named. cbn [task_id]. rewrite Nat.eqb_refl. split; [done |].
      by rewrite !filter_this.
    + intros Ht. rewrite (filter_that i) by done.
      destruct (IH Hn H1 H2 Ht) as [(j' & q' & k' & E & Hk' & Hf & Hr)|(j' & q' & k' & E & Hk' & Hf & Hr)].
      * left. exists j', q', k'. do 3 (split; [done |]). by constructor.
      * right. exists j', q', k'. split; [done |]. split; [done |].
        assert (j <> j') as Hjj by (intros ->; by apply Hj, (found_listed _ _ _ Hf)).
        cbn [find_first]. unfold named at 1. cbn [task_id]. rewrite (proj2 (Nat.eqb_neq _ _) Hjj).
        rewrite filter_that by done. split; [done |]. by constructor.
Qed.

(** The pair waits for nothing exactly when neither part does. *)
Lemma weaves_quiet ts ts1 ts2 :
  weaves ts ts1 ts2 -> existsb suspended ts = existsb suspended ts1 || existsb suspended ts2.
Proof. intros H. induction H; cbn; [done | done |]. by rewrite orb_true_r. Qed.
End Pick.

(** ** The pair *)

Section Pair.
Context {S1 U1 X1 S2 U2 X2 X : Type} `{EqDecision U1, EqDecision U2}.
Context (C1 : component S1 U1 X1) (C2 : component S2 U2 X2).
Context (cuts : forall q, outcome (qresp q) -> bool) (call_back : X1).
Context (page : S1 * S2 -> list (node (U1 + U2))) (deliver : X -> S1 * S2 -> X1 + X2).

Definition pair : component (S1 * S2) (U1 + U2) X :=
  let second {A : Type} := on_second (A := A) cuts (on_env C1 call_back) in
  mk_component page
    (fun u s => match u with
                | inl u => on_first (on_user C1 u (fst s))
                | inr u => second (on_user C2 u (snd s))
                end)
    (fun x s => match deliver x s with
                | inl x => on_first (on_env C1 x (fst s))
                | inr x => second (on_env C2 x (snd s))
                end).

Context (page_first : forall s u, allows (page s) (inl u) = true -> allows (render C1 (fst s)) u = true)
        (page_second : forall s u, allows (page s) (inr u) = true -> allows (render C2 (snd s)) u = true).
Context (plain_user1 : forall u s, plain (on_user C1 u s)) (plain_env1 : forall x s, plain (on_env C1 x s))
        (plain_user2 : forall u s, plain (on_user C2 u s)) (plain_env2 : forall x s, plain (on_env C2 x s)).
Context (callback_ends : forall s, immediate (on_env C1 call_back s)).

Abbreviation any := (fun _ => True).
Abbreviation simulated := (simulated cuts (on_env C1 call_back)).

Lemma reachable_wf {T U' X'} `{EqDecision U'} (C : component T U' X') P t w : reachable C P t w -> wf w.
Proof. intros H. induction H as [|w e w' _ IH _ Hs]; [split; constructor | by eapply wf_step]. Qed.

(** What each part does at an event of the pair. *)
Definition parts_step (w : world (S1 * S2)) (e : event (U1 + U2) X) (v1 v1' : world S1) (v2 v2' : world S2) : Prop :=
  match e with
  | User (inl u) => step C1 v1 (User u) = Some v1' /\ v2' = v2
  | User (inr u) => v1' = v1 /\ step C2 v2 (User u) = Some v2'
  | Env x =>
      match deliver x (st v1, st v2) with
      | inl x1 => step C1 v1 (Env x1) = Some v1' /\ v2' = v2
      | inr x2 => v1' = v1 /\ step C2 v2 (Env x2) = Some v2'
      end
  | Reply i answer =>
      exists q, (exists k, get_task i w = Some (Waiting i q k))
        /\ ((exists j k, get_task j v1 = Some (Waiting j q k) /\ step C1 v1 (Reply j answer) = Some v1' /\ v2' = v2)
            \/ (exists j k, get_task j v2 = Some (Waiting j q k) /\ step C2 v2 (Reply j answer) = Some v2'
                 /\ if cuts q (answer q) then step C1 v1 (Env call_back) = Some v1' else v1' = v1))
  | Tick _ | Fire _ => v1' = v1 /\ v2' = v2
  end.

Lemma pair_step w e w' v1 v2 :
  wf w -> wf v1 -> wf v2 -> simulated w v1 v2 -> step pair w e = Some w' ->
  exists v1' v2', parts_step w e v1 v1' v2 v2' /\ simulated w' v1' v2'.
Proof.
  intros Hr H1 H2 Hv Hs. pose proof (sim_state _ _ _ _ _ Hv) as Es.
  destruct e as [u|x|i answer|ms|i]; cbn [step parts_step] in *.
  - destruct (allows _ u) eqn:Hu; [| done]. injection Hs as <-. cbn [pair render on_user] in *. rewrite Es in *.
    destruct u as [u|u]; cbn [fst snd step] in *.
    + exists (exec (on_user C1 u (st v1)) v1), v2. split; [| by apply exec_on_first].
      pose proof (page_first _ _ Hu) as Hp. cbn [fst] in Hp. by rewrite Hp.
    + exists v1, (exec (on_user C2 u (st v2)) v2). split; [| by apply exec_on_second].
      pose proof (page_second _ _ Hu) as Hp. cbn [snd] in Hp. by rewrite Hp.
  - injection Hs as <-. cbn [pair on_env]. rewrite Es.
    destruct (deliver x (st v1, st v2)) as [x1|x2]; cbn [fst snd].
    + exists (exec (on_env C1 x1 (st v1)) v1), v2. split; [done | by apply exec_on_first].
    + exists v1, (exec (on_env C2 x2 (st v2)) v2). split; [done | by apply exec_on_second].
  - unfold get_task in *. destruct (find_first _ (tasks w)) as [t|] eqn:Ht; [| done].
    destruct (weaves_pick _ _ i t _ _ _ (sim_tasks _ _ _ _ _ Hv) (proj1 Hr) (proj1 H1) (proj1 H2) Ht)
      as [(j & q & k & -> & Hk & Hf & Hd)|(j & q & k & -> & Hk & Hf & Hd)]; injection Hs as <-.
    + exists (exec (k (answer q)) (drop_task j v1)), v2. split.
      * exists q. split; [by eexists |]. left. exists j, k. fold (named (S := S1) j). by rewrite Hf.
      * apply exec_on_first; [done |]. destruct Hv. by split.
    + assert (simulated (drop_task i w) v1 (drop_task j v2)) as Hv' by (destruct Hv; by split).
      eexists _, _. split; [| by apply exec_answer].
      exists q. split; [by eexists |]. right. exists j, k. fold (named (S := S2) j). rewrite Hf.
      split; [done |]. split; [done |]. by destruct (cuts q (answer q)).
  - destruct (0 <=? ms); [| done]. injection Hs as <-. exists v1, v2. split; [done |]. destruct Hv. by split.
  - unfold get_task in Hs. destruct (find_first _ (tasks w)) as [t|] eqn:Ht; [| done].
    destruct (weaves_pick _ _ i t _ _ _ (sim_tasks _ _ _ _ _ Hv) (proj1 Hr) (proj1 H1) (proj1 H2) Ht)
      as [(j & q & k & -> & _)|(j & q & k & -> & _)]; done.
Qed.

Lemma parts_reachable s1 s2 w e v1 v1' v2 v2' :
  parts_step w e v1 v1' v2 v2' -> reachable C1 any s1 v1 -> reachable C2 any s2 v2 ->
  reachable C1 any s1 v1' /\ reachable C2 any s2 v2'.
Proof.
  intros Hp H1 H2.
  assert (forall e' v', step C1 v1 e' = Some v' -> reachable C1 any s1 v') as R1 by (intros; by eapply reach_step).
  assert (forall e' v', step C2 v2 e' = Some v' -> reachable C2 any s2 v') as R2 by (intros; by eapply reach_step).
  destruct e as [[u|u]|x|i answer|ms|i]; cbn [parts_step] in Hp; try (by destruct Hp; subst; eauto).
  - destruct (deliver _ _); destruct Hp; subst; eauto.
  - destruct Hp as (q & _ & [(j & k & _ & Hp & ->)|(j & k & _ & Hp & Hc)]); [eauto |].
    split; [| eauto]. destruct (cuts q (answer q)); [eauto | by subst].
Qed.

(** A run of the pair with what its parts do at each event. *)
Inductive parts_run (s1 : S1) (s2 : S2) : list (event (U1 + U2) X) -> world (S1 * S2) -> world S1 -> world S2 -> Prop :=
| parts_boot : parts_run s1 s2 [] (boot (s1, s2)) (boot s1) (boot s2)
| parts_next es e w w' v1 v1' v2 v2' :
    parts_run s1 s2 es w v1 v2 -> step pair w e = Some w' -> parts_step w e v1 v1' v2 v2' ->
    st w' = (st v1', st v2') -> parts_run s1 s2 (es ++ [e]) w' v1' v2'.

(** Whatever the pair does, each part does alone. *)
Theorem pair_run s1 s2 es w :
  run pair (boot (s1, s2)) es = Some w ->
  exists v1 v2, parts_run s1 s2 es w v1 v2 /\ reachable C1 any s1 v1 /\ reachable C2 any s2 v2 /\ simulated w v1 v2.
Proof.
  revert w. induction es as [|e es IH] using rev_ind; intros w'.
  - intros [= <-]. exists (boot s1), (boot s2). split; [constructor |]. split; [constructor |]. split; [constructor |].
    split; [done | constructor | done | done].
  - rewrite run_app. destruct (run pair _ es) as [w|] eqn:Hr; [| done]. cbn [run].
    destruct (step pair w e) as [w1|] eqn:Hs; [| done]. intros [= <-].
    destruct (IH w eq_refl) as (v1 & v2 & Ht & H1 & H2 & Hv).
    assert (reachable pair any (s1, s2) w) as Hw
      by (eapply reachable_run; [constructor | by apply Forall_true | exact Hr]).
    destruct (pair_step w e w1 v1 v2) as (v1' & v2' & Hp & Hv'); try done; try by eapply reachable_wf.
    destruct (parts_reachable _ _ _ _ _ _ _ _ Hp H1 H2) as [H1' H2'].
    exists v1', v2'. split_and!; try done. eapply parts_next; [exact Ht | exact Hs | exact Hp |].
    exact (sim_state _ _ _ _ _ Hv').
Qed.

Theorem pair_simulated s1 s2 w :
  reachable pair any (s1, s2) w ->
  exists v1 v2, reachable C1 any s1 v1 /\ reachable C2 any s2 v2 /\ simulated w v1 v2.
Proof.
  intros Hw. assert (exists es, run pair (boot (s1, s2)) es = Some w) as [es Hes].
  { induction Hw as [|w e w' _ [es IH] _ Hs]; [by exists [] |].
    exists (es ++ [e]). rewrite run_app, IH. cbn [run]. by rewrite Hs. }
  destruct (pair_run s1 s2 es w Hes) as (v1 & v2 & _ & H). by exists v1, v2.
Qed.

(** The pair is idle exactly when both parts are. *)
Lemma simulated_idle (w : world (S1 * S2)) v1 (v2 : world S2) : simulated w v1 v2 -> idle w = idle v1 && idle v2.
Proof.
  intros Hv. unfold idle. rewrite (weaves_quiet _ _ _ _ _ (sim_tasks _ _ _ _ _ Hv)). apply negb_orb.
Qed.
End Pair.
