(* ===== verification/Console.v ===== *)
(** * The officer console: session and shared election on one page

    The root layout wraps every page in the session's provider, the officers' layout its
    pages in the provider of the shared election, and the bar shows both. The two share the
    token and the API client, whose unauthorized callback is the session's. The model covers
    one stay in the officers' layout. The console does what its providers do alone; neither
    is left loading. A component with the session inside is [Guarded]; the console is, and so
    is the application, any other component on its page. In the application a refused call
    ends the session, even one that was sent for a session that is over. *)
From S2P Require Import Prelude JsValue JsNumber Types ApiClient View Common React Alone Spinner.
From S2P Require Import AuthContext AuthContextFacts ElectionContext Officer Compose.
From Stdlib Require Import String.

Module Console.

(** ** What pages get from the contexts *)

(*@ dashboard/context/AuthContext.tsx 8 15 AuthContextType *)
Record AuthContextType := {
  auth_user : option UserResponse;
  auth_token : option string;
  auth_role : option Role;
  auth_isLoading : bool;
  auth_login : string -> string -> prog AuthContext.state unit;
  auth_logout : prog AuthContext.state unit }.

(*@ dashboard/context/AuthContext.tsx 97 111 AuthProvider *)
Definition auth_value (s : AuthContext.state) : AuthContextType :=
  {| auth_user := AuthContext.user s; auth_token := AuthContext.token s;
     auth_role := AuthContext.role s; auth_isLoading := AuthContext.isLoading s;
     auth_login := AuthContext.login; auth_logout := AuthContext.logout (AuthContext.pathname s) |}.

(*@ dashboard/context/ElectionContext.tsx 7 13 ElectionContextType *)
Record ElectionContextType := {
  ctx_elections : list ElectionResponse;
  ctx_selectedElection : option ElectionResponse;
  ctx_selectElection : string -> prog ElectionContext.state unit;
  ctx_refreshElections : prog ElectionContext.state unit;
  ctx_loading : bool }.

(*@ dashboard/context/ElectionContext.tsx 54 59 ElectionProvider *)
Definition election_value (s : ElectionContext.state) : ElectionContextType :=
  {| ctx_elections := ElectionContext.elections s; ctx_selectedElection := ElectionContext.selectedElection s;
     ctx_selectElection := fun id => ElectionContext.selectElection id s;
     ctx_refreshElections := ElectionContext.refreshElections s; ctx_loading := ElectionContext.loading s |}.

(** The contexts a component finds above it: [createContext(undefined)] without a provider. *)
Record above := { auth_above : option AuthContextType; election_above : option ElectionContextType }.

(*@ dashboard/context/AuthContext.tsx 113 119 useAuth *)
Definition useAuth (a : above) : outcome AuthContextType :=
  match auth_above a with
  | Some context => Ok context
  | None => Err (plain_error "Error" "useAuth must be used within an AuthProvider")
  end.

(*@ dashboard/context/ElectionContext.tsx 61 65 useElection *)
Definition useElection (a : above) : outcome ElectionContextType :=
  match election_above a with
  | Some ctx => Ok ctx
  | None => Err (plain_error "Error" "useElection must be used within ElectionProvider")
  end.
Abbreviation state := (AuthContext.state * ElectionContext.state)%type.

(*@ dashboard/app/layout.tsx 10 18 RootLayout *)
Definition RootLayout (s : AuthContext.state) : above :=
  {| auth_above := Some (auth_value s); election_above := None |}.

(*@ dashboard/app/(officer)/layout.tsx 6 20 OfficerLayout *)
Definition OfficerLayout (s : state) : above :=
  {| auth_above := auth_above (RootLayout (fst s)); election_above := Some (election_value (snd s)) |}.

(** ** The two providers together *)

(** A call with a token, refused with 401: the client runs the callback. *)
(*@ dashboard/lib/api-client.ts 81 86 request *)
Definition refused_call (r : req) (o : outcome (resp r)) : bool :=
  match o with
  | Err e => bool_decide (e_status e = Some 401) && truthy_opt (req_token r)
  | Ok _ => false
  end.

Fixpoint refused_calls (rs : list req) : settled rs -> bool :=
  match rs with
  | [] => fun _ => false
  | r :: rs' => fun os => refused_call r (fst os) || refused_calls rs' (snd os)
  end.

(** The callback runs in an await when one of its calls is refused; calls that are awaited
    together have the same token, or none. Of calls that are awaited together only the
    rejection that ends the await is seen here: a second one, which arrives after it and which
    the page ignores, would run the callback once more. *)
(*@ dashboard/lib/api-client.ts 81 86 request *)
Definition expired (q : query) : outcome (qresp q) -> bool :=
  match q with
  | One r => refused_call r
  | Two r1 r2 => fun o =>
      match o with
      | Err e => bool_decide (e_status e = Some 401) && (truthy_opt (req_token r1) || truthy_opt (req_token r2))
      | Ok _ => false
      end
  | Each rs => fun o =>
      match o with
      | Err e => bool_decide (e_status e = Some 401) && existsb (fun r => truthy_opt (req_token r)) rs
      | Ok os => refused_calls rs os
      end
  end.

Abbreviation ui := (AuthContext.ui + ElectionContext.ui)%type.

Definition session_part : node AuthContext.ui -> node ui :=
  relabel inl (fun u => match u with inl u => Some u | inr _ => None end).
Definition selector_part : node ElectionContext.ui -> node ui :=
  relabel inr (fun u => match u with inr u => Some u | inl _ => None end).

(** The bar with its selector, on the officers' pages. *)
(*@ dashboard/components/layout/Navbar.tsx 12 67 Navbar *)
Definition page (s : state) : list (node ui) :=
  if AuthContext.officer_page (AuthContext.pathname (fst s)) then
    match map session_part (AuthContext.navbar (fst s)) with
    | brand :: rest => brand :: map selector_part (ElectionContext.render (snd s)) ++ rest
    | [] => []
    end
  else map session_part (AuthContext.render (fst s)).

(** The session's surroundings; a commit of a render, which lets the provider's effect see
    the token of that render; and a page that asks for a refresh. *)
Inductive env := OnSession (x : AuthContext.env) | Commit | Refresh.

(*@ dashboard/context/ElectionContext.tsx 17 18 ElectionProvider *)
Definition deliver (x : env) (s : state) : AuthContext.env + ElectionContext.env :=
  let current := auth_token (auth_value (fst s)) in
  match x with
  | OnSession x => inl x
  | Commit => inr (if bool_decide (ElectionContext.token (snd s) = current) then ElectionContext.Mount
                   else ElectionContext.TokenChanged current)
  | Refresh => inr ElectionContext.Refresh
  end.

Definition console : component state ui env :=
  pair AuthContext.session ElectionContext.provider expired AuthContext.Unauthorized page deliver.

Definition initial (path : string) (stored : option string) (a : AuthContext.access) : state :=
  let s := AuthContext.initial path stored a in (s, ElectionContext.initial (AuthContext.token s)).

End Console.
Import Console.

#[export] Existing Instance AuthContext.ui_eq_dec.
#[export] Existing Instance ElectionContext.ui_eq_dec.

(** ** The parts fit *)

Lemma session_part_allows (ns : list (node AuthContext.ui)) u :
  allows (map session_part ns) u = match u with inl u => allows ns u | inr _ => false end.
Proof.
  unfold session_part. rewrite allows_relabel; [by destruct u | done |]. by intros [|] ? [= ->].
Qed.

Lemma selector_part_allows (ns : list (node ElectionContext.ui)) u :
  allows (map selector_part ns) u = match u with inr u => allows ns u | inl _ => false end.
Proof.
  unfold selector_part. rewrite allows_relabel; [by destruct u | done |]. by intros [|] ? [= ->].
Qed.

(** What the page offers: the controls of the session, and the selector on officers' pages. *)
Lemma console_allows s u :
  allows (page s) u
  = match u with
    | inl u => allows (AuthContext.render (fst s)) u
    | inr u => AuthContext.officer_page (AuthContext.pathname (fst s)) && allows (ElectionContext.render (snd s)) u
    end.
Proof.
  unfold page. destruct (AuthContext.officer_page _) eqn:Ho.
  - unfold AuthContext.render. rewrite Ho.
    assert (String.eqb (AuthContext.pathname (fst s)) "/login" = false) as ->.
    { destruct (String.eqb_spec (AuthContext.pathname (fst s)) "/login") as [E|]; [| done]. by rewrite E in Ho. }
    transitivity (allows (map selector_part (ElectionContext.render (snd s)) ++ map session_part (AuthContext.navbar (fst s))) u).
    { unfold AuthContext.navbar. cbn [map]. by rewrite !allows_cons, !allows_app. }
    rewrite allows_app, session_part_allows, selector_part_allows. destruct u; cbn; [done |]. apply orb_false_r.
  - rewrite session_part_allows. by destruct u.
Qed.

Lemma session_plain_user u s : plain (on_user AuthContext.session u s).
Proof. change (plain (AuthContext.on_ui u s)). destruct u; cbn [AuthContext.on_ui]; plain_auto. Qed.

Lemma session_plain_env x s : plain (on_env AuthContext.session x s).
Proof. change (plain (AuthContext.on_surroundings x s)). destruct x; cbn [AuthContext.on_surroundings]; plain_auto. Qed.

Lemma provider_plain_user u s : plain (on_user ElectionContext.provider u s).
Proof. change (plain (ElectionContext.on_ui u s)). destruct u; cbn [ElectionContext.on_ui]; plain_auto. Qed.

Lemma provider_plain_env x s : plain (on_env ElectionContext.provider x s).
Proof. change (plain (ElectionContext.on_surroundings x s)). destruct x; cbn [ElectionContext.on_surroundings]; plain_auto. Qed.

Lemma unauthorized_immediate s : immediate (on_env AuthContext.session AuthContext.Unauthorized s).
Proof.
  intros t. destruct (AuthContext.handler t) as [path|]; [| done]. unfold AuthContext.logout. cbn.
  by destruct (AuthContext.isPublic path).
Qed.

(** The simulation of the console by its providers. *)
Lemma console_run s1 s2 es w :
  run console (boot (s1, s2)) es = Some w ->
  exists v1 v2,
    parts_run AuthContext.session ElectionContext.provider expired AuthContext.Unauthorized page deliver s1 s2 es w v1 v2
    /\ reachable AuthContext.session (fun _ => True) s1 v1
    /\ reachable ElectionContext.provider (fun _ => True) s2 v2
    /\ simulated expired (on_env AuthContext.session AuthContext.Unauthorized) w v1 v2.
Proof.
  apply pair_run; eauto using session_plain_user, session_plain_env, provider_plain_user, provider_plain_env, unauthorized_immediate.
  - intros s u. by rewrite console_allows.
  - intros s u. rewrite console_allows. by intros [_ H]%andb_true_iff.
Qed.

Lemma console_simulated s w :
  reachable console (fun _ => True) s w ->
  exists v1 v2, reachable AuthContext.session (fun _ => True) (fst s) v1
    /\ reachable ElectionContext.provider (fun _ => True) (snd s) v2
    /\ simulated expired (on_env AuthContext.session AuthContext.Unauthorized) w v1 v2.
Proof.
  destruct s as [s1 s2]. apply pair_simulated;
    eauto using session_plain_user, session_plain_env, provider_plain_user, provider_plain_env, unauthorized_immediate.
  - intros s u. by rewrite console_allows.
  - intros s u. rewrite console_allows. by intros [_ H]%andb_true_iff.
Qed.

Abbreviation any := (fun _ => True).
Abbreviation refused := (on_env AuthContext.session AuthContext.Unauthorized).

(** ** The callback is the client's *)

(** An error of the browser itself (a network failure, a body that is not JSON) has no
    status. *)
Definition statusless (answer : fetch_result) : Prop :=
  match answer with
  | FetchRejected e | Response _ (Err e) => e_status e = None
  | _ => True
  end.

(** [expired] says of every rejected call what the client does: the callback is run exactly
    when the answer cuts. *)
Theorem expired_runs_callback fetch base r e called :
  statusless (fetch (http_request_of base r)) ->
  api_fetch fetch true base r = (Err e, called) -> expired (One r) (Err e) = called.
Proof.
  unfold api_fetch, http_request_of, request. cbn zeta. intros Hs.
  assert (truthy_opt (call_token (http_of r)) = truthy_opt (req_token r)) as ->
    by (destruct (call_token_of r) as [->|[-> ->]]; done).
  destruct (fetch _) as [e'|status json]; cbn [statusless] in Hs; [by intros [= <- <-]; cbn; rewrite Hs |].
  destruct (Z.eqb_spec status 401) as [->|Hne].
  - intros [= <- <-]. cbn. by rewrite andb_true_r.
  - destruct (response_ok status); cbn [negb]; [intros [= -> <-]; cbn; by rewrite Hs |].
    intros [= <- <-]. cbn. rewrite bool_decide_eq_false_2; [done |].
    unfold error_of_response. destruct json as [d|]; [destruct (is_nullish d) |]; cbn; congruence.
Qed.

(** ** A refused call ends the session *)

Definition over (s : AuthContext.state) : Prop :=
  AuthContext.token s = None /\ AuthContext.user s = None
  /\ (AuthContext.removes (AuthContext.allowed s) = true -> AuthContext.storage s = None).

Definition registered_handler (s : AuthContext.state) : Prop := is_Some (AuthContext.handler s).
Definition listening (s : AuthContext.state) : Prop := AuthContext.mounted s = true -> registered_handler s.

(** ** Components with the session inside *)

Section Strict.
Context {S : Type} (session_of : S -> AuthContext.state).

(** What is left of a handler when a call of it is refused starts by ending the session. *)
Fixpoint strict (p : prog S unit) : Prop :=
  match p with
  | Ret _ | Throw _ => True
  | Upd _ k | Sleep _ k | Clear _ k => strict k
  | Peek k => forall s, strict (k s)
  | Call q k =>
      (forall o w, expired q o = true -> registered_handler (session_of (st w)) ->
                   over (session_of (st (exec (k o) w))))
      /\ forall o, strict (k o)
  | Timer _ _ body k => strict body /\ forall id, strict (k id)
  | Now k => forall t, strict (k t)
  end.

Definition strict_task (t : task S) : Prop :=
  match t with
  | Waiting _ q k => strict (Call q k)
  | Sleeping _ _ k => strict k
  | Timed _ _ _ body => strict body
  end.

Lemma exec_strict p w : Forall strict_task (tasks w) -> strict p -> Forall strict_task (tasks (exec p w)).
Proof.
  revert w. induction p as [[]|e|f k IH|k IH|q k|ms k|every ms body k IH|id k IH|k IH] using prog_unit_ind;
    intros w Hw Hp; cbn [exec tasks] in *; try done.
  - by apply IH.
  - by apply IH.
  - apply Forall_app_2; [done | by apply Forall_singleton].
  - apply Forall_app_2; [done | by apply Forall_singleton].
  - destruct Hp as [Hb Hk]. apply IH; [| done]. apply Forall_app_2; [done | by apply Forall_singleton].
  - apply IH; [| done]. by apply Forall_sub_filter.
  - by apply IH.
Qed.

Lemma strict_bind_immediate p (q : unit -> prog S unit) : immediate p -> strict (q tt) -> strict (p ≫= q).
Proof.
  induction p as [[]|e|f k IH|k IH|c k|ms k|every ms body k IH|id k IH|k IH] using prog_unit_ind;
    intros Hp Hq; cbn in *; try done; eauto.
Qed.
End Strict.

(** The interface: every handler of the component is [strict], and none leaves the session
    mounted without its callback. *)
Class Guarded {S U X : Type} (C : component S U X) (session_of : S -> AuthContext.state) := {
  strict_user : forall u s, strict session_of (on_user C u s);
  strict_env : forall x s, strict session_of (on_env C x s);
  listens_user : forall u s, listening (session_of s) ->
    handles (fun s => listening (session_of s)) (fun _ _ => True) (on_user C u s) s;
  listens_env : forall x s, listening (session_of s) ->
    handles (fun s => listening (session_of s)) (fun _ _ => True) (on_env C x s) s }.

Section GuardedRuns.
Context {S U X : Type} `{EqDecision U} (C : component S U X) (session_of : S -> AuthContext.state) `{!Guarded C session_of}.

Lemma guarded_strict s w : reachable C any s w -> Forall (strict_task session_of) (tasks w).
Proof.
  intros Hw. induction Hw as [|w e w' _ IH _ Hs]; [constructor |].
  destruct e as [u|x|i answer|ms|i]; cbn [step] in Hs.
  - destruct (allows _ u); [| done]. injection Hs as <-. apply exec_strict; [done | apply strict_user].
  - injection Hs as <-. apply exec_strict; [done | apply strict_env].
  - destruct (get_task i w) as [[i' q k| |]|] eqn:Ht; try done. injection Hs as <-.
    apply get_task_In in Ht as [Hin _]. apply exec_strict; [by apply Forall_sub_filter |].
    apply (Forall_In _ _ _ IH Hin).
  - destruct (0 <=? ms); [| done]. by injection Hs as <-.
  - destruct (get_task i w) as [[|i' d k|i' d o body]|] eqn:Ht; try done;
      apply get_task_In in Ht as [Hin _]; pose proof (Forall_In _ _ _ IH Hin) as Hb;
      (destruct (may_fire i d w); [| done]).
    + injection Hs as <-. apply exec_strict; [by apply Forall_sub_filter | done].
    + destruct o as [ms|]; injection Hs as <-; (apply exec_strict; [| done]); [| by apply Forall_sub_filter].
      cbn. apply Forall_fmap. eapply Forall_impl; [exact IH |]. intros t Ht. cbn. by destruct (Nat.eqb _ i).
Qed.

Lemma guarded_listens s w : listening (session_of s) -> reachable C any s w -> listening (session_of (st w)).
Proof.
  intros Hs Hw. eapply (good_inv (fun s => listening (session_of s)) (fun _ _ => True)), reachable_good; [| exact Hs | exact Hw].
  split; intros; [by apply listens_user | by apply listens_env].
Qed.

(** Whoever's call is refused, the session is over. *)
Lemma guarded_expiry s w i j q k answer :
  listening (session_of s) -> reachable C any s w -> AuthContext.mounted (session_of (st w)) = true ->
  get_task i w = Some (Waiting j q k) -> expired q (answer q) = true ->
  exists w', step C w (Reply i answer) = Some w' /\ over (session_of (st w')).
Proof.
  intros Hs Hw Hm Ht Hx. cbn [step]. rewrite Ht. eexists. split; [done |].
  apply get_task_In in Ht as [Hin _]. destruct (Forall_In _ _ _ (guarded_strict _ _ Hw) Hin) as [Ho _].
  by apply Ho, (guarded_listens _ _ Hs Hw Hm).
Qed.
End GuardedRuns.

(** Beside any other component, whose refused calls run the callback, it stays guarded. *)
Section GuardedPair.
Context {S1 U1 X1 S2 U2 X2 X : Type} (C1 : component S1 U1 X1) (C2 : component S2 U2 X2).
Context (session_of : S1 -> AuthContext.state) `{!Guarded C1 session_of} (call_back : X1).
Context (page : S1 * S2 -> list (node (U1 + U2))) (deliver : X -> S1 * S2 -> X1 + X2).
Context (ends_at_once : forall s, immediate (on_env C1 call_back s))
        (ends_session : forall w, registered_handler (session_of (st w)) ->
                                  over (session_of (st (exec (on_env C1 call_back (st w)) w)))).

Abbreviation of_pair := (fun s => session_of (fst s)).
Abbreviation second := (on_second expired (on_env C1 call_back)).

Lemma strict_first (p : prog S1 unit) : strict session_of p -> strict of_pair (on_first (S2 := S2) p).
Proof.
  induction p as [[]|e|f k IH|k IH|q k IH|ms k IH|every ms body IHb k IH|id k IH|k IH] using prog_unit_full_ind;
    cbn [on_first zoom strict]; try done; try (intros Hp ?; by apply IH).
  - intros [Ho Hk]. split; [| intros o; by apply IH]. intros o w Hx Hr.
    change (over (session_of (fst (st (exec (on_first (S2 := S2) (k o)) w))))).
    rewrite exec_on_first_state. by apply Ho.
  - intros [Hb Hk]. split; [by apply IHb | intros id; by apply IH].
Qed.

Lemma strict_second (p : prog S2 unit) : strict of_pair (second p).
Proof.
  induction p as [[]|e|f k IH|k IH|q k IH|ms k IH|every ms body IHb k IH|id k IH|k IH] using prog_unit_full_ind;
    cbn [on_second strict]; try done; try (intros ?; by apply IH).
  - split.
    + intros o w Hx Hr. rewrite Hx.
      change (over (session_of (fst (st (exec (on_first (on_env C1 call_back (fst (st w))) ≫= fun _ => second (k o)) w))))).
      rewrite exec_immediate by (by apply immediate_on_first). rewrite exec_on_second_state.
      rewrite exec_on_first_state. exact (ends_session (first_alone w) Hr).
    + intros o. destruct (expired q o); [| apply IH].
      apply (strict_bind_immediate of_pair (Peek (fun s => on_first (on_env C1 call_back (fst s))))); [| apply IH].
      intros s. by apply immediate_on_first.
Qed.

Lemma pair_guarded : Guarded (pair C1 C2 expired call_back page deliver) of_pair.
Proof.
  split; cbn [pair on_user on_env].
  - intros [u|u] s; [by apply strict_first, strict_user | apply strict_second].
  - intros x s. destruct (deliver x s); [by apply strict_first, strict_env | apply strict_second].
  - intros [u|u] [s t] Hs; [by apply (wp_on_first (fun s => listening (session_of s)) (fun _ _ => True)), listens_user |].
    apply (wp_on_second _ _ (fun s => listening (session_of s))); [done | intros; by apply listens_env | done].
  - intros x [s t] Hs. destruct (deliver x (s, t)) as [x1|x2];
      [by apply (wp_on_first (fun s => listening (session_of s)) (fun _ _ => True)), listens_env |].
    apply (wp_on_second _ _ (fun s => listening (session_of s))); [done | intros; by apply listens_env | done].
Qed.
End GuardedPair.

(** ** The session is guarded *)

(** The end of a handler in which the callback has run. *)
Ltac ends_session :=
  intros [?|e] w He [path Hh]; [done |]; cbn in He; apply andb_true_iff in He as [He1 He2];
  destruct w as [[? ? ? ? ? ? [? ? []] ? ? ? ? ? ?] ? ? ? ? ?]; cbn in Hh; subst;
  unfold AuthContext.unauthorized, AuthContext.logout, over; cbn;
  rewrite ?He1, ?He2; cbn; destruct (AuthContext.isPublic path); cbn; by split_and!.

(** Proves [strict] of the rest of a handler. *)
Ltac strict_auto :=
  repeat (cbn;
    first [ exact Logic.I
          | match goal with
            | |- _ /\ _ => split
            | |- forall o w, expired _ _ = true -> registered_handler _ -> _ => ends_session
            | |- forall o w, refused_call _ _ = true -> registered_handler _ -> _ =>
                first [by intros [?|?] ? [_ [=]]%andb_true_iff | ends_session]
            | |- forall o, strict _ _ => intros []
            | |- forall s, strict _ _ => intros ?
            | |- context [match ?x with _ => _ end] => destruct x eqn:?
            end ]).

#[export] Instance session_guarded : Guarded AuthContext.session (fun s => s).
Proof.
  split.
  - intros u s. destruct u; strict_auto.
  - intros x s. destruct x; strict_auto.
  - intros u s Hs. apply keeps_handles; [| done]. change (keeps listening (fun _ _ => True) (AuthContext.on_ui u s)).
    destruct u; cbn [AuthContext.on_ui]; stays.
  - intros x s Hs. change (handles listening (fun _ _ => True) (AuthContext.on_surroundings x s) s).
    destruct x; cbn [AuthContext.on_surroundings]; [| apply keeps_handles; [stays | done]..].
    destruct (AuthContext.mounted s); [done |]. apply (wp_wpf _ _ false). apply wpf_upd, wpf_upd.
    assert (keeps listening (fun _ _ => True) (AuthContext.initAuth (AuthContext.pathname s))) as Hk by stays.
    apply Hk. by eexists.
Qed.

Lemma callback_over (w : world AuthContext.state) :
  registered_handler (st w) -> over (st (exec (refused (st w)) w)).
Proof.
  intros [path Hh]. destruct w as [[? ? ? ? ? ? [? ? []] ? ? ? ? ? ?] ? ? ? ? ?]; cbn in Hh; subst;
    unfold on_env, AuthContext.session, AuthContext.on_surroundings, AuthContext.unauthorized, AuthContext.logout, over;
    cbn; destruct (AuthContext.isPublic path); cbn; by split_and!.
Qed.

#[export] Instance console_guarded : Guarded console fst.
Proof. apply (pair_guarded _ _ (fun s => s)); [exact unauthorized_immediate | exact callback_over]. Qed.

(** Another component on the console's page: the application. *)
Section Application.
Context {S U X Y : Type} `{EqDecision U} (C : component S U X).
Context (layout : state * S -> list (node (ui + U))) (deliver_all : Y -> state * S -> env + X).

Definition application : component (state * S) (ui + U) Y :=
  pair console C expired (OnSession AuthContext.Unauthorized) layout deliver_all.

#[export] Instance application_guarded : Guarded application (fun s => fst (fst s)).
Proof.
  apply (pair_guarded _ _ fst).
  - intros s. apply (immediate_on_first (S2 := ElectionContext.state)), unauthorized_immediate.
  - intros w Hw. cbn [console pair on_env deliver].
    rewrite exec_on_first_state. exact (callback_over (first_alone w) Hw).
Qed.

(** C18 (safety): in every interleaving of the application, whatever page is open and whatever
    it does, when a call with a token is refused with 401, be it the session's, the shared
    election's or the page's, alone or awaited with others, the session is over as soon as
    the answer arrives: no token, no user, and, where storage works, nothing stored. *)
Theorem expiry_ends_session path stored a t s w i j q k answer :
  reachable application any ((AuthContext.initial path stored a, ElectionContext.initial t), s) w ->
  AuthContext.mounted (fst (fst (st w))) = true ->
  get_task i w = Some (Waiting j q k) -> expired q (answer q) = true ->
  exists w', step application w (Reply i answer) = Some w' /\ over (fst (fst (st w'))).
Proof. intros Hw. by apply (guarded_expiry application (fun s => fst (fst s))) with (2 := Hw). Qed.
End Application.

(** Of the console alone, and one call. *)
Theorem console_expiry_ends_session path stored a t w i j r k e answer :
  reachable console any (AuthContext.initial path stored a, ElectionContext.initial t) w ->
  AuthContext.mounted (fst (st w)) = true ->
  get_task i w = Some (Waiting j (One r) k) -> truthy_opt (req_token r) = true ->
  answer (One r) = Err e -> e_status e = Some 401 ->
  exists w', step console w (Reply i answer) = Some w' /\ over (fst (st w')).
Proof.
  intros Hw Hm Ht Hr Ha He. eapply (guarded_expiry console fst); [| exact Hw | done | exact Ht |]; [done |].
  rewrite Ha. cbn. by rewrite He, Hr.
Qed.

(** ** Both providers at work *)

(** Programs whose calls are awaited one by one. *)
Fixpoint singly {S A : Type} (p : prog S A) : Prop :=
  match p with
  | Ret _ | Throw _ => True
  | Upd _ k | Sleep _ k | Clear _ k => singly k
  | Peek k => forall s, singly (k s)
  | Call q k => (exists r, q = One r) /\ forall o, singly (k o)
  | Timer _ _ body k => singly body /\ forall id, singly (k id)
  | Now k => forall t, singly (k t)
  end.

Definition singly_task {S : Type} (t : task S) : Prop :=
  match t with
  | Waiting _ q k => singly (Call q k)
  | Sleeping _ _ k => singly k
  | Timed _ _ _ body => singly body
  end.

Lemma exec_singly {S} (p : prog S unit) w : Forall singly_task (tasks w) -> singly p -> Forall singly_task (tasks (exec p w)).
Proof.
  revert w. induction p as [[]|e|f k IH|k IH|q k|ms k|every ms body k IH|id k IH|k IH] using prog_unit_ind;
    intros w Hw Hp; cbn [exec tasks singly] in *; try done; try (by apply IH).
  - apply Forall_app_2; [done | by apply Forall_singleton].
  - apply Forall_app_2; [done | by apply Forall_singleton].
  - destruct Hp as [Hb Hk]. apply IH; [| done]. apply Forall_app_2; [done | by apply Forall_singleton].
  - apply IH; [| done]. by apply Forall_sub_filter.
Qed.

Ltac singly_auto :=
  repeat (cbn;
    first [ exact Logic.I
          | match goal with
            | |- _ /\ _ => split
            | |- exists r, One _ = One r => by eexists
            | |- forall _, _ => intros ?
            | |- context [match ?x with _ => _ end] => destruct x eqn:?
            end ]).

Lemma selector_singly_user (u : ElectionContext.ui) s : singly (on_user ElectionContext.provider u s).
Proof. destruct u. singly_auto. Qed.

Lemma selector_singly_env (x : ElectionContext.env) s : singly (on_env ElectionContext.provider x s).
Proof. destruct x; singly_auto. Qed.

(** The provider awaits its calls one by one. *)
Lemma step_singly v e v' :
  Forall singly_task (tasks v) -> step ElectionContext.provider v e = Some v' -> Forall singly_task (tasks v').
Proof.
  intros Hv Hs. destruct e as [u|x|i answer|ms|i]; cbn [step] in Hs.
  - destruct (allows _ u); [| done]. injection Hs as <-. apply exec_singly; [done | apply selector_singly_user].
  - injection Hs as <-. apply exec_singly; [done | apply selector_singly_env].
  - destruct (get_task i v) as [[i' q k| |]|] eqn:Ht; try done. injection Hs as <-.
    apply get_task_In in Ht as [Hin _]. apply exec_singly; [by apply Forall_sub_filter |].
    by apply (Forall_In _ _ _ Hv Hin).
  - destruct (0 <=? ms); [| done]. by injection Hs as <-.
  - destruct (get_task i v) as [[|j d k|j d o body]|] eqn:Ht; try done;
      apply get_task_In in Ht as [Hin _]; pose proof (Forall_In _ _ _ Hv Hin) as Hb; cbn in Hb;
      (destruct (may_fire i d v); [| done]).
    + injection Hs as <-. apply exec_singly; [by apply Forall_sub_filter | done].
    + destruct o as [ms|]; injection Hs as <-; (apply exec_singly; [| done]); [| by apply Forall_sub_filter].
      cbn. apply Forall_fmap. eapply Forall_impl; [exact Hv |]. intros t Ht. cbn. by destruct (Nat.eqb _ i).
Qed.

(** What the session and the election's provider do at an event of the console: each click is
    its part's; a commit shows the provider the session's token; and an answer goes to the
    call it answers, where one to a call of the provider that refuses it with 401, although
    it had a token, is followed by the session's logout. *)
Definition follows (w : world state) (e : event ui env) (v1 v1' : world AuthContext.state)
    (v2 v2' : world ElectionContext.state) : Prop :=
  match e with
  | User (inl u) => step AuthContext.session v1 (User u) = Some v1' /\ v2' = v2
  | User (inr u) => v1' = v1 /\ step ElectionContext.provider v2 (User u) = Some v2'
  | Env (OnSession x) => step AuthContext.session v1 (Env x) = Some v1' /\ v2' = v2
  | Env Commit =>
      v1' = v1
      /\ step ElectionContext.provider v2
           (Env (if bool_decide (ElectionContext.token (st v2) = AuthContext.token (st v1))
                 then ElectionContext.Mount else ElectionContext.TokenChanged (AuthContext.token (st v1)))) = Some v2'
  | Env Refresh => v1' = v1 /\ step ElectionContext.provider v2 (Env ElectionContext.Refresh) = Some v2'
  | Reply i answer =>
      (exists j q k k1, get_task i w = Some (Waiting i q k) /\ get_task j v1 = Some (Waiting j q k1)
         /\ step AuthContext.session v1 (Reply j answer) = Some v1' /\ v2' = v2)
      \/ (exists j r k k2, get_task i w = Some (Waiting i (One r) k) /\ get_task j v2 = Some (Waiting j (One r) k2)
            /\ step ElectionContext.provider v2 (Reply j answer) = Some v2'
            /\ match answer (One r) with
               | Err e =>
                   if bool_decide (e_status e = Some 401) && truthy_opt (req_token r)
                   then step AuthContext.session v1 (Env AuthContext.Unauthorized) = Some v1' else v1' = v1
               | Ok _ => v1' = v1
               end)
  | Tick _ | Fire _ => v1' = v1 /\ v2' = v2
  end.

(** A run of the console and of its two parts beside it. *)
Inductive runs_both (path : string) (stored : option string) (a : AuthContext.access) (t : option string) :
    list (event ui env) -> world state -> world AuthContext.state -> world ElectionContext.state -> Prop :=
| both_boot :
    runs_both path stored a t [] (boot (AuthContext.initial path stored a, ElectionContext.initial t))
      (boot (AuthContext.initial path stored a)) (boot (ElectionContext.initial t))
| both_step es e w w' v1 v1' v2 v2' :
    runs_both path stored a t es w v1 v2 -> step console w e = Some w' -> follows w e v1 v1' v2 v2' ->
    st w' = (st v1', st v2') -> runs_both path stored a t (es ++ [e]) w' v1' v2'.

Lemma parts_follow w e v1 v1' v2 v2' :
  Forall singly_task (tasks v2) ->
  parts_step AuthContext.session ElectionContext.provider expired AuthContext.Unauthorized deliver w e v1 v1' v2 v2' ->
  follows w e v1 v1' v2 v2'.
Proof.
  intros Hv2. destruct e as [[u|u]|[x| |]|i answer|ms|i]; cbn [parts_step follows]; try done.
  intros (q & [k Hk] & [(j & k1 & Hj & Hs & ->)|(j & k2 & Hj & Hs & Hc)]); [left; by exists j, q, k, k1 |].
  right. apply get_task_In in Hj as Hin. destruct Hin as [Hin _].
  destruct (Forall_In _ _ _ Hv2 Hin) as [[r ->] _]. exists j, r, k, k2. do 3 (split; [done |]).
  cbn [expired refused_call] in Hc. by destruct (answer (One r)).
Qed.

Abbreviation both_parts :=
  (parts_step AuthContext.session ElectionContext.provider expired AuthContext.Unauthorized deliver).

Lemma parts_singly w e v1 v1' v2 v2' :
  both_parts w e v1 v1' v2 v2' -> Forall singly_task (tasks v2) -> Forall singly_task (tasks v2').
Proof.
  intros Hp Hv. assert (forall e', step ElectionContext.provider v2 e' = Some v2' -> Forall singly_task (tasks v2')) as Hs
    by (intros e'; by apply step_singly).
  destruct e as [[u|u]|[x| |]|i answer|ms|i]; cbn [parts_step deliver] in Hp; try (destruct Hp; subst; by eauto).
  destruct Hp as (q & _ & [(j & k & _ & _ & ->)|(j & k & _ & Hp & _)]); eauto.
Qed.

Lemma parts_both path stored a t es w v1 v2 :
  parts_run AuthContext.session ElectionContext.provider expired AuthContext.Unauthorized page deliver
    (AuthContext.initial path stored a) (ElectionContext.initial t) es w v1 v2 ->
  runs_both path stored a t es w v1 v2 /\ Forall singly_task (tasks v2).
Proof.
  intros H. induction H as [|es e w w' v1 v1' v2 v2' _ [IH Hv] Hs Hp Hst]; [split; constructor |].
  split; [| by eapply parts_singly]. eapply both_step; [exact IH | exact Hs | by apply parts_follow | exact Hst].
Qed.

(** C35 (refinement): the console refines its providers, event by event. Every run of the
    console is a run of the session and a run of the election's provider beside it: at each
    event the part concerned does what it does alone, at a commit the provider is shown the
    session's token, and a refused call of the provider logs the session out; the console's
    state is at all times the pair of theirs. The requests made are theirs, the console is
    idle exactly when both are, and an officers' page is the session's bar with the selector
    in it. *)
Theorem console_runs_both path stored a t es w :
  run console (boot (AuthContext.initial path stored a, ElectionContext.initial t)) es = Some w ->
  exists v1 v2,
    runs_both path stored a t es w v1 v2
    /\ st w = (st v1, st v2)
    /\ map snd (sent w) ≡ₚ map snd (sent v1) ++ map snd (sent v2)
    /\ (forall s r, In (s, r) (sent w) -> In (fst s, r) (sent v1) \/ In (snd s, r) (sent v2))
    /\ idle w = idle v1 && idle v2
    /\ page (st w) = (if AuthContext.officer_page (AuthContext.pathname (st v1))
                      then match map session_part (AuthContext.render (st v1)) with
                           | brand :: rest => brand :: map selector_part (ElectionContext.render (st v2)) ++ rest
                           | [] => []
                           end
                      else map session_part (AuthContext.render (st v1))).
Proof.
  intros (v1 & v2 & Ht & H1 & H2 & Hv)%console_run. exists v1, v2.
  split; [by apply parts_both |].
  pose proof (sim_state _ _ _ _ _ Hv) as Es. split; [exact Es |]. split; [exact (sim_asked _ _ _ _ _ Hv) |].
  split; [exact (sim_sent _ _ _ _ _ Hv) |]. split; [by eapply simulated_idle |]. rewrite Es. unfold page. cbn [fst snd].
  destruct (AuthContext.officer_page _) eqn:Ho; [| done]. unfold AuthContext.render. rewrite Ho.
  destruct (String.eqb_spec (AuthContext.pathname (st v1)) "/login") as [E|]; [by rewrite E in Ho | done].
Qed.

(** When nothing is on its way, neither the session nor the login form nor, with a token, the
    selector shows itself busy. *)
Theorem console_not_left_loading path stored a t w :
  reachable console any (AuthContext.initial path stored a, ElectionContext.initial t) w -> idle w = true ->
  let '(s, e) := st w in
  AuthContext.loading s = false
  /\ (AuthContext.mounted s = true -> AuthContext.isLoading s = false)
  /\ (ElectionContext.mounted e = true -> truthy_opt (ElectionContext.token e) = true ->
      ElectionContext.loading e = false).
Proof.
  intros (v1 & v2 & H1 & H2 & Hv)%console_simulated Hidle. cbn [fst snd] in H1, H2.
  erewrite simulated_idle in Hidle by exact Hv. apply andb_true_iff in Hidle as [Hi1 Hi2].
  rewrite (sim_state _ _ _ _ _ Hv).
  assert (forall f, AuthContextFacts.raised f (st v1) = false) as R1.
  { intros f. eapply never_left_busy; [apply session_lowers | | exact H1 | exact Hi1]. by destruct f. }
  assert (selector_busy (st v2) = false) as R2.
  { eapply never_left_busy; [apply provider_lowers | | exact H2 | exact Hi2]. done. }
  split; [apply (R1 true) |]. split.
  - intros Hm. specialize (R1 false). cbn in R1. by rewrite Hm in R1.
  - intros Hm Ht. unfold selector_busy in R2. by rewrite Hm, Ht in R2.
Qed.

(** ** What the composition shows *)

Definition reissuing : forall r, outcome (resp r) :=
  fun r => match r as r return outcome (resp r) with
           | ApiClient.login _ _ => Ok {| access_token := "new"; token_type := "bearer" |}
           | getMe (Some "new"%string) => Ok officer
           | getElections (Some "new"%string) => Ok [an_election "E1"]
           | getElection id (Some "new"%string) => Ok (an_election id)
           | _ => Err (ApiError 401 "Session expired or unauthorized. Please log in again." VUndef)
           end.

(** A late refusal of the old token ends the new session: the list of elections was asked for
    with a stored token that has expired; refused the user's details, the officer logs in
    again and works; then the refusal of the list arrives and logs the officer out. *)
Definition late_refusal : list (event ui env) :=
  [Env Commit; Env (OnSession AuthContext.Mount); Reply 1 (answers reissuing);
   Env (OnSession (AuthContext.Navigate "/login"));
   User (inl (AuthContext.DemoCreds "admin" "AdminSecurePassword123!")); User (inl AuthContext.Submit);
   Reply 2 (answers reissuing); Reply 3 (answers reissuing);
   Env (OnSession (AuthContext.Navigate "/command")); Env Commit;
   Reply 4 (answers reissuing); Reply 5 (answers reissuing)].

Theorem console_late_refusal_ends_new_session :
  exists w1 w2,
    run console (boot (initial "/command" (Some "old"%string) AuthContext.working)) late_refusal = Some w1
    /\ AuthContext.token (fst (st w1)) = Some "new"%string
    /\ option_map e_id (ElectionContext.selectedElection (snd (st w1))) = Some "E1"%string
    /\ run console w1 [Reply 0 (answers reissuing)] = Some w2
    /\ AuthContext.token (fst (st w2)) = None /\ tasks w2 = []
    /\ option_map e_id (ElectionContext.selectedElection (snd (st w2))) = Some "E1"%string.
Proof. do 2 eexists. split_and!; vm_compute; reflexivity. Qed.

(** ** Witnesses *)

Definition both_asking : world state :=
  default (boot (initial "/command" (Some "old"%string) AuthContext.working))
    (run console (boot (initial "/command" (Some "old"%string) AuthContext.working))
       [Env Commit; Env (OnSession AuthContext.Mount)]).

Lemma reachable_both_asking : reachable console any (initial "/command" (Some "old"%string) AuthContext.working) both_asking.
Proof. apply reachable_default; [constructor | by repeat constructor]. Qed.

Lemma console_expiry_ends_session_witness :
  exists w', step console both_asking (Reply 0 (answers reissuing)) = Some w'
    /\ AuthContext.token (fst (st w')) = None.
Proof.
  assert (exists w', step console both_asking (Reply 0 (answers reissuing)) = Some w' /\ over (fst (st w')))
    as (w' & H1 & H2 & _).
  { eapply (console_expiry_ends_session "/command" (Some "old"%string) AuthContext.working (Some "old"%string) both_asking 0 0
              (getElections (Some "old"%string)));
      [exact reachable_both_asking | vm_compute; reflexivity | vm_compute; reflexivity | reflexivity | reflexivity
      | reflexivity]. }
  exists w'. split; [exact H1 | exact H2].
Defined.

Lemma console_runs_both_witness :
  exists v1 v2, st both_asking = (st v1, st v2)
    /\ map snd (sent v1) ++ map snd (sent v2) ≡ₚ [getElections (Some "old"%string); getMe (Some "old"%string)].
Proof.
  destruct (console_runs_both "/command" (Some "old"%string) AuthContext.working (Some "old"%string)
              [Env Commit; Env (OnSession AuthContext.Mount)] both_asking)
    as (v1 & v2 & _ & H1 & H2 & _); [vm_compute; reflexivity |].
  exists v1, v2. split; [exact H1 |]. rewrite <- H2. by vm_compute.
Defined.

Lemma console_not_left_loading_witness :
  AuthContext.isLoading (fst (st (default both_asking
    (run console both_asking [Reply 0 (answers reissuing); Reply 1 (answers reissuing)])))) = false.
Proof.
  pose proof (console_not_left_loading "/command" (Some "old"%string) AuthContext.working (Some "old"%string)
    (default both_asking (run console both_asking [Reply 0 (answers reissuing); Reply 1 (answers reissuing)]))) as H.
  assert (reachable console any (initial "/command" (Some "old"%string) AuthContext.working)
    (default both_asking (run console both_asking [Reply 0 (answers reissuing); Reply 1 (answers reissuing)]))) as Hr.
  { apply reachable_default; [exact reachable_both_asking | by repeat constructor]. }
  specialize (H Hr ltac:(vm_compute; reflexivity)).
  rewrite (surjective_pairing (st _)) in H. destruct H as (_ & H & _). apply H. vm_compute. reflexivity.
Defined.

Lemma expired_runs_callback_witness :
  expired (One (getElections (Some "old"%string)))
    (Err (ApiError 401 "Session expired or unauthorized. Please log in again." VUndef)) = true.
Proof.
  apply (expired_runs_callback (fun _ => Response 401 (Ok VNull)) "http://localhost:8000"); [exact I | vm_compute; reflexivity].
Defined.
