(* ===== verification/Application.v ===== *)
(** * The application: any page under the providers

    Every component with a token honours the interface of [Tokens]: the session, the
    election's provider, the officers' pages, the launcher, the terminal and the public
    verifier. Hence, in the application of [Console] with any of them as its page, no request
    carries a token that was neither stored before nor answered to a login. The launcher, the
    terminal and the public verifier are outside the officers' layout: for them the shared
    election is a part that nothing is delivered to. The registry of devices in the officers'
    layout is the page the theorems are applied to. *)
From S2P Require Import Prelude JsValue JsNumber Types ApiClient View Common React Alone Spinner.
From S2P Require Import AuthContext AuthContextFacts ElectionContext Officer Compose Navigation Console Tokens.
From S2P Require Import EvmTerminal EvmTerminalFacts EvmLauncher EvmLauncherFacts PublicVerify PublicVerifyFacts AuditExplorer AuditExplorerFacts.
From S2P Require Import Command CommandFacts Devices DevicesFacts Results ResultsFacts Counting CountingFacts Security SecurityFacts.
From S2P Require Import Setup Polling PollingFacts Candidates ElectionDevices Stations Complaints ElectionVerification.
From S2P Require Import ElectionAudit ElectionResults SimulationPage.
From Stdlib Require Import String.

(** ** Two bearers on one page *)

Section Pair.
Context {S1 U1 X1 S2 U2 X2 X : Type} (C1 : component S1 U1 X1) (C2 : component S2 U2 X2).
Context `{!Bearer C1, !Bearer C2}.
Context (cuts : forall q, outcome (qresp q) -> bool) (call_back : X1) (call_back_tells : forall I, tells C1 I call_back).
Context (page : S1 * S2 -> list (node (U1 + U2))) (deliver : X -> S1 * S2 -> X1 + X2).

Definition pair_holds (I : string -> Prop) (s : S1 * S2) : Prop := holds C1 I (fst s) /\ holds C2 I (snd s).

Lemma bearing_first I {A} (p : prog S1 A) Q :
  bearing I (holds C1 I) p Q -> bearing I (pair_holds I) (on_first p) Q.
Proof.
  induction p as [A a|A e|A g k IH|A k IH|A c k IH|A ms k IH|A every ms body IHb k IH|A id k IH|A k IH]; cbn; unfold pair_holds;
    naive_solver.
Qed.

Lemma bearing_second I {A} (p : prog S2 A) Q :
  bearing I (holds C2 I) p Q -> bearing I (pair_holds I) (on_second cuts (on_env C1 call_back) p) Q.
Proof.
  induction p as [A a|A e|A g k IH|A k IH|A c k IH|A ms k IH|A every ms body IHb k IH|A id k IH|A k IH]; cbn;
    try (unfold pair_holds; naive_solver).
  intros [Hr Hk]. split; [done |]. intros o Ho. apply (carries_bind _ _ _ _ (fun _ => True)).
  - destruct (cuts c o); [| done]. intros s [Hs _]. by apply bearing_first, bearer_env.
  - intros _ _. by apply IH, Hk.
Qed.

Lemma pair_bearer_user I u s :
  pair_holds I s -> bearing I (pair_holds I) (on_user (pair C1 C2 cuts call_back page deliver) u s) (fun _ => True).
Proof.
  intros [H1 H2]. destruct u as [u|u]; [by apply bearing_first, bearer_user | by apply bearing_second, bearer_user].
Qed.

(** What the surroundings bring is what the part concerned is told. *)
Lemma pair_bearer_env I x s :
  pair_holds I s -> match deliver x s with inl x1 => tells C1 I x1 | inr x2 => tells C2 I x2 end ->
  bearing I (pair_holds I) (on_env (pair C1 C2 cuts call_back page deliver) x s) (fun _ => True).
Proof.
  intros [H1 H2] Hx. cbn [pair on_env].
  destruct (deliver x s) as [x1|x2]; [by apply bearing_first, bearer_env | by apply bearing_second, bearer_env].
Qed.
End Pair.

(** ** The session *)

Definition session_holds (I : string -> Prop) (s : AuthContext.state) : Prop :=
  issued I (AuthContext.token s) /\ issued I (AuthContext.storage s).

Ltac session_keeps :=
  first [ by intros _
        | intros ? [??]; unfold AuthContext.remove_item, AuthContext.set_item in *; repeat case_match;
          by repeat split; try intros _ ].

Lemma logout_bearing I path : bearing I (session_holds I) (AuthContext.logout path) (fun _ => True).
Proof. unfold AuthContext.logout. bearing_auto; session_keeps. Qed.

Lemma unauthorized_bearing I : bearing I (session_holds I) AuthContext.unauthorized (fun _ => True).
Proof. intros s _. destruct (AuthContext.handler s); [apply logout_bearing | done]. Qed.

Lemma await_me_bearing I t : I t -> bearing I (session_holds I) (AuthContext.await_me t) (fun _ => True).
Proof.
  intros Ht. unfold AuthContext.await_me. bearing_auto; session_keeps.
Qed.

Lemma get_item_bearing I : bearing I (session_holds I) AuthContext.get_item (issued I).
Proof. intros s [_ Hs]. destruct (AuthContext.reads (AuthContext.allowed s)); [exact Hs | exact Logic.I]. Qed.

Lemma init_bearing I path : bearing I (session_holds I) (AuthContext.initAuth path) (fun _ => True).
Proof.
  unfold AuthContext.initAuth. apply carries_finally; [apply carries_try; [| intros _; apply logout_bearing] |].
  - eapply carries_bind; [apply get_item_bearing |]. intros [t|] Ht; [| done].
    destruct (truthy_str t) eqn:E; [| done]. specialize (Ht E).
    bearing_auto; session_keeps.
  - bearing_auto; session_keeps.
Qed.

#[local] Hint Resolve logout_bearing unauthorized_bearing await_me_bearing init_bearing : bearing.

#[export] Instance session_bearer : Bearer AuthContext.session.
Proof.
  refine {| holds := session_holds;
            tells := fun I x => match x with AuthContext.Storage v _ => issued I v | _ => True end |}.
  - intros I u s _. change (bearing I (session_holds I) (AuthContext.on_ui u s) (fun _ => True)).
    destruct u; cbn [AuthContext.on_ui]; [| bearing_auto; session_keeps.. | apply logout_bearing].
    unfold AuthContext.handleSubmit. bearing_auto; session_keeps.
  - intros I x s _ Hx. change (bearing I (session_holds I) (AuthContext.on_surroundings x s) (fun _ => True)).
    destruct x; cbn [AuthContext.on_surroundings];
      [| bearing_auto; session_keeps | apply unauthorized_bearing |].
    2: { cbn. split; [intros s' [H1 _]; by split | split; [intros s' H; exact H | done]]. }
    bearing_auto; session_keeps.
Defined.

(** ** The election's provider and the pages with a token *)

Section Refresh.
Context {S : Type} (I : string -> Prop) (Holds : S -> Prop).

Lemma refresh_bearing t e : issued I t -> bearing I Holds (refreshElections t e) (fun _ => True).
Proof.
  intros Ht. unfold refreshElections, ElectionContext.refreshElections. cbn.
  split; [by apply Forall_singleton |]. intros [[|e1 l]|err] _; destruct e as [e|]; cbn; try done;
    (split_and!; [done | by apply Forall_singleton |]; by intros [?|?] _).
Qed.
End Refresh.

#[local] Hint Unfold busy : prog.
#[local] Hint Resolve refresh_bearing : bearing.

Ltac bearer C := unfold on_user, on_env, C; bearing_auto.

#[export] Instance provider_bearer : Bearer ElectionContext.provider.
Proof.
  refine {| holds := fun I s => issued I (ElectionContext.token s);
            tells := fun I x => match x with ElectionContext.TokenChanged t => issued I t | _ => True end |}; bearer ElectionContext.provider.
Defined.

#[export] Instance registry_bearer : Bearer Devices.registry.
Proof.
  refine {| holds := fun I s => issued I (Devices.token s);
            tells := fun I x => match x with Devices.TokenChanged t => issued I t | _ => True end |}; bearer Devices.registry.
Defined.

#[export] Instance results_bearer : Bearer Results.page.
Proof.
  refine {| holds := fun I s => issued I (Results.token s);
            tells := fun I x => match x with Results.TokenChanged t => issued I t | _ => True end |}; bearer Results.page.
Defined.

#[export] Instance command_bearer : Bearer Command.command.
Proof.
  refine {| holds := fun I s => issued I (Command.token s);
            tells := fun I x => match x with Command.TokenChanged t => issued I t | _ => True end |}; bearer Command.command.
Defined.

#[export] Instance explorer_bearer : Bearer AuditExplorer.explorer.
Proof.
  refine {| holds := fun I s => issued I (AuditExplorer.token s);
            tells := fun I x => match x with AuditExplorer.TokenChanged t => issued I t | _ => True end |}; bearer AuditExplorer.explorer.
Defined.

#[export] Instance security_bearer : Bearer Security.center.
Proof.
  refine {| holds := fun I s => issued I (Security.token s);
            tells := fun I x => match x with Security.TokenChanged t => issued I t | _ => True end |}; bearer Security.center.
Defined.

Lemma autoplay_bearing I n :
  bearing I (fun s => issued I (Counting.token s)) (Counting.autoplay n) (fun _ => True).
Proof. induction n as [|n IH]; cbn [Counting.autoplay]; bearing_auto. Qed.

#[local] Hint Resolve autoplay_bearing : bearing.
#[local] Hint Unfold Counting.rendering : prog.

#[export] Instance counting_bearer reading : Bearer (Counting.counting reading).
Proof.
  refine {| holds := fun I s => issued I (Counting.token s);
            tells := fun I x => match x with Counting.TokenChanged t => issued I t | _ => True end |}; bearer Counting.counting.
Defined.

#[export] Instance setup_bearer : Bearer Setup.page.
Proof.
  refine {| holds := fun I s => issued I (Setup.token s);
            tells := fun I x => match x with Setup.TokenChanged t => issued I t | _ => True end |}; bearer Setup.page.
Defined.

#[export] Instance candidates_bearer : Bearer Candidates.page.
Proof.
  refine {| holds := fun I s => issued I (Candidates.token s);
            tells := fun I x => match x with Candidates.TokenChanged t => issued I t | _ => True end |}; bearer Candidates.page.
Defined.

#[export] Instance election_devices_bearer undeclared : Bearer (ElectionDevices.page undeclared).
Proof.
  refine {| holds := fun I s => issued I (ElectionDevices.token s);
            tells := fun I x => match x with ElectionDevices.TokenChanged t => issued I t | _ => True end |}; bearer ElectionDevices.page.
Defined.

#[export] Instance stations_bearer undeclared : Bearer (Stations.page undeclared).
Proof.
  refine {| holds := fun I s => issued I (Stations.token s);
            tells := fun I x => match x with Stations.TokenChanged t => issued I t | _ => True end |}; bearer Stations.page.
Defined.

#[export] Instance complaints_bearer : Bearer Complaints.page.
Proof.
  refine {| holds := fun I s => issued I (Complaints.token s);
            tells := fun I x => match x with Complaints.TokenChanged t => issued I t | _ => True end |}; bearer Complaints.page.
Defined.

#[export] Instance verification_bearer undeclared : Bearer (ElectionVerification.page undeclared).
Proof.
  refine {| holds := fun I s => issued I (ElectionVerification.token s);
            tells := fun I x => match x with ElectionVerification.TokenChanged t => issued I t | _ => True end |}; bearer ElectionVerification.page.
Defined.

#[export] Instance audit_bearer undeclared_status undeclared_event : Bearer (ElectionAudit.page undeclared_status undeclared_event).
Proof.
  refine {| holds := fun I s => issued I (ElectionAudit.token s);
            tells := fun I x => match x with ElectionAudit.TokenChanged t => issued I t | _ => True end |}; bearer ElectionAudit.page.
Defined.

#[export] Instance election_results_bearer candidate_results manifest_hash : Bearer (ElectionResults.page candidate_results manifest_hash).
Proof.
  refine {| holds := fun I s => issued I (ElectionResults.token s);
            tells := fun I x => match x with ElectionResults.TokenChanged t => issued I t | _ => True end |}; bearer ElectionResults.page.
Defined.

#[export] Instance polling_bearer undeclared : Bearer (Polling.page undeclared).
Proof.
  refine {| holds := fun I s => issued I (Polling.token s);
            tells := fun I x => match x with Polling.TokenChanged t => issued I t | _ => True end |}; bearer Polling.page.
Defined.

#[export] Instance simulation_bearer selected duration_ms : Bearer (SimulationPage.page selected duration_ms).
Proof.
  refine {| holds := fun I s => issued I (SimulationPage.token s);
            tells := fun I x => match x with SimulationPage.TokenChanged t => issued I t end |}; bearer SimulationPage.page.
Defined.

#[export] Instance launcher_bearer : Bearer EvmLauncher.launcher.
Proof.
  refine {| holds := fun I s => issued I (EvmLauncher.token s);
            tells := fun I x => match x with EvmLauncher.TokenChanged t => issued I t | _ => True end |}; bearer EvmLauncher.launcher.
Defined.

Lemma init_session_bearing I e d c s :
  issued I (EvmTerminal.token s) ->
  bearing I (fun s => issued I (EvmTerminal.token s)) (EvmTerminal.handleInitSession e d c s) (fun _ => True).
Proof.
  intros Hs. unfold EvmTerminal.handleInitSession. apply carries_try; [| bearing_auto].
  apply (carries_bind _ _ _ _ (issued I)); [| bearing_auto].
  destruct (truthy_opt _), c as [[u p]|]; bearing_auto. intros t Ht _. exact Ht.
Qed.

#[local] Hint Resolve init_session_bearing : bearing.
#[local] Hint Unfold EvmTerminal.init EvmTerminal.officer_election EvmTerminal.election_or_public
  EvmTerminal.with_candidates EvmTerminal.device_list : prog.

#[export] Instance terminal_bearer electionId deviceId : Bearer (EvmTerminal.terminal electionId deviceId).
Proof.
  refine {| holds := fun I s => issued I (EvmTerminal.token s);
            tells := fun I x => match x with EvmTerminal.TokenChanged t => issued I t | _ => True end |}; [| bearer EvmTerminal.terminal].
  unfold on_user, EvmTerminal.terminal, EvmTerminal.on_ui, EvmTerminal.handleInit, EvmTerminal.handleLoginSubmit.
  bearing_auto.
Defined.

#[export] Instance verifier_bearer : Bearer PublicVerify.verifier.
Proof.
  refine {| holds := fun I s => issued I (PublicVerify.token s);
            tells := fun I x => match x with PublicVerify.TokenChanged t => issued I t | _ => True end |}; bearer PublicVerify.verifier.
Defined.


(** ** The whole page *)

#[export] Instance console_bearer : Bearer Console.console.
Proof.
  refine {| holds := pair_holds AuthContext.session ElectionContext.provider;
            tells := fun I x => match x with
                                | Console.OnSession (AuthContext.Storage v _) => issued I v
                                | _ => True
                                end |}.
  - intros I u s Hs. by apply pair_bearer_user.
  - intros I x s Hs Hx. apply pair_bearer_env; [done | done |]. destruct Hs as [[Ht _] _].
    destruct x as [x| |]; cbn; [exact Hx | | done]. by destruct (bool_decide _).
Defined.

Abbreviation application := Console.application.

Section Application.
Context {S U X Y : Type} `{EqDecision U} (C : component S U X) `{!Bearer C}.
Context (layout : Console.state * S -> list (node (Console.ui + U))) (deliver : Y -> Console.state * S -> Console.env + X).

(** The page gets its token from the session: whatever is true of the session's token is
    true of what the page is told. *)
Definition told_by_session : Prop :=
  forall y s x, deliver y s = inr x -> forall I, issued I (AuthContext.token (fst (fst s))) -> tells C I x.

(** What an event of the surroundings brings into the storage: the token of another tab. *)
Definition stored_by_event (I : string -> Prop) (d : Console.env + X) : Prop :=
  match d with inl (Console.OnSession (AuthContext.Storage v _)) => issued I v | _ => True end.

Lemma application_bearer : told_by_session -> Bearer (application C layout deliver).
Proof.
  intros Htold. refine {| holds := pair_holds Console.console C; tells := fun I y => forall s, stored_by_event I (deliver y s) |}.
  - intros I u s Hs. by apply pair_bearer_user.
  - intros I y s Hs Hy. apply pair_bearer_env; [done | done |]. destruct Hs as [[[Ht _] _] _]. specialize (Hy s).
    destruct (deliver y s) as [x|x] eqn:E; [by destruct x as [[]| |] | by apply (Htold _ _ _ E)].
Defined.

(** C12 (safety): whatever happens on any page of the application, a request never carries a
    token other than the one that was stored when the application was opened, those that the
    backend answered to a login made since, and those another tab stored meanwhile: no page
    invents, mixes up or truncates one. *)
Theorem tokens_come_from_logins path stored a s es w r t :
  told_by_session ->
  (forall I, issued I stored -> holds C I s) ->
  run (application C layout deliver) (boot (Console.initial path stored a, s)) es = Some w ->
  In r (map snd (sent w)) -> req_token r = Some t -> truthy_str t = true ->
  stored = Some t
  \/ In t (grants login_tokens (application C layout deliver) (boot (Console.initial path stored a, s)) es)
  \/ exists y s' allowed, In (Env y) es /\ deliver y s' = inl (Console.OnSession (AuthContext.Storage (Some t) allowed)).
Proof.
  intros Htold Hs Hrun [[s' r'] [<- Hin]]%in_map_iff Hr Ht.
  set (I := fun t => stored = Some t
                     \/ In t (grants login_tokens (application C layout deliver) (boot (Console.initial path stored a, s)) es)
                     \/ exists y s' allowed, In (Env y) es
                          /\ deliver y s' = inl (Console.OnSession (AuthContext.Storage (Some t) allowed))).
  assert (issued I stored) as Hst by (destruct stored as [t0|]; [by left | done]).
  assert (carried login_tokens (owned I) I (pair_holds Console.console C I) w) as [_ _ Hw].
  { eapply (run_bears (application C layout deliver) (Bearer0 := application_bearer Htold)); [| | | exact Hrun].
    - split; [| by apply Hs]. unfold Console.initial, AuthContext.initial. by destruct (AuthContext.reads a).
    - apply Forall_forall. intros [|y| | |] Hy%list_elem_of_In; try done. intros s2. unfold stored_by_event.
      destruct (deliver y s2) as [[[| | |[t0|] al]| |]|] eqn:E; try done. intros _. right. right. by exists y, s2, al.
    - apply Forall_forall. intros t0 Ht0. right. left. by apply list_elem_of_In. }
  pose proof (Forall_In _ _ _ Hw Hin) as Ho. cbn in Ho, Hr. unfold owned in Ho. rewrite Hr in Ho. by apply Ho.
Qed.
End Application.

(** ** The registry of devices in the officers' layout *)

Section Layout.
Context {V : Type} `{EqDecision V}.

(** The bar with the selector, the side bar, and the page. *)
(*@ dashboard/app/(officer)/layout.tsx 8 19 OfficerLayout *)
Definition in_layout (path : string) (bar children : list (node V)) : list (node V) :=
  bar ++ map (relabel (fun u : Navigation.ui => match u with end) (fun _ => None)) (Navigation.Sidebar path)
  ++ children.

#[local] Instance links_eq_dec : EqDecision Navigation.ui. Proof. intros []. Defined.

Lemma in_layout_allows path bar children v :
  allows (in_layout path bar children) v = allows bar v || allows children v.
Proof.
  unfold in_layout. rewrite !allows_app, allows_relabel; [done | by intros [] | done].
Qed.
End Layout.

Abbreviation registry_state := (Console.state * Devices.state)%type.

(** The console's surroundings; the page mounts, and a commit of a render lets it see the
    token or the role of that render. *)
Inductive page_env := OnConsole (x : Console.env) | PageMounts | PageToken | PageRole.

(*@ dashboard/app/(officer)/devices/page.tsx 21 22 useAuth *)
Definition to_registry (x : page_env) (s : registry_state) : Console.env + Devices.env :=
  let context := Console.auth_value (fst (fst s)) in
  match x with
  | OnConsole x => inl x
  | PageMounts => inr Devices.Mount
  | PageToken => inr (Devices.TokenChanged (Console.auth_token context))
  | PageRole => inr (Devices.RoleChanged (Console.auth_role context))
  end.

Definition registry_layout (s : registry_state) : list (node (Console.ui + Devices.ui)) :=
  let bar := map (relabel inl (fun u => match u with inl u => Some u | inr _ => None end)) (Console.page (fst s)) in
  let path := AuthContext.pathname (fst (fst s)) in
  if String.eqb path "/devices"
  then in_layout path bar (map (relabel inr (fun u => match u with inr u => Some u | inl _ => None end)) (Devices.render (snd s)))
  else bar.

Definition registry_application : component registry_state (Console.ui + Devices.ui) page_env :=
  application Devices.registry registry_layout to_registry.

#[export] Existing Instance Devices.ui_eq_dec.

Lemma registry_told : told_by_session Devices.registry to_registry.
Proof. intros y s x E. by destruct y; simplify_eq/=. Qed.

(** On the page of the registry, the controls are the console's and the registry's. *)
Lemma registry_allows s u :
  AuthContext.pathname (fst (fst s)) = "/devices"%string ->
  allows (registry_layout s) u
  = match u with inl u => allows (Console.page (fst s)) u | inr u => allows (Devices.render (snd s)) u end.
Proof.
  intros Hp. unfold registry_layout. rewrite Hp. rewrite (proj2 (String.eqb_eq _ _) eq_refl), in_layout_allows.
  rewrite !allows_relabel; try done; try (by intros [|] ? [= ->]).
  destruct u; [by rewrite orb_false_r | done].
Qed.

(** An officer logs in, opens the registry and waits for its list. *)
Definition to_the_registry : list (event (Console.ui + Devices.ui) page_env) :=
  [Env (OnConsole (Console.OnSession AuthContext.Mount));
   User (inl (inl (AuthContext.DemoCreds "admin" "AdminSecurePassword123!"))); User (inl (inl AuthContext.Submit));
   Reply 0 (answers Console.reissuing); Reply 1 (answers Console.reissuing);
   Env (OnConsole (Console.OnSession (AuthContext.Navigate "/devices"))); Env PageMounts; Env PageToken].

Definition logged_out : registry_state := (Console.initial "/login" None AuthContext.working, Devices.initial None None).

Definition at_registry : world registry_state :=
  default (boot logged_out) (run registry_application (boot logged_out) to_the_registry).

Lemma tokens_come_from_logins_witness :
  In "new"%string (grants login_tokens registry_application (boot logged_out) to_the_registry).
Proof.
  destruct (tokens_come_from_logins Devices.registry registry_layout to_registry "/login" None AuthContext.working
              (Devices.initial None None) to_the_registry at_registry (getElections (Some "new"%string)) "new"%string)
    as [[=]|[H|(y & s' & al & Hin & Hy)]]; [exact registry_told | done | vm_compute; reflexivity | vm_compute; tauto | done | done | exact H |].
  exfalso. cbn in Hin. repeat destruct Hin as [Hin|Hin]; by simplify_eq.
Defined.

Lemma expiry_ends_session_witness :
  exists w', step registry_application at_registry
      (Reply 3 (fun q => Err (ApiError 401 "Session expired or unauthorized. Please log in again." VUndef)))
    = Some w' /\ AuthContext.token (fst (fst (st w'))) = None.
Proof.
  assert (exists q k, get_task 3 at_registry = Some (Waiting 3 q k)
            /\ Console.expired q (Err (ApiError 401 "Session expired or unauthorized. Please log in again." VUndef)) = true)
    as (q & k & Ht & Hx).
  { do 2 eexists. split; vm_compute; reflexivity. }
  destruct (Console.expiry_ends_session Devices.registry registry_layout to_registry "/login" None AuthContext.working None
              (Devices.initial None None) at_registry 3 3 q k
              (fun q => Err (ApiError 401 "Session expired or unauthorized. Please log in again." VUndef)))
    as (w' & H1 & H2 & _); [| vm_compute; reflexivity | exact Ht | exact Hx |].
  - apply reachable_default; [constructor | by repeat constructor].
  - exists w'. split; [exact H1 | exact H2].
Defined.
